(* ===== verification/_CoqProject ===== *)
-Q . S2P
Prelude.v
OMap.v
Portals.v
World.v
Logic.v
Engine.v
Config.v
Queue.v
Messages.v
Node.v
Counters.v
Entries.v
E2E.v
Atomics.v
Memory.v
NicActor.v
Initiator.v
Target.v
MainActor.v
Runtime.v
Bench.v
CUtil.v
CApi.v
Prototypes.v
UserApp.v
Redefine.v
Main.v
Client.v
Cluster.v
Registry.v
MainSpec.v
Strings.v
Peers.v
Sampling.v
FlowControl.v
Progress.v
Scenario.v
Testbed.v
TestLib.v
TestAtomics.v
TestEntries.v
TestTransfers.v
System.v
ClusterSpec.v
Suite.v
SuiteWitnesses.v
Matching.v
Waiting.v
Reliability.v
AtomicsSpec.v
Frames.v
Deliver.v
EndToEnd.v
Reports.v
Updates.v
Api.v
MpiTables.v
Mpi.v
MpiCalls.v
MpiSpec.v
MpiSetup.v
MpiRequests.v
MpiPairs.v
Shared.v
SharedSpec.v
SharedTables.v
Witnesses.v
DeliveryWitnesses.v
SharedWitnesses.v
StartWitnesses.v
MpiWitnesses.v
