(* ===== verification/Prelude.v ===== *)
(** * S4BXI: a verification development

    S4BXI simulates the BXI interconnect: user programs call the Portals 4 API, and simulated
    network cards carry their messages over SimGrid.  This library models the simulator's own
    logic ([src/src] and [src/include]) and proves what makes it correct.

    ** The program

    - The network.  A user process is a [BxiMainActor].  It owns a network interface ([BxiNI]) on
      a node ([BxiNode]), with Portals table entries ([BxiPT]) that hold matching entries
      ([BxiME]), and memory descriptors, event queues and counters ([BxiMD], [BxiEQ], [BxiCT]).
      A call such as PtlPut builds a request and its first message ([BxiRequest], [BxiMsg],
      counted references) and puts the message in the transmission queue ([BxiQueue]) of its
      network.  Each card has three kinds of actors: [BxiNicInitiator] takes messages from the
      queue, checks the credits of the flow control and transmits; [BxiNicTarget] receives,
      matches, moves the payload, issues events and answers; [BxiNicE2E] keeps every message
      until its timeout, and forgets it, retransmits it or gives up.
    - The processes.  [BxiEngine] reads the configuration from the environment and registers the
      nodes and the actors; [BxiUserAppActor] gives a process its rank and its private copies of
      libraries, and runs its program.  What a program calls finds its process: the C interface of
      Portals, benchmarked computation and sampled loops, redirected functions of the C library.
      [s4bxi_default_main] reads the platform and the deployment, which says what actors there are.
    - The tests.  [teshsuite/] has twelve programs, a client and a server each, with the outputs that
      they must give on deployments with real or simulated memory, with or without end-to-end actors.
    - MPI.  The middleware passes each MPI call of a program to SMPI or to the process's own copy of
      an MPI library over Portals (Bull), as the process asks at that time.  It translates the
      handles of predefined objects, keeps both objects behind the handle of a communicator or
      datatype that the program makes, and remembers which requests are SMPI's.
    - The memory.  [s4bxi_shared.cpp] folds large allocations on one file, so that many simulated
      processes fit in one.

    ** The model

    - The objects of each class live in a store of their own, from handles (the C++ pointers) to
      records with the source's fields ([World.v], [Runtime.v]); aliasing is by handle.  A dangling
      or null handle, an uninitialised field, a bad cast or an overflow of a signed integer is
      [Undefined]; [xbt_assert] and [ptl_panic] are [Abort]; C++ exceptions are [Exception].
      Operations are in a state and error monad (below).
    - Unsigned integers wrap at their width ([wrap]), [double] is the standard library's binary64
      ([spec_float]), memory is a map from addresses to bytes; [std::map] with integer keys is an
      ordered association list ([OMap.v]).
    - What is not in the repository is a parameter, a class whose operations record each call and
      give the state in which the caller resumes:
      [Env] ([World.v]) is SimGrid for the actors of the network, and [env_step] may change the
      world, since the other actors run meanwhile; the theorems say what they assume of it:
      nothing; [Rely], the others respect the invariant ([Logic.v]); [KeepsMemory], they leave the
      memory alone ([Deliver.v]); [Quiet], nobody else runs.
      [Runtime] ([Runtime.v]) is SimGrid, SMPI, the dynamic loader and the libc for the user
      processes, over the state [Sim] that holds the world, the registry of the engine and the
      samples.
      [OS] ([Shared.v]) is the kernel for the shared allocations.
      [Mpi] ([Mpi.v]) is the two MPI libraries, over the state [Middleware] that adds to [Sim] the
      structures of functions, the requests and the blocks of memory of the middleware.
      [Scenario.v], [SharedWitnesses.v], [StartWitnesses.v] and [MpiWitnesses.v] have an instance
      of each, [Testbed.v] those of a whole simulation: mailboxes that deliver in order and at once,
      the hosts and the deployments of the tests, a memory allocator.
    - Loops that other actors can prolong run on fuel, [env_fuel].  The theorems about them ask
      for more fuel than there are elements ([on_update_wakes], [resume_hands_over_in_order]), or
      hold of the calls that return.  Loops bounded by the data have enough fuel by construction:
      [unref] follows a chain of ever older messages ([unref_terminates]), [choose_pid] makes one
      turn more than there are PIDs in use ([choose_pid_spec]).
    - An endless actor loop is given by one turn of it ([initiator_turn], [target_turn],
      [e2e_turn]) and the first [n] turns; [System.v] closes turns and API calls under
      reachability.
    - A user program is an interaction tree over the calls that it makes ([Client.v]); it may loop
      for ever.  A simulation ([Cluster.v]) is a step relation on the processes, each with the rest of
      its program, and on the cards of the deployment: a step is one call or one turn, an actor that
      waits can go on when what it waits for is there, and the clock advances, to the first date that
      someone waits for, when nobody can run.  Communications take no time of their own, and what the
      other actors do inside a step is still [env_step] and [rt_others].  [run] schedules the steps;
      it has fuel (5000 steps are more than each test takes), and says when it was not enough.

    ** The files

    - [Prelude.v] integers, doubles, the monad, total correctness, record update.  [OMap.v]
      ordered maps.  [Logic.v] rules for the monad, [keeps R c w], the invariant [wf] and the
      preorder [evolves].
    - The network.  [Portals.v] constants and structures of [portals4.h].  [World.v] the classes of
      [s4ptl.hpp], [BxiNode.hpp], [BxiQueue.hpp], [BxiMainActor.hpp], [BxiNicE2E.hpp],
      [s4bxi_config.hpp], and primitive operations.  [Engine.v] [BxiEngine::log],
      [s4bxi_mailbox_pool.cpp], mailbox names of [BxiActor.cpp].  [Queue.v] [BxiQueue.cpp].
      [Messages.v] [BxiMsg.cpp], constructors of [BxiRequest.cpp].  [Node.v] [BxiNode.cpp].
      [Counters.v] [BxiCT.cpp], [BxiEQ.cpp], [BxiMD.cpp].  [Entries.v] [BxiME.cpp], [BxiPT.cpp],
      [BxiNI.cpp].  [E2E.v] [BxiNicE2E.cpp].  [Atomics.v] [capped_memcpy] and [apply_atomic_op] of
      [BxiNicTarget.cpp].  [NicActor.v] [BxiNicActor.cpp] and the events of [BxiRequest.cpp].
      [Initiator.v] [BxiNicInitiator.cpp].  [Target.v] [BxiNicTarget.cpp].  [MainActor.v] the
      Portals operations of [BxiMainActor.cpp].
    - The processes.  [Config.v] the configuration of [BxiEngine.cpp].  [Runtime.v] its registry,
      the constructors of the actors, [BxiActorExt.cpp].  [UserApp.v] the processes of
      [BxiUserAppActor.cpp], [Main.v] its start and end of a simulation.
      [Bench.v] [s4bxi_bench.cpp], [s4bxi_sample.cpp] and the macro S4BXI_SAMPLE_LOOP.  [CUtil.v]
      [s4bxi_c_util.cpp].  [CApi.v] [portals4.cpp].  [Prototypes.v] the
      prototypes of [portals4.h], of [portals4.cpp] and of the methods of [BxiMainActor.hpp], as tables.
      [Redefine.v] [s4bxi_redefine.cpp].
      [Strings.v] [ptl_str.cpp].
    - MPI.  [MpiTables.v] the uses of the macros of [s4bxi_mpi_middleware.cpp], the prototypes and
      redirections of [s4bxi_mpi_middleware.h], the fields of [s4bxi_mpi_ops.h] and the lists of
      predefined objects, as tables.  [Mpi.v] the state, the translation of handles
      ([BxiMpiComm.cpp], [BxiMpiDatatype.cpp]) and the set of requests.  [MpiCalls.v] the set-up, the
      macros that define functions, and the functions that are written out.
    - The memory.  [Shared.v] [s4bxi_shared.cpp].
    - The simulations.  [Client.v] what programs call, [Cluster.v] the processes and the cards
      together.  [TestLib.v], [TestAtomics.v], [TestEntries.v] and [TestTransfers.v] the programs of
      [teshsuite/], function by function; those on transfers have the numbers of runs and of messages
      and the size of the buffers as parameters.
    Every definition that models code is preceded by the file and the lines it translates.

    ** The theorems

    - [System.v], over every sequence of API calls and actor turns: credits, retry counts and
      managed offsets stay in their bounds; requests only go forward; a request is executed at
      most once whatever is retransmitted; its SEND event is issued at most once.  They rest on
      [Progress.v], where each operation respects [evolves].
    - [ClusterSpec.v], over every simulation: whatever the programs and the interleaving, the same
      invariant from the start on; what the scheduler reports is an execution, and a deadlock is a
      state where nobody can move.  [Suite.v]: the tests print what their [.tesh] files expect, and
      two executions whose behaviour is undefined.  [MainSpec.v]: the actors of a deployment file, the
      ranks of the processes.
    - [FlowControl.v]: [check_flowctrl] refines an abstract account of credits, and releasing an
      entry gives back what was taken.
    - [Matching.v]: matching bit by bit, the order of the lists, entries used once, unlinking,
      where an entry lets a request write, the status of a request.
    - [EndToEnd.v]: from the call of a put or a get to its execution by the card of the target,
      whatever happens in between: the entry that is found, the bytes that move, and that no other
      byte changes.  On [Deliver.v], what the card copies, and [Memory.v], what copies do to the memory.
      [Updates.v]: the same for an atomic operation and a fetch, with the element that they update.
      [Reports.v]: the events of a put, from its call on: what the owner of the entry and the
      initiator are told, field by field, and that nobody is told anything else.
    - [Waiting.v]: the waiters of a counter, the FIFO order of queues and of waiting messages.
    - [Reliability.v]: reference counts, the decision after a timeout, retransmissions.
    - [AtomicsSpec.v]: each operation on integers against its mathematical meaning, with when it
      overflows; the memory the loop touches.
    - [Api.v]: PIDs, logical addresses, mailbox names, PIO against DMA, atomic requests that
      cannot be answered.
    - [Config.v]: every field of the configuration is a value of its type whatever the
      environment, and an empty environment gives the documented defaults.
    - [Registry.v]: names of hosts are read back, one card per node, ranks of a host without gap,
      names of private libraries distinct.  [Sampling.v]: a sampled loop ends, after as many runs
      of its body as asked.  [Strings.v]: distinct constants have distinct names.  [Peers.v]: the
      list of the local peers stays inside its buffer.
    - [SharedSpec.v] and [SharedTables.v]: which pages of an allocation are folded and that the
      others are private, the merge of private blocks against the union of sets, what the search
      of an address finds, the references to a source location, shared calls executed once.
    - [MpiSpec.v]: a predefined datatype is passed as the handle of the implementation in use, a
      generated function passes all its parameters in order to the function of the same name, the
      tables of the header, of the structure and of the source agree.  [MpiSetup.v]: a process is
      set up with all the functions of its library or stopped.  [MpiRequests.v]: over every history
      of a process that switches between the implementations, a pending request goes to the one
      that made it; two cases outside those histories where it does not.  [MpiPairs.v]: a
      communicator made by MPI_Comm_split stands for one communicator of each implementation.
    - [Prototypes.v]: the three interfaces of Portals declare the same functions with the same types.
    - [Scenario.v], [Witnesses.v], [DeliveryWitnesses.v], [SharedWitnesses.v], [StartWitnesses.v],
      [SuiteWitnesses.v] and [MpiWitnesses.v]: a put from one node to another run to its
      end, and each theorem with hypotheses applied to a concrete input.
    Some theorems state behaviour the code does not mean to have: [abandon_leaks],
    [copy_forgets_status], [retransmission_bypasses_queue], [duplicate_ack_aborts],
    [increment_past_test_not_woken], [unmanaged_overrun], [atomic_touches_first_element],
    [swap_request_undefined], [unmatched_atomic_unanswered], [persistent_request_misrouted],
    [stale_request_misrouted], [swap_test_undefined], [early_close_undefined], and the
    examples of [SharedWitnesses.v], [StartWitnesses.v] and [MpiWitnesses.v].

    ** Not modelled

    SimGrid, pugixml, the dynamic loader and the operating system, which are parameters; the timing of
    communications; the macros of [s4bxi_mpi_middleware.h] that rename the sampling macros of SMPI.
    The tests on transfers are run on 3 runs of 2 messages: their real sizes (11 runs of 100 or 1000
    messages of up to 4 MB) are out of reach of evaluation.  The asynchronous
    logger of a PCI transfer is the SimGrid call [SpawnPciLogger].  The payload bits of a NaN are not
    kept by arithmetic. *)
From stdpp Require Export prelude gmap strings list fin_maps pretty.
From Stdlib Require Export ZArith Lia.
From Stdlib Require Import SpecFloat.

#[global] Open Scope Z_scope.

(** ** Machine integers *)

(** [wrap w z] is the value of [z] stored in an unsigned [w]-bit integer. *)
Definition wrap (w z : Z) : Z := z mod 2 ^ w.

(** [swrap w z] is the value of [z] stored in a two's complement [w]-bit integer. *)
Definition swrap (w z : Z) : Z :=
  let u := wrap w z in if decide (u < 2 ^ (w - 1)) then u else u - 2 ^ w.

Abbreviation u64 := (wrap 64).
Abbreviation u32 := (wrap 32).
Definition add64 (a b : Z) : Z := u64 (a + b).
Definition sub64 (a b : Z) : Z := u64 (a - b).

Lemma wrap_range w z : 0 <= w -> 0 <= wrap w z < 2 ^ w.
Proof. intros Hw. apply Z.mod_pos_bound. lia. Qed.

Lemma wrap_small w z : 0 <= z < 2 ^ w -> wrap w z = z.
Proof. apply Z.mod_small. Qed.

Lemma wrap_wrap w z : 0 <= w -> wrap w (wrap w z) = wrap w z.
Proof. intros Hw. apply wrap_small, wrap_range, Hw. Qed.

Lemma swrap_range w z : 0 < w -> - 2 ^ (w - 1) <= swrap w z < 2 ^ (w - 1).
Proof.
  intros Hw. unfold swrap. pose proof (wrap_range w z ltac:(lia)) as Hr.
  assert (2 ^ w = 2 * 2 ^ (w - 1)) as Hp.
  { rewrite <- Z.pow_succ_r by lia. f_equal. lia. }
  case_decide; lia.
Qed.

(** ** IEEE binary64, as the source's [double] *)

Abbreviation double := spec_float.
Definition prec64 : Z := 53.
Definition emax64 : Z := 1024.
Definition dadd (a b : double) : double := SFadd prec64 emax64 a b.
Definition dsub (a b : double) : double := SFsub prec64 emax64 a b.
Definition dmul (a b : double) : double := SFmul prec64 emax64 a b.
Definition ddiv (a b : double) : double := SFdiv prec64 emax64 a b.
Definition dlt (a b : double) : bool := SFltb a b.
Definition deq (a b : double) : bool := SFeqb a b.

(** The conversion of an integer to [double] (round to nearest even). *)
Definition double_of_Z (z : Z) : double := binary_normalize prec64 emax64 z 0 false.

(** ** State and failure *)

(** How a call can end without returning: [ptl_panic] or a failed [xbt_assert]
    abort the process, an uncaught C++ exception terminates it, undefined
    behaviour has no meaning, and a bounded recursion of the model can run out
    of fuel. *)
Inductive failure :=
| Abort (why : string)
| Exception (what : string)
| Undefined (why : string)
| OutOfFuel.

#[export] Instance failure_eq_dec : EqDecision failure.
Proof. solve_decision. Defined.

Inductive Res (S A : Type) :=
| Ok (a : A) (s : S)
| Fail (e : failure).
Arguments Ok {S A} a s.
Arguments Fail {S A} e.

Definition M (S A : Type) : Type := S -> Res S A.

#[export] Instance M_ret {S} : MRet (M S) := fun _ a s => Ok a s.
#[export] Instance M_bind {S} : MBind (M S) := fun _ _ f c s =>
  match c s with Ok a s' => f a s' | Fail e => Fail e end.

Section Monad.
Context {S : Type}.

Definition fail {A} (e : failure) : M S A := fun _ => Fail e.
Definition gets {A} (f : S -> A) : M S A := fun s => Ok (f s) s.
Definition modify (f : S -> S) : M S unit := fun s => Ok tt (f s).
Definition when (b : bool) (c : M S unit) : M S unit := if b then c else mret tt.
Definition assert (b : bool) (e : failure) : M S unit := if b then mret tt else fail e.
Definition of_option {A} (o : option A) (e : failure) : M S A :=
  match o with Some a => mret a | None => fail e end.

(** A range-based [for] over a list that the body does not change. *)
Fixpoint for_each {A} (l : list A) (body : A -> M S unit) : M S unit :=
  match l with [] => mret tt | a :: l' => _ ← body a; for_each l' body end.
End Monad.

(** ** Calls that return *)

Lemma bind_Ok {S A B} (c : M S A) (f : A -> M S B) s b s2 :
  (a ← c; f a) s = Ok b s2 <-> exists a s1, c s = Ok a s1 /\ f a s1 = Ok b s2.
Proof.
  cbv [mbind M_bind]. destruct (c s) as [a s1|e] eqn:Hc; split.
  - by eauto.
  - by intros (a' & s' & [= <- <-] & ?).
  - done.
  - by intros (? & ? & ? & _).
Qed.

Lemma bind_run {S A B} (c : M S A) (f : A -> M S B) s a s1 :
  c s = Ok a s1 -> (a ← c; f a) s = f a s1.
Proof. cbv [mbind M_bind]. by intros ->. Qed.

Lemma assert_Ok {S} (b : bool) e (s : S) u s' : assert b e s = Ok u s' <-> b = true /\ s' = s.
Proof.
  destruct b, u; split; cbv; [by intros [= ->]|by intros [_ ->]|done|by intros [? _]].
Qed.

Lemma of_option_Ok {S A} (o : option A) e (s : S) a s' :
  of_option o e s = Ok a s' <-> o = Some a /\ s' = s.
Proof. destruct o; split; cbv; [by intros [= -> ->]|by intros [[= ->] ->]|done|by intros [? _]]. Qed.

Lemma gets_Ok {S A} (f : S -> A) (s : S) a s' : gets f s = Ok a s' <-> a = f s /\ s' = s.
Proof. split; cbv; [by intros [= <- <-]|by intros [-> ->]]. Qed.

Lemma modify_Ok {S} (f : S -> S) (s : S) u s' : modify f s = Ok u s' <-> s' = f s.
Proof. destruct u. split; cbv; [by intros [= <-]|by intros ->]. Qed.

Lemma mret_Ok {S A} (a b : A) (s s' : S) : (mret a : M S A) s = Ok b s' <-> b = a /\ s' = s.
Proof. split; cbv; [by intros [= <- <-]|by intros [-> ->]]. Qed.

(** Takes apart a hypothesis that a sequence of calls returned. *)
Ltac inv_run :=
  repeat match goal with
  | H : mbind _ _ _ = Ok _ _ |- _ =>
      let a := fresh "a" in let s := fresh "s" in let H1 := fresh "Hr" in
      apply bind_Ok in H as (a & s & H1 & H)
  | H : assert _ _ _ = Ok _ _ |- _ => apply assert_Ok in H as [H ->]
  | H : of_option _ _ _ = Ok _ _ |- _ => apply of_option_Ok in H as [H ->]
  | H : gets _ _ = Ok _ _ |- _ => apply gets_Ok in H as [-> ->]
  | H : modify _ _ = Ok _ _ |- _ => apply modify_Ok in H as ->
  | H : mret _ _ = Ok _ _ |- _ => apply mret_Ok in H as [-> ->]
  | H : fail _ _ = Ok _ _ |- _ => discriminate H
  end.

(** ** Total correctness

    [runs c P Q]: from a state in [P], [c] returns, and its result and final state are in [Q]. *)
Definition runs {S A} (c : M S A) (P : S -> Prop) (Q : A -> S -> Prop) : Prop :=
  forall s, P s -> exists a s', c s = Ok a s' /\ Q a s'.

Section Runs.
Context {S : Type}.
Implicit Types (P : S -> Prop).

Lemma runs_bind {A B} (c : M S A) (f : A -> M S B) P Q R :
  runs c P Q -> (forall a, runs (f a) (Q a) R) -> runs (a ← c; f a) P R.
Proof.
  intros Hc Hf s (a & s1 & H1 & HQ)%Hc. destruct (Hf a s1 HQ) as (b & s2 & H2 & HR).
  exists b, s2. split; [|done]. apply bind_Ok. eauto.
Qed.

Lemma runs_ret {A} (a : A) P : runs (mret a : M S A) P (fun b s => b = a /\ P s).
Proof. intros s Hs. by exists a, s. Qed.

Lemma runs_gets {A} (f : S -> A) P : runs (gets f) P (fun a s => a = f s /\ P s).
Proof. intros s Hs. by exists (f s), s. Qed.

Lemma runs_conseq {A} (c : M S A) P P' Q Q' :
  runs c P' Q' -> (forall s, P s -> P' s) -> (forall a s, Q' a s -> Q a s) -> runs c P Q.
Proof. intros Hc HP HQ s (a & s' & ? & ?)%HP%Hc. eauto. Qed.

Lemma runs_when (b : bool) c P Q :
  (b = true -> runs c P (fun _ => Q)) -> (b = false -> forall s, P s -> Q s) ->
  runs (when b c) P (fun _ => Q).
Proof. destruct b; simpl; intros Ht Hf; [auto|]. intros s Hs. exists tt, s. auto. Qed.

Lemma runs_if {A} (b : bool) (c d : M S A) P Q :
  (b = true -> runs c P Q) -> (b = false -> runs d P Q) -> runs (if b then c else d) P Q.
Proof. destruct b; auto. Qed.

(** A property of the state that the precondition gives. *)
Lemma runs_pure {A} (c : M S A) P Q (X : Prop) :
  (forall s, P s -> X) -> (X -> runs c P Q) -> runs c P Q.
Proof. intros HX Hc s Hs. by apply Hc; [eapply HX|]. Qed.
End Runs.

(** ** Functional record update

    A record type declares how it is rebuilt from its projections ([Rebuild]);
    [r <| field := v |>] is then the record with one field replaced. *)
Class Rebuild (R : Type) := rebuild : R -> R.

Class Field {R T} (proj : R -> T) := over : (T -> T) -> R -> R.
Arguments over {R T} proj {_} f r.

Ltac solve_field proj :=
  let R := lazymatch type of proj with ?R -> _ => R end in
  let inst := constr:(_ : Rebuild R) in
  let h := head_of_inst inst in
  exact (fun field_map the_record =>
    ltac:(let body := eval cbv beta delta [rebuild h] in (@rebuild R inst the_record) in
          lazymatch eval pattern (proj the_record) in body with
          | ?g _ => let t := eval cbv beta in (g (field_map (proj the_record))) in exact t
          end))
with head_of_inst i := lazymatch i with ?f _ => head_of_inst f | ?f => f end.

#[export] Hint Extern 1 (Field ?p) => solve_field p : typeclass_instances.

Declare Scope record_scope.
Delimit Scope record_scope with rec.
#[global] Open Scope record_scope.
#[warnings="-postfix-notation-not-level-1"]
Notation "r <| p := v |>" := (over p (fun _ => v) r)
  (at level 12, left associativity, p at level 9) : record_scope.
#[warnings="-postfix-notation-not-level-1"]
Notation "r <| p ::= f |>" := (over p f r)
  (at level 12, left associativity, p at level 9) : record_scope.

(** ** Interleavings *)

(** [l'] holds the elements of [l] in their order, among others that satisfy [P]. *)
Inductive mixed {A} (P : A -> Prop) : list A -> list A -> Prop :=
| mixed_nil : mixed P [] []
| mixed_own x l l' : mixed P l l' -> mixed P (x :: l) (x :: l')
| mixed_other x l l' : P x -> mixed P l l' -> mixed P l (x :: l').

Section Mixed.
Context {A : Type} (P : A -> Prop).
Implicit Types l own : list A.

Lemma mixed_refl l : mixed P l l.
Proof. induction l; by constructor. Qed.

Lemma mixed_app own1 own2 l1 l2 :
  mixed P own1 l1 -> mixed P own2 l2 -> mixed P (own1 ++ own2) (l1 ++ l2).
Proof. induction 1; intros; cbn; [done|constructor; auto..]. Qed.

Lemma mixed_others_l l own l' : (forall x, P x) -> mixed P own l' -> mixed P own (l ++ l').
Proof. intros HP H. induction l; cbn; [done|by constructor]. Qed.

Lemma mixed_none l : mixed P [] l -> Forall P l.
Proof. remember [] as own. induction 1; by auto. Qed.

(** Others that have nothing to tell leave exactly the own elements; elements that the others
    cannot tell are exactly the own ones. *)
Lemma mixed_exact own l : (forall x, ~ P x) -> mixed P own l -> l = own.
Proof. intros HP. induction 1; [done|by f_equal|]. by destruct (HP x). Qed.

Lemma mixed_filter `{!forall x, Decision (P x)} own l :
  Forall (fun x => ~ P x) own -> mixed P own l -> filter (fun x => ~ P x) l = own.
Proof.
  intros Ho. induction 1 as [|x l l' _ IH|x l l' Hx _ IH]; [done| |].
  - apply Forall_cons in Ho as [? ?]. rewrite filter_cons_True by done. by rewrite IH.
  - rewrite filter_cons_False by tauto. auto.
Qed.

Lemma mixed_weaken (P' : A -> Prop) own l :
  (forall x, P x -> P' x) -> mixed P own l -> mixed P' own l.
Proof. intros HP. induction 1; constructor; auto. Qed.
End Mixed.
