(* ===== verification/OMap.v ===== *)
(** [std::map] with integer keys, as an association list in the order of the keys: what iterates
    over the map sees that order, and [lower_bound] needs it. *)
From S2P Require Import Prelude.
From Stdlib Require Import Sorting.Sorted.

(** [m[k] = v] *)
Fixpoint omap_put {V} (k : Z) (v : V) (m : list (Z * V)) : list (Z * V) :=
  match m with
  | [] => [(k, v)]
  | (k', v') :: m' =>
      if k <? k' then (k, v) :: m
      else if k' <? k then (k', v') :: omap_put k v m' else (k, v) :: m'
  end.

Fixpoint omap_find {V} (k : Z) (m : list (Z * V)) : option V :=
  match m with
  | [] => None
  | (k', v') :: m' => if k' =? k then Some v' else omap_find k m'
  end.

Fixpoint omap_erase {V} (k : Z) (m : list (Z * V)) : list (Z * V) :=
  match m with
  | [] => []
  | (k', v') :: m' => if k' =? k then m' else (k', v') :: omap_erase k m'
  end.

(** [lower_bound(k)]: the entry before it, if any, and the entry itself. *)
Fixpoint omap_lower_bound {V} (k : Z) (before : option (Z * V)) (m : list (Z * V)) :
    option (Z * V) * option (Z * V) :=
  match m with
  | [] => (before, None)
  | (k', v') :: m' =>
      if k' <? k then omap_lower_bound k (Some (k', v')) m' else (before, Some (k', v'))
  end.

(** [emplace(k, v)]: an entry that exists is kept. *)
Definition omap_emplace {V} (k : Z) (v : V) (m : list (Z * V)) : list (Z * V) :=
  match omap_find k m with Some _ => m | None => omap_put k v m end.

(** ** Lemmas *)

Lemma omap_find_put {V} k (v : V) m k' :
  StronglySorted Z.lt m.*1 ->
  omap_find k' (omap_put k v m) = if decide (k = k') then Some v else omap_find k' m.
Proof.
  induction m as [|[k1 v1] m IH]; intros Hm; simpl.
  - destruct (Z.eqb_spec k k'); by case_decide.
  - apply StronglySorted_inv in Hm as [Hm Hk1]. simpl in Hk1.
    destruct (Z.ltb_spec k k1); [|destruct (Z.ltb_spec k1 k)]; simpl.
    + destruct (Z.eqb_spec k k'); by case_decide.
    + rewrite IH by done. destruct (Z.eqb_spec k1 k'); case_decide; (done || lia).
    + destruct (Z.eqb_spec k k'), (Z.eqb_spec k1 k'); case_decide; (done || lia).
Qed.

Lemma omap_put_keys {V} k (v : V) m x : x ∈ (omap_put k v m).*1 <-> x = k \/ x ∈ m.*1.
Proof.
  induction m as [|[k1 v1] m IH]; simpl.
  - rewrite list_elem_of_singleton. split; [by left|intros [?|?%not_elem_of_nil]; done].
  - destruct (Z.ltb_spec k k1); [|destruct (Z.ltb_spec k1 k)]; simpl; rewrite !elem_of_cons.
    + tauto.
    + rewrite IH. tauto.
    + assert (k = k1) as -> by lia. tauto.
Qed.

Lemma omap_put_sorted {V} k (v : V) m :
  StronglySorted Z.lt m.*1 -> StronglySorted Z.lt (omap_put k v m).*1.
Proof.
  induction m as [|[k1 v1] m IH]; intros Hm; simpl; [by repeat constructor|].
  pose proof Hm as [Hm' Hk1]%StronglySorted_inv. simpl in *.
  destruct (Z.ltb_spec k k1); [|destruct (Z.ltb_spec k1 k)]; simpl.
  - constructor; [done|]. constructor; [done|]. eapply Forall_impl; [done|]. simpl. lia.
  - constructor; [auto|]. rewrite Forall_forall in *.
    intros y [->|Hy]%omap_put_keys; [done|auto].
  - assert (k = k1) as -> by lia. by constructor.
Qed.

Lemma omap_erase_sorted {V} k (m : list (Z * V)) :
  StronglySorted Z.lt m.*1 -> StronglySorted Z.lt (omap_erase k m).*1.
Proof.
  assert (forall m : list (Z * V), (omap_erase k m).*1 ⊆ m.*1) as Hsub.
  { intros m'. induction m' as [|[k1 v1] m' IH]; simpl; [done|].
    destruct (k1 =? k); simpl; [by apply list_subseteq_cons|by apply list_subseteq_skip]. }
  induction m as [|[k1 v1] m IH]; intros Hm; simpl; [done|].
  pose proof Hm as [Hm' Hk1]%StronglySorted_inv. simpl in *.
  destruct (Z.eqb_spec k1 k); [done|]. constructor; [auto|].
  rewrite Forall_forall in *. intros y Hy. apply Hk1. by apply Hsub.
Qed.

(** The parts of the map before and from a key. *)
Lemma lower_bound_split {V} k (m : list (Z * V)) d :
  exists m1 m2, m = m1 ++ m2 /\ (forall e, e ∈ m1 -> e.1 < k) /\
    (match m2 with [] => True | e :: _ => k <= e.1 end) /\
    omap_lower_bound k d m = (match last m1 with Some e => Some e | None => d end, head m2).
Proof.
  revert d. induction m as [|[b x] m IH]; intros d; simpl.
  { exists [], []. split_and!; try done. by intros ? ?%not_elem_of_nil. }
  destruct (Z.ltb_spec b k).
  - destruct (IH (Some (b, x))) as (m1 & m2 & -> & H1 & H2 & ->).
    exists ((b, x) :: m1), m2. split_and!; [done| |done|].
    + intros e [->|?]%elem_of_cons; auto.
    + destruct m1 as [|e m1]; [done|].
      change (last ((b, x) :: e :: m1)) with (last (e :: m1)).
      destruct (last (e :: m1)) eqn:E; [done|]. by apply last_None in E.
  - exists [], ((b, x) :: m). split_and!; try done. by intros ? ?%not_elem_of_nil.
Qed.
