(* ===== verification/Portals.v ===== *)
(** The vocabulary of the simulator: the constants and structures of the
    Portals 4 API ([include/portals4.h]) and the classes of
    [include/s4bxi/s4ptl.hpp], as data.  Nothing here has behaviour. *)
From S2P Require Import Prelude.

(** Handles are [void*] that point to simulator objects; [NULL] is 0.
    User memory addresses ([ptl_addr_t]) are plain integers. *)
Abbreviation handle := N (only parsing).
Definition NULL : handle := 0%N.

(** @src/include/portals4.h:49-55 API version, first interface *)
Definition PTL_MAJOR_VERSION : Z := 4.
Definition PTL_MINOR_VERSION : Z := 0.
Definition PTL_IFACE_DEFAULT : Z := 0.

(** @src/include/portals4.h:60-60 PTL_SIZE_MAX *)
Definition PTL_SIZE_MAX : Z := 2 ^ 48 - 1.

(** @src/include/portals4.h:65-65 PTL_PID_MAX *)
Definition PTL_PID_MAX : Z := 2 ^ 12 - 1.

(** @src/include/portals4.h:70-70 PTL_TIME_FOREVER *)
Definition PTL_TIME_FOREVER : Z := -1.

(** @src/include/portals4.h:75-77 special handles *)
Definition PTL_CT_NONE : handle := NULL.
Definition PTL_EQ_NONE : handle := NULL.

(** @src/include/portals4.h:82-85 options for PtlNIInit *)
Definition PTL_NI_PHYSICAL : Z := 1.
Definition PTL_NI_MATCHING : Z := 2.
Definition PTL_NI_LOGICAL : Z := 4.
Definition PTL_NI_NO_MATCHING : Z := 8.

(** @src/include/portals4.h:90-91 extensions of the options for PtlNIInit *)
Definition PTL_NI_PRIVATE : Z := 0.
Definition PTL_NI_SHARED : Z := 4.

(** @src/include/portals4.h:96-100 features *)
Definition PTL_TARGET_BIND_INACCESSIBLE : Z := 1.
Definition PTL_TOTAL_DATA_ORDERING : Z := 2.
Definition PTL_COHERENT_ATOMICS : Z := 4.
Definition PTL_UNRELIABLE : Z := 8.

(** @src/include/portals4.h:105-109 ptl_sr_index *)
Inductive ptl_sr_index :=
| PTL_SR_DROP_COUNT
| PTL_SR_PERMISSION_VIOLATIONS
| PTL_SR_OPERATION_VIOLATIONS.

(** [PTL_PT_ANY] is an [int], [PTL_UID_ANY] an [unsigned] stored in an [int]. *)
(** @src/include/portals4.h:114-118 special identifiers *)
Definition PTL_PT_ANY : Z := -1.
Definition PTL_UID_ANY : Z := 0xffffffff.
Definition PTL_NID_ANY : Z := 0.
Definition PTL_RANK_ANY : Z := 0x7fffff.

(** @src/include/portals4.h:115-115 PTL_PID_ANY *)
Definition PTL_PID_ANY : Z := 0.

(** @src/include/portals4.h:123-125 PT options *)
Definition PTL_PT_ONLY_USE_ONCE : Z := 1.
Definition PTL_PT_ONLY_TRUNCATE : Z := 2.
Definition PTL_PT_FLOWCTRL : Z := 4.

(** @src/include/portals4.h:130-147 ptl_event_kind *)
Inductive ptl_event_kind :=
| PTL_EVENT_GET
| PTL_EVENT_GET_OVERFLOW
| PTL_EVENT_PUT
| PTL_EVENT_PUT_OVERFLOW
| PTL_EVENT_ATOMIC
| PTL_EVENT_ATOMIC_OVERFLOW
| PTL_EVENT_FETCH_ATOMIC
| PTL_EVENT_FETCH_ATOMIC_OVERFLOW
| PTL_EVENT_REPLY
| PTL_EVENT_SEND
| PTL_EVENT_ACK
| PTL_EVENT_PT_DISABLED
| PTL_EVENT_AUTO_UNLINK
| PTL_EVENT_AUTO_FREE
| PTL_EVENT_SEARCH
| PTL_EVENT_LINK.

(** @src/include/portals4.h:152-155 ACK request modes *)
Definition PTL_NO_ACK_REQ : Z := 0.
Definition PTL_CT_ACK_REQ : Z := 1.
Definition PTL_OC_ACK_REQ : Z := 2.
Definition PTL_ACK_REQ : Z := 3.

(** @src/include/portals4.h:160-171 NI fail types *)
Definition PTL_NI_OK : Z := 0.
Definition PTL_NI_PERM_VIOLATION : Z := 1.
Definition PTL_NI_SEGV : Z := 2.
Definition PTL_NI_PT_DISABLED : Z := 3.
Definition PTL_NI_DROPPED : Z := 4.
Definition PTL_NI_UNDELIVERABLE : Z := 5.
Definition PTL_FAIL : Z := 6.
Definition PTL_ARG_INVALID : Z := 7.
Definition PTL_IN_USE : Z := 8.
Definition PTL_NI_NO_MATCH : Z := 9.
Definition PTL_NI_TARGET_INVALID : Z := 10.
Definition PTL_NI_OP_VIOLATION : Z := 11.

(** @src/include/portals4.h:178-192 error codes *)
Definition PTL_OK : Z := PTL_NI_OK.
Definition PTL_CT_NONE_REACHED : Z := 32.
Definition PTL_EQ_DROPPED : Z := 33.
Definition PTL_EQ_EMPTY : Z := 34.
Definition PTL_IGNORED : Z := 36.
Definition PTL_INTERRUPTED : Z := 37.
Definition PTL_LIST_TOO_LONG : Z := 38.
Definition PTL_NO_INIT : Z := 39.
Definition PTL_NO_SPACE : Z := 40.
Definition PTL_PID_IN_USE : Z := 41.
Definition PTL_PT_FULL : Z := 42.
Definition PTL_PT_EQ_NEEDED : Z := 43.
Definition PTL_PT_IN_USE : Z := 44.
Definition PTL_SIZE_INVALID : Z := 45.
Definition PTL_TRY_AGAIN : Z := 46.

(** @src/include/portals4.h:197-197 PTL_IOVEC *)
Definition PTL_IOVEC : Z := 0x80.

(** @src/include/portals4.h:202-219 ME options *)
Definition PTL_ME_EVENT_COMM_DISABLE : Z := 0x1.
Definition PTL_ME_EVENT_SUCCESS_DISABLE : Z := 0x2.
Definition PTL_ME_EVENT_OVER_DISABLE : Z := 0x4.
Definition PTL_ME_EVENT_LINK_DISABLE : Z := 0x8.
Definition PTL_ME_EVENT_CT_BYTES : Z := 0x10.
Definition PTL_ME_EVENT_CT_OVERFLOW : Z := 0x20.
Definition PTL_ME_EVENT_CT_COMM : Z := 0x40.
Definition PTL_ME_OP_PUT : Z := 0x100.
Definition PTL_ME_OP_GET : Z := 0x200.
Definition PTL_ME_USE_ONCE : Z := 0x400.
Definition PTL_ME_ACK_DISABLE : Z := 0x800.
Definition PTL_ME_MAY_ALIGN : Z := 0x1000.
Definition PTL_ME_EVENT_UNLINK_DISABLE : Z := 0x2000.
Definition PTL_ME_MANAGE_LOCAL : Z := 0x4000.
Definition PTL_ME_NO_TRUNCATE : Z := 0x8000.
Definition PTL_ME_UNEXPECTED_HDR_DISABLE : Z := 0x10000.
Definition PTL_ME_EVENT_FLOWCTRL_DISABLE : Z := 0x20000.
Definition PTL_ME_IS_ACCESSIBLE : Z := 0x40000.

(** @src/include/portals4.h:224-238 LE options *)
Definition PTL_LE_OP_PUT : Z := PTL_ME_OP_PUT.
Definition PTL_LE_OP_GET : Z := PTL_ME_OP_GET.
Definition PTL_LE_USE_ONCE : Z := PTL_ME_USE_ONCE.
Definition PTL_LE_ACK_DISABLE : Z := PTL_ME_ACK_DISABLE.
Definition PTL_LE_UNEXPECTED_HDR_DISABLE : Z := PTL_ME_UNEXPECTED_HDR_DISABLE.
Definition PTL_LE_IS_ACCESSIBLE : Z := PTL_ME_IS_ACCESSIBLE.
Definition PTL_LE_EVENT_COMM_DISABLE : Z := PTL_ME_EVENT_COMM_DISABLE.
Definition PTL_LE_EVENT_FLOWCTRL_DISABLE : Z := PTL_ME_EVENT_FLOWCTRL_DISABLE.
Definition PTL_LE_EVENT_SUCCESS_DISABLE : Z := PTL_ME_EVENT_SUCCESS_DISABLE.
Definition PTL_LE_EVENT_OVER_DISABLE : Z := PTL_ME_EVENT_OVER_DISABLE.
Definition PTL_LE_EVENT_UNLINK_DISABLE : Z := PTL_ME_EVENT_UNLINK_DISABLE.
Definition PTL_LE_EVENT_LINK_DISABLE : Z := PTL_ME_EVENT_LINK_DISABLE.
Definition PTL_LE_EVENT_CT_COMM : Z := PTL_ME_EVENT_CT_COMM.
Definition PTL_LE_EVENT_CT_OVERFLOW : Z := PTL_ME_EVENT_CT_OVERFLOW.
Definition PTL_LE_EVENT_CT_BYTES : Z := PTL_ME_EVENT_CT_BYTES.

(** @src/include/portals4.h:243-250 MD options *)
Definition PTL_MD_EVENT_SEND_DISABLE : Z := 0x40.
Definition PTL_MD_EVENT_SUCCESS_DISABLE : Z := 0x1.
Definition PTL_MD_EVENT_CT_SEND : Z := 0x2.
Definition PTL_MD_EVENT_CT_REPLY : Z := 0x4.
Definition PTL_MD_EVENT_CT_ACK : Z := 0x8.
Definition PTL_MD_EVENT_CT_BYTES : Z := 0x10.
Definition PTL_MD_UNORDERED : Z := 0x20.
Definition PTL_MD_VOLATILE : Z := 0x100.

(** @src/include/portals4.h:255-256 operations of PtlMESearch and PtlLESearch *)
Definition PTL_SEARCH_ONLY : Z := 0.
Definition PTL_SEARCH_DELETE : Z := 1.

(** @src/include/portals4.h:261-262 list types *)
Definition PTL_PRIORITY_LIST : Z := 0.
Definition PTL_OVERFLOW_LIST : Z := 1.

(** @src/include/portals4.h:267-286 ptl_op *)
Inductive ptl_op :=
| PTL_MIN | PTL_MAX | PTL_SUM | PTL_PROD
| PTL_LOR | PTL_LAND | PTL_LXOR
| PTL_BOR | PTL_BAND | PTL_BXOR
| PTL_SWAP | PTL_CSWAP_GT | PTL_CSWAP_LT | PTL_CSWAP_GE | PTL_CSWAP_LE
| PTL_CSWAP | PTL_CSWAP_NE | PTL_MSWAP.

(** @src/include/portals4.h:291-306 ptl_datatype *)
Inductive ptl_datatype :=
| PTL_INT8_T | PTL_UINT8_T | PTL_INT16_T | PTL_UINT16_T
| PTL_INT32_T | PTL_UINT32_T | PTL_INT64_T | PTL_UINT64_T
| PTL_FLOAT | PTL_FLOAT_COMPLEX | PTL_DOUBLE | PTL_DOUBLE_COMPLEX
| PTL_LONG_DOUBLE | PTL_LONG_DOUBLE_COMPLEX.

#[export] Instance ptl_event_kind_eq_dec : EqDecision ptl_event_kind.
Proof. solve_decision. Defined.
#[export] Instance ptl_op_eq_dec : EqDecision ptl_op.
Proof. solve_decision. Defined.
#[export] Instance ptl_datatype_eq_dec : EqDecision ptl_datatype.
Proof. solve_decision. Defined.

(** ** Structures of the API *)

(** @src/include/portals4.h:311-312 activate hook event types *)
Definition PTL_ACTIVATE_ATTACH : Z := 0.
Definition PTL_ACTIVATE_DETACH : Z := 1.

(** @src/include/portals4.h:362-379 ptl_ni_limits *)
Record ptl_ni_limits := mk_limits {
  max_entries : Z; max_unexpected_headers : Z; max_mds : Z; max_cts : Z; max_eqs : Z;
  max_pt_index : Z; max_iovecs : Z; max_list_size : Z; max_triggered_ops : Z;
  max_msg_size : Z; max_atomic_size : Z; max_fetch_atomic_size : Z;
  max_waw_ordered_size : Z; max_war_ordered_size : Z; max_volatile_size : Z;
  features : Z }.

(** @src/include/portals4.h:384-390 ptl_process (a union: [rank] shares the storage of
    [phys.nid]) *)
Record ptl_process := mk_process { phys_nid : Z; phys_pid : Z }.
Definition rank (p : ptl_process) : Z := phys_nid p.

#[export] Instance ptl_process_eq_dec : EqDecision ptl_process.
Proof. solve_decision. Defined.

(** @src/include/portals4.h:395-401 ptl_md *)
Record ptl_md := mk_md {
  md_start : Z; md_length : Z; md_options : Z; md_eq_handle : handle; md_ct_handle : handle }.

(** @src/include/portals4.h:406-416 ptl_me *)
Record ptl_me := mk_me {
  me_start : Z; me_length : Z; me_ct_handle : handle; me_uid : Z; me_options : Z;
  me_match_id : ptl_process; me_match_bits : Z; me_ignore_bits : Z; me_min_free : Z }.

(** @src/include/portals4.h:421-434 ptl_event.  [new ptl_event_t] leaves the fields
    indeterminate, so a field is [None] until the code assigns it a determinate value. *)
Record ptl_event := mk_event {
  ev_start : option Z; ev_user_ptr : option Z; ev_hdr_data : option Z;
  ev_match_bits : option Z; ev_rlength : option Z; ev_mlength : option Z;
  ev_remote_offset : option Z; ev_uid : option Z; ev_initiator : option ptl_process;
  ev_type : option ptl_event_kind; ev_ptl_list : option Z; ev_pt_index : option Z;
  ev_ni_fail_type : option Z; ev_atomic_operation : option ptl_op;
  ev_atomic_type : option ptl_datatype }.
Definition new_event : ptl_event :=
  mk_event None None None None None None None None None None None None None None None.

(** @src/include/portals4.h:440-443 ptl_iovec *)
Record ptl_iovec := mk_iovec { iov_base : Z; iov_len : Z }.

(** @src/include/portals4.h:448-451 ptl_ct_event *)
Record ptl_ct_event := mk_ct_event { ct_success : Z; ct_failure : Z }.

#[export] Instance rebuild_ptl_event : Rebuild ptl_event := fun r =>
  mk_event (ev_start r) (ev_user_ptr r) (ev_hdr_data r) (ev_match_bits r) (ev_rlength r)
    (ev_mlength r) (ev_remote_offset r) (ev_uid r) (ev_initiator r) (ev_type r)
    (ev_ptl_list r) (ev_pt_index r) (ev_ni_fail_type r) (ev_atomic_operation r)
    (ev_atomic_type r).
