(* ===== verification/World.v ===== *)
(** The simulator's objects and the machine they live in.

    The classes of [include/s4bxi/s4ptl.hpp], [BxiQueue.hpp], [BxiNode.hpp] and
    [BxiMainActor.hpp] are records kept in one typed store per class, addressed
    by handle (the C++ pointer): aliasing is by handle, a dangling or null
    handle is [Undefined].  SimGrid is not modelled: a SimGrid call is recorded
    in [w_trace] and hands control to the environment [Env], which answers what
    SimGrid answers and may run any other actor before the caller resumes. *)
From S2P Require Import Prelude Portals.
From Stdlib Require Import SpecFloat.

(** ** Enumerations *)

(** @src/include/s4bxi/s4ptl.hpp:38-47 bxi_msg_type *)
Inductive bxi_msg_type :=
| S4BXI_E2E_ACK | S4BXI_PTL_ACK | S4BXI_PTL_GET_RESPONSE | S4BXI_PTL_PUT | S4BXI_PTL_GET
| S4BXI_PTL_ATOMIC | S4BXI_PTL_FETCH_ATOMIC | S4BXI_PTL_FETCH_ATOMIC_RESPONSE.

(** @src/include/s4bxi/s4ptl.hpp:49-54 bxi_req_type *)
Inductive bxi_req_type :=
| S4BXI_FETCH_ATOMIC_REQUEST | S4BXI_ATOMIC_REQUEST | S4BXI_PUT_REQUEST | S4BXI_GET_REQUEST.

(** @src/include/s4bxi/s4ptl.hpp:56-61 bxi_req_process_state *)
Inductive bxi_req_process_state :=
| S4BXI_REQ_CREATED | S4BXI_REQ_RECEIVED | S4BXI_REQ_ANSWERED | S4BXI_REQ_FINISHED.

(** @src/include/s4bxi/s4ptl.hpp:63-68 bxi_vn *)
Inductive bxi_vn :=
| S4BXI_VN_SERVICE_REQUEST | S4BXI_VN_COMPUTE_REQUEST
| S4BXI_VN_SERVICE_RESPONSE | S4BXI_VN_COMPUTE_RESPONSE.

(** @src/include/s4bxi/BxiLog.hpp:25-46 bxi_log_type (its first constructors are those of
    [bxi_msg_type], in the same order) *)
Inductive bxi_log_type :=
| S4BXILOG_MSG (t : bxi_msg_type)
| S4BXILOG_PCI_PIO_PAYLOAD | S4BXILOG_PCI_DMA_PAYLOAD | S4BXILOG_PCI_DMA_REQUEST
| S4BXILOG_PCI_PAYLOAD_WRITE | S4BXILOG_PCI_EVENT | S4BXILOG_PCI_COMMAND
| S4BXILOG_COMPUTE.

#[export] Instance bxi_msg_type_eq_dec : EqDecision bxi_msg_type.
Proof. solve_decision. Defined.
#[export] Instance bxi_req_type_eq_dec : EqDecision bxi_req_type.
Proof. solve_decision. Defined.
#[export] Instance bxi_req_process_state_eq_dec : EqDecision bxi_req_process_state.
Proof. solve_decision. Defined.
#[export] Instance bxi_vn_eq_dec : EqDecision bxi_vn.
Proof. solve_decision. Defined.
#[export] Instance bxi_log_type_eq_dec : EqDecision bxi_log_type.
Proof. solve_decision. Defined.

(** The values of the enumerators, for the source's casts and comparisons. *)
Definition state_num (s : bxi_req_process_state) : Z :=
  match s with
  | S4BXI_REQ_CREATED => 0 | S4BXI_REQ_RECEIVED => 1
  | S4BXI_REQ_ANSWERED => 2 | S4BXI_REQ_FINISHED => 3
  end.
Definition vn_num (v : bxi_vn) : Z :=
  match v with
  | S4BXI_VN_SERVICE_REQUEST => 0 | S4BXI_VN_COMPUTE_REQUEST => 1
  | S4BXI_VN_SERVICE_RESPONSE => 2 | S4BXI_VN_COMPUTE_RESPONSE => 3
  end.
Definition vn_of_num (n : Z) : option bxi_vn :=
  if n =? 0 then Some S4BXI_VN_SERVICE_REQUEST else
  if n =? 1 then Some S4BXI_VN_COMPUTE_REQUEST else
  if n =? 2 then Some S4BXI_VN_SERVICE_RESPONSE else
  if n =? 3 then Some S4BXI_VN_COMPUTE_RESPONSE else None.

#[export] Instance bxi_vn_countable : Countable bxi_vn.
Proof.
  refine (inj_countable vn_num vn_of_num _). by intros [].
Defined.

(** ** Objects *)

Abbreviation mailbox := string (only parsing).

(** @src/include/s4bxi/s4ptl.hpp:70-75 ActorWaitingCT *)
Record ActorWaitingCT := mk_waiting {
  wct_actor : handle; wct_mailbox : option mailbox; wct_test : Z }.

(** @src/include/s4bxi/s4ptl.hpp:138-142 BxiCT *)
Record BxiCT := mk_CT { ct_waiting : list ActorWaitingCT; ct_event : ptl_ct_event }.

(** @src/include/s4bxi/s4ptl.hpp:154-156 BxiEQ *)
Record BxiEQ := mk_EQ { eq_mailbox : mailbox }.

(** @src/include/s4bxi/s4ptl.hpp:167-170 BxiMD *)
Record BxiMD := mk_MD { bmd_ni : handle; bmd_md : ptl_md }.

(** @src/include/s4bxi/s4ptl.hpp:177-186 BxiME *)
Record BxiME := mk_ME {
  bme_used : bool; bme_pt : handle; bme_me : ptl_me; bme_user_ptr : Z;
  bme_manage_local_offset : Z; bme_list : Z; bme_needs_unlink : bool; bme_in_use : bool }.

(** @src/include/s4bxi/s4ptl.hpp:92-101 BxiPT *)
Record BxiPT := mk_PT {
  pt_priority_list : list handle; pt_overflow_list : list handle;
  pt_unexpected_headers : list handle;
  pt_eq : handle; pt_ni : handle; pt_options : Z; pt_enabled : bool; pt_index : Z }.

(** @src/include/s4bxi/s4ptl.hpp:116-125 BxiNI (the command queue semaphore [cq] belongs to
    SimGrid: [SemCQ]) *)
Record BxiNI := mk_NI {
  ni_node : handle; ni_iface : Z; ni_options : Z; ni_limits : ptl_ni_limits; ni_pid : Z;
  ni_pt_indexes : gmap Z handle; ni_l2p_map : list ptl_process }.

(** @src/include/s4bxi/s4ptl.hpp:212-293 BxiRequest and its subclasses.  One record holds the
    fields of the whole hierarchy; [rq_class] is the class the object was created with, which
    says which of them exist.  A field the constructors leave indeterminate is an option. *)
Inductive request_class :=
| BxiGetRequest | BxiPutRequest | BxiAtomicRequest | BxiFetchAtomicRequest | BxiSwapRequest.
Record BxiRequest := mk_Request {
  rq_class : request_class;
  rq_type : bxi_req_type; rq_mlength : option Z; rq_payload_size : Z; rq_md : BxiMD;
  rq_matching : bool; rq_match_bits : Z; rq_target_pid : Z; rq_pt_index : Z;
  rq_process_state : bxi_req_process_state; rq_msg_ref_count : Z; rq_user_ptr : Z;
  rq_service_vn : bool; rq_local_offset : Z; rq_remote_offset : Z;
  rq_target_remote_offset : option Z; rq_start : option Z; rq_matched_me : option BxiME;
  rq_ack_req : Z; rq_hdr : Z; rq_send_event_issued : bool;
  rq_op : ptl_op; rq_datatype : ptl_datatype;
  rq_get_md : option BxiMD; rq_get_local_offset : Z; rq_fetch_atomic_event_issued : bool;
  rq_cst : option Z;
  rq_get_event_issued : bool }.

(** @src/include/s4bxi/BxiLog.hpp:48-54 BxiLog *)
Record BxiLog := mk_log {
  log_start : option double; log_end : option double; log_type : bxi_log_type;
  log_initiator : Z; log_target : Z }.

(** @src/include/s4bxi/s4ptl.hpp:298-311 BxiMsg *)
Record BxiMsg := mk_Msg {
  ms_initiator : Z; ms_target : Z; ms_simulated_size : Z; ms_send_init_time : option double;
  ms_retry_count : Z; ms_type : bxi_msg_type; ms_parent_request : handle; ms_ref_count : Z;
  ms_ni_fail_type : Z; ms_answers_msg : handle; ms_bxi_log : option BxiLog; ms_is_PIO : bool }.

(** @src/include/s4bxi/BxiQueue.hpp:36-39 BxiQueue (the semaphore [waiting] belongs to SimGrid:
    [SemQueue]) *)
Record BxiQueue := mk_Queue { q_to_process : list handle; q_mailbox : option mailbox }.

(** @src/include/s4bxi/BxiNode.hpp:32-41 flowctrl_process_id *)
Record flowctrl_process_id := mk_fpid { src_pid : Z; dst_pid : Z; dst_nid : Z }.
#[export] Instance flowctrl_process_id_eq_dec : EqDecision flowctrl_process_id.
Proof. solve_decision. Defined.
#[export] Instance flowctrl_process_id_countable : Countable flowctrl_process_id.
Proof.
  refine (inj_countable' (fun f => (src_pid f, dst_pid f, dst_nid f))
            (fun '(a, b, c) => mk_fpid a b c) _). by intros [].
Defined.

(** @src/include/s4bxi/BxiNode.hpp:47-76 BxiNode.  An array indexed by virtual network is a map
    from [bxi_vn] (no entry: [nullptr], or an empty deque). *)
Record BxiNode := mk_Node {
  nd_used_pids : list Z; nd_ni_handles : list handle; nd_nid : Z;
  nd_main_host : Z; nd_nic_host : Z; nd_e2e_actor : handle;
  nd_tx_queues : gmap bxi_vn handle;
  nd_flowctrl_node_counts : gmap (bxi_vn * Z) Z;
  nd_flowctrl_process_counts : gmap (bxi_vn * flowctrl_process_id) Z;
  nd_flowctrl_waiting_messages : gmap bxi_vn (list handle);
  nd_use_real_memory : bool; nd_model_pci : bool; nd_model_pci_commands : bool;
  nd_e2e_off : bool; nd_e2e_retried : Z; nd_e2e_gave_up : Z }.

(** @src/include/s4bxi/actors/BxiNicE2E.hpp:24-27 BxiNicE2E *)
Record BxiNicE2E := mk_E2E {
  e2e_node : handle; e2e_current_msg : handle; e2e_queue : handle;
  e2e_nic_cmd_mailboxes : gmap bxi_vn mailbox }.

(** @src/include/s4bxi/actors/BxiMainActor.hpp:37-72 BxiMainActor (the fields of the Portals
    implementation) *)
Record BxiMainActor := mk_MainActor {
  ma_node : handle; ma_vn : option bxi_vn; ma_service_mode : bool; ma_tx_queue : handle;
  ma_poll_count : Z; ma_is_polling : Z }.

(** @src/include/s4bxi/s4bxi_config.hpp:25-76 s4bxi_config *)
Record s4bxi_config := mk_config {
  max_retries : Z; retry_timeout : double; use_real_memory : bool; model_pci : bool;
  model_pci_commands : bool; e2e_off : bool; log_folder : string; log_computation : bool;
  log_level : Z; privatize_libs : string; keep_temps : bool; max_memcpy : Z;
  cpu_factor : double; cpu_threshold : double; active_polling_delay : double;
  cpu_accumulate : double; quick_acks : bool; auto_shared_malloc_thresh : double;
  shared_malloc : Z; shared_malloc_hugepage : string; shared_malloc_blocksize : Z;
  max_inflight_to_target : Z; max_inflight_to_process : Z; no_dlclose : bool;
  use_pugixml : bool }.

(** ** Rebuilding of the records, for [r <| field := v |>] *)
#[export] Instance rebuild_ActorWaitingCT : Rebuild ActorWaitingCT := fun r =>
  mk_waiting (wct_actor r) (wct_mailbox r) (wct_test r).
#[export] Instance rebuild_BxiCT : Rebuild BxiCT := fun r =>
  mk_CT (ct_waiting r) (ct_event r).
#[export] Instance rebuild_BxiEQ : Rebuild BxiEQ := fun r =>
  mk_EQ (eq_mailbox r).
#[export] Instance rebuild_BxiMD : Rebuild BxiMD := fun r =>
  mk_MD (bmd_ni r) (bmd_md r).
#[export] Instance rebuild_BxiME : Rebuild BxiME := fun r =>
  mk_ME (bme_used r) (bme_pt r) (bme_me r) (bme_user_ptr r) (bme_manage_local_offset r)
    (bme_list r) (bme_needs_unlink r) (bme_in_use r).
#[export] Instance rebuild_BxiPT : Rebuild BxiPT := fun r =>
  mk_PT (pt_priority_list r) (pt_overflow_list r) (pt_unexpected_headers r) (pt_eq r) (pt_ni r)
    (pt_options r) (pt_enabled r) (pt_index r).
#[export] Instance rebuild_BxiNI : Rebuild BxiNI := fun r =>
  mk_NI (ni_node r) (ni_iface r) (ni_options r) (ni_limits r) (ni_pid r) (ni_pt_indexes r)
    (ni_l2p_map r).
#[export] Instance rebuild_BxiRequest : Rebuild BxiRequest := fun r =>
  mk_Request (rq_class r) (rq_type r) (rq_mlength r) (rq_payload_size r) (rq_md r)
    (rq_matching r) (rq_match_bits r) (rq_target_pid r) (rq_pt_index r) (rq_process_state r)
    (rq_msg_ref_count r) (rq_user_ptr r) (rq_service_vn r) (rq_local_offset r)
    (rq_remote_offset r) (rq_target_remote_offset r) (rq_start r) (rq_matched_me r)
    (rq_ack_req r) (rq_hdr r) (rq_send_event_issued r) (rq_op r) (rq_datatype r) (rq_get_md r)
    (rq_get_local_offset r) (rq_fetch_atomic_event_issued r) (rq_cst r) (rq_get_event_issued r).
#[export] Instance rebuild_BxiLog : Rebuild BxiLog := fun r =>
  mk_log (log_start r) (log_end r) (log_type r) (log_initiator r) (log_target r).
#[export] Instance rebuild_BxiMsg : Rebuild BxiMsg := fun r =>
  mk_Msg (ms_initiator r) (ms_target r) (ms_simulated_size r) (ms_send_init_time r)
    (ms_retry_count r) (ms_type r) (ms_parent_request r) (ms_ref_count r) (ms_ni_fail_type r)
    (ms_answers_msg r) (ms_bxi_log r) (ms_is_PIO r).
#[export] Instance rebuild_BxiQueue : Rebuild BxiQueue := fun r =>
  mk_Queue (q_to_process r) (q_mailbox r).
#[export] Instance rebuild_flowctrl_process_id : Rebuild flowctrl_process_id := fun r =>
  mk_fpid (src_pid r) (dst_pid r) (dst_nid r).
#[export] Instance rebuild_BxiNode : Rebuild BxiNode := fun r =>
  mk_Node (nd_used_pids r) (nd_ni_handles r) (nd_nid r) (nd_main_host r) (nd_nic_host r)
    (nd_e2e_actor r) (nd_tx_queues r) (nd_flowctrl_node_counts r) (nd_flowctrl_process_counts r)
    (nd_flowctrl_waiting_messages r) (nd_use_real_memory r) (nd_model_pci r)
    (nd_model_pci_commands r) (nd_e2e_off r) (nd_e2e_retried r) (nd_e2e_gave_up r).
#[export] Instance rebuild_BxiNicE2E : Rebuild BxiNicE2E := fun r =>
  mk_E2E (e2e_node r) (e2e_current_msg r) (e2e_queue r) (e2e_nic_cmd_mailboxes r).
#[export] Instance rebuild_BxiMainActor : Rebuild BxiMainActor := fun r =>
  mk_MainActor (ma_node r) (ma_vn r) (ma_service_mode r) (ma_tx_queue r) (ma_poll_count r)
    (ma_is_polling r).
#[export] Instance rebuild_s4bxi_config : Rebuild s4bxi_config := fun r =>
  mk_config (max_retries r) (retry_timeout r) (use_real_memory r) (model_pci r)
    (model_pci_commands r) (e2e_off r) (log_folder r) (log_computation r) (log_level r)
    (privatize_libs r) (keep_temps r) (max_memcpy r) (cpu_factor r) (cpu_threshold r)
    (active_polling_delay r) (cpu_accumulate r) (quick_acks r) (auto_shared_malloc_thresh r)
    (shared_malloc r) (shared_malloc_hugepage r) (shared_malloc_blocksize r)
    (max_inflight_to_target r) (max_inflight_to_process r) (no_dlclose r) (use_pugixml r).

(** ** Calls to SimGrid *)

(** Semaphores are named by the object that owns them. *)
Inductive sem_id := SemCQ (ni : handle) | SemE2E (node : handle) | SemQueue (queue : handle).
#[export] Instance sem_id_eq_dec : EqDecision sem_id.
Proof. solve_decision. Defined.

(** What travels through a mailbox: always a pointer. *)
Inductive payload := PMsg (msg : handle) | PEvent (ev : ptl_event) | PBool (b : bool).

(** An activity built by [put_init] or [sendto_init] and not started yet. *)
Inductive comm :=
| CommPut (mb : mailbox) (p : payload) (size : Z)
| CommSendto (src dst : Z) (size : Z).

Inductive simcall :=
| SleepFor (d : double) | SleepUntil (t : double) | Yield
| CommStart (c : comm) | CommDetach (c : comm) | CommWait (c : comm)
| GetWait (mb : mailbox)
| GetAsync (mb : mailbox) | WaitAny (n : Z) (timeout : Z) | CommCancel (n : Z)
| SetReceiver (mb : mailbox) (self : bool)
| SemAcquire (s : sem_id) | SemRelease (s : sem_id)
| ActorResume (a : handle) | ActorSuspend (a : handle)
| SpawnPciLogger (c : comm) (t : bxi_log_type) (nid : Z).

(** What [BxiEngine::log] writes. *)
Inductive log_output :=
| LogOpen (file : string) | LogClose | LogHeader | LogLine (l : BxiLog).

(** ** The world *)

Record World := mk_World {
  w_cts : gmap N BxiCT; w_eqs : gmap N BxiEQ; w_mds : gmap N BxiMD; w_mes : gmap N BxiME;
  w_pts : gmap N BxiPT; w_nis : gmap N BxiNI; w_nodes : gmap N BxiNode;
  w_reqs : gmap N BxiRequest; w_msgs : gmap N BxiMsg; w_queues : gmap N BxiQueue;
  w_e2es : gmap N BxiNicE2E; w_actors : gmap N BxiMainActor;
  w_next : N;
  w_mem : gmap Z Z;
  w_config : s4bxi_config;
  w_clock : double;
  w_mailbox_pool : list mailbox;
  w_logCount : Z; w_log : list log_output;
  w_trace : list simcall }.

#[export] Instance rebuild_World : Rebuild World := fun r =>
  mk_World (w_cts r) (w_eqs r) (w_mds r) (w_mes r) (w_pts r) (w_nis r) (w_nodes r) (w_reqs r)
    (w_msgs r) (w_queues r) (w_e2es r) (w_actors r) (w_next r) (w_mem r) (w_config r)
    (w_clock r) (w_mailbox_pool r) (w_logCount r) (w_log r) (w_trace r).

(** The environment of an actor: SimGrid and the other actors.
    [env_step c w] is the world in which the caller of [c] resumes, from the
    world [w] it left (the trace, newest call first, already holds [c]); the
    other fields are what SimGrid and the C++ library answer. *)
Class Env := {
  env_step : simcall -> World -> World;
  env_self : World -> handle;                       (* Actor::self() *)
  env_mailbox_ready : World -> mailbox -> bool;     (* Mailbox::ready() *)
  env_mailbox_listen : World -> mailbox -> bool;    (* Mailbox::listen() *)
  env_mailbox_size : World -> mailbox -> Z;         (* Mailbox::size() *)
  env_received : World -> mailbox -> payload;       (* what the last get returned *)
  env_wait_any : World -> Z;                        (* Comm::wait_any[_for] *)
  env_would_block : World -> sem_id -> bool;        (* Semaphore::would_block() *)
  env_random_int : World -> Z;                      (* random_int() *)
  env_fuel : nat;        (* how many turns of a loop that other actors can prolong are followed *)
}.

(** The environment in which no other actor runs. *)
Class Quiet (E : Env) := quiet : forall c w, env_step c w = w.

Abbreviation SM := (M World).

(** ** Primitive operations *)

(** Where the objects of a class live. *)
Class Store (T : Type) := {
  objects : World -> gmap N T;
  on_objects : (gmap N T -> gmap N T) -> World -> World }.

#[export] Instance store_CT : Store BxiCT := {| objects := w_cts; on_objects := over w_cts |}.
#[export] Instance store_EQ : Store BxiEQ := {| objects := w_eqs; on_objects := over w_eqs |}.
#[export] Instance store_MD : Store BxiMD := {| objects := w_mds; on_objects := over w_mds |}.
#[export] Instance store_ME : Store BxiME := {| objects := w_mes; on_objects := over w_mes |}.
#[export] Instance store_PT : Store BxiPT := {| objects := w_pts; on_objects := over w_pts |}.
#[export] Instance store_NI : Store BxiNI := {| objects := w_nis; on_objects := over w_nis |}.
#[export] Instance store_Node : Store BxiNode :=
  {| objects := w_nodes; on_objects := over w_nodes |}.
#[export] Instance store_Request : Store BxiRequest :=
  {| objects := w_reqs; on_objects := over w_reqs |}.
#[export] Instance store_Msg : Store BxiMsg :=
  {| objects := w_msgs; on_objects := over w_msgs |}.
#[export] Instance store_Queue : Store BxiQueue :=
  {| objects := w_queues; on_objects := over w_queues |}.
#[export] Instance store_E2E : Store BxiNicE2E :=
  {| objects := w_e2es; on_objects := over w_e2es |}.
#[export] Instance store_MainActor : Store BxiMainActor :=
  {| objects := w_actors; on_objects := over w_actors |}.

Section Heap.
Context {T : Type} `{Store T}.

(** [*h], [h->field = v], [new], [delete].  A null or dangling pointer is undefined. *)
Definition load (h : handle) : SM T := fun w =>
  match objects w !! h with
  | Some x => Ok x w
  | None => Fail (Undefined "invalid pointer")
  end.
Definition update (h : handle) (f : T -> T) : SM unit := fun w =>
  match objects w !! h with
  | Some x => Ok tt (on_objects <[h := f x]> w)
  | None => Fail (Undefined "invalid pointer")
  end.
Definition new (x : T) : SM handle := fun w =>
  Ok (w_next w) (on_objects <[w_next w := x]> w <| w_next ::= N.succ |>).
Definition free (h : handle) : SM unit := fun w =>
  match objects w !! h with
  | Some _ => Ok tt (on_objects (delete h) w)
  | None => Fail (Undefined "invalid pointer")
  end.
End Heap.

(** A SimGrid call: recorded, then the environment runs. *)
Definition sim `{Env} (c : simcall) : SM unit := fun w =>
  Ok tt (env_step c (w <| w_trace ::= cons c |>)).

(** @src/include/s4bxi/s4bxi_util.hpp:37-37 HAS_PTL_OPTION (on the [options] field) *)
Definition HAS_PTL_OPTION (options flag : Z) : bool := negb (Z.land options flag =? 0).

(** @src/include/s4bxi/s4bxi_util.hpp:39-39 S4BXI_GLOBAL_CONFIG *)
Definition S4BXI_GLOBAL_CONFIG {A} (name : s4bxi_config -> A) : SM A :=
  gets (fun w => name (w_config w)).

(** @src/include/s4bxi/s4bxi_util.hpp:40-40 S4BXI_CONFIG_AND *)
Definition S4BXI_CONFIG_AND (node : handle) (local : BxiNode -> bool)
    (global : s4bxi_config -> bool) : SM bool :=
  n ← load (T := BxiNode) node;
  if local n then S4BXI_GLOBAL_CONFIG global else mret false.

(** @src/include/s4bxi/s4bxi_util.hpp:41-41 S4BXI_CONFIG_OR *)
Definition S4BXI_CONFIG_OR (node : handle) (local : BxiNode -> bool)
    (global : s4bxi_config -> bool) : SM bool :=
  n ← load (T := BxiNode) node;
  if local n then mret true else S4BXI_GLOBAL_CONFIG global.

(** ** Memory of the simulated processes: one byte per address *)

Fixpoint load_bytes (a : Z) (n : nat) : SM (list Z) :=
  match n with
  | O => mret []
  | S n' =>
      b ← gets (fun w => w_mem w !! a);
      b ← of_option b (Undefined "unmapped memory");
      bs ← load_bytes (a + 1) n';
      mret (b :: bs)
  end.

Fixpoint store_bytes (a : Z) (bs : list Z) : SM unit :=
  match bs with
  | [] => mret tt
  | b :: bs' =>
      old ← gets (fun w => w_mem w !! a);
      _ ← of_option old (Undefined "unmapped memory");
      _ ← modify (fun w => w <| w_mem ::= <[a := b]> |>);
      store_bytes (a + 1) bs'
  end.
