(* ===== verification/Logic.v ===== *)
(** Reasoning about the simulator's operations.

    [keeps R c w]: a call of [c] from [w] that returns leaves a world related to
    [w] by the preorder [R].  [evolves] is the preorder every operation of the
    simulator respects, whatever the other actors do meanwhile as long as they
    respect it too ([Rely]): requests only progress, and the well-formedness of
    credits, retry counters and entry offsets is kept. *)
From S2P Require Import Prelude Portals World.

(** ** Calls that return *)

Lemma load_Ok {T} `{Store T} h w x : objects w !! h = Some x -> load h w = Ok x w.
Proof. unfold load. by intros ->. Qed.

Lemma load_inv {T} `{Store T} h w x w' :
  load (T := T) h w = Ok x w' -> w' = w /\ objects w !! h = Some x.
Proof. unfold load. case_match; [|done]. by intros [= -> ->]. Qed.

Lemma update_Ok {T} `{Store T} h (f : T -> T) w x :
  objects w !! h = Some x -> update h f w = Ok tt (on_objects <[h := f x]> w).
Proof. unfold update. by intros ->. Qed.

(** Runs the next read or write of an object the context knows. *)
Ltac run_load :=
  match goal with
  | H : _ = Some ?x |- context [@load ?T ?S ?h ?w] => rewrite (@load_Ok T S h w x H)
  end.
Ltac run_update :=
  match goal with
  | H : _ = Some ?x |- context [@update ?T ?S ?h ?f ?w] =>
      rewrite (@update_Ok T S h f w x H)
  end.

Ltac step_load :=
  match goal with
  | H : _ = Some ?x |- context [@mbind _ _ _ _ ?f (@load ?T ?S ?h) ?w] =>
      rewrite (bind_run (@load T S h) f w x w (@load_Ok T S h w x H)); cbv beta
  end.
Ltac step_update :=
  match goal with
  | H : _ = Some ?x |- context [@mbind _ _ _ _ ?f (@update ?T ?S ?h ?g) ?w] =>
      rewrite (bind_run (@update T S h g) f w tt _ (@update_Ok T S h g w x H)); cbv beta
  end.

Section Keeps.
Context (R : World -> World -> Prop) `{!PreOrder R}.

Definition keeps {A} (c : SM A) (w : World) : Prop := forall a w', c w = Ok a w' -> R w w'.

Lemma keeps_ret {A} (a : A) w : keeps (mret a) w.
Proof. by intros a' w' [= <- <-]. Qed.

Lemma keeps_fail {A} e w : keeps (fail (A := A) e) w.
Proof. by intros a' w' ?. Qed.

Lemma keeps_bind {A B} (c : SM A) (f : A -> SM B) w :
  keeps c w -> (forall a w', c w = Ok a w' -> keeps (f a) w') -> keeps (a ← c; f a) w.
Proof.
  intros Hc Hf b w2 (a & w1 & H1 & H2)%bind_Ok.
  etrans; [by eapply Hc | by eapply Hf].
Qed.

(** Binding a call that leaves the world alone and whose result is known. *)
Lemma keeps_bind_read {A B} (c : SM A) (f : A -> SM B) w :
  (forall a w', c w = Ok a w' -> w' = w /\ keeps (f a) w) -> keeps (a ← c; f a) w.
Proof.
  intros H b w2 (a & w1 & H1 & H2)%bind_Ok. destruct (H a w1 H1) as [-> Hk]. by eapply Hk.
Qed.

Lemma keeps_bind_load {T B} `{Store T} h (f : T -> SM B) w :
  (forall x, objects w !! h = Some x -> keeps (f x) w) -> keeps (x ← load h; f x) w.
Proof.
  intros Hf. apply keeps_bind_read. intros a w'. unfold load.
  destruct (objects w !! h) eqn:E; [|done]. intros [= <- <-]. auto.
Qed.

Lemma keeps_bind_gets {A B} (g : World -> A) (f : A -> SM B) w :
  keeps (f (g w)) w -> keeps (x ← gets g; f x) w.
Proof. intros Hf. apply keeps_bind_read. by intros a w' [= <- <-]. Qed.

Lemma keeps_bind_assert {B} b e (f : unit -> SM B) w :
  (b = true -> keeps (f tt) w) -> keeps (x ← assert b e; f x) w.
Proof.
  intros Hf. apply keeps_bind_read. destruct b; [|done]. intros [] w' [= <-]. auto.
Qed.

Lemma keeps_bind_of_option {A B} (o : option A) e (f : A -> SM B) w :
  (forall x, o = Some x -> keeps (f x) w) -> keeps (x ← of_option o e; f x) w.
Proof.
  intros Hf. apply keeps_bind_read. destruct o; [|done]. intros ? w' [= <- <-]. auto.
Qed.

Lemma keeps_bind_ret {A B} (a : A) (f : A -> SM B) w :
  keeps (f a) w -> keeps (x ← mret a; f x) w.
Proof. intros Hf. apply keeps_bind_read. by intros a' w' [= <- <-]. Qed.

Lemma keeps_bind_assoc {A B C} (c : SM A) (g : A -> SM B) (f : B -> SM C) w :
  keeps (x ← c; y ← g x; f y) w -> keeps (y ← (x ← c; g x); f y) w.
Proof.
  intros Hk b w2 (y & w1 & (x & w0 & H0 & H1)%bind_Ok & H2)%bind_Ok.
  eapply Hk. apply bind_Ok. exists x, w0. split; [done|]. apply bind_Ok. eauto.
Qed.

Lemma keeps_load {T} `{Store T} h w : keeps (load (T := T) h) w.
Proof. intros a w'. unfold load. by case_match; intros [= _ <-]. Qed.

Lemma keeps_gets {A} (g : World -> A) w : keeps (gets g) w.
Proof. by intros a w' [= _ <-]. Qed.

Lemma keeps_assert b e w : keeps (assert b e) w.
Proof. destruct b; [apply keeps_ret | apply keeps_fail]. Qed.

Lemma keeps_of_option {A} (o : option A) e w : keeps (of_option o e) w.
Proof. destruct o; [apply keeps_ret | apply keeps_fail]. Qed.

Lemma keeps_when (b : bool) c w : (b = true -> keeps c w) -> keeps (when b c) w.
Proof. destruct b; [auto | intros _; apply keeps_ret]. Qed.

Lemma keeps_update {T} `{Store T} h (f : T -> T) w :
  (forall x, objects w !! h = Some x -> R w (on_objects <[h := f x]> w)) ->
  keeps (update h f) w.
Proof.
  intros Hf a w'. unfold update. destruct (objects w !! h) eqn:E; [|done].
  intros [= _ <-]. auto.
Qed.

Lemma keeps_modify f w : R w (f w) -> keeps (modify f) w.
Proof. by intros ? a w' [= _ <-]. Qed.

Lemma keeps_for_each {A} (l : list A) (body : A -> SM unit) w :
  (forall x w', x ∈ l -> keeps (body x) w') -> keeps (for_each l body) w.
Proof.
  revert w. induction l as [|x l IH]; intros w Hb; cbn; [apply keeps_ret|].
  apply keeps_bind; [apply Hb; set_solver|]. intros _ w' _. apply IH. set_solver.
Qed.
End Keeps.

(** ** The preorder of the simulator *)

(** What never changes in a request, and what only goes forward. *)
Record req_evolves (q q' : BxiRequest) : Prop := {
  re_class : rq_class q' = rq_class q;
  re_type : rq_type q' = rq_type q;
  re_md : rq_md q' = rq_md q;
  re_size : rq_payload_size q' = rq_payload_size q;
  re_target : rq_target_pid q' = rq_target_pid q;
  re_service : rq_service_vn q' = rq_service_vn q;
  re_ack_req : rq_ack_req q' = rq_ack_req q;
  re_matching : rq_matching q' = rq_matching q;
  re_bits : rq_match_bits q' = rq_match_bits q;
  re_index : rq_pt_index q' = rq_pt_index q;
  re_user_ptr : rq_user_ptr q' = rq_user_ptr q;
  re_local_offset : rq_local_offset q' = rq_local_offset q;
  re_remote_offset : rq_remote_offset q' = rq_remote_offset q;
  re_hdr : rq_hdr q' = rq_hdr q;
  re_op : rq_op q' = rq_op q;
  re_datatype : rq_datatype q' = rq_datatype q;
  re_get_md : rq_get_md q' = rq_get_md q;
  re_get_offset : rq_get_local_offset q' = rq_get_local_offset q;
  re_state : state_num (rq_process_state q) <= state_num (rq_process_state q');
  re_send : rq_send_event_issued q = true -> rq_send_event_issued q' = true;
  re_get : rq_get_event_issued q = true -> rq_get_event_issued q' = true;
  re_fetch : rq_fetch_atomic_event_issued q = true -> rq_fetch_atomic_event_issued q' = true }.

#[export] Instance req_evolves_preorder : PreOrder req_evolves.
Proof.
  split.
  - intros q. by constructor.
  - intros q1 q2 q3 [] []. constructor; (congruence || lia || auto).
Qed.

Lemma req_evolves_refl q : req_evolves q q.
Proof. done. Qed.
#[export] Hint Resolve req_evolves_refl : core.

(** Flow-control counters hold between no credit and all of them. *)
Definition credit_ok (max c : Z) : Prop := 0 <= c <= max.
Definition node_credits_ok (cfg : s4bxi_config) (n : BxiNode) : Prop :=
  map_Forall (fun _ => credit_ok (max_inflight_to_target cfg)) (nd_flowctrl_node_counts n) /\
  map_Forall (fun _ => credit_ok (max_inflight_to_process cfg)) (nd_flowctrl_process_counts n).

(** A message is retried at most [max_retries] times. *)
Definition msg_retries_ok (cfg : s4bxi_config) (m : BxiMsg) : Prop :=
  0 <= ms_retry_count m <= max_retries cfg.

(** The locally managed offset of an entry stays inside the entry. *)
Definition me_offset_ok (m : BxiME) : Prop :=
  0 <= bme_manage_local_offset m <= me_length (bme_me m).

#[export] Instance credit_ok_dec max c : Decision (credit_ok max c).
Proof. unfold credit_ok. apply _. Defined.
#[export] Instance node_credits_ok_dec cfg n : Decision (node_credits_ok cfg n).
Proof. unfold node_credits_ok. apply _. Defined.
#[export] Instance msg_retries_ok_dec cfg m : Decision (msg_retries_ok cfg m).
Proof. unfold msg_retries_ok. apply _. Defined.
#[export] Instance me_offset_ok_dec m : Decision (me_offset_ok m).
Proof. unfold me_offset_ok. apply _. Defined.

Record wf (w : World) : Prop := {
  wf_max_target : 0 <= max_inflight_to_target (w_config w);
  wf_max_process : 0 <= max_inflight_to_process (w_config w);
  wf_max_retries : 0 <= max_retries (w_config w);
  wf_nodes : map_Forall (fun _ => node_credits_ok (w_config w)) (w_nodes w);
  wf_msgs : map_Forall (fun _ => msg_retries_ok (w_config w)) (w_msgs w);
  wf_mes : map_Forall (fun _ => me_offset_ok) (w_mes w) }.

Record evolves (w w' : World) : Prop := {
  ev_next : (w_next w <= w_next w')%N;
  ev_config : w_config w' = w_config w;
  ev_trace : exists calls, w_trace w' = calls ++ w_trace w;
  ev_reqs : forall r q', (r < w_next w)%N -> w_reqs w' !! r = Some q' ->
    exists q, w_reqs w !! r = Some q /\ req_evolves q q';
  ev_wf : wf w -> wf w' }.

#[export] Instance evolves_preorder : PreOrder evolves.
Proof.
  split.
  - intros w. constructor; [done|done|by exists []| |done]. intros r q. exists q. by split.
  - intros w1 w2 w3 [N1 C1 [t1 T1] Q1 W1] [N2 C2 [t2 T2] Q2 W2]. constructor.
    + lia.
    + congruence.
    + exists (t2 ++ t1). by rewrite T2, T1, app_assoc.
    + intros r q3 Hr (q2 & Hq2 & E2)%Q2; [|lia].
      destruct (Q1 r q2 Hr Hq2) as (q1 & ? & ?). exists q1. split; [done|]. by etrans.
    + auto.
Qed.

(** The other actors respect it too. *)
Class Rely (E : Env) := rely : forall c w, evolves w (env_step c w).

#[export] Instance quiet_rely (E : Env) : Quiet E -> Rely E.
Proof. intros Q c w. by rewrite Q. Qed.

(** ** Steps of the preorder *)

(** A change of the world that touches no request, message, node or entry. *)
Lemma evolves_frame w w' :
  w_next w' = w_next w -> w_config w' = w_config w -> w_trace w' = w_trace w ->
  w_reqs w' = w_reqs w -> w_nodes w' = w_nodes w -> w_msgs w' = w_msgs w ->
  w_mes w' = w_mes w -> evolves w w'.
Proof.
  intros HN HC HT HR Hn Hm He. constructor.
  - by rewrite HN.
  - done.
  - by exists [].
  - rewrite HR. eauto.
  - intros []. constructor; rewrite ?HC, ?Hn, ?Hm, ?He; done.
Qed.

Lemma evolves_update_req w h q q' :
  w_reqs w !! h = Some q -> req_evolves q q' -> evolves w (w <| w_reqs ::= <[h := q']> |>).
Proof.
  intros Hq He. constructor; cbn; [done|done|by exists []| |by intros []].
  intros r q2 Hr. destruct (decide (r = h)) as [->|Hne].
  - rewrite lookup_insert_eq. intros [= <-]. eauto.
  - rewrite lookup_insert_ne by done. eauto.
Qed.

Lemma evolves_update_msg w h m m' :
  w_msgs w !! h = Some m ->
  (wf w -> msg_retries_ok (w_config w) m -> msg_retries_ok (w_config w) m') ->
  evolves w (w <| w_msgs ::= <[h := m']> |>).
Proof.
  intros Hm Hok. constructor; cbn; [done|done|by exists []|eauto|].
  intros W. pose proof W as []. constructor; try done.
  apply map_Forall_insert_2; [|done]. eauto.
Qed.

Lemma evolves_update_node w h n n' :
  w_nodes w !! h = Some n ->
  (wf w -> node_credits_ok (w_config w) n -> node_credits_ok (w_config w) n') ->
  evolves w (w <| w_nodes ::= <[h := n']> |>).
Proof.
  intros Hn Hok. constructor; cbn; [done|done|by exists []|eauto|].
  intros W. pose proof W as []. constructor; try done.
  apply map_Forall_insert_2; [|done]. eauto.
Qed.

Lemma evolves_update_me w h m m' :
  w_mes w !! h = Some m -> (me_offset_ok m -> me_offset_ok m') ->
  evolves w (w <| w_mes ::= <[h := m']> |>).
Proof.
  intros Hm Hok. constructor; cbn; [done|done|by exists []|eauto|].
  intros W. pose proof W as []. constructor; try done.
  apply map_Forall_insert_2; [|done]. eauto.
Qed.

Lemma evolves_sim `{E : Env, !Rely E} c w :
  evolves w (env_step c (w <| w_trace ::= cons c |>)).
Proof.
  etrans; [|apply rely]. constructor; cbn; [done|done|by exists [c]|eauto|by intros []].
Qed.

Section New.
Context (w : World).
Let w1 := w <| w_next ::= N.succ |>.

Lemma evolves_new_frame w' :
  w_next w' = N.succ (w_next w) -> w_config w' = w_config w -> w_trace w' = w_trace w ->
  w_reqs w' = w_reqs w -> w_nodes w' = w_nodes w -> w_msgs w' = w_msgs w ->
  w_mes w' = w_mes w -> evolves w w'.
Proof.
  intros HN HC HT HR Hn Hm He. constructor.
  - lia.
  - done.
  - by exists [].
  - rewrite HR. eauto.
  - intros []. constructor; rewrite ?HC, ?Hn, ?Hm, ?He; done.
Qed.

Lemma evolves_new_req q :
  evolves w (w <| w_reqs ::= <[w_next w := q]> |> <| w_next ::= N.succ |>).
Proof.
  constructor; cbn; [lia|done|by exists []| |by intros []].
  intros r q2 Hr. rewrite lookup_insert_ne by lia. eauto.
Qed.

Lemma evolves_new_msg m : (wf w -> msg_retries_ok (w_config w) m) ->
  evolves w (w <| w_msgs ::= <[w_next w := m]> |> <| w_next ::= N.succ |>).
Proof.
  intros Hok. constructor; cbn; [lia|done|by exists []|eauto|].
  intros W. pose proof W as []. constructor; try done. apply map_Forall_insert_2; auto.
Qed.

Lemma evolves_new_me m : me_offset_ok m ->
  evolves w (w <| w_mes ::= <[w_next w := m]> |> <| w_next ::= N.succ |>).
Proof.
  intros Hok. constructor; cbn; [lia|done|by exists []|eauto|].
  intros []. constructor; try done. apply map_Forall_insert_2; auto.
Qed.
End New.

Section Free.
Context (w : World) (h : handle).

Lemma evolves_free_req : evolves w (w <| w_reqs ::= delete h |>).
Proof.
  constructor; cbn; [done|done|by exists []| |by intros []].
  intros r q Hr [_ Hq]%lookup_delete_Some. eauto.
Qed.

Lemma evolves_free_msg : evolves w (w <| w_msgs ::= delete h |>).
Proof.
  constructor; cbn; [done|done|by exists []|eauto|].
  intros []. constructor; try done. by apply map_Forall_delete.
Qed.

Lemma evolves_free_me : evolves w (w <| w_mes ::= delete h |>).
Proof.
  constructor; cbn; [done|done|by exists []|eauto|].
  intros []. constructor; try done. by apply map_Forall_delete.
Qed.
End Free.

(** ** Primitive operations *)

Abbreviation progresses := (keeps evolves).

Lemma progresses_sim `{E : Env, !Rely E} c w : progresses (sim c) w.
Proof. intros a w' [= _ <-]. apply evolves_sim. Qed.

(** The classes whose objects [evolves] says nothing about. *)
Class Unwatched (T : Type) `{Store T} := unwatched : forall f w,
  let w' := on_objects (T := T) f w in
  w_next w' = w_next w /\ w_config w' = w_config w /\ w_trace w' = w_trace w /\
  w_reqs w' = w_reqs w /\ w_nodes w' = w_nodes w /\ w_msgs w' = w_msgs w /\ w_mes w' = w_mes w.

#[export] Instance unwatched_CT : Unwatched BxiCT. Proof. done. Qed.
#[export] Instance unwatched_EQ : Unwatched BxiEQ. Proof. done. Qed.
#[export] Instance unwatched_MD : Unwatched BxiMD. Proof. done. Qed.
#[export] Instance unwatched_PT : Unwatched BxiPT. Proof. done. Qed.
#[export] Instance unwatched_NI : Unwatched BxiNI. Proof. done. Qed.
#[export] Instance unwatched_Queue : Unwatched BxiQueue. Proof. done. Qed.
#[export] Instance unwatched_E2E : Unwatched BxiNicE2E. Proof. done. Qed.
#[export] Instance unwatched_MainActor : Unwatched BxiMainActor. Proof. done. Qed.

Section Unwatched.
Context {T} `{Unwatched T}.

Lemma progresses_update_unwatched h (f : T -> T) w : progresses (update h f) w.
Proof.
  apply keeps_update. intros x _.
  pose proof (unwatched <[h := f x]> w) as (? & ? & ? & ? & ? & ? & ?).
  by apply evolves_frame.
Qed.

Lemma progresses_new_unwatched (x : T) w : progresses (new x) w.
Proof.
  intros a w' [= _ <-].
  pose proof (unwatched <[w_next w := x]> w) as (HN & ? & ? & ? & ? & ? & ?).
  apply evolves_new_frame; cbn; congruence.
Qed.

Lemma progresses_free_unwatched h w : progresses (free (T := T) h) w.
Proof.
  intros a w'. unfold free. case_match; [|done]. intros [= _ <-].
  pose proof (unwatched (delete h) w) as (? & ? & ? & ? & ? & ? & ?).
  by apply evolves_frame.
Qed.
End Unwatched.

Lemma progresses_update_req h f w :
  (forall q, w_reqs w !! h = Some q -> req_evolves q (f q)) ->
  progresses (update (T := BxiRequest) h f) w.
Proof. intros Hf. apply keeps_update. intros x Hx. by eapply evolves_update_req; [|apply Hf]. Qed.

Lemma progresses_update_msg h f w :
  (forall m, w_msgs w !! h = Some m ->
     ms_retry_count (f m) = ms_retry_count m \/ ms_retry_count (f m) = 0) ->
  progresses (update (T := BxiMsg) h f) w.
Proof.
  intros Hf. apply keeps_update. intros x Hx. eapply evolves_update_msg; [done|].
  intros []. unfold msg_retries_ok. destruct (Hf x Hx) as [-> | ->]; [done|lia].
Qed.

Lemma progresses_update_node h f w :
  (forall n, w_nodes w !! h = Some n ->
     nd_flowctrl_node_counts (f n) = nd_flowctrl_node_counts n /\
     nd_flowctrl_process_counts (f n) = nd_flowctrl_process_counts n) ->
  progresses (update (T := BxiNode) h f) w.
Proof.
  intros Hf. apply keeps_update. intros x Hx. eapply evolves_update_node; [done|].
  unfold node_credits_ok. destruct (Hf x Hx) as [-> ->]. auto.
Qed.

Lemma progresses_update_me h f w :
  (forall m, w_mes w !! h = Some m ->
     bme_manage_local_offset (f m) = bme_manage_local_offset m /\ bme_me (f m) = bme_me m) ->
  progresses (update (T := BxiME) h f) w.
Proof.
  intros Hf. apply keeps_update. intros x Hx. eapply evolves_update_me; [done|].
  unfold me_offset_ok. by destruct (Hf x Hx) as [-> ->].
Qed.

Lemma progresses_new_req q w : progresses (new (T := BxiRequest) q) w.
Proof. intros a w' [= _ <-]. apply evolves_new_req. Qed.

Lemma progresses_new_msg m w :
  (wf w -> msg_retries_ok (w_config w) m) -> progresses (new (T := BxiMsg) m) w.
Proof. intros Hm a w' [= _ <-]. by apply evolves_new_msg. Qed.

Lemma progresses_free_req h w : progresses (free (T := BxiRequest) h) w.
Proof. intros a w'. unfold free. case_match; [|done]. intros [= _ <-]. apply evolves_free_req. Qed.

Lemma progresses_free_msg h w : progresses (free (T := BxiMsg) h) w.
Proof. intros a w'. unfold free. case_match; [|done]. intros [= _ <-]. apply evolves_free_msg. Qed.

Lemma progresses_free_me h w : progresses (free (T := BxiME) h) w.
Proof. intros a w'. unfold free. case_match; [|done]. intros [= _ <-]. apply evolves_free_me. Qed.
