(* ===== verification/Engine.v ===== *)
(** The engine's services used by every actor: the CSV log of
    [src/BxiEngine.cpp], the pool of random mailboxes of
    [src/s4bxi_mailbox_pool.cpp] and the mailbox names of
    [src/actors/BxiActor.cpp]. *)
From S2P Require Import Prelude Portals World.

(** @src/include/s4bxi/s4bxi_util.hpp:35-35 TRUTHY_CHAR *)
Definition TRUTHY_CHAR (prop : string) : bool :=
  bool_decide (prop = "TRUE") || bool_decide (prop = "true") || bool_decide (prop = "1").

Section Engine.
Context `{Env}.

(** ** Logging *)

(** @src/src/BxiEngine.cpp:35-35 LOGS_IN_FILE *)
Definition LOGS_IN_FILE : Z := 10000.

Definition log_write (o : log_output) : SM unit :=
  modify (fun w => w <| w_log ::= fun l => l ++ [o] |>).

Definition log_file_name (folder : string) (n : Z) : string :=
  (folder ++ "/log_" ++ pretty n ++ ".csv")%string.

(** @src/src/BxiEngine.cpp:255-272 BxiEngine::log *)
Definition BxiEngine_log (log : BxiLog) : SM unit :=
  folder ← S4BXI_GLOBAL_CONFIG log_folder;
  logCount ← gets w_logCount;
  newFile ←
    (if logCount =? 0 then
       _ ← log_write (LogOpen (folder ++ "/log_0.csv")%string);
       mret true
     else if logCount mod LOGS_IN_FILE =? 0 then
       _ ← log_write LogClose;
       _ ← log_write (LogOpen (log_file_name folder (swrap 32 (logCount / LOGS_IN_FILE))));
       mret true
     else mret false);
  _ ← when newFile (log_write LogHeader);
  _ ← log_write (LogLine log);
  modify (fun w => w <| w_logCount ::= fun c => add64 c 1 |>).

(** @src/include/s4bxi/s4bxi_util.hpp:45-60 S4BXI_STARTLOG, S4BXI_WRITELOG: [body] between the
    two macros *)
Definition with_log (t : bxi_log_type) (initiator target : Z) (body : SM unit) : SM unit :=
  level ← S4BXI_GLOBAL_CONFIG log_level;
  computation ← S4BXI_GLOBAL_CONFIG log_computation;
  let must_log :=
    negb (level =? 0) && (negb (bool_decide (t = S4BXILOG_COMPUTE)) || computation) in
  start ← gets w_clock;
  _ ← body;
  if (must_log : bool) then
    e ← gets w_clock;
    BxiEngine_log (mk_log (Some start) (Some e) t initiator target)
  else mret tt.

(** ** Mailboxes *)

(** @src/src/s4bxi_mailbox_pool.cpp:26-35 get_random_mailbox *)
Definition get_random_mailbox : SM mailbox :=
  pool ← gets w_mailbox_pool;
  match pool with
  | m :: pool' => _ ← modify (fun w => w <| w_mailbox_pool := pool' |>); mret m
  | [] => r ← gets env_random_int; mret ("rand_mb_" ++ pretty r)%string
  end.

(** @src/src/s4bxi_mailbox_pool.cpp:37-43 free_random_mailbox *)
Definition free_random_mailbox (m : mailbox) : SM unit :=
  _ ← sim (SetReceiver m false);
  modify (fun w => w <| w_mailbox_pool ::= cons m |>).

(** @src/src/actors/BxiActor.cpp:100-103 BxiActor::nic_tx_mailbox_name *)
Definition nic_tx_mailbox_name (nid : Z) (vn : bxi_vn) : mailbox :=
  (pretty (swrap 32 nid) ++ "_nic_tx_" ++ pretty (vn_num vn))%string.

(** @src/src/actors/BxiActor.cpp:105-108 BxiActor::nic_rx_mailbox_name *)
Definition nic_rx_mailbox_name (nid : Z) (vn : bxi_vn) : mailbox :=
  (pretty (swrap 32 nid) ++ "_nic_rx_" ++ pretty (vn_num vn))%string.

End Engine.
