(* ===== verification/Config.v ===== *)
(** The configuration of the simulator: the constructor of [src/BxiEngine.cpp], which reads it from
    environment variables, with the numbers of the C library it parses. *)
From S2P Require Import Prelude Portals World Engine.
From Stdlib Require Import Ascii SpecFloat.

(** ** Numbers of the C library *)

Definition code (c : ascii) : Z := Z.of_N (N_of_ascii c).
Definition isspace (c : ascii) : bool := (code c =? 32) || ((9 <=? code c) && (code c <=? 13)).
Definition isdigit (c : ascii) : bool := (48 <=? code c) && (code c <=? 57).
Definition tolower (c : ascii) : Z :=
  if (65 <=? code c) && (code c <=? 90) then code c + 32 else code c.

Fixpoint skip_spaces (s : string) : string :=
  match s with String c s' => if isspace c then skip_spaces s' else s | "" => s end.

(** An optional sign: whether it is a minus, and what follows. *)
Definition sign (s : string) : bool * string :=
  match s with
  | String c s' => if code c =? 45 then (true, s') else if code c =? 43 then (false, s') else (false, s)
  | "" => (false, s)
  end.

(** The value of a digit in a base up to 16. *)
Definition digit_in (base : Z) (c : ascii) : option Z :=
  let d := if isdigit c then code c - 48
           else if (97 <=? tolower c) && (tolower c <=? 122) then tolower c - 87 else base in
  if d <? base then Some d else None.

(** A run of digits after a number [v] of [n] digits: the number, its digits, what follows. *)
Fixpoint digits (base : Z) (s : string) (v n : Z) : Z * Z * string :=
  match s with
  | String c s' =>
      match digit_in base c with
      | Some d => digits base s' (base * v + d) (n + 1)
      | None => (v, n, s)
      end
  | "" => (v, n, s)
  end.

(** [strtol(s, nullptr, 10)] before it is fitted in a type. *)
Definition decimal (s : string) : Z :=
  let '(neg, s) := sign (skip_spaces s) in
  let '(v, _, _) := digits 10 s 0 0 in
  if neg then - v else v.

(** [atoi] and [atol]: undefined when the number is not one of the type. *)
Definition in_signed (w v : Z) : bool := (- 2 ^ (w - 1) <=? v) && (v <? 2 ^ (w - 1)).
Definition ato_integer {S} (w : Z) (s : string) : M S Z :=
  _ ← assert (in_signed w (decimal s)) (Undefined "number out of range"); mret (decimal s).
Definition atoi {S} (s : string) : M S Z := ato_integer 32 s.
Definition atol {S} (s : string) : M S Z := ato_integer 64 s.

(** [n / d], rounded: the quotient is computed on more bits than the type has, the last one set
    when a rest is left. *)
Definition round_ratio (n d : Z) : double :=
  let k := Z.max 0 (66 + Z.log2 d - Z.log2 n) in
  let '(q, r) := Z.div_eucl (n * 2 ^ k) d in
  binary_normalize prec64 emax64 (2 * q + (if r =? 0 then 0 else 1)) (- (k + 1)) false.

(** [m * 10 ^ e] for [0 <= m], rounded. *)
Definition double_of_decimal (m e : Z) : double :=
  if m =? 0 then S754_zero false
  else if 0 <=? e then double_of_Z (m * 10 ^ e) else round_ratio m (10 ^ (- e)).

(** Digits with an optional point: the number they make, how many there are, how many of them
    follow the point, and what follows. *)
Definition pointed (base : Z) (s : string) : Z * Z * Z * string :=
  let '(v, n, s) := digits base s 0 0 in
  match s with
  | String c s' =>
      if code c =? 46 then
        let '(v', n', s'') := digits base s' v n in (v', n', n' - n, s'')
      else (v, n, 0, s)
  | "" => (v, n, 0, s)
  end.

(** An exponent after one of two letters, 0 when there is none. *)
Definition exponent (letter : Z) (s : string) : Z :=
  match s with
  | String c s' =>
      if tolower c =? letter then
        let '(neg, s') := sign s' in
        let '(v, n, _) := digits 10 s' 0 0 in if neg then - v else v
      else 0
  | "" => 0
  end.

Fixpoint starts_with_lower (word s : string) : bool :=
  match word, s with
  | "", _ => true
  | String a word', String c s' => (code a =? tolower c) && starts_with_lower word' s'
  | _, _ => false
  end.

Definition drop_two (s : string) : string :=
  match s with String _ (String _ s') => s' | _ => "" end.

(** [atof] *)
Definition atof (s : string) : double :=
  let '(neg, s) := sign (skip_spaces s) in
  let v :=
    if starts_with_lower "inf" s then S754_infinity false
    else if starts_with_lower "nan" s then S754_nan
    else
      let '(hm, hn, hf, hs) := pointed 16 (drop_two s) in
      if starts_with_lower "0x" s && (0 <? hn) then
        binary_normalize prec64 emax64 hm (exponent 112 hs - 4 * hf) false
      else
        let '(m, n, f, s) := pointed 10 s in
        if 0 <? n then double_of_decimal m (exponent 101 s - f) else S754_zero false in
  if neg then SFopp v else v.

Example atof_third : atof " +0.1e0x" = double_of_decimal 1 (-1). Proof. vm_compute. reflexivity. Qed.
Example atof_exact : atof "-12.5" = ddiv (double_of_Z (-25)) (double_of_Z 2).
Proof. vm_compute. reflexivity. Qed.
Example atof_nano : atof "1e-9" = S754_finite false 4835703278458517 (-82).
Proof. vm_compute. reflexivity. Qed.
Example atof_hex : atof "0x1.8p1" = double_of_Z 3. Proof. vm_compute. reflexivity. Qed.

(** ** The parameters *)

(** The environment of the process; reading it does not change it. *)
Abbreviation Environment := (gmap string string).
Abbreviation EnvM := (M Environment).

Definition getenv (name : string) : EnvM (option string) := gets (fun env => env !! name).

(** @src/src/BxiEngine.cpp:212-215 BxiEngine::get_s4bxi_param *)
Definition get_s4bxi_param (name : string) : EnvM (option string) := getenv ("S4BXI_" ++ name).

(** @src/src/BxiEngine.cpp:217-222 BxiEngine::get_double_s4bxi_param *)
Definition get_double_s4bxi_param (name : string) (default_val : double) : EnvM double :=
  env ← get_s4bxi_param name;
  match env with Some v => mret (atof v) | None => mret default_val end.

(** @src/src/BxiEngine.cpp:224-229 BxiEngine::get_int_s4bxi_param *)
Definition get_int_s4bxi_param (name : string) (default_val : Z) : EnvM Z :=
  env ← get_s4bxi_param name;
  match env with Some v => atoi v | None => mret default_val end.

(** @src/src/BxiEngine.cpp:231-236 BxiEngine::get_long_s4bxi_param *)
Definition get_long_s4bxi_param (name : string) (default_val : Z) : EnvM Z :=
  env ← get_s4bxi_param name;
  match env with Some v => atol v | None => mret default_val end.

(** @src/src/BxiEngine.cpp:238-246 BxiEngine::get_bool_s4bxi_param *)
Definition get_bool_s4bxi_param (name : string) (default_val : bool) : EnvM bool :=
  env ← get_s4bxi_param name;
  match env with Some v => mret (TRUTHY_CHAR v) | None => mret default_val end.

(** @src/src/BxiEngine.cpp:248-253 BxiEngine::get_string_s4bxi_param *)
Definition get_string_s4bxi_param (name : string) (default_val : string) : EnvM string :=
  env ← get_s4bxi_param name;
  match env with Some v => mret v | None => mret default_val end.

Definition double_of_bool (b : bool) : double := double_of_Z (if b then 1 else 0).

(** The configuration is created with indeterminate fields, and every field is then assigned. *)
(** @src/src/BxiEngine.cpp:42-78 BxiEngine::BxiEngine *)
Definition BxiEngine_new : EnvM s4bxi_config :=
  max_retries ← get_int_s4bxi_param "MAX_RETRIES" 5;
  retry_timeout ← get_double_s4bxi_param "RETRY_TIMEOUT" (double_of_Z 10);
  use_real_memory ← get_bool_s4bxi_param "USE_REAL_MEMORY" true;
  model_pci ← get_bool_s4bxi_param "MODEL_PCI" true;
  model_pci_commands ←
    (if (model_pci : bool) then get_bool_s4bxi_param "MODEL_PCI_COMMANDS" true else mret false);
  e2e_off ← get_bool_s4bxi_param "E2E_OFF" false;
  log_folder ← get_string_s4bxi_param "LOG_FOLDER" "/dev/null";
  log_computation ← get_bool_s4bxi_param "LOG_COMPUTATION" true;
  let log_level := if bool_decide (log_folder = "/dev/null"%string) then 0 else 1 in
  privatize_libs ← get_string_s4bxi_param "PRIVATIZE_LIBS" "";
  keep_temps ← get_bool_s4bxi_param "KEEP_TEMPS" false;
  max_memcpy ← get_long_s4bxi_param "MAX_MEMCPY" (-1);
  cpu_factor ← get_double_s4bxi_param "CPU_FACTOR" (double_of_Z 1);
  cpu_threshold ← get_double_s4bxi_param "CPU_THRESHOLD" (double_of_decimal 1 (-9));
  cpu_accumulate ← get_bool_s4bxi_param "CPU_ACCUMULATE" false;
  active_polling_delay ←
    get_double_s4bxi_param "ACTIVE_POLLING_DELAY" (double_of_decimal 1 (-8));
  quick_acks ← get_bool_s4bxi_param "QUICK_ACKS" false;
  auto_shared_malloc_thresh ← get_double_s4bxi_param "SHARED_MALLOC_THRESH" (double_of_Z 1);
  shared_malloc_hugepage ← get_string_s4bxi_param "SHARED_MALLOC_HUGEPAGE" "";
  shared_malloc_blocksize ← get_long_s4bxi_param "SHARED_MALLOC_BLOCKSIZE" 1048576;
  max_inflight_to_target ← get_int_s4bxi_param "MAX_INFLIGHT_TO_TARGET" 0;
  max_inflight_to_process ← get_int_s4bxi_param "MAX_INFLIGHT_TO_PROCESS" 0;
  no_dlclose ← get_bool_s4bxi_param "NO_DLCLOSE" false;
  use_pugixml ← get_bool_s4bxi_param "USE_PUGIXML" false;
  s ← get_string_s4bxi_param "SHARED_MALLOC" "none";
  let shared_malloc :=
    if bool_decide (s = "local"%string) then 1
    else if bool_decide (s = "global"%string) then 2 else 0 in
  mret {| max_retries := max_retries; retry_timeout := retry_timeout;
          use_real_memory := use_real_memory; model_pci := model_pci;
          model_pci_commands := model_pci_commands; e2e_off := e2e_off;
          log_folder := log_folder; log_computation := log_computation;
          log_level := log_level; privatize_libs := privatize_libs; keep_temps := keep_temps;
          max_memcpy := max_memcpy; cpu_factor := cpu_factor; cpu_threshold := cpu_threshold;
          active_polling_delay := active_polling_delay;
          cpu_accumulate := double_of_bool cpu_accumulate; quick_acks := quick_acks;
          auto_shared_malloc_thresh := auto_shared_malloc_thresh;
          shared_malloc := shared_malloc; shared_malloc_hugepage := shared_malloc_hugepage;
          shared_malloc_blocksize := u64 shared_malloc_blocksize;
          max_inflight_to_target := max_inflight_to_target;
          max_inflight_to_process := max_inflight_to_process; no_dlclose := no_dlclose;
          use_pugixml := use_pugixml |}.

(** The configuration when no variable is set. *)
Definition default_config : option s4bxi_config :=
  match BxiEngine_new ∅ with Ok c _ => Some c | Fail _ => None end.

(** ** Theorems *)

(** The types and the dependencies of the fields ([s4bxi_config.hpp]). *)
Definition int_typed (v : Z) : Prop := - 2 ^ 31 <= v < 2 ^ 31.
Definition long_typed (v : Z) : Prop := - 2 ^ 63 <= v < 2 ^ 63.
Definition ulong_typed (v : Z) : Prop := 0 <= v < 2 ^ 64.

Record config_typed (c : s4bxi_config) : Prop := {
  typed_retries : int_typed (max_retries c);
  typed_memcpy : long_typed (max_memcpy c);
  typed_blocksize : ulong_typed (shared_malloc_blocksize c);
  typed_target : int_typed (max_inflight_to_target c);
  typed_process : int_typed (max_inflight_to_process c);
  typed_pci : model_pci_commands c = true -> model_pci c = true;
  typed_level : log_level c = if decide (log_folder c = "/dev/null"%string) then 0 else 1;
  typed_shared : shared_malloc c ∈ [0; 1; 2];
  typed_accumulate : cpu_accumulate c = double_of_Z 0 \/ cpu_accumulate c = double_of_Z 1 }.

(** The variable, when it is set, holds a number of [w] bits. *)
Definition fits (env : Environment) (w : Z) (name : string) : Prop :=
  match env !! ("S4BXI_" ++ name)%string with
  | Some v => in_signed w (decimal v) = true
  | None => True
  end.

Lemma int_param_spec name d env v env' :
  int_typed d -> get_int_s4bxi_param name d env = Ok v env' -> env' = env /\ int_typed v.
Proof.
  unfold get_int_s4bxi_param, get_s4bxi_param, getenv, atoi, ato_integer. intros Hd Hr.
  inv_run. case_match; inv_run; [|done]. split; [done|].
  unfold in_signed, int_typed in *. simpl in *. lia.
Qed.

Lemma long_param_spec name d env v env' :
  long_typed d -> get_long_s4bxi_param name d env = Ok v env' -> env' = env /\ long_typed v.
Proof.
  unfold get_long_s4bxi_param, get_s4bxi_param, getenv, atol, ato_integer. intros Hd Hr.
  inv_run. case_match; inv_run; [|done]. split; [done|].
  unfold in_signed, long_typed in *. simpl in *. lia.
Qed.

(** The other parameters always have a value. *)
Lemma double_param_run name d env : exists v, get_double_s4bxi_param name d env = Ok v env.
Proof.
  unfold get_double_s4bxi_param, get_s4bxi_param, getenv. cbv [mbind M_bind gets].
  case_match; by eexists.
Qed.
Lemma bool_param_run name d env : exists v, get_bool_s4bxi_param name d env = Ok v env.
Proof.
  unfold get_bool_s4bxi_param, get_s4bxi_param, getenv. cbv [mbind M_bind gets].
  case_match; by eexists.
Qed.
Lemma string_param_run name d env : exists v, get_string_s4bxi_param name d env = Ok v env.
Proof.
  unfold get_string_s4bxi_param, get_s4bxi_param, getenv. cbv [mbind M_bind gets].
  case_match; by eexists.
Qed.
Lemma int_param_run name d env :
  fits env 32 name -> int_typed d -> exists v, get_int_s4bxi_param name d env = Ok v env /\ int_typed v.
Proof.
  unfold fits, get_int_s4bxi_param, get_s4bxi_param, getenv, atoi, ato_integer.
  cbv [mbind M_bind gets]. intros Hfit Hd. case_match; [|by eexists].
  rewrite Hfit. eexists. split; [done|]. unfold in_signed, int_typed in *. simpl in *. lia.
Qed.
Lemma long_param_run name d env :
  fits env 64 name -> long_typed d ->
  exists v, get_long_s4bxi_param name d env = Ok v env /\ long_typed v.
Proof.
  unfold fits, get_long_s4bxi_param, get_s4bxi_param, getenv, atol, ato_integer.
  cbv [mbind M_bind gets]. intros Hfit Hd. case_match; [|by eexists].
  rewrite Hfit. eexists. split; [done|]. unfold in_signed, long_typed in *. simpl in *. lia.
Qed.

(** Runs the next parameter. *)
Ltac next_param :=
  match goal with
  | |- context [mbind _ (get_double_s4bxi_param ?n ?d) ?env] =>
      destruct (double_param_run n d env) as [? ?]
  | |- context [mbind _ (get_bool_s4bxi_param ?n ?d) ?env] =>
      destruct (bool_param_run n d env) as [? ?]
  | |- context [mbind _ (get_string_s4bxi_param ?n ?d) ?env] =>
      destruct (string_param_run n d env) as [? ?]
  | |- context [mbind _ (get_int_s4bxi_param ?n ?d) ?env] =>
      destruct (int_param_run n d env) as (? & ? & ?); [done|done|]
  | |- context [mbind _ (get_long_s4bxi_param ?n ?d) ?env] =>
      destruct (long_param_run n d env) as (? & ? & ?); [done|done|]
  end;
  match goal with H : ?c ?env = Ok ?v ?env |- context [mbind ?f ?c ?env] =>
    rewrite (bind_run c f env v env H) end.

(** C34. The configuration is read whatever the environment holds, as long as its integers fit their
    types; it is then well typed: integers in range, PCI commands modelled only when PCI is, the
    log level the one of the folder, one of the three kinds of shared allocations. *)
Theorem config_well_typed env :
  fits env 32 "MAX_RETRIES" -> fits env 64 "MAX_MEMCPY" ->
  fits env 64 "SHARED_MALLOC_BLOCKSIZE" -> fits env 32 "MAX_INFLIGHT_TO_TARGET" ->
  fits env 32 "MAX_INFLIGHT_TO_PROCESS" ->
  exists c, BxiEngine_new env = Ok c env /\ config_typed c.
Proof.
  intros. unfold BxiEngine_new.
  do 4 next_param.
  match goal with |- context [mbind ?f (if ?b then ?c else mret false) env] =>
    assert (exists v, (if b then c else mret false) env = Ok v env /\ (v = true -> b = true))
      as (pci & Hpci & Himp) by (destruct b; [destruct (bool_param_run "MODEL_PCI_COMMANDS" true env)
        as [v ->]; by exists v|by exists false]);
    rewrite (bind_run _ f env pci env Hpci) end.
  do 19 next_param. eexists. split; [done|].
  constructor; cbn -[double_of_Z u64]; try done.
  - apply wrap_range. done.
  - case_bool_decide; case_decide; done.
  - repeat case_bool_decide; set_solver.
  - unfold double_of_bool. match goal with |- context [if ?b then _ else _] => destruct b end; auto.
Qed.

(** Without any variable the simulator retries five times after ten seconds, copies whole
    payloads, models PCI and its commands, shares nothing, does not limit the messages in flight
    and writes no log; it ignores computations below a nanosecond. *)
Theorem config_defaults :
  exists c, BxiEngine_new ∅ = Ok c ∅ /\
  max_retries c = 5 /\ retry_timeout c = double_of_Z 10 /\ use_real_memory c = true /\
  model_pci c = true /\ model_pci_commands c = true /\ e2e_off c = false /\
  log_level c = 0 /\ max_memcpy c = -1 /\ cpu_factor c = double_of_Z 1 /\
  cpu_threshold c = atof "1e-9" /\ quick_acks c = false /\ shared_malloc c = 0 /\
  max_inflight_to_target c = 0 /\ max_inflight_to_process c = 0.
Proof. eexists. split; [vm_compute; reflexivity|]. vm_compute. intuition reflexivity. Qed.
