(* ===== verification/Queue.v ===== *)
(** [BxiQueue] ([src/BxiQueue.cpp]): the FIFO that carries messages to the NIC's
    transmitters, either a SimGrid mailbox or a [std::queue] guarded by a
    semaphore. *)
From S2P Require Import Prelude Portals World.

Section Queue.
Context `{Env}.

(** @src/src/BxiQueue.cpp:22-25 BxiQueue::BxiQueue *)
Definition BxiQueue_new : SM handle := new (mk_Queue [] None).

(** @src/src/BxiQueue.cpp:27-31 BxiQueue::BxiQueue(const string&) *)
Definition BxiQueue_new_mailbox (mailbox_name : mailbox) : SM handle :=
  _ ← sim (SetReceiver mailbox_name true);
  new (mk_Queue [] (Some mailbox_name)).

(** @src/src/BxiQueue.cpp:33-45 BxiQueue::put *)
Definition BxiQueue_put (q : handle) (msg : handle) (size : Z) (async : bool) : SM unit :=
  queue ← load (T := BxiQueue) q;
  match q_mailbox queue with
  | Some mb =>
      if async then sim (CommDetach (CommPut mb (PMsg msg) size))
      else sim (CommWait (CommPut mb (PMsg msg) size))
  | None =>
      _ ← update q (over q_to_process (fun l => l ++ [msg]));
      sim (SemRelease (SemQueue q))
  end.

(** @src/src/BxiQueue.cpp:47-64 BxiQueue::get ([front()] of an empty queue is undefined) *)
Definition BxiQueue_get (q : handle) : SM handle :=
  queue ← load (T := BxiQueue) q;
  match q_mailbox queue with
  | Some mb =>
      _ ← sim (GetWait mb);
      p ← gets (fun w => env_received w mb);
      match p with
      | PMsg m => mret m
      | _ => fail (Undefined "not a message")
      end
  | None =>
      _ ← sim (SemAcquire (SemQueue q));
      queue ← load (T := BxiQueue) q;
      match q_to_process queue with
      | msg :: rest => _ ← update q (fun x => x <| q_to_process := rest |>); mret msg
      | [] => fail (Undefined "front() of an empty queue")
      end
  end.

(** @src/src/BxiQueue.cpp:66-72 BxiQueue::ready *)
Definition BxiQueue_ready (q : handle) : SM bool :=
  queue ← load (T := BxiQueue) q;
  match q_mailbox queue with
  | Some mb => gets (fun w => env_mailbox_ready w mb)
  | None => gets (fun w => negb (env_would_block w (SemQueue q)))
  end.

(** @src/src/BxiQueue.cpp:74-79 BxiQueue::size *)
Definition BxiQueue_size (q : handle) : SM Z :=
  queue ← load (T := BxiQueue) q;
  match q_mailbox queue with
  | Some mb => gets (fun w => env_mailbox_size w mb)
  | None => mret (Z.of_nat (length (q_to_process queue)))
  end.
End Queue.
