(* ===== verification/Messages.v ===== *)
(** Messages and requests ([src/s4ptl/BxiMsg.cpp], the constructors of
    [src/s4ptl/BxiRequest.cpp]): reference counting and classification. *)
From S2P Require Import Prelude Portals World.

Section Messages.
Context `{Env}.

(** ** Requests *)

(** @src/src/s4ptl/BxiRequest.cpp:25-41 BxiRequest::BxiRequest (the fields the subclasses add
    hold placeholders here; [md] is copied, so the request owns its descriptor) *)
Definition BxiRequest_init (cls : request_class) (type : bxi_req_type) (md : BxiMD)
    (payload_size : Z) (matching : bool) (match_bits target_pid pt_index user_ptr : Z)
    (service_vn : bool) (local_offset remote_offset : Z) : BxiRequest := {|
  rq_class := cls;
  rq_type := type; rq_mlength := None; rq_payload_size := payload_size; rq_md := md;
  rq_matching := matching; rq_match_bits := match_bits; rq_target_pid := target_pid;
  rq_pt_index := pt_index; rq_process_state := S4BXI_REQ_CREATED; rq_msg_ref_count := 0;
  rq_user_ptr := user_ptr; rq_service_vn := service_vn; rq_local_offset := local_offset;
  rq_remote_offset := remote_offset; rq_target_remote_offset := None; rq_start := None;
  rq_matched_me := None;
  rq_ack_req := PTL_NO_ACK_REQ; rq_hdr := 0; rq_send_event_issued := false;
  rq_op := PTL_MIN; rq_datatype := PTL_INT8_T;
  rq_get_md := None; rq_get_local_offset := 0; rq_fetch_atomic_event_issued := false;
  rq_cst := None; rq_get_event_issued := false |}.

(** @src/src/s4ptl/BxiRequest.cpp:43-52 BxiPutRequest::BxiPutRequest *)
Definition BxiPutRequest_init (md : BxiMD) (payload_size : Z) (matching : bool)
    (match_bits target_pid pt_index user_ptr : Z) (service_vn : bool)
    (local_offset remote_offset ack_req hdr : Z) : BxiRequest :=
  BxiRequest_init BxiPutRequest S4BXI_PUT_REQUEST md payload_size matching match_bits
    target_pid pt_index user_ptr service_vn local_offset remote_offset
    <| rq_ack_req := ack_req |> <| rq_hdr := hdr |>.

(** @src/src/s4ptl/BxiRequest.cpp:106-116 BxiAtomicRequest::BxiAtomicRequest *)
Definition BxiAtomicRequest_init (md : BxiMD) (payload_size : Z) (matching : bool)
    (match_bits target_pid pt_index user_ptr : Z) (service_vn : bool)
    (local_offset remote_offset ack_req hdr : Z) (op : ptl_op) (datatype : ptl_datatype)
    : BxiRequest :=
  BxiPutRequest_init md payload_size matching match_bits target_pid pt_index user_ptr
    service_vn local_offset remote_offset ack_req hdr
    <| rq_class := BxiAtomicRequest |>
    <| rq_op := op |> <| rq_datatype := datatype |> <| rq_type := S4BXI_ATOMIC_REQUEST |>.

(** @src/src/s4ptl/BxiRequest.cpp:118-129 BxiFetchAtomicRequest::BxiFetchAtomicRequest *)
Definition BxiFetchAtomicRequest_init (md : BxiMD) (payload_size : Z) (matching : bool)
    (match_bits target_pid pt_index user_ptr : Z) (service_vn : bool)
    (local_offset remote_offset hdr : Z) (op : ptl_op) (datatype : ptl_datatype)
    (get_md : BxiMD) (get_local_offset : Z) : BxiRequest :=
  BxiAtomicRequest_init md payload_size matching match_bits target_pid pt_index user_ptr
    service_vn local_offset remote_offset PTL_NO_ACK_REQ hdr op datatype
    <| rq_class := BxiFetchAtomicRequest |>
    <| rq_get_md := Some get_md |> <| rq_get_local_offset := get_local_offset |>
    <| rq_type := S4BXI_FETCH_ATOMIC_REQUEST |>.

(** @src/src/s4ptl/BxiRequest.cpp:149-157 BxiSwapRequest::BxiSwapRequest *)
Definition BxiSwapRequest_init (md : BxiMD) (payload_size : Z) (matching : bool)
    (match_bits target_pid pt_index user_ptr : Z) (service_vn : bool)
    (local_offset remote_offset hdr : Z) (op : ptl_op) (datatype : ptl_datatype)
    (get_md : BxiMD) (get_local_offset cst : Z) : BxiRequest :=
  BxiFetchAtomicRequest_init md payload_size matching match_bits target_pid pt_index user_ptr
    service_vn local_offset remote_offset hdr op datatype get_md get_local_offset
    <| rq_class := BxiSwapRequest |> <| rq_cst := Some cst |>.

(** @src/src/s4ptl/BxiRequest.cpp:159-165 BxiGetRequest::BxiGetRequest *)
Definition BxiGetRequest_init (md : BxiMD) (payload_size : Z) (matching : bool)
    (match_bits target_pid pt_index user_ptr : Z) (service_vn : bool)
    (local_offset remote_offset : Z) : BxiRequest :=
  BxiRequest_init BxiGetRequest S4BXI_GET_REQUEST md payload_size matching match_bits
    target_pid pt_index user_ptr service_vn local_offset remote_offset.

(** The C-style casts of a request pointer to a subclass: using a field of a class the object
    is not an instance of is undefined. *)
Definition is_put_like (c : request_class) : bool :=
  match c with BxiGetRequest => false | _ => true end.
Definition is_fetch_like (c : request_class) : bool :=
  match c with BxiFetchAtomicRequest | BxiSwapRequest => true | _ => false end.
Definition is_atomic_like (c : request_class) : bool :=
  match c with BxiGetRequest | BxiPutRequest => false | _ => true end.
Definition is_get_request (c : request_class) : bool :=
  match c with BxiGetRequest => true | _ => false end.
Definition cast_request (p : request_class -> bool) (r : handle) : SM BxiRequest :=
  req ← load (T := BxiRequest) r;
  _ ← assert (p (rq_class req)) (Undefined "request of another class");
  mret req.

(** @src/src/s4ptl/BxiRequest.cpp:131-147 BxiFetchAtomicRequest::is_swap_request *)
Definition is_swap_request (op : ptl_op) : bool :=
  match op with
  | PTL_SWAP | PTL_CSWAP | PTL_CSWAP_NE | PTL_CSWAP_LE | PTL_CSWAP_LT | PTL_CSWAP_GE
  | PTL_CSWAP_GT | PTL_MSWAP => true
  | _ => false
  end.

(** ** Messages *)

Definition incr_msg_ref_count (r : handle) : SM unit :=
  update (T := BxiRequest) r (over rq_msg_ref_count (fun c => u32 (c + 1))).

(** @src/src/s4ptl/BxiMsg.cpp:23-35 BxiMsg::BxiMsg *)
Definition BxiMsg_new (initiator target : Z) (type : bxi_msg_type) (simulated_size : Z)
    (parent_request : handle) : SM handle :=
  m ← new {| ms_initiator := initiator; ms_target := target; ms_type := type;
             ms_simulated_size := simulated_size; ms_retry_count := 0;
             ms_parent_request := parent_request; ms_ref_count := 1; ms_is_PIO := false;
             ms_send_init_time := None; ms_ni_fail_type := PTL_NI_OK;
             ms_answers_msg := NULL; ms_bxi_log := None |};
  _ ← incr_msg_ref_count parent_request;
  mret m.

(** @src/src/s4ptl/BxiMsg.cpp:37-50 BxiMsg::BxiMsg(const BxiMsg&) *)
Definition BxiMsg_copy (msg : handle) : SM handle :=
  x ← load (T := BxiMsg) msg;
  m ← new {| ms_initiator := ms_initiator x; ms_target := ms_target x; ms_type := ms_type x;
             ms_send_init_time := ms_send_init_time x;
             ms_simulated_size := ms_simulated_size x; ms_retry_count := ms_retry_count x;
             ms_parent_request := ms_parent_request x; ms_ref_count := 1;
             ms_bxi_log := None; ms_is_PIO := false;
             ms_ni_fail_type := PTL_NI_OK; ms_answers_msg := NULL |};
  _ ← incr_msg_ref_count (ms_parent_request x);
  mret m.

(** @src/src/s4ptl/BxiMsg.cpp:60-75 BxiMsg::~BxiMsg (the request's part: the [switch] deletes
    the request as an object of the class its type names) *)
Definition release_parent_request (r : handle) : SM unit :=
  _ ← update (T := BxiRequest) r (over rq_msg_ref_count (fun c => u32 (c - 1)));
  req ← load (T := BxiRequest) r;
  when (rq_msg_ref_count req =? 0) (free (T := BxiRequest) r).

(** @src/src/s4ptl/BxiMsg.cpp:55-76 BxiMsg::~BxiMsg, then the release of the object's memory *)
Definition destroy_msg (unref_answered : handle -> SM unit) (msg : handle) : SM unit :=
  x ← load (T := BxiMsg) msg;
  _ ← (if (ms_answers_msg x =? NULL)%N then mret tt else unref_answered (ms_answers_msg x));
  _ ← release_parent_request (ms_parent_request x);
  free (T := BxiMsg) msg.

(** @src/src/s4ptl/BxiMsg.cpp:78-82 BxiMsg::unref.  The destructor drops a reference to the
    message this one answers, which may destroy that one in turn: [fuel] bounds the chain. *)
Fixpoint unref_fuel (fuel : nat) (msg : handle) : SM unit :=
  match fuel with
  | O => fail OutOfFuel
  | S fuel' =>
      _ ← update (T := BxiMsg) msg (over ms_ref_count (fun c => u32 (c - 1)));
      x ← load (T := BxiMsg) msg;
      if ms_ref_count x =? 0 then destroy_msg (unref_fuel fuel') msg else mret tt
  end.

(** @src/src/s4ptl/BxiMsg.cpp:78-82 BxiMsg::unref: a message is older than the messages that
    answer it, so its own handle bounds the chain. *)
Definition unref (msg : handle) : SM unit := unref_fuel (S (N.to_nat msg)) msg.

(** @src/src/s4ptl/BxiMsg.cpp:55-76 [delete msg] *)
Definition BxiMsg_delete (msg : handle) : SM unit := destroy_msg unref msg.

(** @src/src/s4ptl/BxiMsg.cpp:84-97 BxiMsg::get_vn (the value computed from the message's type
    and its request's network) *)
Definition vn_of (type : bxi_msg_type) (service_vn : bool) : Z :=
  let num :=
    match type with
    | S4BXI_PTL_PUT | S4BXI_PTL_GET | S4BXI_PTL_ATOMIC | S4BXI_PTL_FETCH_ATOMIC =>
        vn_num S4BXI_VN_SERVICE_REQUEST
    | _ => vn_num S4BXI_VN_SERVICE_RESPONSE
    end in
  if service_vn then num else num + 1.

(** @src/src/s4ptl/BxiMsg.cpp:84-97 BxiMsg::get_vn *)
Definition get_vn (msg : handle) : SM bxi_vn :=
  x ← load (T := BxiMsg) msg;
  req ← load (T := BxiRequest) (ms_parent_request x);
  of_option (vn_of_num (vn_of (ms_type x) (rq_service_vn req))) (Abort "get_vn").

(** @src/src/s4bxi_util.cpp:74-104 msg_type_c_str *)
Definition msg_type_c_str (t : bxi_msg_type) : string :=
  match t with
  | S4BXI_E2E_ACK => "S4BXI_E2E_ACK"
  | S4BXI_PTL_ACK => "S4BXI_PTL_ACK"
  | S4BXI_PTL_GET_RESPONSE => "S4BXI_PTL_GET_RESPONSE"
  | S4BXI_PTL_PUT => "S4BXI_PTL_PUT"
  | S4BXI_PTL_GET => "S4BXI_PTL_GET"
  | S4BXI_PTL_ATOMIC => "S4BXI_PTL_ATOMIC"
  | S4BXI_PTL_FETCH_ATOMIC => "S4BXI_PTL_FETCH_ATOMIC"
  | S4BXI_PTL_FETCH_ATOMIC_RESPONSE => "S4BXI_PTL_FETCH_ATOMIC_RESPONSE"
  end.

(** [BxiQueue::clear] needs [unref]. *)
Fixpoint clear_fuel (fuel : nat) (q : handle) : SM unit :=
  match fuel with
  | O => fail OutOfFuel
  | S fuel' =>
      queue ← load (T := BxiQueue) q;
      match q_to_process queue with
      | [] => mret tt
      | msg :: _ =>
          _ ← unref msg;
          _ ← update (T := BxiQueue) q (over q_to_process tail);
          clear_fuel fuel' q
      end
  end.

(** @src/src/BxiQueue.cpp:81-90 BxiQueue::clear *)
Definition BxiQueue_clear (q : handle) : SM unit :=
  queue ← load (T := BxiQueue) q;
  clear_fuel (S (length (q_to_process queue))) q.
End Messages.
