(* ===== verification/Node.v ===== *)
(** [BxiNode] ([src/BxiNode.cpp]): PCI transfers, event delivery and the
    credit-based flow control between nodes and between processes. *)
From S2P Require Import Prelude Portals World Engine Queue Messages.

Section Node.
Context `{Env}.

(** @src/include/s4bxi/s4ptl.hpp:34-36 message sizes *)
Definition ACK_SIZE : Z := 32.
Definition EVENT_SIZE : Z := 96.
Definition COMMAND_SIZE : Z := 64.

(** @src/include/s4bxi/s4bxi_util.hpp:29-33 PCI directions and capacities *)
Definition PCI_CPU_TO_NIC : bool := true.
Definition PCI_NIC_TO_CPU : bool := false.
Definition CQ_INITIAL_CAPACITY : Z := 16.
Definition MAX_E2E_ENTRIES : Z := 8192.

(** @src/src/BxiNode.cpp:26-26 BxiNode::BxiNode (with the initialisers of the class; the hosts
    are set by the actors) *)
Definition BxiNode_new (nid main_host nic_host : Z) : SM handle :=
  new {| nd_used_pids := []; nd_ni_handles := []; nd_nid := nid; nd_main_host := main_host;
         nd_nic_host := nic_host; nd_e2e_actor := NULL; nd_tx_queues := ∅;
         nd_flowctrl_node_counts := ∅; nd_flowctrl_process_counts := ∅;
         nd_flowctrl_waiting_messages := ∅; nd_use_real_memory := true; nd_model_pci := true;
         nd_model_pci_commands := true; nd_e2e_off := true; nd_e2e_retried := 0;
         nd_e2e_gave_up := 0 |}.

(** The two ends of a transfer, as the first lines of each [pci_transfer] compute them. *)
Definition pci_source (n : BxiNode) (direction : bool) : Z :=
  if Bool.eqb direction PCI_CPU_TO_NIC then nd_main_host n else nd_nic_host n.
Definition pci_dest (n : BxiNode) (direction : bool) : Z :=
  if Bool.eqb direction PCI_NIC_TO_CPU then nd_main_host n else nd_nic_host n.

(** @src/src/BxiNode.cpp:28-36 BxiNode::pci_transfer *)
Definition pci_transfer (node : handle) (size : Z) (direction : bool) (type : bxi_log_type)
    : SM unit :=
  n ← load (T := BxiNode) node;
  with_log type (nd_nid n) (nd_nid n)
    (sim (CommWait (CommSendto (pci_source n direction) (pci_dest n direction) size))).

(** @src/src/BxiNode.cpp:55-81 BxiNode::pci_transfer_init *)
Definition pci_transfer_init (node : handle) (size : Z) (direction : bool)
    (type : bxi_log_type) : SM comm :=
  n ← load (T := BxiNode) node;
  mret (CommSendto (pci_source n direction) (pci_dest n direction) size).

(** @src/src/BxiNode.cpp:38-53 BxiNode::pci_transfer_async *)
Definition pci_transfer_async (node : handle) (size : Z) (direction : bool)
    (type : bxi_log_type) (detach : bool) : SM comm :=
  c ← pci_transfer_init node size direction type;
  level ← S4BXI_GLOBAL_CONFIG log_level;
  n ← load (T := BxiNode) node;
  _ ← (if negb (level =? 0) then sim (SpawnPciLogger c type (nd_nid n))
       else if (detach : bool) then sim (CommDetach c) else sim (CommStart c));
  mret c.

(** @src/src/BxiNode.cpp:83-91 BxiNode::issue_event *)
Definition issue_event (node : handle) (eq : handle) (ev : ptl_event) : SM unit :=
  if (eq =? PTL_EQ_NONE)%N then mret tt else
  model ← S4BXI_CONFIG_AND node nd_model_pci_commands model_pci_commands;
  _ ← when model (pci_transfer node EVENT_SIZE PCI_NIC_TO_CPU S4BXILOG_PCI_EVENT);
  e ← load (T := BxiEQ) eq;
  sim (CommDetach (CommPut (eq_mailbox e) (PEvent ev) 0)).

(** ** Flow control *)

Definition is_request_vn (vn : bxi_vn) : bool :=
  match vn with S4BXI_VN_COMPUTE_REQUEST | S4BXI_VN_SERVICE_REQUEST => true | _ => false end.

(** The counter under key [k], created full when it does not exist. *)
Definition ensure_node_count (node : handle) (k : bxi_vn * Z) (max : Z) : SM Z :=
  n ← load (T := BxiNode) node;
  match nd_flowctrl_node_counts n !! k with
  | Some c => mret c
  | None => _ ← update node (over nd_flowctrl_node_counts <[k := max]>); mret max
  end.
Definition ensure_process_count (node : handle) (k : bxi_vn * flowctrl_process_id) (max : Z)
    : SM Z :=
  n ← load (T := BxiNode) node;
  match nd_flowctrl_process_counts n !! k with
  | Some c => mret c
  | None => _ ← update node (over nd_flowctrl_process_counts <[k := max]>); mret max
  end.

(** @src/src/BxiNode.cpp:102-120 BxiNode::check_flowctrl (node level): may the message go?
    [true] when the level is disabled or has a credit left *)
Definition check_node_level (node : handle) (vn : bxi_vn) (target : Z) (max : Z) : SM bool :=
  if max =? 0 then mret true else
  c ← ensure_node_count node (vn, target) max;
  _ ← assert (0 <=? c) (Abort "Node flow control has less than 0 credits");
  mret (negb (c =? 0)).

(** @src/src/BxiNode.cpp:122-148 BxiNode::check_flowctrl (process level) *)
Definition check_process_level (node : handle) (vn : bxi_vn) (f_id : flowctrl_process_id)
    (max : Z) : SM bool :=
  if max =? 0 then mret true else
  c ← ensure_process_count node (vn, f_id) max;
  _ ← assert (0 <=? c) (Abort "Process flow control has less than 0 credits");
  mret (negb (c =? 0)).

(** @src/src/BxiNode.cpp:125-130 the process-level key of a message *)
Definition flowctrl_key (vn : bxi_vn) (req_src req_target target : Z) : flowctrl_process_id :=
  if is_request_vn vn then mk_fpid req_src req_target target
  else mk_fpid req_target req_src target.

(** @src/src/BxiNode.cpp:93-159 BxiNode::check_flowctrl *)
Definition check_flowctrl (node : handle) (msg : handle) : SM bool :=
  n ← load (T := BxiNode) node;
  m ← load (T := BxiMsg) msg;
  if nd_e2e_off n || bool_decide (ms_type m = S4BXI_E2E_ACK)
     || negb (ms_retry_count m =? 0) then mret true else
  vn ← get_vn msg;
  max_inflight_to_target ← S4BXI_GLOBAL_CONFIG max_inflight_to_target;
  node_ok ← check_node_level node vn (ms_target m) max_inflight_to_target;
  if negb node_ok then mret false else
  max_inflight_to_process ← S4BXI_GLOBAL_CONFIG max_inflight_to_process;
  req ← load (T := BxiRequest) (ms_parent_request m);
  ni ← load (T := BxiNI) (bmd_ni (rq_md req));
  let f_id := flowctrl_key vn (ni_pid ni) (rq_target_pid req) (ms_target m) in
  process_ok ← check_process_level node vn f_id max_inflight_to_process;
  if negb process_ok then mret false else
  _ ← when (negb (max_inflight_to_target =? 0))
        (update node (over nd_flowctrl_node_counts (alter Z.pred (vn, ms_target m))));
  _ ← when (negb (max_inflight_to_process =? 0))
        (update node (over nd_flowctrl_process_counts (alter Z.pred (vn, f_id))));
  mret true.

(** @src/src/BxiNode.cpp:161-167 BxiNode::acquire_e2e_entry *)
Definition acquire_e2e_entry (node : handle) (msg : handle) : SM unit :=
  n ← load (T := BxiNode) node;
  if nd_e2e_off n then mret tt else sim (SemAcquire (SemE2E node)).

(** @src/src/BxiNode.cpp:212-218 BxiNode::resume_waiting_tx_actors *)
Fixpoint resume_fuel (fuel : nat) (node : handle) (vn : bxi_vn) : SM unit :=
  match fuel with
  | O => fail OutOfFuel
  | S fuel' =>
      n ← load (T := BxiNode) node;
      match default [] (nd_flowctrl_waiting_messages n !! vn) with
      | [] => mret tt
      | msg :: _ =>
          q ← of_option (nd_tx_queues n !! vn) (Undefined "no transmission queue");
          _ ← BxiQueue_put q msg 0 true;
          _ ← update node
                (over nd_flowctrl_waiting_messages (alter tail vn));
          resume_fuel fuel' node vn
      end
  end.

(** @src/src/BxiNode.cpp:212-218 BxiNode::resume_waiting_tx_actors: other actors run at each
    [put] and may queue messages again, so the environment bounds the loop. *)
Definition resume_waiting_tx_actors (node : handle) (vn : bxi_vn) : SM unit :=
  resume_fuel env_fuel node vn.

(** @src/src/BxiNode.cpp:176-189 BxiNode::release_e2e_entry (node level) *)
Definition release_node_credit (node : handle) (vn : bxi_vn) (target_nid max : Z) : SM unit :=
  if max =? 0 then mret tt else
  n ← load (T := BxiNode) node;
  match nd_flowctrl_node_counts n !! (vn, target_nid) with
  | None => fail (Abort "release in a non-existing counter (node-level)")
  | Some count =>
      _ ← update node (over nd_flowctrl_node_counts <[(vn, target_nid) := count + 1]>);
      assert (count + 1 <=? max) (Abort "counter has more capacity than max inflight")
  end.

(** @src/src/BxiNode.cpp:191-206 BxiNode::release_e2e_entry (process level) *)
Definition release_process_credit (node : handle) (vn : bxi_vn) (f_id : flowctrl_process_id)
    (max : Z) : SM unit :=
  if max =? 0 then mret tt else
  n ← load (T := BxiNode) node;
  match nd_flowctrl_process_counts n !! (vn, f_id) with
  | None => fail (Abort "release in a non-existing counter (process-level)")
  | Some count =>
      _ ← update node (over nd_flowctrl_process_counts <[(vn, f_id) := count + 1]>);
      assert (count + 1 <=? max) (Abort "counter has more capacity than max inflight")
  end.

(** @src/src/BxiNode.cpp:169-210 BxiNode::release_e2e_entry *)
Definition release_e2e_entry (node : handle) (target_nid : Z) (vn : bxi_vn)
    (src_pid dst_pid : Z) : SM unit :=
  n ← load (T := BxiNode) node;
  if nd_e2e_off n then mret tt else
  _ ← sim (SemRelease (SemE2E node));
  max_inflight_to_target ← S4BXI_GLOBAL_CONFIG max_inflight_to_target;
  _ ← release_node_credit node vn target_nid max_inflight_to_target;
  max_inflight_to_process ← S4BXI_GLOBAL_CONFIG max_inflight_to_process;
  _ ← release_process_credit node vn (mk_fpid src_pid dst_pid target_nid)
        max_inflight_to_process;
  when (negb (max_inflight_to_process =? 0) || negb (max_inflight_to_target =? 0))
    (resume_waiting_tx_actors node vn).
End Node.
