(* ===== verification/Counters.v ===== *)
(** Counting events and event queues: [BxiCT] ([src/s4ptl/BxiCT.cpp]), [BxiEQ]
    ([src/s4ptl/BxiEQ.cpp]) and [BxiMD] ([src/s4ptl/BxiMD.cpp]). *)
From S2P Require Import Prelude Portals World Engine.

Section Counters.
Context `{Env}.

(** ** Counters *)

(** @src/src/s4ptl/BxiCT.cpp:28-32 BxiCT::BxiCT *)
Definition BxiCT_new : SM handle := new (mk_CT [] (mk_ct_event 0 0)).

(** @src/src/s4ptl/BxiCT.cpp:37-37 BxiCT::on_update (the condition that wakes a waiter up) *)
Definition wakes (ev : ptl_ct_event) (a : ActorWaitingCT) : bool :=
  (wct_test a =? ct_success ev) || negb (ct_failure ev =? 0).

(** @src/src/s4ptl/BxiCT.cpp:38-55 BxiCT::on_update (waking one waiter up) *)
Definition wake_up (a : ActorWaitingCT) : SM unit :=
  if negb (wct_actor a =? NULL)%N then sim (ActorResume (wct_actor a))
  else match wct_mailbox a with
       | Some mb => _ ← sim (CommWait (CommPut mb (PBool true) 0)); free_random_mailbox mb
       | None => fail (Abort "We have a waiting struct in counter, but no actor to wake up or mailbox to contact")
       end.

(** @src/src/s4ptl/BxiCT.cpp:34-58 BxiCT::on_update.  The iterator is the index [i]; [erase]
    then [it--] leave the index one step back before [++it].  Waking a waiter up is a SimGrid
    call during which other actors may change the vector: an iterator past the end is
    undefined, and the environment bounds the number of turns. *)
Fixpoint on_update_fuel (fuel : nat) (ct : handle) (i : nat) : SM unit :=
  match fuel with
  | O => fail OutOfFuel
  | S fuel' =>
      c ← load (T := BxiCT) ct;
      if decide (i = length (ct_waiting c)) then mret tt else
      a ← of_option (ct_waiting c !! i) (Undefined "iterator out of range");
      if wakes (ct_event c) a then
        _ ← update ct (over ct_waiting (fun l => take i l ++ drop (S i) l));
        _ ← wake_up a;
        on_update_fuel fuel' ct i
      else on_update_fuel fuel' ct (S i)
  end.

(** @src/src/s4ptl/BxiCT.cpp:34-58 BxiCT::on_update *)
Definition on_update (ct : handle) : SM unit := on_update_fuel env_fuel ct 0.

(** @src/src/s4ptl/BxiCT.cpp:60-64 BxiCT::increment_success *)
Definition increment_success (ct : handle) (amount : Z) : SM unit :=
  _ ← update ct (fun c => c <| ct_event :=
        mk_ct_event (add64 (ct_success (ct_event c)) amount) (ct_failure (ct_event c)) |>);
  on_update ct.

(** @src/src/s4ptl/BxiCT.cpp:66-73 BxiCT::set_value *)
Definition set_value (ct : handle) (new_ct : ptl_ct_event) : SM Z :=
  _ ← update ct (fun c => c <| ct_event := new_ct |>);
  _ ← on_update ct;
  mret PTL_OK.

(** @src/src/s4ptl/BxiCT.cpp:75-83 BxiCT::increment *)
Definition BxiCT_increment (ct : handle) (increment : ptl_ct_event) : SM Z :=
  _ ← update ct (fun c => c <| ct_event :=
        mk_ct_event (add64 (ct_success (ct_event c)) (ct_success increment))
                    (add64 (ct_failure (ct_event c)) (ct_failure increment)) |>);
  _ ← on_update ct;
  mret PTL_OK.

(** @src/src/s4ptl/BxiCT.cpp:85-97 BxiCT::wait (the event it stores is returned with the code) *)
Definition BxiCT_wait (ct : handle) (test : Z) : SM (Z * ptl_ct_event) :=
  self ← gets env_self;
  c ← load (T := BxiCT) ct;
  _ ← (if (ct_success (ct_event c) <? test) && (ct_failure (ct_event c) =? 0) then
         _ ← update ct (over ct_waiting (fun l => l ++ [mk_waiting self None test]));
         sim (ActorSuspend self)
       else mret tt);
  c ← load (T := BxiCT) ct;
  mret (PTL_OK, ct_event c).

(** @src/src/s4ptl/BxiCT.cpp:111-119 BxiCT::poll (the first counter that meets its test) *)
Fixpoint find_ready (i : Z) (cts : list handle) (tests : list Z)
    : SM (option (Z * ptl_ct_event)) :=
  match cts, tests with
  | ct :: cts', test :: tests' =>
      c ← load (T := BxiCT) ct;
      if (test <=? ct_success (ct_event c)) || negb (ct_failure (ct_event c) =? 0)
      then mret (Some (i, ct_event c))
      else find_ready (i + 1) cts' tests'
  | _, _ => mret None
  end.

(** @src/src/s4ptl/BxiCT.cpp:125-130 BxiCT::poll (one waiting mailbox per counter) *)
Fixpoint post_waiters (cts : list handle) (tests : list Z) : SM unit :=
  match cts, tests with
  | ct :: cts', test :: tests' =>
      mb ← get_random_mailbox;
      _ ← update ct (over ct_waiting (fun l => l ++ [mk_waiting NULL (Some mb) test]));
      _ ← sim (GetAsync mb);
      post_waiters cts' tests'
  | _, _ => mret tt
  end.

(** @src/src/s4ptl/BxiCT.cpp:99-145 BxiCT::poll ([None]: the outputs are not written).  The
    index [wait_any] returns is converted to [unsigned]. *)
Definition BxiCT_poll (ct_handles : list handle) (tests : list Z) (timeout : Z)
    : SM (Z * option (ptl_ct_event * Z)) :=
  r ← find_ready 0 ct_handles tests;
  match r with
  | Some (i, ev) => mret (PTL_OK, Some (ev, i))
  | None =>
      _ ← post_waiters ct_handles tests;
      let size := Z.of_nat (length ct_handles) in
      _ ← sim (WaitAny size timeout);
      which ← gets env_wait_any;
      let which_ct := u32 which in
      _ ← sim (CommCancel size);
      if size <=? which_ct then mret (PTL_CT_NONE_REACHED, None) else
      ct ← of_option (ct_handles !! Z.to_nat which_ct) (Undefined "index out of range");
      c ← load (T := BxiCT) ct;
      mret (PTL_OK, Some (ct_event c, which_ct))
  end.

(** ** Event queues *)

(** @src/src/s4ptl/BxiEQ.cpp:25-29 BxiEQ::BxiEQ *)
Definition BxiEQ_new : SM handle :=
  mb ← get_random_mailbox;
  _ ← sim (SetReceiver mb true);
  new (mk_EQ mb).

(** @src/src/s4ptl/BxiEQ.cpp:31-34 BxiEQ::~BxiEQ (with the [delete] that runs it) *)
Definition BxiEQ_delete (eq : handle) : SM unit :=
  e ← load (T := BxiEQ) eq;
  _ ← free_random_mailbox (eq_mailbox e);
  free (T := BxiEQ) eq.

(** @src/src/s4ptl/BxiEQ.cpp:44-55 BxiEQ::wait *)
Definition BxiEQ_wait (eq : handle) : SM (Z * ptl_event) :=
  e ← load (T := BxiEQ) eq;
  _ ← sim (GetWait (eq_mailbox e));
  p ← gets (fun w => env_received w (eq_mailbox e));
  match p with
  | PEvent ev => mret (PTL_OK, ev)
  | _ => fail (Undefined "not an event")
  end.

(** @src/src/s4ptl/BxiEQ.cpp:36-42 BxiEQ::get *)
Definition BxiEQ_get (eq : handle) : SM (Z * option ptl_event) :=
  e ← load (T := BxiEQ) eq;
  ready ← gets (fun w => env_mailbox_ready w (eq_mailbox e));
  if negb ready then mret (PTL_EQ_EMPTY, None) else
  r ← BxiEQ_wait eq;
  mret (fst r, Some (snd r)).

(** @src/src/s4ptl/BxiEQ.cpp:83-94 BxiEQ::poll (the first queue that is ready) *)
Fixpoint poll_ready (i : Z) (eqs : list handle) : SM (option (Z * ptl_event)) :=
  match eqs with
  | [] => mret None
  | eq :: eqs' =>
      e ← load (T := BxiEQ) eq;
      ready ← gets (fun w => env_mailbox_ready w (eq_mailbox e)
                             || env_mailbox_listen w (eq_mailbox e));
      if (ready : bool) then r ← BxiEQ_wait eq; mret (Some (i, snd r))
      else poll_ready (i + 1) eqs'
  end.

(** @src/src/s4ptl/BxiEQ.cpp:57-127 BxiEQ::poll ([None]: the outputs are not written) *)
Definition BxiEQ_poll (eq_handles : list handle) (timeout : Z)
    : SM (Z * option (ptl_event * Z)) :=
  r ← poll_ready 0 eq_handles;
  match r with
  | Some (i, ev) => mret (PTL_OK, Some (ev, i))
  | None =>
      let size := Z.of_nat (length eq_handles) in
      _ ← for_each eq_handles (fun eq =>
            e ← load (T := BxiEQ) eq; sim (GetAsync (eq_mailbox e)));
      _ ← sim (WaitAny size timeout);
      which ← gets env_wait_any;
      let which_eq := u32 which in
      _ ← sim (CommCancel size);
      if size <=? which_eq then mret (PTL_EQ_EMPTY, None) else
      eq ← of_option (eq_handles !! Z.to_nat which_eq) (Undefined "index out of range");
      e ← load (T := BxiEQ) eq;
      p ← gets (fun w => env_received w (eq_mailbox e));
      match p with
      | PEvent ev => mret (PTL_OK, Some (ev, which_eq))
      | _ => mret (PTL_EQ_EMPTY, None)
      end
  end.

(** ** Memory descriptors *)

(** @src/src/s4ptl/BxiMD.cpp:23-23 BxiMD::BxiMD *)
Definition BxiMD_new (ni_handle : handle) (md_t : ptl_md) : SM handle :=
  new (mk_MD ni_handle md_t).

(** @src/src/s4ptl/BxiMD.cpp:34-42 BxiMD::increment_ct *)
Definition BxiMD_increment_ct (md : BxiMD) (byte_count : Z) : SM unit :=
  let ct := md_ct_handle (bmd_md md) in
  if (ct =? PTL_CT_NONE)%N then mret tt else
  let amount :=
    if HAS_PTL_OPTION (md_options (bmd_md md)) PTL_MD_EVENT_CT_BYTES then byte_count else 1 in
  increment_success ct amount.
End Counters.
