(* ===== verification/Entries.v ===== *)
(** Portals tables and list entries: [BxiME] ([src/s4ptl/BxiME.cpp]), [BxiPT]
    ([src/s4ptl/BxiPT.cpp]) and [BxiNI] ([src/s4ptl/BxiNI.cpp]). *)
From S2P Require Import Prelude Portals World Engine Queue Messages Node Counters.

(** [v.erase(remove(v.begin(), v.end(), x))], with [erase] of one position: it is [erase(end())],
    undefined, when [x] does not occur, and leaves unspecified elements behind when it occurs
    more than once. *)
Definition erase_remove {A} `{EqDecision A} (x : A) (l : list A) : option (list A) :=
  if decide (length (filter (fun y => y = x) l) = 1%nat)
  then Some (filter (fun y => y <> x) l) else None.

Section Entries.
Context `{Env}.

(** ** Matching entries *)

(** @src/src/s4ptl/BxiME.cpp:25-28 BxiME::BxiME *)
Definition BxiME_init (pt : handle) (me_t : ptl_me) (ptl_list user_ptr : Z) : BxiME := {|
  bme_used := false; bme_pt := pt; bme_me := me_t; bme_user_ptr := user_ptr;
  bme_manage_local_offset := 0; bme_list := ptl_list; bme_needs_unlink := false;
  bme_in_use := false |}.

(** @src/src/s4ptl/BxiME.cpp:30-39 BxiME::BxiME(const BxiME&) *)
Definition BxiME_copy (me : BxiME) : BxiME := {|
  bme_used := false; bme_pt := bme_pt me; bme_me := bme_me me; bme_list := bme_list me;
  bme_user_ptr := bme_user_ptr me; bme_manage_local_offset := bme_manage_local_offset me;
  bme_in_use := false; bme_needs_unlink := false |}.

Definition me_has (me : BxiME) (flag : Z) : bool := HAS_PTL_OPTION (me_options (bme_me me)) flag.

(** @src/src/s4ptl/BxiME.cpp:47-55 BxiME::increment_ct *)
Definition BxiME_increment_ct (me : handle) (byte_count : Z) : SM unit :=
  m ← load (T := BxiME) me;
  let ct := me_ct_handle (bme_me m) in
  if (ct =? PTL_CT_NONE)%N then mret tt else
  let amount := if me_has m PTL_ME_EVENT_CT_BYTES then byte_count else 1 in
  increment_success ct amount.

(** @src/src/s4ptl/BxiME.cpp:103-117 BxiME::matches_request *)
Definition matches_request (me : BxiME) (req : BxiRequest) : bool :=
  if me_has me PTL_ME_USE_ONCE && bme_used me then false else
  if negb (rq_matching req) then true else
  Z.land (Z.lxor (rq_match_bits req) (me_match_bits (bme_me me)))
         (u64 (Z.lnot (me_ignore_bits (bme_me me)))) =? 0.

(** @src/src/s4ptl/BxiME.cpp:119-137 BxiME::get_offsetted_addr: the address, the new
    [manage_local_offset] and the request's [target_remote_offset] *)
Definition offsetted_addr (me : BxiME) (req : BxiRequest) (update_manage_local_offset : bool)
    : Z * Z * Z :=
  let start := me_start (bme_me me) in
  let off := bme_manage_local_offset me in
  if negb (me_has me PTL_ME_MANAGE_LOCAL) then
    (add64 start (rq_remote_offset req), off, rq_remote_offset req)
  else
    let off' :=
      if update_manage_local_offset then
        let sum := add64 off (rq_payload_size req) in
        if sum <=? me_length (bme_me me) then sum else me_length (bme_me me)
      else off in
    (add64 start off, off', off).

(** @src/src/s4ptl/BxiME.cpp:119-137 BxiME::get_offsetted_addr *)
Definition get_offsetted_addr (me : handle) (msg : handle) (update_manage_local_offset : bool)
    : SM Z :=
  m ← load (T := BxiME) me;
  x ← load (T := BxiMsg) msg;
  req ← load (T := BxiRequest) (ms_parent_request x);
  let '(addr, off, target_off) := offsetted_addr m req update_manage_local_offset in
  _ ← update (T := BxiRequest) (ms_parent_request x)
        (fun r => r <| rq_target_remote_offset := Some target_off |>);
  _ ← update (T := BxiME) me (fun m => m <| bme_manage_local_offset := off |>);
  mret addr.

(** @src/src/s4ptl/BxiME.cpp:156-160 BxiME::get_mlength *)
Definition get_mlength (me : BxiME) (req : BxiRequest) : Z :=
  let remaining_size := sub64 (me_length (bme_me me)) (bme_manage_local_offset me) in
  if remaining_size <? rq_payload_size req then remaining_size else rq_payload_size req.

(** @src/src/s4ptl/BxiME.cpp:139-150 BxiME::get_list (of the entry's own kind, in [pt]) *)
Definition get_list (ptl_list : Z) (pt : BxiPT) : list handle :=
  if ptl_list =? PTL_PRIORITY_LIST then pt_priority_list pt else pt_overflow_list pt.
Definition over_list (ptl_list : Z) (f : list handle -> list handle) (pt : BxiPT) : BxiPT :=
  if ptl_list =? PTL_PRIORITY_LIST then pt <| pt_priority_list ::= f |>
  else pt <| pt_overflow_list ::= f |>.

(** @src/src/s4ptl/BxiME.cpp:88-101 BxiME::unlink *)
Definition BxiME_unlink (me_handle : handle) : SM unit :=
  me ← load (T := BxiME) me_handle;
  if (bme_in_use me : bool) then
    update (T := BxiME) me_handle (fun m => m <| bme_needs_unlink := true |>)
  else
    pt ← load (T := BxiPT) (bme_pt me);
    l ← of_option (erase_remove me_handle (get_list (bme_list me) pt))
          (Undefined "erase(end())");
    _ ← update (T := BxiPT) (bme_pt me) (over_list (bme_list me) (fun _ => l));
    free (T := BxiME) me_handle.

(** @src/src/s4ptl/BxiME.cpp:164-166 the condition of BxiME::maybe_auto_unlink *)
Definition should_unlink (me : BxiME) : bool :=
  me_has me PTL_ME_USE_ONCE
  || (me_has me PTL_ME_MANAGE_LOCAL
      && (me_length (bme_me me)
          <? add64 (bme_manage_local_offset me) (me_min_free (bme_me me)))).

(** The node an entry's or a table's events go through ([pt->ni->node]). *)
Definition pt_node (pt : BxiPT) : SM handle :=
  ni ← load (T := BxiNI) (pt_ni pt); mret (ni_node ni).

(** @src/src/s4ptl/BxiME.cpp:183-187 the event of BxiME::maybe_auto_unlink *)
Definition auto_unlink_event (pt : BxiPT) (me : BxiME) : ptl_event :=
  new_event <| ev_type := Some PTL_EVENT_AUTO_UNLINK |> <| ev_ni_fail_type := Some PTL_OK |>
    <| ev_pt_index := Some (pt_index pt) |> <| ev_user_ptr := Some (bme_user_ptr me) |>.

(** @src/src/s4ptl/BxiME.cpp:162-192 BxiME::maybe_auto_unlink *)
Definition maybe_auto_unlink (me : handle) : SM bool :=
  m ← load (T := BxiME) me;
  if negb (should_unlink m) then mret false else
  p ← load (T := BxiPT) (bme_pt m);
  let should_log_event :=
    negb (me_has m PTL_ME_EVENT_UNLINK_DISABLE) && negb (me_has m PTL_ME_EVENT_SUCCESS_DISABLE)
  in
  _ ← BxiME_unlink me;
  _ ← when should_log_event
        (p' ← load (T := BxiPT) (bme_pt m);
         node ← pt_node p';
         issue_event node (pt_eq p) (auto_unlink_event p' m));
  mret true.

(** ** Portals table entries *)

(** @src/src/s4ptl/BxiPT.cpp:26-31 BxiPT::BxiPT *)
Definition BxiPT_init (ni_handle eq_handle : handle) (index options : Z) : BxiPT := {|
  pt_ni := ni_handle; pt_eq := eq_handle; pt_index := index; pt_options := options;
  pt_enabled := true; pt_priority_list := []; pt_overflow_list := [];
  pt_unexpected_headers := [] |}.

(** @src/src/s4ptl/BxiPT.cpp:37-45 BxiPT::alloc ([insert] keeps an entry that exists; the new
    object is allocated all the same).  Returns the code and [*actual]. *)
Definition BxiPT_alloc (ni_handle : handle) (options : Z) (eq_handle : handle) (desired : Z)
    : SM (Z * Z) :=
  let actual := desired in
  ni ← load (T := BxiNI) ni_handle;
  pt ← new (BxiPT_init ni_handle eq_handle actual options);
  _ ← (match ni_pt_indexes ni !! actual with
       | Some _ => mret tt
       | None => update (T := BxiNI) ni_handle (over ni_pt_indexes <[actual := pt]>)
       end);
  mret (PTL_OK, actual).

(** @src/src/s4ptl/BxiPT.cpp:47-52 BxiPT::getFromNI *)
Definition getFromNI (ni_handle : handle) (pt_index : Z) : SM handle :=
  n ← load (T := BxiNI) ni_handle;
  of_option (ni_pt_indexes n !! pt_index) (Exception "std::out_of_range").

(** @src/src/s4ptl/BxiPT.cpp:54-59 BxiPT::enable *)
Definition BxiPT_enable (pt : handle) : SM Z :=
  _ ← update (T := BxiPT) pt (fun p => p <| pt_enabled := true |>); mret PTL_OK.

(** @src/src/s4ptl/BxiPT.cpp:61-66 BxiPT::disable *)
Definition BxiPT_disable (pt : handle) : SM Z :=
  _ ← update (T := BxiPT) pt (fun p => p <| pt_enabled := false |>); mret PTL_OK.

(** @src/src/s4ptl/BxiPT.cpp:68-89 BxiPT::free *)
Definition BxiPT_free (ni_handle : handle) (pt_index : Z) : SM Z :=
  pt ← getFromNI ni_handle pt_index;
  p ← load (T := BxiPT) pt;
  _ ← for_each (pt_priority_list p) (free (T := BxiME));
  _ ← for_each (pt_overflow_list p) (free (T := BxiME));
  _ ← for_each (pt_unexpected_headers p) BxiMsg_delete;
  _ ← update (T := BxiPT) pt (fun p =>
        p <| pt_priority_list := [] |> <| pt_overflow_list := [] |>
          <| pt_unexpected_headers := [] |>);
  _ ← update (T := BxiNI) ni_handle (over ni_pt_indexes (delete pt_index));
  _ ← free (T := BxiPT) pt;
  mret PTL_OK.

(** @src/src/s4ptl/BxiPT.cpp:97-98 the loops of BxiPT::walk_through_lists: the first entry that
    matches *)
Fixpoint first_match (l : list handle) (req : BxiRequest) : SM (option handle) :=
  match l with
  | [] => mret None
  | me :: l' =>
      m ← load (T := BxiME) me;
      if matches_request m req then mret (Some me) else first_match l' req
  end.

(** @src/src/s4ptl/BxiPT.cpp:91-115 BxiPT::walk_through_lists *)
Definition walk_through_lists (pt : handle) (msg : handle) : SM (option handle) :=
  p ← load (T := BxiPT) pt;
  if negb (pt_enabled p) then mret None else
  x ← load (T := BxiMsg) msg;
  req ← load (T := BxiRequest) (ms_parent_request x);
  r ← first_match (pt_priority_list p) req;
  match r with
  | Some me =>
      _ ← update (T := BxiME) me (fun m => m <| bme_used := true |>);
      mret (Some me)
  | None =>
      r ← first_match (pt_overflow_list p) req;
      match r with
      | Some me =>
          _ ← update (T := BxiME) me (fun m => m <| bme_used := true |>);
          _ ← update (T := BxiMsg) msg (over ms_ref_count (fun c => u32 (c + 1)));
          _ ← update (T := BxiPT) pt (over pt_unexpected_headers (fun l => l ++ [msg]));
          mret (Some me)
      | None => mret None
      end
  end.

(** @src/src/s4ptl/BxiPT.cpp:149-149 [ptl_process_t{.phys{.nid = req->md->ni->node->nid, .pid = req->md->ni->pid}}] *)
Definition initiator_of (req : BxiRequest) : SM ptl_process :=
  ni ← load (T := BxiNI) (bmd_ni (rq_md req));
  n ← load (T := BxiNode) (ni_node ni);
  mret (mk_process (nd_nid n) (ni_pid ni)).

(** @src/src/s4ptl/BxiPT.cpp:133-148 the event kind of BxiPT::walk_through_UHs *)
Definition overflow_event_kind (t : bxi_req_type) : ptl_event_kind :=
  match t with
  | S4BXI_FETCH_ATOMIC_REQUEST => PTL_EVENT_FETCH_ATOMIC_OVERFLOW
  | S4BXI_ATOMIC_REQUEST => PTL_EVENT_ATOMIC_OVERFLOW
  | S4BXI_PUT_REQUEST => PTL_EVENT_PUT_OVERFLOW
  | S4BXI_GET_REQUEST => PTL_EVENT_GET_OVERFLOW
  end.

(** @src/src/s4ptl/BxiPT.cpp:132-158 the event of BxiPT::walk_through_UHs *)
Definition overflow_event (req : BxiRequest) : SM ptl_event :=
  initiator ← initiator_of req;
  matched ← of_option (rq_matched_me req) (Undefined "matched_me is null");
  mpt ← load (T := BxiPT) (bme_pt matched);
  let ev :=
    new_event <| ev_type := Some (overflow_event_kind (rq_type req)) |>
      <| ev_initiator := Some initiator |> <| ev_ni_fail_type := Some PTL_OK |>
      <| ev_pt_index := Some (pt_index mpt) |>
      <| ev_user_ptr := Some (bme_user_ptr matched) |>
      <| ev_rlength := Some (rq_payload_size req) |> <| ev_mlength := rq_mlength req |>
      <| ev_match_bits := Some (rq_match_bits req) |> <| ev_start := rq_start req |> in
  mret (if decide (rq_type req = S4BXI_GET_REQUEST) then ev
        else ev <| ev_hdr_data := Some (rq_hdr req) |>).

(** @src/src/s4ptl/BxiPT.cpp:117-171 BxiPT::walk_through_UHs: the loop from index [i].  Erasing
    element [i] then [i--], [++i] stays at [i]; events are SimGrid calls during which other
    actors may change the table. *)
Fixpoint walk_UHs_fuel (fuel : nat) (pt me : handle) (i : nat) (matched : bool) : SM bool :=
  match fuel with
  | O => fail OutOfFuel
  | S fuel' =>
      p ← load (T := BxiPT) pt;
      match pt_unexpected_headers p !! i with
      | None => mret matched
      | Some header =>
          x ← load (T := BxiMsg) header;
          req ← load (T := BxiRequest) (ms_parent_request x);
          m ← load (T := BxiME) me;
          if negb (matches_request m req) then walk_UHs_fuel fuel' pt me (S i) matched else
          _ ← update (T := BxiME) me (fun m => m <| bme_used := true |>);
          ev ← overflow_event req;
          _ ← update (T := BxiPT) pt
                (over pt_unexpected_headers (fun l => take i l ++ drop (S i) l));
          _ ← unref header;
          node ← pt_node p;
          _ ← issue_event node (pt_eq p) ev;
          if me_has m PTL_ME_USE_ONCE then mret true
          else walk_UHs_fuel fuel' pt me i true
      end
  end.

(** @src/src/s4ptl/BxiPT.cpp:117-171 BxiPT::walk_through_UHs *)
Definition walk_through_UHs (pt me : handle) : SM bool := walk_UHs_fuel env_fuel pt me 0 false.

(** @src/src/s4ptl/BxiME.cpp:79-83 the event of BxiME::append *)
Definition link_event (pt : BxiPT) (user_ptr : Z) : ptl_event :=
  new_event <| ev_type := Some PTL_EVENT_LINK |> <| ev_ni_fail_type := Some PTL_OK |>
    <| ev_user_ptr := Some user_ptr |> <| ev_pt_index := Some (pt_index pt) |>.

(** @src/src/s4ptl/BxiME.cpp:60-86 BxiME::append (returns the handle stored in [*me_handle]) *)
Definition BxiME_append (pt : handle) (me_t : ptl_me) (ptl_list user_ptr : Z) : SM handle :=
  me ← new (BxiME_init pt me_t ptl_list user_ptr);
  matched_UH ← (if ptl_list =? PTL_PRIORITY_LIST then walk_through_UHs pt me else mret false);
  if (matched_UH : bool) && HAS_PTL_OPTION (me_options me_t) PTL_ME_USE_ONCE then
    _ ← free (T := BxiME) me; mret me
  else
    _ ← update (T := BxiPT) pt (over_list ptl_list (fun l => l ++ [me]));
    _ ← when (negb (HAS_PTL_OPTION (me_options me_t) PTL_ME_EVENT_LINK_DISABLE))
          (p ← load (T := BxiPT) pt;
           node ← pt_node p;
           issue_event node (pt_eq p) (link_event p user_ptr));
    mret me.

(** ** Network interfaces *)

(** @src/src/s4ptl/BxiNI.cpp:45-60 the limits of BxiNI::init *)
Definition actual_limits (desired : option ptl_ni_limits) : ptl_ni_limits :=
  let lim (field : ptl_ni_limits -> Z) (max dflt : Z) :=
    match desired with Some d => Z.min (field d) max | None => dflt end in
  {| max_entries := lim max_entries 16319 4080;
     max_unexpected_headers := lim max_unexpected_headers 16319 16319;
     max_mds := lim max_mds 8191 1024;
     max_cts := lim max_cts 2047 1024;
     max_eqs := lim max_eqs 2046 960;
     max_pt_index := lim max_pt_index 255 255;
     max_iovecs := lim max_iovecs 0 0;
     max_list_size := lim max_list_size 65535 16582;
     max_triggered_ops := lim max_triggered_ops 16378 16378;
     max_msg_size := lim max_msg_size 67108864 67108864;
     max_atomic_size := lim max_atomic_size 1024 1024;
     max_fetch_atomic_size := lim max_fetch_atomic_size 64 64;
     max_waw_ordered_size := lim max_waw_ordered_size 0 0;
     max_war_ordered_size := lim max_war_ordered_size 0 0;
     max_volatile_size := lim max_volatile_size 64 64;
     features := match desired with Some d => features d | None => 7 end |}.

(** @src/src/s4ptl/BxiNI.cpp:26-35 BxiNI::BxiNI *)
Definition BxiNI_init_object (node : handle) (iface options pid : Z) (limits : ptl_ni_limits)
    : BxiNI := {|
  ni_node := node; ni_iface := iface; ni_options := options; ni_pid := pid;
  ni_limits := limits; ni_pt_indexes := ∅; ni_l2p_map := [] |}.

(** @src/src/s4ptl/BxiNI.cpp:37-63 BxiNI::init (returns the interface and [*actual]) *)
Definition BxiNI_init (node : handle) (iface options pid : Z) (desired : option ptl_ni_limits)
    : SM (handle * ptl_ni_limits) :=
  let actual := actual_limits desired in
  ni ← new (BxiNI_init_object node iface options pid actual);
  mret (ni, actual).

(** @src/src/s4ptl/BxiNI.cpp:65-74 BxiNI::fini *)
Definition BxiNI_fini (ni : handle) : SM unit :=
  _ ← for_each (seq 0 (Z.to_nat CQ_INITIAL_CAPACITY)) (fun _ => sim (SemAcquire (SemCQ ni)));
  free (T := BxiNI) ni.

(** @src/src/s4ptl/BxiNI.cpp:76-80 BxiNI::can_match_request *)
Definition can_match_request (ni : BxiNI) (req : BxiRequest) : bool :=
  ((ni_pid ni =? rq_target_pid req) || (rq_target_pid req =? PTL_PID_ANY))
  && Bool.eqb (HAS_PTL_OPTION (ni_options ni) PTL_NI_MATCHING) (rq_matching req).

(** @src/src/s4ptl/BxiNI.cpp:84-87 the loop of BxiNI::get_l2p_rank *)
Fixpoint l2p_index (i : Z) (l : list ptl_process) (p : ptl_process) : option Z :=
  match l with
  | [] => None
  | q :: l' =>
      if (phys_nid q =? phys_nid p) && (phys_pid q =? phys_pid p) then Some i
      else l2p_index (i + 1) l' p
  end.

(** @src/src/s4ptl/BxiNI.cpp:82-90 BxiNI::get_l2p_rank *)
Definition get_l2p_rank (ni : handle) : SM Z :=
  n ← load (T := BxiNI) ni;
  node ← load (T := BxiNode) (ni_node n);
  of_option (l2p_index 0 (ni_l2p_map n) (mk_process (nd_nid node) (ni_pid n)))
    (Abort "Couldn't find my rank in L2P table").

(** @src/src/s4ptl/BxiNI.cpp:92-95 BxiNI::get_physical_proc *)
Definition get_physical_proc (ni : handle) (proc : ptl_process) : SM ptl_process :=
  n ← load (T := BxiNI) ni;
  if HAS_PTL_OPTION (ni_options n) PTL_NI_PHYSICAL then mret proc
  else of_option (ni_l2p_map n !! Z.to_nat (rank proc)) (Undefined "index out of range").
End Entries.
