(* ===== verification/E2E.v ===== *)
(** End-to-end reliability ([src/actors/BxiNicE2E.cpp]): the actor that
    retransmits the messages that were not acknowledged before the timeout. *)
From S2P Require Import Prelude Portals World Engine Queue Messages Node.
From Stdlib Require Import SpecFloat.

Section E2E.
Context `{Env}.

(** @src/src/actors/BxiNicE2E.cpp:25-46 BxiNicE2E::BxiNicE2E ([None]: the actor kills itself) *)
Definition BxiNicE2E_new (node : handle) : SM (option handle) :=
  off ← S4BXI_GLOBAL_CONFIG e2e_off;
  n ← load (T := BxiNode) node;
  if (off : bool) || negb (nd_e2e_actor n =? NULL)%N then mret None else
  q ← BxiQueue_new;
  a ← new {| e2e_node := node; e2e_current_msg := NULL; e2e_queue := q;
             e2e_nic_cmd_mailboxes := ∅ |};
  _ ← update (T := BxiNode) node (fun n => n <| nd_e2e_actor := a |>);
  mret (Some a).

(** @src/src/actors/BxiNicE2E.cpp:36-42 the exit handler of BxiNicE2E::BxiNicE2E *)
Definition BxiNicE2E_on_exit (e2e : handle) : SM unit :=
  a ← load (T := BxiNicE2E) e2e;
  _ ← when (negb (e2e_current_msg a =? NULL)%N) (unref (e2e_current_msg a));
  BxiQueue_clear (e2e_queue a).

(** @src/src/actors/BxiNicE2E.cpp:130-140 BxiNicE2E::process_message *)
Definition process_message (e2e msg : handle) : SM unit :=
  a ← load (T := BxiNicE2E) e2e;
  x ← load (T := BxiMsg) msg;
  _ ← when (ms_retry_count x =? 0) (acquire_e2e_entry (e2e_node a) msg);
  _ ← update (T := BxiMsg) msg (over ms_ref_count (fun c => u32 (c + 1)));
  clock ← gets w_clock;
  _ ← update (T := BxiMsg) msg (fun x => x <| ms_send_init_time := Some clock |>);
  BxiQueue_put (e2e_queue a) msg 0 false.

(** @src/src/actors/BxiNicE2E.cpp:121-128 BxiNicE2E::get_retransmit_mailbox *)
Definition get_retransmit_mailbox (e2e msg : handle) : SM mailbox :=
  vn ← get_vn msg;
  a ← load (T := BxiNicE2E) e2e;
  match e2e_nic_cmd_mailboxes a !! vn with
  | Some mb => mret mb
  | None =>
      n ← load (T := BxiNode) (e2e_node a);
      let mb := nic_tx_mailbox_name (nd_nid n) vn in
      _ ← update e2e (over e2e_nic_cmd_mailboxes <[vn := mb]>);
      mret mb
  end.

(** 1e-9 *)
Definition timer_precision : double := S754_finite false 4835703278458517 (-82).

(** [BxiMsg::unref(msg); current_msg = nullptr;] *)
Definition drop_current (e2e msg : handle) : SM unit :=
  _ ← unref msg;
  update (T := BxiNicE2E) e2e (fun a => a <| e2e_current_msg := NULL |>).

(** @src/src/actors/BxiNicE2E.cpp:83-85 BxiNicE2E::operator() (the state from which a message
    needs no retransmission) *)
Definition acked_state (t : bxi_msg_type) : bxi_req_process_state :=
  if decide (t = S4BXI_PTL_ACK) then S4BXI_REQ_FINISHED else S4BXI_REQ_ANSWERED.

(** What the actor does with a message when its timeout has elapsed. *)
Inductive e2e_decision := Acked | GiveUp | Retransmit | TooMany.

(** @src/src/actors/BxiNicE2E.cpp:83-102 BxiNicE2E::operator() (the three tests, in order) *)
Definition decide_retry (state : bxi_req_process_state) (t : bxi_msg_type)
    (retry_count max_retries : Z) : e2e_decision :=
  if state_num (acked_state t) <=? state_num state then Acked
  else if retry_count =? max_retries then GiveUp
  else if retry_count <? max_retries then Retransmit
  else TooMany.

(** @src/src/actors/BxiNicE2E.cpp:100-114 BxiNicE2E::operator() (retransmission) *)
Definition retransmit (e2e msg : handle) : SM unit :=
  a ← load (T := BxiNicE2E) e2e;
  _ ← update (T := BxiNode) (e2e_node a) (over nd_e2e_retried (fun c => add64 c 1));
  _ ← update (T := BxiMsg) msg (over ms_retry_count Z.succ);
  mb ← get_retransmit_mailbox e2e msg;
  copy ← BxiMsg_copy msg;
  _ ← sim (CommDetach (CommPut mb (PMsg copy) 0));
  drop_current e2e msg.

(** @src/src/actors/BxiNicE2E.cpp:83-117 BxiNicE2E::operator() (after the timeout) *)
Definition e2e_expire (e2e msg : handle) : SM unit :=
  x ← load (T := BxiMsg) msg;
  req ← load (T := BxiRequest) (ms_parent_request x);
  max_retries ← S4BXI_GLOBAL_CONFIG max_retries;
  match decide_retry (rq_process_state req) (ms_type x) (ms_retry_count x) max_retries with
  | Acked => drop_current e2e msg
  | GiveUp =>
      a ← load (T := BxiNicE2E) e2e;
      _ ← update (T := BxiNode) (e2e_node a) (over nd_e2e_gave_up (fun c => add64 c 1));
      drop_current e2e msg
  | Retransmit => retransmit e2e msg
  | TooMany => fail (Abort "Retry count is bigger than MAX_RETRY_COUNT in E2E")
  end.

(** @src/src/actors/BxiNicE2E.cpp:68-118 BxiNicE2E::operator() (one turn of the loop) *)
Definition e2e_turn (e2e : handle) : SM unit :=
  a ← load (T := BxiNicE2E) e2e;
  msg ← BxiQueue_get (e2e_queue a);
  _ ← update (T := BxiNicE2E) e2e (fun a => a <| e2e_current_msg := msg |>);
  x ← load (T := BxiMsg) msg;
  retry_timeout ← S4BXI_GLOBAL_CONFIG retry_timeout;
  init ← of_option (ms_send_init_time x) (Undefined "send_init_time");
  let wake_up_time := dadd init retry_timeout in
  clock ← gets w_clock;
  _ ← assert (negb (dlt wake_up_time clock)) (Abort "Negative sleep expected in E2E");
  _ ← when (dlt (dadd clock timer_precision) wake_up_time) (sim (SleepUntil wake_up_time));
  e2e_expire e2e msg.

(** @src/src/actors/BxiNicE2E.cpp:62-119 BxiNicE2E::operator() (the first [turns] turns of its
    endless loop) *)
Fixpoint e2e_turns (e2e : handle) (turns : nat) : SM unit :=
  match turns with
  | O => mret tt
  | S turns' => _ ← e2e_turn e2e; e2e_turns e2e turns'
  end.

(** @src/src/actors/BxiNicE2E.cpp:62-119 BxiNicE2E::operator() *)
Definition BxiNicE2E_run (e2e : handle) (turns : nat) : SM unit :=
  off ← S4BXI_GLOBAL_CONFIG e2e_off;
  if (off : bool) then mret tt else e2e_turns e2e turns.
End E2E.
