(* ===== verification/Atomics.v ===== *)
(** Data movement at the target: [capped_memcpy] and the atomic operations of
    [src/actors/BxiNicTarget.cpp], with the sizes of [src/s4bxi_util.cpp].

    Integers are kept at their width with the promotions and conversions of the
    source's casts; floating-point operands are decoded to the reference
    binary32, binary64 and x87 80-bit formats and computed with the correctly
    rounded operations of the standard library's [SpecFloat] (which has one NaN:
    payloads are not kept by arithmetic). *)
From S2P Require Import Prelude Portals World.
From Stdlib Require Import SpecFloat.

(** ** Bytes and integers *)

Fixpoint bytes_of_Z (n : nat) (z : Z) : list Z :=
  match n with O => [] | S n' => z mod 256 :: bytes_of_Z n' (z / 256) end.

Fixpoint Z_of_bytes (bs : list Z) : Z :=
  match bs with [] => 0 | b :: bs' => b + 256 * Z_of_bytes bs' end.

Definition width (n : nat) : Z := 8 * Z.of_nat n.

(** The value of an integer object of [length bs] bytes. *)
Definition uint_of (bs : list Z) : Z := Z_of_bytes bs.
Definition sint_of (bs : list Z) : Z := swrap (width (length bs)) (Z_of_bytes bs).
Definition int_of (signed : bool) (bs : list Z) : Z := if signed then sint_of bs else uint_of bs.

Definition in_signed_range (n : nat) (z : Z) : bool :=
  (- 2 ^ (width n - 1) <=? z) && (z <? 2 ^ (width n - 1)).

(** ** Floating-point formats *)

Record fmt := mk_fmt {
  f_prec : Z; f_emax : Z; f_ebits : Z; f_explicit : bool; f_bytes : nat; f_size : nat }.
Definition binary32 : fmt := mk_fmt 24 128 8 false 4 4.
Definition binary64 : fmt := mk_fmt 53 1024 11 false 8 8.
Definition x87_80 : fmt := mk_fmt 64 16384 15 true 10 16.

Definition f_mbits (f : fmt) : Z := if f_explicit f then f_prec f else f_prec f - 1.
Definition f_emin (f : fmt) : Z := 3 - f_emax f - f_prec f.

Definition decode_float (f : fmt) (bs : list Z) : spec_float :=
  let z := Z_of_bytes (take (f_bytes f) bs) in
  let m := z mod 2 ^ f_mbits f in
  let e := z / 2 ^ f_mbits f mod 2 ^ f_ebits f in
  let s := negb (z / 2 ^ (f_mbits f + f_ebits f) =? 0) in
  let frac := m mod 2 ^ (f_prec f - 1) in
  if e =? 2 ^ f_ebits f - 1 then if frac =? 0 then S754_infinity s else S754_nan else
  if e =? 0 then
    match m with Zpos p => S754_finite s p (f_emin f) | _ => S754_zero s end
  else
    let full := if f_explicit f then m else m + 2 ^ (f_prec f - 1) in
    if full <? 2 ^ (f_prec f - 1) then S754_nan else
    match full with Zpos p => S754_finite s p (e - 1 + f_emin f) | _ => S754_nan end.

Definition encode_float (f : fmt) (x : spec_float) : list Z :=
  let field (s : bool) (e m : Z) :=
    bytes_of_Z (f_bytes f)
      ((if s then 2 ^ (f_mbits f + f_ebits f) else 0) + e * 2 ^ f_mbits f + m) in
  let top := 2 ^ f_ebits f - 1 in
  let int_bit := if f_explicit f then 2 ^ (f_prec f - 1) else 0 in
  match x with
  | S754_zero s => field s 0 0
  | S754_infinity s => field s top int_bit
  | S754_nan => field false top (int_bit + 2 ^ (f_prec f - 2))
  | S754_finite s p e =>
      if Zpos p <? 2 ^ (f_prec f - 1) then field s 0 (Zpos p)
      else field s (e - f_emin f + 1)
             (if f_explicit f then Zpos p else Zpos p - 2 ^ (f_prec f - 1))
  end.

(** Storing a value of format [f] in an object: its padding bytes are kept. *)
Definition store_float (f : fmt) (x : spec_float) (old : list Z) : list Z :=
  encode_float f x ++ drop (f_bytes f) old.

Definition fadd (f : fmt) (a b : spec_float) : spec_float := SFadd (f_prec f) (f_emax f) a b.
Definition fsub (f : fmt) (a b : spec_float) : spec_float := SFsub (f_prec f) (f_emax f) a b.
Definition fmul (f : fmt) (a b : spec_float) : spec_float := SFmul (f_prec f) (f_emax f) a b.

Definition is_nan (x : spec_float) : bool := match x with S754_nan => true | _ => false end.
Definition is_inf (x : spec_float) : bool :=
  match x with S754_infinity _ => true | _ => false end.
Definition sign_of (x : spec_float) : bool :=
  match x with
  | S754_zero s | S754_infinity s | S754_finite s _ _ => s | S754_nan => false
  end.

(** Complex multiplication of C99 Annex G (5.1): a product that is NaN in both parts is
    recovered when an operand is infinite. *)
Definition one (f : fmt) : spec_float := binary_normalize (f_prec f) (f_emax f) 1 0 false.
Definition copysign (x y : spec_float) : spec_float := let a := SFabs x in
  if sign_of y then SFopp a else a.
Definition box (f : fmt) (x : spec_float) : spec_float :=
  copysign (if is_inf x then one f else S754_zero false) x.
Definition zero_nan (x : spec_float) : spec_float :=
  if is_nan x then copysign (S754_zero false) x else x.
Definition cmul (f : fmt) (a b c d : spec_float) : spec_float * spec_float :=
  let ac := fmul f a c in let bd := fmul f b d in
  let ad := fmul f a d in let bc := fmul f b c in
  let x := fsub f ac bd in let y := fadd f ad bc in
  if negb (is_nan x && is_nan y) then (x, y) else
  let inf_ab := is_inf a || is_inf b in
  let '(a, b, c, d) :=
    if inf_ab then (box f a, box f b, zero_nan c, zero_nan d) else (a, b, c, d) in
  let inf_cd := is_inf c || is_inf d in
  let '(a, b, c, d) :=
    if inf_cd then (zero_nan a, zero_nan b, box f c, box f d) else (a, b, c, d) in
  let overflow :=
    negb (inf_ab || inf_cd) && (is_inf ac || is_inf bd || is_inf ad || is_inf bc) in
  let '(a, b, c, d) :=
    if overflow then (zero_nan a, zero_nan b, zero_nan c, zero_nan d) else (a, b, c, d) in
  if inf_ab || inf_cd || overflow then
    let inf := S754_infinity false in
    (fmul f inf (fsub f (fmul f a c) (fmul f b d)),
     fmul f inf (fadd f (fmul f a d) (fmul f b c)))
  else (x, y).

(** ** Operand types *)

(** How the source reads an operand of each type. *)
Inductive operand := OInt (signed : bool) (size : nat) | OFloat (f : fmt) | OComplex (f : fmt).

Definition operand_of (t : ptl_datatype) : operand :=
  match t with
  | PTL_INT8_T => OInt true 1 | PTL_UINT8_T => OInt false 1
  | PTL_INT16_T => OInt true 2 | PTL_UINT16_T => OInt false 2
  | PTL_INT32_T => OInt true 4 | PTL_UINT32_T => OInt false 4
  | PTL_INT64_T => OInt true 8 | PTL_UINT64_T => OInt false 8
  | PTL_FLOAT => OFloat binary32 | PTL_DOUBLE => OFloat binary64
  | PTL_LONG_DOUBLE => OFloat x87_80
  | PTL_FLOAT_COMPLEX => OComplex binary32 | PTL_DOUBLE_COMPLEX => OComplex binary64
  | PTL_LONG_DOUBLE_COMPLEX => OComplex x87_80
  end.

(** @src/src/s4bxi_util.cpp:32-63 ptl_atsize *)
Definition ptl_atsize (t : ptl_datatype) : nat :=
  match t with
  | PTL_INT8_T | PTL_UINT8_T => 1
  | PTL_INT16_T | PTL_UINT16_T => 2
  | PTL_INT32_T | PTL_UINT32_T => 4
  | PTL_INT64_T | PTL_UINT64_T => 8
  | PTL_FLOAT => 4
  | PTL_DOUBLE => 8
  | PTL_LONG_DOUBLE => 16
  | PTL_FLOAT_COMPLEX => 8
  | PTL_DOUBLE_COMPLEX => 16
  | PTL_LONG_DOUBLE_COMPLEX => 32
  end%nat.

Definition re_part (f : fmt) (bs : list Z) : spec_float := decode_float f bs.
Definition im_part (f : fmt) (bs : list Z) : spec_float := decode_float f (drop (f_size f) bs).
Definition store_complex (f : fmt) (x y : spec_float) (old : list Z) : list Z :=
  store_float f x (take (f_size f) old) ++ store_float f y (drop (f_size f) old).

Definition unhandled : failure := Abort "unhandled atomic type".

(** ** One element: the new bytes of [*me] from the bytes of [*me] and [*rx] *)

(** @src/src/actors/BxiNicTarget.cpp:641-690 apply_atomic_op, PTL_MIN *)
Definition op_min (t : ptl_datatype) (me rx : list Z) : failure + list Z :=
  match operand_of t with
  | OInt s _ => inr (if int_of s rx <? int_of s me then rx else me)
  | OFloat f => inr (if SFltb (decode_float f rx) (decode_float f me)
                     then take (f_bytes f) rx ++ drop (f_bytes f) me else me)
  | OComplex _ => inl unhandled
  end.

(** @src/src/actors/BxiNicTarget.cpp:691-740 apply_atomic_op, PTL_MAX ([long double] compares
    with [<=]) *)
Definition op_max (t : ptl_datatype) (me rx : list Z) : failure + list Z :=
  match operand_of t with
  | OInt s _ => inr (if int_of s me <? int_of s rx then rx else me)
  | OFloat f =>
      let less :=
        if decide (t = PTL_LONG_DOUBLE) then SFleb (decode_float f me) (decode_float f rx)
        else SFltb (decode_float f me) (decode_float f rx) in
      inr (if less then take (f_bytes f) rx ++ drop (f_bytes f) me else me)
  | OComplex _ => inl unhandled
  end.

(** @src/src/actors/BxiNicTarget.cpp:741-782 apply_atomic_op, PTL_SUM.  Integers are added
    through the signed type of their width: 8- and 16-bit sums are computed in [int] and
    converted back, an overflow of the 32- and 64-bit ones is undefined. *)
Definition op_sum (t : ptl_datatype) (me rx : list Z) : failure + list Z :=
  match operand_of t with
  | OInt _ n =>
      let r := sint_of me + sint_of rx in
      if (n <=? 2)%nat || in_signed_range n r then inr (bytes_of_Z n r)
      else inl (Undefined "signed integer overflow")
  | OFloat f => inr (store_float f (fadd f (decode_float f me) (decode_float f rx)) me)
  | OComplex f =>
      inr (store_complex f (fadd f (re_part f me) (re_part f rx))
             (fadd f (im_part f me) (im_part f rx)) me)
  end.

(** @src/src/actors/BxiNicTarget.cpp:783-830 apply_atomic_op, PTL_PROD.  8- and 16-bit operands
    are promoted to [int]: a product of two [uint16_t] can overflow it. *)
Definition op_prod (t : ptl_datatype) (me rx : list Z) : failure + list Z :=
  match operand_of t with
  | OInt s n =>
      let r := int_of s me * int_of s rx in
      let defined :=
        if (n <=? 2)%nat then in_signed_range 4 r
        else if s then in_signed_range n r else true in
      if (defined : bool) then inr (bytes_of_Z n r)
      else inl (Undefined "signed integer overflow")
  | OFloat f => inr (store_float f (fmul f (decode_float f me) (decode_float f rx)) me)
  | OComplex f =>
      let '(x, y) := cmul f (re_part f me) (im_part f me) (re_part f rx) (im_part f rx) in
      inr (store_complex f x y me)
  end.

(** An operation of the integer types only, on the values of the signed type of the width. *)
Definition on_signed (g : Z -> Z -> Z) (t : ptl_datatype) (me rx : list Z) : failure + list Z :=
  match operand_of t with
  | OInt _ n => inr (bytes_of_Z n (g (sint_of me) (sint_of rx)))
  | _ => inl unhandled
  end.

Definition truthy (z : Z) : bool := negb (z =? 0).

(** @src/src/actors/BxiNicTarget.cpp:831-852 apply_atomic_op, PTL_BOR *)
Definition op_bor := on_signed Z.lor.

(** @src/src/actors/BxiNicTarget.cpp:853-874 apply_atomic_op, PTL_BAND *)
Definition op_band := on_signed Z.land.

(** @src/src/actors/BxiNicTarget.cpp:875-896 apply_atomic_op, PTL_BXOR *)
Definition op_bxor := on_signed Z.lxor.

(** @src/src/actors/BxiNicTarget.cpp:897-918 apply_atomic_op, PTL_LOR *)
Definition op_lor := on_signed (fun a b => Z.b2z (truthy a || truthy b)).

(** @src/src/actors/BxiNicTarget.cpp:919-940 apply_atomic_op, PTL_LAND *)
Definition op_land := on_signed (fun a b => Z.b2z (truthy a && truthy b)).

(** @src/src/actors/BxiNicTarget.cpp:941-962 apply_atomic_op, PTL_LXOR *)
Definition op_lxor := on_signed (fun a b => Z.b2z (xorb (truthy a) (truthy b))).

(** @src/src/actors/BxiNicTarget.cpp:973-1047 apply_atomic_op, swaps: [eq], [le] ([*me >= *cst])
    and [ge] ([*me <= *cst]) *)
Definition compare_cst (t : ptl_datatype) (me cst : list Z) : bool * bool * bool :=
  match operand_of t with
  | OInt s _ =>
      (int_of s me =? int_of s cst, int_of s cst <=? int_of s me, int_of s me <=? int_of s cst)
  | OFloat f =>
      let a := decode_float f me in let b := decode_float f cst in
      (SFeqb a b, SFleb b a, SFleb a b)
  | OComplex f =>
      (SFeqb (re_part f me) (re_part f cst) && SFeqb (im_part f me) (im_part f cst), false, false)
  end.

(** @src/src/actors/BxiNicTarget.cpp:1048-1072 apply_atomic_op, whether to swap *)
Definition swap_condition (op : ptl_op) (c : bool * bool * bool) : bool :=
  let '(eq, le, ge) := c in
  match op with
  | PTL_CSWAP => eq
  | PTL_CSWAP_NE => negb eq
  | PTL_CSWAP_LE => le
  | PTL_CSWAP_LT => le && negb eq
  | PTL_CSWAP_GE => ge
  | PTL_CSWAP_GT => ge && negb eq
  | PTL_SWAP => true
  | _ => false
  end.

(** @src/src/actors/BxiNicTarget.cpp:1076-1081 apply_atomic_op, PTL_MSWAP *)
Fixpoint op_mswap (me rx cst : list Z) : list Z :=
  match me, rx, cst with
  | m :: me', r :: rx', c :: cst' =>
      Z.lor (Z.land m (wrap 8 (Z.lnot c))) (Z.land r c) :: op_mswap me' rx' cst'
  | _, _, _ => []
  end.

(** @src/src/actors/BxiNicTarget.cpp:640-1084 apply_atomic_op, the [switch] on [op] for one
    element of an array of [n] *)
Definition apply_element (op : ptl_op) (t : ptl_datatype) (n : Z) (me rx cst : list Z)
    : failure + list Z :=
  match op with
  | PTL_MIN => op_min t me rx
  | PTL_MAX => op_max t me rx
  | PTL_SUM => op_sum t me rx
  | PTL_PROD => op_prod t me rx
  | PTL_BOR => op_bor t me rx
  | PTL_BAND => op_band t me rx
  | PTL_BXOR => op_bxor t me rx
  | PTL_LOR => op_lor t me rx
  | PTL_LAND => op_land t me rx
  | PTL_LXOR => op_lxor t me rx
  | PTL_SWAP | PTL_CSWAP | PTL_CSWAP_NE | PTL_CSWAP_LE | PTL_CSWAP_LT | PTL_CSWAP_GE
  | PTL_CSWAP_GT =>
      if n =? 1 then inr (if swap_condition op (compare_cst t me cst) then rx else me)
      else inl (Abort "only one item allowed for swap")
  | PTL_MSWAP => inr (op_mswap me rx cst)
  end.

(** Whether an operation reads its third operand. *)
Definition reads_cst (op : ptl_op) : bool :=
  match op with
  | PTL_SWAP | PTL_CSWAP | PTL_CSWAP_NE | PTL_CSWAP_LE | PTL_CSWAP_LT | PTL_CSWAP_GE
  | PTL_CSWAP_GT | PTL_MSWAP => true
  | _ => false
  end.

(** ** Memory *)

(** [memcpy]: overlapping ranges are undefined. *)
Definition memcpy (dest src n : Z) : SM unit :=
  _ ← assert ((n <=? 0) || (dest + n <=? src) || (src + n <=? dest))
        (Undefined "overlapping memcpy");
  bs ← load_bytes src (Z.to_nat n);
  store_bytes dest bs.

(** Where the third operand is: in the memory of the processes, or in a field of a simulator
    object, given by its bytes; reading past the field is undefined. *)
Inductive cst_operand := CstAt (a : Z) | CstField (bs : list Z).

Definition load_cst (c : cst_operand) (n : nat) : SM (list Z) :=
  match c with
  | CstAt a => load_bytes a n
  | CstField bs =>
      _ ← assert (n <=? length bs)%nat (Undefined "read past the end of an object");
      mret (take n bs)
  end.

(** @src/src/actors/BxiNicTarget.cpp:637-1085 apply_atomic_op, the loop: [me], [rx] and [tx] are
    the same at every turn. *)
Fixpoint atomic_loop (turns : nat) (op : ptl_op) (t : ptl_datatype) (me : Z) (cst : cst_operand)
    (rx tx n : Z) : SM unit :=
  match turns with
  | O => mret tt
  | S turns' =>
      let asize := ptl_atsize t in
      _ ← when (negb (tx =? me)) (memcpy tx me (Z.of_nat asize));
      m ← load_bytes me asize;
      r ← load_bytes rx asize;
      c ← (if reads_cst op then load_cst cst asize else mret []);
      _ ← match apply_element op t n m r c with
          | inl e => fail e
          | inr bs => store_bytes me bs
          end;
      atomic_loop turns' op t me cst rx tx n
  end.

(** @src/src/actors/BxiNicTarget.cpp:626-639 BxiNicTarget::apply_atomic_op *)
Definition apply_atomic_op (op : ptl_op) (t : ptl_datatype) (me : Z) (cst : cst_operand)
    (rx tx len : Z) : SM unit :=
  let asize := Z.of_nat (ptl_atsize t) in
  if negb (len mod asize =? 0) then fail (Abort "atomic size not multiple") else
  let n := swrap 32 (len / asize) in
  atomic_loop (Z.to_nat n) op t me cst rx tx n.

(** @src/src/actors/BxiNicTarget.cpp:604-611 BxiNicTarget::capped_memcpy ([max_memcpy] is a
    [long] compared with a [size_t]) *)
Definition capped_memcpy (dest src n : Z) : SM unit :=
  max_memcpy ← S4BXI_GLOBAL_CONFIG max_memcpy;
  let to_copy :=
    if max_memcpy =? -1 then n else if u64 max_memcpy <? n then u64 max_memcpy else n in
  _ ← assert ((to_copy =? 0) || (negb (dest =? 0) && negb (src =? 0)))
        (Abort "Can't copy user data");
  when (negb (to_copy =? 0) && negb (dest =? 0) && negb (src =? 0)) (memcpy dest src to_copy).
