(* ===== verification/Memory.v ===== *)
(** What reading, writing and copying do to the memory of the simulated processes: the lemmas the
    theorems on payloads and atomic operations share. *)
From S2P Require Import Prelude Portals World Logic Atomics.

(** Only the memory changes. *)
Definition only_mem (w w' : World) : Prop := w' = w <| w_mem := w_mem w' |>.

#[export] Instance only_mem_preorder : PreOrder only_mem.
Proof.
  split; [by intros []|]. intros w1 w2 w3 H12 H23. unfold only_mem in *.
  rewrite H23 at 1. by rewrite H12.
Qed.

Lemma load_bytes_spec a n w bs w' :
  load_bytes a n w = Ok bs w' ->
  w' = w /\ length bs = n /\ forall i, (i < n)%nat -> w_mem w !! (a + Z.of_nat i) = bs !! i.
Proof.
  revert a bs w'. induction n as [|n IH]; intros a bs w'; cbn [load_bytes].
  - intros [= <- <-]. split_and!; try done. lia.
  - intros (o & w1 & [= <- <-] & H)%bind_Ok.
    destruct (w_mem w !! a) as [b|] eqn:Hb; [|done].
    apply bind_Ok in H as (b' & w1 & [= <- <-] & H).
    apply bind_Ok in H as (bs' & w1 & (-> & Hl & Hi)%IH & [= <- <-]).
    split_and!; [done|cbn; lia|]. intros [|i] Hlt; [by rewrite Z.add_0_r|].
    cbn. rewrite <- Hi by lia. f_equal. lia.
Qed.

(** The [n] bytes from address [a] on, when they are all mapped. *)
Fixpoint bytes_at (m : gmap Z Z) (a : Z) (n : nat) : option (list Z) :=
  match n with
  | O => Some []
  | S n' => b ← m !! a; bs ← bytes_at m (a + 1) n'; Some (b :: bs)
  end.

Lemma load_bytes_at a n w :
  load_bytes a n w = match bytes_at (w_mem w) a n with
                     | Some bs => Ok bs w | None => Fail (Undefined "unmapped memory") end.
Proof.
  revert a. induction n as [|n IH]; intros a; [done|]. cbn [load_bytes bytes_at].
  cbv [mbind M_bind gets of_option mret M_ret option_bind].
  destruct (w_mem w !! a); [|done]. rewrite IH. by destruct (bytes_at _ _ _).
Qed.

Lemma bytes_at_spec m a n bs :
  bytes_at m a n = Some bs <->
  length bs = n /\ forall i, (i < n)%nat -> m !! (a + Z.of_nat i) = bs !! i.
Proof.
  revert a bs. induction n as [|n IH]; intros a bs; cbn [bytes_at].
  - split; [intros [= <-]; split; [done|lia]|]. intros [Hl _]. by destruct bs.
  - split.
    + destruct (m !! a) as [v|] eqn:Ha; [|done]. cbn.
      destruct (bytes_at m (a + 1) n) as [bs'|] eqn:E; [|done]. cbn. intros [= <-].
      apply IH in E as [Hl Hi]. split; [by cbn; rewrite Hl|]. intros [|i] Hlt.
      * by rewrite Z.add_0_r.
      * cbn. rewrite <- Hi by lia. f_equal. lia.
    + intros [Hl Hi]. destruct bs as [|v bs]; [done|]. pose proof (Hi 0%nat ltac:(lia)) as H0'.
      rewrite Z.add_0_r in H0'. rewrite H0'. cbn.
      assert (bytes_at m (a + 1) n = Some bs) as ->; [|done].
      apply IH. split; [by injection Hl|]. intros i Hlt. specialize (Hi (S i) ltac:(lia)).
      change (bs !! i) with ((v :: bs) !! S i). rewrite <- Hi. f_equal. lia.
Qed.

(** The memory [m] with [bs] written from address [a]. *)
Definition written (m : gmap Z Z) (a : Z) (bs : list Z) (x : Z) : option Z :=
  if decide (a <= x < a + Z.of_nat (length bs)) then bs !! Z.to_nat (x - a) else m !! x.

Lemma store_bytes_spec a bs w u w' :
  store_bytes a bs w = Ok u w' ->
  only_mem w w' /\ forall x, w_mem w' !! x = written (w_mem w) a bs x.
Proof.
  revert a w u w'. induction bs as [|b bs IH]; intros a w u w'; cbn [store_bytes].
  - intros [= <- <-]. split; [done|]. intros x. unfold written. cbn.
    rewrite decide_False by lia. done.
  - intros (o & w1 & [= <- <-] & H)%bind_Ok.
    apply bind_Ok in H as (o & w1 & Ho & H).
    destruct (w_mem w !! a); [|done]. injection Ho as <- <-.
    apply bind_Ok in H as (t & w1 & [= <- <-] & H). apply IH in H as [Hm Hx]. split.
    + etransitivity; [|exact Hm]. done.
    + intros x. rewrite Hx. unfold written. cbn [length w_mem over].
      destruct (decide (a = x)) as [->|Hne].
      * rewrite decide_False by lia. rewrite decide_True by lia. cbn.
        rewrite lookup_insert_eq, Z.sub_diag. done.
      * destruct (decide (a + 1 <= x < a + 1 + Z.of_nat (length bs))).
        -- rewrite decide_True by lia. replace (Z.to_nat (x - a)) with (S (Z.to_nat (x - (a + 1)))) by lia.
           done.
        -- rewrite decide_False by lia. cbn. by rewrite lookup_insert_ne.
Qed.

(** The memory [m] with [n] bytes copied from [src] to [dest]. *)
Definition copied (m : gmap Z Z) (dest src n x : Z) : option Z :=
  if decide (dest <= x < dest + n) then m !! (src + (x - dest)) else m !! x.

Lemma copied_nothing m dest src n x : n <= 0 -> copied m dest src n x = m !! x.
Proof. intros Hn. unfold copied. rewrite decide_False by lia. done. Qed.

Lemma memcpy_spec dest src n w u w' :
  memcpy dest src n w = Ok u w' ->
  only_mem w w' /\ forall x, w_mem w' !! x = copied (w_mem w) dest src n x.
Proof.
  unfold memcpy. intros (t & w1 & Ha & H)%bind_Ok.
  destruct (_ || _) in Ha; [|done]. injection Ha as <- <-.
  apply bind_Ok in H as (bs & w1 & (-> & Hl & Hi)%load_bytes_spec & H).
  apply store_bytes_spec in H as [Hm Hx]. split; [done|]. intros x. rewrite Hx.
  unfold written, copied. rewrite Hl. destruct (decide (dest <= x < dest + n)).
  - rewrite decide_True by lia. rewrite <- Hi by lia. f_equal. lia.
  - rewrite decide_False by lia. done.
Qed.

(** How many of [n] bytes [capped_memcpy] copies. *)
Definition cap (cfg : s4bxi_config) (n : Z) : Z :=
  if max_memcpy cfg =? -1 then n else Z.min (u64 (max_memcpy cfg)) n.

Lemma capped_memcpy_spec dest src n w u w' :
  capped_memcpy dest src n w = Ok u w' ->
  only_mem w w' /\
  forall x, w_mem w' !! x = copied (w_mem w) dest src (cap (w_config w) n) x.
Proof.
  unfold capped_memcpy. intros (m & w1 & [= <- <-] & H)%bind_Ok. cbv zeta in H.
  apply bind_Ok in H as (t & w1 & Ha & H).
  set (k := if _ =? -1 then _ else _) in *.
  assert (cap (w_config w) n = k) as ->.
  { unfold cap, k. destruct (_ =? -1); [done|]. destruct (Z.ltb_spec (u64 (max_memcpy (w_config w))) n); lia. }
  assert (w1 = w /\ ((k =? 0) || negb (dest =? 0) && negb (src =? 0)) = true) as [-> Hk].
  { destruct (_ || _); [|done]. by injection Ha as <- <-. }
  destruct (Z.eqb_spec k 0) as [E0|E0].
  - cbn in H. injection H as <- <-. split; [done|]. intros x. by rewrite E0, copied_nothing by lia.
  - cbn [orb] in Hk. apply andb_true_iff in Hk as [H1 H2]. rewrite H1, H2 in H. cbn in H.
    by apply memcpy_spec in H.
Qed.

(** ** The calls that leave the memory alone *)
Definition same_mem (w w' : World) : Prop :=
  w_mem w' = w_mem w /\ w_config w' = w_config w.
#[export] Instance same_mem_preorder : PreOrder same_mem.
Proof. split; [done|]. intros ??? [] []. split; congruence. Qed.
