(* ===== verification/NicActor.v ===== *)
(** What the two NIC actors share ([src/actors/BxiNicActor.cpp]) and the
    events of put-like requests ([src/s4ptl/BxiRequest.cpp]). *)
From S2P Require Import Prelude Portals World Engine Queue Messages Node Counters Entries.
From S2P Require Import E2E.
From Stdlib Require Import SpecFloat.

(** @src/include/s4bxi/actors/BxiActor.hpp:27-32 INLINE_SIZE, PIO_SIZE *)
Definition INLINE_BASE_SIZE : Z := 8.
Definition MATCH_BITS_SIZE : Z := 8.
Definition PIO_BASE_SIZE : Z := 408.
Definition INLINE_SIZE (req : BxiRequest) : Z :=
  if rq_matching req then INLINE_BASE_SIZE else INLINE_BASE_SIZE + MATCH_BITS_SIZE.
Definition PIO_SIZE (req : BxiRequest) : Z :=
  if rq_matching req then PIO_BASE_SIZE else PIO_BASE_SIZE + MATCH_BITS_SIZE.

(** @src/include/s4bxi/actors/BxiNicActor.hpp:26-27 PCI_LATENCY (200e-9) and
    ONE_PCI_PACKET_TRANSFER (200e-9 + 32.508e-9) *)
Definition PCI_LATENCY : double := S754_finite false 7555786372591432 (-75).
Definition ONE_PCI_PACKET_TRANSFER : double := S754_finite false 8783903889592444 (-75).

(** 2e-9, 250e-9, 300e-9 and 15.75e9 *)
Definition nic_delay : double := S754_finite false 4835703278458517 (-81).
Definition get_delay : double := S754_finite false 4722366482869645 (-74).
Definition response_delay : double := S754_finite false 5666839779443574 (-74).
Definition pci_bandwidth : double := S754_finite false 8257536000000000 (-19).

(** @src/src/actors/BxiNicInitiator.cpp:116-118 the wait for a PCI packet, the same expression in
    every handler *)
Definition pci_wait_time (simulated_size : Z) : double :=
  if 512 <=? simulated_size then ONE_PCI_PACKET_TRANSFER
  else dadd PCI_LATENCY (ddiv (double_of_Z simulated_size) pci_bandwidth).

Section NicActor.
Context `{Env}.

(** ** Events of a request *)

(** @src/src/s4ptl/BxiRequest.cpp:54-67 BxiPutRequest::issue_ack *)
Definition issue_ack (r : handle) (ni_fail_type : Z) : SM unit :=
  req ← cast_request is_put_like r;
  let md := rq_md req in
  _ ← when (HAS_PTL_OPTION (md_options (bmd_md md)) PTL_MD_EVENT_CT_ACK)
        (BxiMD_increment_ct md (rq_payload_size req));
  req ← load (T := BxiRequest) r;
  when (rq_ack_req req =? PTL_ACK_REQ)
    (ni ← load (T := BxiNI) (bmd_ni md);
     issue_event (ni_node ni) (md_eq_handle (bmd_md md))
       (new_event <| ev_type := Some PTL_EVENT_ACK |>
          <| ev_ni_fail_type := Some ni_fail_type |>
          <| ev_user_ptr := Some (rq_user_ptr req) |> <| ev_mlength := rq_mlength req |>
          <| ev_remote_offset := rq_target_remote_offset req |>)).

(** @src/src/s4ptl/BxiRequest.cpp:69-104 BxiPutRequest::maybe_issue_send *)
Definition maybe_issue_send (r : handle) : SM unit :=
  req ← cast_request is_put_like r;
  if (rq_send_event_issued req : bool) then mret tt else
  _ ← update (T := BxiRequest) r (fun q => q <| rq_send_event_issued := true |>);
  let md := rq_md req in
  let md_has := HAS_PTL_OPTION (md_options (bmd_md md)) in
  _ ← when (md_has PTL_MD_EVENT_CT_SEND) (BxiMD_increment_ct md (rq_payload_size req));
  when (negb (md_has PTL_MD_EVENT_SEND_DISABLE) && negb (md_has PTL_MD_EVENT_SUCCESS_DISABLE))
    (ni ← load (T := BxiNI) (bmd_ni md);
     issue_event (ni_node ni) (md_eq_handle (bmd_md md))
       (new_event <| ev_type := Some PTL_EVENT_SEND |> <| ev_ni_fail_type := Some PTL_OK |>
          <| ev_user_ptr := Some (rq_user_ptr req) |>
          <| ev_mlength := Some (rq_payload_size req) |>)).

(** @src/src/actors/BxiNicActor.cpp:40-42 the entry whose owner is told, as in
    BxiNicActor::maybe_issue_get *)
Definition reports_to (matched_me : option BxiME) : option BxiME :=
  match matched_me with
  | Some me =>
      if negb (me_has me PTL_ME_EVENT_COMM_DISABLE)
         && negb (me_has me PTL_ME_EVENT_SUCCESS_DISABLE)
         && (bme_list me =? PTL_PRIORITY_LIST) then Some me else None
  | None => None
  end.

(** @src/src/actors/BxiNicActor.cpp:43-53 the event of BxiNicActor::maybe_issue_get *)
Definition target_event (kind : ptl_event_kind) (initiator : ptl_process) (index : Z)
    (me : BxiME) (req : BxiRequest) : ptl_event :=
  new_event <| ev_initiator := Some initiator |> <| ev_type := Some kind |>
    <| ev_ni_fail_type := Some PTL_OK |> <| ev_pt_index := Some index |>
    <| ev_user_ptr := Some (bme_user_ptr me) |>
    <| ev_rlength := Some (rq_payload_size req) |> <| ev_mlength := rq_mlength req |>
    <| ev_remote_offset := Some (rq_remote_offset req) |>
    <| ev_match_bits := Some (rq_match_bits req) |> <| ev_start := rq_start req |>.

(** @src/src/actors/BxiNicActor.cpp:32-56 BxiNicActor::maybe_issue_get *)
Definition maybe_issue_get (node r : handle) : SM unit :=
  req ← cast_request is_get_request r;
  if (rq_get_event_issued req : bool) then mret tt else
  _ ← update (T := BxiRequest) r (fun q => q <| rq_get_event_issued := true |>);
  match reports_to (rq_matched_me req) with
  | None => mret tt
  | Some me =>
      initiator ← initiator_of req;
      pt ← load (T := BxiPT) (bme_pt me);
      issue_event node (pt_eq pt) (target_event PTL_EVENT_GET initiator (pt_index pt) me req)
  end.

(** @src/src/actors/BxiNicActor.cpp:58-83 BxiNicActor::maybe_issue_fetch_atomic *)
Definition maybe_issue_fetch_atomic (node r : handle) : SM unit :=
  req ← cast_request is_fetch_like r;
  if (rq_fetch_atomic_event_issued req : bool) then mret tt else
  _ ← update (T := BxiRequest) r (fun q => q <| rq_fetch_atomic_event_issued := true |>);
  match reports_to (rq_matched_me req) with
  | None => mret tt
  | Some me =>
      initiator ← initiator_of req;
      pt ← load (T := BxiPT) (bme_pt me);
      issue_event node (pt_eq pt)
        (target_event PTL_EVENT_FETCH_ATOMIC initiator (pt_index pt) me req
           <| ev_hdr_data := Some (rq_hdr req) |>)
  end.

(** ** Communications *)

(** @src/src/actors/BxiNicActor.cpp:100-112 BxiNicActor::reliable_comm_init *)
Definition reliable_comm_init (node : handle) (vn : bxi_vn) (msg : handle) (shallow : bool)
    : SM comm :=
  _ ← sim (SleepFor nic_delay);
  n ← load (T := BxiNode) node;
  x ← load (T := BxiMsg) msg;
  _ ← when (negb (nd_e2e_off n) && negb (bool_decide (ms_type x = S4BXI_E2E_ACK)))
        (process_message (nd_e2e_actor n) msg);
  x ← load (T := BxiMsg) msg;
  mret (CommPut (nic_rx_mailbox_name (ms_target x) vn) (PMsg msg)
          (if shallow then 0 else ms_simulated_size x)).

(** @src/src/actors/BxiNicActor.cpp:85-93 BxiNicActor::reliable_comm *)
Definition reliable_comm (node : handle) (vn : bxi_vn) (msg : handle) : SM unit :=
  x ← load (T := BxiMsg) msg;
  with_log (S4BXILOG_MSG (ms_type x)) (ms_initiator x) (ms_target x)
    (c ← reliable_comm_init node vn msg false; sim (CommWait c)).

(** @src/src/actors/BxiNicActor.cpp:95-98 BxiNicActor::shallow_reliable_comm *)
Definition shallow_reliable_comm (node : handle) (vn : bxi_vn) (msg : handle) : SM unit :=
  c ← reliable_comm_init node vn msg true; sim (CommWait c).
End NicActor.
