(* ===== verification/Initiator.v ===== *)
(** The transmit side of the NIC ([src/actors/BxiNicInitiator.cpp]). *)
From S2P Require Import Prelude Portals World Engine Queue Messages Node Counters Entries.
From S2P Require Import E2E NicActor.

Section Initiator.
Context `{Env}.

(** @src/src/actors/BxiNicInitiator.cpp:27-36 BxiNicInitiator::BxiNicInitiator (returns the
    transmission queue) *)
Definition BxiNicInitiator_new (node : handle) (vn : bxi_vn) : SM handle :=
  n ← load (T := BxiNode) node;
  match nd_tx_queues n !! vn with
  | Some q => mret q
  | None =>
      commands ← S4BXI_CONFIG_AND node nd_model_pci_commands model_pci_commands;
      q ← (if (commands : bool) then BxiQueue_new_mailbox (nic_tx_mailbox_name (nd_nid n) vn)
           else BxiQueue_new);
      _ ← update (T := BxiNode) node (over nd_tx_queues <[vn := q]>);
      mret q
  end.

(** @src/src/actors/BxiNicInitiator.cpp:96-102 the message's own log record, opened
    ([msg->bxi_log = make_shared<BxiLog>()]) *)
Definition open_msg_log (msg : handle) (type : bxi_log_type) : SM unit :=
  update (T := BxiMsg) msg (fun x =>
    x <| ms_bxi_log := Some (mk_log None None type (ms_initiator x) (ms_target x)) |>).

(** @src/src/actors/BxiNicInitiator.cpp:121-126 [msg->bxi_log->start = get_clock()] *)
Definition start_msg_log (msg : handle) : SM unit :=
  clock ← gets w_clock;
  x ← load (T := BxiMsg) msg;
  l ← of_option (ms_bxi_log x) (Undefined "bxi_log is null");
  update (T := BxiMsg) msg (fun x => x <| ms_bxi_log := Some (l <| log_start := Some clock |>) |>).

(** @src/src/actors/BxiNicInitiator.cpp:105-107 whether a put's payload is fetched by DMA
    ([model]: PCI transfers are modelled) *)
Definition uses_dma (model : bool) (x : BxiMsg) (inline_size : Z) : bool :=
  negb (ms_is_PIO x) && model
  && ((negb (ms_retry_count x =? 0) && (64 <? ms_simulated_size x))
      || ((ms_retry_count x =? 0) && (inline_size <? ms_simulated_size x))).

(** @src/src/actors/BxiNicInitiator.cpp:108-119 the start of a DMA transfer of [size] bytes: ask
    for the memory, start the transfer, wait for its first packet *)
Definition start_dma (node : handle) (size simulated_size : Z) : SM comm :=
  _ ← pci_transfer node 64 PCI_NIC_TO_CPU S4BXILOG_PCI_DMA_REQUEST;
  c ← pci_transfer_async node size PCI_CPU_TO_NIC S4BXILOG_PCI_DMA_PAYLOAD false;
  _ ← sim (SleepFor (pci_wait_time simulated_size));
  mret c.

(** @src/src/actors/BxiNicInitiator.cpp:86-145 BxiNicInitiator::handle_put *)
Definition handle_put (node : handle) (vn : bxi_vn) (msg : handle) : SM unit :=
  x ← load (T := BxiMsg) msg;
  req ← cast_request is_put_like (ms_parent_request x);
  _ ← sim (SemRelease (SemCQ (bmd_ni (rq_md req))));
  let inline_size := INLINE_SIZE req in
  level ← S4BXI_GLOBAL_CONFIG log_level;
  let logged := negb (level =? 0) in
  _ ← when logged (open_msg_log msg (S4BXILOG_MSG (ms_type x)));
  c ← reliable_comm_init node vn msg false;
  x ← load (T := BxiMsg) msg;
  model ← S4BXI_CONFIG_AND node nd_model_pci model_pci;
  dma ←
    (if uses_dma model x inline_size then
       d ← start_dma node (sub64 (rq_payload_size req) inline_size) (ms_simulated_size x);
       mret (Some d)
     else mret None);
  _ ← when logged (start_msg_log msg);
  _ ← sim (CommDetach c);
  _ ← (match dma with Some d => sim (CommWait d) | None => sim (SleepFor PCI_LATENCY) end);
  x ← load (T := BxiMsg) msg;
  when (ms_simulated_size x <=? 64) (maybe_issue_send (ms_parent_request x)).

(** @src/src/actors/BxiNicInitiator.cpp:147-153 BxiNicInitiator::handle_get *)
Definition handle_get (node : handle) (vn : bxi_vn) (msg : handle) : SM unit :=
  x ← load (T := BxiMsg) msg;
  req ← cast_request is_get_request (ms_parent_request x);
  _ ← sim (SemRelease (SemCQ (bmd_ni (rq_md req))));
  _ ← reliable_comm node vn msg;
  sim (SleepFor get_delay).

(** @src/src/actors/BxiNicInitiator.cpp:155-189 BxiNicInitiator::handle_response *)
Definition initiator_handle_response (node : handle) (vn : bxi_vn) (msg : handle)
    (type : bxi_log_type) : SM unit :=
  level ← S4BXI_GLOBAL_CONFIG log_level;
  let logged := negb (level =? 0) in
  _ ← when logged (open_msg_log msg type);
  c ← reliable_comm_init node vn msg false;
  x ← load (T := BxiMsg) msg;
  model ← S4BXI_CONFIG_AND node nd_model_pci model_pci;
  dma ←
    (if (model : bool) && negb (ms_simulated_size x =? 0) then
       d ← start_dma node (ms_simulated_size x) (ms_simulated_size x);
       mret (Some d)
     else mret None);
  _ ← when logged (start_msg_log msg);
  _ ← sim (CommDetach c);
  match dma with Some d => sim (CommWait d) | None => sim (SleepFor response_delay) end.

(** @src/src/actors/BxiNicInitiator.cpp:191-197 BxiNicInitiator::handle_get_response *)
Definition handle_get_response (node : handle) (vn : bxi_vn) (msg : handle) : SM unit :=
  _ ← initiator_handle_response node vn msg (S4BXILOG_MSG S4BXI_PTL_GET_RESPONSE);
  n ← load (T := BxiNode) node;
  when (nd_e2e_off n)
    (x ← load (T := BxiMsg) msg; maybe_issue_get node (ms_parent_request x)).

(** @src/src/actors/BxiNicInitiator.cpp:199-205 BxiNicInitiator::handle_fetch_atomic_response *)
Definition handle_fetch_atomic_response (node : handle) (vn : bxi_vn) (msg : handle)
    : SM unit :=
  _ ← initiator_handle_response node vn msg (S4BXILOG_MSG S4BXI_PTL_FETCH_ATOMIC_RESPONSE);
  n ← load (T := BxiNode) node;
  when (nd_e2e_off n)
    (x ← load (T := BxiMsg) msg; maybe_issue_fetch_atomic node (ms_parent_request x)).

(** @src/src/actors/BxiNicInitiator.cpp:53-58 a message without credit waits, at most once *)
Definition enqueue_waiting (vn : bxi_vn) (msg : handle) (n : BxiNode) : BxiNode :=
  let waiting := default [] (nd_flowctrl_waiting_messages n !! vn) in
  if decide (msg ∈ waiting) then n
  else n <| nd_flowctrl_waiting_messages ::= <[vn := waiting ++ [msg]]> |>.

(** @src/src/actors/BxiNicInitiator.cpp:60-82 the [switch] of BxiNicInitiator::operator() *)
Definition initiator_dispatch (node : handle) (vn : bxi_vn) (msg : handle) : SM unit :=
  x ← load (T := BxiMsg) msg;
  match ms_type x with
  | S4BXI_PTL_PUT | S4BXI_PTL_ATOMIC | S4BXI_PTL_FETCH_ATOMIC => handle_put node vn msg
  | S4BXI_PTL_GET => handle_get node vn msg
  | S4BXI_PTL_ACK => _ ← reliable_comm node vn msg; sim (SleepFor PCI_LATENCY)
  | S4BXI_E2E_ACK => reliable_comm node vn msg
  | S4BXI_PTL_GET_RESPONSE => handle_get_response node vn msg
  | S4BXI_PTL_FETCH_ATOMIC_RESPONSE => handle_fetch_atomic_response node vn msg
  end.

(** @src/src/actors/BxiNicInitiator.cpp:47-83 BxiNicInitiator::operator() (one turn of the
    loop) *)
Definition initiator_turn (node : handle) (vn : bxi_vn) (tx_queue : handle) : SM unit :=
  msg ← BxiQueue_get tx_queue;
  ok ← check_flowctrl node msg;
  if (ok : bool) then initiator_dispatch node vn msg
  else update (T := BxiNode) node (enqueue_waiting vn msg).

(** @src/src/actors/BxiNicInitiator.cpp:43-84 BxiNicInitiator::operator() (the first [turns]
    turns of its endless loop) *)
Fixpoint BxiNicInitiator_run (node : handle) (vn : bxi_vn) (tx_queue : handle) (turns : nat)
    : SM unit :=
  match turns with
  | O => mret tt
  | S turns' =>
      _ ← initiator_turn node vn tx_queue;
      BxiNicInitiator_run node vn tx_queue turns'
  end.
End Initiator.
