(* ===== verification/Target.v ===== *)
(** The receive side of the NIC ([src/actors/BxiNicTarget.cpp]): matching,
    memory, events and acknowledgements. *)
From S2P Require Import Prelude Portals World Engine Queue Messages Node Counters Entries.
From S2P Require Import E2E Atomics NicActor.

Section Target.
Context `{Env}.

Definition set_request (r : handle) (f : BxiRequest -> BxiRequest) : SM unit := update r f.
Definition set_msg (m : handle) (f : BxiMsg -> BxiMsg) : SM unit := update m f.
Definition set_me (m : handle) (f : BxiME -> BxiME) : SM unit := update m f.

(** [node->e2e_off || config->e2e_off] for the node of a descriptor. *)
Definition md_e2e_off (md : BxiMD) : SM bool :=
  ni ← load (T := BxiNI) (bmd_ni md);
  S4BXI_CONFIG_OR (ni_node ni) nd_e2e_off e2e_off.

(** @src/src/actors/BxiNicTarget.cpp:536-557 BxiNicTarget::match_entry (the loop over the
    node's interfaces) *)
Fixpoint match_in_nis (nis : list handle) (msg r : handle) : SM (Z * option handle) :=
  match nis with
  | [] => mret (PTL_NI_TARGET_INVALID, None)
  | ni :: nis' =>
      n ← load (T := BxiNI) ni;
      req ← load (T := BxiRequest) r;
      if negb (can_match_request n req) then match_in_nis nis' msg r else
      match ni_pt_indexes n !! rq_pt_index req with
      | None => mret (PTL_NI_TARGET_INVALID, None)
      | Some pt =>
          p ← load (T := BxiPT) pt;
          if negb (pt_enabled p) then mret (PTL_NI_PT_DISABLED, None) else
          me ← walk_through_lists pt msg;
          match me with
          | Some me => mret (PTL_NI_OK, Some me)
          | None => match_in_nis nis' msg r
          end
      end
  end.

(** @src/src/actors/BxiNicTarget.cpp:536-557 BxiNicTarget::match_entry *)
Definition match_entry (node msg : handle) : SM (Z * option handle) :=
  x ← load (T := BxiMsg) msg;
  n ← load (T := BxiNode) node;
  match_in_nis (nd_ni_handles n) msg (ms_parent_request x).

(** @src/src/actors/BxiNicTarget.cpp:559-599 BxiNicTarget::put_like_req_ev_processing *)
Definition put_like_req_ev_processing (node me msg : handle) (ev_kind : ptl_event_kind)
    : SM bool :=
  x ← load (T := BxiMsg) msg;
  req ← cast_request is_put_like (ms_parent_request x);
  m ← load (T := BxiME) me;
  match reports_to (Some m) with
  | Some m =>
      pt ← load (T := BxiPT) (bme_pt m);
      initiator ← initiator_of req;
      let event := target_event ev_kind initiator (pt_index pt) m req
                     <| ev_hdr_data := Some (rq_hdr req) |> in
      out ← maybe_auto_unlink me;
      _ ← issue_event node (pt_eq pt) event;
      mret out
  | None => maybe_auto_unlink me
  end.

(** ** Acknowledgements *)

(** @src/src/actors/BxiNicTarget.cpp:111-122 the answer to [msg], going back: the copy, its type
    and its two ends *)
Definition answer_msg (msg : handle) (type : bxi_msg_type) : SM handle :=
  ack ← BxiMsg_copy msg;
  x ← load (T := BxiMsg) msg;
  _ ← set_msg ack (fun a => a <| ms_type := type |> <| ms_initiator := ms_target x |>
                              <| ms_target := ms_initiator x |>);
  mret ack.

(** @src/src/actors/BxiNicTarget.cpp:91-124 BxiNicTarget::send_ack *)
Definition send_ack (node tx_queue msg : handle) (ack_type : bxi_msg_type) (ni_fail_type : Z)
    : SM unit :=
  x ← load (T := BxiMsg) msg;
  let r := ms_parent_request x in
  req ← cast_request is_put_like r;
  quick ← S4BXI_GLOBAL_CONFIG quick_acks;
  if (quick : bool) then
    _ ← set_request r (fun q => q <| rq_process_state := S4BXI_REQ_FINISHED |>);
    vn ← of_option (vn_of_num (vn_of (ms_type x) (rq_service_vn req))) (Undefined "bxi_vn");
    ni ← load (T := BxiNI) (bmd_ni (rq_md req));
    n ← load (T := BxiNode) node;
    _ ← release_e2e_entry (ni_node ni) (nd_nid n) vn (ni_pid ni) (rq_target_pid req);
    _ ← maybe_issue_send r;
    issue_ack r ni_fail_type
  else
    ack ← answer_msg msg ack_type;
    _ ← set_msg ack (fun a => a <| ms_simulated_size := ACK_SIZE |> <| ms_retry_count := 0 |>
          <| ms_ni_fail_type := ni_fail_type |> <| ms_answers_msg := msg |>);
    _ ← set_msg msg (over ms_ref_count (fun c => u32 (c + 1)));
    BxiQueue_put tx_queue ack 0 true.

(** @src/src/actors/BxiNicTarget.cpp:467-476 the E2E acknowledgement of an answer *)
Definition send_bxi_ack (tx_queue msg : handle) : SM unit :=
  ack ← answer_msg msg S4BXI_E2E_ACK;
  _ ← set_msg ack (fun a => a <| ms_simulated_size := ACK_SIZE |> <| ms_answers_msg := msg |>);
  _ ← set_msg msg (over ms_ref_count (fun c => u32 (c + 1)));
  BxiQueue_put tx_queue ack 0 true.

(** ** PCI writes of a payload *)

(** @src/src/actors/BxiNicTarget.cpp:304-319 a payload written asynchronously to the memory of
    the host, and the wait for its last packet *)
Definition payload_write_async (node msg : handle) : SM (option comm) :=
  model ← S4BXI_CONFIG_AND node nd_model_pci model_pci;
  x ← load (T := BxiMsg) msg;
  if (model : bool) && negb (ms_simulated_size x =? 0) then
    dma ← pci_transfer_async node (ms_simulated_size x) PCI_NIC_TO_CPU
            S4BXILOG_PCI_PAYLOAD_WRITE false;
    _ ← sim (SleepFor (pci_wait_time (ms_simulated_size x)));
    mret (Some dma)
  else mret None.

(** @src/src/actors/BxiNicTarget.cpp:329-330 [if (dma) dma->wait()] *)
Definition wait_dma (dma : option comm) : SM unit :=
  match dma with Some c => sim (CommWait c) | None => mret tt end.

(** @src/src/actors/BxiNicTarget.cpp:186-201 BxiNicTarget::handle_put_request (the payload) *)
Definition payload_write (node msg : handle) : SM unit :=
  model ← S4BXI_CONFIG_AND node nd_model_pci model_pci;
  x ← load (T := BxiMsg) msg;
  when ((model : bool) && negb (ms_simulated_size x =? 0))
    (_ ← sim (SleepFor (pci_wait_time (ms_simulated_size x)));
     x ← load (T := BxiMsg) msg;
     pci_transfer node (ms_simulated_size x) PCI_NIC_TO_CPU S4BXILOG_PCI_PAYLOAD_WRITE).

(** ** Requests *)

(** @src/src/actors/BxiNicTarget.cpp:153-162 what a matched request records: [keep_me] says
    whether the entry is copied into it *)
Definition receive_request (r msg me : handle) (keep_me : BxiME -> bool) : SM unit :=
  _ ← set_me me (fun m => m <| bme_in_use := true |>);
  m ← load (T := BxiME) me;
  _ ← when (keep_me m)
        (set_request r (fun q => q <| rq_matched_me := Some (BxiME_copy m) |>));
  _ ← set_request r (fun q => q <| rq_process_state := S4BXI_REQ_RECEIVED |>);
  _ ← set_request r (fun q => q <| rq_mlength := Some (get_mlength m q) |>);
  start ← get_offsetted_addr me msg true;
  set_request r (fun q => q <| rq_start := Some start |>).

(** @src/src/actors/BxiNicTarget.cpp:154-155 only an overflow entry is needed later *)
Definition in_overflow (m : BxiME) : bool := bme_list m =? PTL_OVERFLOW_LIST.
Definition always (_ : BxiME) : bool := true.

(** @src/src/actors/BxiNicTarget.cpp:167-168 [if (CT_COMM) me->increment_ct(payload_size)] *)
Definition count_comm (r me : handle) : SM unit :=
  m ← load (T := BxiME) me;
  req ← load (T := BxiRequest) r;
  when (me_has m PTL_ME_EVENT_CT_COMM) (BxiME_increment_ct me (rq_payload_size req)).

(** The [mlength] and [start] a request has by now. *)
Definition received_range (r : handle) : SM (Z * Z) :=
  req ← load (T := BxiRequest) r;
  start ← of_option (rq_start req) (Undefined "start");
  mlength ← of_option (rq_mlength req) (Undefined "mlength");
  mret (start, mlength).

(** @src/src/actors/BxiNicTarget.cpp:170-172 whether an acknowledgement is due, and which *)
Definition ack_policy (need_portals_ack : bool) (md : BxiMD) : SM (bool * bxi_msg_type) :=
  if need_portals_ack then mret (true, S4BXI_PTL_ACK) else
  off ← md_e2e_off md;
  mret (negb off, S4BXI_E2E_ACK).

(** @src/src/actors/BxiNicTarget.cpp:174-177 the end of the use of an entry ([unlinked]: what
    maybe_auto_unlink answers) *)
Definition finish_entry (me : handle) (unlinked : bool) : SM unit :=
  if unlinked then mret tt else
  m ← load (T := BxiME) me;
  when (bme_needs_unlink m) (BxiME_unlink me).

(** @src/src/actors/BxiNicTarget.cpp:163-165 the copy of a put's payload *)
Definition copy_put_payload (node r : handle) : SM unit :=
  real ← S4BXI_CONFIG_AND node nd_use_real_memory use_real_memory;
  req ← load (T := BxiRequest) r;
  let md := bmd_md (rq_md req) in
  when ((real : bool) && negb (md_length md =? 0))
    (range ← received_range r;
     capped_memcpy (fst range) (add64 (md_start md) (rq_local_offset req)) (snd range)).

(** @src/src/actors/BxiNicTarget.cpp:134-202 BxiNicTarget::handle_put_request *)
Definition handle_put_request (node tx_queue msg : handle) : SM unit :=
  x ← load (T := BxiMsg) msg;
  let r := ms_parent_request x in
  req ← cast_request is_put_like r;
  if state_num S4BXI_REQ_CREATED <? state_num (rq_process_state req) then mret tt else
  '(ni_fail_type, matched) ← match_entry node msg;
  ack ←
    (match matched with
     | Some me =>
         _ ← receive_request r msg me in_overflow;
         _ ← copy_put_payload node r;
         _ ← count_comm r me;
         m ← load (T := BxiME) me;
         ack ← ack_policy (negb (me_has m PTL_ME_ACK_DISABLE)
                           && negb (rq_ack_req req =? PTL_NO_ACK_REQ)) (rq_md req);
         _ ← set_me me (fun m => m <| bme_in_use := false |>);
         unlinked ← put_like_req_ev_processing node me msg PTL_EVENT_PUT;
         _ ← finish_entry me unlinked;
         mret ack
     | None => mret (negb (rq_ack_req req =? PTL_NO_ACK_REQ), S4BXI_PTL_ACK)
     end);
  _ ← when (fst ack) (send_ack node tx_queue msg (snd ack) ni_fail_type);
  match matched with Some _ => payload_write node msg | None => mret tt end.

(** @src/src/actors/BxiNicTarget.cpp:219-225 the response to a get or fetch request *)
Definition new_response (node msg : handle) (type : bxi_msg_type)
    : SM (handle * option handle) :=
  response ← answer_msg msg type;
  _ ← set_msg response (fun a => a <| ms_retry_count := 0 |>);
  '(ni_fail_type, matched) ← match_entry node msg;
  _ ← set_msg response (fun a => a <| ms_ni_fail_type := ni_fail_type |>);
  mret (response, matched).

(** @src/src/actors/BxiNicTarget.cpp:237-237 [response->simulated_size = req->mlength] *)
Definition size_response (response r : handle) : SM unit :=
  range ← received_range r;
  set_msg response (fun a => a <| ms_simulated_size := snd range |>).

(** @src/src/actors/BxiNicTarget.cpp:239-240 the copy of a get's payload *)
Definition copy_get_payload (r me : handle) : SM unit :=
  req ← load (T := BxiRequest) r;
  ni ← load (T := BxiNI) (bmd_ni (rq_md req));
  real ← S4BXI_CONFIG_AND (ni_node ni) nd_use_real_memory use_real_memory;
  m ← load (T := BxiME) me;
  when ((real : bool) && negb (me_length (bme_me m) =? 0))
    (range ← received_range r;
     capped_memcpy (add64 (md_start (bmd_md (rq_md req))) (rq_local_offset req))
       (fst range) (snd range)).

(** @src/src/actors/BxiNicTarget.cpp:242-245 the end of the use of an entry that issues no event
    here *)
Definition release_entry (me : handle) : SM unit :=
  _ ← set_me me (fun m => m <| bme_in_use := false |>);
  unlinked ← maybe_auto_unlink me;
  finish_entry me unlinked.

(** @src/src/actors/BxiNicTarget.cpp:212-251 BxiNicTarget::handle_get_request *)
Definition handle_get_request (node tx_queue msg : handle) : SM unit :=
  x ← load (T := BxiMsg) msg;
  let r := ms_parent_request x in
  req ← cast_request is_get_request r;
  if state_num S4BXI_REQ_CREATED <? state_num (rq_process_state req) then mret tt else
  '(response, matched) ← new_response node msg S4BXI_PTL_GET_RESPONSE;
  _ ← (match matched with
       | Some me =>
           _ ← receive_request r msg me always;
           _ ← count_comm r me;
           _ ← size_response response r;
           _ ← copy_get_payload r me;
           release_entry me
       | None => set_msg response (fun a => a <| ms_simulated_size := 0 |>)
       end);
  BxiQueue_put tx_queue response 0 true.

(** @src/src/actors/BxiNicTarget.cpp:289-293 the atomic operation of an atomic request *)
Definition run_atomic (node r : handle) : SM unit :=
  real ← S4BXI_CONFIG_AND node nd_use_real_memory use_real_memory;
  req ← load (T := BxiRequest) r;
  let md := bmd_md (rq_md req) in
  when ((real : bool) && negb (md_length md =? 0))
    (range ← received_range r;
     let operand := add64 (md_start md) (rq_local_offset req) in
     apply_atomic_op (rq_op req) (rq_datatype req) (fst range) (CstAt operand) operand
       (fst range) (snd range)).

(** @src/src/actors/BxiNicTarget.cpp:258-331 BxiNicTarget::handle_atomic_request *)
Definition handle_atomic_request (node tx_queue msg : handle) : SM unit :=
  x ← load (T := BxiMsg) msg;
  let r := ms_parent_request x in
  req ← cast_request is_atomic_like r;
  if state_num S4BXI_REQ_CREATED <? state_num (rq_process_state req) then mret tt else
  _ ← ack_policy (negb (rq_ack_req req =? PTL_NO_ACK_REQ)) (rq_md req);
  '(ni_fail_type, matched) ← match_entry node msg;
  dma ←
    (match matched with
     | Some me =>
         _ ← receive_request r msg me in_overflow;
         _ ← run_atomic node r;
         _ ← count_comm r me;
         m ← load (T := BxiME) me;
         '(need_ack, ack_type) ←
           ack_policy (negb (rq_ack_req req =? PTL_NO_ACK_REQ)
                       && negb (me_has m PTL_ME_ACK_DISABLE)) (rq_md req);
         dma ← payload_write_async node msg;
         _ ← when need_ack (send_ack node tx_queue msg ack_type ni_fail_type);
         _ ← set_me me (fun m => m <| bme_in_use := false |>);
         unlinked ← put_like_req_ev_processing node me msg PTL_EVENT_ATOMIC;
         _ ← finish_entry me unlinked;
         mret dma
     | None => mret None
     end);
  wait_dma dma.

(** @src/src/actors/BxiNicTarget.cpp:370-372 the third operand of a fetch atomic: the address of
    the request's [cst] field, which only a BxiSwapRequest has *)
Definition fetch_cst (req : BxiRequest) : cst_operand :=
  if is_swap_request (rq_op req) then
    CstField (match rq_class req, rq_cst req with
              | BxiSwapRequest, Some p => bytes_of_Z 8 p
              | _, _ => []
              end)
  else CstAt (add64 (md_start (bmd_md (rq_md req))) (rq_local_offset req)).

(** @src/src/actors/BxiNicTarget.cpp:377-377 [req->matched_me->get_offsetted_addr(msg, false)],
    on the request's own copy of the entry *)
Definition matched_offsetted_addr (r : handle) : SM Z :=
  req ← load (T := BxiRequest) r;
  m ← of_option (rq_matched_me req) (Undefined "matched_me is null");
  let '(addr, _, target_off) := offsetted_addr m req false in
  _ ← set_request r (fun q => q <| rq_target_remote_offset := Some target_off |>);
  mret addr.

(** @src/src/actors/BxiNicTarget.cpp:366-379 the copy of the old value, then the operation *)
Definition run_fetch_atomic (node r me : handle) : SM unit :=
  real ← S4BXI_CONFIG_AND node nd_use_real_memory use_real_memory;
  req ← load (T := BxiRequest) r;
  let md := bmd_md (rq_md req) in
  when ((real : bool) && negb (md_length md =? 0))
    (range ← received_range r;
     m ← load (T := BxiME) me;
     _ ← when (negb (me_length (bme_me m) =? 0))
           (get_md ← of_option (rq_get_md req) (Undefined "get_md is null");
            capped_memcpy (add64 (md_start (bmd_md get_md)) (rq_get_local_offset req))
              (fst range) (snd range));
     tx ← matched_offsetted_addr r;
     apply_atomic_op (rq_op req) (rq_datatype req) (fst range) (fetch_cst req)
       (add64 (md_start md) (rq_local_offset req)) tx (snd range)).

(** @src/src/actors/BxiNicTarget.cpp:343-396 BxiNicTarget::handle_fetch_atomic_request *)
Definition handle_fetch_atomic_request (node tx_queue msg : handle) : SM unit :=
  x ← load (T := BxiMsg) msg;
  let r := ms_parent_request x in
  req ← cast_request is_fetch_like r;
  if state_num S4BXI_REQ_CREATED <? state_num (rq_process_state req) then mret tt else
  '(response, matched) ← new_response node msg S4BXI_PTL_FETCH_ATOMIC_RESPONSE;
  _ ← (match matched with
       | Some me =>
           _ ← receive_request r msg me always;
           _ ← run_fetch_atomic node r me;
           _ ← count_comm r me;
           _ ← size_response response r;
           release_entry me
       | None => set_msg response (fun a => a <| ms_simulated_size := 0 |>)
       end);
  BxiQueue_put tx_queue response 0 true.

(** ** Answers *)

(** @src/src/actors/BxiNicTarget.cpp:405-406 the entry of a request, released when its answer
    arrives *)
Definition release_request_entry (node : handle) (x : BxiMsg) (req : BxiRequest) : SM unit :=
  ni ← load (T := BxiNI) (bmd_ni (rq_md req));
  release_e2e_entry node (ms_initiator x)
    (if rq_service_vn req then S4BXI_VN_SERVICE_REQUEST else S4BXI_VN_COMPUTE_REQUEST)
    (ni_pid ni) (rq_target_pid req).

(** @src/src/actors/BxiNicTarget.cpp:403-404 the descriptor an answer is written through *)
Definition response_md (req : BxiRequest) : SM BxiMD :=
  if decide (rq_type req = S4BXI_FETCH_ATOMIC_REQUEST)
  then of_option (rq_get_md req) (Undefined "get_md is null") else mret (rq_md req).

(** @src/src/actors/BxiNicTarget.cpp:449-454 the event of BxiNicTarget::handle_response *)
Definition reply_event (x : BxiMsg) (req : BxiRequest) : ptl_event :=
  new_event <| ev_type := Some PTL_EVENT_REPLY |>
    <| ev_ni_fail_type := Some (ms_ni_fail_type x) |>
    <| ev_user_ptr := Some (rq_user_ptr req) |> <| ev_mlength := rq_mlength req |>
    <| ev_remote_offset := rq_target_remote_offset req |>.

(** @src/src/actors/BxiNicTarget.cpp:398-459 BxiNicTarget::handle_response *)
Definition handle_response (node tx_queue msg : handle) : SM unit :=
  x ← load (T := BxiMsg) msg;
  let r := ms_parent_request x in
  req ← load (T := BxiRequest) r;
  md ← response_md req;
  _ ← release_request_entry node x req;
  req ← load (T := BxiRequest) r;
  if state_num S4BXI_REQ_RECEIVED <? state_num (rq_process_state req) then mret tt else
  _ ← set_request r (fun q => q <| rq_process_state := S4BXI_REQ_ANSWERED |>);
  dma ← payload_write_async node msg;
  off ← md_e2e_off md;
  _ ← when (negb off) (send_bxi_ack tx_queue msg);
  _ ← when (HAS_PTL_OPTION (md_options (bmd_md md)) PTL_MD_EVENT_CT_REPLY)
        (BxiMD_increment_ct md (rq_payload_size req));
  x ← load (T := BxiMsg) msg;
  req ← load (T := BxiRequest) r;
  _ ← issue_event node (md_eq_handle (bmd_md md)) (reply_event x req);
  wait_dma dma.

(** @src/src/actors/BxiNicTarget.cpp:461-485 BxiNicTarget::handle_ptl_ack *)
Definition handle_ptl_ack (node tx_queue msg : handle) : SM unit :=
  x ← load (T := BxiMsg) msg;
  let r := ms_parent_request x in
  req ← cast_request is_put_like r;
  _ ← release_request_entry node x req;
  off ← md_e2e_off (rq_md req);
  _ ← when (negb off) (send_bxi_ack tx_queue msg);
  req ← load (T := BxiRequest) r;
  when (state_num (rq_process_state req) <=? state_num S4BXI_REQ_RECEIVED)
    (_ ← set_request r (fun q => q <| rq_process_state := S4BXI_REQ_ANSWERED |>);
     _ ← maybe_issue_send r;
     x ← load (T := BxiMsg) msg;
     issue_ack r (ms_ni_fail_type x)).

(** @src/src/actors/BxiNicTarget.cpp:514-526 BxiNicTarget::handle_bxi_ack (the event the request
    may still owe) *)
Definition settle_request (node r : handle) : SM unit :=
  req ← load (T := BxiRequest) r;
  match rq_type req with
  | S4BXI_PUT_REQUEST | S4BXI_ATOMIC_REQUEST =>
      put ← cast_request is_put_like r;
      when (rq_ack_req put =? PTL_NO_ACK_REQ) (maybe_issue_send r)
  | S4BXI_GET_REQUEST => maybe_issue_get node r
  | S4BXI_FETCH_ATOMIC_REQUEST => maybe_issue_fetch_atomic node r
  end.

(** @src/src/actors/BxiNicTarget.cpp:495-527 BxiNicTarget::handle_bxi_ack *)
Definition handle_bxi_ack (node msg : handle) : SM unit :=
  x ← load (T := BxiMsg) msg;
  let r := ms_parent_request x in
  req ← load (T := BxiRequest) r;
  if state_num S4BXI_REQ_FINISHED <=? state_num (rq_process_state req) then mret tt else
  _ ← set_request r (fun q => q <| rq_process_state := S4BXI_REQ_FINISHED |>);
  _ ← assert (negb (ms_answers_msg x =? NULL)%N) (Abort "E2E ACK without an answer_msg");
  vn ← get_vn (ms_answers_msg x);
  ni ← load (T := BxiNI) (bmd_ni (rq_md req));
  let '(s_pid, t_pid) :=
    if is_request_vn vn then (ni_pid ni, rq_target_pid req)
    else (rq_target_pid req, ni_pid ni) in
  answered ← load (T := BxiMsg) (ms_answers_msg x);
  _ ← release_e2e_entry node (ms_target answered) vn s_pid t_pid;
  settle_request node r.

(** ** The actor *)

(** @src/src/actors/BxiNicTarget.cpp:28-32 BxiNicTarget::BxiNicTarget (returns the mailbox) *)
Definition BxiNicTarget_new (node : handle) (vn : bxi_vn) : SM mailbox :=
  n ← load (T := BxiNode) node;
  let mb := nic_rx_mailbox_name (nd_nid n) vn in
  _ ← sim (SetReceiver mb true);
  mret mb.

(** @src/src/actors/BxiNicTarget.cpp:41-43 the network the target answers on *)
Definition answer_vn (vn : bxi_vn) : bxi_vn :=
  match vn with
  | S4BXI_VN_SERVICE_REQUEST | S4BXI_VN_SERVICE_RESPONSE => S4BXI_VN_SERVICE_RESPONSE
  | S4BXI_VN_COMPUTE_REQUEST | S4BXI_VN_COMPUTE_RESPONSE => S4BXI_VN_COMPUTE_RESPONSE
  end.

(** @src/src/actors/BxiNicTarget.cpp:44-47 BxiNicTarget::operator() (wait for the queue to
    exist) *)
Fixpoint wait_tx_queue (fuel : nat) (node : handle) (vn : bxi_vn) : SM handle :=
  match fuel with
  | O => fail OutOfFuel
  | S fuel' =>
      n ← load (T := BxiNode) node;
      _ ← sim Yield;
      match nd_tx_queues n !! answer_vn vn with
      | Some q => mret q
      | None => wait_tx_queue fuel' node vn
      end
  end.

(** @src/src/actors/BxiNicTarget.cpp:56-60 the end of a message's own log record *)
Definition close_msg_log (msg : handle) : SM unit :=
  x ← load (T := BxiMsg) msg;
  match ms_bxi_log x with
  | None => mret tt
  | Some l =>
      clock ← gets w_clock;
      _ ← BxiEngine_log (l <| log_end := Some clock |>);
      set_msg msg (fun x => x <| ms_bxi_log := None |>)
  end.

(** @src/src/actors/BxiNicTarget.cpp:62-85 the [switch] of BxiNicTarget::operator() *)
Definition target_dispatch (node tx_queue msg : handle) : SM unit :=
  x ← load (T := BxiMsg) msg;
  match ms_type x with
  | S4BXI_PTL_PUT => handle_put_request node tx_queue msg
  | S4BXI_PTL_GET => handle_get_request node tx_queue msg
  | S4BXI_PTL_ATOMIC => handle_atomic_request node tx_queue msg
  | S4BXI_PTL_FETCH_ATOMIC => handle_fetch_atomic_request node tx_queue msg
  | S4BXI_PTL_GET_RESPONSE | S4BXI_PTL_FETCH_ATOMIC_RESPONSE =>
      handle_response node tx_queue msg
  | S4BXI_PTL_ACK => handle_ptl_ack node tx_queue msg
  | S4BXI_E2E_ACK => handle_bxi_ack node msg
  end.

(** @src/src/actors/BxiNicTarget.cpp:49-88 BxiNicTarget::operator() (one turn of the loop) *)
Definition target_turn (node tx_queue : handle) (rx_mailbox : mailbox) : SM unit :=
  _ ← sim (GetWait rx_mailbox);
  p ← gets (fun w => env_received w rx_mailbox);
  match p with
  | PMsg msg =>
      _ ← close_msg_log msg;
      _ ← target_dispatch node tx_queue msg;
      unref msg
  | _ => fail (Undefined "not a message")
  end.

Fixpoint target_turns (node tx_queue : handle) (rx_mailbox : mailbox) (turns : nat) : SM unit :=
  match turns with
  | O => mret tt
  | S turns' =>
      _ ← target_turn node tx_queue rx_mailbox;
      target_turns node tx_queue rx_mailbox turns'
  end.

(** @src/src/actors/BxiNicTarget.cpp:39-89 BxiNicTarget::operator() (the first [turns] turns of
    its endless loop) *)
Definition BxiNicTarget_run (node : handle) (vn : bxi_vn) (rx_mailbox : mailbox) (turns : nat)
    : SM unit :=
  tx_queue ← wait_tx_queue env_fuel node vn;
  target_turns node tx_queue rx_mailbox turns.
End Target.
