(* ===== verification/MainActor.v ===== *)
(** The Portals API as a user process calls it ([src/actors/BxiMainActor.cpp]). *)
From S2P Require Import Prelude Portals World Engine Queue Messages Node Counters Entries.
From S2P Require Import E2E NicActor.
From Stdlib Require Import SpecFloat.

Definition has_truthy (prop : option string) : bool :=
  match prop with Some p => TRUTHY_CHAR p | None => false end.
Definition truthy_or_absent (prop : option string) : bool :=
  match prop with Some p => TRUTHY_CHAR p | None => true end.

Section MainActor.
Context `{Env}.

(** @src/src/actors/BxiMainActor.cpp:33-79 BxiMainActor::BxiMainActor (the node's settings; the
    arguments are the actor's properties and whether the NIC host runs a [nic_e2e] actor) *)
Definition BxiMainActor_new (node : handle)
    (use_real_memory_prop model_pci_prop model_pci_commands_prop service_mode_prop
       : option string) (has_nic_e2e : bool) : SM handle :=
  off ← S4BXI_GLOBAL_CONFIG e2e_off;
  let pci := truthy_or_absent model_pci_prop in
  _ ← update (T := BxiNode) node (fun n =>
        n <| nd_use_real_memory := has_truthy use_real_memory_prop |>
          <| nd_model_pci := pci |>
          <| nd_model_pci_commands := pci && truthy_or_absent model_pci_commands_prop |>
          <| nd_e2e_off ::= fun o : bool => if (off : bool) then true else if has_nic_e2e then false else o |>);
  new {| ma_node := node; ma_vn := None; ma_service_mode := has_truthy service_mode_prop;
         ma_tx_queue := NULL; ma_poll_count := 0; ma_is_polling := -1 |}.

(** @src/src/actors/BxiMainActor.cpp:86-90 BxiMainActor::issue_portals_command(int) *)
Definition issue_portals_command_size (actor : handle) (simulated_size : Z) : SM unit :=
  a ← load (T := BxiMainActor) actor;
  model ← S4BXI_CONFIG_AND (ma_node a) nd_model_pci_commands model_pci_commands;
  when ((model : bool) && negb (simulated_size =? 0))
    (pci_transfer (ma_node a) simulated_size PCI_CPU_TO_NIC S4BXILOG_PCI_COMMAND).

(** @src/src/actors/BxiMainActor.cpp:92-95 BxiMainActor::issue_portals_command() *)
Definition issue_portals_command (actor : handle) : SM unit :=
  issue_portals_command_size actor COMMAND_SIZE.

(** @src/src/actors/BxiMainActor.cpp:113-116 the condition of BxiMainActor::is_PIO ([model]: PCI
    transfers are modelled) *)
Definition pio_condition (model : bool) (retry_count : Z) (req : BxiRequest) : bool :=
  (retry_count =? 0) && model
  && (INLINE_SIZE req <? rq_payload_size req) && (rq_payload_size req <=? PIO_SIZE req)
  && HAS_PTL_OPTION (md_options (bmd_md (rq_md req))) PTL_MD_VOLATILE.

(** @src/src/actors/BxiMainActor.cpp:107-117 BxiMainActor::is_PIO *)
Definition is_PIO (actor msg : handle) : SM bool :=
  a ← load (T := BxiMainActor) actor;
  x ← load (T := BxiMsg) msg;
  req ← cast_request is_put_like (ms_parent_request x);
  model ← S4BXI_CONFIG_AND (ma_node a) nd_model_pci model_pci;
  mret (pio_condition model (ms_retry_count x) req).

(** @src/src/actors/BxiMainActor.cpp:141-150 BxiMainActor::PtlInit *)
Definition PtlInit (actor : handle) : SM Z :=
  _ ← sim (SleepFor timer_precision);
  a ← load (T := BxiMainActor) actor;
  n ← load (T := BxiNode) (ma_node a);
  let vn :=
    if ma_service_mode a then S4BXI_VN_SERVICE_REQUEST else S4BXI_VN_COMPUTE_REQUEST in
  _ ← update (T := BxiMainActor) actor (fun a =>
        a <| ma_vn := Some vn |> <| ma_tx_queue := default NULL (nd_tx_queues n !! vn) |>);
  mret PTL_OK.

(** @src/src/actors/BxiMainActor.cpp:155-158 BxiMainActor::PtlHandleIsEqual *)
Definition PtlHandleIsEqual (handle1 handle2 : handle) : bool := (handle1 =? handle2)%N.

(** @src/src/actors/BxiMainActor.cpp:200-206 BxiMainActor::PtlGetPhysId *)
Definition PtlGetPhysId (actor ni : handle) : SM (Z * ptl_process) :=
  a ← load (T := BxiMainActor) actor;
  n ← load (T := BxiNode) (ma_node a);
  i ← load (T := BxiNI) ni;
  mret (PTL_OK, mk_process (nd_nid n) (ni_pid i)).

(** @src/src/actors/BxiMainActor.cpp:179-189 BxiMainActor::PtlGetId (in a logical interface only
    the rank is written) *)
Definition PtlGetId (actor ni : handle) : SM (Z * (ptl_process + Z)) :=
  i ← load (T := BxiNI) ni;
  if HAS_PTL_OPTION (ni_options i) PTL_NI_PHYSICAL then
    r ← PtlGetPhysId actor ni; mret (fst r, inl (snd r))
  else rank ← get_l2p_rank ni; mret (PTL_OK, inr rank).

(** ** Interfaces *)

(** @src/src/actors/BxiMainActor.cpp:219-223 the search of an unused PID *)
Fixpoint find_pid (fuel : nat) (used : list Z) (pid : Z) : option Z :=
  match fuel with
  | O => None
  | S fuel' => if decide (pid ∈ used) then find_pid fuel' used (u32 (pid + 1)) else Some pid
  end.

(** @src/src/actors/BxiMainActor.cpp:217-228 the PID of a new interface.  [std::find] compares
    the [int]s of [used_pids] with an [unsigned]; one more turn than there are PIDs in use is
    always enough. *)
Definition choose_pid (used : list Z) (pid : Z) : SM Z :=
  let used := u32 <$> used in
  if pid =? PTL_PID_ANY then of_option (find_pid (S (length used)) used 2048) OutOfFuel
  else if decide (pid ∈ used) then fail (Abort "PID is already in use")
  else mret pid.

(** @src/src/actors/BxiMainActor.cpp:212-237 BxiMainActor::PtlNIInit (returns the code, the
    interface and [*actual]) *)
Definition PtlNIInit (actor : handle) (iface options pid : Z) (desired : option ptl_ni_limits)
    : SM (Z * handle * ptl_ni_limits) :=
  _ ← issue_portals_command actor;
  a ← load (T := BxiMainActor) actor;
  n ← load (T := BxiNode) (ma_node a);
  pid ← choose_pid (nd_used_pids n) pid;
  _ ← update (T := BxiNode) (ma_node a)
        (over nd_used_pids (fun l => l ++ [swrap 32 pid]));
  '(ni, actual) ← BxiNI_init (ma_node a) iface options pid desired;
  _ ← update (T := BxiNode) (ma_node a) (over nd_ni_handles (fun l => l ++ [ni]));
  mret (PTL_OK, ni, actual).

(** @src/src/actors/BxiMainActor.cpp:239-248 BxiMainActor::PtlNIFini *)
Definition PtlNIFini (actor ni : handle) : SM Z :=
  _ ← issue_portals_command actor;
  a ← load (T := BxiMainActor) actor;
  n ← load (T := BxiNode) (ma_node a);
  i ← load (T := BxiNI) ni;
  pids ← of_option (erase_remove (swrap 32 (ni_pid i)) (nd_used_pids n))
           (Undefined "erase(end())");
  _ ← update (T := BxiNode) (ma_node a) (fun n => n <| nd_used_pids := pids |>);
  _ ← BxiNI_fini ni;
  n ← load (T := BxiNode) (ma_node a);
  nis ← of_option (erase_remove ni (nd_ni_handles n)) (Undefined "erase(end())");
  _ ← update (T := BxiNode) (ma_node a) (fun n => n <| nd_ni_handles := nis |>);
  mret PTL_OK.

(** @src/src/actors/BxiMainActor.cpp:673-678 BxiMainActor::PtlSetMap ([map] is the caller's
    array) *)
Definition PtlSetMap (ni : handle) (size : Z) (map : list ptl_process) : SM Z :=
  _ ← assert (size <=? Z.of_nat (length map)) (Undefined "read past the caller's array");
  _ ← update (T := BxiNI) ni (fun i => i <| ni_l2p_map := take (Z.to_nat size) map |>);
  mret PTL_OK.

(** @src/src/actors/BxiMainActor.cpp:680-691 BxiMainActor::PtlGetMap (what is copied to the
    caller's array, and the actual size) *)
Definition PtlGetMap (ni : handle) (size : Z) : SM (Z * option (list ptl_process * Z)) :=
  i ← load (T := BxiNI) ni;
  let map_size := Z.of_nat (length (ni_l2p_map i)) in
  if map_size =? 0 then mret (PTL_NO_SPACE, None) else
  let to_copy := if map_size <? size then map_size else size in
  mret (PTL_OK, Some (take (Z.to_nat to_copy) (ni_l2p_map i), map_size)).

(** ** Portals tables *)

(** @src/src/actors/BxiMainActor.cpp:254-260 BxiMainActor::PtlPTAlloc *)
Definition PtlPTAlloc (actor ni : handle) (options : Z) (eq : handle) (desired : Z)
    : SM (Z * Z) :=
  _ ← issue_portals_command actor;
  BxiPT_alloc ni options eq desired.

(** @src/src/actors/BxiMainActor.cpp:267-272 BxiMainActor::PtlPTEnable *)
Definition PtlPTEnable (actor ni : handle) (pt_index : Z) : SM Z :=
  _ ← issue_portals_command actor;
  pt ← getFromNI ni pt_index;
  BxiPT_enable pt.

(** @src/src/actors/BxiMainActor.cpp:274-279 BxiMainActor::PtlPTDisable *)
Definition PtlPTDisable (actor ni : handle) (pt_index : Z) : SM Z :=
  _ ← issue_portals_command actor;
  pt ← getFromNI ni pt_index;
  BxiPT_disable pt.

(** @src/src/actors/BxiMainActor.cpp:281-286 BxiMainActor::PtlPTFree *)
Definition PtlPTFree (actor ni : handle) (pt_index : Z) : SM Z :=
  _ ← issue_portals_command actor;
  BxiPT_free ni pt_index.

(** ** Event queues *)

(** @src/src/actors/BxiMainActor.cpp:292-299 BxiMainActor::PtlEQAlloc *)
Definition PtlEQAlloc (actor : handle) : SM (Z * handle) :=
  _ ← issue_portals_command actor;
  eq ← BxiEQ_new;
  mret (PTL_OK, eq).

(** @src/src/actors/BxiMainActor.cpp:301-308 BxiMainActor::PtlEQFree *)
Definition PtlEQFree (actor eq : handle) : SM Z :=
  _ ← issue_portals_command actor;
  _ ← BxiEQ_delete eq;
  mret PTL_OK.

(** @src/src/actors/BxiMainActor.cpp:321-321 the time a non-blocking call takes: polling makes it
    longer and longer *)
Definition polling_delay (active_polling_delay : double) (poll_count : Z) : double :=
  dadd active_polling_delay
    (if 5 <? poll_count then dmul (double_of_Z (poll_count - 5)) active_polling_delay
     else S754_zero false).

(** @src/src/actors/BxiMainActor.cpp:318-321 the start of a non-blocking call: [true] when the
    actor is polling (only then is [poll_count] used) *)
Definition enter_nonblocking (actor : handle) : SM bool :=
  delay ← S4BXI_GLOBAL_CONFIG active_polling_delay;
  a ← load (T := BxiMainActor) actor;
  if ma_is_polling a =? -1 then _ ← sim (SleepFor delay); mret false else
  let count := u32 (ma_poll_count a + 1) in
  _ ← update actor (fun a => a <| ma_poll_count := count |>);
  _ ← sim (SleepFor (polling_delay delay count));
  mret true.

(** @src/src/actors/BxiMainActor.cpp:324-326 a polling actor that got something starts again *)
Definition reset_polling (actor : handle) (polling : bool) : SM unit :=
  when polling (update (T := BxiMainActor) actor (fun a => a <| ma_poll_count := 0 |>)).

(** @src/src/actors/BxiMainActor.cpp:310-329 BxiMainActor::PtlEQGet *)
Definition PtlEQGet (actor eq : handle) : SM (Z * option ptl_event) :=
  polling ← enter_nonblocking actor;
  ret ← BxiEQ_get eq;
  _ ← reset_polling actor (polling && (fst ret =? PTL_OK));
  mret ret.

(** @src/src/actors/BxiMainActor.cpp:331-334 BxiMainActor::PtlEQWait *)
Definition PtlEQWait (eq : handle) : SM (Z * ptl_event) := BxiEQ_wait eq.

(** @src/src/actors/BxiMainActor.cpp:336-340 BxiMainActor::PtlEQPoll *)
Definition PtlEQPoll (eqs : list handle) (timeout : Z) : SM (Z * option (ptl_event * Z)) :=
  BxiEQ_poll eqs timeout.

(** ** Memory descriptors *)

(** @src/src/actors/BxiMainActor.cpp:346-353 BxiMainActor::PtlMDBind *)
Definition PtlMDBind (actor ni : handle) (md_t : ptl_md) : SM (Z * handle) :=
  _ ← issue_portals_command actor;
  md ← BxiMD_new ni md_t;
  mret (PTL_OK, md).

(** @src/src/actors/BxiMainActor.cpp:355-362 BxiMainActor::PtlMDRelease *)
Definition PtlMDRelease (actor md : handle) : SM Z :=
  _ ← issue_portals_command actor;
  _ ← free (T := BxiMD) md;
  mret PTL_OK.

(** ** List entries *)

(** @src/src/actors/BxiMainActor.cpp:379-388 BxiMainActor::PtlMEAppend *)
Definition PtlMEAppend (actor ni : handle) (pt_index : Z) (me_t : ptl_me)
    (ptl_list user_ptr : Z) : SM (Z * handle) :=
  _ ← issue_portals_command actor;
  i ← load (T := BxiNI) ni;
  pt ← of_option (ni_pt_indexes i !! pt_index) (Exception "std::out_of_range");
  me ← BxiME_append pt me_t ptl_list user_ptr;
  mret (PTL_OK, me).

(** @src/src/actors/BxiMainActor.cpp:368-372 BxiMainActor::PtlLEAppend *)
Definition PtlLEAppend (actor ni : handle) (pt_index : Z) (le_t : ptl_me)
    (ptl_list user_ptr : Z) : SM (Z * handle) :=
  PtlMEAppend actor ni pt_index le_t ptl_list user_ptr.

(** @src/src/actors/BxiMainActor.cpp:400-402 does an unexpected header match the entry? *)
Fixpoint any_header_matches (me : handle) (uhs : list handle) : SM bool :=
  match uhs with
  | [] => mret false
  | uh :: uhs' =>
      x ← load (T := BxiMsg) uh;
      req ← load (T := BxiRequest) (ms_parent_request x);
      m ← load (T := BxiME) me;
      if matches_request m req then mret true else any_header_matches me uhs'
  end.

(** @src/src/actors/BxiMainActor.cpp:390-407 BxiMainActor::PtlMEUnlink *)
Definition PtlMEUnlink (actor me : handle) : SM Z :=
  _ ← issue_portals_command actor;
  m ← load (T := BxiME) me;
  pt ← load (T := BxiPT) (bme_pt m);
  busy ← (if bme_list m =? PTL_OVERFLOW_LIST
          then any_header_matches me (pt_unexpected_headers pt) else mret false);
  if (busy : bool) then mret PTL_IN_USE else
  _ ← BxiME_unlink me;
  mret PTL_OK.

(** @src/src/actors/BxiMainActor.cpp:374-377 BxiMainActor::PtlLEUnlink *)
Definition PtlLEUnlink (actor le : handle) : SM Z := PtlMEUnlink actor le.

(** ** Counters *)

(** @src/src/actors/BxiMainActor.cpp:623-630 BxiMainActor::PtlCTAlloc *)
Definition PtlCTAlloc (actor : handle) : SM (Z * handle) :=
  _ ← issue_portals_command actor;
  ct ← BxiCT_new;
  mret (PTL_OK, ct).

(** @src/src/actors/BxiMainActor.cpp:632-639 BxiMainActor::PtlCTFree *)
Definition PtlCTFree (actor ct : handle) : SM Z :=
  _ ← issue_portals_command actor;
  _ ← free (T := BxiCT) ct;
  mret PTL_OK.

(** @src/src/actors/BxiMainActor.cpp:641-646 BxiMainActor::PtlCTGet *)
Definition PtlCTGet (ct : handle) : SM (Z * ptl_ct_event) :=
  c ← load (T := BxiCT) ct;
  mret (PTL_OK, ct_event c).

(** @src/src/actors/BxiMainActor.cpp:648-651 BxiMainActor::PtlCTWait *)
Definition PtlCTWait (ct : handle) (test : Z) : SM (Z * ptl_ct_event) := BxiCT_wait ct test.

(** @src/src/actors/BxiMainActor.cpp:653-657 BxiMainActor::PtlCTPoll *)
Definition PtlCTPoll (cts : list handle) (tests : list Z) (timeout : Z)
    : SM (Z * option (ptl_ct_event * Z)) := BxiCT_poll cts tests timeout.

(** @src/src/actors/BxiMainActor.cpp:659-662 BxiMainActor::PtlCTSet *)
Definition PtlCTSet (ct : handle) (new_ct : ptl_ct_event) : SM Z := set_value ct new_ct.

(** @src/src/actors/BxiMainActor.cpp:664-667 BxiMainActor::PtlCTInc *)
Definition PtlCTInc (ct : handle) (increment : ptl_ct_event) : SM Z :=
  BxiCT_increment ct increment.

(** ** Operations *)

(** @src/src/actors/BxiMainActor.cpp:437-441 the command that hands a message to the NIC *)
Definition post_message (actor msg : handle) : SM unit :=
  a ← load (T := BxiMainActor) actor;
  n ← load (T := BxiNode) (ma_node a);
  with_log S4BXILOG_PCI_COMMAND (nd_nid n) (nd_nid n)
    (BxiQueue_put (ma_tx_queue a) msg 64 false).

(** @src/src/actors/BxiMainActor.cpp:417-423 a request and its first message: [mk] is the
    request's constructor, given the descriptor, whether the interface matches, and the
    target's PID *)
Definition create_request (actor : handle) (md : BxiMD) (target_id : ptl_process)
    (type : bxi_msg_type) (simulated_size : Z) (mk : bool -> Z -> BxiRequest) : SM handle :=
  ni ← load (T := BxiNI) (bmd_ni md);
  target_proc ← get_physical_proc (bmd_ni md) target_id;
  a ← load (T := BxiMainActor) actor;
  n ← load (T := BxiNode) (ma_node a);
  request ← new (mk (HAS_PTL_OPTION (ni_options ni) PTL_NI_MATCHING) (phys_pid target_proc));
  BxiMsg_new (nd_nid n) (phys_nid target_proc) type simulated_size request.

(** @src/src/actors/BxiMainActor.cpp:428-429 a place in the command queue, then PIO or DMA *)
Definition enter_command_queue (actor : handle) (md : BxiMD) (msg : handle) : SM bool :=
  _ ← sim (SemAcquire (SemCQ (bmd_ni md)));
  pio ← is_PIO actor msg;
  _ ← update (T := BxiMsg) msg (fun x => x <| ms_is_PIO := pio |>);
  mret pio.

(** @src/src/actors/BxiMainActor.cpp:432-432 the part of the payload that is not in the header *)
Definition pio_size (msg : handle) : SM Z :=
  x ← load (T := BxiMsg) msg;
  req ← load (T := BxiRequest) (ms_parent_request x);
  mret (sub64 (rq_payload_size req) (INLINE_SIZE req)).

(** @src/src/actors/BxiMainActor.cpp:413-444 BxiMainActor::PtlPut *)
Definition PtlPut (actor md_handle : handle) (local_offset length ack_req : Z)
    (target_id : ptl_process) (pt_index match_bits remote_offset user_ptr hdr : Z) : SM Z :=
  m ← load (T := BxiMD) md_handle;
  a ← load (T := BxiMainActor) actor;
  msg ← create_request actor m target_id S4BXI_PTL_PUT length (fun matching pid =>
          BxiPutRequest_init m length matching match_bits pid pt_index user_ptr
            (ma_service_mode a) local_offset remote_offset ack_req hdr);
  pio ← enter_command_queue actor m msg;
  _ ← when pio
        (size ← pio_size msg;
         _ ← pci_transfer_async (ma_node a) size PCI_CPU_TO_NIC S4BXILOG_PCI_PIO_PAYLOAD true;
         sim (SleepFor PCI_LATENCY));
  _ ← post_message actor msg;
  mret PTL_OK.

(** @src/src/actors/BxiMainActor.cpp:446-468 BxiMainActor::PtlGet *)
Definition PtlGet (actor md_handle : handle) (local_offset length : Z)
    (target_id : ptl_process) (pt_index match_bits remote_offset user_ptr : Z) : SM Z :=
  m ← load (T := BxiMD) md_handle;
  a ← load (T := BxiMainActor) actor;
  msg ← create_request actor m target_id S4BXI_PTL_GET 64 (fun matching pid =>
          BxiGetRequest_init m length matching match_bits pid pt_index user_ptr
            (ma_service_mode a) local_offset remote_offset);
  _ ← sim (SemAcquire (SemCQ (bmd_ni m)));
  _ ← post_message actor msg;
  mret PTL_OK.

(** @src/src/actors/BxiMainActor.cpp:487-490 the payload of a PIO command, in a blocking way *)
Definition pio_transfer (actor msg : handle) (pio : bool) : SM unit :=
  a ← load (T := BxiMainActor) actor;
  when pio
    (size ← pio_size msg;
     pci_transfer (ma_node a) size PCI_CPU_TO_NIC S4BXILOG_PCI_PIO_PAYLOAD).

(** @src/src/actors/BxiMainActor.cpp:470-500 BxiMainActor::PtlAtomic *)
Definition PtlAtomic (actor md_handle : handle) (loffs length ack_req : Z)
    (target_id : ptl_process) (pt_index match_bits roffs user_ptr hdr : Z) (op : ptl_op)
    (datatype : ptl_datatype) : SM Z :=
  m ← load (T := BxiMD) md_handle;
  a ← load (T := BxiMainActor) actor;
  msg ← create_request actor m target_id S4BXI_PTL_ATOMIC length (fun matching pid =>
          BxiAtomicRequest_init m length matching match_bits pid pt_index user_ptr
            (ma_service_mode a) loffs roffs ack_req hdr op datatype);
  pio ← enter_command_queue actor m msg;
  _ ← pio_transfer actor msg pio;
  _ ← post_message actor msg;
  mret PTL_OK.

(** @src/src/actors/BxiMainActor.cpp:502-536 BxiMainActor::PtlFetchAtomic *)
Definition PtlFetchAtomic (actor get_mdh : handle) (get_loffs : Z) (put_mdh : handle)
    (put_loffs length : Z) (target_id : ptl_process)
    (pt_index match_bits roffs user_ptr hdr : Z) (op : ptl_op) (datatype : ptl_datatype)
    : SM Z :=
  m_put ← load (T := BxiMD) put_mdh;
  m_get ← load (T := BxiMD) get_mdh;
  a ← load (T := BxiMainActor) actor;
  msg ← create_request actor m_put target_id S4BXI_PTL_FETCH_ATOMIC length
          (fun matching pid =>
             BxiFetchAtomicRequest_init m_put length matching match_bits pid pt_index user_ptr
               (ma_service_mode a) put_loffs roffs hdr op datatype m_get get_loffs);
  pio ← enter_command_queue actor m_put msg;
  _ ← pio_transfer actor msg pio;
  _ ← post_message actor msg;
  mret PTL_OK.

(** @src/src/actors/BxiMainActor.cpp:538-564 BxiMainActor::PtlSwap ([cst] is not used) *)
Definition PtlSwap (actor get_mdh : handle) (get_loffs : Z) (put_mdh : handle)
    (put_loffs length : Z) (target_id : ptl_process)
    (pt_index match_bits roffs user_ptr hdr cst : Z) (op : ptl_op) (datatype : ptl_datatype)
    : SM Z :=
  m_put ← load (T := BxiMD) put_mdh;
  m_get ← load (T := BxiMD) get_mdh;
  a ← load (T := BxiMainActor) actor;
  msg ← create_request actor m_put target_id S4BXI_PTL_FETCH_ATOMIC length
          (fun matching pid =>
             BxiFetchAtomicRequest_init m_put length matching match_bits pid pt_index user_ptr
               (ma_service_mode a) put_loffs roffs hdr op datatype m_get get_loffs);
  _ ← sim (SemAcquire (SemCQ (bmd_ni m_put)));
  _ ← post_message actor msg;
  mret PTL_OK.

(** @src/src/actors/BxiMainActor.cpp:569-589 the shape of PtlPutNB and PtlGetNB: give up when
    the command queue is full *)
Definition nonblocking (actor md_handle : handle) (call : SM Z) : SM Z :=
  polling ← enter_nonblocking actor;
  m ← load (T := BxiMD) md_handle;
  full ← gets (fun w => env_would_block w (SemCQ (bmd_ni m)));
  if (full : bool) then mret PTL_TRY_AGAIN else
  _ ← reset_polling actor polling;
  call.

(** @src/src/actors/BxiMainActor.cpp:566-590 BxiMainActor::PtlPutNB *)
Definition PtlPutNB (actor md_handle : handle) (local_offset length ack_req : Z)
    (target_id : ptl_process) (pt_index match_bits remote_offset user_ptr hdr : Z) : SM Z :=
  nonblocking actor md_handle
    (PtlPut actor md_handle local_offset length ack_req target_id pt_index match_bits
       remote_offset user_ptr hdr).

(** @src/src/actors/BxiMainActor.cpp:592-617 BxiMainActor::PtlGetNB *)
Definition PtlGetNB (actor md_handle : handle) (local_offset length : Z)
    (target_id : ptl_process) (pt_index match_bits remote_offset user_ptr : Z) : SM Z :=
  nonblocking actor md_handle
    (PtlGet actor md_handle local_offset length target_id pt_index match_bits remote_offset
       user_ptr).

(** ** Non-blocking calls that block *)

(** @src/include/s4bxi/actors/BxiMainActor.hpp:84-84 BxiMainActor::PtlFini *)
Definition PtlFini : SM unit := mret tt.

(** @src/include/s4bxi/actors/BxiMainActor.hpp:187-187 BxiMainActor::PtlPTEnableNB *)
Definition PtlPTEnableNB (actor n : handle) (p : Z) : SM Z := PtlPTEnable actor n p.

(** @src/include/s4bxi/actors/BxiMainActor.hpp:188-188 BxiMainActor::PtlPTDisableNB *)
Definition PtlPTDisableNB (actor n : handle) (p : Z) : SM Z := PtlPTDisable actor n p.

(** @src/include/s4bxi/actors/BxiMainActor.hpp:190-193 BxiMainActor::PtlLEAppendNB *)
Definition PtlLEAppendNB (actor n : handle) (i : Z) (le : ptl_me) (li v : Z) : SM (Z * handle) :=
  PtlLEAppend actor n i le li v.

(** @src/include/s4bxi/actors/BxiMainActor.hpp:196-199 BxiMainActor::PtlMEAppendNB *)
Definition PtlMEAppendNB (actor n : handle) (i : Z) (m : ptl_me) (l v : Z) : SM (Z * handle) :=
  PtlMEAppend actor n i m l v.

(** @src/include/s4bxi/actors/BxiMainActor.hpp:203-203 BxiMainActor::PtlMDBindNB *)
Definition PtlMDBindNB (actor n : handle) (m : ptl_md) : SM (Z * handle) := PtlMDBind actor n m.

(** @src/include/s4bxi/actors/BxiMainActor.hpp:209-213 BxiMainActor::PtlAtomicNB *)
Definition PtlAtomicNB (actor m : handle) (s si a : Z) (p : ptl_process) (i mb siz v h : Z)
    (o : ptl_op) (d : ptl_datatype) : SM Z :=
  PtlAtomic actor m s si a p i mb siz v h o d.

(** @src/include/s4bxi/actors/BxiMainActor.hpp:214-219 BxiMainActor::PtlFetchAtomicNB *)
Definition PtlFetchAtomicNB (actor m : handle) (s : Z) (md : handle) (si siz : Z) (p : ptl_process)
    (i mb size v h : Z) (o : ptl_op) (d : ptl_datatype) : SM Z :=
  PtlFetchAtomic actor m s md si siz p i mb size v h o d.

(** @src/include/s4bxi/actors/BxiMainActor.hpp:220-225 BxiMainActor::PtlSwapNB *)
Definition PtlSwapNB (actor m : handle) (s : Z) (md : handle) (si siz : Z) (p : ptl_process)
    (i mb size v h vo : Z) (o : ptl_op) (d : ptl_datatype) : SM Z :=
  PtlSwap actor m s md si siz p i mb size v h vo o d.
End MainActor.
