(* ===== verification/Runtime.v ===== *)
(** The process-wide state of the simulator and the actors of the user processes: the registry of
    [src/BxiEngine.cpp], the constructors of [src/actors/BxiActor.cpp] and
    [src/actors/BxiMainActor.cpp], the actor extension of [src/plugins/BxiActorExt.cpp].

    The network ([World]) is one part of that state.  What the user processes ask of SimGrid, of
    SMPI and of the operating system is the class [Runtime]: each call is recorded, and [rt_step]
    gives the state in which the caller resumes. *)
From S2P Require Import Prelude OMap Portals World Engine Config Node MainActor.
From Stdlib Require Import Ascii.

(** ** Data *)

(** @src/src/s4bxi_sample.cpp:39-51 LocalData *)
Record LocalData := mk_LocalData {
  ld_threshold : double; ld_relstderr : double; ld_mean : double; ld_sum : double;
  ld_sum_pow2 : double; ld_iters : Z; ld_count : Z; ld_benching : bool }.

(** The fields of a [BxiUserAppActor] that the network does not use; the others are at the same
    handle in the [World].  A field the constructors leave indeterminate is an option.  An entry
    of [registered_signals] that was never written is indeterminate (no entry here); a null one
    is [None], a [struct sigaction] that was allocated and not filled [Some None]. *)
(** @src/include/s4bxi/actors/BxiUserAppActor.hpp:25-32 BxiUserAppActor *)
Record BxiUserAppActor := mk_UserApp {
  ua_slug : string;
  ua_my_rank : option Z; ua_my_local_rank : option Z; ua_last_model_change : double;
  ua_is_sampling : Z; ua_cpu_accumulator : double; ua_use_smpi_implem : bool;
  ua_default_ni : option handle; ua_optind : Z;
  ua_keyval_store : gmap string Z;
  ua_registered_signals : gmap Z (option (option Z));
  ua_bull_mpi_lib : string; ua_string_args : list string }.

(** What the command line says of the user program. *)
(** @src/src/actors/BxiUserAppActor.cpp:66-71 privatize_libs_paths, executable, user_app_name *)
Record Application := mk_Application {
  app_executable : string; app_user_app_name : string; app_privatize_libs_paths : list string }.

(** An element of a parsed XML document: its name, its attributes, its children. *)
Inductive xml_node :=
| mk_xml (name : string) (attributes : list (string * string)) (children : list xml_node).

(** Calls to SimGrid, to SMPI and to the operating system.  [ActorInit] makes an actor that
    [ActorProperty] and [ActorStart] then refer to. *)
Inductive runtime_call :=
| EngineNew (argv : list string) | SetConfig (option : string) | LoadPlatform (file : string)
| PlatformFunction (file symbol : string) | RegisterActor (function : string)
| LoadDeployment (file : string)
| ActorInit (function : string) (host : Z) | ActorProperty (id value : string)
| ActorStart (function : string) (args : list string)
| SetActorProperty (pid : Z) (id value : string)
| SmpiInitOptions | SmpiSetCollectives | SmpiInit | SmpiCopyCallback
| SmpiAppRegister (instance : string) (processes : Z) | SmpiFinalize
| OnDeadlockAbort | SigSegvHandler | SigSegvDefault | EngineRun | EngineDelete | SimgridDelete
| ExitProcess (code : Z)
| Message (text : string)
| Malloc (size : Z) | FreeMemory (ptr : Z)
| ExecWait (flops : double) | ExecFlops (flops : double) | ActorSleep (d : double) | ActorYield | ActorExit
| ActorDaemonize | ActorCreate (name : string) (args : list string)
| BarrierCreate (n : Z) | BarrierWait
| TimerStart (actor : handle) | TimerStop (actor : handle)
| SmpiExecute (duration : double) | SmpiBenchBegin | SmpiBenchEnd
| SelfTimerStop | SelfTimerStart
| CopyFile (src target : string) | Sed (from to file : string) | Unlink (file : string)
| DlOpen (file : string) | DlSym (file symbol : string) | DlClose (file : string) | SetMpiOps (lib : string)
| EntryPoint (argv : list string)
| UserCode (n : Z)                    (* user code that makes no call of the simulator *)
| SignalHandler (action signum : Z)
| PrintPrefix (stream : Z) (color : option Z) (clock : double) (host : string) (rank : Z)
| PrintFormat (stream : Z) (text : string)
| PrintModelChange (rank v : Z) (now since : double) (comment : string)
| GetOpt (actor : handle).

(** [sim_world] is the network; [sim_nodes], [sim_actors] and [sim_rand_id] are the fields of
    [BxiEngine]; [sim_users] holds the objects [sim_actors] points to; [sim_ext] is the extension
    of each actor (its PID, then [main_actor]); the others are static variables. *)
(** @src/include/s4bxi/BxiEngine.hpp:34-41 BxiEngine *)
Record Sim := mk_Sim {
  sim_world : World;
  sim_nodes : list (Z * handle);
  sim_actors : list (Z * handle);
  sim_rand_id : string;
  sim_users : gmap N BxiUserAppActor;
  sim_ext_valid : bool; sim_ext : gmap Z handle;
  sim_barrier : option Z;
  sim_local_ranks : gmap string Z;
  sim_initialized_processes : Z;
  sim_samples : gmap string LocalData;
  sim_bxi_log : BxiLog;
  sim_app : Application;
  sim_optind : Z;
  sim_calls : list runtime_call }.

#[export] Instance rebuild_LocalData : Rebuild LocalData := fun r =>
  mk_LocalData (ld_threshold r) (ld_relstderr r) (ld_mean r) (ld_sum r) (ld_sum_pow2 r)
    (ld_iters r) (ld_count r) (ld_benching r).
#[export] Instance rebuild_UserApp : Rebuild BxiUserAppActor := fun r =>
  mk_UserApp (ua_slug r) (ua_my_rank r) (ua_my_local_rank r) (ua_last_model_change r)
    (ua_is_sampling r) (ua_cpu_accumulator r) (ua_use_smpi_implem r) (ua_default_ni r)
    (ua_optind r) (ua_keyval_store r) (ua_registered_signals r) (ua_bull_mpi_lib r)
    (ua_string_args r).
#[export] Instance rebuild_Application : Rebuild Application := fun r =>
  mk_Application (app_executable r) (app_user_app_name r) (app_privatize_libs_paths r).
#[export] Instance rebuild_Sim : Rebuild Sim := fun r =>
  mk_Sim (sim_world r) (sim_nodes r) (sim_actors r) (sim_rand_id r) (sim_users r)
    (sim_ext_valid r) (sim_ext r) (sim_barrier r) (sim_local_ranks r)
    (sim_initialized_processes r) (sim_samples r) (sim_bxi_log r) (sim_app r) (sim_optind r)
    (sim_calls r).

Abbreviation PM := (M Sim).

Class Runtime := {
  rt_step : runtime_call -> Sim -> Sim;
  rt_succeeds : runtime_call -> Sim -> bool;          (* of the last call *)
  rt_others : Sim -> Sim;             (* the other processes, during a call to the network *)
  rt_pid : Sim -> Z;                                  (* Actor::self()->get_pid() *)
  rt_host : Sim -> Z;                                 (* Actor::self()->get_host() *)
  rt_property : Sim -> string -> option string;       (* Actor::self()->get_property() *)
  rt_speed : Sim -> double;                           (* get_host()->get_speed() *)
  rt_elapsed : Sim -> handle -> double;               (* xbt_os_timer_elapsed() *)
  rt_all_actors : Sim -> list Z;         (* get_all_actors(), none before the initialisation *)
  rt_actors_on : Sim -> Z -> list string;             (* names of the actors of a host *)
  rt_host_name : Z -> string;
  rt_by_name : string -> option Z;                    (* Host::by_name() *)
  rt_host_property : Z -> string -> option string;
  rt_isatty : Z -> bool;
  rt_geteuid : Z;
  rt_printed : Sim -> Z;                              (* the result of the last vfprintf() *)
  rt_getopt : Sim -> Z;                               (* the result of the last getopt() *)
  rt_random_int : nat -> Z -> Z -> Z;        (* the n-th random_int(start, end) *)
  rt_engine_args : list string -> list string;  (* what Engine(&argc, argv) leaves *)
  rt_loaded_libs : Sim -> list string;                (* the paths dl_iterate_phdr() visits *)
  rt_xml : string -> option xml_node;                 (* pugi::xml_document::load_file() *)
  rt_actor_name : Sim -> Z -> string;
  rt_actor_property : Sim -> Z -> string -> option string;
  rt_malloc : Sim -> Z;                               (* the result of the last malloc() *)
  rt_env : Environment;                               (* getenv() *)
  rt_indeterminate_host : Z;          (* what the pointers of a new node hold *)
  rt_mpi_build : bool;                                (* BUILD_MPI_MIDDLEWARE *)
}.

Section Runtime.
Context `{Runtime}.

(** ** Primitive operations *)

Definition call (c : runtime_call) : PM unit := fun s =>
  Ok tt (rt_step c (s <| sim_calls ::= cons c |>)).

(** An operation of the network that does not call SimGrid, and one that may. *)
Definition on_world {A} (c : SM A) : PM A := fun s =>
  match c (sim_world s) with Ok a w => Ok a (s <| sim_world := w |>) | Fail e => Fail e end.
Definition network {A} (c : SM A) : PM A :=
  a ← on_world c; _ ← modify rt_others; mret a.

Definition config_field {A} (name : s4bxi_config -> A) : PM A := on_world (S4BXI_GLOBAL_CONFIG name).
Definition get_clock : PM double := gets (fun s => w_clock (sim_world s)).

Definition user (h : handle) : PM BxiUserAppActor :=
  u ← gets (fun s => sim_users s !! h); of_option u (Undefined "dangling actor").
Definition update_user (h : handle) (f : BxiUserAppActor -> BxiUserAppActor) : PM unit :=
  u ← user h; modify (fun s => s <| sim_users ::= <[h := f u]> |>).
Definition getNid (h : handle) : PM Z :=
  a ← on_world (load (T := BxiMainActor) h);
  n ← on_world (load (T := BxiNode) (ma_node a)); mret (nd_nid n).

(** ** The registry of the engine *)

(** @src/src/BxiEngine.cpp:118-121 BxiEngine::get_simulation_rand_id *)
Definition get_simulation_rand_id : PM string := gets sim_rand_id.

(** @src/src/BxiEngine.cpp:123-126 BxiEngine::set_simulation_rand_id *)
Definition set_simulation_rand_id (id : string) : PM unit :=
  modify (fun s => s <| sim_rand_id := id |>).

(** @src/src/BxiEngine.cpp:128-145 BxiEngine::get_node (the semaphore of the node is [SemE2E]) *)
Definition get_node (nid : Z) : PM handle :=
  nodes ← gets sim_nodes;
  match omap_find nid nodes with
  | None =>
      node ← on_world (BxiNode_new nid rt_indeterminate_host rt_indeterminate_host);
      _ ← modify (fun s => s <| sim_nodes ::= omap_emplace nid node |>);
      mret node
  | Some node => mret node
  end.

(** @src/src/BxiEngine.cpp:147-150 BxiEngine::register_main_actor *)
Definition register_main_actor (actor : handle) : PM unit :=
  pid ← gets rt_pid; modify (fun s => s <| sim_actors ::= omap_emplace pid actor |>).

(** The registered actors, in the order of their PIDs, that satisfy a test of their fields. *)
Fixpoint copy_if (pred : BxiUserAppActor -> PM bool) (actors : list (Z * handle))
    : PM (list (Z * handle)) :=
  match actors with
  | [] => mret []
  | (pid, a) :: actors' =>
      u ← user a; b ← pred u; l ← copy_if pred actors';
      mret (if (b : bool) then (pid, a) :: l else l)
  end.

(** @src/src/BxiEngine.cpp:152-161 BxiEngine::main_actors_on_host *)
Definition main_actors_on_host (hostname : string) : PM (list (Z * handle)) :=
  actors ← gets sim_actors;
  copy_if (fun u => mret (bool_decide (ua_slug u = hostname))) actors.

Fixpoint slugs (actors : list (Z * handle)) : PM (gset string) :=
  match actors with
  | [] => mret ∅
  | (_, a) :: actors' => u ← user a; out ← slugs actors'; mret ({[ua_slug u]} ∪ out)
  end.

(** @src/src/BxiEngine.cpp:163-170 BxiEngine::used_nodes *)
Definition used_nodes : PM (gset string) := actors ← gets sim_actors; slugs actors.

(** @src/src/BxiEngine.cpp:182-187 BxiEngine::get_main_actor *)
Definition get_main_actor (pid : Z) : PM handle :=
  actors ← gets sim_actors;
  mret (match omap_find pid actors with Some a => a | None => NULL end).

(** @src/src/BxiEngine.cpp:172-180 BxiEngine::get_current_main_actor *)
Definition get_current_main_actor : PM handle :=
  pid ← gets rt_pid;
  actor ← get_main_actor pid;
  if decide (actor = NULL)
  then fail (Abort "Couldn't find current actor, has it been registered correctly ?")
  else mret actor.

(** The first actor, in the order of the PIDs, that satisfies a test. *)
Fixpoint find_actor (pred : BxiUserAppActor -> PM bool) (actors : list (Z * handle))
    : PM handle :=
  match actors with
  | [] => mret NULL
  | (_, a) :: actors' =>
      u ← user a; b ← pred u; if (b : bool) then mret a else find_actor pred actors'
  end.

(** A field that [operator()] sets: reading it before is undefined. *)
Definition determinate {A} (v : option A) : PM A :=
  of_option v (Undefined "uninitialised field").

(** @src/src/BxiEngine.cpp:189-196 BxiEngine::get_actor_from_rank *)
Definition get_actor_from_rank (rank : Z) : PM handle :=
  actors ← gets sim_actors;
  find_actor (fun u => r ← determinate (ua_my_rank u); mret (r =? u32 rank)) actors.

(** @src/src/BxiEngine.cpp:198-205 BxiEngine::get_actor_from_slug_and_localrank *)
Definition get_actor_from_slug_and_localrank (slug : string) (localrank : Z) : PM handle :=
  actors ← gets sim_actors;
  find_actor (fun u =>
    if decide (ua_slug u = slug)
    then r ← determinate (ua_my_local_rank u); mret (r =? u32 localrank)
    else mret false) actors.

(** @src/src/BxiEngine.cpp:207-210 BxiEngine::get_main_actor_count *)
Definition get_main_actor_count : PM Z :=
  actors ← gets sim_actors; mret (swrap 32 (Z.of_nat (length actors))).

(** ** The extension of SimGrid's actors *)

(** @src/src/plugins/BxiActorExt.cpp:52-52 the callback at the creation of an actor *)
Definition on_creation (pid : Z) : PM unit :=
  modify (fun s => if sim_ext_valid s then s <| sim_ext ::= <[pid := NULL]> |> else s).

(** @src/src/plugins/BxiActorExt.cpp:35-53 s4bxi_actor_ext_plugin_init *)
Definition s4bxi_actor_ext_plugin_init : PM unit :=
  valid ← gets sim_ext_valid;
  if (valid : bool) then mret tt else
  _ ← modify (fun s => s <| sim_ext_valid := true |>);
  actors ← gets rt_all_actors;
  for_each actors (fun pid => modify (fun s => s <| sim_ext ::= <[pid := NULL]> |>)).

(** @src/src/plugins/BxiActorExt.cpp:55-63 get_cached_current_main_actor *)
Definition get_cached_current_main_actor : PM handle :=
  pid ← gets rt_pid;
  ext ← gets (fun s => sim_ext s !! pid);
  ext ← of_option ext (Undefined "actor without extension");
  if decide (ext = NULL) then
    actor ← get_current_main_actor;
    _ ← modify (fun s => s <| sim_ext ::= <[pid := actor]> |>);
    mret actor
  else mret ext.

(** @src/include/s4bxi/s4bxi_util.hpp:27-27 GET_CURRENT_MAIN_ACTOR *)
Definition GET_CURRENT_MAIN_ACTOR : PM handle := get_cached_current_main_actor.

(** ** Slugs and NIDs *)

Fixpoint all_chars (p : ascii -> bool) (s : string) : bool :=
  match s with "" => true | String c s' => p c && all_chars p s' end.

(** ["_CPU"] then digits, at least one, up to the end. *)
Definition cpu_number (s : string) : bool :=
  match s with
  | String "_" (String "C" (String "P" (String "U" (String c s')))) =>
      isdigit c && all_chars isdigit s'
  | _ => false
  end.

(** The regular expression of the constructor: what its first group matches, the longest first (a
    dot does not match an end of line). *)
Fixpoint match_cpu (s : string) : option string :=
  match s with
  | "" => None
  | String c s' =>
      match match_cpu s' with
      | Some slug =>
          if (code c =? 10) || (code c =? 13) then None else Some (String c slug)
      | None => if cpu_number s then Some "" else None
      end
  end.

Fixpoint ends_with (s tail : string) : bool :=
  bool_decide (s = tail) || match s with "" => false | String _ s' => ends_with s' tail end.

(** What a name says: the slug, whether this is a main actor, whether it has separate cores. *)
(** @src/src/actors/BxiActor.cpp:33-54 the slug *)
Definition parse_hostname (own_name : string) : string * bool * bool :=
  if ends_with own_name "_NIC"
  then (String.substring 0 (String.length own_name - 4) own_name, false, false)
  else match match_cpu own_name with
       | Some slug => (slug, true, true)
       | None => (own_name, true, false)
       end.

(** @src/src/actors/BxiActor.cpp:70-72 the search of the first digit *)
Fixpoint skip_to_digit (s : string) : string :=
  match s with String c s' => if isdigit c then s else skip_to_digit s' | "" => "" end.

(** The extraction of an [int] fails on an empty stream and leaves [nid] indeterminate; a number
    that is too large is the largest one. *)
(** @src/src/actors/BxiActor.cpp:64-79 the guess of the NID *)
Definition guess_nid (slug : string) : PM Z :=
  let '(v, n, _) := digits 10 (skip_to_digit slug) 0 0 in
  if n =? 0 then fail (Undefined "uninitialised nid") else mret (Z.min v (2 ^ 31 - 1)).

Definition by_name (name : string) : PM Z :=
  of_option (rt_by_name name) (Exception "std::invalid_argument").

(** @src/src/actors/BxiActor.cpp:58-80 the NID *)
Definition find_nid (slug : string) : PM Z :=
  nic ← by_name (slug ++ "_NIC")%string;
  match rt_host_property nic "nid" with Some prop => atoi prop | None => guess_nid slug end.

(** @src/src/actors/BxiActor.cpp:26-89 BxiActor::BxiActor (the node and the slug) *)
Definition BxiActor_new : PM (handle * string) :=
  host ← gets rt_host;
  let '(slug, is_main_actor, has_separate_cores) := parse_hostname (rt_host_name host) in
  nid ← find_nid slug;
  node ← get_node nid;
  _ ← when is_main_actor
        (h ← by_name (if (has_separate_cores : bool) then (slug ++ "_CPU0")%string else slug);
         on_world (update (T := BxiNode) node (fun n => n <| nd_main_host := h |>)));
  h ← by_name (slug ++ "_NIC")%string;
  _ ← on_world (update (T := BxiNode) node (fun n => n <| nd_nic_host := h |>));
  mret (node, slug).

(** ** User processes *)

(** The fields the constructors initialise; [use_smpi_implem] comes from the environment. *)
(** @src/src/actors/BxiMainActor.cpp:37-43 BxiMainActor::BxiMainActor *)
Definition user_init (slug : string) (args : list string) : BxiUserAppActor :=
  {| ua_slug := slug; ua_my_rank := None; ua_my_local_rank := None;
     ua_last_model_change := double_of_Z 0; ua_is_sampling := 0;
     ua_cpu_accumulator := double_of_Z 0;
     ua_use_smpi_implem := has_truthy (rt_env !! "S4BXI_SMPI_IMPLEM"%string);
     ua_default_ni := None; ua_optind := 0; ua_keyval_store := ∅; ua_registered_signals := ∅;
     ua_bull_mpi_lib := ""; ua_string_args := args |}.

(** @src/src/actors/BxiMainActor.cpp:33-79 BxiMainActor::BxiMainActor *)
Definition BxiUserAppActor_new (args : list string) : PM handle :=
  '(node, slug) ← BxiActor_new;
  prop ← gets rt_property;
  n ← on_world (load (T := BxiNode) node);
  nic_actors ← gets (fun s => rt_actors_on s (nd_nic_host n));
  actor ← on_world (BxiMainActor_new node (prop "use_real_memory"%string)
            (prop "model_pci"%string) (prop "model_pci_commands"%string)
            (prop "service_mode"%string) (bool_decide ("nic_e2e"%string ∈ nic_actors)));
  _ ← modify (fun s => s <| sim_users ::= <[actor := user_init slug args]> |>);
  _ ← register_main_actor actor;
  _ ← when (has_truthy (prop "is_daemon"%string)) (call ActorDaemonize);
  mret actor.

(** Its destruction: the engine keeps the pointer. *)
(** @src/src/actors/BxiMainActor.cpp:81-84 BxiMainActor::~BxiMainActor *)
Definition BxiUserAppActor_delete (actor : handle) : PM unit :=
  _ ← user actor;
  _ ← modify (fun s => s <| sim_users ::= delete actor |>);
  on_world (free (T := BxiMainActor) actor).

(** @src/src/actors/BxiMainActor.cpp:97-100 BxiMainActor::sampling *)
Definition sampling (actor : handle) : PM bool :=
  u ← user actor; mret (negb (ua_is_sampling u =? 0)).

(** @src/src/actors/BxiMainActor.cpp:102-105 BxiMainActor::set_sampling *)
Definition set_sampling (actor : handle) (v : Z) : PM unit :=
  update_user actor (fun u => u <| ua_is_sampling := wrap 8 v |>).

(** @src/src/actors/BxiMainActor.cpp:119-128 BxiMainActor::setup_barrier *)
Definition setup_barrier : PM unit :=
  _ ← call ActorYield;
  b ← gets sim_barrier;
  _ ← match b with
      | Some _ => mret tt
      | None =>
          n ← get_main_actor_count;
          _ ← call (BarrierCreate (u32 n));
          modify (fun s => s <| sim_barrier := Some (u32 n) |>)
      end;
  call ActorYield.

(** @src/src/actors/BxiMainActor.cpp:130-133 BxiMainActor::barrier *)
Definition barrier : PM unit :=
  b ← gets sim_barrier;
  _ ← of_option b (Undefined "null barrier");
  call BarrierWait.

End Runtime.
