(* ===== verification/Bench.v ===== *)
(** Benchmarked computations: [src/s4bxi_bench.cpp], the sampling of loops in
    [src/s4bxi_sample.cpp] and the macros of [s4bxi_sample.h]. *)
From S2P Require Import Prelude OMap Portals World Engine Config Runtime.
From Stdlib Require Import SpecFloat.

Section Bench.
Context `{Runtime}.

(** ** Computation *)

Definition write_compute_log (start : double) (nid : Z) : PM unit :=
  e ← get_clock; on_world (BxiEngine_log (mk_log (Some start) (Some e) S4BXILOG_COMPUTE nid nid)).

(** [S4BXI_STARTLOG] and [S4BXI_WRITELOG] around a computation. *)
(** @src/include/s4bxi/s4bxi_util.hpp:45-60 S4BXI_STARTLOG, S4BXI_WRITELOG *)
Definition with_compute_log (nid : Z) (body : PM unit) : PM unit :=
  level ← config_field log_level;
  computation ← config_field log_computation;
  let must_log := negb (level =? 0) && computation in
  start ← get_clock;
  _ ← body;
  when must_log (write_compute_log start nid).

(** The static [cpu_factor] is read at the first call; no operation changes it afterwards. *)
(** @src/src/s4bxi_bench.cpp:27-38 s4bxi_force_execute *)
Definition s4bxi_force_execute (duration : double) : PM unit :=
  factor ← config_field cpu_factor;
  actor ← GET_CURRENT_MAIN_ACTOR;
  nid ← getNid actor;
  with_compute_log nid
    (speed ← gets rt_speed; call (ExecWait (dmul (dmul duration factor) speed))).

(** [x >= y] on doubles. *)
Definition dge (x y : double) : bool := SFleb y x.

(** @src/src/s4bxi_bench.cpp:46-53 s4bxi_execute (with SMPI) *)
Definition s4bxi_execute_smpi (duration : double) : PM unit :=
  actor ← GET_CURRENT_MAIN_ACTOR;
  nid ← getNid actor;
  with_compute_log nid (call (SmpiExecute duration)).

(** @src/src/s4bxi_bench.cpp:89-110 s4bxi_execute (without SMPI) *)
Definition s4bxi_execute_alone (duration : double) : PM unit :=
  actor ← GET_CURRENT_MAIN_ACTOR;
  factor ← config_field cpu_factor;
  threshold ← config_field cpu_threshold;
  u ← user actor;
  let simulated_duration := dadd (ua_cpu_accumulator u) (dmul duration factor) in
  if dge simulated_duration threshold then
    nid ← getNid actor;
    _ ← with_compute_log nid
          (speed ← gets rt_speed; call (ExecWait (dmul simulated_duration speed)));
    update_user actor (fun u => u <| ua_cpu_accumulator := double_of_Z 0 |>)
  else
    accumulate ← config_field cpu_accumulate;
    when (negb (deq accumulate (double_of_Z 0)))
      (update_user actor (fun u => u <| ua_cpu_accumulator := simulated_duration |>)).

(** The build decides which of the two versions exists. *)
(** @src/src/s4bxi_bench.cpp:41-41 BUILD_MPI_MIDDLEWARE *)
Definition s4bxi_execute (duration : double) : PM unit :=
  if rt_mpi_build then s4bxi_execute_smpi duration else s4bxi_execute_alone duration.

Definition must_log_computation : PM bool :=
  level ← config_field log_level;
  if level =? 0 then mret false else config_field log_computation.

(** @src/src/s4bxi_bench.cpp:55-69 s4bxi_bench_begin (with SMPI) *)
Definition s4bxi_bench_begin_smpi : PM unit :=
  actor ← GET_CURRENT_MAIN_ACTOR;
  nid ← getNid actor;
  must_log ← must_log_computation;
  _ ← when must_log
        (now ← get_clock;
         modify (fun s => s <| sim_bxi_log ::= fun l =>
           mk_log (Some now) (log_end l) S4BXILOG_COMPUTE nid nid |>));
  call SmpiBenchBegin.

(** @src/src/s4bxi_bench.cpp:71-82 s4bxi_bench_end (with SMPI) *)
Definition s4bxi_bench_end_smpi : PM unit :=
  _ ← GET_CURRENT_MAIN_ACTOR;
  _ ← call SmpiBenchEnd;
  must_log ← must_log_computation;
  when must_log
    (now ← get_clock;
     _ ← modify (fun s => s <| sim_bxi_log ::= fun l =>
           mk_log (log_start l) (Some now) (log_type l) (log_initiator l) (log_target l) |>);
     l ← gets sim_bxi_log;
     on_world (BxiEngine_log l)).

(** @src/src/s4bxi_bench.cpp:112-117 s4bxi_bench_begin (without SMPI) *)
Definition s4bxi_bench_begin_alone : PM unit :=
  actor ← GET_CURRENT_MAIN_ACTOR; call (TimerStart actor).

(** @src/src/s4bxi_bench.cpp:119-136 s4bxi_bench_end (without SMPI) *)
Definition s4bxi_bench_end_alone : PM unit :=
  actor ← GET_CURRENT_MAIN_ACTOR;
  b ← sampling actor;
  if (b : bool) then fail (Abort "Cannot do recursive benchmarks.") else
  _ ← call (TimerStop actor);
  t ← gets (fun s => rt_elapsed s actor);
  s4bxi_execute t.

(** @src/src/s4bxi_bench.cpp:41-41 BUILD_MPI_MIDDLEWARE *)
Definition s4bxi_bench_begin : PM unit :=
  if rt_mpi_build then s4bxi_bench_begin_smpi else s4bxi_bench_begin_alone.

(** @src/src/s4bxi_bench.cpp:41-41 BUILD_MPI_MIDDLEWARE *)
Definition s4bxi_bench_end : PM unit :=
  if rt_mpi_build then s4bxi_bench_end_smpi else s4bxi_bench_end_alone.

(** ** Samples *)

(** The name of a sampled block: the process is part of it unless the samples are global. *)
(** @src/src/s4bxi_sample.cpp:29-37 SampleLocation *)
Definition SampleLocation (global : bool) (file : string) (line : Z) : PM string :=
  pid ← gets rt_pid;
  let loc := (file ++ ":" ++ pretty line)%string in
  mret (if global then loc else (loc ++ ":" ++ pretty pid)%string).

(** @src/src/s4bxi_sample.cpp:53-61 LocalData::need_more_benchs *)
Definition need_more_benchs (d : LocalData) : bool :=
  (ld_count d <? ld_iters d)
  || (dlt (double_of_Z 0) (ld_threshold d)
      && ((ld_count d <? 2) || dlt (ld_threshold d) (ld_relstderr d))).

Definition sample_at (loc : string) : PM LocalData :=
  d ← gets (fun s => sim_samples s !! loc);
  of_option d (Abort "Y U NO use S4BXI_SAMPLE_* macros?").
Definition set_sample (loc : string) (d : LocalData) : PM unit :=
  modify (fun s => s <| sim_samples ::= <[loc := d]> |>).

(** @src/src/s4bxi_sample.cpp:75-84 the data of a block met for the first time *)
Definition first_sample (iters : Z) (threshold : double) : LocalData :=
  {| ld_threshold := threshold; ld_relstderr := double_of_Z 0; ld_mean := double_of_Z 0;
     ld_sum := double_of_Z 0; ld_sum_pow2 := double_of_Z 0; ld_iters := iters; ld_count := 0;
     ld_benching := true |}.

(** @src/src/s4bxi_sample.cpp:66-104 s4bxi_sample_1 *)
Definition s4bxi_sample_1 (global : bool) (file : string) (line iters : Z) (threshold : double)
    : PM unit :=
  mainActor ← GET_CURRENT_MAIN_ACTOR;
  loc ← SampleLocation global file line;
  b ← sampling mainActor;
  _ ← when (negb b) (_ ← s4bxi_bench_end; set_sampling mainActor 1);
  data ← gets (fun s => sim_samples s !! loc);
  match data with
  | None =>
      _ ← set_sample loc (first_sample iters threshold);
      assert (dlt (double_of_Z 0) threshold || (0 <? iters))
        (Abort "You should provide either a positive amount of iterations to bench, or a positive maximal stderr")
  | Some data =>
      if negb (ld_iters data =? iters) || negb (deq (ld_threshold data) threshold)
      then fail (Abort "sampling error")
      else set_sample loc (data <| ld_benching := need_more_benchs data |>)
  end.

(** The end of a sampled loop: the mean is injected once per iteration of the loop. *)
(** @src/src/s4bxi_sample.cpp:131-134 the end of a sampled loop *)
Definition inject (mainActor : handle) (data : LocalData) (iter_count : Z) : PM unit :=
  _ ← set_sampling mainActor 0;
  _ ← s4bxi_execute (dmul (ld_mean data) (double_of_Z iter_count));
  s4bxi_bench_begin.

(** @src/src/s4bxi_sample.cpp:106-142 s4bxi_sample_2 *)
Definition s4bxi_sample_2 (global : bool) (file : string) (line iter_count : Z) : PM bool :=
  mainActor ← GET_CURRENT_MAIN_ACTOR;
  loc ← SampleLocation global file line;
  data ← sample_at loc;
  if ld_benching data then _ ← s4bxi_bench_begin; mret true
  else if negb (need_more_benchs data) then _ ← inject mainActor data iter_count; mret false
  else _ ← call (TimerStart mainActor); mret true.

(** One more measure. *)
(** @src/src/s4bxi_sample.cpp:161-174 the statistics of a sample *)
Definition add_sample (d : LocalData) (period : double) : LocalData :=
  let count := ld_count d + 1 in
  let sum := dadd (ld_sum d) period in
  let sum_pow2 := dadd (ld_sum_pow2 d) (dmul period period) in
  let n := double_of_Z count in
  let mean := ddiv sum n in
  let relstderr :=
    ddiv (SFsqrt prec64 emax64 (ddiv (dsub (ddiv sum_pow2 n) (dmul mean mean)) n)) mean in
  {| ld_threshold := ld_threshold d; ld_relstderr := relstderr; ld_mean := mean; ld_sum := sum;
     ld_sum_pow2 := sum_pow2; ld_iters := ld_iters d; ld_count := count; ld_benching := false |}.

(** @src/src/s4bxi_sample.cpp:144-175 s4bxi_sample_3 *)
Definition s4bxi_sample_3 (global : bool) (file : string) (line : Z) : PM unit :=
  mainActor ← GET_CURRENT_MAIN_ACTOR;
  loc ← SampleLocation global file line;
  data ← sample_at loc;
  _ ← assert (ld_benching data) (Exception "xbt::ImpossibleError");
  _ ← call (TimerStop mainActor);
  data ← sample_at loc;
  _ ← assert (ld_count data <? 2 ^ 31 - 1) (Undefined "signed overflow");
  period ← gets (fun s => rt_elapsed s mainActor);
  set_sample loc (add_sample data period).

(** @src/src/s4bxi_sample.cpp:177-196 s4bxi_sample_exit *)
Definition s4bxi_sample_exit (global : bool) (file : string) (line iter_count : Z) : PM bool :=
  mainActor ← GET_CURRENT_MAIN_ACTOR;
  b ← sampling mainActor;
  _ ← when b
        (loc ← SampleLocation global file line;
         data ← sample_at loc;
         inject mainActor data iter_count);
  mret false.

(** ** The macro that samples a loop *)

(** The loop of the user program: a state, its condition and its step, and a body. *)
Section Loop.
Context {U : Type} (loop_end : U -> bool) (loop_iter : U -> U) (body : U -> PM unit).
Context (global : bool) (file : string) (line iters : Z) (threshold : double).

(** The first pass counts the iterations. *)
(** @src/include/s4bxi/s4bxi_sample.h:34-41 S4BXI_SAMPLE_LOOP, the first pass *)
Fixpoint count_iterations (fuel : nat) (i : U) (count : Z) : PM Z :=
  match fuel with
  | O => fail OutOfFuel
  | S fuel' =>
      if loop_end i then
        _ ← assert (count <? 2 ^ 31 - 1) (Undefined "signed overflow");
        count_iterations fuel' (loop_iter i) (count + 1)
      else mret count
  end.

(** The second pass: [for (init; condition; sample_3, iter) body]. *)
(** @src/include/s4bxi/s4bxi_sample.h:42-45 S4BXI_SAMPLE_LOOP, the second pass *)
Fixpoint sampled_loop (fuel : nat) (i : U) (iter_count : Z) : PM unit :=
  match fuel with
  | O => fail OutOfFuel
  | S fuel' =>
      again ←
        (if loop_end i then
           _ ← s4bxi_sample_1 global file line iters threshold;
           s4bxi_sample_2 global file line iter_count
         else s4bxi_sample_exit global file line iter_count);
      if (again : bool) then
        _ ← body i;
        _ ← s4bxi_sample_3 global file line;
        sampled_loop fuel' (loop_iter i) iter_count
      else mret tt
  end.

(** @src/include/s4bxi/s4bxi_sample.h:33-45 S4BXI_SAMPLE_LOOP *)
Definition S4BXI_SAMPLE_LOOP (fuel : nat) (init : U) : PM unit :=
  iter_count ← count_iterations fuel init 0;
  sampled_loop fuel init iter_count.
End Loop.

(** @src/include/s4bxi/s4bxi_sample.h:50-50 S4BXI_SAMPLE_DELAY *)
Definition S4BXI_SAMPLE_DELAY (duration : double) : PM unit := s4bxi_execute duration.
End Bench.
