(* ===== verification/CUtil.v ===== *)
(** The C functions offered to user programs: [src/s4bxi_c_util.cpp]. *)
From S2P Require Import Prelude OMap Portals World Engine Config Entries MainActor Runtime Bench.
From Stdlib Require Import Ascii.

Section CUtil.
Context `{Env} `{Runtime}.

(** ** Strings in memory *)

Fixpoint string_bytes (s : string) : list Z :=
  match s with "" => [] | String c s' => code c :: string_bytes s' end.

(** [strlen], of a string that ends within [fuel] bytes. *)
Fixpoint strlen (fuel : nat) (a : Z) : SM Z :=
  match fuel with
  | O => fail OutOfFuel
  | S fuel' =>
      bs ← load_bytes a 1;
      if decide (bs = [0]) then mret 0 else n ← strlen fuel' (a + 1); mret (n + 1)
  end.

(** [snprintf(dst, n, "%s", text)]: at most [n - 1] characters and a zero; the length of the
    text. *)
Definition snprintf (dst n : Z) (text : string) : SM Z :=
  _ ← when (0 <? n)
        (store_bytes dst (take (Z.to_nat (n - 1)) (string_bytes text) ++ [0]));
  mret (Z.of_nat (String.length text)).

(** [strncpy(dst, text, n)]: exactly [n] bytes. *)
Definition strncpy (dst : Z) (text : string) (n : Z) : SM unit :=
  store_bytes dst (take (Z.to_nat n) (string_bytes text ++ replicate (Z.to_nat n) 0)).

(** ** Computation *)

(** A call during which nothing is benchmarked. *)
Definition unbenched {A} (body : PM A) : PM A :=
  _ ← s4bxi_bench_end; x ← body; _ ← s4bxi_bench_begin; mret x.

(** @src/src/s4bxi_c_util.cpp:33-38 s4bxi_force_compute_s *)
Definition s4bxi_force_compute_s (seconds : double) : PM unit :=
  unbenched (s4bxi_force_execute seconds).

(** @src/src/s4bxi_c_util.cpp:40-52 s4bxi_compute *)
Definition s4bxi_compute (flops : double) : PM unit :=
  main_actor ← GET_CURRENT_MAIN_ACTOR;
  unbenched (nid ← getNid main_actor; with_compute_log nid (call (ExecFlops flops))).

(** @src/src/s4bxi_c_util.cpp:54-59 s4bxi_compute_s *)
Definition s4bxi_compute_s (seconds : double) : PM unit := unbenched (s4bxi_execute seconds).

(** ** Ranks *)

(** @src/src/s4bxi_c_util.cpp:130-133 s4bxi_get_my_rank *)
Definition s4bxi_get_my_rank : PM Z :=
  a ← GET_CURRENT_MAIN_ACTOR; u ← user a; determinate (ua_my_rank u).

(** @src/src/s4bxi_c_util.cpp:135-138 s4bxi_get_my_local_rank *)
Definition s4bxi_get_my_local_rank : PM Z :=
  a ← GET_CURRENT_MAIN_ACTOR; u ← user a; determinate (ua_my_local_rank u).

(** @src/src/s4bxi_c_util.cpp:104-107 s4bxi_num_local_peers *)
Definition s4bxi_num_local_peers : PM Z :=
  a ← GET_CURRENT_MAIN_ACTOR; u ← user a;
  peers ← main_actors_on_host (ua_slug u); mret (u32 (Z.of_nat (length peers) - 1)).

(** @src/src/s4bxi_c_util.cpp:109-112 s4bxi_num_nodes *)
Definition s4bxi_num_nodes : PM Z := nodes ← used_nodes; mret (u32 (Z.of_nat (size nodes))).

(** @src/src/s4bxi_c_util.cpp:140-149 s4bxi_global_rank_from_local *)
Definition s4bxi_global_rank_from_local (local : Z) : PM Z :=
  a ← GET_CURRENT_MAIN_ACTOR; u ← user a;
  actor ← get_actor_from_slug_and_localrank (ua_slug u) (swrap 32 local);
  _ ← assert (bool_decide (actor <> NULL)) (Abort "Couldn't find actor with local rank");
  u ← user actor; determinate (ua_my_rank u).

(** @src/src/s4bxi_c_util.cpp:151-154 s4bxi_get_rank_number *)
Definition s4bxi_get_rank_number : PM Z := n ← get_main_actor_count; mret (u32 n).

(** @src/src/s4bxi_c_util.cpp:156-160 s4bxi_get_hostname_from_rank (no zero is written) *)
Definition s4bxi_get_hostname_from_rank (hostname rank : Z) : PM unit :=
  actor ← get_actor_from_rank rank;
  u ← user actor; on_world (store_bytes hostname (string_bytes (ua_slug u))).

(** @src/src/s4bxi_c_util.cpp:120-121 the text of one peer *)
Definition peer_text (rank : Z) : string := (pretty (swrap 32 rank) ++ ",")%string.

(** @src/src/s4bxi_c_util.cpp:117-125 the loop of s4bxi_local_peers_list *)
Fixpoint write_peers (dst maxlen : Z) (peers : list (Z * handle)) : PM unit :=
  match peers with
  | [] => mret tt
  | (_, actor) :: peers' =>
      cur ← on_world (strlen (S (Z.to_nat maxlen)) dst);
      u ← user actor;
      rank ← determinate (ua_my_rank u);
      ret ← on_world (snprintf (dst + cur) (sub64 maxlen cur) (peer_text rank));
      if sub64 maxlen cur <=? ret then fail (Abort "Overflowing snprintf")
      else write_peers dst maxlen peers'
  end.

(** @src/src/s4bxi_c_util.cpp:114-128 s4bxi_local_peers_list *)
Definition s4bxi_local_peers_list (dst maxlen : Z) : PM unit :=
  _ ← on_world (store_bytes dst [0]);
  a ← GET_CURRENT_MAIN_ACTOR; u ← user a;
  peers ← main_actors_on_host (ua_slug u);
  _ ← write_peers dst maxlen peers;
  n ← on_world (strlen (S (Z.to_nat maxlen)) dst);
  on_world (store_bytes (dst + sub64 n 1) [0]).

(** ** Logical addresses *)

(** @src/src/s4bxi_c_util.cpp:162-167 s4bxi_get_ptl_process_from_rank *)
Definition s4bxi_get_ptl_process_from_rank (rank : Z) : PM (Z * (ptl_process + Z)) :=
  actor ← get_actor_from_rank rank;
  u ← user actor;
  ni ← determinate (ua_default_ni u);
  on_world (PtlGetId actor ni).

(** @src/src/s4bxi_c_util.cpp:169-174 s4bxi_set_ptl_process_for_rank *)
Definition s4bxi_set_ptl_process_for_rank (ni : handle) : PM unit :=
  actor ← get_current_main_actor;
  update_user actor (fun u => u <| ua_default_ni := Some ni |>).

(** ** Settings of the process *)

(** @src/src/s4bxi_c_util.cpp:185-188 s4bxi_is_polling *)
Definition s4bxi_is_polling : PM Z :=
  a ← GET_CURRENT_MAIN_ACTOR;
  m ← on_world (load (T := BxiMainActor) a); mret (ma_is_polling m).

(** @src/src/s4bxi_c_util.cpp:190-193 s4bxi_set_polling *)
Definition s4bxi_set_polling (p : Z) : PM unit :=
  a ← GET_CURRENT_MAIN_ACTOR;
  on_world (update (T := BxiMainActor) a (fun m => m <| ma_is_polling := p |>)).

(** [std::map::emplace]: a key that exists keeps its value. *)
(** @src/src/s4bxi_c_util.cpp:202-205 s4bxi_keyval_store_pointer *)
Definition s4bxi_keyval_store_pointer (key : string) (value : Z) : PM unit :=
  a ← GET_CURRENT_MAIN_ACTOR;
  update_user a (fun u => u <| ua_keyval_store ::= fun m =>
    match m !! key with Some _ => m | None => <[key := value]> m end |>).

(** @src/src/s4bxi_c_util.cpp:207-213 s4bxi_keyval_fetch_pointer *)
Definition s4bxi_keyval_fetch_pointer (rank : Z) (key : string) : PM Z :=
  b ← get_actor_from_rank rank;
  u ← user b; mret (default 0 (ua_keyval_store u !! key)).

(** @src/src/s4bxi_c_util.cpp:218-222 s4bxi_set_loglevel *)
Definition s4bxi_set_loglevel (l : Z) : PM unit :=
  on_world (modify (fun w => w <| w_config ::= fun c =>
    c <| log_level := if bool_decide (log_folder c <> "/dev/null"%string) then l else 0 |> |>)).

(** @src/src/s4bxi_c_util.cpp:224-227 s4bxi_use_smpi_implem *)
Definition s4bxi_use_smpi_implem (v : Z) : PM unit :=
  a ← GET_CURRENT_MAIN_ACTOR;
  update_user a (fun u => u <| ua_use_smpi_implem := negb (v =? 0) |>).

(** @src/src/s4bxi_c_util.cpp:229-241 s4bxi_use_smpi_implem_log *)
Definition s4bxi_use_smpi_implem_log (v : Z) (comment : string) : PM unit :=
  unbenched
    (actor ← GET_CURRENT_MAIN_ACTOR;
     u ← user actor;
     rank ← determinate (ua_my_rank u);
     now ← get_clock;
     _ ← call (PrintModelChange (swrap 32 rank) v now (dsub now (ua_last_model_change u)) comment);
     _ ← update_user actor (fun u => u <| ua_last_model_change := now |>);
     s4bxi_use_smpi_implem v).

(** @src/src/s4bxi_c_util.cpp:243-246 s4bxi_simulation_id_c_str *)
Definition s4bxi_simulation_id_c_str : PM string := get_simulation_rand_id.

(** ** Time *)

(** @src/src/s4bxi_c_util.cpp:176-183 s4bxi_simtime *)
Definition s4bxi_simtime : PM double := unbenched get_clock.

(** @src/src/s4bxi_c_util.cpp:195-200 s4bxi_barrier *)
Definition s4bxi_barrier : PM unit := unbenched barrier.

(** @src/src/s4bxi_c_util.cpp:248-252 s4bxi_yield *)
Definition s4bxi_yield : PM unit := unbenched (call ActorYield).

(** ** Output *)

(** On a terminal each rank has one of six colours, from cyan down to red. *)
(** @src/src/s4bxi_c_util.cpp:61-79 s4bxi_fprintf (the text is formatted by the C library) *)
Definition s4bxi_fprintf (stream : Z) (text : string) : PM Z :=
  r ← s4bxi_get_my_rank;
  let rank := swrap 32 r in
  let color := if rt_isatty stream then Some (36 - Z.rem rank 6) else None in
  now ← get_clock;
  host ← gets rt_host;
  _ ← call (PrintPrefix stream color now (rt_host_name host) rank);
  _ ← call (PrintFormat stream text);
  gets rt_printed.

(** @src/src/s4bxi_c_util.cpp:85-102 s4bxi_printf *)
Definition s4bxi_printf (text : string) : PM Z := s4bxi_fprintf 1 text.
End CUtil.
