(* ===== verification/CApi.v ===== *)
(** The C interface of Portals, that user programs call: [src/portals4.cpp].

    A call finds the process that makes it, and forwards to the operation of [MainActor.v].  Most
    stop the benchmark of the process meanwhile; what Portals has and BXI simulation lacks throws. *)
From S2P Require Import Prelude Portals World Engine Config Entries MainActor Runtime Bench CUtil.

Section CApi.
Context `{Env} `{Runtime}.

(** ** The kinds of calls *)

(** [THROW_UNIMPLEMENTED] *)
Definition unimplemented {A} (name : string) : PM A :=
  fail (Exception ("xbt::UnimplementedError: " ++ name)).

(** @src/src/portals4.cpp:23-28 INSTANT_PORTALS_CALL *)
Definition INSTANT_PORTALS_CALL {A} (operation : handle -> SM A) : PM A :=
  main_actor ← GET_CURRENT_MAIN_ACTOR; network (operation main_actor).

(** @src/src/portals4.cpp:30-37 BENCH_PORTALS_CALL *)
Definition BENCH_PORTALS_CALL {A} (operation : handle -> SM A) : PM A :=
  main_actor ← GET_CURRENT_MAIN_ACTOR; unbenched (network (operation main_actor)).

(** @src/src/portals4.cpp:53-53 MAYBE_BENCH_PORTALS_CALL *)
Definition MAYBE_BENCH_PORTALS_CALL {A} (operation : handle -> SM A) : PM A :=
  BENCH_PORTALS_CALL operation.

(** @src/src/actors/BxiMainActor.cpp:167-172 BxiMainActor::PtlGetUid *)
Definition PtlGetUid : SM (Z * Z) := mret (PTL_OK, rt_geteuid).

(** ** The calls *)

(** @src/src/portals4.cpp:55-58 PtlInit *)
Definition api_PtlInit : PM Z :=
  BENCH_PORTALS_CALL (fun actor => PtlInit actor).

(** @src/src/portals4.cpp:60-66 PtlFini *)
Definition api_PtlFini : PM unit := _ ← GET_CURRENT_MAIN_ACTOR; unbenched (on_world PtlFini).

(** @src/src/portals4.cpp:68-71 PtlSetMemOps *)
Definition api_PtlSetMemOps : PM Z := unimplemented "PtlSetMemOps".

(** @src/src/portals4.cpp:73-76 PtlActivateHookAdd *)
Definition api_PtlActivateHookAdd : PM Z := unimplemented "PtlActivateHookAdd".

(** @src/src/portals4.cpp:78-81 PtlActivateHookRemove *)
Definition api_PtlActivateHookRemove : PM Z := unimplemented "PtlActivateHookRemove".

(** @src/src/portals4.cpp:83-87 PtlNIInit *)
Definition api_PtlNIInit (iface options pid : Z) (desired : option ptl_ni_limits) : PM (Z * handle * ptl_ni_limits) :=
  MAYBE_BENCH_PORTALS_CALL (fun actor => PtlNIInit actor iface options pid desired).

(** @src/src/portals4.cpp:89-92 PtlNIFini *)
Definition api_PtlNIFini (ni : handle) : PM Z :=
  BENCH_PORTALS_CALL (fun actor => PtlNIFini actor ni).

(** @src/src/portals4.cpp:94-97 PtlNIHandle *)
Definition api_PtlNIHandle : PM Z := unimplemented "PtlNIHandle".

(** @src/src/portals4.cpp:99-102 PtlHandleIsEqual *)
Definition api_PtlHandleIsEqual (handle1 handle2 : handle) : PM bool :=
  INSTANT_PORTALS_CALL (fun _ => mret (PtlHandleIsEqual handle1 handle2)).

(** @src/src/portals4.cpp:104-107 PtlNIStatus *)
Definition api_PtlNIStatus : PM Z := unimplemented "PtlNIStatus".

(** @src/src/portals4.cpp:109-112 PtlSetMap *)
Definition api_PtlSetMap (ni : handle) (size : Z) (map : list ptl_process) : PM Z :=
  INSTANT_PORTALS_CALL (fun _ => PtlSetMap ni size map).

(** @src/src/portals4.cpp:114-117 PtlGetMap *)
Definition api_PtlGetMap (ni : handle) (size : Z) : PM (Z * option (list ptl_process * Z)) :=
  INSTANT_PORTALS_CALL (fun _ => PtlGetMap ni size).

(** @src/src/portals4.cpp:119-122 PtlPTAlloc *)
Definition api_PtlPTAlloc (ni : handle) (options : Z) (eq : handle) (pte : Z) : PM (Z * Z) :=
  MAYBE_BENCH_PORTALS_CALL (fun actor => PtlPTAlloc actor ni options eq pte).

(** @src/src/portals4.cpp:124-127 PtlPTFree *)
Definition api_PtlPTFree (ni : handle) (pt_index : Z) : PM Z :=
  MAYBE_BENCH_PORTALS_CALL (fun actor => PtlPTFree actor ni pt_index).

(** @src/src/portals4.cpp:129-132 PtlPTEnable *)
Definition api_PtlPTEnable (ni : handle) (pt_index : Z) : PM Z :=
  MAYBE_BENCH_PORTALS_CALL (fun actor => PtlPTEnable actor ni pt_index).

(** @src/src/portals4.cpp:134-137 PtlPTEnableNB *)
Definition api_PtlPTEnableNB (ni : handle) (pt_index : Z) : PM Z :=
  MAYBE_BENCH_PORTALS_CALL (fun actor => PtlPTEnableNB actor ni pt_index).

(** @src/src/portals4.cpp:139-142 PtlPTDisable *)
Definition api_PtlPTDisable (ni : handle) (pt_index : Z) : PM Z :=
  MAYBE_BENCH_PORTALS_CALL (fun actor => PtlPTDisable actor ni pt_index).

(** @src/src/portals4.cpp:144-147 PtlPTDisableNB *)
Definition api_PtlPTDisableNB (ni : handle) (pt_index : Z) : PM Z :=
  MAYBE_BENCH_PORTALS_CALL (fun actor => PtlPTDisableNB actor ni pt_index).

(** @src/src/portals4.cpp:149-152 PtlGetUid *)
Definition api_PtlGetUid : PM (Z * Z) :=
  INSTANT_PORTALS_CALL (fun _ => PtlGetUid).

(** @src/src/portals4.cpp:154-157 PtlGetId *)
Definition api_PtlGetId (ni : handle) : PM (Z * (ptl_process + Z)) :=
  INSTANT_PORTALS_CALL (fun actor => PtlGetId actor ni).

(** @src/src/portals4.cpp:159-162 PtlGetPhysId *)
Definition api_PtlGetPhysId (ni : handle) : PM (Z * ptl_process) :=
  INSTANT_PORTALS_CALL (fun actor => PtlGetPhysId actor ni).

(** @src/src/portals4.cpp:164-167 PtlGetHwid *)
Definition api_PtlGetHwid : PM Z := unimplemented "PtlGetHwid".

(** @src/src/portals4.cpp:169-172 PtlMDBind *)
Definition api_PtlMDBind (ni : handle) (md : ptl_md) : PM (Z * handle) :=
  MAYBE_BENCH_PORTALS_CALL (fun actor => PtlMDBind actor ni md).

(** @src/src/portals4.cpp:174-177 PtlMDBindNB *)
Definition api_PtlMDBindNB : PM Z := unimplemented "PtlMDBindNB".

(** @src/src/portals4.cpp:179-182 PtlMDRelease *)
Definition api_PtlMDRelease (md : handle) : PM Z :=
  MAYBE_BENCH_PORTALS_CALL (fun actor => PtlMDRelease actor md).

(** @src/src/portals4.cpp:184-188 PtlMEAppend *)
Definition api_PtlMEAppend (ni : handle) (pte : Z) (me : ptl_me) (list arg : Z) : PM (Z * handle) :=
  BENCH_PORTALS_CALL (fun actor => PtlMEAppend actor ni pte me list arg).

(** @src/src/portals4.cpp:190-194 PtlMEAppendNB *)
Definition api_PtlMEAppendNB : PM Z := unimplemented "PtlMEAppendNB".

(** @src/src/portals4.cpp:196-199 PtlMEUnlink *)
Definition api_PtlMEUnlink (me : handle) : PM Z :=
  MAYBE_BENCH_PORTALS_CALL (fun actor => PtlMEUnlink actor me).

(** @src/src/portals4.cpp:201-204 PtlMESearch *)
Definition api_PtlMESearch : PM Z := unimplemented "PtlMESearch".

(** @src/src/portals4.cpp:206-209 PtlMESearchNB *)
Definition api_PtlMESearchNB : PM Z := unimplemented "PtlMESearchNB".

(** @src/src/portals4.cpp:211-215 PtlLEAppend *)
Definition api_PtlLEAppend (ni : handle) (pte : Z) (me : ptl_me) (list arg : Z) : PM (Z * handle) :=
  BENCH_PORTALS_CALL (fun actor => PtlLEAppend actor ni pte me list arg).

(** @src/src/portals4.cpp:217-221 PtlLEAppendNB *)
Definition api_PtlLEAppendNB : PM Z := unimplemented "PtlLEAppendNB".

(** @src/src/portals4.cpp:223-226 PtlLEUnlink *)
Definition api_PtlLEUnlink (me : handle) : PM Z :=
  MAYBE_BENCH_PORTALS_CALL (fun actor => PtlLEUnlink actor me).

(** @src/src/portals4.cpp:228-231 PtlLESearch *)
Definition api_PtlLESearch : PM Z := unimplemented "PtlLESearch".

(** @src/src/portals4.cpp:233-236 PtlLESearchNB *)
Definition api_PtlLESearchNB : PM Z := unimplemented "PtlLESearchNB".

(** @src/src/portals4.cpp:238-242 PtlEQAllocAsync *)
Definition api_PtlEQAllocAsync : PM Z := unimplemented "PtlEQAllocAsync".

(** @src/src/portals4.cpp:244-249 PtlEQAlloc *)
Definition api_PtlEQAlloc : PM (Z * handle) :=
  BENCH_PORTALS_CALL (fun actor => PtlEQAlloc actor).

(** @src/src/portals4.cpp:251-254 PtlEQFree *)
Definition api_PtlEQFree (eq : handle) : PM Z :=
  MAYBE_BENCH_PORTALS_CALL (fun actor => PtlEQFree actor eq).

(** @src/src/portals4.cpp:256-259 PtlEQGet *)
Definition api_PtlEQGet (eq : handle) : PM (Z * option ptl_event) :=
  BENCH_PORTALS_CALL (fun actor => PtlEQGet actor eq).

(** @src/src/portals4.cpp:261-265 PtlEQPoll *)
Definition api_PtlEQPoll (eqs : list handle) (timeout : Z) : PM (Z * option (ptl_event * Z)) :=
  BENCH_PORTALS_CALL (fun _ => PtlEQPoll eqs timeout).

(** @src/src/portals4.cpp:267-270 PtlEQWait *)
Definition api_PtlEQWait (eq : handle) : PM (Z * ptl_event) :=
  BENCH_PORTALS_CALL (fun _ => PtlEQWait eq).

(** @src/src/portals4.cpp:272-275 PtlCTAlloc *)
Definition api_PtlCTAlloc : PM (Z * handle) :=
  MAYBE_BENCH_PORTALS_CALL (fun actor => PtlCTAlloc actor).

(** @src/src/portals4.cpp:277-280 PtlCTFree *)
Definition api_PtlCTFree (ct : handle) : PM Z :=
  MAYBE_BENCH_PORTALS_CALL (fun actor => PtlCTFree actor ct).

(** @src/src/portals4.cpp:282-285 PtlCTGet *)
Definition api_PtlCTGet (ct : handle) : PM (Z * ptl_ct_event) :=
  INSTANT_PORTALS_CALL (fun _ => PtlCTGet ct).

(** @src/src/portals4.cpp:287-291 PtlCTPoll *)
Definition api_PtlCTPoll (cts : list handle) (tests : list Z) (timeout : Z) : PM (Z * option (ptl_ct_event * Z)) :=
  BENCH_PORTALS_CALL (fun _ => PtlCTPoll cts tests timeout).

(** @src/src/portals4.cpp:293-296 PtlCTWait *)
Definition api_PtlCTWait (ct : handle) (test : Z) : PM (Z * ptl_ct_event) :=
  BENCH_PORTALS_CALL (fun _ => PtlCTWait ct test).

(** @src/src/portals4.cpp:298-301 PtlCTSet *)
Definition api_PtlCTSet (ct : handle) (arg : ptl_ct_event) : PM Z :=
  BENCH_PORTALS_CALL (fun _ => PtlCTSet ct arg).

(** @src/src/portals4.cpp:303-306 PtlCTInc *)
Definition api_PtlCTInc (ct : handle) (arg : ptl_ct_event) : PM Z :=
  BENCH_PORTALS_CALL (fun _ => PtlCTInc ct arg).

(** @src/src/portals4.cpp:308-311 PtlCTCancelTriggered *)
Definition api_PtlCTCancelTriggered : PM Z := unimplemented "PtlCTCancelTriggered".

(** @src/src/portals4.cpp:313-317 PtlPut *)
Definition api_PtlPut (md : handle) (loffs len ack : Z) (rank : ptl_process) (pte bits roffs arg hdr : Z) : PM Z :=
  BENCH_PORTALS_CALL (fun actor => PtlPut actor md loffs len ack rank pte bits roffs arg hdr).

(** @src/src/portals4.cpp:319-323 PtlPutNB *)
Definition api_PtlPutNB (md : handle) (loffs len ack : Z) (rank : ptl_process) (pte bits roffs arg hdr : Z) : PM Z :=
  BENCH_PORTALS_CALL (fun actor => PtlPutNB actor md loffs len ack rank pte bits roffs arg hdr).

(** @src/src/portals4.cpp:325-329 PtlGet *)
Definition api_PtlGet (md : handle) (loffs len : Z) (rank : ptl_process) (pte bits roffs arg : Z) : PM Z :=
  BENCH_PORTALS_CALL (fun actor => PtlGet actor md loffs len rank pte bits roffs arg).

(** @src/src/portals4.cpp:331-335 PtlGetNB *)
Definition api_PtlGetNB (md : handle) (loffs len : Z) (rank : ptl_process) (pte bits roffs arg : Z) : PM Z :=
  BENCH_PORTALS_CALL (fun actor => PtlGetNB actor md loffs len rank pte bits roffs arg).

(** @src/src/portals4.cpp:337-342 PtlAtomic *)
Definition api_PtlAtomic (md : handle) (loffs len ack : Z) (rank : ptl_process) (pte bits roffs arg hdr : Z)
    (aop : ptl_op) (atype : ptl_datatype) : PM Z :=
  BENCH_PORTALS_CALL (fun actor => PtlAtomic actor md loffs len ack rank pte bits roffs arg hdr aop atype).

(** @src/src/portals4.cpp:344-349 PtlAtomicNB *)
Definition api_PtlAtomicNB (md : handle) (loffs len ack : Z) (rank : ptl_process) (pte bits roffs arg hdr : Z)
    (aop : ptl_op) (atype : ptl_datatype) : PM Z :=
  BENCH_PORTALS_CALL (fun actor => PtlAtomicNB actor md loffs len ack rank pte bits roffs arg hdr aop atype).

(** @src/src/portals4.cpp:351-357 PtlFetchAtomic *)
Definition api_PtlFetchAtomic (get_md : handle) (get_loffs : Z) (put_md : handle)
    (put_loffs len : Z) (rank : ptl_process) (pte bits roffs uptr hdr : Z)
    (aop : ptl_op) (atype : ptl_datatype) : PM Z :=
  BENCH_PORTALS_CALL (fun actor => PtlFetchAtomic actor get_md get_loffs put_md put_loffs len rank pte bits roffs uptr hdr aop atype).

(** @src/src/portals4.cpp:359-365 PtlFetchAtomicNB *)
Definition api_PtlFetchAtomicNB (get_md : handle) (get_loffs : Z) (put_md : handle)
    (put_loffs len : Z) (rank : ptl_process) (pte bits roffs uptr hdr : Z)
    (aop : ptl_op) (atype : ptl_datatype) : PM Z :=
  BENCH_PORTALS_CALL (fun actor => PtlFetchAtomicNB actor get_md get_loffs put_md put_loffs len rank pte bits roffs uptr hdr aop atype).

(** @src/src/portals4.cpp:367-373 PtlSwap *)
Definition api_PtlSwap (get_md : handle) (get_loffs : Z) (put_md : handle)
    (put_loffs len : Z) (rank : ptl_process) (pte bits roffs uptr hdr cst : Z)
    (aop : ptl_op) (atype : ptl_datatype) : PM Z :=
  BENCH_PORTALS_CALL (fun actor => PtlSwap actor get_md get_loffs put_md put_loffs len rank pte bits roffs uptr hdr cst aop atype).

(** @src/src/portals4.cpp:375-381 PtlSwapNB *)
Definition api_PtlSwapNB (get_md : handle) (get_loffs : Z) (put_md : handle)
    (put_loffs len : Z) (rank : ptl_process) (pte bits roffs uptr hdr cst : Z)
    (aop : ptl_op) (atype : ptl_datatype) : PM Z :=
  BENCH_PORTALS_CALL (fun actor => PtlSwapNB actor get_md get_loffs put_md put_loffs len rank pte bits roffs uptr hdr cst aop atype).

(** @src/src/portals4.cpp:383-388 PtlTriggeredPut *)
Definition api_PtlTriggeredPut : PM Z := unimplemented "PtlTriggeredPut".

(** @src/src/portals4.cpp:390-395 PtlTriggeredPutNB *)
Definition api_PtlTriggeredPutNB : PM Z := unimplemented "PtlTriggeredPutNB".

(** @src/src/portals4.cpp:397-401 PtlTriggeredGet *)
Definition api_PtlTriggeredGet : PM Z := unimplemented "PtlTriggeredGet".

(** @src/src/portals4.cpp:403-407 PtlTriggeredGetNB *)
Definition api_PtlTriggeredGetNB : PM Z := unimplemented "PtlTriggeredGetNB".

(** @src/src/portals4.cpp:409-414 PtlTriggeredAtomic *)
Definition api_PtlTriggeredAtomic : PM Z := unimplemented "PtlTriggeredAtomic".

(** @src/src/portals4.cpp:416-421 PtlTriggeredAtomicNB *)
Definition api_PtlTriggeredAtomicNB : PM Z := unimplemented "PtlTriggeredAtomicNB".

(** @src/src/portals4.cpp:423-429 PtlTriggeredFetchAtomic *)
Definition api_PtlTriggeredFetchAtomic : PM Z := unimplemented "PtlTriggeredFetchAtomic".

(** @src/src/portals4.cpp:431-437 PtlTriggeredFetchAtomicNB *)
Definition api_PtlTriggeredFetchAtomicNB : PM Z := unimplemented "PtlTriggeredFetchAtomicNB".

(** @src/src/portals4.cpp:439-445 PtlTriggeredSwap *)
Definition api_PtlTriggeredSwap : PM Z := unimplemented "PtlTriggeredSwap".

(** @src/src/portals4.cpp:447-453 PtlTriggeredSwapNB *)
Definition api_PtlTriggeredSwapNB : PM Z := unimplemented "PtlTriggeredSwapNB".

(** @src/src/portals4.cpp:455-458 PtlTriggeredCTSet *)
Definition api_PtlTriggeredCTSet : PM Z := unimplemented "PtlTriggeredCTSet".

(** @src/src/portals4.cpp:460-463 PtlTriggeredCTSetNB *)
Definition api_PtlTriggeredCTSetNB : PM Z := unimplemented "PtlTriggeredCTSetNB".

(** @src/src/portals4.cpp:465-468 PtlTriggeredCTInc *)
Definition api_PtlTriggeredCTInc : PM Z := unimplemented "PtlTriggeredCTInc".

(** @src/src/portals4.cpp:470-473 PtlTriggeredCTIncNB *)
Definition api_PtlTriggeredCTIncNB : PM Z := unimplemented "PtlTriggeredCTIncNB".

(** @src/src/portals4.cpp:481-484 PtlAtomicSync *)
Definition api_PtlAtomicSync : PM Z := mret PTL_OK.

(** @src/src/portals4.cpp:486-489 PtlNIAtomicSync *)
Definition api_PtlNIAtomicSync : PM Z := unimplemented "PtlNIAtomicSync".

(** @src/src/portals4.cpp:491-494 PtlNFDs *)
Definition api_PtlNFDs : PM Z := unimplemented "PtlNFDs".

(** @src/src/portals4.cpp:496-499 PtlPollFDs *)
Definition api_PtlPollFDs : PM Z := unimplemented "PtlPollFDs".

(** @src/src/portals4.cpp:501-504 PtlPollEvents *)
Definition api_PtlPollEvents : PM Z := unimplemented "PtlPollEvents".

(** @src/src/portals4.cpp:506-509 PtlStartBundle *)
Definition api_PtlStartBundle : PM Z := unimplemented "PtlStartBundle".

(** @src/src/portals4.cpp:511-514 PtlEndBundle *)
Definition api_PtlEndBundle : PM Z := unimplemented "PtlEndBundle".

End CApi.
