(* ===== verification/Prototypes.v ===== *)
(** The prototypes of Portals 4: what [portals4.h] declares, what [portals4.cpp] defines and the
    methods of the actors that serve the calls have the same types. *)
From S2P Require Import Prelude.

(** ** Types of C *)

Inductive ctype :=
| Void | Int | UnsignedInt | Long | Uint64
| Name (typedef : string)
| Struct (tag : string) | Union (tag : string) | Enum (tag : string)
| Const (t : ctype) | Pointer (t : ctype) | Function (result : ctype) (parameters : list ctype).

Fixpoint ctype_eqb (t u : ctype) : bool :=
  match t, u with
  | Void, Void | Int, Int | UnsignedInt, UnsignedInt | Long, Long | Uint64, Uint64 => true
  | Name a, Name b | Struct a, Struct b | Union a, Union b | Enum a, Enum b => String.eqb a b
  | Const t, Const u | Pointer t, Pointer u => ctype_eqb t u
  | Function r l, Function s m =>
      ctype_eqb r s &&
      (fix all (l m : list ctype) := match l, m with
         | [], [] => true
         | x :: l, y :: m => ctype_eqb x y && all l m
         | _, _ => false
         end) l m
  | _, _ => false
  end.

Record prototype := mk_proto
  { proto_name : string; proto_result : ctype; proto_parameters : list ctype }.

(** ** Names of types *)

(** @src/include/portals4.h:317-343 scalar types *)
Definition scalar_types : list (string * ctype) := [
    ("ptl_pid_t", UnsignedInt);
    ("ptl_nid_t", UnsignedInt);
    ("ptl_ack_req_t", Int);
    ("ptl_interface_t", Int);
    ("ptl_rank_t", UnsignedInt);
    ("ptl_sr_value_t", Int);
    ("ptl_uid_t", Int);
    ("ptl_list_t", Int);
    ("ptl_index_t", UnsignedInt);
    ("ptl_size_t", Uint64);
    ("ptl_match_bits_t", Uint64);
    ("ptl_hdr_data_t", Uint64);
    ("ptl_time_t", Long);
    ("ptl_handle_any_t", Pointer Void);
    ("ptl_handle_ni_t", Pointer Void);
    ("ptl_handle_md_t", Pointer Void);
    ("ptl_handle_eq_t", Pointer Void);
    ("ptl_handle_ct_t", Pointer Void);
    ("ptl_handle_le_t", Pointer Void);
    ("ptl_handle_me_t", Pointer Void);
    ("ptl_search_op_t", UnsignedInt);
    ("ptl_addr_t", Pointer Void);
    ("ptl_activate_hook_t", Pointer (Struct "ptl_activate_hook"))].

(** @src/include/portals4.h:352-357 the other scalar types *)
Definition enum_types : list (string * ctype) := [
    ("ptl_pt_index_t", UnsignedInt);
    ("ptl_ni_fail_t", UnsignedInt);
    ("ptl_sr_index_t", Enum "ptl_sr_index");
    ("ptl_datatype_t", Enum "ptl_datatype");
    ("ptl_op_t", Enum "ptl_op");
    ("ptl_event_kind_t", Enum "ptl_event_kind")].

(** @src/include/portals4.h:456-463 the names of the structures *)
Definition struct_types : list (string * ctype) := [
    ("ptl_md_t", Struct "ptl_md");
    ("ptl_le_t", Struct "ptl_me");
    ("ptl_me_t", Struct "ptl_me");
    ("ptl_ni_limits_t", Struct "ptl_ni_limits");
    ("ptl_process_t", Union "ptl_process");
    ("ptl_event_t", Struct "ptl_event");
    ("ptl_iovec_t", Struct "ptl_iovec");
    ("ptl_ct_event_t", Struct "ptl_ct_event")].

Definition typedefs : list (string * ctype) := scalar_types ++ enum_types ++ struct_types.

Fixpoint typedef_of (defs : list (string * ctype)) (name : string) : ctype :=
  match defs with
  | [] => Name name
  | (n, t) :: defs => if String.eqb n name then t else typedef_of defs name
  end.

(** A type without the names of [portals4.h], none of which is defined by another. *)
Fixpoint expand (t : ctype) : ctype :=
  match t with
  | Name n => typedef_of typedefs n
  | Const t => Const (expand t)
  | Pointer t => Pointer (expand t)
  | Function r l => Function (expand r) (map expand l)
  | t => t
  end.

Definition function_type (p : prototype) : ctype :=
  expand (Function (proto_result p) (proto_parameters p)).

(** ** Functions *)

(** @src/include/portals4.h:465-572 the functions *)
Definition functions : list prototype := [
    mk_proto "PtlInit" Int [];
    mk_proto "PtlFini" Void [];
    mk_proto "PtlActivateHookAdd" Int [Pointer (Function Void [Pointer Void; UnsignedInt; Int]);
      Pointer Void; Pointer (Name "ptl_activate_hook_t")];
    mk_proto "PtlActivateHookRemove" Int [Name "ptl_activate_hook_t"];
    mk_proto "PtlNIInit" Int [Name "ptl_interface_t"; UnsignedInt; Name "ptl_pid_t";
      Pointer (Const (Name "ptl_ni_limits_t")); Pointer (Name "ptl_ni_limits_t");
      Pointer (Name "ptl_handle_ni_t")];
    mk_proto "PtlNIFini" Int [Name "ptl_handle_ni_t"];
    mk_proto "PtlNIHandle" Int [Name "ptl_handle_any_t"; Pointer (Name "ptl_handle_ni_t")];
    mk_proto "PtlNIStatus" Int [Name "ptl_handle_ni_t"; Name "ptl_sr_index_t";
      Pointer (Name "ptl_sr_value_t")];
    mk_proto "PtlSetMap" Int [Name "ptl_handle_ni_t"; Name "ptl_size_t";
      Pointer (Const (Union "ptl_process"))];
    mk_proto "PtlGetMap" Int [Name "ptl_handle_ni_t"; Name "ptl_size_t";
      Pointer (Union "ptl_process"); Pointer (Name "ptl_size_t")];
    mk_proto "PtlPTAlloc" Int [Name "ptl_handle_ni_t"; UnsignedInt; Name "ptl_handle_eq_t";
      Name "ptl_index_t"; Pointer (Name "ptl_index_t")];
    mk_proto "PtlPTFree" Int [Name "ptl_handle_ni_t"; Name "ptl_index_t"];
    mk_proto "PtlPTEnable" Int [Name "ptl_handle_ni_t"; Name "ptl_pt_index_t"];
    mk_proto "PtlPTDisable" Int [Name "ptl_handle_ni_t"; Name "ptl_pt_index_t"];
    mk_proto "PtlGetUid" Int [Name "ptl_handle_ni_t"; Pointer (Name "ptl_uid_t")];
    mk_proto "PtlGetId" Int [Name "ptl_handle_ni_t"; Pointer (Name "ptl_process_t")];
    mk_proto "PtlGetPhysId" Int [Name "ptl_handle_ni_t"; Pointer (Name "ptl_process_t")];
    mk_proto "PtlGetHwid" Int [Name "ptl_handle_ni_t"; Pointer Uint64; Pointer Uint64];
    mk_proto "PtlMDBind" Int [Name "ptl_handle_ni_t"; Pointer (Const (Name "ptl_md_t"));
      Pointer (Name "ptl_handle_md_t")];
    mk_proto "PtlMDRelease" Int [Name "ptl_handle_md_t"];
    mk_proto "PtlLEAppend" Int [Name "ptl_handle_ni_t"; Name "ptl_index_t";
      Pointer (Const (Name "ptl_le_t")); Name "ptl_list_t"; Pointer Void;
      Pointer (Name "ptl_handle_le_t")];
    mk_proto "PtlLEUnlink" Int [Name "ptl_handle_le_t"];
    mk_proto "PtlLESearch" Int [Name "ptl_handle_ni_t"; Name "ptl_pt_index_t";
      Pointer (Const (Name "ptl_le_t")); Name "ptl_search_op_t"; Pointer Void];
    mk_proto "PtlMEAppend" Int [Name "ptl_handle_ni_t"; Name "ptl_index_t";
      Pointer (Const (Name "ptl_me_t")); Name "ptl_list_t"; Pointer Void;
      Pointer (Name "ptl_handle_me_t")];
    mk_proto "PtlMEUnlink" Int [Name "ptl_handle_me_t"];
    mk_proto "PtlMESearch" Int [Name "ptl_handle_ni_t"; Name "ptl_pt_index_t";
      Pointer (Const (Name "ptl_me_t")); Name "ptl_search_op_t"; Pointer Void];
    mk_proto "PtlEQAlloc" Int [Name "ptl_handle_ni_t"; Name "ptl_size_t";
      Pointer (Name "ptl_handle_eq_t")];
    mk_proto "PtlEQAllocAsync" Int [Name "ptl_handle_ni_t"; Name "ptl_size_t";
      Pointer (Name "ptl_handle_eq_t"); Pointer (Function Void [Pointer Void;
      Name "ptl_handle_eq_t"]); Pointer Void; Int];
    mk_proto "PtlEQFree" Int [Name "ptl_handle_eq_t"];
    mk_proto "PtlEQGet" Int [Name "ptl_handle_eq_t"; Pointer (Name "ptl_event_t")];
    mk_proto "PtlEQWait" Int [Name "ptl_handle_eq_t"; Pointer (Name "ptl_event_t")];
    mk_proto "PtlEQPoll" Int [Pointer (Const (Name "ptl_handle_eq_t")); UnsignedInt;
      Name "ptl_time_t"; Pointer (Name "ptl_event_t"); Pointer UnsignedInt];
    mk_proto "PtlCTAlloc" Int [Name "ptl_handle_ni_t"; Pointer (Name "ptl_handle_ct_t")];
    mk_proto "PtlCTFree" Int [Name "ptl_handle_ct_t"];
    mk_proto "PtlCTCancelTriggered" Int [Name "ptl_handle_ct_t"];
    mk_proto "PtlCTGet" Int [Name "ptl_handle_ct_t"; Pointer (Name "ptl_ct_event_t")];
    mk_proto "PtlCTWait" Int [Name "ptl_handle_ct_t"; Name "ptl_size_t";
      Pointer (Name "ptl_ct_event_t")];
    mk_proto "PtlCTPoll" Int [Pointer (Const (Name "ptl_handle_ct_t"));
      Pointer (Const (Name "ptl_size_t")); UnsignedInt; Name "ptl_time_t";
      Pointer (Name "ptl_ct_event_t"); Pointer UnsignedInt];
    mk_proto "PtlCTSet" Int [Name "ptl_handle_ct_t"; Name "ptl_ct_event_t"];
    mk_proto "PtlCTInc" Int [Name "ptl_handle_ct_t"; Name "ptl_ct_event_t"];
    mk_proto "PtlPut" Int [Name "ptl_handle_md_t"; Name "ptl_size_t"; Name "ptl_size_t";
      Name "ptl_ack_req_t"; Name "ptl_process_t"; Name "ptl_index_t"; Name "ptl_match_bits_t";
      Name "ptl_size_t"; Pointer Void; Name "ptl_hdr_data_t"];
    mk_proto "PtlGet" Int [Name "ptl_handle_md_t"; Name "ptl_size_t"; Name "ptl_size_t";
      Name "ptl_process_t"; Name "ptl_pt_index_t"; Name "ptl_match_bits_t"; Name "ptl_size_t";
      Pointer Void];
    mk_proto "PtlAtomic" Int [Name "ptl_handle_md_t"; Name "ptl_size_t"; Name "ptl_size_t";
      Name "ptl_ack_req_t"; Name "ptl_process_t"; Name "ptl_pt_index_t"; Name "ptl_match_bits_t";
      Name "ptl_size_t"; Pointer Void; Name "ptl_hdr_data_t"; Name "ptl_op_t";
      Name "ptl_datatype_t"];
    mk_proto "PtlFetchAtomic" Int [Name "ptl_handle_md_t"; Name "ptl_size_t";
      Name "ptl_handle_md_t"; Name "ptl_size_t"; Name "ptl_size_t"; Name "ptl_process_t";
      Name "ptl_pt_index_t"; Name "ptl_match_bits_t"; Name "ptl_size_t"; Pointer Void;
      Name "ptl_hdr_data_t"; Name "ptl_op_t"; Name "ptl_datatype_t"];
    mk_proto "PtlSwap" Int [Name "ptl_handle_md_t"; Name "ptl_size_t"; Name "ptl_handle_md_t";
      Name "ptl_size_t"; Name "ptl_size_t"; Name "ptl_process_t"; Name "ptl_pt_index_t";
      Name "ptl_match_bits_t"; Name "ptl_size_t"; Pointer Void; Name "ptl_hdr_data_t";
      Pointer (Const Void); Name "ptl_op_t"; Name "ptl_datatype_t"];
    mk_proto "PtlAtomicSync" Int [];
    mk_proto "PtlNIAtomicSync" Int [Name "ptl_handle_ni_t"];
    mk_proto "PtlTriggeredPut" Int [Name "ptl_handle_md_t"; Name "ptl_size_t"; Name "ptl_size_t";
      Name "ptl_ack_req_t"; Name "ptl_process_t"; Name "ptl_index_t"; Name "ptl_match_bits_t";
      Name "ptl_size_t"; Pointer Void; Name "ptl_hdr_data_t"; Name "ptl_handle_ct_t";
      Name "ptl_size_t"];
    mk_proto "PtlTriggeredGet" Int [Name "ptl_handle_md_t"; Name "ptl_size_t"; Name "ptl_size_t";
      Name "ptl_process_t"; Name "ptl_pt_index_t"; Name "ptl_match_bits_t"; Name "ptl_size_t";
      Pointer Void; Name "ptl_handle_ct_t"; Name "ptl_size_t"];
    mk_proto "PtlTriggeredAtomic" Int [Name "ptl_handle_md_t"; Name "ptl_size_t";
      Name "ptl_size_t"; Name "ptl_ack_req_t"; Name "ptl_process_t"; Name "ptl_pt_index_t";
      Name "ptl_match_bits_t"; Name "ptl_size_t"; Pointer Void; Name "ptl_hdr_data_t";
      Name "ptl_op_t"; Name "ptl_datatype_t"; Name "ptl_handle_ct_t"; Name "ptl_size_t"];
    mk_proto "PtlTriggeredFetchAtomic" Int [Name "ptl_handle_md_t"; Name "ptl_size_t";
      Name "ptl_handle_md_t"; Name "ptl_size_t"; Name "ptl_size_t"; Name "ptl_process_t";
      Name "ptl_pt_index_t"; Name "ptl_match_bits_t"; Name "ptl_size_t"; Pointer Void;
      Name "ptl_hdr_data_t"; Name "ptl_op_t"; Name "ptl_datatype_t"; Name "ptl_handle_ct_t";
      Name "ptl_size_t"];
    mk_proto "PtlTriggeredSwap" Int [Name "ptl_handle_md_t"; Name "ptl_size_t";
      Name "ptl_handle_md_t"; Name "ptl_size_t"; Name "ptl_size_t"; Name "ptl_process_t";
      Name "ptl_pt_index_t"; Name "ptl_match_bits_t"; Name "ptl_size_t"; Pointer Void;
      Name "ptl_hdr_data_t"; Pointer (Const Void); Name "ptl_op_t"; Name "ptl_datatype_t";
      Name "ptl_handle_ct_t"; Name "ptl_size_t"];
    mk_proto "PtlTriggeredCTSet" Int [Name "ptl_handle_ct_t"; Name "ptl_ct_event_t";
      Name "ptl_handle_ct_t"; Name "ptl_size_t"];
    mk_proto "PtlTriggeredCTInc" Int [Name "ptl_handle_ct_t"; Name "ptl_ct_event_t";
      Name "ptl_handle_ct_t"; Name "ptl_size_t"];
    mk_proto "PtlStartBundle" Int [Name "ptl_handle_ni_t"];
    mk_proto "PtlEndBundle" Int [Name "ptl_handle_ni_t"];
    mk_proto "PtlHandleIsEqual" Int [Name "ptl_handle_any_t"; Name "ptl_handle_any_t"]].

(** @src/include/portals4.h:579-636 the non-blocking functions *)
Definition nonblocking_functions : list prototype := [
    mk_proto "PtlPTEnableNB" Int [Name "ptl_handle_ni_t"; Name "ptl_pt_index_t"];
    mk_proto "PtlPTDisableNB" Int [Name "ptl_handle_ni_t"; Name "ptl_pt_index_t"];
    mk_proto "PtlLEAppendNB" Int [Name "ptl_handle_ni_t"; Name "ptl_index_t";
      Pointer (Const (Name "ptl_le_t")); Name "ptl_list_t"; Pointer Void;
      Pointer (Name "ptl_handle_le_t")];
    mk_proto "PtlLESearchNB" Int [Name "ptl_handle_ni_t"; Name "ptl_pt_index_t";
      Pointer (Const (Name "ptl_le_t")); Name "ptl_search_op_t"; Pointer Void];
    mk_proto "PtlMEAppendNB" Int [Name "ptl_handle_ni_t"; Name "ptl_index_t";
      Pointer (Const (Name "ptl_me_t")); Name "ptl_list_t"; Pointer Void;
      Pointer (Name "ptl_handle_me_t")];
    mk_proto "PtlMESearchNB" Int [Name "ptl_handle_ni_t"; Name "ptl_pt_index_t";
      Pointer (Const (Name "ptl_me_t")); Name "ptl_search_op_t"; Pointer Void];
    mk_proto "PtlMDBindNB" Int [Name "ptl_handle_ni_t"; Pointer (Const (Name "ptl_md_t"));
      Pointer (Name "ptl_handle_md_t")];
    mk_proto "PtlPutNB" Int [Name "ptl_handle_md_t"; Name "ptl_size_t"; Name "ptl_size_t";
      Name "ptl_ack_req_t"; Name "ptl_process_t"; Name "ptl_index_t"; Name "ptl_match_bits_t";
      Name "ptl_size_t"; Pointer Void; Name "ptl_hdr_data_t"];
    mk_proto "PtlGetNB" Int [Name "ptl_handle_md_t"; Name "ptl_size_t"; Name "ptl_size_t";
      Name "ptl_process_t"; Name "ptl_pt_index_t"; Name "ptl_match_bits_t"; Name "ptl_size_t";
      Pointer Void];
    mk_proto "PtlAtomicNB" Int [Name "ptl_handle_md_t"; Name "ptl_size_t"; Name "ptl_size_t";
      Name "ptl_ack_req_t"; Name "ptl_process_t"; Name "ptl_pt_index_t"; Name "ptl_match_bits_t";
      Name "ptl_size_t"; Pointer Void; Name "ptl_hdr_data_t"; Name "ptl_op_t";
      Name "ptl_datatype_t"];
    mk_proto "PtlFetchAtomicNB" Int [Name "ptl_handle_md_t"; Name "ptl_size_t";
      Name "ptl_handle_md_t"; Name "ptl_size_t"; Name "ptl_size_t"; Name "ptl_process_t";
      Name "ptl_pt_index_t"; Name "ptl_match_bits_t"; Name "ptl_size_t"; Pointer Void;
      Name "ptl_hdr_data_t"; Name "ptl_op_t"; Name "ptl_datatype_t"];
    mk_proto "PtlSwapNB" Int [Name "ptl_handle_md_t"; Name "ptl_size_t"; Name "ptl_handle_md_t";
      Name "ptl_size_t"; Name "ptl_size_t"; Name "ptl_process_t"; Name "ptl_pt_index_t";
      Name "ptl_match_bits_t"; Name "ptl_size_t"; Pointer Void; Name "ptl_hdr_data_t";
      Pointer (Const Void); Name "ptl_op_t"; Name "ptl_datatype_t"];
    mk_proto "PtlTriggeredPutNB" Int [Name "ptl_handle_md_t"; Name "ptl_size_t";
      Name "ptl_size_t"; Name "ptl_ack_req_t"; Name "ptl_process_t"; Name "ptl_index_t";
      Name "ptl_match_bits_t"; Name "ptl_size_t"; Pointer Void; Name "ptl_hdr_data_t";
      Name "ptl_handle_ct_t"; Name "ptl_size_t"];
    mk_proto "PtlTriggeredGetNB" Int [Name "ptl_handle_md_t"; Name "ptl_size_t";
      Name "ptl_size_t"; Name "ptl_process_t"; Name "ptl_pt_index_t"; Name "ptl_match_bits_t";
      Name "ptl_size_t"; Pointer Void; Name "ptl_handle_ct_t"; Name "ptl_size_t"];
    mk_proto "PtlTriggeredAtomicNB" Int [Name "ptl_handle_md_t"; Name "ptl_size_t";
      Name "ptl_size_t"; Name "ptl_ack_req_t"; Name "ptl_process_t"; Name "ptl_pt_index_t";
      Name "ptl_match_bits_t"; Name "ptl_size_t"; Pointer Void; Name "ptl_hdr_data_t";
      Name "ptl_op_t"; Name "ptl_datatype_t"; Name "ptl_handle_ct_t"; Name "ptl_size_t"];
    mk_proto "PtlTriggeredFetchAtomicNB" Int [Name "ptl_handle_md_t"; Name "ptl_size_t";
      Name "ptl_handle_md_t"; Name "ptl_size_t"; Name "ptl_size_t"; Name "ptl_process_t";
      Name "ptl_pt_index_t"; Name "ptl_match_bits_t"; Name "ptl_size_t"; Pointer Void;
      Name "ptl_hdr_data_t"; Name "ptl_op_t"; Name "ptl_datatype_t"; Name "ptl_handle_ct_t";
      Name "ptl_size_t"];
    mk_proto "PtlTriggeredSwapNB" Int [Name "ptl_handle_md_t"; Name "ptl_size_t";
      Name "ptl_handle_md_t"; Name "ptl_size_t"; Name "ptl_size_t"; Name "ptl_process_t";
      Name "ptl_pt_index_t"; Name "ptl_match_bits_t"; Name "ptl_size_t"; Pointer Void;
      Name "ptl_hdr_data_t"; Pointer (Const Void); Name "ptl_op_t"; Name "ptl_datatype_t";
      Name "ptl_handle_ct_t"; Name "ptl_size_t"];
    mk_proto "PtlTriggeredCTSetNB" Int [Name "ptl_handle_ct_t"; Name "ptl_ct_event_t";
      Name "ptl_handle_ct_t"; Name "ptl_size_t"];
    mk_proto "PtlTriggeredCTIncNB" Int [Name "ptl_handle_ct_t"; Name "ptl_ct_event_t";
      Name "ptl_handle_ct_t"; Name "ptl_size_t"]].

(** @src/include/portals4.h:638-642 the functions on file descriptors *)
Definition descriptor_functions : list prototype := [
    mk_proto "PtlNFDs" Int [Name "ptl_handle_ni_t"];
    mk_proto "PtlPollFDs" Int [Name "ptl_handle_ni_t"; Pointer (Struct "pollfd"); Int];
    mk_proto "PtlPollEvents" Int [Name "ptl_handle_ni_t"; Pointer (Struct "pollfd")]].

Definition declared : list prototype := functions ++ nonblocking_functions ++ descriptor_functions.

(** @src/src/portals4.cpp:55-311 the functions it defines, before PtlPut *)
Definition entry_points : list prototype := [
    mk_proto "PtlInit" Int [];
    mk_proto "PtlFini" Void [];
    mk_proto "PtlSetMemOps" Int [Pointer (Struct "ptl_mem_ops")];
    mk_proto "PtlActivateHookAdd" Int [Pointer (Function Void [Pointer Void; UnsignedInt; Int]);
      Pointer Void; Pointer (Pointer (Struct "ptl_activate_hook"))];
    mk_proto "PtlActivateHookRemove" Int [Pointer (Struct "ptl_activate_hook")];
    mk_proto "PtlNIInit" Int [Name "ptl_interface_t"; UnsignedInt; Name "ptl_pid_t";
      Pointer (Const (Struct "ptl_ni_limits")); Pointer (Struct "ptl_ni_limits");
      Pointer (Name "ptl_handle_ni_t")];
    mk_proto "PtlNIFini" Int [Name "ptl_handle_ni_t"];
    mk_proto "PtlNIHandle" Int [Name "ptl_handle_any_t"; Pointer (Name "ptl_handle_ni_t")];
    mk_proto "PtlHandleIsEqual" Int [Name "ptl_handle_any_t"; Name "ptl_handle_any_t"];
    mk_proto "PtlNIStatus" Int [Name "ptl_handle_ni_t"; Name "ptl_sr_index_t";
      Pointer (Name "ptl_sr_value_t")];
    mk_proto "PtlSetMap" Int [Name "ptl_handle_ni_t"; Name "ptl_size_t";
      Pointer (Const (Union "ptl_process"))];
    mk_proto "PtlGetMap" Int [Name "ptl_handle_ni_t"; Name "ptl_size_t";
      Pointer (Union "ptl_process"); Pointer (Name "ptl_size_t")];
    mk_proto "PtlPTAlloc" Int [Name "ptl_handle_ni_t"; UnsignedInt; Name "ptl_handle_eq_t";
      Name "ptl_index_t"; Pointer (Name "ptl_index_t")];
    mk_proto "PtlPTFree" Int [Name "ptl_handle_ni_t"; Name "ptl_pt_index_t"];
    mk_proto "PtlPTEnable" Int [Name "ptl_handle_ni_t"; Name "ptl_pt_index_t"];
    mk_proto "PtlPTEnableNB" Int [Name "ptl_handle_ni_t"; Name "ptl_pt_index_t"];
    mk_proto "PtlPTDisable" Int [Name "ptl_handle_ni_t"; Name "ptl_pt_index_t"];
    mk_proto "PtlPTDisableNB" Int [Name "ptl_handle_ni_t"; Name "ptl_pt_index_t"];
    mk_proto "PtlGetUid" Int [Name "ptl_handle_ni_t"; Pointer (Name "ptl_uid_t")];
    mk_proto "PtlGetId" Int [Name "ptl_handle_ni_t"; Pointer (Union "ptl_process")];
    mk_proto "PtlGetPhysId" Int [Name "ptl_handle_ni_t"; Pointer (Union "ptl_process")];
    mk_proto "PtlGetHwid" Int [Name "ptl_handle_ni_t"; Pointer Uint64; Pointer Uint64];
    mk_proto "PtlMDBind" Int [Name "ptl_handle_ni_t"; Pointer (Const (Struct "ptl_md"));
      Pointer (Name "ptl_handle_md_t")];
    mk_proto "PtlMDBindNB" Int [Name "ptl_handle_ni_t"; Pointer (Const (Struct "ptl_md"));
      Pointer (Name "ptl_handle_md_t")];
    mk_proto "PtlMDRelease" Int [Name "ptl_handle_md_t"];
    mk_proto "PtlMEAppend" Int [Name "ptl_handle_ni_t"; Name "ptl_pt_index_t";
      Pointer (Const (Struct "ptl_me")); Int; Pointer Void; Pointer (Name "ptl_handle_me_t")];
    mk_proto "PtlMEAppendNB" Int [Name "ptl_handle_ni_t"; Name "ptl_pt_index_t";
      Pointer (Const (Struct "ptl_me")); Int; Pointer Void; Pointer (Name "ptl_handle_me_t")];
    mk_proto "PtlMEUnlink" Int [Name "ptl_handle_me_t"];
    mk_proto "PtlMESearch" Int [Name "ptl_handle_ni_t"; Name "ptl_pt_index_t";
      Pointer (Const (Name "ptl_me_t")); Name "ptl_search_op_t"; Pointer Void];
    mk_proto "PtlMESearchNB" Int [Name "ptl_handle_ni_t"; Name "ptl_pt_index_t";
      Pointer (Const (Name "ptl_me_t")); Name "ptl_search_op_t"; Pointer Void];
    mk_proto "PtlLEAppend" Int [Name "ptl_handle_ni_t"; Name "ptl_pt_index_t";
      Pointer (Const (Struct "ptl_me")); Int; Pointer Void; Pointer (Name "ptl_handle_me_t")];
    mk_proto "PtlLEAppendNB" Int [Name "ptl_handle_ni_t"; Name "ptl_pt_index_t";
      Pointer (Const (Struct "ptl_me")); Int; Pointer Void; Pointer (Name "ptl_handle_me_t")];
    mk_proto "PtlLEUnlink" Int [Name "ptl_handle_me_t"];
    mk_proto "PtlLESearch" Int [Name "ptl_handle_ni_t"; Name "ptl_pt_index_t";
      Pointer (Const (Name "ptl_me_t")); Name "ptl_search_op_t"; Pointer Void];
    mk_proto "PtlLESearchNB" Int [Name "ptl_handle_ni_t"; Name "ptl_pt_index_t";
      Pointer (Const (Name "ptl_me_t")); Name "ptl_search_op_t"; Pointer Void];
    mk_proto "PtlEQAllocAsync" Int [Name "ptl_handle_ni_t"; Name "ptl_size_t";
      Pointer (Name "ptl_handle_eq_t"); Pointer (Function Void [Pointer Void;
      Name "ptl_handle_eq_t"]); Pointer Void; Int];
    mk_proto "PtlEQAlloc" Int [Name "ptl_handle_ni_t"; Name "ptl_size_t";
      Pointer (Name "ptl_handle_eq_t")];
    mk_proto "PtlEQFree" Int [Name "ptl_handle_eq_t"];
    mk_proto "PtlEQGet" Int [Name "ptl_handle_eq_t"; Pointer (Struct "ptl_event")];
    mk_proto "PtlEQPoll" Int [Pointer (Const (Name "ptl_handle_eq_t")); UnsignedInt;
      Name "ptl_time_t"; Pointer (Struct "ptl_event"); Pointer UnsignedInt];
    mk_proto "PtlEQWait" Int [Name "ptl_handle_eq_t"; Pointer (Struct "ptl_event")];
    mk_proto "PtlCTAlloc" Int [Name "ptl_handle_ni_t"; Pointer (Name "ptl_handle_ct_t")];
    mk_proto "PtlCTFree" Int [Name "ptl_handle_ct_t"];
    mk_proto "PtlCTGet" Int [Name "ptl_handle_ct_t"; Pointer (Struct "ptl_ct_event")];
    mk_proto "PtlCTPoll" Int [Pointer (Const (Name "ptl_handle_ct_t"));
      Pointer (Const (Name "ptl_size_t")); UnsignedInt; Name "ptl_time_t";
      Pointer (Struct "ptl_ct_event"); Pointer UnsignedInt];
    mk_proto "PtlCTWait" Int [Name "ptl_handle_ct_t"; Name "ptl_size_t";
      Pointer (Struct "ptl_ct_event")];
    mk_proto "PtlCTSet" Int [Name "ptl_handle_ct_t"; Struct "ptl_ct_event"];
    mk_proto "PtlCTInc" Int [Name "ptl_handle_ct_t"; Struct "ptl_ct_event"];
    mk_proto "PtlCTCancelTriggered" Int [Name "ptl_handle_ct_t"]].

(** @src/src/portals4.cpp:313-514 the functions it defines, from PtlPut on *)
Definition communication_entry_points : list prototype := [
    mk_proto "PtlPut" Int [Name "ptl_handle_md_t"; Name "ptl_size_t"; Name "ptl_size_t"; Int;
      Union "ptl_process"; Name "ptl_pt_index_t"; Name "ptl_match_bits_t"; Name "ptl_size_t";
      Pointer Void; Name "ptl_hdr_data_t"];
    mk_proto "PtlPutNB" Int [Name "ptl_handle_md_t"; Name "ptl_size_t"; Name "ptl_size_t"; Int;
      Union "ptl_process"; Name "ptl_pt_index_t"; Name "ptl_match_bits_t"; Name "ptl_size_t";
      Pointer Void; Name "ptl_hdr_data_t"];
    mk_proto "PtlGet" Int [Name "ptl_handle_md_t"; Name "ptl_size_t"; Name "ptl_size_t";
      Union "ptl_process"; Name "ptl_pt_index_t"; Name "ptl_match_bits_t"; Name "ptl_size_t";
      Pointer Void];
    mk_proto "PtlGetNB" Int [Name "ptl_handle_md_t"; Name "ptl_size_t"; Name "ptl_size_t";
      Union "ptl_process"; Name "ptl_pt_index_t"; Name "ptl_match_bits_t"; Name "ptl_size_t";
      Pointer Void];
    mk_proto "PtlAtomic" Int [Name "ptl_handle_md_t"; Name "ptl_size_t"; Name "ptl_size_t";
      Name "ptl_ack_req_t"; Name "ptl_process_t"; Name "ptl_pt_index_t"; Name "ptl_match_bits_t";
      Name "ptl_size_t"; Pointer Void; Name "ptl_hdr_data_t"; Name "ptl_op_t";
      Name "ptl_datatype_t"];
    mk_proto "PtlAtomicNB" Int [Name "ptl_handle_md_t"; Name "ptl_size_t"; Name "ptl_size_t";
      Name "ptl_ack_req_t"; Name "ptl_process_t"; Name "ptl_pt_index_t"; Name "ptl_match_bits_t";
      Name "ptl_size_t"; Pointer Void; Name "ptl_hdr_data_t"; Name "ptl_op_t";
      Name "ptl_datatype_t"];
    mk_proto "PtlFetchAtomic" Int [Name "ptl_handle_md_t"; Name "ptl_size_t";
      Name "ptl_handle_md_t"; Name "ptl_size_t"; Name "ptl_size_t"; Name "ptl_process_t";
      Name "ptl_pt_index_t"; Name "ptl_match_bits_t"; Name "ptl_size_t"; Pointer Void;
      Name "ptl_hdr_data_t"; Name "ptl_op_t"; Name "ptl_datatype_t"];
    mk_proto "PtlFetchAtomicNB" Int [Name "ptl_handle_md_t"; Name "ptl_size_t";
      Name "ptl_handle_md_t"; Name "ptl_size_t"; Name "ptl_size_t"; Name "ptl_process_t";
      Name "ptl_pt_index_t"; Name "ptl_match_bits_t"; Name "ptl_size_t"; Pointer Void;
      Name "ptl_hdr_data_t"; Name "ptl_op_t"; Name "ptl_datatype_t"];
    mk_proto "PtlSwap" Int [Name "ptl_handle_md_t"; Name "ptl_size_t"; Name "ptl_handle_md_t";
      Name "ptl_size_t"; Name "ptl_size_t"; Name "ptl_process_t"; Name "ptl_pt_index_t";
      Name "ptl_match_bits_t"; Name "ptl_size_t"; Pointer Void; Name "ptl_hdr_data_t";
      Pointer (Const Void); Name "ptl_op_t"; Name "ptl_datatype_t"];
    mk_proto "PtlSwapNB" Int [Name "ptl_handle_md_t"; Name "ptl_size_t"; Name "ptl_handle_md_t";
      Name "ptl_size_t"; Name "ptl_size_t"; Name "ptl_process_t"; Name "ptl_pt_index_t";
      Name "ptl_match_bits_t"; Name "ptl_size_t"; Pointer Void; Name "ptl_hdr_data_t";
      Pointer (Const Void); Name "ptl_op_t"; Name "ptl_datatype_t"];
    mk_proto "PtlTriggeredPut" Int [Name "ptl_handle_md_t"; Name "ptl_size_t"; Name "ptl_size_t";
      Int; Union "ptl_process"; Name "ptl_pt_index_t"; Name "ptl_match_bits_t"; Name "ptl_size_t";
      Pointer Void; Name "ptl_hdr_data_t"; Name "ptl_handle_ct_t"; Name "ptl_size_t"];
    mk_proto "PtlTriggeredPutNB" Int [Name "ptl_handle_md_t"; Name "ptl_size_t";
      Name "ptl_size_t"; Int; Union "ptl_process"; Name "ptl_pt_index_t"; Name "ptl_match_bits_t";
      Name "ptl_size_t"; Pointer Void; Name "ptl_hdr_data_t"; Name "ptl_handle_ct_t";
      Name "ptl_size_t"];
    mk_proto "PtlTriggeredGet" Int [Name "ptl_handle_md_t"; Name "ptl_size_t"; Name "ptl_size_t";
      Union "ptl_process"; Name "ptl_pt_index_t"; Name "ptl_match_bits_t"; Name "ptl_size_t";
      Pointer Void; Name "ptl_handle_ct_t"; Name "ptl_size_t"];
    mk_proto "PtlTriggeredGetNB" Int [Name "ptl_handle_md_t"; Name "ptl_size_t";
      Name "ptl_size_t"; Union "ptl_process"; Name "ptl_pt_index_t"; Name "ptl_match_bits_t";
      Name "ptl_size_t"; Pointer Void; Name "ptl_handle_ct_t"; Name "ptl_size_t"];
    mk_proto "PtlTriggeredAtomic" Int [Name "ptl_handle_md_t"; Name "ptl_size_t";
      Name "ptl_size_t"; Name "ptl_ack_req_t"; Name "ptl_process_t"; Name "ptl_pt_index_t";
      Name "ptl_match_bits_t"; Name "ptl_size_t"; Pointer Void; Name "ptl_hdr_data_t";
      Name "ptl_op_t"; Name "ptl_datatype_t"; Name "ptl_handle_ct_t"; Name "ptl_size_t"];
    mk_proto "PtlTriggeredAtomicNB" Int [Name "ptl_handle_md_t"; Name "ptl_size_t";
      Name "ptl_size_t"; Name "ptl_ack_req_t"; Name "ptl_process_t"; Name "ptl_pt_index_t";
      Name "ptl_match_bits_t"; Name "ptl_size_t"; Pointer Void; Name "ptl_hdr_data_t";
      Name "ptl_op_t"; Name "ptl_datatype_t"; Name "ptl_handle_ct_t"; Name "ptl_size_t"];
    mk_proto "PtlTriggeredFetchAtomic" Int [Name "ptl_handle_md_t"; Name "ptl_size_t";
      Name "ptl_handle_md_t"; Name "ptl_size_t"; Name "ptl_size_t"; Name "ptl_process_t";
      Name "ptl_pt_index_t"; Name "ptl_match_bits_t"; Name "ptl_size_t"; Pointer Void;
      Name "ptl_hdr_data_t"; Name "ptl_op_t"; Name "ptl_datatype_t"; Name "ptl_handle_ct_t";
      Name "ptl_size_t"];
    mk_proto "PtlTriggeredFetchAtomicNB" Int [Name "ptl_handle_md_t"; Name "ptl_size_t";
      Name "ptl_handle_md_t"; Name "ptl_size_t"; Name "ptl_size_t"; Name "ptl_process_t";
      Name "ptl_pt_index_t"; Name "ptl_match_bits_t"; Name "ptl_size_t"; Pointer Void;
      Name "ptl_hdr_data_t"; Name "ptl_op_t"; Name "ptl_datatype_t"; Name "ptl_handle_ct_t";
      Name "ptl_size_t"];
    mk_proto "PtlTriggeredSwap" Int [Name "ptl_handle_md_t"; Name "ptl_size_t";
      Name "ptl_handle_md_t"; Name "ptl_size_t"; Name "ptl_size_t"; Name "ptl_process_t";
      Name "ptl_pt_index_t"; Name "ptl_match_bits_t"; Name "ptl_size_t"; Pointer Void;
      Name "ptl_hdr_data_t"; Pointer (Const Void); Name "ptl_op_t"; Name "ptl_datatype_t";
      Name "ptl_handle_ct_t"; Name "ptl_size_t"];
    mk_proto "PtlTriggeredSwapNB" Int [Name "ptl_handle_md_t"; Name "ptl_size_t";
      Name "ptl_handle_md_t"; Name "ptl_size_t"; Name "ptl_size_t"; Name "ptl_process_t";
      Name "ptl_pt_index_t"; Name "ptl_match_bits_t"; Name "ptl_size_t"; Pointer Void;
      Name "ptl_hdr_data_t"; Pointer (Const Void); Name "ptl_op_t"; Name "ptl_datatype_t";
      Name "ptl_handle_ct_t"; Name "ptl_size_t"];
    mk_proto "PtlTriggeredCTSet" Int [Name "ptl_handle_ct_t"; Struct "ptl_ct_event";
      Name "ptl_handle_ct_t"; Name "ptl_size_t"];
    mk_proto "PtlTriggeredCTSetNB" Int [Name "ptl_handle_ct_t"; Struct "ptl_ct_event";
      Name "ptl_handle_ct_t"; Name "ptl_size_t"];
    mk_proto "PtlTriggeredCTInc" Int [Name "ptl_handle_ct_t"; Struct "ptl_ct_event";
      Name "ptl_handle_ct_t"; Name "ptl_size_t"];
    mk_proto "PtlTriggeredCTIncNB" Int [Name "ptl_handle_ct_t"; Struct "ptl_ct_event";
      Name "ptl_handle_ct_t"; Name "ptl_size_t"];
    mk_proto "PtlAtomicSync" Int [];
    mk_proto "PtlNIAtomicSync" Int [Name "ptl_handle_ni_t"];
    mk_proto "PtlNFDs" Int [Name "ptl_handle_ni_t"];
    mk_proto "PtlPollFDs" Int [Name "ptl_handle_ni_t"; Pointer (Struct "pollfd"); Int];
    mk_proto "PtlPollEvents" Int [Name "ptl_handle_ni_t"; Pointer (Struct "pollfd")];
    mk_proto "PtlStartBundle" Int [Name "ptl_handle_ni_t"];
    mk_proto "PtlEndBundle" Int [Name "ptl_handle_ni_t"]].

Definition defined : list prototype := entry_points ++ communication_entry_points.

(** @src/include/s4bxi/actors/BxiMainActor.hpp:83-177 the methods *)
Definition main_methods : list prototype := [
    mk_proto "PtlInit" Int [];
    mk_proto "PtlFini" Void [];
    mk_proto "PtlNIInit" Int [Name "ptl_interface_t"; UnsignedInt; Name "ptl_pid_t";
      Pointer (Const (Name "ptl_ni_limits_t")); Pointer (Name "ptl_ni_limits_t");
      Pointer (Name "ptl_handle_ni_t")];
    mk_proto "PtlNIFini" Int [Name "ptl_handle_ni_t"];
    mk_proto "PtlSetMap" Int [Name "ptl_handle_ni_t"; Name "ptl_size_t";
      Pointer (Const (Union "ptl_process"))];
    mk_proto "PtlGetMap" Int [Name "ptl_handle_ni_t"; Name "ptl_size_t";
      Pointer (Union "ptl_process"); Pointer (Name "ptl_size_t")];
    mk_proto "PtlPTAlloc" Int [Name "ptl_handle_ni_t"; UnsignedInt; Name "ptl_handle_eq_t";
      Name "ptl_index_t"; Pointer (Name "ptl_index_t")];
    mk_proto "PtlPTFree" Int [Name "ptl_handle_ni_t"; Name "ptl_index_t"];
    mk_proto "PtlPTEnable" Int [Name "ptl_handle_ni_t"; Name "ptl_pt_index_t"];
    mk_proto "PtlPTDisable" Int [Name "ptl_handle_ni_t"; Name "ptl_pt_index_t"];
    mk_proto "PtlGetUid" Int [Name "ptl_handle_ni_t"; Pointer (Name "ptl_uid_t")];
    mk_proto "PtlGetId" Int [Name "ptl_handle_ni_t"; Pointer (Name "ptl_process_t")];
    mk_proto "PtlGetPhysId" Int [Name "ptl_handle_ni_t"; Pointer (Name "ptl_process_t")];
    mk_proto "PtlMDBind" Int [Name "ptl_handle_ni_t"; Pointer (Const (Name "ptl_md_t"));
      Pointer (Name "ptl_handle_md_t")];
    mk_proto "PtlMDRelease" Int [Name "ptl_handle_md_t"];
    mk_proto "PtlLEAppend" Int [Name "ptl_handle_ni_t"; Name "ptl_index_t";
      Pointer (Const (Name "ptl_le_t")); Name "ptl_list_t"; Pointer Void;
      Pointer (Name "ptl_handle_le_t")];
    mk_proto "PtlLEUnlink" Int [Name "ptl_handle_le_t"];
    mk_proto "PtlMEAppend" Int [Name "ptl_handle_ni_t"; Name "ptl_index_t";
      Pointer (Const (Name "ptl_me_t")); Name "ptl_list_t"; Pointer Void;
      Pointer (Name "ptl_handle_me_t")];
    mk_proto "PtlMEUnlink" Int [Name "ptl_handle_me_t"];
    mk_proto "PtlEQAlloc" Int [Name "ptl_handle_ni_t"; Name "ptl_size_t";
      Pointer (Name "ptl_handle_eq_t")];
    mk_proto "PtlEQFree" Int [Name "ptl_handle_eq_t"];
    mk_proto "PtlEQGet" Int [Name "ptl_handle_eq_t"; Pointer (Name "ptl_event_t")];
    mk_proto "PtlEQWait" Int [Name "ptl_handle_eq_t"; Pointer (Name "ptl_event_t")];
    mk_proto "PtlEQPoll" Int [Pointer (Const (Name "ptl_handle_eq_t")); UnsignedInt;
      Name "ptl_time_t"; Pointer (Name "ptl_event_t"); Pointer UnsignedInt];
    mk_proto "PtlCTAlloc" Int [Name "ptl_handle_ni_t"; Pointer (Name "ptl_handle_ct_t")];
    mk_proto "PtlCTFree" Int [Name "ptl_handle_ct_t"];
    mk_proto "PtlCTGet" Int [Name "ptl_handle_ct_t"; Pointer (Name "ptl_ct_event_t")];
    mk_proto "PtlCTWait" Int [Name "ptl_handle_ct_t"; Name "ptl_size_t";
      Pointer (Name "ptl_ct_event_t")];
    mk_proto "PtlCTPoll" Int [Pointer (Const (Name "ptl_handle_ct_t"));
      Pointer (Const (Name "ptl_size_t")); UnsignedInt; Name "ptl_time_t";
      Pointer (Name "ptl_ct_event_t"); Pointer UnsignedInt];
    mk_proto "PtlCTSet" Int [Name "ptl_handle_ct_t"; Name "ptl_ct_event_t"];
    mk_proto "PtlCTInc" Int [Name "ptl_handle_ct_t"; Name "ptl_ct_event_t"];
    mk_proto "PtlPut" Int [Name "ptl_handle_md_t"; Name "ptl_size_t"; Name "ptl_size_t";
      Name "ptl_ack_req_t"; Name "ptl_process_t"; Name "ptl_index_t"; Name "ptl_match_bits_t";
      Name "ptl_size_t"; Pointer Void; Name "ptl_hdr_data_t"];
    mk_proto "PtlGet" Int [Name "ptl_handle_md_t"; Name "ptl_size_t"; Name "ptl_size_t";
      Name "ptl_process_t"; Name "ptl_pt_index_t"; Name "ptl_match_bits_t"; Name "ptl_size_t";
      Pointer Void];
    mk_proto "PtlAtomic" Int [Name "ptl_handle_md_t"; Name "ptl_size_t"; Name "ptl_size_t";
      Name "ptl_ack_req_t"; Name "ptl_process_t"; Name "ptl_pt_index_t"; Name "ptl_match_bits_t";
      Name "ptl_size_t"; Pointer Void; Name "ptl_hdr_data_t"; Name "ptl_op_t";
      Name "ptl_datatype_t"];
    mk_proto "PtlFetchAtomic" Int [Name "ptl_handle_md_t"; Name "ptl_size_t";
      Name "ptl_handle_md_t"; Name "ptl_size_t"; Name "ptl_size_t"; Name "ptl_process_t";
      Name "ptl_pt_index_t"; Name "ptl_match_bits_t"; Name "ptl_size_t"; Pointer Void;
      Name "ptl_hdr_data_t"; Name "ptl_op_t"; Name "ptl_datatype_t"];
    mk_proto "PtlSwap" Int [Name "ptl_handle_md_t"; Name "ptl_size_t"; Name "ptl_handle_md_t";
      Name "ptl_size_t"; Name "ptl_size_t"; Name "ptl_process_t"; Name "ptl_pt_index_t";
      Name "ptl_match_bits_t"; Name "ptl_size_t"; Pointer Void; Name "ptl_hdr_data_t";
      Pointer (Const Void); Name "ptl_op_t"; Name "ptl_datatype_t"];
    mk_proto "PtlHandleIsEqual" Int [Name "ptl_handle_any_t"; Name "ptl_handle_any_t"]].

(** @src/include/s4bxi/actors/BxiMainActor.hpp:187-225 the non-blocking methods *)
Definition nonblocking_methods : list prototype := [
    mk_proto "PtlPTEnableNB" Int [Name "ptl_handle_ni_t"; Name "ptl_pt_index_t"];
    mk_proto "PtlPTDisableNB" Int [Name "ptl_handle_ni_t"; Name "ptl_pt_index_t"];
    mk_proto "PtlLEAppendNB" Int [Name "ptl_handle_ni_t"; Name "ptl_index_t";
      Pointer (Const (Name "ptl_le_t")); Name "ptl_list_t"; Pointer Void;
      Pointer (Name "ptl_handle_le_t")];
    mk_proto "PtlMEAppendNB" Int [Name "ptl_handle_ni_t"; Name "ptl_index_t";
      Pointer (Const (Name "ptl_me_t")); Name "ptl_list_t"; Pointer Void;
      Pointer (Name "ptl_handle_me_t")];
    mk_proto "PtlMDBindNB" Int [Name "ptl_handle_ni_t"; Pointer (Const (Name "ptl_md_t"));
      Pointer (Name "ptl_handle_md_t")];
    mk_proto "PtlPutNB" Int [Name "ptl_handle_md_t"; Name "ptl_size_t"; Name "ptl_size_t";
      Name "ptl_ack_req_t"; Name "ptl_process_t"; Name "ptl_index_t"; Name "ptl_match_bits_t";
      Name "ptl_size_t"; Pointer Void; Name "ptl_hdr_data_t"];
    mk_proto "PtlGetNB" Int [Name "ptl_handle_md_t"; Name "ptl_size_t"; Name "ptl_size_t";
      Name "ptl_process_t"; Name "ptl_pt_index_t"; Name "ptl_match_bits_t"; Name "ptl_size_t";
      Pointer Void];
    mk_proto "PtlAtomicNB" Int [Name "ptl_handle_md_t"; Name "ptl_size_t"; Name "ptl_size_t";
      Name "ptl_ack_req_t"; Name "ptl_process_t"; Name "ptl_pt_index_t"; Name "ptl_match_bits_t";
      Name "ptl_size_t"; Pointer Void; Name "ptl_hdr_data_t"; Name "ptl_op_t";
      Name "ptl_datatype_t"];
    mk_proto "PtlFetchAtomicNB" Int [Name "ptl_handle_md_t"; Name "ptl_size_t";
      Name "ptl_handle_md_t"; Name "ptl_size_t"; Name "ptl_size_t"; Name "ptl_process_t";
      Name "ptl_pt_index_t"; Name "ptl_match_bits_t"; Name "ptl_size_t"; Pointer Void;
      Name "ptl_hdr_data_t"; Name "ptl_op_t"; Name "ptl_datatype_t"];
    mk_proto "PtlSwapNB" Int [Name "ptl_handle_md_t"; Name "ptl_size_t"; Name "ptl_handle_md_t";
      Name "ptl_size_t"; Name "ptl_size_t"; Name "ptl_process_t"; Name "ptl_pt_index_t";
      Name "ptl_match_bits_t"; Name "ptl_size_t"; Pointer Void; Name "ptl_hdr_data_t";
      Pointer (Const Void); Name "ptl_op_t"; Name "ptl_datatype_t"]].

Definition methods : list prototype := main_methods ++ nonblocking_methods.

(** ** The three interfaces agree *)

Lemma ctype_eqb_eq : forall t u, ctype_eqb t u = true -> t = u.
Proof.
  fix IH 1. intros [| | | | |a|a|a|a|t|t|r l] [| | | | |b|b|b|b|u|u|s m]; cbn [ctype_eqb]; try done.
  1-4: by intros ->%String.eqb_eq.
  1-2: by intros ->%IH.
  intros [->%IH Hl]%andb_prop. f_equal. revert m Hl.
  induction l as [|x l IHl]; intros [|y m]; try done. intros [->%IH Hl]%andb_prop. f_equal. by apply IHl.
Qed.

(** A prototype of the same function, with the same type. *)
Definition agrees (p q : prototype) : Prop :=
  proto_name q = proto_name p /\ function_type q = function_type p.
Definition agreesb (p q : prototype) : bool :=
  String.eqb (proto_name q) (proto_name p) && ctype_eqb (function_type q) (function_type p).

Lemma all_agree ps qs :
  forallb (fun p => existsb (agreesb p) qs) ps = true ->
  forall p, p ∈ ps -> exists q, q ∈ qs /\ agrees p q.
Proof.
  intros Hall p Hp%list_elem_of_In. rewrite forallb_forall in Hall.
  specialize (Hall p Hp). apply existsb_exists in Hall as (q & Hq%list_elem_of_In & Ha).
  exists q. split; [done|]. apply andb_prop in Ha as [?%String.eqb_eq ?%ctype_eqb_eq]. done.
Qed.

Definition names : list prototype -> list string := map proto_name.

