(* ===== verification/UserApp.v ===== *)
(** The life of a user process: [src/actors/BxiUserAppActor.cpp]. *)
From S2P Require Import Prelude OMap Portals World Engine Config Runtime Bench.
From Stdlib Require Import Ascii.

Section UserApp.
Context `{Runtime}.

(** A call that must succeed. *)
Definition checked (c : runtime_call) (e : failure) : PM unit :=
  _ ← call c; ok ← gets (rt_succeeds c); assert ok e.

(** It fails only when one of the files cannot be opened. *)
(** @src/src/actors/BxiUserAppActor.cpp:81-101 s4bxi_copy_file *)
Definition s4bxi_copy_file (src target : string) : PM unit :=
  checked (CopyFile src target) (Abort "Cannot read or write the file").

(** ** The deployment *)

(** @src/src/actors/BxiUserAppActor.cpp:396-399 random_characters *)
Definition random_characters : string := "ABCDEFGHIJKLMNOPQRSTUVWXYZabcdefghijklmnopqrstuvwxyz".

(** Each character of the identifier is drawn, the first with the draw [n]. *)
(** @src/src/actors/BxiUserAppActor.cpp:400-401 simulation_rand_id *)
Fixpoint draw_rand_id (n : nat) (id : string) : PM string :=
  match id with
  | "" => mret ""
  | String _ id' =>
      c ← of_option (String.get (Z.to_nat (rt_random_int n 0 51)) random_characters)
            (Undefined "read past the array");
      id' ← draw_rand_id (S n) id'; mret (String c id')
  end.

(** The actors of the deployment: their name and their property [rank].  Those that have none get
    the number of user processes seen before them. *)
(** @src/src/actors/BxiUserAppActor.cpp:492-500 the default ranks *)
Fixpoint set_ranks (actors : list (string * option string)) (rank_counts : Z)
    : list (string * option string) * Z :=
  match actors with
  | [] => ([], rank_counts)
  | (name, rank) :: actors' =>
      if decide (name = "user_app"%string) then
        let rank' := match rank with Some r => Some r | None => Some (pretty rank_counts) end in
        let '(l, n) := set_ranks actors' (rank_counts + 1) in ((name, rank') :: l, n)
      else let '(l, n) := set_ranks actors' rank_counts in ((name, rank) :: l, n)
  end.

(** ** Ranks *)

(** [stoul]: spaces, a sign, digits; a negative number wraps around. *)
Definition stoul (s : string) : PM Z :=
  let '(neg, s) := sign (skip_spaces s) in
  let '(v, n, _) := digits 10 s 0 0 in
  if n =? 0 then fail (Exception "std::invalid_argument")
  else if 2 ^ 64 <=? v then fail (Exception "std::out_of_range")
  else mret (if neg then u64 (- v) else v).

(** @src/src/actors/BxiUserAppActor.cpp:171-178 the ranks *)
Definition assign_ranks (actor : handle) : PM unit :=
  prop ← gets (fun s => rt_property s "rank");
  prop ← of_option prop (Undefined "null string");
  rank ← stoul prop;
  _ ← update_user actor (fun u => u <| ua_my_rank := Some (u32 rank) |>);
  u ← user actor;
  known ← gets (fun s => sim_local_ranks s !! ua_slug u);
  let local := match known with None => 0 | Some r => u32 (r + 1) end in
  _ ← modify (fun s => s <| sim_local_ranks ::= <[ua_slug u := local]> |>);
  update_user actor (fun u => u <| ua_my_local_rank := Some local |>).

(** ** Names of the private libraries *)

(** [std::string::substr]: the start must be in the string. *)
Definition substr (s : string) (pos n : nat) : string := String.substring pos n s.

(** @src/src/actors/BxiUserAppActor.cpp:192-195 the name of a library without its directory, [""]
    when its path has none *)
Fixpoint strip_path (path : string) (name : option string) : string :=
  match path with
  | "" => default "" name
  | String c path' =>
      strip_path path'
        (if (code c =? 47) || (code c =? 92) then Some path' else name)
  end.

(** The length of the prefix wraps around when the rank has more digits than there is room: the
    whole identifier is then taken. *)
(** @src/src/actors/BxiUserAppActor.cpp:207-211 target_lib *)
Definition target_lib (rand_id : string) (rank : Z) (libname : string) : string :=
  let pad := if (String.length libname <? 7)%nat then String.length libname else 7%nat in
  let digits := String.length (pretty rank) in
  let count := if (digits <=? pad)%nat then (pad - digits)%nat else String.length rand_id in
  (substr rand_id 0 count ++ pretty rank
   ++ substr libname pad (String.length libname - pad))%string.

(** [std::map<string, string>::emplace] *)
Fixpoint emplace_name (k v : string) (m : list (string * string)) : list (string * string) :=
  match m with
  | [] => [(k, v)]
  | (k', v') :: m' =>
      match String.compare k k' with
      | Lt => (k, v) :: m
      | Eq => m
      | Gt => (k', v') :: emplace_name k v m'
      end
  end.

Abbreviation Renames := (list (string * string)).

(** @src/src/actors/BxiUserAppActor.cpp:190-225 the copy of one library *)
Definition privatize (actor : handle) (rank : Z) (target_executable libpath : string)
    (renames : Renames) : PM Renames :=
  let libname := strip_path libpath None in
  if decide (libname = "") then mret renames else
  rand_id ← gets sim_rand_id;
  let target := target_lib rand_id rank libname in
  _ ← s4bxi_copy_file libpath target;
  _ ← checked (Sed libname target target_executable) (Abort "error while applying sed command");
  _ ← when (bool_decide (libname = "libmpi.so.40"%string))
        (update_user actor (fun u => u <| ua_bull_mpi_lib := target |>));
  mret (emplace_name libname target renames).

Fixpoint privatize_all (actor : handle) (rank : Z) (target_executable : string)
    (libs : list string) (renames : Renames) : PM Renames :=
  match libs with
  | [] => mret renames
  | l :: libs' =>
      renames ← privatize actor rank target_executable l renames;
      privatize_all actor rank target_executable libs' renames
  end.

(** @src/src/actors/BxiUserAppActor.cpp:234-244 every copy is linked to the other copies *)
Definition relink (renames : Renames) : PM unit :=
  for_each renames (fun relink_me =>
    for_each renames (fun target =>
      if decide (target.2 = relink_me.2) then mret tt
      else checked (Sed target.1 target.2 relink_me.2)
             (Abort "error while applying sed command"))).

(** ** The process *)

(** @src/src/actors/BxiUserAppActor.cpp:254-263 the MPI library of the process *)
Definition load_mpi (actor : handle) : PM unit :=
  u ← user actor;
  when (rt_mpi_build && negb (bool_decide (ua_bull_mpi_lib u = "")))
    (_ ← checked (DlOpen (ua_bull_mpi_lib u)) (Abort "dlopen error");
     _ ← call (SetMpiOps (ua_bull_mpi_lib u));
     call (DlClose (ua_bull_mpi_lib u))).

(** @src/src/actors/BxiUserAppActor.cpp:184-275 the private copies of the program *)
Definition load_program (actor : handle) (rank : Z) : PM string :=
  app ← gets sim_app;
  rand_id ← gets sim_rand_id;
  let target_executable :=
    (app_executable app ++ "_" ++ rand_id ++ "_" ++ pretty rank ++ ".so")%string in
  _ ← s4bxi_copy_file (app_executable app) target_executable;
  renames ← privatize_all actor rank target_executable (app_privatize_libs_paths app) [];
  _ ← relink renames;
  _ ← checked (DlOpen target_executable) (Abort "dlopen error");
  _ ← load_mpi actor;
  keep ← config_field keep_temps;
  _ ← when (negb keep)
        (_ ← call (Unlink target_executable);
         for_each renames (fun r => call (Unlink r.2)));
  _ ← checked (DlSym target_executable "main") (Abort "Could not resolve entry point");
  mret target_executable.

(** @src/src/actors/BxiUserAppActor.cpp:292-296 the last process to be ready *)
Definition process_ready : PM unit :=
  _ ← modify (fun s => s <| sim_initialized_processes ::= Z.succ |>);
  n ← gets sim_initialized_processes;
  count ← get_main_actor_count;
  when (n =? count - 1) (_ ← call SelfTimerStop; call SelfTimerStart).

(** The arguments given to [main]: the first one is replaced by the name of the program. *)
(** @src/src/actors/BxiUserAppActor.cpp:277-290 argv *)
Definition program_args (name : string) (string_args : list string) : PM (list string) :=
  match string_args with
  | [] => fail (Undefined "empty arguments")
  | _ :: args => mret (name :: args)
  end.

(** Up to the first barrier: the process has its ranks, its copy of the program is loaded. *)
(** @src/src/actors/BxiUserAppActor.cpp:167-296 BxiUserAppActor::operator() (before the barrier) *)
Definition user_app_prepare (actor : handle) : PM (string * list string) :=
  _ ← assign_ranks actor;
  _ ← setup_barrier;
  u ← user actor;
  rank ← determinate (ua_my_rank u);
  handle ← load_program actor rank;
  app ← gets sim_app;
  argv ← program_args (app_user_app_name app) (ua_string_args u);
  _ ← process_ready;
  mret (handle, argv).

(** @src/src/actors/BxiUserAppActor.cpp:300-306 BxiUserAppActor::operator() (the program starts) *)
Definition user_app_enter (argv : list string) : PM unit :=
  prop ← gets (fun s => rt_property s "delay_start");
  _ ← match prop with Some p => call (ActorSleep (atof p)) | None => mret tt end;
  _ ← s4bxi_bench_begin;
  call (EntryPoint argv).

(** @src/src/actors/BxiUserAppActor.cpp:308-315 BxiUserAppActor::operator() (the program ended) *)
Definition user_app_leave (handle : string) : PM unit :=
  _ ← s4bxi_bench_end;
  no_dlclose ← config_field no_dlclose;
  when (negb no_dlclose) (call (DlClose handle)).

(** @src/src/actors/BxiUserAppActor.cpp:167-318 BxiUserAppActor::operator() *)
Definition BxiUserAppActor_run (actor : handle) : PM unit :=
  '(handle, argv) ← user_app_prepare actor;
  _ ← barrier;
  _ ← user_app_enter argv;
  _ ← user_app_leave handle;
  barrier.
End UserApp.
