(* ===== verification/Redefine.v ===== *)
(** The C library functions that user programs are redirected to: [src/s4bxi_redefine.cpp]. *)
From S2P Require Import Prelude OMap Portals World Engine Config Runtime Bench UserApp CUtil.
From Stdlib Require Import SpecFloat.

(** ** Doubles and integers *)

(** A finite double is [m * 2 ^ e]. *)
Definition mantissa (d : double) : option (Z * Z) :=
  match d with
  | S754_zero _ => Some (0, 0)
  | S754_finite s m e => Some (if s then Z.neg m else Z.pos m, e)
  | _ => None
  end.

Definition dfloor (d : double) : option Z :=
  '(m, e) ← mantissa d; Some (if 0 <=? e then m * 2 ^ e else m / 2 ^ (- e)).

(** [round]: half-way cases away from zero. *)
Definition dround (d : double) : option Z :=
  '(m, e) ← mantissa d;
  Some (if 0 <=? e then m * 2 ^ e
        else Z.sgn m * ((Z.abs m + 2 ^ (- e - 1)) / 2 ^ (- e))).

(** The conversion to a signed 64-bit integer is undefined out of range. *)
Definition to_long {S} (v : option Z) : M S Z :=
  v ← of_option v (Undefined "not a number");
  _ ← assert (in_signed 64 v) (Undefined "conversion out of range"); mret v.

Fixpoint zeros (n : nat) : string := match n with O => "" | S n' => ("0" ++ zeros n')%string end.

(** [std::to_string(double)], that is ["%f"]: six decimals, half-way cases to even. *)
Definition to_string_double (d : double) : string :=
  match d with
  | S754_nan => "nan"
  | S754_infinity s => if s then "-inf" else "inf"
  | _ =>
      let '(m, e) := default (0, 0) (mantissa d) in
      let micros :=
        if 0 <=? e then Z.abs m * 2 ^ e * 10 ^ 6
        else let '(q, r) := Z.div_eucl (Z.abs m * 10 ^ 6) (2 ^ (- e)) in
             match Z.compare (2 * r) (2 ^ (- e)) with
             | Lt => q | Gt => q + 1 | Eq => if Z.even q then q else q + 1
             end in
      let frac := pretty (micros mod 10 ^ 6) in
      ((match d with S754_zero true | S754_finite true _ _ => "-" | _ => "" end)
       ++ pretty (micros / 10 ^ 6) ++ "." ++ zeros (6 - String.length frac) ++ frac)%string
  end.

Example to_string_third : to_string_double (atof "0.1") = "0.100000"%string.
Proof. vm_compute. reflexivity. Qed.
Example to_string_half : to_string_double (atof "-2.5e-6") = "-0.000003"%string.
Proof. vm_compute. reflexivity. Qed.

Section Redefine.
Context `{Env} `{Runtime}.

(** ** The clock *)

(** Seconds, and the rest in units of [10 ^ -n] second. *)
Definition split_time (unit : double) : PM (Z * Z) :=
  simtime ← get_clock;
  sec ← to_long (dfloor simtime);
  sub ← to_long (dround (dmul (dsub simtime (double_of_Z sec)) unit));
  mret (sec, sub).

(** @src/src/s4bxi_redefine.cpp:31-42 s4bxi_gettimeofday (what is written to [*tv]) *)
Definition s4bxi_gettimeofday : PM (Z * Z) := unbenched (split_time (double_of_Z (10 ^ 6))).

(** @src/src/s4bxi_redefine.cpp:169-180 s4bxi_clock_gettime *)
Definition s4bxi_clock_gettime : PM (Z * Z) := unbenched (split_time (double_of_Z (10 ^ 9))).

(** @src/src/s4bxi_redefine.cpp:185-191 s4bxi_clock_getres *)
Definition s4bxi_clock_getres : PM (Z * Z) := mret (0, 1).

(** @src/src/s4bxi_redefine.cpp:44-51 s4bxi_sleep *)
Definition s4bxi_sleep (seconds : Z) : PM Z :=
  _ ← unbenched (call (ActorSleep (double_of_Z seconds))); mret 0.

(** @src/src/s4bxi_redefine.cpp:53-60 s4bxi_usleep *)
Definition s4bxi_usleep (usec : Z) : PM Z :=
  _ ← unbenched (call (ActorSleep (dmul (double_of_decimal 1 (-6)) (double_of_Z usec)))); mret 0.

(** @src/src/s4bxi_redefine.cpp:62-69 s4bxi_nanosleep *)
Definition s4bxi_nanosleep (tv_sec tv_nsec : Z) : PM Z :=
  _ ← unbenched (call (ActorSleep (dadd (double_of_Z tv_sec)
        (dmul (double_of_decimal 1 (-9)) (double_of_Z tv_nsec))))); mret 0.

(** ** Signals and timers *)

(** The entry of a signal: indeterminate when nothing wrote it. *)
Definition registered_signal (actor : handle) (signum : Z) : PM (option (option Z)) :=
  u ← user actor; determinate (ua_registered_signals u !! signum).
Definition set_signal (actor : handle) (signum : Z) (v : option Z) : PM unit :=
  update_user actor (fun u => u <| ua_registered_signals ::= <[signum := Some v]> |>).

(** [stoi] *)
Definition stoi (s : string) : PM Z :=
  _ ← assert (in_signed 32 (decimal s)) (Exception "std::out_of_range"); mret (decimal s).

(** A timer runs as an actor of its own. *)
(** @src/src/s4bxi_redefine.cpp:76-87 s4bxi_timer_actor *)
Definition s4bxi_timer_actor (duration signum pid : string) : PM unit :=
  _ ← call (ActorSleep (atof duration));
  pid ← stoi pid;
  main_actor ← get_main_actor pid;
  if decide (main_actor = NULL) then mret tt else
  signum ← stoi signum;
  action ← registered_signal main_actor signum;
  match action with
  | None => mret tt
  | Some action =>
      handler ← determinate action;
      call (SignalHandler handler signum)
  end.

(** The structures are copied; a structure that was allocated and not filled is indeterminate.
    The result is the code and what is written to [*oldact], when something is. *)
(** @src/src/s4bxi_redefine.cpp:89-106 s4bxi_sigaction *)
Definition s4bxi_sigaction (signum : Z) (act : option Z) (oldact : bool)
    : PM (Z * option (option Z)) :=
  main_actor ← GET_CURRENT_MAIN_ACTOR;
  if 32 <? signum then mret (-1, None) else
  _ ← assert (0 <=? signum) (Undefined "index out of bounds");
  registered ← registered_signal main_actor signum;
  let old := if oldact then registered else None in
  _ ← match registered with
      | None => set_signal main_actor signum None
      | Some _ => mret tt
      end;
  _ ← match act with
      | Some a => set_signal main_actor signum (Some a)
      | None => mret tt
      end;
  mret (0, old).

Definition SIGALRM : Z := 14.
Definition SIGVTALRM : Z := 26.
Definition SIGPROF : Z := 27.

(** @src/src/s4bxi_redefine.cpp:114-129 the signal of a timer *)
Definition timer_signal (which : Z) : option Z :=
  if which =? 0 then Some SIGALRM
  else if which =? 1 then Some SIGVTALRM
  else if which =? 2 then Some SIGPROF else None.

Definition create_timer (name duration : string) (signum : Z) : PM unit :=
  pid ← gets rt_pid;
  call (ActorCreate name [duration; pretty signum; pretty pid]).

(** @src/src/s4bxi_redefine.cpp:108-141 s4bxi_setitimer ([*__new] is its first delay) *)
Definition s4bxi_setitimer (which tv_sec tv_usec : Z) : PM Z :=
  unbenched
    (match timer_signal which with
     | None => mret (-1)
     | Some signum =>
         let d := dadd (double_of_Z tv_sec)
                    (dmul (double_of_decimal 1 (-6)) (double_of_Z tv_usec)) in
         _ ← create_timer "_setitimer_actor" (to_string_double d) signum; mret 0
     end).

(** @src/src/s4bxi_redefine.cpp:146-160 s4bxi_alarm *)
Definition s4bxi_alarm (seconds : Z) : PM Z :=
  unbenched (_ ← create_timer "_alarm_actor" (pretty (u32 seconds)) SIGALRM; mret 0).

(** ** The process *)

(** @src/src/s4bxi_redefine.cpp:162-167 s4bxi_gethostname *)
Definition s4bxi_gethostname (name len : Z) : PM Z :=
  a ← GET_CURRENT_MAIN_ACTOR; u ← user a;
  _ ← on_world (strncpy name (ua_slug u) len); mret 0.

(** Each process has its own [optind]. *)
(** @src/src/s4bxi_redefine.cpp:215-223 s4bxi_getopt *)
Definition s4bxi_getopt : PM Z :=
  main_actor ← GET_CURRENT_MAIN_ACTOR;
  u ← user main_actor;
  _ ← modify (fun s => s <| sim_optind := ua_optind u |>);
  _ ← call (GetOpt main_actor);
  ret ← gets rt_getopt;
  optind ← gets sim_optind;
  _ ← update_user main_actor (fun u => u <| ua_optind := optind |>);
  mret ret.

(** @src/src/s4bxi_redefine.cpp:193-202 s4bxi_getopt_long_only *)
Definition s4bxi_getopt_long_only : PM Z := s4bxi_getopt.
(** @src/src/s4bxi_redefine.cpp:204-213 s4bxi_getopt_long *)
Definition s4bxi_getopt_long : PM Z := s4bxi_getopt.

(** The actor is killed. *)
(** @src/src/s4bxi_redefine.cpp:225-234 s4bxi_exit *)
Definition s4bxi_exit : PM unit :=
  _ ← s4bxi_bench_end;
  _ ← call ActorExit;
  fail (Exception "simgrid::ForcefulKillException").

(** @src/src/s4bxi_redefine.cpp:236-238 s4bxi_getpid *)
Definition s4bxi_getpid : PM Z := gets rt_pid.
End Redefine.
