(* ===== verification/Main.v ===== *)
(** The start and the end of a simulation: [s4bxi_default_main] of
    [src/actors/BxiUserAppActor.cpp], the actors that a deployment starts, and
    [BxiEngine::end_simulation].

    SimGrid, pugixml and the dynamic loader are the parameters [rt_engine_args], [rt_xml],
    [rt_by_name], [rt_loaded_libs] of [Runtime] and the calls that it records. *)
From S2P Require Import Prelude OMap Portals World Engine Config Queue Messages Node Counters.
From S2P Require Import Entries E2E NicActor Initiator Target MainActor Runtime Bench UserApp.
From S2P Require Import Redefine.
From Stdlib Require Import SpecFloat Ascii.

(** ** Parsed documents *)

Definition xml_name (n : xml_node) : string := let '(mk_xml name _ _) := n in name.
Definition xml_children (n : xml_node) : list xml_node := let '(mk_xml _ _ l) := n in l.

(** [node.attribute(name).value()]: empty when there is no such attribute. *)
Definition attribute (n : xml_node) (name : string) : string :=
  let '(mk_xml _ attributes _) := n in
  match List.find (fun a => bool_decide (a.1 = name)) attributes with
  | Some a => a.2 | None => ""%string end.

(** [node.children(name)], and [node.child(name)], empty when there is none. *)
Definition children (n : xml_node) (name : string) : list xml_node :=
  filter (fun c => xml_name c = name) (xml_children n).
Definition child (n : xml_node) (name : string) : xml_node :=
  default (mk_xml "" [] []) (head (children n name)).

(** ** Strings *)

(** [boost::split] at each [sep]. *)
Fixpoint split (sep : Ascii.ascii) (s : string) : list string :=
  match s with
  | "" => [""%string]
  | String c s' =>
      match split sep s' with
      | word :: words =>
          if decide (c = sep) then ""%string :: word :: words else String c word :: words
      | [] => []
      end
  end.

(** [strstr(path, name)] *)
Definition contains (path name : string) : bool :=
  match String.index 0 name path with Some _ => true | None => false end.

(** [std::round] *)
Definition round (d : double) : double :=
  match d, dround d with
  | S754_finite s _ _, Some z => if z =? 0 then S754_zero s else double_of_Z z
  | _, _ => d
  end.

Section Main.
Context `{Env} `{Runtime}.

(** ** The actors of a deployment *)

(** @src/src/actors/BxiNicActor.cpp:23-28 BxiNicActor::BxiNicActor *)
Definition BxiNicActor_new (args : list string) : PM (handle * bxi_vn) :=
  '(node, _) ← BxiActor_new;
  _ ← assert (length args =? 1)%nat (Abort "NIC actors expect no arguments");
  prop ← gets (fun s => rt_property s "VN");
  prop ← of_option prop (Undefined "null string");
  n ← atoi prop;
  vn ← of_option (vn_of_num n) (Undefined "no such virtual network");
  _ ← call ActorDaemonize;
  mret (node, vn).

(** What an actor of the deployment is once it is constructed; the user processes run
    [BxiUserAppActor_run]. *)
Inductive started_actor :=
| NicInitiator (node : handle) (vn : bxi_vn) (tx_queue : handle)
| NicTarget (node : handle) (vn : bxi_vn) (rx_mailbox : mailbox)
| NicE2E (e2e : option handle)
| UserApp (actor : handle).

(** [T actor(args)] *)
(** @src/src/actors/BxiUserAppActor.cpp:320-329 BxiActorFactory *)
Definition construct (function : string) (args : list string) : PM started_actor :=
  if decide (function = "nic_initiator"%string) then
    '(node, vn) ← BxiNicActor_new args;
    q ← on_world (BxiNicInitiator_new node vn); mret (NicInitiator node vn q)
  else if decide (function = "nic_target"%string) then
    '(node, vn) ← BxiNicActor_new args;
    mb ← on_world (BxiNicTarget_new node vn); mret (NicTarget node vn mb)
  else if decide (function = "nic_e2e"%string) then
    '(node, _) ← BxiActor_new;
    e2e ← on_world (BxiNicE2E_new node);
    _ ← call (match e2e with Some _ => ActorDaemonize | None => ActorExit end);
    mret (NicE2E e2e)
  else
    actor ← BxiUserAppActor_new args; mret (UserApp actor).

(** ** Private libraries *)

(** @src/src/actors/BxiUserAppActor.cpp:103-113 visit_libs *)
Definition visit_libs (path libname : string) : PM (option string) :=
  if contains path libname
  then if (String.length path <? 512)%nat then mret (Some path)
       else fail (Undefined "string without end")
  else mret None.

(** [dl_iterate_phdr]: until a library is found. *)
Fixpoint iterate_libs (paths : list string) (libname : string) : PM (option string) :=
  match paths with
  | [] => mret None
  | path :: paths' =>
      found ← visit_libs path libname;
      match found with Some p => mret (Some p) | None => iterate_libs paths' libname end
  end.

(** @src/src/actors/BxiUserAppActor.cpp:138-158 the search of one library *)
Definition find_lib (libname : string) : PM unit :=
  _ ← checked (DlOpen libname) (Abort "dlopen error");
  paths ← gets rt_loaded_libs;
  fullpath ← iterate_libs paths (substr libname 0 511);
  fullpath ← of_option fullpath (Abort "Can't find a linked library");
  _ ← modify (fun s => s <| sim_app ::= fun a =>
        a <| app_privatize_libs_paths ::= fun l => l ++ [fullpath] |> |>);
  no_dlclose ← config_field no_dlclose;
  when (negb no_dlclose) (call (DlClose libname)).

(** @src/src/actors/BxiUserAppActor.cpp:125-160 s4bxi_init_privatization_dlopen *)
Definition s4bxi_init_privatization_dlopen : PM unit :=
  libnames ← config_field privatize_libs;
  if decide (libnames = "") then mret tt else for_each (split ";"%char libnames) find_lib.

(** ** The deployment *)

(** @src/src/actors/BxiUserAppActor.cpp:478-489 the functions of a deployment *)
Definition known_function (func : string) : bool :=
  bool_decide (func ∈ ["nic_initiator"; "nic_target"; "nic_e2e"; "user_app"]%string).

(** @src/src/actors/BxiUserAppActor.cpp:460-490 one element of the deployment *)
Definition deploy_node (node : xml_node) : PM unit :=
  if negb (bool_decide (xml_name node = "actor"%string))
  then call (Message ("Unexpected tag in XML deployment: " ++ xml_name node ++ " (expected actor)"))
  else
    let actor_args :=
      xml_name node :: map (fun arg => attribute arg "value") (children node "argument") in
    let func := attribute node "function" in
    host ← by_name (attribute node "host");
    _ ← call (ActorInit func host);
    _ ← for_each (children node "prop") (fun arg =>
          call (ActorProperty (attribute arg "id") (attribute arg "value")));
    call (if known_function func then ActorStart func actor_args
          else Message ("Unexpected actor function in deployment: " ++ func)).

(** [false]: the file cannot be parsed. *)
(** @src/src/actors/BxiUserAppActor.cpp:443-491 the deployment *)
Definition load_deployment (deploy : string) : PM bool :=
  pugixml ← config_field use_pugixml;
  if negb pugixml then
    _ ← for_each ["nic_initiator"; "nic_target"; "nic_e2e"; "user_app"]%string
          (fun f => call (RegisterActor f));
    _ ← call (LoadDeployment deploy); mret true
  else match rt_xml deploy with
       | None => _ ← call (Message "Error during parsing of XML deploy"); mret false
       | Some doc => _ ← for_each (xml_children (child doc "platform")) deploy_node; mret true
       end.

(** The number of user processes. *)
(** @src/src/actors/BxiUserAppActor.cpp:492-500 the default ranks *)
Fixpoint default_ranks (actors : list Z) (rank_counts : Z) : PM Z :=
  match actors with
  | [] => mret rank_counts
  | actor :: actors' =>
      name ← gets (fun s => rt_actor_name s actor);
      if decide (name = "user_app"%string) then
        _ ← call (SetActorProperty actor "instance_id" "smpirun");
        prop ← gets (fun s => rt_actor_property s actor "rank");
        _ ← match prop with
            | Some _ => mret tt
            | None => call (SetActorProperty actor "rank" (pretty rank_counts))
            end;
        default_ranks actors' (rank_counts + 1)
      else default_ranks actors' rank_counts
  end.

(** ** The simulation *)

(** The name is too short for a suffix: [std::string::compare] throws. *)
(** @src/src/actors/BxiUserAppActor.cpp:382-386 whether the platform is a library *)
Definition is_library (platf : string) : PM bool :=
  _ ← assert (4 <=? String.length platf)%nat (Exception "std::out_of_range");
  mret (negb (bool_decide (substr platf (String.length platf - 4) 4 = ".xml"%string))).

(** @src/src/actors/BxiUserAppActor.cpp:406-413 the configuration by the platform *)
Definition configure_engine (platf : string) : PM unit :=
  _ ← call (DlSym platf "configure_engine");
  ok ← gets (rt_succeeds (DlSym platf "configure_engine"));
  call (if (ok : bool) then PlatformFunction platf "configure_engine"
        else Message "No engine configuration found in platform").

(** @src/src/actors/BxiUserAppActor.cpp:415-425 the configuration of SMPI *)
Definition configure_smpi : PM unit :=
  factor ← config_field cpu_factor;
  threshold ← config_field cpu_threshold;
  _ ← call (SetConfig "smpi/coll-selector:ompi");
  _ ← call (SetConfig ("smpi/host-speed:"
              ++ to_string_double (round (dmul factor (double_of_Z 10000))) ++ "Mf"));
  _ ← call (SetConfig ("smpi/cpu-threshold:" ++ to_string_double threshold));
  _ ← call (SetConfig "smpi/simulate-computation:yes");
  _ ← call SmpiSetCollectives;
  call SmpiInit.

(** @src/src/actors/BxiUserAppActor.cpp:427-437 the platform *)
Definition load_platform (platf : string) (platf_lib : bool) : PM unit :=
  if platf_lib then
    _ ← checked (DlSym platf "load_platform") (Abort "dlsym error");
    _ ← call (PlatformFunction platf "load_platform");
    no_dlclose ← config_field no_dlclose;
    when (negb no_dlclose) (call (DlClose platf))
  else call (LoadPlatform platf).

(** The nodes that no actor keeps are destroyed with the registry. *)
(** @src/src/BxiEngine.cpp:106-116 BxiEngine::end_simulation *)
Definition end_simulation : PM unit :=
  level ← config_field log_level;
  _ ← when (negb (level =? 0)) (on_world (log_write LogClose));
  _ ← modify (fun s => s <| sim_nodes := [] |>);
  call EngineDelete.

Definition SIGSEGV : Z := 11.
Definition SIGBUS : Z := 7.
Definition SEGV_ACCERR : Z := 2.

(** @src/src/actors/BxiUserAppActor.cpp:334-356 app_signal_handler *)
Definition app_signal_handler (nSignum si_signo si_code : Z) : PM unit :=
  _ ← (if ((si_signo =? SIGSEGV) && (si_code =? SEGV_ACCERR)) || (si_signo =? SIGBUS)
       then call (Message "Access violation or Bus error detected.")
       else when (si_signo =? SIGSEGV) (call (Message "Segmentation fault.")));
  _ ← call (ExitProcess (128 + nSignum));
  fail (Exception "_exit").

(** The platform and its configuration. *)
(** @src/src/actors/BxiUserAppActor.cpp:391-441 set-up of the engine *)
Definition set_up (platf : string) (platf_lib : bool) : PM unit :=
  _ ← for_each ["surf/precision:1e-9"; "network/loopback-lat:0"; "network/loopback-bw:999e9";
                "network/model:CM02"]%string (fun o => call (SetConfig o));
  id ← draw_rand_id 0 "0000000000";
  _ ← set_simulation_rand_id id;
  _ ← s4bxi_init_privatization_dlopen;
  _ ← when platf_lib (configure_engine platf);
  _ ← when rt_mpi_build configure_smpi;
  _ ← load_platform platf platf_lib;
  when rt_mpi_build (call SmpiCopyCallback).

(** @src/src/actors/BxiUserAppActor.cpp:502-537 the run *)
Definition run_simulation (rank_counts : Z) : PM unit :=
  _ ← when rt_mpi_build (call (SmpiAppRegister "smpirun" rank_counts));
  _ ← call OnDeadlockAbort;
  _ ← call SigSegvHandler;
  _ ← call EngineRun;
  _ ← call SelfTimerStop;
  _ ← call (Message "Spent in user application");
  _ ← call SigSegvDefault;
  _ ← when rt_mpi_build (_ ← call SmpiFinalize; call (DlClose "libsimgrid.so"));
  _ ← end_simulation;
  call SimgridDelete.

(** The four names of the command line. *)
Definition command_line (argv : list string) : PM (string * string * string * string) :=
  match argv with
  | _ :: platf :: deploy :: executable :: user_app_name :: _ =>
      mret (platf, deploy, executable, user_app_name)
  | _ => fail (Abort "Usage: platform_file deployment_file user_app_path user_app_name")
  end.

(** Everything before the run: the number of user processes, none when the deployment cannot be
    read. *)
(** @src/src/actors/BxiUserAppActor.cpp:360-500 s4bxi_default_main (before the run) *)
Definition start_up (argv : list string) : PM (option Z) :=
  _ ← call SelfTimerStart;
  _ ← when rt_mpi_build (checked (DlOpen "libsimgrid.so") (Abort "dlopen error"));
  _ ← s4bxi_actor_ext_plugin_init;
  _ ← when rt_mpi_build (call SmpiInitOptions);
  _ ← call (EngineNew argv);
  '(platf, deploy, executable, user_app_name) ← command_line (rt_engine_args argv);
  _ ← modify (fun s => s <| sim_app := mk_Application executable user_app_name [] |>);
  platf_lib ← is_library platf;
  _ ← when platf_lib (checked (DlOpen platf) (Abort "dlopen error"));
  _ ← set_up platf platf_lib;
  loaded ← load_deployment deploy;
  if negb loaded then mret None else
  actors ← gets rt_all_actors;
  rank_counts ← default_ranks actors 0;
  mret (Some rank_counts).

(** @src/src/actors/BxiUserAppActor.cpp:358-537 s4bxi_default_main *)
Definition s4bxi_default_main (argv : list string) : PM Z :=
  rank_counts ← start_up argv;
  match rank_counts with
  | None => mret 1
  | Some n => _ ← run_simulation n; mret 0
  end.
End Main.

(** ** The actors that SimGrid was asked for *)

(** An actor of the deployment: the arguments are there once it was started. *)
Record deployed := mk_deployed {
  dp_function : string; dp_host : Z; dp_properties : list (string * string);
  dp_args : option (list string) }.

(** What a call adds to the actors, the last one first like the calls. *)
Definition deploy_call (c : runtime_call) (l : list deployed) : list deployed :=
  match c, l with
  | ActorInit f h, _ => mk_deployed f h [] None :: l
  | ActorProperty id v, mk_deployed f h props args :: l' =>
      mk_deployed f h (props ++ [(id, v)]) args :: l'
  | ActorStart _ args, mk_deployed f h props _ :: l' => mk_deployed f h props (Some args) :: l'
  | _, _ => l
  end.
Definition deployed_actors (calls : list runtime_call) : list deployed :=
  foldr deploy_call [] calls.
