(* ===== verification/Client.v ===== *)
(** User programs: what they call, as the events of interaction trees, and what each call does to
    the simulator.

    A program is an [itree call A]: it may loop for ever ([for (;;)] is [ITree.iter]), and it runs
    one call at a time, so that the other actors of the simulation run in between ([Cluster.v]).
    [serve] gives the meaning of a call in the process that makes it; a call that waits for the
    network is taken when [can_proceed] says that what it waits for is there. *)
From ITree Require Import ITree.
From S2P Require Import Prelude Portals World Engine Counters Entries Atomics MainActor Runtime.
From S2P Require Import CUtil CApi Redefine.
From Stdlib Require Import SpecFloat Ascii.

#[export] Instance itree_ret {E} : MRet (itree E) := fun _ a => Ret a.
#[export] Instance itree_bind {E} : MBind (itree E) := fun _ _ k t => ITree.bind t k.

(** ** Calls *)

Definition stdout : Z := 1.
Definition stderr : Z := 2.

(** The functions of the C interface, by their names; the results are those that the C functions
    return or store.  The last ones are what a program does itself: its memory, its outputs. *)
Module Call.
Inductive call : Type -> Type :=
| PtlInit : call Z
| PtlFini : call unit
| PtlNIInit (iface options pid : Z) (desired : option ptl_ni_limits)
    : call (Z * handle * ptl_ni_limits)
| PtlNIFini (ni : handle) : call Z
| PtlGetPhysId (ni : handle) : call (Z * ptl_process)
| PtlSetMap (ni : handle) (size : Z) (map : list ptl_process) : call Z
| PtlPTAlloc (ni : handle) (options : Z) (eq : handle) (desired : Z) : call (Z * Z)
| PtlPTFree (ni : handle) (pt_index : Z) : call Z
| PtlEQAlloc : call (Z * handle)
| PtlEQFree (eq : handle) : call Z
| PtlEQGet (eq : handle) : call (Z * option ptl_event)
| PtlEQWait (eq : handle) : call (Z * ptl_event)
| PtlEQPoll (eqs : list handle) (timeout : Z) : call (Z * option (ptl_event * Z))
| PtlCTAlloc : call (Z * handle)
| PtlCTFree (ct : handle) : call Z
| PtlCTSet (ct : handle) (ev : ptl_ct_event) : call Z
| PtlCTWait (ct : handle) (test : Z) : call (Z * ptl_ct_event)
| PtlCTPoll (cts : list handle) (tests : list Z) (timeout : Z)
    : call (Z * option (ptl_ct_event * Z))
| PtlMDBind (ni : handle) (md : ptl_md) : call (Z * handle)
| PtlMDRelease (md : handle) : call Z
| PtlMEAppend (ni : handle) (pt_index : Z) (me : ptl_me) (ptl_list user_ptr : Z)
    : call (Z * handle)
| PtlLEAppend (ni : handle) (pt_index : Z) (le : ptl_me) (ptl_list user_ptr : Z)
    : call (Z * handle)
| PtlMEUnlink (me : handle) : call Z
| PtlLEUnlink (le : handle) : call Z
| PtlPut (md : handle) (loffs length ack : Z) (target : ptl_process)
    (pt_index bits roffs user_ptr hdr : Z) : call Z
| PtlGet (md : handle) (loffs length : Z) (target : ptl_process)
    (pt_index bits roffs user_ptr : Z) : call Z
| PtlAtomic (md : handle) (loffs length ack : Z) (target : ptl_process)
    (pt_index bits roffs user_ptr hdr : Z) (op : ptl_op) (type : ptl_datatype) : call Z
| PtlFetchAtomic (get_md : handle) (get_loffs : Z) (put_md : handle) (put_loffs length : Z)
    (target : ptl_process) (pt_index bits roffs user_ptr hdr : Z) (op : ptl_op)
    (type : ptl_datatype) : call Z
| PtlSwap (get_md : handle) (get_loffs : Z) (put_md : handle) (put_loffs length : Z)
    (target : ptl_process) (pt_index bits roffs user_ptr hdr operand : Z) (op : ptl_op)
    (type : ptl_datatype) : call Z
| s4bxi_barrier : call unit
| sleep (seconds : Z) : call Z
| malloc (size : Z) : call Z
| free (ptr : Z) : call unit
| _exit (code : Z) : call Empty_set
| print (stream : Z) (text : string) : call unit
| load (ptr : Z) (size : nat) : call (list Z)
| store (ptr : Z) (bytes : list Z) : call unit
| load_string (ptr : Z) : call string
| determinate (A : Type) (value : option A) : call A
| priority_list_size (ni : handle) (pt_index : Z) : call Z.
Arguments determinate {A} value.
End Call.
Abbreviation Program := (itree Call.call).

(** A call, as a program. *)
Definition do {A} (c : Call.call A) : Program A := ITree.trigger c.

(** ** The semantics of the calls *)

(** The bytes up to the null one. *)
Fixpoint string_at (fuel : nat) (ptr : Z) : SM string :=
  match fuel with
  | O => fail OutOfFuel
  | S fuel' =>
      bytes ← load_bytes ptr 1;
      let c := Z_of_bytes bytes in
      if c =? 0 then mret ""%string
      else s ← string_at fuel' (ptr + 1); mret (String (ascii_of_N (Z.to_N c)) s)
  end.

(** A string that is in memory is not longer than the memory. *)
Definition read_string (ptr : Z) : SM string :=
  n ← gets (fun w => size (w_mem w)); string_at (S n) ptr.

(** What the test of automatic unlinking reads in the objects of the simulator. *)
Definition list_size (ni : handle) (pt_index : Z) : SM Z :=
  i ← load (T := BxiNI) ni;
  pt ← of_option (ni_pt_indexes i !! pt_index) (Undefined "no such entry");
  p ← load (T := BxiPT) pt;
  mret (Z.of_nat (length (pt_priority_list p))).

(** The length of an entry is a [size_t]. *)
Definition sized (me : ptl_me) : ptl_me :=
  mk_me (me_start me) (u64 (me_length me)) (me_ct_handle me) (me_uid me) (me_options me)
    (me_match_id me) (me_match_bits me) (me_ignore_bits me) (me_min_free me).

Section Serve.
Context `{Env} `{Runtime}.

(** What a call does, in the process that makes it.  Without MPI, the functions on shared memory
    are those on memory. *)
(** @src/include/s4bxi/s4bxi_shared.h:74-76 S4BXI_SHARED_MALLOC, S4BXI_SHARED_FREE *)
Definition serve {A} (c : Call.call A) : PM A :=
  match c in Call.call T return PM T with
  | Call.PtlInit => api_PtlInit
  | Call.PtlFini => api_PtlFini
  | Call.PtlNIInit iface options pid desired => api_PtlNIInit iface options pid desired
  | Call.PtlNIFini ni => api_PtlNIFini ni
  | Call.PtlGetPhysId ni => api_PtlGetPhysId ni
  | Call.PtlSetMap ni size map => api_PtlSetMap ni size map
  | Call.PtlPTAlloc ni options eq desired => api_PtlPTAlloc ni options eq desired
  | Call.PtlPTFree ni i => api_PtlPTFree ni i
  | Call.PtlEQAlloc => api_PtlEQAlloc
  | Call.PtlEQFree eq => api_PtlEQFree eq
  | Call.PtlEQGet eq => api_PtlEQGet eq
  | Call.PtlEQWait eq => api_PtlEQWait eq
  | Call.PtlEQPoll eqs timeout => api_PtlEQPoll eqs timeout
  | Call.PtlCTAlloc => api_PtlCTAlloc
  | Call.PtlCTFree ct => api_PtlCTFree ct
  | Call.PtlCTSet ct ev => api_PtlCTSet ct ev
  | Call.PtlCTWait ct test => api_PtlCTWait ct test
  | Call.PtlCTPoll cts tests timeout => api_PtlCTPoll cts tests timeout
  | Call.PtlMDBind ni md => api_PtlMDBind ni md
  | Call.PtlMDRelease md => api_PtlMDRelease md
  | Call.PtlMEAppend ni i me l user_ptr => api_PtlMEAppend ni i (sized me) l user_ptr
  | Call.PtlLEAppend ni i le l user_ptr => api_PtlLEAppend ni i (sized le) l user_ptr
  | Call.PtlMEUnlink me => api_PtlMEUnlink me
  | Call.PtlLEUnlink le => api_PtlLEUnlink le
  | Call.PtlPut md lo n ack p i bits ro u hdr => api_PtlPut md lo n ack p i bits ro u hdr
  | Call.PtlGet md lo n p i bits ro u => api_PtlGet md lo n p i bits ro u
  | Call.PtlAtomic md lo n ack p i bits ro u hdr op type =>
      api_PtlAtomic md lo n ack p i bits ro u hdr op type
  | Call.PtlFetchAtomic gmd glo pmd plo n p i bits ro u hdr op type =>
      api_PtlFetchAtomic gmd glo pmd plo n p i bits ro u hdr op type
  | Call.PtlSwap gmd glo pmd plo n p i bits ro u hdr cst op type =>
      api_PtlSwap gmd glo pmd plo n p i bits ro u hdr cst op type
  | Call.s4bxi_barrier => s4bxi_barrier
  | Call.sleep seconds => s4bxi_sleep seconds
  | Call.malloc n => _ ← call (Malloc n); gets rt_malloc
  | Call.free ptr => call (FreeMemory ptr)
  | Call._exit code => _ ← call (ExitProcess code); fail (Exception "_exit")
  | Call.print stream text => call (PrintFormat stream text)
  | Call.load ptr n => on_world (load_bytes ptr n)
  | Call.store ptr bytes => on_world (store_bytes ptr bytes)
  | Call.load_string ptr => on_world (read_string ptr)
  | Call.determinate v => Runtime.determinate v
  | Call.priority_list_size ni i => on_world (list_size ni i)
  end.

(** An event is in the queue. *)
Definition event_ready (w : World) (eq : handle) : bool :=
  match w_eqs w !! eq with
  | Some e => env_mailbox_ready w (eq_mailbox e) || env_mailbox_listen w (eq_mailbox e)
  | None => true
  end.

(** The counter is at its test, or has counted a failure. *)
Definition counter_ready (w : World) (ct : handle) (test : Z) : bool :=
  match w_cts w !! ct with
  | Some c => (test <=? ct_success (ct_event c)) || negb (ct_failure (ct_event c) =? 0)
  | None => true
  end.

(** What a call waits for is there. *)
Definition can_proceed {A} (c : Call.call A) (w : World) : bool :=
  match c with
  | Call.PtlEQWait eq => event_ready w eq
  | Call.PtlEQPoll eqs _ => existsb (event_ready w) eqs
  | Call.PtlCTWait ct test => counter_ready w ct test
  | Call.PtlCTPoll cts tests _ =>
      existsb (fun p => counter_ready w p.1 p.2) (zip cts tests)
  | _ => true
  end.
End Serve.

(** ** What C programs write *)

(** [*ptr] for a pointer to [int64_t], to a handle, to [long double] (its last bytes are padding). *)
Definition load_int64 (ptr : Z) : Program Z := bs ← do (Call.load ptr 8); mret (sint_of bs).
Definition store_int64 (ptr v : Z) : Program unit := do (Call.store ptr (bytes_of_Z 8 v)).
Definition load_handle (ptr : Z) : Program handle :=
  bs ← do (Call.load ptr 8); mret (Z.to_N (uint_of bs)).
Definition store_handle (ptr : Z) (h : handle) : Program unit :=
  do (Call.store ptr (bytes_of_Z 8 (Z.of_N h))).
Definition load_long_double (ptr : Z) : Program spec_float :=
  bs ← do (Call.load ptr 10); mret (decode_float x87_80 bs).
Definition store_long_double (ptr v : Z) : Program unit :=
  do (Call.store ptr (encode_float x87_80 (binary_normalize 64 16384 v 0 false))).

Definition bytes_of_string (s : string) : list Z :=
  (fun c => Z.of_N (N_of_ascii c)) <$> String.list_ascii_of_string s.

(** [sprintf], once its text is known. *)
Definition sprintf (ptr : Z) (text : string) : Program unit :=
  do (Call.store ptr (bytes_of_string text ++ [0])).

Definition newline : string := String (ascii_of_nat 10) "".
Definition printf (text : string) : Program unit := do (Call.print stdout text).
Definition fprintf_stderr (text : string) : Program unit := do (Call.print stderr text).
Definition exit_with {A} (code : Z) : Program A :=
  e ← do (Call._exit code); match (e : Empty_set) with end.

(** [%ld], [%lu] and [%u] of a value of the type, [%Lf] *)
Definition ld (z : Z) : string := pretty (swrap 64 z).
Definition lu (z : Z) : string := pretty (u64 z).
Definition fmt_u (z : Z) : string := pretty (u32 z).
Definition Lf (d : spec_float) : string := to_string_double d.

(** [for (i = from; i < from + n; ++i) body] *)
Fixpoint for_loop (n : nat) (i : Z) (body : Z -> Program unit) : Program unit :=
  match n with O => mret tt | S n' => _ ← body i; for_loop n' (i + 1) body end.

(** The same loop, when its body changes a local variable. *)
Fixpoint for_loop_with {A} (n : nat) (i : Z) (a : A) (body : Z -> A -> Program A) : Program A :=
  match n with O => mret a | S n' => a ← body i a; for_loop_with n' (i + 1) a body end.
