(* ===== verification/Cluster.v ===== *)
(** The simulation as a whole: user programs ([Client.v]), the processes that run them
    ([UserApp.v]) and the cards ([Initiator.v], [Target.v], [E2E.v]) that SimGrid interleaves.

    A step runs one actor from one of its waits to the next.  Any actor that can run may be the
    next one; the clock advances, to the next date that someone waits for, when nobody can run. *)
From ITree Require Import ITree.
From S2P Require Import Prelude OMap Portals World Engine Config Queue Messages Node Counters.
From S2P Require Import Entries E2E NicActor Initiator Target MainActor Runtime Bench CUtil CApi.
From S2P Require Import UserApp Main Client.

(** ** Processes *)

(** Where a process is in [BxiUserAppActor::operator()]. *)
Inductive phase :=
| Preparing
| Prepared (handle : string) (argv : list string)
| Running (handle : string) (program : Program Z)
| Leaving
| Ended.

(** What a process waits for, apart from the network. *)
Inductive blocked := Ready | AtBarrier | AsleepUntil (date : double).

Record process := mk_proc {
  pr_pid : Z; pr_actor : handle; pr_phase : phase; pr_blocked : blocked }.

(** [cl_nics]: the actors of the cards, with their PIDs. *)
Record cluster := mk_cluster {
  cl_sim : Sim; cl_nics : list (Z * started_actor); cl_processes : list process }.

#[export] Instance rebuild_process : Rebuild process := fun r =>
  mk_proc (pr_pid r) (pr_actor r) (pr_phase r) (pr_blocked r).
#[export] Instance rebuild_cluster : Rebuild cluster := fun r =>
  mk_cluster (cl_sim r) (cl_nics r) (cl_processes r).

(** The first wait among some calls. *)
Fixpoint wait_in (now : double) (calls : list runtime_call) : blocked :=
  match calls with
  | [] => Ready
  | BarrierWait :: _ => AtBarrier
  | ActorSleep d :: _ => AsleepUntil (dadd now d)
  | _ :: calls' => wait_in now calls'
  end.

Definition is_ready (p : process) : bool :=
  match pr_blocked p with Ready => true | _ => false end.
Definition is_at_barrier (p : process) : bool :=
  match pr_blocked p with AtBarrier => true | _ => false end.
Definition has_ended (p : process) : bool :=
  match pr_phase p with Ended => true | _ => false end.

(** A process goes on. *)
Definition resumed (p : process) : process := p <| pr_blocked := Ready |>.

(** The date it sleeps until has come. *)
Definition is_due (now : double) (p : process) : bool :=
  match pr_blocked p with AsleepUntil d => negb (dlt now d) | _ => false end.

Section Cluster.
Context `{E : Env} (machine : Z -> Runtime) (main : list string -> Program Z).

(** A process, up to its next call. *)
(** @src/src/actors/BxiUserAppActor.cpp:162-318 BxiUserAppActor::operator() (one step of it) *)
Definition process_turn (p : process) : PM process :=
  let R := machine (pr_pid p) in
  match pr_phase p with
  | Preparing =>
      '(h, argv) ← user_app_prepare (H := R) (pr_actor p);
      _ ← barrier (H := R);
      mret (p <| pr_phase := Prepared h argv |>)
  | Prepared h argv =>
      _ ← user_app_enter (H := R) argv;
      mret (p <| pr_phase := Running h (main argv) |>)
  | Running h t =>
      match observe t with
      | RetF _ =>
          _ ← user_app_leave (H := R) h;
          _ ← barrier (H := R);
          mret (p <| pr_phase := Leaving |>)
      | TauF t' => mret (p <| pr_phase := Running h t' |>)
      | VisF c k => a ← serve (H0 := R) c; mret (p <| pr_phase := Running h (k a) |>)
      end
  | Leaving => _ ← BxiUserAppActor_delete (pr_actor p); mret (p <| pr_phase := Ended |>)
  | Ended => mret p
  end.

(** The same, with what the process then waits for: what it has asked SimGrid meanwhile. *)
Definition process_step (p : process) : PM process :=
  before ← gets sim_calls;
  p' ← process_turn p;
  after ← gets sim_calls;
  now ← get_clock;
  mret (p' <| pr_blocked := wait_in now (take (length after - length before) after) |>).

Definition process_enabled (w : World) (p : process) : bool :=
  is_ready p &&
  match pr_phase p with
  | Ended => false
  | Running _ t => match observe t with VisF c _ => can_proceed c w | _ => true end
  | _ => true
  end.

(** ** Cards *)

(** A message is in the queue. *)
Definition queue_ready (w : World) (q : handle) : bool :=
  match w_queues w !! q with
  | None => false
  | Some queue =>
      match q_mailbox queue with
      | Some mb => env_mailbox_ready w mb
      | None => negb (bool_decide (q_to_process queue = []))
      end
  end.

(** The date at which the end-to-end actor looks at its next message. *)
Definition e2e_date (w : World) (e2e : handle) : option double :=
  a ← w_e2es w !! e2e;
  queue ← w_queues w !! e2e_queue a;
  msg ← head (q_to_process queue);
  x ← w_msgs w !! msg;
  init ← ms_send_init_time x;
  Some (dadd init (retry_timeout (w_config w))).

Definition target_queue (w : World) (node : handle) (vn : bxi_vn) : option handle :=
  n ← w_nodes w !! node; nd_tx_queues n !! answer_vn vn.

Definition nic_enabled (w : World) (n : started_actor) : bool :=
  match n with
  | NicInitiator _ _ q => queue_ready w q
  | NicTarget node vn mb =>
      env_mailbox_ready w mb && bool_decide (is_Some (target_queue w node vn))
  | NicE2E (Some e2e) =>
      match e2e_date w e2e with Some d => negb (dlt (w_clock w) d) | None => false end
  | _ => false
  end.

Definition nic_turn (n : started_actor) : SM unit :=
  match n with
  | NicInitiator node vn q => initiator_turn node vn q
  | NicTarget node vn mb =>
      q ← gets (fun w => target_queue w node vn);
      q ← of_option q OutOfFuel;
      target_turn node q mb
  | NicE2E (Some e2e) => e2e_turn e2e
  | _ => mret tt
  end.

(** ** Steps *)

Definition set_process (i : nat) (p : process) (s : Sim) (c : cluster) : cluster :=
  c <| cl_sim := s |> <| cl_processes ::= <[i := p]> |>.

(** Everybody who is not gone waits at the barrier. *)
Definition barrier_full (c : cluster) : bool :=
  existsb is_at_barrier (cl_processes c) &&
  forallb (fun p => is_at_barrier p || has_ended p) (cl_processes c).

Definition cl_world (c : cluster) : World := sim_world (cl_sim c).

(** Nobody can run now. *)
Definition quiescent (c : cluster) : bool :=
  let w := cl_world c in
  negb (existsb (process_enabled w) (cl_processes c)) &&
  negb (existsb (is_due (w_clock w)) (cl_processes c)) &&
  negb (existsb (fun n => nic_enabled w n.2) (cl_nics c)) &&
  negb (barrier_full c).

(** The dates that someone waits for. *)
Definition dates (c : cluster) : list double :=
  omap (fun p => match pr_blocked p with AsleepUntil d => Some d | _ => None end)
    (cl_processes c)
  ++ omap (fun n => match n.2 with NicE2E (Some e) => e2e_date (cl_world c) e | _ => None end)
       (cl_nics c).
Definition earliest (l : list double) : option double :=
  foldr (fun d m => match m with Some d' => Some (if dlt d' d then d' else d) | None => Some d end)
    None l.

Definition at_date (date : double) (c : cluster) : cluster :=
  c <| cl_sim ::= over sim_world (fun w => w <| w_clock := date |>) |>.

Inductive cluster_step (c : cluster) : cluster -> Prop :=
| step_process i p p' s :
    cl_processes c !! i = Some p -> process_enabled (cl_world c) p = true ->
    process_step p (cl_sim c) = Ok p' s -> cluster_step c (set_process i p' s c)
| step_wake i p :
    cl_processes c !! i = Some p -> is_due (w_clock (cl_world c)) p = true ->
    cluster_step c (set_process i (resumed p) (cl_sim c) c)
| step_barrier :
    barrier_full c = true -> cluster_step c (c <| cl_processes ::= map resumed |>)
| step_card i n s :
    cl_nics c !! i = Some n -> nic_enabled (cl_world c) n.2 = true ->
    on_world (nic_turn n.2) (cl_sim c) = Ok tt s -> cluster_step c (c <| cl_sim := s |>)
| step_time date :
    quiescent c = true -> earliest (dates c) = Some date ->
    cluster_step c (at_date date c).

(** ** A scheduler *)

Definition rotate {A} (n : nat) (l : list A) : list A := drop n l ++ take n l.

(** The position of the first element that satisfies a test, from the position [start] on and then
    from the beginning. *)
Definition find_from {A} (test : A -> bool) (start : nat) (l : list A) : option (nat * A) :=
  List.find (fun x => test x.2) (rotate (start mod length l) (zip (seq 0 (length l)) l)).

(** What a scheduler prefers: the number says where to start in the list of the cards, and the
    processes run in their order; or the processes run as long as they can before the cards do. *)
Inductive preference := CardsFirst (start : nat) | ProcessesFirst.

Definition try_process (c : cluster) : option (Res Sim cluster) :=
  '(i, p) ← find_from (process_enabled (cl_world c)) 0 (cl_processes c);
  Some (match process_step p (cl_sim c) with
        | Ok p' s => Ok (set_process i p' s c) s | Fail e => Fail e end).
Definition try_card (start : nat) (c : cluster) : option (Res Sim cluster) :=
  '(_, n) ← find_from (fun n => nic_enabled (cl_world c) n.2) start (cl_nics c);
  Some (match on_world (nic_turn n.2) (cl_sim c) with
        | Ok _ s => Ok (c <| cl_sim := s |>) s | Fail e => Fail e end).
Definition try_wake (c : cluster) : option (Res Sim cluster) :=
  '(i, p) ← find_from (is_due (w_clock (cl_world c))) 0 (cl_processes c);
  Some (Ok (set_process i (resumed p) (cl_sim c) c) (cl_sim c)).
Definition try_barrier (c : cluster) : option (Res Sim cluster) :=
  if barrier_full c
  then Some (Ok (c <| cl_processes ::= map resumed |>) (cl_sim c)) else None.
Definition try_time (c : cluster) : option (Res Sim cluster) :=
  date ← earliest (dates c); Some (Ok (at_date date c) (cl_sim c)).

(** The first of the attempts that does something. *)
Fixpoint first_of {A B} (attempts : list (A -> option B)) (a : A) : option B :=
  match attempts with
  | [] => None
  | f :: attempts' => match f a with Some b => Some b | None => first_of attempts' a end
  end.

Definition next_step (prefer : preference) : cluster -> option (Res Sim cluster) :=
  first_of
    match prefer with
    | CardsFirst start => [try_card start; try_process; try_wake; try_barrier; try_time]
    | ProcessesFirst => [try_process; try_wake; try_barrier; try_card 0; try_time]
    end.

(** How an execution ends: all the processes have ended, an actor fails, nobody can run any more,
    or after the given number of steps. *)
Inductive outcome :=
| Finished (c : cluster)
| Failed (c : cluster) (e : failure)
| Deadlock (c : cluster)
| Unfinished (c : cluster).

(** One step after the other, as the schedule says. *)
Fixpoint run (fuel : nat) (schedule : nat -> preference) (c : cluster) : outcome :=
  match fuel with
  | O => Unfinished c
  | S fuel' =>
      if forallb has_ended (cl_processes c) then Finished c else
      match next_step (schedule fuel) c with
      | Some (Ok c' _) => run fuel' schedule c'
      | Some (Fail e) => Failed c e
      | None => Deadlock c
      end
  end.

(** ** The start *)

(** The actors of the deployment are constructed in the order of their PIDs. *)
Fixpoint construct_all (pid : Z) (l : list deployed) (c : cluster) : Res Sim cluster :=
  match l with
  | [] => Ok c (cl_sim c)
  | d :: l' =>
      match dp_args d with
      | None => construct_all (pid + 1) l' c
      | Some args =>
          match construct (H0 := machine pid) (dp_function d) args (cl_sim c) with
          | Ok (UserApp a) s =>
              construct_all (pid + 1) l'
                (c <| cl_sim := s |>
                   <| cl_processes ::= fun ps => ps ++ [mk_proc pid a Preparing Ready] |>)
          | Ok n s =>
              construct_all (pid + 1) l'
                (c <| cl_sim := s |> <| cl_nics ::= fun ns => ns ++ [(pid, n)] |>)
          | Fail e => Fail e
          end
      end
  end.

(** [maestro], the actor that runs [main], has the PID 0. *)
Definition boot (argv : list string) (s : Sim) : Res Sim cluster :=
  match start_up (H0 := machine 0) argv s with
  | Ok (Some _) s' =>
      construct_all 1 (reverse (deployed_actors (sim_calls s'))) (mk_cluster s' [] [])
  | Ok None _ => Fail (Abort "no deployment")
  | Fail e => Fail e
  end.

(** ** What an execution prints *)

Definition printed (stream : Z) (calls : list runtime_call) : string :=
  foldl (fun out c =>
    match c with
    | PrintFormat s text => if s =? stream then (out ++ text)%string else out
    | _ => out
    end) ""%string (reverse calls).
End Cluster.
