(* ===== verification/Registry.v ===== *)
(** The start of the simulation: names of hosts, nodes, ranks, names of private libraries. *)
From S2P Require Import Prelude OMap Portals World Logic Engine Config Node MainActor Runtime.
From S2P Require Import Bench UserApp.
From Stdlib Require Import Ascii Sorting.Sorted.

#[local] Arguments String.append : simpl nomatch.

(** ** Names of hosts *)

Lemma append_assoc (a b c : string) : ((a ++ b) ++ c = a ++ (b ++ c))%string.
Proof. induction a as [|? a IH]; simpl; [done|by rewrite IH]. Qed.

Lemma length_append (a b : string) :
  String.length (a ++ b) = (String.length a + String.length b)%nat.
Proof. induction a as [|? a IH]; simpl; [done|by rewrite IH]. Qed.

Lemma substring_prefix (s t : string) : String.substring 0 (String.length s) (s ++ t) = s.
Proof. induction s as [|? s IH]; simpl; [by destruct t|by rewrite IH]. Qed.

Lemma ends_with_append (s t : string) : ends_with (s ++ t) t = true.
Proof.
  induction s as [|c s IH]; simpl.
  - destruct t; cbn -[bool_decide]; by rewrite bool_decide_true.
  - rewrite IH. apply orb_true_r.
Qed.

Lemma ends_with_inv (s t : string) : ends_with s t = true -> exists p, s = (p ++ t)%string.
Proof.
  induction s as [|c s IH]; simpl; intros [Hd|Hr]%orb_true_iff.
  - apply bool_decide_eq_true in Hd as <-. by exists "".
  - done.
  - apply bool_decide_eq_true in Hd as <-. by exists "".
  - destruct (IH Hr) as [p ->]. by exists (String c p).
Qed.

(** The decimal digits of a number. *)
Lemma pretty_N_go_digits x s : all_chars isdigit s = true -> all_chars isdigit (pretty_N_go x s) = true.
Proof.
  revert s. induction (N.lt_wf_0 x) as [x _ IH]; intros s Hs.
  destruct (decide (x = 0)%N) as [->|Hx]; [by rewrite pretty_N_go_0|].
  rewrite pretty_N_go_step by lia. apply IH; [apply N.div_lt; lia|].
  simpl. rewrite Hs, andb_true_r. unfold pretty_N_char. by repeat case_match.
Qed.

Lemma pretty_digits z : 0 <= z -> all_chars isdigit (pretty z) = true.
Proof. destruct z; intros; [done|by apply pretty_N_go_digits|lia]. Qed.

Lemma pretty_N_go_nonempty x s : s <> "" -> pretty_N_go x s <> "".
Proof.
  revert s. induction (N.lt_wf_0 x) as [x _ IH]; intros s Hs.
  destruct (decide (x = 0)%N) as [->|Hx]; [by rewrite pretty_N_go_0|].
  rewrite pretty_N_go_step by lia. apply IH; [apply N.div_lt; lia|done].
Qed.

Lemma pretty_nonempty z : 0 <= z -> exists c s, pretty z = String c s.
Proof.
  intros Hz. destruct (pretty z) as [|c s] eqn:E; [|by eauto]. exfalso.
  destruct z as [|p|p]; [done| |lia]. revert E.
  change (pretty_N_go (N.pos p) "" <> ""). rewrite pretty_N_go_step by lia.
  by apply pretty_N_go_nonempty.
Qed.

Lemma all_chars_app p a b : all_chars p (a ++ b) = all_chars p a && all_chars p b.
Proof. induction a; simpl; [done|]. by rewrite IHa, andb_assoc. Qed.

Lemma match_cpu_digits s : all_chars isdigit s = true -> match_cpu s = None.
Proof.
  induction s as [|c s IH]; simpl; [done|]. intros [Hc Hs]%andb_true_iff. rewrite IH by done.
  destruct (Ascii.ascii_dec c "_") as [->|Hne]; [done|].
  unfold cpu_number. by destruct c as [[] [] [] [] [] [] [] []]; try done; contradict Hne.
Qed.

(** No end of line in a name. *)
Definition one_line (s : string) : bool :=
  all_chars (fun c => negb ((code c =? 10) || (code c =? 13))) s.

Lemma match_cpu_number slug n :
  one_line slug = true -> all_chars isdigit n = true -> n <> "" ->
  match_cpu (slug ++ "_CPU" ++ n) = Some slug.
Proof.
  intros Hl Hn Hne. induction slug as [|c slug IH]; simpl.
  - rewrite match_cpu_digits by done. simpl. destruct n as [|c n]; [done|]. simpl in Hn |- *.
    by rewrite Hn.
  - cbn in Hl. apply andb_true_iff in Hl as [Hc Hl]. change (one_line slug = true) in Hl.
    simpl in IH. rewrite IH by done. by apply negb_true_iff in Hc as ->.
Qed.

Lemma not_nic p slug n :
  all_chars isdigit n = true -> n <> "" -> (slug ++ "_CPU" ++ n)%string <> (p ++ "_NIC")%string.
Proof.
  intros Hn Hne E.
  assert (forall a b : string, a <> "" -> all_chars isdigit a = true ->
            (exists s, (s ++ a)%string = (b ++ "C")%string) -> False) as Hlast.
  { intros a b. revert a. induction b as [|c b IH]; intros a Ha Hd [s Hs].
    - destruct s as [|? [|]]; simpl in Hs; [by subst a|by destruct a; inversion Hs|by destruct a].
    - destruct s as [|c' s]; simpl in Hs.
      + subst a. simpl in Hd. apply andb_true_iff in Hd as [_ Hd].
        rewrite all_chars_app in Hd. by apply andb_true_iff in Hd as [_ [=]].
      + injection Hs as <- Hs. apply (IH a); eauto. }
  apply (Hlast n (p ++ "_NI")%string); [done..|]. exists (slug ++ "_CPU")%string.
  by rewrite !append_assoc.
Qed.

(** The names of the hosts of a machine lead to its slug and back: whatever its core, a process
    on [slug_CPUk] is a main actor of the machine [slug], and the actors of the card run on
    [slug_NIC]. *)
Theorem host_names_round_trip slug k :
  one_line slug = true -> 0 <= k ->
  parse_hostname (slug ++ "_CPU" ++ pretty k) = (slug, true, true) /\
  parse_hostname (slug ++ "_NIC") = (slug, false, false).
Proof.
  intros Hl Hk. destruct (pretty_nonempty k Hk) as (c & n & Hn).
  assert (pretty k <> "") by (by rewrite Hn). split; unfold parse_hostname.
  - destruct (ends_with _ _) eqn:E.
    + apply ends_with_inv in E as [p Hp].
      exfalso. by eapply not_nic, Hp; [apply pretty_digits|].
    + rewrite match_cpu_number; auto using pretty_digits.
  - rewrite ends_with_append. repeat f_equal.
    rewrite length_append, Nat.add_sub. apply substring_prefix.
Qed.

(** ** Nodes *)

Lemma on_world_Ok `{Runtime} {A} (c : SM A) s a s' :
  on_world c s = Ok a s' <-> exists w, c (sim_world s) = Ok a w /\ s' = s <| sim_world := w |>.
Proof.
  unfold on_world. destruct (c (sim_world s)) as [a' w|e]; split; [|by intros (? & [= <- <-] & ->)|done|].
  - intros [= <- <-]. eauto.
  - by intros (? & ? & _).
Qed.

Lemma update_Ok_inv {T} `{Store T} h (f : T -> T) w u w' :
  update h f w = Ok u w' ->
  exists x, objects w !! h = Some x /\ w' = on_objects <[h := f x]> w.
Proof. unfold update. case_match; [|done]. intros [= _ <-]. eauto. Qed.

(** The NID of each node, and where the next object goes. *)
Definition node_ids (w : World) : gmap N Z := nd_nid <$> w_nodes w.

(** What the registry of nodes promises: sorted keys, each the NID of its node. *)
Record registry_wf (s : Sim) : Prop := {
  rw_sorted : StronglySorted Z.lt (sim_nodes s).*1;
  rw_nid : forall nid h, omap_find nid (sim_nodes s) = Some h ->
           node_ids (sim_world s) !! h = Some nid;
  rw_next : forall h nid, node_ids (sim_world s) !! h = Some nid -> (h < w_next (sim_world s))%N }.

(** The changes that do not concern it. *)
Record registry_kept (s s' : Sim) : Prop := {
  rk_nodes : sim_nodes s' = sim_nodes s;
  rk_next : (w_next (sim_world s) <= w_next (sim_world s'))%N;
  rk_ids : node_ids (sim_world s') = node_ids (sim_world s) }.

(** The registry only grows. *)
Definition registry_grows (s s' : Sim) : Prop :=
  registry_wf s ->
  registry_wf s' /\
  forall nid h, omap_find nid (sim_nodes s) = Some h -> omap_find nid (sim_nodes s') = Some h.

#[export] Instance registry_grows_preorder : PreOrder registry_grows.
Proof.
  split; [by intros s Hs|]. intros s1 s2 s3 H12 H23 H1.
  destruct (H12 H1) as [H2 Hg2]. destruct (H23 H2) as [H3 Hg3]. eauto.
Qed.

Lemma registry_kept_grows s s' : registry_kept s s' -> registry_grows s s'.
Proof.
  intros [Hn Hx Hi] []. split; [|by rewrite Hn]. split; rewrite ?Hn, ?Hi; [done|done|].
  intros h nid Hl%rw_next0. lia.
Qed.

Section Nodes.
Context `{Runtime}.

Lemma update_node_kept h f s u s' :
  (forall n, nd_nid (f n) = nd_nid n) ->
  on_world (update (T := BxiNode) h f) s = Ok u s' -> registry_kept s s'.
Proof.
  intros Hf (w & (n & Hn & ->)%update_Ok_inv & ->)%on_world_Ok.
  split; [done|simpl; lia|]. unfold node_ids. simpl. rewrite fmap_insert, Hf.
  apply insert_id. rewrite lookup_fmap. simpl in Hn. by rewrite Hn.
Qed.

Lemma BxiNode_new_ids nid m n w h w' :
  BxiNode_new nid m n w = Ok h w' ->
  h = w_next w /\ w_next w' = N.succ (w_next w) /\ node_ids w' = <[h := nid]> (node_ids w).
Proof. intros [= <- <-]. unfold node_ids. simpl. by rewrite fmap_insert. Qed.

(** [get_node] gives the node of a NID, for ever. *)
Lemma get_node_spec nid s h s' :
  get_node nid s = Ok h s' ->
  registry_grows s s' /\ (registry_wf s -> omap_find nid (sim_nodes s') = Some h).
Proof.
  unfold get_node. intros Hr. inv_run. destruct (omap_find nid (sim_nodes s)) as [node|] eqn:E.
  { inv_run. by split. }
  inv_run. apply on_world_Ok in Hr0 as (w & (-> & Hw & Hids)%BxiNode_new_ids & ->).
  split; intros [Hs Hi Hx]; simpl; unfold omap_emplace; rewrite E;
    [|rewrite omap_find_put by done; by rewrite decide_True].
  assert (node_ids (sim_world s) !! w_next (sim_world s) = None) as Hnew.
  { destruct (_ !! _) eqn:E'; [|done]. apply Hx in E'. lia. }
  split.
  - split; simpl; rewrite ?E, ?Hids.
    + by apply omap_put_sorted.
    + intros nid' h'. rewrite omap_find_put by done. case_decide as Hd.
      { intros [= <-]. rewrite Hd. by rewrite lookup_insert_eq. }
      intros Hf%Hi. rewrite lookup_insert_ne; [done|]. intros <-. congruence.
    + intros h' nid'. rewrite Hw, lookup_insert. case_decide; [intros _; lia|].
      intros Hl%Hx. lia.
  - intros nid' h' Hf. rewrite omap_find_put by done. case_decide; [congruence|done].
Qed.

(** The NID a slug leads to does not depend on the state. *)
Lemma find_nid_stateless slug s nid s1 :
  find_nid slug s = Ok nid s1 -> s1 = s /\ forall s', find_nid slug s' = Ok nid s'.
Proof.
  unfold find_nid, by_name, atoi, ato_integer, guess_nid. intros Hr. inv_run.
  rewrite Hr0. cbv [mbind M_bind of_option mret M_ret] in *. case_match.
  - by destruct (in_signed _ _); simplify_eq/=.
  - destruct (digits _ _ _ _) as [[v n] r]. by case_match; simplify_eq/=.
Qed.

Lemma by_name_state name s h s' : by_name name s = Ok h s' -> s' = s.
Proof. unfold by_name. intros Hr. by inv_run. Qed.

(** Names are looked up without a change, and a node keeps its NID. *)
Ltac kept_steps :=
  repeat match goal with
  | Hr : by_name _ _ = Ok _ _ |- _ => apply by_name_state in Hr as ->
  | Hr : on_world (update _ _) _ = Ok _ _ |- _ =>
      apply update_node_kept in Hr; [|done]
  end.

#[local] Instance registry_kept_refl : Reflexive registry_kept.
Proof. intros s. split; [done|lia|done]. Qed.
#[local] Instance registry_kept_trans : Transitive registry_kept.
Proof. intros s1 s2 s3 [] []. split; [congruence|lia|congruence]. Qed.

Lemma main_host_kept (main cores : bool) slug node s u s' :
  when main
    (h ← by_name (if cores then (slug ++ "_CPU0")%string else slug);
     on_world (update (T := BxiNode) node (fun n => n <| nd_main_host := h |>))) s = Ok u s' ->
  registry_kept s s'.
Proof.
  destruct main; simpl; intros Hr; inv_run; [|done].
  by kept_steps.
Qed.

Lemma BxiActor_new_spec s node slug s' :
  BxiActor_new s = Ok (node, slug) s' ->
  registry_grows s s' /\
  exists nid, find_nid slug s = Ok nid s /\
    (registry_wf s -> omap_find nid (sim_nodes s') = Some node).
Proof.
  unfold BxiActor_new. intros Hr. inv_run.
  destruct (parse_hostname _) as [[slug' main] cores]. inv_run. injection Hr as -> -> ->.
  pose proof (find_nid_stateless _ _ _ _ Hr0) as [-> _].
  apply get_node_spec in Hr1 as [Hg Hf].
  assert (registry_kept s1 s') as Hk.
  { etrans; [by eapply main_host_kept|]. by kept_steps. }
  split; [etrans; [done|by apply registry_kept_grows]|].
  exists a. split; [done|]. intros Hwf. rewrite (rk_nodes _ _ Hk). auto.
Qed.

Lemma BxiMainActor_new_kept node a b c d e s h s' :
  on_world (BxiMainActor_new node a b c d e) s = Ok h s' -> registry_kept s s'.
Proof.
  intros (w & Hr & ->)%on_world_Ok. unfold BxiMainActor_new, S4BXI_GLOBAL_CONFIG in Hr. inv_run.
  apply update_Ok_inv in Hr1 as (n & Hn & ->). injection Hr as <- <-.
  split; [done|simpl; lia|]. unfold node_ids. simpl. rewrite fmap_insert. simpl.
  apply insert_id. rewrite lookup_fmap. simpl in Hn. by rewrite Hn.
Qed.

(** What SimGrid does at a call respects the nodes. *)
Context (runtime_kept : forall c s, registry_wf s -> registry_kept s (rt_step c s)).

Lemma call_grows c s u s' : call c s = Ok u s' -> registry_grows s s'.
Proof.
  intros [= _ <-]. transitivity (s <| sim_calls ::= cons c |>).
  - apply registry_kept_grows. split; [done|simpl; lia|done].
  - intros Hs. by apply registry_kept_grows, Hs; auto.
Qed.

Lemma BxiUserAppActor_new_grows args s h s' :
  BxiUserAppActor_new args s = Ok h s' -> registry_grows s s'.
Proof.
  unfold BxiUserAppActor_new, register_main_actor. intros Hr. inv_run.
  destruct a as [node slug]. inv_run.
  repeat match goal with
  | Hr : BxiActor_new _ = Ok _ _ |- _ => apply BxiActor_new_spec in Hr as [Hr _]; rewrite Hr; clear Hr
  | Hr : on_world (load _) _ = Ok _ _ |- _ =>
      apply on_world_Ok in Hr as (? & [-> ?]%load_inv & ->)
  | Hr : on_world (BxiMainActor_new _ _ _ _ _ _) _ = Ok _ _ |- _ =>
      apply BxiMainActor_new_kept in Hr
  end.
  match goal with Hd : when _ _ ?s1 = Ok _ _ |- _ =>
    assert (registry_kept s0 s1) as Hk by (destruct Hr4; by split);
    transitivity s1; [by apply registry_kept_grows|]; revert Hd
  end.
  case (has_truthy _); simpl; [apply call_grows|]. by intros [= _ <-].
Qed.

(** The start of the simulation: actors are created, other things happen that do not concern the
    nodes. *)
Inductive start_step : Sim -> Sim -> Prop :=
| start_actor s r s' : BxiActor_new s = Ok r s' -> start_step s s'
| start_user args s r s' : BxiUserAppActor_new args s = Ok r s' -> start_step s s'
| start_other s s' : registry_kept s s' -> start_step s s'.

Lemma start_step_grows s s' : start_step s s' -> registry_grows s s'.
Proof.
  intros [? [] ? Hr|? ? ? ? Hr|? ? Hk].
  - by apply BxiActor_new_spec in Hr as [? _].
  - by eapply BxiUserAppActor_new_grows.
  - by apply registry_kept_grows.
Qed.

Lemma start_steps_grow s s' : rtc start_step s s' -> registry_grows s s'.
Proof. induction 1; [done|]. etrans; [by apply start_step_grows|done]. Qed.

(** C28. Two actors created at any two moments of the start of the simulation are attached to the
    same node exactly when their hosts have the same NID: the processes of a machine and the
    actors of its card share one node, and machines with distinct NIDs never do. *)
Theorem nodes_are_shared s node slug s1 s2 node' slug' s3 :
  registry_wf s -> BxiActor_new s = Ok (node, slug) s1 -> rtc start_step s1 s2 ->
  BxiActor_new s2 = Ok (node', slug') s3 ->
  exists nid nid', find_nid slug s = Ok nid s /\ find_nid slug' s = Ok nid' s /\
    (node = node' <-> nid = nid').
Proof.
  intros Hwf (Hg1 & nid & Hn & Hf)%BxiActor_new_spec Hs (Hg2 & nid' & Hn' & Hf')%BxiActor_new_spec.
  destruct (Hg1 Hwf) as [Hwf1 _]. destruct (start_steps_grow _ _ Hs Hwf1) as [Hwf2 Hk].
  destruct (Hg2 Hwf2) as [[_ Hids _] Hk2].
  exists nid, nid'. split_and!; [done|by apply (find_nid_stateless _ _ _ _ Hn')|].
  specialize (Hf Hwf). specialize (Hf' Hwf2). apply Hk, Hk2 in Hf.
  split; [|intros <-; congruence]. intros <-. apply Hids in Hf, Hf'. congruence.
Qed.
End Nodes.

(** ** Ranks on a machine *)

Section Ranks.
Context `{Runtime}.

(** The process [h] has the rank [r] on the machine [slug]. *)
Definition ranked (s : Sim) (slug : string) (h : handle) (r : Z) : Prop :=
  exists u, sim_users s !! h = Some u /\ ua_slug u = slug /\ ua_my_local_rank u = Some r.

(** How many ranks were given on a machine. *)
Definition ranks_given (s : Sim) (slug : string) : Z :=
  match sim_local_ranks s !! slug with Some r => r + 1 | None => 0 end.

(** Processes get their ranks once; other things happen that do not concern the ranks. *)
Inductive rank_step : Sim -> Sim -> Prop :=
| rank_assign actor u s s' :
    sim_users s !! actor = Some u -> ua_my_local_rank u = None ->
    ranks_given s (ua_slug u) < 2 ^ 32 ->
    assign_ranks actor s = Ok tt s' -> rank_step s s'
| rank_other s s' :
    sim_local_ranks s' = sim_local_ranks s ->
    (forall slug h r, ranked s' slug h r <-> ranked s slug h r) -> rank_step s s'.

Definition ranks_consecutive (s : Sim) : Prop := forall slug,
  0 <= ranks_given s slug /\
  (forall h r, ranked s slug h r -> 0 <= r < ranks_given s slug) /\
  (forall r, 0 <= r < ranks_given s slug -> exists h, ranked s slug h r) /\
  (forall h h' r, ranked s slug h r -> ranked s slug h' r -> h = h').

Lemma update_user_Ok h f s u s' :
  update_user h f s = Ok u s' <->
  exists x, sim_users s !! h = Some x /\ s' = s <| sim_users ::= <[h := f x]> |>.
Proof.
  unfold update_user, user. split.
  - intros Hr. inv_run. eauto.
  - intros (x & Hx & ->). destruct u. cbv [mbind M_bind gets of_option mret M_ret modify].
    by rewrite Hx.
Qed.

Lemma stoul_state v s r s' : stoul v s = Ok r s' -> s' = s.
Proof.
  unfold stoul. destruct (sign _) as [neg t]. destruct (digits _ _ _ _) as [[n k] rest].
  repeat case_match; intros Hr; by inv_run.
Qed.

Lemma assign_ranks_spec actor u s s' :
  sim_users s !! actor = Some u -> 0 <= ranks_given s (ua_slug u) < 2 ^ 32 ->
  assign_ranks actor s = Ok tt s' ->
  exists u', ua_slug u' = ua_slug u /\ ua_my_local_rank u' = Some (ranks_given s (ua_slug u)) /\
    sim_users s' = <[actor := u']> (sim_users s) /\
    sim_local_ranks s' = <[ua_slug u := ranks_given s (ua_slug u)]> (sim_local_ranks s).
Proof.
  unfold assign_ranks, user, ranks_given. intros Hu Hn Hr. inv_run.
  repeat match goal with
  | Hr : stoul _ _ = Ok _ _ |- _ => apply stoul_state in Hr as ->
  | Hr : update_user _ _ _ = Ok _ _ |- _ => apply update_user_Ok in Hr as (? & ? & ->)
  end.
  simplify_eq/=. rewrite lookup_insert_eq in *. simplify_eq/=.
  replace (match sim_local_ranks s !! ua_slug u with None => 0 | Some r => u32 (r + 1) end)
    with (match sim_local_ranks s !! ua_slug u with Some r => r + 1 | None => 0 end)
    by (case_match; [rewrite wrap_small|]; (done || lia)).
  eexists. rewrite insert_insert_eq. split_and!; [| |reflexivity|reflexivity]; done.
Qed.

(** What a process that gets its ranks changes. *)
Lemma assign_ranks_ranked actor u s s' :
  sim_users s !! actor = Some u -> ua_my_local_rank u = None ->
  0 <= ranks_given s (ua_slug u) < 2 ^ 32 -> assign_ranks actor s = Ok tt s' ->
  (forall slug, ranks_given s' slug =
     ranks_given s slug + (if decide (slug = ua_slug u) then 1 else 0)) /\
  (forall slug h r, ranked s' slug h r <->
     (h = actor /\ slug = ua_slug u /\ r = ranks_given s slug) \/ (h <> actor /\ ranked s slug h r)).
Proof.
  intros Hu Hnew Hn Hr. destruct (assign_ranks_spec _ _ _ _ Hu Hn Hr) as (u' & Hslug & Hrank & Hus & Hl).
  split.
  - intros slug. unfold ranks_given at 1. rewrite Hl, lookup_insert.
    case_decide; case_decide; subst; try done. unfold ranks_given. lia.
  - intros slug h r. unfold ranked at 1. rewrite Hus, lookup_insert. case_decide as Hd; split.
    + intros (? & [= <-] & <- & Hx). left. rewrite Hslug. by simplify_eq.
    + intros [(_ & -> & ->)|[? _]]; [by exists u'|done].
    + intros (x & ?). right. split; [done|by exists x].
    + intros [(? & _)|[_ Hx]]; done.
Qed.

(** C31. Whatever the order in which the processes of a machine start, and the machines are
    interleaved, the [n] processes that have their local rank on it have the ranks 0 to [n - 1],
    each rank one process. *)
Theorem local_ranks_consecutive s0 s :
  sim_local_ranks s0 = ∅ -> (forall slug h r, ~ ranked s0 slug h r) ->
  rtc rank_step s0 s -> ranks_consecutive s.
Proof.
  intros H0 Hno Hs.
  assert (ranks_consecutive s0) as Hc.
  { intros slug. unfold ranks_given. rewrite H0, lookup_empty.
    split_and!; [done|by intros ? ? ?%Hno|lia|by intros ? ? ? ?%Hno]. }
  clear H0 Hno. induction Hs as [|s0 s1 s Hstep _ IH]; [done|]. apply IH. clear IH s.
  destruct Hstep as [actor u s s' Hu Hnew Hlt Hr|s s' Hl Hrk].
  - destruct (assign_ranks_ranked actor u s s') as [Hg Hrk]; [done..|by split; [apply Hc|]|done|].
    assert (forall slug r, ~ ranked s slug actor r) as Hfresh by (by intros ? ? (? & ? & _ & ?); simplify_eq).
    intros slug. specialize (Hc slug) as (Hn & Hrange & Hall & Huniq).
    rewrite Hg. case_decide as Hd; setoid_rewrite Hrk; split_and!.
    + lia.
    + intros h r [(_ & _ & ->)|[_ Hh%Hrange]]; lia.
    + intros r Hr'. destruct (decide (r = ranks_given s slug)) as [->|Hne]; [by eauto|].
      destruct (Hall r ltac:(lia)) as [h Hh]. exists h. right. split; [|done].
      intros ->. by eapply Hfresh.
    + intros h h' r [(-> & _ & ->)|[_ H1]] [(-> & _ & Heq)|[_ H2]]; [done| | |by eauto].
      * apply Hrange in H2. lia.
      * apply Hrange in H1. lia.
    + lia.
    + intros h r [(_ & ? & _)|[_ Hh%Hrange]]; [done|lia].
    + intros r Hr'. destruct (Hall r ltac:(lia)) as [h Hh]. exists h. right. split; [|done].
      intros ->. by eapply Hfresh.
    + intros h h' r [(_ & ? & _)|[_ H1]] [(_ & ? & _)|[_ H2]]; try done. by eauto.
  - intros slug. unfold ranks_given. rewrite Hl. setoid_rewrite Hrk. apply Hc.
Qed.
End Ranks.

(** ** Names of the private libraries *)

Definition no_digit : string -> bool := all_chars (fun c => negb (isdigit c)).

Lemma substring_length s n : (n <= String.length s)%nat -> String.length (String.substring 0 n s) = n.
Proof.
  revert n. induction s as [|c s IH]; intros [|n]; simpl; try done; [lia|].
  intros Hn. rewrite IH; lia.
Qed.

Lemma substring_all_chars p s n : all_chars p s = true -> all_chars p (String.substring 0 n s) = true.
Proof.
  revert n. induction s as [|c s IH]; intros [|n]; simpl; try done.
  intros [-> Hs]%andb_true_iff. by apply IH.
Qed.

Lemma substring_tail_length s n :
  (n <= String.length s)%nat ->
  String.length (String.substring n (String.length s - n) s) = (String.length s - n)%nat.
Proof.
  revert n. induction s as [|c s IH]; intros [|n]; simpl; try done; intros Hn.
  - f_equal. by apply substring_length.
  - apply IH. lia.
Qed.

Lemma append_inj_r (a b t : string) : (a ++ t = b ++ t)%string -> a = b.
Proof.
  revert b. induction a as [|c a IH]; intros [|c' b] E; simpl in E; [done| | |].
  - apply (f_equal String.length) in E. simpl in E. rewrite length_append in E. lia.
  - apply (f_equal String.length) in E. simpl in E. rewrite length_append in E. lia.
  - injection E as <- E. by rewrite (IH _ E).
Qed.

(** Letters then digits: the digits are known. *)
Lemma letters_then_digits a b n m :
  no_digit a = true -> no_digit b = true ->
  all_chars isdigit n = true -> all_chars isdigit m = true ->
  (a ++ n = b ++ m)%string -> n = m.
Proof.
  revert b. induction a as [|c a IH]; intros [|c' b] Ha Hb Hn Hm E; simpl in *; [done| | |].
  - subst n. simpl in Hn. apply andb_true_iff in Hn as [Hc _].
    apply andb_true_iff in Hb as [Hc' _]. by rewrite Hc in Hc'.
  - subst m. simpl in Hm. apply andb_true_iff in Hm as [Hc _].
    apply andb_true_iff in Ha as [Hc' _]. by rewrite Hc in Hc'.
  - injection E as <- E. apply andb_true_iff in Ha as [_ Ha], Hb as [_ Hb]. eauto.
Qed.

(** The identifier of a simulation is made of letters. *)
Lemma random_letter n c : String.get n random_characters = Some c -> isdigit c = false.
Proof.
  assert (forall s, no_digit s = true -> String.get n s = Some c -> isdigit c = false) as Hl.
  { intros s. revert n. induction s as [|c' s IH]; intros [|n]; simpl; try done;
      intros [Hc Hs]%andb_true_iff; [|by apply IH].
    intros [= <-]. by apply negb_true_iff. }
  by apply Hl.
Qed.

Lemma draw_rand_id_letters `{Runtime} n id s id' s' :
  draw_rand_id n id s = Ok id' s' -> String.length id' = String.length id /\ no_digit id' = true.
Proof.
  revert n s id' s'. induction id as [|c id IH]; intros n s id' s' Hr;
    cbn -[String.get random_characters] in Hr; inv_run; [done|].
  match goal with Hd : draw_rand_id _ _ _ = _, Hg : String.get _ _ = _ |- _ =>
    destruct (IH _ _ _ _ Hd) as [Hlen Hno]; apply random_letter in Hg end.
  cbn. rewrite Hlen. split; [done|].
  apply andb_true_iff. split; [by apply negb_true_iff|done].
Qed.

(** The copy of a library made for a process has a name as long as the library's (the name is
    replaced inside binary files), and two processes of a simulation never have the same, as long
    as the ranks have no more digits than the seven characters, or less, that are replaced. *)
Theorem private_names_distinct `{Runtime} n id s rand_id s' libname r1 r2 :
  draw_rand_id n id s = Ok rand_id s' -> (7 <= String.length id)%nat -> 0 <= r1 -> 0 <= r2 ->
  (String.length (pretty r1) <= Nat.min 7 (String.length libname))%nat ->
  (String.length (pretty r2) <= Nat.min 7 (String.length libname))%nat ->
  String.length (target_lib rand_id r1 libname) = String.length libname /\
  (target_lib rand_id r1 libname = target_lib rand_id r2 libname -> r1 = r2).
Proof.
  intros [Hlen Hd]%draw_rand_id_letters Hid H1 H2 Hr1 Hr2. unfold target_lib, substr.
  replace (if (String.length libname <? 7)%nat then String.length libname else 7%nat)
    with (Nat.min 7 (String.length libname)) by (destruct (Nat.ltb_spec (String.length libname) 7); lia).
  rewrite (proj2 (Nat.leb_le _ _) Hr1), (proj2 (Nat.leb_le _ _) Hr2). split.
  - rewrite !length_append, substring_length by lia. rewrite substring_tail_length by lia. lia.
  - rewrite <- !append_assoc. intros E%append_inj_r.
    apply letters_then_digits in E; auto using pretty_digits, substring_all_chars.
    + by apply (inj pretty) in E.
    + by apply substring_all_chars.
    + by apply substring_all_chars.
Qed.
