(* ===== verification/MainSpec.v ===== *)
(** Theorems on the start of a simulation ([Main.v]): the ranks of the user processes, the actors
    of a deployment, the search of the private libraries. *)
From S2P Require Import Prelude OMap Portals World Logic Engine Config Runtime Bench UserApp Main.


(** ** Default ranks *)

Section Ranks.
Context `{Env} `{Runtime}.
Implicit Types s : Sim.

(** What SimGrid says of actors and of their properties: setting a property changes no name, it is
    read back, and the others keep their value. *)
Hypothesis set_property : forall pid id v s s',
  call (SetActorProperty pid id v) s = Ok tt s' ->
  (forall a, rt_actor_name s' a = rt_actor_name s a) /\
  (forall a i, rt_actor_property s' a i
     = if decide (a = pid /\ i = id) then Some v else rt_actor_property s a i).

(** The number of user processes among some actors. *)
Definition user_apps s (actors : list Z) : Z :=
  Z.of_nat (length (filter (fun a => rt_actor_name s a = "user_app"%string) actors)).

Lemma set_property_run pid id v s : exists s',
  call (SetActorProperty pid id v) s = Ok tt s' /\
  (forall a, rt_actor_name s' a = rt_actor_name s a) /\
  (forall a i, rt_actor_property s' a i
     = if decide (a = pid /\ i = id) then Some v else rt_actor_property s a i).
Proof.
  eexists. split; [reflexivity|]. by apply (set_property pid id v s).
Qed.

(** What one turn of the loop leaves: two properties of the actor [a]. *)
Definition ranked (a : Z) (rank : string) s (b : Z) (i : string) : option string :=
  if decide (b = a /\ i = "instance_id"%string) then Some "smpirun"%string
  else if decide (b = a /\ i = "rank"%string) then Some rank else rt_actor_property s b i.

Lemma rank_one a (n : Z) s : exists s',
  (_ ← call (SetActorProperty a "instance_id" "smpirun");
   prop ← gets (fun s => rt_actor_property s a "rank");
   match prop with
   | Some _ => mret tt
   | None => call (SetActorProperty a "rank" (pretty n)) end) s = Ok tt s' /\
  (forall b, rt_actor_name s' b = rt_actor_name s b) /\
  (forall b i, rt_actor_property s' b i
     = ranked a (default (pretty n) (rt_actor_property s a "rank")) s b i).
Proof.
  destruct (set_property_run a "instance_id" "smpirun" s) as (s1 & H1 & Hn & Hp).
  assert (rt_actor_property s1 a "rank" = rt_actor_property s a "rank") as Ha
    by (rewrite Hp; case_decide; naive_solver).
  rewrite (bind_run _ _ _ _ _ H1). rewrite (bind_run _ _ _ _ _ (eq_refl : gets _ s1 = _)), Ha.
  destruct (rt_actor_property s a "rank") as [r|] eqn:E.
  - exists s1. split; [done|]. split; [done|]. intros b i. rewrite Hp. unfold ranked.
    repeat case_decide; naive_solver.
  - destruct (set_property_run a "rank" (pretty n) s1) as (s2 & H2 & Hn2 & Hp2).
    exists s2. split; [done|]. split; [intros; by rewrite Hn2, Hn|]. intros b i.
    rewrite Hp2, Hp. unfold ranked. repeat case_decide; naive_solver.
Qed.

Lemma user_apps_cons s a l :
  user_apps s (a :: l)
  = (if decide (rt_actor_name s a = "user_app"%string) then 1 else 0) + user_apps s l.
Proof. unfold user_apps. rewrite filter_cons. case_decide; cbn [length]; lia. Qed.

Lemma user_apps_ext s s' l :
  (forall b, rt_actor_name s' b = rt_actor_name s b) -> user_apps s' l = user_apps s l.
Proof.
  intros Hn. unfold user_apps. do 2 f_equal. apply list_filter_iff. intros. by rewrite Hn.
Qed.

Lemma ranked_other a r s b i :
  b <> a \/ (i <> "instance_id" /\ i <> "rank")%string -> ranked a r s b i = rt_actor_property s b i.
Proof. intros Hb. unfold ranked. rewrite !decide_False; [done|naive_solver..]. Qed.

End Ranks.

(** ** The actors of a deployment *)

Section Deployment.
Context `{Env} `{Runtime}.
Implicit Types (s : Sim) (node : xml_node).

(** What an element of the file describes. *)
Definition is_actor node : bool := bool_decide (xml_name node = "actor"%string).
Definition host_of node : option Z := rt_by_name (attribute node "host").
Definition described node (host : Z) : deployed :=
  mk_deployed (attribute node "function") host
    (map (fun p => (attribute p "id", attribute p "value")) (children node "prop"))
    (if known_function (attribute node "function")
     then Some ("actor"%string :: map (fun a => attribute a "value") (children node "argument"))
     else None).
Definition described_actors (l : list xml_node) : option (list deployed) :=
  mapM (fun node => described node <$> host_of node) (filter is_actor l).

(** SimGrid keeps the record of the calls, and the configuration does not change. *)
Hypothesis step_calls : forall c s, sim_calls (rt_step c s) = sim_calls s.

Lemma call_calls c s : exists s', call c s = Ok tt s' /\ sim_calls s' = c :: sim_calls s.
Proof. eexists. split; [reflexivity|]. by rewrite step_calls. Qed.

Lemma properties_deployed (props : list xml_node) f h ps args l s :
  deployed_actors (sim_calls s) = mk_deployed f h ps args :: l -> exists s',
  for_each props (fun p => call (ActorProperty (attribute p "id") (attribute p "value"))) s
    = Ok tt s' /\
  deployed_actors (sim_calls s')
    = mk_deployed f h (ps ++ map (fun p => (attribute p "id", attribute p "value")) props) args :: l.
Proof.
  revert ps s. induction props as [|p props IH]; intros ps s Hs.
  - exists s. by rewrite app_nil_r.
  - destruct (call_calls (ActorProperty (attribute p "id") (attribute p "value")) s)
      as (s1 & H1 & Hc).
    destruct (IH (ps ++ [(attribute p "id", attribute p "value")]) s1) as (s2 & H2 & Hd).
    + rewrite Hc. cbn. fold (deployed_actors (sim_calls s)). by rewrite Hs.
    + exists s2. cbn [for_each]. rewrite (bind_run _ _ _ _ _ H1). split; [done|].
      by rewrite Hd, <- app_assoc.
Qed.

Lemma deploy_node_run node s :
  match (if is_actor node then host_of node else Some 0) with
  | None => deploy_node node s = Fail (Exception "std::invalid_argument")
  | Some h => exists s', deploy_node node s = Ok tt s' /\
      deployed_actors (sim_calls s')
      = (if is_actor node then [described node h] else []) ++ deployed_actors (sim_calls s)
  end.
Proof.
  unfold deploy_node, is_actor, host_of, by_name.
  case_bool_decide as Hn; cbn [negb]; cbv zeta; rewrite ?Hn.
  - destruct (rt_by_name (attribute node "host")) as [h|] eqn:Hh; [|reflexivity].
    rewrite (bind_run (of_option (Some h) _) _ s h s eq_refl).
    destruct (call_calls (ActorInit (attribute node "function") h) s) as (s1 & H1 & Hc1).
    rewrite (bind_run _ _ _ _ _ H1).
    destruct (properties_deployed (children node "prop") (attribute node "function") h [] None
                (deployed_actors (sim_calls s)) s1) as (s2 & H2 & Hc2); [by rewrite Hc1|].
    rewrite (bind_run _ _ _ _ _ H2).
    set (c := if known_function _ then _ else _).
    destruct (call_calls c s2) as (s3 & H3 & Hc3). exists s3. split; [done|].
    rewrite Hc3. cbn [deployed_actors foldr]. fold (deployed_actors (sim_calls s2)). rewrite Hc2.
    unfold c, described. by destruct (known_function _).
  - destruct (call_calls (Message ("Unexpected tag in XML deployment: " ++ xml_name node
                                   ++ " (expected actor)")) s) as (s1 & H1 & Hc).
    exists s1. split; [done|]. by rewrite Hc.
Qed.

Lemma deploy_nodes_run (l : list xml_node) s :
  match described_actors l with
  | None => for_each l deploy_node s = Fail (Exception "std::invalid_argument")
  | Some actors => exists s', for_each l deploy_node s = Ok tt s' /\
      deployed_actors (sim_calls s') = reverse actors ++ deployed_actors (sim_calls s)
  end.
Proof.
  revert s. induction l as [|node l IH]; intros s; [by exists s|].
  unfold described_actors. rewrite filter_cons. pose proof (deploy_node_run node s) as Hn.
  destruct (is_actor node); cbn [Is_true].
  - rewrite decide_True by exact I. cbn [mapM].
    destruct (host_of node) as [h|]; cbn [fmap option_fmap option_map mbind option_bind].
    + destruct Hn as (s1 & H1 & Hd). specialize (IH s1). unfold described_actors in IH.
      destruct (mapM _ _) as [actors|]; cbn [for_each]; rewrite (bind_run _ _ _ _ _ H1); [|done].
      destruct IH as (s2 & H2 & Hd2). exists s2. split; [done|].
      by rewrite Hd2, Hd, reverse_cons, <- app_assoc.
    + cbn [for_each]. cbv [mbind M_bind]. by rewrite Hn.
  - rewrite decide_False by (intros []). destruct Hn as (s1 & H1 & Hd). specialize (IH s1).
    unfold described_actors in IH. cbn [for_each]. rewrite (bind_run _ _ _ _ _ H1).
    destruct (mapM _ _); [|done]. by rewrite Hd in IH.
Qed.

(** C17. A deployment file read with pugixml is deployed whole or refused: when every [actor]
    element names a host of the platform, SimGrid gets one actor per [actor] element, in the order
    of the file, on that host, with its properties, started with its arguments when its function is
    one of the four known ones and never started otherwise; as soon as a host is unknown the start
    stops with SimGrid's exception; a file that cannot be parsed starts nothing. *)
Theorem deployment_deployed file s :
  use_pugixml (w_config (sim_world s)) = true ->
  match rt_xml file with
  | None => exists s', load_deployment file s = Ok false s' /\
      deployed_actors (sim_calls s') = deployed_actors (sim_calls s)
  | Some doc =>
      match described_actors (xml_children (child doc "platform")) with
      | None => load_deployment file s = Fail (Exception "std::invalid_argument")
      | Some actors => exists s', load_deployment file s = Ok true s' /\
          deployed_actors (sim_calls s') = reverse actors ++ deployed_actors (sim_calls s)
      end
  end.
Proof.
  intros Hp. unfold load_deployment.
  assert (config_field use_pugixml s = Ok true s) as Hc.
  { unfold config_field, S4BXI_GLOBAL_CONFIG, on_world, gets. rewrite Hp. by destruct s. }
  rewrite (bind_run _ _ _ _ _ Hc). cbn [negb]. destruct (rt_xml file) as [doc|].
  - pose proof (deploy_nodes_run (xml_children (child doc "platform")) s) as Hd.
    destruct (described_actors _).
    + destruct Hd as (s' & Hr & Hd). exists s'. by rewrite (bind_run _ _ _ _ _ Hr).
    + cbv [mbind M_bind]. by rewrite Hd.
  - destruct (call_calls (Message "Error during parsing of XML deploy") s) as (s' & Hr & Hc').
    exists s'. rewrite (bind_run _ _ _ _ _ Hr), Hc'. done.
Qed.
End Deployment.
