(* ===== verification/Strings.v ===== *)
(** The names of the constants of Portals: [src/ptl_str.cpp]. *)
From S2P Require Import Prelude Portals.

(** @src/src/ptl_str.cpp:28-31 ptl_const_to_str *)
Record ptl_const_to_str := mk_const { const_rc : Z; const_str : string }.

(** @src/include/portals4.h:130-147 ptl_event_kind, as an int *)
Definition event_num (e : ptl_event_kind) : Z :=
  match e with
  | PTL_EVENT_GET => 0
  | PTL_EVENT_GET_OVERFLOW => 1
  | PTL_EVENT_PUT => 2
  | PTL_EVENT_PUT_OVERFLOW => 3
  | PTL_EVENT_ATOMIC => 4
  | PTL_EVENT_ATOMIC_OVERFLOW => 5
  | PTL_EVENT_FETCH_ATOMIC => 6
  | PTL_EVENT_FETCH_ATOMIC_OVERFLOW => 7
  | PTL_EVENT_REPLY => 8
  | PTL_EVENT_SEND => 9
  | PTL_EVENT_ACK => 10
  | PTL_EVENT_PT_DISABLED => 11
  | PTL_EVENT_AUTO_UNLINK => 12
  | PTL_EVENT_AUTO_FREE => 13
  | PTL_EVENT_SEARCH => 14
  | PTL_EVENT_LINK => 15
  end.

(** @src/src/ptl_str.cpp:33-51 ptl_errors *)
Definition ptl_errors : list ptl_const_to_str :=
  [mk_const PTL_ARG_INVALID "PTL_ARG_INVALID"; mk_const PTL_CT_NONE_REACHED "PTL_CT_NONE_REACHED";
    mk_const PTL_EQ_DROPPED "PTL_EQ_DROPPED"; mk_const PTL_EQ_EMPTY "PTL_EQ_EMPTY";
    mk_const PTL_FAIL "PTL_FAIL"; mk_const PTL_IGNORED "PTL_IGNORED";
    mk_const PTL_IN_USE "PTL_IN_USE"; mk_const PTL_INTERRUPTED "PTL_INTERRUPTED";
    mk_const PTL_LIST_TOO_LONG "PTL_LIST_TOO_LONG"; mk_const PTL_NO_INIT "PTL_NO_INIT";
    mk_const PTL_NO_SPACE "PTL_NO_SPACE"; mk_const PTL_OK "PTL_OK";
    mk_const PTL_PID_IN_USE "PTL_PID_IN_USE"; mk_const PTL_PT_EQ_NEEDED "PTL_PT_EQ_NEEDED";
    mk_const PTL_PT_FULL "PTL_PT_FULL"; mk_const PTL_PT_IN_USE "PTL_PT_IN_USE";
    mk_const PTL_FAIL "PTL_FAIL"].

(** @src/src/ptl_str.cpp:53-70 ptl_events *)
Definition ptl_events : list ptl_const_to_str :=
  [mk_const (event_num PTL_EVENT_GET) "PTL_EVENT_GET";
    mk_const (event_num PTL_EVENT_GET_OVERFLOW) "PTL_EVENT_GET_OVERFLOW";
    mk_const (event_num PTL_EVENT_PUT) "PTL_EVENT_PUT";
    mk_const (event_num PTL_EVENT_PUT_OVERFLOW) "PTL_EVENT_PUT_OVERFLOW";
    mk_const (event_num PTL_EVENT_ATOMIC) "PTL_EVENT_ATOMIC";
    mk_const (event_num PTL_EVENT_ATOMIC_OVERFLOW) "PTL_EVENT_ATOMIC_OVERFLOW";
    mk_const (event_num PTL_EVENT_FETCH_ATOMIC) "PTL_EVENT_FETCH_ATOMIC";
    mk_const (event_num PTL_EVENT_FETCH_ATOMIC_OVERFLOW) "PTL_EVENT_FETCH_ATOMIC_OVERFLOW";
    mk_const (event_num PTL_EVENT_REPLY) "PTL_EVENT_REPLY";
    mk_const (event_num PTL_EVENT_SEND) "PTL_EVENT_SEND";
    mk_const (event_num PTL_EVENT_ACK) "PTL_EVENT_ACK";
    mk_const (event_num PTL_EVENT_PT_DISABLED) "PTL_EVENT_PT_DISABLED";
    mk_const (event_num PTL_EVENT_AUTO_UNLINK) "PTL_EVENT_AUTO_UNLINK";
    mk_const (event_num PTL_EVENT_AUTO_FREE) "PTL_EVENT_AUTO_FREE";
    mk_const (event_num PTL_EVENT_SEARCH) "PTL_EVENT_SEARCH";
    mk_const (event_num PTL_EVENT_LINK) "PTL_EVENT_LINK"].

(** @src/src/ptl_str.cpp:72-85 ptl_fail_type *)
Definition ptl_fail_type : list ptl_const_to_str :=
  [mk_const PTL_NI_OK "PTL_NI_OK"; mk_const PTL_NI_PERM_VIOLATION "PTL_NI_PERM_VIOLATION";
    mk_const PTL_NI_SEGV "PTL_NI_SEGV"; mk_const PTL_NI_PT_DISABLED "PTL_NI_PT_DISABLED";
    mk_const PTL_NI_DROPPED "PTL_NI_DROPPED";
    mk_const PTL_NI_UNDELIVERABLE "PTL_NI_UNDELIVERABLE"; mk_const PTL_FAIL "PTL_FAIL";
    mk_const PTL_ARG_INVALID "PTL_ARG_INVALID"; mk_const PTL_IN_USE "PTL_IN_USE";
    mk_const PTL_NI_NO_MATCH "PTL_NI_NO_MATCH";
    mk_const PTL_NI_TARGET_INVALID "PTL_NI_TARGET_INVALID";
    mk_const PTL_NI_OP_VIOLATION "PTL_NI_OP_VIOLATION"].

(** @src/include/portals4_bxiext.h:41-45 ptl_str_type *)
Inductive ptl_str_type := PTL_STR_ERROR | PTL_STR_EVENT | PTL_STR_FAIL_TYPE.

(** @src/src/ptl_str.cpp:109-112 the search of PtlToStr *)
Fixpoint find_const (rc : Z) (p : list ptl_const_to_str) : string :=
  match p with
  | [] => "Unknown"
  | c :: p' => if rc =? const_rc c then const_str c else find_const rc p'
  end.

Definition const_table (type : ptl_str_type) : list ptl_const_to_str :=
  match type with
  | PTL_STR_ERROR => ptl_errors
  | PTL_STR_EVENT => ptl_events
  | PTL_STR_FAIL_TYPE => ptl_fail_type
  end.

(** @src/src/ptl_str.cpp:87-114 PtlToStr *)
Definition PtlToStr (rc : Z) (type : ptl_str_type) : string := find_const rc (const_table type).

(** @src/src/ptl_str.cpp:116-119 PtlFailTypeSize *)
Definition PtlFailTypeSize : Z := Z.of_nat (length ptl_fail_type).

(** ** Theorems *)

(** A table where a name stands for one constant, and no constant is called ["Unknown"]. *)
Definition unambiguous (p : list ptl_const_to_str) : Prop :=
  Forall (fun c => const_str c <> "Unknown"%string /\
    Forall (fun c' => const_str c = const_str c' -> const_rc c = const_rc c') p) p.
#[export] Instance unambiguous_dec p : Decision (unambiguous p).
Proof. unfold unambiguous. apply _. Defined.

Lemma find_const_in rc p :
  find_const rc p <> "Unknown"%string ->
  exists c, c ∈ p /\ const_rc c = rc /\ const_str c = find_const rc p.
Proof.
  induction p as [|c p IH]; simpl; [done|]. destruct (Z.eqb_spec rc (const_rc c)) as [->|_].
  - intros _. exists c. split; [by left|done].
  - intros (c' & ? & ? & ?)%IH. exists c'. split; [by right|done].
Qed.

(** A name that [PtlToStr] gives stands for one constant: two constants of the same kind that
    have a name have distinct names. *)
Theorem names_tell_constants type rc rc' :
  PtlToStr rc type <> "Unknown"%string -> PtlToStr rc' type = PtlToStr rc type -> rc' = rc.
Proof.
  unfold PtlToStr. intros Hrc Heq.
  destruct (find_const_in rc _ Hrc) as (c & Hc & <- & Hs).
  destruct (find_const_in rc' (const_table type)) as (c' & Hc' & <- & Hs'); [congruence|].
  assert (unambiguous (const_table type)) as Hu by (destruct type; refine (bool_decide_unpack _ _); vm_compute; exact I).
  unfold unambiguous in Hu. rewrite Forall_forall in Hu. destruct (Hu c' Hc') as [_ Hall].
  rewrite Forall_forall in Hall. apply Hall; congruence.
Qed.

(** [PtlPutNB] returns [PTL_TRY_AGAIN], which has no name. *)
Example try_again_unnamed : PtlToStr PTL_TRY_AGAIN PTL_STR_ERROR = "Unknown"%string.
Proof. reflexivity. Qed.
