(* ===== verification/Peers.v ===== *)
(** What the C functions of [CUtil.v] promise: the list of the local peers is written inside its
    buffer. *)
From S2P Require Import Prelude OMap Portals World Logic Engine Config Entries Atomics Memory.
From S2P Require Import MainActor Runtime Bench CUtil CApi Registry.
From Stdlib Require Import Ascii.

#[local] Arguments String.append : simpl nomatch.

(** ** Strings in memory *)

Lemma string_bytes_length t : length (string_bytes t) = String.length t.
Proof. induction t; simpl; congruence. Qed.

Lemma string_bytes_app t u : string_bytes (t ++ u) = string_bytes t ++ string_bytes u.
Proof. induction t as [|c t IH]; simpl; [done|]. by rewrite IH. Qed.

Lemma code_range c : 0 <= code c < 256.
Proof. destruct c as [[] [] [] [] [] [] [] []]; vm_compute; by split. Qed.

(** No zero in a string. *)
Definition no_nul (t : string) : Prop := Forall (fun b => b <> 0) (string_bytes t).

(** [n] bytes are mapped at [a]. *)
Definition room (m : gmap Z Z) (a n : Z) : Prop := forall i, 0 <= i < n -> is_Some (m !! (a + i)).

(** The [n] bytes at [a] hold the string [t]. *)
Record holds (m : gmap Z Z) (a n : Z) (t : string) : Prop := {
  h_room : room m a n;
  h_fits : Z.of_nat (String.length t) < n;
  h_bytes : forall i b, (string_bytes t ++ [0]) !! i = Some b -> m !! (a + Z.of_nat i) = Some b }.

Lemma store_bytes_runs a bs w :
  room (w_mem w) a (Z.of_nat (length bs)) ->
  exists w', store_bytes a bs w = Ok tt w' /\ only_mem w w' /\
    forall x, w_mem w' !! x = written (w_mem w) a bs x.
Proof.
  intros Hr. cut (exists w', store_bytes a bs w = Ok tt w').
  { intros [w' Hw]. exists w'. split; [done|]. by eapply store_bytes_spec. }
  revert a w Hr. induction bs as [|b bs IH]; intros a w Hr; cbn [store_bytes]; [by eexists|].
  destruct (Hr 0) as [o Ho]; [simpl; lia|]. rewrite Z.add_0_r in Ho.
  cbv [mbind M_bind gets modify of_option mret M_ret]. rewrite Ho. apply IH.
  intros i Hi. simpl. destruct (Hr (1 + i)) as [x Hx]; [simpl; lia|].
  rewrite lookup_insert. case_decide; [by eexists|]. exists x. rewrite <- Hx. f_equal. lia.
Qed.

Lemma written_room m m' a bs b n :
  room m b n -> (forall x, m' !! x = written m a bs x) -> room m' b n.
Proof.
  intros Hr Hm i Hi. rewrite Hm. unfold written. case_decide; [|by apply Hr].
  apply lookup_lt_is_Some_2. lia.
Qed.

Lemma strlen_runs fuel a n t w :
  holds (w_mem w) a n t -> no_nul t -> (String.length t < fuel)%nat ->
  strlen fuel a w = Ok (Z.of_nat (String.length t)) w.
Proof.
  intros [_ _ Hb] Hz. revert a t Hb Hz. induction fuel as [|fuel IH]; intros a t Hb Hz Hf; [lia|].
  cbn [strlen load_bytes]. cbv [mbind M_bind gets of_option mret M_ret].
  destruct t as [|c t]; simpl in Hb |- *.
  - pose proof (Hb 0%nat 0 eq_refl) as H0. rewrite Z.add_0_r in H0. rewrite H0. done.
  - pose proof (Hb 0%nat (code c) eq_refl) as H0. rewrite Z.add_0_r in H0. rewrite H0.
    apply Forall_cons in Hz as [Hc Hz]. rewrite decide_False by congruence.
    rewrite (IH (a + 1) t); [do 2 f_equal; lia| |done|simpl in Hf; lia].
    intros i b Hi. rewrite <- (Hb (S i) b); [f_equal; lia|done].
Qed.

(** Writing a text after a string. *)
Lemma snprintf_appends dst n t u w :
  holds (w_mem w) dst n t -> no_nul t -> n < 2 ^ 64 ->
  exists w', snprintf (dst + Z.of_nat (String.length t))
               (sub64 n (Z.of_nat (String.length t))) u w
             = Ok (Z.of_nat (String.length u)) w' /\ only_mem w w' /\
    (Z.of_nat (String.length t + String.length u) < n -> holds (w_mem w') dst n (t ++ u)).
Proof.
  intros [Hr Hf Hb] Hz Hn. unfold snprintf, sub64. rewrite wrap_small by lia.
  set (k := Z.of_nat (String.length t)) in *. rewrite (proj2 (Z.ltb_lt _ _)) by lia.
  set (bs := take (Z.to_nat (n - k - 1)) (string_bytes u) ++ [0]).
  destruct (store_bytes_runs (dst + k) bs w) as (w' & Hw & Honly & Hx).
  { intros i Hi. unfold bs in Hi. rewrite length_app, length_take, string_bytes_length in Hi.
    simpl in Hi. destruct (Hr (k + i)) as [x Hx]; [lia|]. exists x. rewrite <- Hx. f_equal. lia. }
  exists w'. cbn [when]. rewrite (bind_run _ _ _ _ _ Hw). split_and!; [done|done|].
  intros Hlt. split; [by eapply written_room| |].
  - rewrite length_append. lia.
  - assert (bs = string_bytes u ++ [0]) as Hbs.
    { unfold bs. rewrite take_ge; [done|]. rewrite string_bytes_length. lia. }
    intros i b. rewrite string_bytes_app, <- app_assoc, <- Hbs. intros Hi. rewrite Hx. unfold written.
    destruct (decide (i < String.length t)%nat) as [Hlt'|Hge].
    + rewrite decide_False by lia. apply Hb.
      rewrite lookup_app_l in Hi |- * by (rewrite string_bytes_length; lia). done.
    + pose proof (lookup_lt_Some _ _ _ Hi) as Hlen. rewrite length_app, string_bytes_length in Hlen.
      rewrite decide_True by lia. rewrite lookup_app_r in Hi by (rewrite string_bytes_length; lia).
      rewrite string_bytes_length in Hi. rewrite <- Hi. f_equal. lia.
Qed.

(** Cutting the last character. *)
Lemma cut_last dst n t c w :
  holds (w_mem w) dst n (t ++ String c "") ->
  exists w', store_bytes (dst + Z.of_nat (String.length t)) [0] w = Ok tt w' /\ only_mem w w' /\
    holds (w_mem w') dst n t.
Proof.
  intros [Hr Hf Hb]. rewrite length_append in Hf. simpl in Hf.
  destruct (store_bytes_runs (dst + Z.of_nat (String.length t)) [0] w) as (w' & Hw & Honly & Hx).
  { intros i Hi. simpl in Hi. destruct (Hr (Z.of_nat (String.length t) + i)) as [x Hx]; [lia|].
    exists x. rewrite <- Hx. f_equal. lia. }
  exists w'. split_and!; [done|done|]. split; [by eapply written_room|lia|].
  intros i b Hi. rewrite Hx. unfold written. cbn [length].
  destruct (decide (i < String.length t)%nat) as [Hlt|Hge].
  - rewrite decide_False by lia. apply Hb.
    rewrite lookup_app_l in Hi by (rewrite string_bytes_length; lia).
    rewrite string_bytes_app, <- app_assoc, lookup_app_l by (rewrite string_bytes_length; lia). done.
  - pose proof (lookup_lt_Some _ _ _ Hi) as Hlen. rewrite length_app, string_bytes_length in Hlen.
    simpl in Hlen. assert (i = String.length t) as -> by lia.
    rewrite decide_True by lia. rewrite lookup_app_r in Hi by (rewrite string_bytes_length; lia).
    rewrite string_bytes_length, Nat.sub_diag in Hi. simpl in Hi. rewrite <- Hi.
    by rewrite Z.sub_diag.
Qed.

(** ** The list of the local peers *)

Lemma no_nul_app t u : no_nul t -> no_nul u -> no_nul (t ++ u).
Proof. unfold no_nul. rewrite string_bytes_app. apply Forall_app_2. Qed.

Lemma digits_no_nul t : all_chars isdigit t = true -> no_nul t.
Proof.
  induction t as [|c t IH]; simpl; [by constructor|]. intros [Hc Ht]%andb_true_iff.
  constructor; [|by apply IH]. unfold isdigit in Hc. lia.
Qed.

Lemma peer_text_no_nul r : no_nul (peer_text r).
Proof.
  unfold peer_text. apply no_nul_app; [|by repeat constructor].
  destruct (swrap 32 r) as [|p|p]; [by repeat constructor|by apply digits_no_nul, pretty_digits|].
  apply (no_nul_app "-"); [by repeat constructor|]. by apply digits_no_nul, pretty_N_go_digits.
Qed.

(** The texts of the peers, each followed by a comma. *)
Fixpoint peers_text (ranks : list Z) : string :=
  match ranks with [] => "" | r :: ranks' => (peer_text r ++ peers_text ranks')%string end.

(** The ranks separated by commas. *)
Definition ranks_text (ranks : list Z) : string :=
  String.concat "," ((fun r => pretty (swrap 32 r)) <$> ranks).

Lemma peers_text_ranks ranks :
  ranks <> [] -> peers_text ranks = (ranks_text ranks ++ ",")%string.
Proof.
  induction ranks as [|r ranks IH]; [done|intros _]. destruct ranks as [|r' ranks].
  - unfold ranks_text. simpl. unfold peer_text. by rewrite append_assoc.
  - change (peers_text (r :: r' :: ranks)) with (peer_text r ++ peers_text (r' :: ranks))%string.
    change (ranks_text (r :: r' :: ranks))
      with (pretty (swrap 32 r) ++ "," ++ ranks_text (r' :: ranks))%string.
    rewrite IH by done. unfold peer_text. by rewrite !append_assoc.
Qed.

Lemma peers_text_no_nul ranks : no_nul (peers_text ranks).
Proof. induction ranks; simpl; [by constructor|]. by apply no_nul_app, IHranks; apply peer_text_no_nul. Qed.

Lemma only_mem_mem w w' : only_mem w w' -> w' = w <| w_mem := w_mem w' |>.
Proof. done. Qed.

Section Peers.
Context `{Env} `{Runtime}.

(** The actors of a list have these ranks. *)
Definition have_ranks (s : Sim) : list (Z * handle) -> list Z -> Prop :=
  Forall2 (fun p r => exists u, sim_users s !! p.2 = Some u /\ ua_my_rank u = Some r).

Lemma write_peers_spec dst n peers ranks t s :
  have_ranks s peers ranks -> holds (w_mem (sim_world s)) dst n t -> no_nul t -> n < 2 ^ 64 ->
  if decide (Z.of_nat (String.length t + String.length (peers_text ranks)) < n) then
    exists w, write_peers dst n peers s = Ok tt (s <| sim_world := w |>) /\
      only_mem (sim_world s) w /\ holds (w_mem w) dst n (t ++ peers_text ranks)
  else write_peers dst n peers s = Fail (Abort "Overflowing snprintf").
Proof.
  intros Hranks. revert ranks t s Hranks.
  induction peers as [|[p a] peers IH]; intros ranks t s Hranks Ht Hz Hn; inversion Hranks as [|? r ? ranks' Hu Hr]; subst.
  - simpl. pose proof (h_fits _ _ _ _ Ht). rewrite decide_True by lia. exists (sim_world s).
    split_and!; [by destruct s|done|]. by replace (t ++ "")%string with t by (clear; induction t; simpl; congruence).
  - destruct Hu as (u & Hu & Hrank). cbn [write_peers peers_text].
    rewrite length_append.
    assert (on_world (strlen (S (Z.to_nat n)) dst) s = Ok (Z.of_nat (String.length t)) s) as Hlen.
    { unfold on_world. rewrite (strlen_runs _ _ n t); [by destruct s|done|done|].
      pose proof (h_fits _ _ _ _ Ht). lia. }
    rewrite (bind_run _ _ _ _ _ Hlen). unfold user, determinate.
    cbv [mbind M_bind gets of_option mret M_ret]. simpl in Hu. rewrite Hu, Hrank.
    destruct (snprintf_appends dst n t (peer_text r) (sim_world s)) as (w1 & Hw1 & Honly & Hh); [done..|].
    assert (on_world (snprintf (dst + Z.of_nat (String.length t))
              (sub64 n (Z.of_nat (String.length t))) (peer_text r)) s
            = Ok (Z.of_nat (String.length (peer_text r))) (s <| sim_world := w1 |>)) as ->
      by (unfold on_world; by rewrite Hw1).
    unfold sub64. pose proof (h_fits _ _ _ _ Ht).
    rewrite wrap_small by lia.
    destruct (Z.leb_spec (n - Z.of_nat (String.length t)) (Z.of_nat (String.length (peer_text r)))).
    { rewrite decide_False by lia. done. }
    specialize (Hh ltac:(lia)).
    specialize (IH ranks' (t ++ peer_text r)%string (s <| sim_world := w1 |>)).
    rewrite length_append in IH. rewrite Nat.add_assoc, <- append_assoc.
    case_decide.
    + destruct IH as (w & Hw & Honly' & Hh'); [done|done|by apply no_nul_app, peer_text_no_nul|done|].
      exists w. split_and!; [done|by etrans|done].
    + apply IH; [done|done|by apply no_nul_app, peer_text_no_nul|done].
Qed.

(** The actors of a machine do not depend on the network. *)
Lemma main_actors_on_host_world h s l w :
  main_actors_on_host h s = Ok l s ->
  main_actors_on_host h (s <| sim_world := w |>) = Ok l (s <| sim_world := w |>).
Proof.
  unfold main_actors_on_host. cbv [mbind M_bind gets]. simpl. generalize (sim_actors s).
  intros actors. revert l. induction actors as [|[p a] actors IH]; intros l; simpl.
  - by intros [= <-].
  - unfold user. cbv [mbind M_bind gets of_option mret M_ret] in *. simpl.
    destruct (sim_users s !! a); [|done].
    destruct (copy_if _ actors s) as [l' s'|] eqn:E; [|done].
    assert (s' = s) as ->.
    { clear -E. revert l' s' E. induction actors as [|[q b] actors IH]; intros l' s'; simpl.
      - by intros [= _ <-].
      - unfold user. cbv [mbind M_bind gets of_option mret M_ret] in *.
        destruct (sim_users s !! b); [|done].
        destruct (copy_if _ actors s) as [l1 s1|] eqn:E; [|done].
        intros [= _ <-]. by eapply IH. }
    rewrite (IH l' eq_refl). by intros [= <-].
Qed.

(** C36. [s4bxi_local_peers_list] writes the ranks of the processes of the machine, separated by
    commas, when they fit in the buffer with one byte to spare; otherwise it stops the simulation:
    it never writes outside the buffer it was given. *)
Theorem peers_list_bounded dst n s a u peers ranks :
  (forall w, GET_CURRENT_MAIN_ACTOR (s <| sim_world := w |>) = Ok a (s <| sim_world := w |>)) ->
  sim_users s !! a = Some u ->
  main_actors_on_host (ua_slug u) s = Ok peers s -> have_ranks s peers ranks -> ranks <> [] ->
  room (w_mem (sim_world s)) dst n -> 0 < n < 2 ^ 64 ->
  if decide (Z.of_nat (String.length (ranks_text ranks)) + 1 < n) then
    exists w, s4bxi_local_peers_list dst n s = Ok tt (s <| sim_world := w |>) /\
      only_mem (sim_world s) w /\ holds (w_mem w) dst n (ranks_text ranks)
  else s4bxi_local_peers_list dst n s = Fail (Abort "Overflowing snprintf").
Proof.
  intros Hself Hu Hpeers Hranks Hne Hroom Hn. unfold s4bxi_local_peers_list.
  destruct (store_bytes_runs dst [0] (sim_world s)) as (w0 & Hw0 & Honly0 & Hx0).
  { intros i Hi. simpl in Hi. apply Hroom. lia. }
  assert (holds (w_mem w0) dst n "") as Hh0.
  { split; [by eapply written_room|simpl; lia|]. intros i b Hi. pose proof (lookup_lt_Some _ _ _ Hi) as Hl.
    simpl in Hl. rewrite Hx0. unfold written. simpl. rewrite decide_True by lia. rewrite <- Hi.
    simpl. f_equal. lia. }
  assert (on_world (store_bytes dst [0]) s = Ok tt (s <| sim_world := w0 |>)) as H1
    by (unfold on_world; by rewrite Hw0).
  rewrite (bind_run _ _ _ _ _ H1), (bind_run _ _ _ _ _ (Hself w0)).
  assert (user a (s <| sim_world := w0 |>) = Ok u (s <| sim_world := w0 |>)) as H2
    by (unfold user; cbv [mbind M_bind gets of_option mret M_ret]; simpl; by rewrite Hu).
  rewrite (bind_run _ _ _ _ _ H2).
  rewrite (bind_run _ _ _ _ _ (main_actors_on_host_world _ _ _ w0 Hpeers)).
  pose proof (write_peers_spec dst n peers ranks "" (s <| sim_world := w0 |>)) as Hw.
  specialize (Hw Hranks Hh0 ltac:(by constructor) ltac:(lia)).
  rewrite peers_text_ranks, length_append in Hw by done. simpl in Hw.
  case_decide as Hd; case_decide; try lia.
  - destruct Hw as (w1 & Hw1 & Honly1 & Hh1). rewrite (bind_run _ _ _ _ _ Hw1).
    destruct (cut_last dst n (ranks_text ranks) "," w1 Hh1) as (w2 & Hw2 & Honly2 & Hh2).
    assert (strlen (S (Z.to_nat n)) dst w1 = Ok (Z.of_nat (String.length (ranks_text ranks)) + 1) w1) as Hlen.
    { rewrite (strlen_runs _ _ n (ranks_text ranks ++ ",")); [f_equal|done| |].
      - rewrite length_append. simpl. lia.
      - rewrite <- peers_text_ranks by done. apply peers_text_no_nul.
      - rewrite length_append. simpl. lia. }
    exists w2. split_and!; [|by etrans; [done|etrans]|done].
    rewrite (bind_run _ _ _ (Z.of_nat (String.length (ranks_text ranks)) + 1) (s <| sim_world := w1 |>))
      by (unfold on_world; cbn -[strlen]; by rewrite Hlen).
    unfold on_world, sub64. rewrite wrap_small by lia. rewrite Z.add_simpl_r. cbn -[store_bytes]. by rewrite Hw2.
  - unfold mbind at 1, M_bind at 1. by rewrite Hw.
Qed.
End Peers.
