(* ===== verification/Sampling.v ===== *)
(** Sampled loops: the loop of a user program runs, and measures, as few iterations as asked for,
    and the time of all of them is simulated. *)
From S2P Require Import Prelude OMap Portals World Logic Engine Config Runtime Bench.
From Stdlib Require Import SpecFloat.

(** How many times user code ran. *)
Definition user_runs (l : list runtime_call) : Z :=
  foldr (fun c n => match c with UserCode _ => n + 1 | _ => n end) 0 l.
Definition is_user_code (c : runtime_call) : bool :=
  match c with UserCode _ => true | _ => false end.

Section Sampling.
Context `{Runtime} (pid : Z) (a : handle).

(** The block is measured for [iters] times at least and until the standard error is below
    [threshold], when these are positive (one of them is; the threshold is a number). *)
Context (a_valid : a <> NULL) (pid_known : forall s, rt_pid s = pid).
Context (global : bool) (file : string) (line iters : Z) (threshold : double).
Context (asked : dlt (double_of_Z 0) threshold || (0 <? iters) = true).
Context (threshold_number : deq threshold threshold = true).

(** The name of the block, in this process. *)
Definition location : string :=
  let loc := (file ++ ":" ++ pretty line)%string in
  if global then loc else (loc ++ ":" ++ pretty pid)%string.

(** The process [a] is known to the simulator, it is sampling or not ([f]), the measures of the block
    are [o], and user code ran [n] times. *)
Record view (f : Z) (o : option LocalData) (n : Z) (s : Sim) : Prop := {
  v_ext : sim_ext s !! pid = Some a;
  v_user : exists u, sim_users s !! a = Some u /\ ua_is_sampling u = f;
  v_actor : exists x y, w_actors (sim_world s) !! a = Some x /\
            w_nodes (sim_world s) !! ma_node x = Some y;
  v_samples : sim_samples s !! location = o;
  v_runs : user_runs (sim_calls s) = n }.

(** While this process waits or computes, time passes and the others do what they want, but they
    leave this process, its node and the measures of this block alone. *)
Context (calm : forall c f o n s, view f o n s -> view f o n (rt_step c s)).

(** Calls that keep the view. *)
Definition neutral {A} (c : PM A) : Prop := forall f m n, runs c (view f m n) (fun _ => view f m n).

Lemma neutral_bind {A B} (c : PM A) (g : A -> PM B) :
  neutral c -> (forall x, neutral (g x)) -> neutral (x ← c; g x).
Proof. intros Hc Hg f m n. eapply runs_bind; [apply Hc|]. intros x. apply Hg. Qed.

Lemma neutral_gets {A} (g : Sim -> A) : neutral (gets g).
Proof. intros f m n s Hs. by exists (g s), s. Qed.

Lemma neutral_ret {A} (x : A) : neutral (mret x).
Proof. intros f m n s Hs. by exists x, s. Qed.

Lemma neutral_when (b : bool) c : neutral c -> neutral (when b c).
Proof. destruct b; [done|intros _; apply neutral_ret]. Qed.

Lemma call_view c f m n :
  runs (call c) (view f m n) (fun _ => view f m (if is_user_code c then n + 1 else n)).
Proof.
  intros s Hs. eexists tt, _. split; [reflexivity|]. apply calm.
  destruct Hs as [? ? ? ? Hn]. split; try done. simpl. rewrite Hn. by destruct c.
Qed.

Lemma neutral_call c : is_user_code c = false -> neutral (call c).
Proof. intros Hc f m n. eapply runs_conseq; [apply call_view|done|]. by rewrite Hc. Qed.

Lemma neutral_config {A} (g : s4bxi_config -> A) : neutral (config_field g).
Proof. intros f m n s Hs. eexists _, _. split; [done|]. by destruct Hs. Qed.

Lemma neutral_log l : neutral (on_world (BxiEngine_log l)).
Proof.
  intros f m n s Hs. unfold on_world, BxiEngine_log, log_write, S4BXI_GLOBAL_CONFIG.
  cbv [mbind M_bind gets modify when mret M_ret].
  destruct (w_logCount _ =? 0); [|destruct (_ mod _ =? 0)];
    (eexists tt, _; split; [done|]; by destruct Hs).
Qed.

Lemma current_view f m n :
  runs GET_CURRENT_MAIN_ACTOR (view f m n) (fun x s => x = a /\ view f m n s).
Proof.
  intros s Hs. exists a, s. split; [|done].
  unfold GET_CURRENT_MAIN_ACTOR, get_cached_current_main_actor.
  cbv [mbind M_bind gets of_option mret M_ret]. rewrite pid_known, (v_ext _ _ _ _ Hs).
  by rewrite decide_False.
Qed.

(** Reads the current actor, then goes on with it. *)
Lemma bind_current {B} (g : handle -> PM B) f m n Q :
  runs (g a) (view f m n) Q -> runs (x ← GET_CURRENT_MAIN_ACTOR; g x) (view f m n) Q.
Proof.
  intros Hg. eapply runs_bind; [apply current_view|]. intros x s [-> Hs]. by apply Hg.
Qed.
Lemma neutral_current {B} (g : handle -> PM B) :
  neutral (g a) -> neutral (x ← GET_CURRENT_MAIN_ACTOR; g x).
Proof. intros Hg f m n. by apply bind_current. Qed.

Lemma neutral_nid : neutral (getNid a).
Proof.
  intros f m n s Hs. pose proof (v_actor _ _ _ _ Hs) as (x & y & Hx & Hy).
  eexists (nd_nid y), _. split; [|done]. unfold getNid, on_world, load.
  cbv [mbind M_bind mret M_ret]. simpl. rewrite Hx. simpl. rewrite Hy. simpl.
  by destruct s.
Qed.

Lemma neutral_user : neutral (user a).
Proof.
  intros f m n s Hs. pose proof (v_user _ _ _ _ Hs) as (u & Hu & _).
  exists u, s. split; [|done]. unfold user. cbv [mbind M_bind gets of_option mret M_ret].
  by rewrite Hu.
Qed.

(** Changes of the fields of the process. *)
Lemma update_view g f f' m n :
  (forall u, ua_is_sampling u = f -> ua_is_sampling (g u) = f') ->
  runs (update_user a g) (view f m n) (fun _ => view f' m n).
Proof.
  intros Hg s [? (u & Hu & Hf) ? ? ?]. exists tt, (s <| sim_users ::= <[a := g u]> |>). split.
  - unfold update_user, user. cbv [mbind M_bind gets of_option mret M_ret modify]. by rewrite Hu.
  - split; try done. exists (g u). split; [apply lookup_insert_eq|auto].
Qed.
Lemma neutral_accumulator v :
  neutral (update_user a (fun u => u <| ua_cpu_accumulator := v |>)).
Proof. intros f m n. by apply update_view. Qed.

Ltac neutral := repeat lazymatch goal with
  | |- neutral (mbind _ GET_CURRENT_MAIN_ACTOR) => simple apply neutral_current
  | |- neutral (mbind _ _) => simple apply neutral_bind; [|intros ?]
  | |- neutral (gets _) => simple apply neutral_gets
  | |- neutral (mret _) => simple apply neutral_ret
  | |- neutral (when _ _) => simple apply neutral_when
  | |- neutral (call _) => apply neutral_call; reflexivity
  | |- neutral (config_field _) => simple apply neutral_config
  | |- neutral (getNid _) => simple apply neutral_nid
  | |- neutral (user _) => simple apply neutral_user
  | |- neutral (on_world (BxiEngine_log _)) => simple apply neutral_log
  | |- neutral (update_user _ _) => apply neutral_accumulator
  | |- neutral (if ?b then _ else _) => destruct b
  end.

(** ** Computation and benchmarks *)

Lemma neutral_compute_log nid body : neutral body -> neutral (with_compute_log nid body).
Proof. intros Hb. unfold with_compute_log, write_compute_log, get_clock. neutral; done. Qed.

Lemma neutral_execute d : neutral (s4bxi_execute d).
Proof.
  unfold s4bxi_execute, s4bxi_execute_smpi, s4bxi_execute_alone.
  neutral; apply neutral_compute_log; neutral.
Qed.

Lemma neutral_modify_log g : neutral (modify (fun s => s <| sim_bxi_log ::= g |>)).
Proof. intros f m n s Hs. eexists tt, _. split; [done|]. by destruct Hs. Qed.

Lemma neutral_bench_begin : neutral s4bxi_bench_begin.
Proof.
  unfold s4bxi_bench_begin, s4bxi_bench_begin_smpi, s4bxi_bench_begin_alone.
  unfold must_log_computation, get_clock. neutral. apply neutral_modify_log.
Qed.

(** A benchmark can end as long as no loop is sampled. *)
Lemma bench_end_view m n : runs s4bxi_bench_end (view 0 m n) (fun _ => view 0 m n).
Proof.
  unfold s4bxi_bench_end. apply runs_if; intros _.
  - revert m n. cut (neutral s4bxi_bench_end_smpi); [intros Hn; apply Hn|].
    unfold s4bxi_bench_end_smpi, must_log_computation, get_clock. neutral.
    apply neutral_modify_log.
  - unfold s4bxi_bench_end_alone. apply bind_current.
    eapply (runs_bind _ _ _ (fun b s => b = false /\ view 0 m n s)).
    { intros s Hs. pose proof (v_user _ _ _ _ Hs) as (u & Hu & Hf). exists false, s.
      split; [|done]. unfold sampling, user. cbv [mbind M_bind gets of_option mret M_ret].
      rewrite Hu. simpl. by rewrite Hf. }
    intros b. apply runs_pure with (b = false); [by intros s []|]. intros ->.
    match goal with |- runs ?c _ _ => assert (neutral c) as Hn end.
    { neutral. apply neutral_execute. }
    intros s [_ Hs]. by apply Hn.
Qed.

(** ** One turn of a sampled loop *)

(** The settings of the block are those of the loop. *)
Definition same_settings (d : LocalData) : Prop :=
  ld_iters d = iters /\ ld_threshold d = threshold.

(** The measures from which the loop starts. *)
Definition start (o : option LocalData) : LocalData := default (first_sample iters threshold) o.

Lemma location_view f m n :
  runs (SampleLocation global file line) (view f m n) (fun l s => l = location /\ view f m n s).
Proof.
  intros s Hs. eexists _, s. split; [reflexivity|]. by rewrite pid_known.
Qed.

Lemma bind_location {B} (g : string -> PM B) f m n Q :
  runs (g location) (view f m n) Q ->
  runs (l ← SampleLocation global file line; g l) (view f m n) Q.
Proof.
  intros Hg. eapply runs_bind; [apply location_view|]. intros l s [-> Hs]. by apply Hg.
Qed.

Lemma bind_sampling {B} (g : bool -> PM B) f m n Q :
  runs (g (negb (f =? 0))) (view f m n) Q -> runs (b ← sampling a; g b) (view f m n) Q.
Proof.
  intros Hg. eapply (runs_bind _ _ _ (fun b s => b = negb (f =? 0) /\ view f m n s)).
  - intros s Hs. pose proof (v_user _ _ _ _ Hs) as (u & Hu & Hf). eexists _, s.
    split; [|split; [reflexivity|done]]. unfold sampling, user.
    cbv [mbind M_bind gets of_option mret M_ret]. by rewrite Hu, <- Hf.
  - intros b s [-> Hs]. by apply Hg.
Qed.

Lemma bind_sample {B} (g : LocalData -> PM B) f n d Q :
  runs (g d) (view f (Some d) n) Q ->
  runs (x ← sample_at location; g x) (view f (Some d) n) Q.
Proof.
  intros Hg s Hs. unfold sample_at. cbv [mbind M_bind gets of_option mret M_ret].
  rewrite (v_samples _ _ _ _ Hs). by apply Hg.
Qed.

Lemma set_sample_view d f m n :
  runs (set_sample location d) (view f m n) (fun _ => view f (Some d) n).
Proof.
  intros s [? ? ? Hm ?]. eexists tt, _. split; [done|]. split; try done. apply lookup_insert_eq.
Qed.

Lemma set_sampling_view v f m n :
  0 <= v < 256 -> runs (set_sampling a v) (view f m n) (fun _ => view v m n).
Proof. intros Hv. apply update_view. intros u _. simpl. by apply wrap_small. Qed.

(** [s4bxi_sample_1]: from then on the process is sampling. *)
Definition next_data (o : option LocalData) : LocalData :=
  start o <| ld_benching := need_more_benchs (start o) |>.

Lemma first_sample_needs : need_more_benchs (first_sample iters threshold) = true.
Proof.
  unfold need_more_benchs. simpl. rewrite <- asked. by destruct (0 <? iters), (dlt _ threshold).
Qed.

Lemma sample_1_view f o n :
  f = 0 \/ f = 1 -> same_settings (start o) ->
  runs (s4bxi_sample_1 global file line iters threshold) (view f o n)
    (fun _ => view 1 (Some (next_data o)) n).
Proof.
  intros Hf Hd. unfold s4bxi_sample_1. apply bind_current, bind_location, bind_sampling.
  eapply (runs_bind _ _ _ (fun _ => view 1 o n)).
  { destruct Hf as [-> | ->]; simpl; [|by intros s Hs; exists tt, s].
    eapply runs_bind; [apply bench_end_view|]. intros ?. by apply set_sampling_view. }
  intros ? s Hs. cbv [mbind M_bind gets]. rewrite (v_samples _ _ _ _ Hs). unfold next_data.
  destruct o as [d|]; unfold start in *; cbn [default from_option id] in *.
  - destruct Hd as [Hit Hth]. rewrite Hit, Hth, Z.eqb_refl, threshold_number.
    by eapply set_sample_view.
  - rewrite first_sample_needs, asked.
    destruct (set_sample_view (first_sample iters threshold) 1 None n s Hs) as ([] & s' & Hr & Hs').
    rewrite Hr. by exists tt, s'.
Qed.

(** The end of the loop: the mean, as many times as there were iterations. *)
Definition finished (d : LocalData) (n iter_count : Z) (s : Sim) : Prop :=
  exists s1 s2, view 0 (Some d) n s1 /\
    s4bxi_execute (dmul (ld_mean d) (double_of_Z iter_count)) s1 = Ok tt s2 /\
    s4bxi_bench_begin s2 = Ok tt s /\ view 0 (Some d) n s.

Lemma inject_view d f n iter_count :
  runs (inject a d iter_count) (view f (Some d) n) (fun _ => finished d n iter_count).
Proof.
  intros s Hs. destruct (set_sampling_view 0 f (Some d) n ltac:(lia) s Hs) as ([] & s1 & H1 & Hs1).
  destruct (neutral_execute (dmul (ld_mean d) (double_of_Z iter_count)) 0 (Some d) n s1 Hs1)
    as ([] & s2 & H2 & Hs2).
  destruct (neutral_bench_begin 0 (Some d) n s2 Hs2) as ([] & s3 & H3 & Hs3).
  exists tt, s3. split; [|by exists s1, s2]. unfold inject.
  by rewrite (bind_run _ _ _ _ _ H1), (bind_run _ _ _ _ _ H2).
Qed.

(** [s4bxi_sample_2]: one more measure, or the end of the loop. *)
Lemma sample_2_view d n iter_count :
  runs (s4bxi_sample_2 global file line iter_count) (view 1 (Some d) n)
    (fun again s => again = ld_benching d || need_more_benchs d /\
       if again then view 1 (Some d) n s else finished d n iter_count s).
Proof.
  unfold s4bxi_sample_2. apply bind_current, bind_location, bind_sample.
  destruct (ld_benching d).
  { eapply runs_bind; [apply neutral_bench_begin|]. intros []. apply runs_conseq with
      (1 := runs_ret true _) (2 := fun s Hs => Hs). by intros b s [-> Hs]. }
  destruct (need_more_benchs d); simpl.
  - eapply runs_bind; [apply neutral_call; reflexivity|]. intros []. apply runs_conseq with
      (1 := runs_ret true _) (2 := fun s Hs => Hs). by intros b s [-> Hs].
  - eapply runs_bind; [by apply inject_view|]. intros []. apply runs_conseq with
      (1 := runs_ret false _) (2 := fun s Hs => Hs). by intros b s [-> Hs].
Qed.

(** [s4bxi_sample_3]: the measure is recorded. *)
Lemma sample_3_view d n :
  ld_benching d = true -> ld_count d < 2 ^ 31 - 1 ->
  runs (s4bxi_sample_3 global file line) (view 1 (Some d) n)
    (fun _ s => exists period, view 1 (Some (add_sample d period)) n s).
Proof.
  intros Hb Hc. unfold s4bxi_sample_3. apply bind_current, bind_location, bind_sample.
  rewrite Hb. apply Z.ltb_lt in Hc.
  intros s Hs. cbn [assert]. cbv [mbind M_bind mret M_ret].
  destruct (neutral_call (TimerStop a) eq_refl 1 (Some d) n s Hs) as ([] & s1 & -> & Hs1).
  unfold sample_at. cbv [mbind M_bind gets of_option mret M_ret].
  rewrite (v_samples _ _ _ _ Hs1), Hc. cbn [assert]. cbv [mret M_ret].
  destruct (set_sample_view (add_sample d (rt_elapsed s1 a)) 1 (Some d) n s1 Hs1)
    as ([] & s2 & -> & Hs2).
  exists tt, s2. eauto.
Qed.

(** [s4bxi_sample_exit]: the end of a loop that was sampling, and of one that made no turn. *)
Lemma sample_exit_view d n iter_count :
  runs (s4bxi_sample_exit global file line iter_count) (view 1 (Some d) n)
    (fun again s => again = false /\ finished d n iter_count s).
Proof.
  unfold s4bxi_sample_exit. apply bind_current, bind_sampling. simpl.
  eapply (runs_bind _ _ _ (fun _ => finished d n iter_count)).
  - apply bind_location, bind_sample. by apply inject_view.
  - intros []. apply runs_conseq with (1 := runs_ret false _) (2 := fun s Hs => Hs).
    by intros b s [-> Hs].
Qed.
Lemma sample_exit_idle o n iter_count :
  runs (s4bxi_sample_exit global file line iter_count) (view 0 o n)
    (fun again s => again = false /\ view 0 o n s).
Proof.
  unfold s4bxi_sample_exit. apply bind_current, bind_sampling. simpl.
  intros s Hs. by exists false, s.
Qed.

(** ** The loop *)

Context {U : Type} (loop_end : U -> bool) (loop_iter : U -> U) (body : U -> PM unit).

(** The body makes no call of the simulator, and counts as one run of user code. *)
Context (body_view : forall i o n, runs (body i) (view 1 o n) (fun _ => view 1 o (n + 1))).

(** The loop makes [k] turns from [i]. *)
Inductive turns : U -> nat -> Prop :=
| turns_end i : loop_end i = false -> turns i 0
| turns_step i k : loop_end i = true -> turns (loop_iter i) k -> turns i (S k).

(** What [S4BXI_SAMPLE_LOOP] promises for [k] turns, from the measures [o]: the times [periods] were
    measured, each because more measures were needed, until no more were needed or the loop was over;
    what is injected at the end is the mean of all the measures, once per turn. *)
Definition measured (o : option LocalData) (periods : list double) : LocalData :=
  foldl add_sample (start o) periods.
Definition measures_done (o : option LocalData) (n : Z) (k : nat) (iter_count : Z) (s : Sim) : Prop :=
  exists periods benching,
    (length periods <= k)%nat /\
    (forall j, (j < length periods)%nat -> need_more_benchs (measured o (take j periods)) = true) /\
    ((length periods < k)%nat -> need_more_benchs (measured o periods) = false) /\
    finished (measured o periods <| ld_benching := benching |>) (n + Z.of_nat (length periods))
      iter_count s.

Lemma measured_counts o periods :
  ld_count (measured o periods) = ld_count (start o) + Z.of_nat (length periods) /\
  ld_iters (measured o periods) = ld_iters (start o) /\
  ld_threshold (measured o periods) = ld_threshold (start o).
Proof.
  unfold measured. generalize (start o). induction periods as [|p l IH]; intros d; cbn [foldl length].
  - split_and!; [lia|done|done].
  - destruct (IH (add_sample d p)) as (-> & -> & ->). cbn. split_and!; [lia|done|done].
Qed.

(** When no precision is asked for, this is [iters] measures in all, or one per turn. *)
Lemma measures_without_threshold o periods k :
  same_settings (start o) -> dlt (double_of_Z 0) threshold = false ->
  (length periods <= k)%nat ->
  (forall j, (j < length periods)%nat -> need_more_benchs (measured o (take j periods)) = true) ->
  ((length periods < k)%nat -> need_more_benchs (measured o periods) = false) ->
  Z.of_nat (length periods) = Z.min (Z.of_nat k) (Z.max 0 (iters - ld_count (start o))).
Proof.
  intros [Hi Ht] Hno Hle Hmore Hend.
  assert (forall l, need_more_benchs (measured o l) =
    (ld_count (start o) + Z.of_nat (length l) <? iters)) as Hn.
  { intros l. unfold need_more_benchs. destruct (measured_counts o l) as (-> & -> & ->).
    by rewrite Hi, Ht, Hno, orb_false_r. }
  assert ((0 < length periods)%nat ->
    ld_count (start o) + Z.of_nat (length periods) - 1 < iters) as H1.
  { intros Hpos. specialize (Hmore (pred (length periods)) ltac:(lia)). rewrite Hn in Hmore.
    apply Z.ltb_lt in Hmore. rewrite length_take in Hmore. lia. }
  assert ((length periods < k)%nat -> iters <= ld_count (start o) + Z.of_nat (length periods)) as H2.
  { intros Hlt. specialize (Hend Hlt). rewrite Hn in Hend. by apply Z.ltb_ge. }
  lia.
Qed.

Lemma sampled_loop_view k fuel i f o n iter_count :
  turns i k -> (k < fuel)%nat -> same_settings (start o) ->
  ld_count (start o) + Z.of_nat k < 2 ^ 31 ->
  (f = 0 /\ (0 < k)%nat) \/ (f = 1 /\ is_Some o) ->
  runs (sampled_loop loop_end loop_iter body global file line iters threshold fuel i iter_count)
    (view f o n) (fun _ => measures_done o n k iter_count).
Proof.
  revert fuel i f o n. induction k as [|k IH]; intros [|fuel] i f o n Hturns Hfuel Hset Hc Hf;
    [lia| |lia|]; inversion Hturns as [? Hend|? ? Hend Hturns']; subst; simpl; rewrite Hend.
  - destruct Hf as [[_ ?]|[-> [d ->]]]; [lia|]. eapply runs_bind; [by eapply sample_exit_view|].
    intros b s [-> Hs]. exists tt, s. split; [done|]. exists [], (ld_benching d).
    split; [done|]. split; [intros j Hj; cbn in Hj; lia|]. split; [intros Hj; cbn in Hj; lia|].
    rewrite Z.add_0_r. by destruct d.
  - assert (f = 0 \/ f = 1) as Hf' by (destruct Hf as [[-> _]|[-> _]]; auto).
    eapply runs_bind.
    { eapply runs_bind; [by apply sample_1_view|intros ?; by eapply sample_2_view]. }
    intros again s [-> Hs]. revert Hs. unfold next_data.
    change (need_more_benchs (start o <| ld_benching := need_more_benchs (start o) |>))
      with (need_more_benchs (start o)). cbn [ld_benching]. rewrite orb_diag.
    destruct (need_more_benchs (start o)) eqn:Hmore; intros Hs.
    + revert s Hs. eapply runs_bind; [apply body_view|]. intros ?.
      eapply runs_bind; [eapply sample_3_view; [done|cbn; lia]|].
      intros ? s (period & Hs).
      destruct (IH fuel (loop_iter i) 1 (Some (add_sample (start o) period)) (n + 1)) with (s := s)
        as (u & s' & Hr & ps & b & Hlen & Hall & Hstop & Hfin); [done|lia|done|cbn; lia|eauto|done|].
      exists u, s'. split; [done|]. exists (period :: ps), b.
      split; [cbn; lia|]. split; [|split].
      * intros [|j] Hj; [done|]. apply Hall. cbn in Hj. lia.
      * intros Hj. apply Hstop. cbn in Hj. lia.
      * cbn [length]. rewrite Nat2Z.inj_succ, <- Z.add_1_l, Z.add_assoc. exact Hfin.
    + exists tt, s. split; [done|]. exists [], false.
      split; [cbn; lia|]. split; [intros j Hj; cbn in Hj; lia|]. split; [done|].
      by rewrite Z.add_0_r.
Qed.

Lemma count_iterations_turns k fuel i f m n count :
  turns i k -> (k < fuel)%nat -> 0 <= count -> count + Z.of_nat k < 2 ^ 31 ->
  runs (count_iterations loop_end loop_iter fuel i count) (view f m n)
    (fun r s => r = count + Z.of_nat k /\ view f m n s).
Proof.
  revert fuel i count. induction k as [|k IH]; intros [|fuel] i count Hturns Hfuel Hc Hlt;
    [lia| |lia|]; inversion Hturns as [? Hend|? ? Hend Hturns']; subst; simpl; rewrite Hend.
  - intros s Hs. exists count, s. split_and!; (done || lia).
  - rewrite (proj2 (Z.ltb_lt _ _)) by lia. cbn [assert]. cbv [mbind M_bind mret M_ret].
    eapply runs_conseq; [apply (IH fuel (loop_iter i) (count + 1)); (done || lia)|done|].
    intros r s [-> Hs]. split; [lia|done].
Qed.

(** C26. A sampled loop of [k] turns ends, when one of [iters] and [threshold] is positive, the
    counters stay within an int, and the other processes leave alone this process and the measures of
    this block.  With no turn, nothing happens.  Otherwise the body ran once per measure that was
    needed, in the first turns of the loop: until [iters] measures were made and, when [threshold] is
    positive, their standard error is below it, or until the loop was over; without a threshold, this
    is exactly the [iters] measures less those made before, at most [k].  Whatever was skipped, what
    is injected at the end is the mean of all the measures, [k] times, and the process is no longer
    sampling. *)
Theorem sampled_loop_ends k fuel i o n :
  turns i k -> (k < fuel)%nat -> same_settings (start o) ->
  0 <= ld_count (start o) -> ld_count (start o) + Z.of_nat k < 2 ^ 31 ->
  runs (S4BXI_SAMPLE_LOOP loop_end loop_iter body global file line iters threshold fuel i)
    (view 0 o n) (fun _ s =>
      if decide (k = 0%nat) then view 0 o n s
      else exists runs_made,
        (dlt (double_of_Z 0) threshold = false ->
         runs_made = Z.min (Z.of_nat k) (Z.max 0 (iters - ld_count (start o)))) /\
        user_runs (sim_calls s) = n + runs_made /\ measures_done o n k (Z.of_nat k) s).
Proof.
  intros Hturns Hfuel Hset Hc Hlt. unfold S4BXI_SAMPLE_LOOP.
  eapply runs_bind; [by apply (count_iterations_turns k); (done || lia)|].
  intros r s [-> Hs]. destruct k as [|k]; cbn [decide decide_rel].
  - inversion Hturns as [? Hend|]; subst. destruct fuel as [|fuel]; [lia|]. revert s Hs. simpl.
    rewrite Hend. eapply runs_bind; [apply sample_exit_idle|]. intros b s [-> Hs]. by exists tt, s.
  - revert s Hs. eapply runs_conseq; [eapply sampled_loop_view; (done || lia || eauto with lia)|done|].
    intros ? s Hd. pose proof Hd as (ps & b & Hlen & Hall & Hstop & Hfin).
    exists (Z.of_nat (length ps)). split; [|split; [|exact Hd]].
    + intros Hno. by eapply measures_without_threshold.
    + destruct Hfin as (? & ? & _ & _ & _ & Hv). exact (v_runs _ _ _ _ Hv).
Qed.
End Sampling.
