(* ===== verification/FlowControl.v ===== *)
(** Theorems about the credit-based flow control of [Node.v]. *)
From S2P Require Import Prelude Portals World Logic Engine Queue Messages Node.

(** ** Reading calls *)

Lemma get_vn_inv msg w vn w' : get_vn msg w = Ok vn w' -> w' = w.
Proof.
  unfold get_vn. intros (x & w1 & [-> _]%load_inv & H)%bind_Ok.
  apply bind_Ok in H as (q & w2 & [-> _]%load_inv & H).
  destruct (vn_of_num _); by inversion H.
Qed.

(** ** One level of credits *)

(** Writing the counters of a node: those of one level, at one key. *)
Definition put_node_count (node : handle) (n : BxiNode) (k : bxi_vn * Z) (c : Z) (w : World)
    : World :=
  w <| w_nodes ::= <[node := n <| nd_flowctrl_node_counts ::= <[k := c]> |>]> |>.
Definition put_process_count (node : handle) (n : BxiNode) (k : bxi_vn * flowctrl_process_id)
    (c : Z) (w : World) : World :=
  w <| w_nodes ::= <[node := n <| nd_flowctrl_process_counts ::= <[k := c]> |>]> |>.

Lemma put_node_count_id node n k c w :
  w_nodes w !! node = Some n -> nd_flowctrl_node_counts n !! k = Some c ->
  put_node_count node n k c w = w.
Proof.
  intros Hn Hc. unfold put_node_count. destruct w, n; unfold over; cbn in *.
  by rewrite (insert_id _ k c Hc), insert_id.
Qed.

Lemma put_process_count_id node n k c w :
  w_nodes w !! node = Some n -> nd_flowctrl_process_counts n !! k = Some c ->
  put_process_count node n k c w = w.
Proof.
  intros Hn Hc. unfold put_process_count. destruct w, n; unfold over; cbn in *.
  by rewrite (insert_id _ k c Hc), insert_id.
Qed.

(** What a level answers: [None] when the counter is negative. *)
Definition level_answer (max : Z) (count : option Z) : option (Z * bool) :=
  let c := default max count in
  if 0 <=? c then Some (c, negb (c =? 0)) else None.

Lemma check_node_level_eq node n vn target max w :
  w_nodes w !! node = Some n -> max <> 0 ->
  check_node_level node vn target max w =
    match level_answer max (nd_flowctrl_node_counts n !! (vn, target)) with
    | Some (c, ok) => Ok ok (put_node_count node n (vn, target) c w)
    | None => Fail (Abort "Node flow control has less than 0 credits")
    end.
Proof.
  intros Hn Hmax. unfold check_node_level, level_answer, ensure_node_count.
  rewrite (proj2 (Z.eqb_neq _ _) Hmax). cbv [mbind M_bind].
  run_load.
  destruct (nd_flowctrl_node_counts n !! (vn, target)) as [c|] eqn:Hc; cbn.
  - destruct (0 <=? c); cbn; [|done]. by rewrite put_node_count_id.
  - unfold update. cbn. rewrite Hn. cbv [mret M_ret]. cbn. by destruct (0 <=? max).
Qed.

Lemma check_process_level_eq node n vn f max w :
  w_nodes w !! node = Some n -> max <> 0 ->
  check_process_level node vn f max w =
    match level_answer max (nd_flowctrl_process_counts n !! (vn, f)) with
    | Some (c, ok) => Ok ok (put_process_count node n (vn, f) c w)
    | None => Fail (Abort "Process flow control has less than 0 credits")
    end.
Proof.
  intros Hn Hmax. unfold check_process_level, level_answer, ensure_process_count.
  rewrite (proj2 (Z.eqb_neq _ _) Hmax). cbv [mbind M_bind].
  run_load.
  destruct (nd_flowctrl_process_counts n !! (vn, f)) as [c|] eqn:Hc; cbn.
  - destruct (0 <=? c); cbn; [|done]. by rewrite put_process_count_id.
  - unfold update. cbn. rewrite Hn. cbv [mret M_ret]. cbn. by destruct (0 <=? max).
Qed.

(** ** The abstract credits

    A message needs a credit at each level that is enabled.  [None] is a level
    that is disabled (a limit of 0); a counter that was never used is full. *)
Definition credit (max : Z) (count : option Z) : option Z :=
  if max =? 0 then None else Some (default max count).
Definition node_credit (cfg : s4bxi_config) (n : BxiNode) (k : bxi_vn * Z) : option Z :=
  credit (max_inflight_to_target cfg) (nd_flowctrl_node_counts n !! k).
Definition process_credit (cfg : s4bxi_config) (n : BxiNode)
    (k : bxi_vn * flowctrl_process_id) : option Z :=
  credit (max_inflight_to_process cfg) (nd_flowctrl_process_counts n !! k).

Definition available (c : option Z) : bool :=
  match c with Some c => 0 <? c | None => true end.
Definition take_credit (ok : bool) (c : option Z) : option Z := if ok then Z.pred <$> c else c.

(** A node without its counters. *)
Definition others (n : BxiNode) : BxiNode :=
  n <| nd_flowctrl_node_counts := ∅ |> <| nd_flowctrl_process_counts := ∅ |>.

(** Two nodes that differ only by the counters at two keys. *)
Definition same_credits_but (cfg : s4bxi_config) (n n' : BxiNode) (k : bxi_vn * Z)
    (f : bxi_vn * flowctrl_process_id) : Prop :=
  (forall k', k' <> k -> node_credit cfg n' k' = node_credit cfg n k') /\
  (forall f', f' <> f -> process_credit cfg n' f' = process_credit cfg n f') /\
  others n' = others n.

Definition not_negative (c : option Z) : Prop :=
  match c with Some c => 0 <= c | None => True end.

Lemma level_answer_credit max count :
  max <> 0 -> not_negative (credit max count) ->
  level_answer max count = Some (default max count, available (credit max count)).
Proof.
  intros Hm. unfold credit, level_answer.
  rewrite (proj2 (Z.eqb_neq _ _) Hm). cbn. intros Hc.
  rewrite (proj2 (Z.leb_le _ _) Hc). do 2 f_equal.
  destruct (Z.eqb_spec (default max count) 0), (Z.ltb_spec 0 (default max count)); cbn; lia.
Qed.

(** ** [check_flowctrl] *)

(** Each level, as a change of the node that leaves its credits alone. *)
Lemma node_level_step node n vn target w :
  let cfg := w_config w in
  w_nodes w !! node = Some n ->
  not_negative (node_credit cfg n (vn, target)) ->
  exists n', check_node_level node vn target (max_inflight_to_target cfg) w =
      Ok (available (node_credit cfg n (vn, target))) (w <| w_nodes ::= <[node := n']> |>) /\
    (forall k, node_credit cfg n' k = node_credit cfg n k) /\
    nd_flowctrl_process_counts n' = nd_flowctrl_process_counts n /\
    others n' = others n /\
    (max_inflight_to_target cfg <> 0 -> is_Some (nd_flowctrl_node_counts n' !! (vn, target))).
Proof.
  cbn. intros Hn Hc. destruct (decide (max_inflight_to_target (w_config w) = 0)) as [H0|H0].
  - exists n. unfold check_node_level, node_credit, credit. rewrite H0. cbn.
    split_and!; try done. destruct w; unfold over; cbn in *. by rewrite insert_id.
  - exists (n <| nd_flowctrl_node_counts ::=
              <[(vn, target) := default (max_inflight_to_target (w_config w))
                                  (nd_flowctrl_node_counts n !! (vn, target))]> |>).
    erewrite check_node_level_eq by done.
    unfold node_credit in *. rewrite level_answer_credit by done.
    split_and!; cbn; [done| |done|done|by rewrite lookup_insert_eq].
    intros k. unfold credit. case_match; [done|]. f_equal.
    destruct (decide (k = (vn, target))) as [->|].
    + by rewrite lookup_insert_eq.
    + by rewrite lookup_insert_ne.
Qed.

Lemma process_level_step node n vn f w :
  let cfg := w_config w in
  w_nodes w !! node = Some n ->
  not_negative (process_credit cfg n (vn, f)) ->
  exists n', check_process_level node vn f (max_inflight_to_process cfg) w =
      Ok (available (process_credit cfg n (vn, f))) (w <| w_nodes ::= <[node := n']> |>) /\
    (forall k, process_credit cfg n' k = process_credit cfg n k) /\
    nd_flowctrl_node_counts n' = nd_flowctrl_node_counts n /\
    others n' = others n /\
    (max_inflight_to_process cfg <> 0 -> is_Some (nd_flowctrl_process_counts n' !! (vn, f))).
Proof.
  cbn. intros Hn Hc. destruct (decide (max_inflight_to_process (w_config w) = 0)) as [H0|H0].
  - exists n. unfold check_process_level, process_credit, credit. rewrite H0. cbn.
    split_and!; try done. destruct w; unfold over; cbn in *. by rewrite insert_id.
  - exists (n <| nd_flowctrl_process_counts ::=
              <[(vn, f) := default (max_inflight_to_process (w_config w))
                                  (nd_flowctrl_process_counts n !! (vn, f))]> |>).
    erewrite check_process_level_eq by done.
    unfold process_credit in *. rewrite level_answer_credit by done.
    split_and!; cbn; [done| |done|done|by rewrite lookup_insert_eq].
    intros k. unfold credit. case_match; [done|]. f_equal.
    destruct (decide (k = (vn, f))) as [->|].
    + by rewrite lookup_insert_eq.
    + by rewrite lookup_insert_ne.
Qed.

(** [get_vn] is total: the network of a message whose request exists. *)
Definition vn_of_msg (type : bxi_msg_type) (service_vn : bool) : bxi_vn :=
  default S4BXI_VN_SERVICE_REQUEST (vn_of_num (vn_of type service_vn)).

Lemma get_vn_eq msg m q w :
  w_msgs w !! msg = Some m -> w_reqs w !! ms_parent_request m = Some q ->
  get_vn msg w = Ok (vn_of_msg (ms_type m) (rq_service_vn q)) w.
Proof.
  intros Hm Hq. unfold get_vn. cbv [mbind M_bind]. run_load. run_load.
  by destruct (ms_type m), (rq_service_vn q).
Qed.

(** Taking the credits once both levels have some. *)
Lemma take_both_credits cfg n k f :
  (max_inflight_to_target cfg <> 0 -> is_Some (nd_flowctrl_node_counts n !! k)) ->
  (max_inflight_to_process cfg <> 0 -> is_Some (nd_flowctrl_process_counts n !! f)) ->
  let n1 := if negb (max_inflight_to_target cfg =? 0)
            then n <| nd_flowctrl_node_counts ::= alter Z.pred k |> else n in
  let n2 := if negb (max_inflight_to_process cfg =? 0)
            then n1 <| nd_flowctrl_process_counts ::= alter Z.pred f |> else n1 in
  node_credit cfg n2 k = take_credit true (node_credit cfg n k) /\
  process_credit cfg n2 f = take_credit true (process_credit cfg n f) /\
  same_credits_but cfg n n2 k f.
Proof.
  intros HT HP. unfold same_credits_but, node_credit, process_credit, credit, take_credit.
  destruct (Z.eqb_spec (max_inflight_to_target cfg) 0) as [|NT],
    (Z.eqb_spec (max_inflight_to_process cfg) 0) as [|NP]; cbn;
    try (destruct (HT NT) as [cT ET]; rewrite ?lookup_alter_eq, ?ET);
    try (destruct (HP NP) as [cP EP]; rewrite ?lookup_alter_eq, ?EP);
    cbn; split_and!; try done; intros ??; by rewrite lookup_alter_ne by done.
Qed.

Lemma put_put_node node n n' w :
  w <| w_nodes ::= <[node := n]> |> <| w_nodes ::= <[node := n']> |> =
  w <| w_nodes ::= <[node := n']> |>.
Proof. unfold over. cbn. by rewrite insert_insert_eq. Qed.

Lemma put_same_node node n w :
  w_nodes w !! node = Some n -> w <| w_nodes ::= <[node := n]> |> = w.
Proof. intros Hn. destruct w; unfold over; cbn in *. by rewrite insert_id. Qed.

Lemma spend_credits_eq (bT bP : bool) node n k f w :
  let w1 := w <| w_nodes ::= <[node := n]> |> in
  let n1 := if bT then n <| nd_flowctrl_node_counts ::= alter Z.pred k |> else n in
  let n2 := if bP then n1 <| nd_flowctrl_process_counts ::= alter Z.pred f |> else n1 in
  (_ ← when bT (update node (over nd_flowctrl_node_counts (alter Z.pred k)));
   _ ← when bP (update node (over nd_flowctrl_process_counts (alter Z.pred f)));
   mret true) w1 = Ok true (w <| w_nodes ::= <[node := n2]> |>).
Proof.
  cbv zeta. cbv [mbind M_bind]. unfold when, update.
  destruct bT, bP; cbn [objects on_objects store_Node]; cbn;
    rewrite ?lookup_insert_eq; cbn; rewrite ?lookup_insert_eq; cbv [mret M_ret];
    rewrite ?put_put_node; done.
Qed.

Section Check.
Context (node msg : handle) (n : BxiNode) (m : BxiMsg) (q : BxiRequest) (ni : BxiNI) (w : World).
Context (Hn : w_nodes w !! node = Some n) (Hm : w_msgs w !! msg = Some m)
  (Hq : w_reqs w !! ms_parent_request m = Some q)
  (Hni : w_nis w !! bmd_ni (rq_md q) = Some ni).

Let cfg := w_config w.
Let vn := vn_of_msg (ms_type m) (rq_service_vn q).
Let k := (vn, ms_target m).
Let fk := flowctrl_key vn (ni_pid ni) (rq_target_pid q) (ms_target m).
Let f := (vn, fk).

Lemma check_flowctrl_exempt :
  nd_e2e_off n = true \/ ms_type m = S4BXI_E2E_ACK \/ ms_retry_count m <> 0 ->
  check_flowctrl node msg w = Ok true w.
Proof.
  intros Hex. unfold check_flowctrl. cbv [mbind M_bind]. do 2 run_load.
  destruct Hex as [-> | [-> | ->%Z.eqb_neq]]; [done| |].
  - rewrite bool_decide_eq_true_2, orb_true_r by done. done.
  - by rewrite orb_true_r.
Qed.

Hypothesis Hon : nd_e2e_off n = false.
Hypothesis Htype : ms_type m <> S4BXI_E2E_ACK.
Hypothesis Hretry : ms_retry_count m = 0.
Hypothesis HcT : not_negative (node_credit cfg n k).
Hypothesis HcP : not_negative (process_credit cfg n f).

Let ok := available (node_credit cfg n k) && available (process_credit cfg n f).

(** Past the node level. *)
Lemma check_flowctrl_after_node n1 :
  let w1 := w <| w_nodes ::= <[node := n1]> |> in
  check_node_level node vn (ms_target m) (max_inflight_to_target cfg) w =
    Ok (available (node_credit cfg n k)) w1 ->
  check_flowctrl node msg w =
    if available (node_credit cfg n k) then
      (process_ok ← check_process_level node vn fk (max_inflight_to_process cfg);
       if negb process_ok then mret false else
       _ ← when (negb (max_inflight_to_target cfg =? 0))
             (update node (over nd_flowctrl_node_counts (alter Z.pred k)));
       _ ← when (negb (max_inflight_to_process cfg =? 0))
             (update node (over nd_flowctrl_process_counts (alter Z.pred f)));
       mret true) w1
    else Ok false w1.
Proof.
  intros w1 E1. unfold check_flowctrl. cbv [mbind M_bind]. do 2 run_load.
  rewrite Hon, (proj2 (Z.eqb_eq _ _) Hretry), bool_decide_eq_false_2 by done. cbn.
  rewrite (get_vn_eq _ _ _ _ Hm Hq). cbv [S4BXI_GLOBAL_CONFIG gets].
  change (vn_of_msg (ms_type m) (rq_service_vn q)) with vn. change (w_config w) with cfg. rewrite E1.
  fold k. destruct (available _); cbn; [|done].
  assert (w_reqs w1 !! ms_parent_request m = Some q) as Hq1 by done.
  assert (w_nis w1 !! bmd_ni (rq_md q) = Some ni) as Hni1 by done.
  by do 2 run_load.
Qed.

Lemma check_flowctrl_takes : exists n',
  check_flowctrl node msg w = Ok ok (w <| w_nodes ::= <[node := n']> |>) /\
  node_credit cfg n' k = take_credit ok (node_credit cfg n k) /\
  process_credit cfg n' f = take_credit ok (process_credit cfg n f) /\
  same_credits_but cfg n n' k f.
Proof.
  destruct (node_level_step node n vn (ms_target m) w Hn HcT)
    as (n1 & E1 & S1 & P1 & W1 & I1).
  set (w1 := w <| w_nodes ::= <[node := n1]> |>) in *.
  assert (w_nodes w1 !! node = Some n1) as Hn1 by apply lookup_insert_eq.
  assert (forall p, process_credit cfg n1 p = process_credit cfg n p) as SP1.
  { intros p. unfold process_credit. by rewrite P1. }
  rewrite (check_flowctrl_after_node n1 E1). fold w1.
  unfold ok. destruct (available (node_credit cfg n k)) eqn:AT; cbn.
  2:{ exists n1. split_and!; [done|by rewrite S1|by rewrite SP1|].
      split_and!; [intros; apply S1|intros; apply SP1|done]. }
  destruct (process_level_step node n1 vn fk w1 Hn1) as (n2 & E2 & S2 & P2 & W2 & I2).
  { cbn. change (w_config w1) with cfg. rewrite SP1. exact HcP. }
  change (w_config w1) with cfg in *.
  assert (w1 <| w_nodes ::= <[node := n2]> |> = w <| w_nodes ::= <[node := n2]> |>) as Ew.
  { unfold w1, over. cbn. by rewrite insert_insert_eq. }
  rewrite Ew in E2. rewrite (bind_run _ _ _ _ _ E2), SP1. fold f. unfold ok.
  destruct (available (process_credit cfg n f)) eqn:AP; cbn.
  2:{ exists n2. split_and!; [done| | |].
      - unfold node_credit. rewrite P2. apply S1.
      - rewrite S2. apply SP1.
      - split_and!; [|intros; rewrite S2; apply SP1|congruence].
        intros k' _. unfold node_credit. rewrite P2. apply S1. }
  rewrite (spend_credits_eq _ _ node n2 k f w).
  destruct (take_both_credits cfg n2 k f) as (T1 & T2 & T3 & T4 & T5); [|done|].
  { rewrite P2. exact I1. }
  eexists. split_and!; [done| | |].
  - rewrite T1, <- S1. unfold node_credit. by rewrite P2.
  - rewrite T2, S2. by rewrite SP1.
  - split_and!; [| |congruence].
    + intros k' Hk. rewrite T3 by done. unfold node_credit. rewrite P2. apply S1.
    + intros f' Hf. rewrite T4, S2 by done. apply SP1.
Qed.
End Check.

(** ** Inversions, without assumption on the world *)

Lemma ensure_node_count_inv node k max w c w' :
  ensure_node_count node k max w = Ok c w' ->
  exists n, w_nodes w !! node = Some n /\ c = default max (nd_flowctrl_node_counts n !! k) /\
    w' = put_node_count node n k c w.
Proof.
  unfold ensure_node_count. intros (n & w1 & [-> Hn]%load_inv & H)%bind_Ok.
  exists n. split; [done|]. destruct (nd_flowctrl_node_counts n !! k) as [c0|] eqn:Hc.
  - injection H as <- <-. split; [done|]. by rewrite put_node_count_id.
  - apply bind_Ok in H as (u & w2 & H & [= <- <-]).
    rewrite (update_Ok _ _ _ n Hn) in H. by injection H as _ <-.
Qed.

Lemma ensure_process_count_inv node k max w c w' :
  ensure_process_count node k max w = Ok c w' ->
  exists n, w_nodes w !! node = Some n /\ c = default max (nd_flowctrl_process_counts n !! k) /\
    w' = put_process_count node n k c w.
Proof.
  unfold ensure_process_count. intros (n & w1 & [-> Hn]%load_inv & H)%bind_Ok.
  exists n. split; [done|]. destruct (nd_flowctrl_process_counts n !! k) as [c0|] eqn:Hc.
  - injection H as <- <-. split; [done|]. by rewrite put_process_count_id.
  - apply bind_Ok in H as (u & w2 & H & [= <- <-]).
    rewrite (update_Ok _ _ _ n Hn) in H. by injection H as _ <-.
Qed.

Lemma assert_inv {S} b e (s : S) u s' : assert b e s = Ok u s' -> b = true /\ s' = s.
Proof. destruct b; [|done]. by intros [= _ ->]. Qed.

(** A level that answers yes has a counter that is positive; the other level's counters are not
    touched. *)
Lemma check_node_level_inv node vn target max w ok w' :
  check_node_level node vn target max w = Ok ok w' -> max <> 0 ->
  exists n c, w_nodes w !! node = Some n /\
    c = default max (nd_flowctrl_node_counts n !! (vn, target)) /\ 0 <= c /\
    ok = negb (c =? 0) /\ w' = put_node_count node n (vn, target) c w.
Proof.
  unfold check_node_level. intros H Hm%Z.eqb_neq. rewrite Hm in H.
  apply bind_Ok in H as (c & w1 & (n & Hn & Hc & ->)%ensure_node_count_inv & H).
  apply bind_Ok in H as (u & w2 & [H0%Z.leb_le ->]%assert_inv & [= <- <-]). eauto 10.
Qed.

Lemma check_process_level_inv node vn f max w ok w' :
  check_process_level node vn f max w = Ok ok w' -> max <> 0 ->
  exists n c, w_nodes w !! node = Some n /\
    c = default max (nd_flowctrl_process_counts n !! (vn, f)) /\ 0 <= c /\
    ok = negb (c =? 0) /\ w' = put_process_count node n (vn, f) c w.
Proof.
  unfold check_process_level. intros H Hm%Z.eqb_neq. rewrite Hm in H.
  apply bind_Ok in H as (c & w1 & (n & Hn & Hc & ->)%ensure_process_count_inv & H).
  apply bind_Ok in H as (u & w2 & [H0%Z.leb_le ->]%assert_inv & [= <- <-]). eauto 10.
Qed.

Lemma release_node_credit_inv node vn target max w u w' :
  release_node_credit node vn target max w = Ok u w' -> max <> 0 ->
  exists n c, w_nodes w !! node = Some n /\ nd_flowctrl_node_counts n !! (vn, target) = Some c /\
    c + 1 <= max /\ w' = put_node_count node n (vn, target) (c + 1) w.
Proof.
  unfold release_node_credit. intros H Hm%Z.eqb_neq. rewrite Hm in H.
  apply bind_Ok in H as (n & w1 & [-> Hn]%load_inv & H).
  destruct (nd_flowctrl_node_counts n !! (vn, target)) as [c|] eqn:Hc; [|done].
  apply bind_Ok in H as (? & w2 & H & [Hle%Z.leb_le ->]%assert_inv).
  rewrite (update_Ok _ _ _ n Hn) in H. injection H as _ <-. eauto 10.
Qed.

Lemma release_process_credit_inv node vn f max w u w' :
  release_process_credit node vn f max w = Ok u w' -> max <> 0 ->
  exists n c, w_nodes w !! node = Some n /\ nd_flowctrl_process_counts n !! (vn, f) = Some c /\
    c + 1 <= max /\ w' = put_process_count node n (vn, f) (c + 1) w.
Proof.
  unfold release_process_credit. intros H Hm%Z.eqb_neq. rewrite Hm in H.
  apply bind_Ok in H as (n & w1 & [-> Hn]%load_inv & H).
  destruct (nd_flowctrl_process_counts n !! (vn, f)) as [c|] eqn:Hc; [|done].
  apply bind_Ok in H as (? & w2 & H & [Hle%Z.leb_le ->]%assert_inv).
  rewrite (update_Ok _ _ _ n Hn) in H. injection H as _ <-. eauto 10.
Qed.

(** ** Flow control respects [evolves] *)

Lemma put_node_count_evolves node n k c w :
  w_nodes w !! node = Some n ->
  (wf w -> node_credits_ok (w_config w) n -> credit_ok (max_inflight_to_target (w_config w)) c) ->
  evolves w (put_node_count node n k c w).
Proof.
  intros Hn Hc. eapply evolves_update_node; [done|]. intros W Hok.
  pose proof Hok as [? ?]. split; [|done]. apply map_Forall_insert_2; auto.
Qed.

Lemma put_process_count_evolves node n k c w :
  w_nodes w !! node = Some n ->
  (wf w -> node_credits_ok (w_config w) n -> credit_ok (max_inflight_to_process (w_config w)) c) ->
  evolves w (put_process_count node n k c w).
Proof.
  intros Hn Hc. eapply evolves_update_node; [done|]. intros W Hok.
  pose proof Hok as [? ?]. split; [done|]. apply map_Forall_insert_2; auto.
Qed.

Lemma default_credit_ok {K} `{Countable K} max (m : gmap K Z) k :
  0 <= max -> map_Forall (fun _ => credit_ok max) m -> credit_ok max (default max (m !! k)).
Proof.
  intros Hmax Hm. destruct (m !! k) eqn:E; cbn; [by eapply Hm|]. unfold credit_ok. lia.
Qed.

Lemma check_node_level_progresses node vn target w :
  progresses (check_node_level node vn target (max_inflight_to_target (w_config w))) w.
Proof.
  intros ok w' H. destruct (decide (max_inflight_to_target (w_config w) = 0)) as [H0|H0].
  - unfold check_node_level in H. rewrite H0 in H. by injection H as _ <-.
  - destruct (check_node_level_inv _ _ _ _ _ _ _ H H0) as (n & c & Hn & -> & ? & ? & ->).
    apply put_node_count_evolves; [done|]. intros [] [? ?]. by apply default_credit_ok.
Qed.

Lemma check_process_level_progresses node vn f w :
  progresses (check_process_level node vn f (max_inflight_to_process (w_config w))) w.
Proof.
  intros ok w' H. destruct (decide (max_inflight_to_process (w_config w) = 0)) as [H0|H0].
  - unfold check_process_level in H. rewrite H0 in H. by injection H as _ <-.
  - destruct (check_process_level_inv _ _ _ _ _ _ _ H H0) as (n & c & Hn & -> & ? & ? & ->).
    apply put_process_count_evolves; [done|]. intros [] [? ?]. by apply default_credit_ok.
Qed.

Lemma release_node_credit_progresses node vn target w :
  progresses (release_node_credit node vn target (max_inflight_to_target (w_config w))) w.
Proof.
  intros u w' H. destruct (decide (max_inflight_to_target (w_config w) = 0)) as [H0|H0].
  - unfold release_node_credit in H. rewrite H0 in H. by injection H as _ <-.
  - destruct (release_node_credit_inv _ _ _ _ _ _ _ H H0) as (n & c & Hn & Hc & ? & ->).
    apply put_node_count_evolves; [done|]. intros _ [Hok _].
    destruct (Hok _ _ Hc). unfold credit_ok. lia.
Qed.

Lemma release_process_credit_progresses node vn f w :
  progresses (release_process_credit node vn f (max_inflight_to_process (w_config w))) w.
Proof.
  intros u w' H. destruct (decide (max_inflight_to_process (w_config w) = 0)) as [H0|H0].
  - unfold release_process_credit in H. rewrite H0 in H. by injection H as _ <-.
  - destruct (release_process_credit_inv _ _ _ _ _ _ _ H H0) as (n & c & Hn & Hc & ? & ->).
    apply put_process_count_evolves; [done|]. intros _ [_ Hok].
    destruct (Hok _ _ Hc). unfold credit_ok. lia.
Qed.

Definition positive {K} `{Countable K} (m : gmap K Z) (k : K) : Prop :=
  exists c, m !! k = Some c /\ 0 < c.

Lemma alter_pred_ok {K} `{Countable K} max (m : gmap K Z) k :
  positive m k -> map_Forall (fun _ => credit_ok max) m ->
  map_Forall (fun _ => credit_ok max) (alter Z.pred k m).
Proof.
  intros (c & Hc & Hp) Hm k' c'. destruct (decide (k' = k)) as [->|].
  - rewrite lookup_alter_eq, Hc. intros [= <-]. destruct (Hm _ _ Hc). unfold credit_ok. lia.
  - rewrite lookup_alter_ne by done. apply Hm.
Qed.

Lemma spend_credits_progresses (bT bP : bool) node n k f w :
  w_nodes w !! node = Some n ->
  (bT = true -> positive (nd_flowctrl_node_counts n) k) ->
  (bP = true -> positive (nd_flowctrl_process_counts n) f) ->
  progresses (_ ← when bT (update node (over nd_flowctrl_node_counts (alter Z.pred k)));
              _ ← when bP (update node (over nd_flowctrl_process_counts (alter Z.pred f)));
              mret true) w.
Proof.
  intros Hn HT HP ok w' H. rewrite <- (put_same_node node n w Hn) in H.
  rewrite spend_credits_eq in H. injection H as _ <-.
  eapply evolves_update_node; [done|]. intros _ [? ?].
  destruct bT, bP; split; cbn; auto using alter_pred_ok.
Qed.

(** After both levels said yes, both counters are positive. *)
Lemma levels_positive node vn target maxT w w1 f maxP w2 :
  check_node_level node vn target maxT w = Ok true w1 ->
  check_process_level node vn f maxP w1 = Ok true w2 ->
  (exists n, w_nodes w !! node = Some n) ->
  exists n, w_nodes w2 !! node = Some n /\
    (negb (maxT =? 0) = true -> positive (nd_flowctrl_node_counts n) (vn, target)) /\
    (negb (maxP =? 0) = true -> positive (nd_flowctrl_process_counts n) (vn, f)).
Proof.
  intros H1 H2 [n Hn].
  assert (exists n1, w_nodes w1 !! node = Some n1 /\
    (negb (maxT =? 0) = true -> positive (nd_flowctrl_node_counts n1) (vn, target)))
    as (n1 & Hn1 & HT).
  { destruct (Z.eqb_spec maxT 0) as [E|E]; cbn.
    - subst maxT. injection H1 as <-. by exists n.
    - destruct (check_node_level_inv _ _ _ _ _ _ _ H1 E) as (n0 & c & _ & _ & ? & Hok & ->).
      eexists. split; [apply lookup_insert_eq|]. intros _. exists c. cbn.
      rewrite lookup_insert_eq. split; [done|].
      destruct (Z.eqb_spec c 0); [done|]. lia. }
  destruct (Z.eqb_spec maxP 0) as [E|E]; cbn.
  - subst maxP. injection H2 as <-. by exists n1.
  - destruct (check_process_level_inv _ _ _ _ _ _ _ H2 E)
      as (n2 & c & Hn2 & _ & ? & Hok & ->).
    eexists. split; [apply lookup_insert_eq|]. split.
    + assert (n2 = n1) as -> by congruence. exact HT.
    + intros _. exists c. cbn. rewrite lookup_insert_eq. split; [done|].
      destruct (Z.eqb_spec c 0); [done|]. lia.
Qed.

Lemma check_flowctrl_progresses node msg w : progresses (check_flowctrl node msg) w.
Proof.
  unfold check_flowctrl. apply keeps_bind_load. intros n Hn.
  apply keeps_bind_load. intros m Hm. destruct (_ || _); [by apply (keeps_ret evolves)|].
  apply keeps_bind_read. intros vn w0 H0. apply get_vn_inv in H0 as ->. split; [done|].
  apply keeps_bind_gets. apply (keeps_bind evolves); [apply check_node_level_progresses|].
  intros node_ok w1 H1.
  destruct node_ok; [|by apply (keeps_ret evolves)]. cbv beta iota delta [negb].
  apply keeps_bind_gets. apply keeps_bind_load. intros q Hq. apply keeps_bind_load.
  intros ni Hni. cbv zeta.
  apply (keeps_bind evolves); [apply check_process_level_progresses|]. intros process_ok w2 H2.
  destruct process_ok; [|by apply (keeps_ret evolves)]. cbv beta iota delta [negb].
  destruct (levels_positive _ _ _ _ _ _ _ _ _ H1 H2 (ex_intro _ n Hn)) as (n2 & Hn2 & HT & HP).
  by apply (spend_credits_progresses _ _ node n2).
Qed.

(** ** Properties *)

(** The messages flow control does not apply to. *)
Definition exempt (n : BxiNode) (m : BxiMsg) : bool :=
  nd_e2e_off n || bool_decide (ms_type m = S4BXI_E2E_ACK) || negb (ms_retry_count m =? 0).

Lemma exempt_false n m :
  exempt n m = false ->
  nd_e2e_off n = false /\ ms_type m <> S4BXI_E2E_ACK /\ ms_retry_count m = 0.
Proof.
  unfold exempt. intros [[H1 H2]%orb_false_elim H3]%orb_false_elim.
  split_and!; [done|by apply bool_decide_eq_false in H2|].
  by apply negb_false_iff, Z.eqb_eq in H3.
Qed.

Lemma exempt_true n m :
  exempt n m = true ->
  nd_e2e_off n = true \/ ms_type m = S4BXI_E2E_ACK \/ ms_retry_count m <> 0.
Proof.
  unfold exempt. rewrite !orb_true_iff, bool_decide_eq_true, negb_true_iff, Z.eqb_neq. tauto.
Qed.

Lemma credit_not_negative {K} `{Countable K} max (m : gmap K Z) k :
  0 <= max -> map_Forall (fun _ => credit_ok max) m -> not_negative (credit max (m !! k)).
Proof.
  intros Hmax Hm. unfold credit. case_match; [done|]. cbn. by apply default_credit_ok.
Qed.

Lemma take_none c : take_credit false c = c.
Proof. done. Qed.

(** C10. [check_flowctrl] implements the credits it promises.  A message that is exempt (E2E off,
    E2E acknowledgement, retransmission) goes and costs nothing.  Another goes exactly when the
    node level and the process level, each when it is enabled, have a credit left, and then takes
    one at each; when it may not go it takes none.  The credits of every other destination, and
    the messages that wait, do not change. *)
Theorem check_flowctrl_refines node msg n m q ni w :
  w_nodes w !! node = Some n -> w_msgs w !! msg = Some m ->
  w_reqs w !! ms_parent_request m = Some q -> w_nis w !! bmd_ni (rq_md q) = Some ni -> wf w ->
  let cfg := w_config w in
  let vn := vn_of_msg (ms_type m) (rq_service_vn q) in
  let k := (vn, ms_target m) in
  let f := (vn, flowctrl_key vn (ni_pid ni) (rq_target_pid q) (ms_target m)) in
  let ok := available (node_credit cfg n k) && available (process_credit cfg n f) in
  let spends := negb (exempt n m) && ok in
  exists n',
    check_flowctrl node msg w = Ok (exempt n m || ok) (w <| w_nodes ::= <[node := n']> |>) /\
    node_credit cfg n' k = take_credit spends (node_credit cfg n k) /\
    process_credit cfg n' f = take_credit spends (process_credit cfg n f) /\
    same_credits_but cfg n n' k f.
Proof.
  intros Hn Hm Hq Hni []. cbv zeta. destruct (exempt n m) eqn:He; cbn.
  - exists n. rewrite (put_same_node _ _ _ Hn).
    split_and!; [|done|done|done]. eapply check_flowctrl_exempt; [done..|]. by apply exempt_true.
  - destruct (exempt_false _ _ He) as (? & ? & ?). destruct (wf_nodes _ _ Hn) as [HT HP].
    by apply check_flowctrl_takes; [..|apply credit_not_negative|apply credit_not_negative].
Qed.

(** Giving a credit back. *)
Definition give_credit (c : option Z) : option Z := Z.succ <$> c.

Lemma release_node_credit_gives node n k w :
  let cfg := w_config w in
  w_nodes w !! node = Some n ->
  (max_inflight_to_target cfg <> 0 -> exists c, nd_flowctrl_node_counts n !! k = Some c /\
     c < max_inflight_to_target cfg) ->
  exists n', release_node_credit node (fst k) (snd k) (max_inflight_to_target cfg) w =
      Ok tt (w <| w_nodes ::= <[node := n']> |>) /\
    node_credit cfg n' k = give_credit (node_credit cfg n k) /\
    (forall k', k' <> k -> node_credit cfg n' k' = node_credit cfg n k') /\
    nd_flowctrl_process_counts n' = nd_flowctrl_process_counts n /\
    others n' = others n.
Proof.
  cbn. intros Hn Hc. unfold release_node_credit, node_credit, credit.
  destruct (Z.eqb_spec (max_inflight_to_target (w_config w)) 0) as [|Hne].
  - exists n. by rewrite (put_same_node _ _ _ Hn).
  - destruct (Hc Hne) as (c & Hk & Hlt). destruct k as [vn t]. cbn in *.
    exists (n <| nd_flowctrl_node_counts ::= <[(vn, t) := c + 1]> |>). cbn [fst snd].
    step_load. rewrite Hk. step_update. split_and!; try done.
    + unfold assert. by rewrite (proj2 (Z.leb_le _ _)) by lia.
    + cbn. rewrite lookup_insert_eq. by f_equal.
    + intros k' Hk'. cbn. by rewrite lookup_insert_ne.
Qed.

Lemma release_process_credit_gives node n f w :
  let cfg := w_config w in
  w_nodes w !! node = Some n ->
  (max_inflight_to_process cfg <> 0 -> exists c, nd_flowctrl_process_counts n !! f = Some c /\
     c < max_inflight_to_process cfg) ->
  exists n', release_process_credit node (fst f) (snd f) (max_inflight_to_process cfg) w =
      Ok tt (w <| w_nodes ::= <[node := n']> |>) /\
    process_credit cfg n' f = give_credit (process_credit cfg n f) /\
    (forall f', f' <> f -> process_credit cfg n' f' = process_credit cfg n f') /\
    nd_flowctrl_node_counts n' = nd_flowctrl_node_counts n /\
    others n' = others n.
Proof.
  cbn. intros Hn Hc. unfold release_process_credit, process_credit, credit.
  destruct (Z.eqb_spec (max_inflight_to_process (w_config w)) 0) as [|Hne].
  - exists n. by rewrite (put_same_node _ _ _ Hn).
  - destruct (Hc Hne) as (c & Hk & Hlt). destruct f as [vn t]. cbn in *.
    exists (n <| nd_flowctrl_process_counts ::= <[(vn, t) := c + 1]> |>). cbn [fst snd].
    step_load. rewrite Hk. step_update. split_and!; try done.
    + unfold assert. by rewrite (proj2 (Z.leb_le _ _)) by lia.
    + cbn. rewrite lookup_insert_eq. by f_equal.
    + intros k' Hk'. cbn. by rewrite lookup_insert_ne.
Qed.

(** The process identifiers with which a credit is given back, as [handle_bxi_ack] computes them
    from the message that was acknowledged. *)
Definition release_pids (vn : bxi_vn) (pid target_pid : Z) : Z * Z :=
  if is_request_vn vn then (pid, target_pid) else (target_pid, pid).

Lemma resume_nobody `{E : Env} node n vn w :
  w_nodes w !! node = Some n -> default [] (nd_flowctrl_waiting_messages n !! vn) = [] ->
  env_fuel <> 0%nat -> resume_waiting_tx_actors node vn w = Ok tt w.
Proof.
  intros Hn Hw Hf. unfold resume_waiting_tx_actors. destruct env_fuel as [|k]; [done|].
  cbn [resume_fuel]. step_load. by rewrite Hw.
Qed.

(** How a credit has changed from one moment to another. *)
Definition since (before now : option Z) : option Z := a ← before; b ← now; Some (b - a).

Lemma since_round_trip cfg max (c0 c1 c2 c3 : option Z) :
  c0 = credit max cfg -> c1 = take_credit true c0 -> c3 = give_credit c2 ->
  (max = 0 -> c2 = None) -> since c0 c3 = since c1 c2.
Proof.
  intros -> -> -> Hn. unfold credit. destruct (Z.eqb_spec max 0) as [Hm|Hm].
  - by rewrite Hn.
  - destruct c2; cbn; [f_equal; lia|done].
Qed.

Section RoundTrip.
Context `{E : Env}.

(** The world in which the actor that releases an entry goes on, after its call to SimGrid. *)
Definition resumed (node : handle) (w : World) : World :=
  env_step (SemRelease (SemE2E node)) (w <| w_trace ::= cons (SemRelease (SemE2E node)) |>).

(** A credit of the destination is still out: its counter is there and is not full. *)
Definition out {K} `{Countable K} (max : Z) (m : gmap K Z) (k : K) : Prop :=
  max <> 0 -> exists c, m !! k = Some c /\ c < max.

(** A node that nobody waits for, and whose counters are not full, gets one credit at each
    level. *)
Lemma release_e2e_entry_gives node n n' k f w :
  let cfg := w_config (resumed node w) in
  fst f = fst k -> dst_nid (snd f) = snd k -> env_fuel <> 0%nat ->
  w_nodes w !! node = Some n -> nd_e2e_off n = false ->
  w_nodes (resumed node w) !! node = Some n' ->
  default [] (nd_flowctrl_waiting_messages n' !! fst k) = [] ->
  out (max_inflight_to_target cfg) (nd_flowctrl_node_counts n') k ->
  out (max_inflight_to_process cfg) (nd_flowctrl_process_counts n') f ->
  exists w2 n2, release_e2e_entry node (snd k) (fst k) (src_pid (snd f)) (dst_pid (snd f)) w = Ok tt w2 /\
    w_nodes w2 !! node = Some n2 /\
    node_credit cfg n2 k = give_credit (node_credit cfg n' k) /\
    (forall k', k' <> k -> node_credit cfg n2 k' = node_credit cfg n' k') /\
    process_credit cfg n2 f = give_credit (process_credit cfg n' f) /\
    (forall f', f' <> f -> process_credit cfg n2 f' = process_credit cfg n' f').
Proof.
  destruct k as [vn nid], f as [vn' [src dst nid']]. cbn. intros -> -> Hfuel Hn Hoff Hn2 Hwait HT HP.
  set (w1 := resumed node w) in *. set (cfg := w_config w1) in *.
  set (f := (vn, mk_fpid src dst nid)) in *.
  destruct (release_node_credit_gives node n' (vn, nid) w1 Hn2 HT) as (n3 & E3 & G3 & K3 & P3 & O3).
  pose (w3 := w1 <| w_nodes ::= <[node := n3]> |>).
  assert (w_nodes w3 !! node = Some n3) as Hn3 by apply lookup_insert_eq.
  destruct (release_process_credit_gives node n3 f w3 Hn3) as (n4 & E4 & G4 & F4 & P4 & O4).
  { rewrite P3. exact HP. }
  pose (w4 := w3 <| w_nodes ::= <[node := n4]> |>).
  assert (w_nodes w4 !! node = Some n4) as Hn4 by apply lookup_insert_eq.
  assert (default [] (nd_flowctrl_waiting_messages n4 !! vn) = []) as Hw4.
  { assert (others n4 = others n') as Ho by congruence.
    by replace (nd_flowctrl_waiting_messages n4) with (nd_flowctrl_waiting_messages n') by by injection Ho. }
  change (w_config w3) with cfg in *. fold cfg in E3, G3, K3.
  exists w4, n4. split_and!; [|done| | | |].
  - unfold release_e2e_entry. step_load. rewrite Hoff.
    rewrite (bind_run _ _ _ tt w1) by done.
    rewrite (bind_run _ _ _ (max_inflight_to_target cfg) w1) by done.
    rewrite (bind_run _ _ _ tt w3) by exact E3.
    rewrite (bind_run _ _ _ (max_inflight_to_process cfg) w3) by done.
    rewrite (bind_run _ _ _ tt w4) by exact E4.
    unfold when. case_match; [|done]. by eapply resume_nobody.
  - rewrite <- G3. unfold node_credit. by rewrite P4.
  - intros k' Hk. rewrite <- K3 by done. unfold node_credit. by rewrite P4.
  - etransitivity; [exact G4|]. unfold process_credit. by rewrite P3.
  - intros f' Hf. etransitivity; [exact (F4 f' Hf)|]. unfold process_credit. by rewrite P3.
Qed.

Context (node msg : handle) (n : BxiNode) (m : BxiMsg) (q : BxiRequest) (ni : BxiNI) (w : World).

End RoundTrip.
