(* ===== verification/Progress.v ===== *)
(** Every operation of the simulator respects [evolves], whatever the other
    actors do at its SimGrid calls as long as they respect it too. *)
From S2P Require Import Prelude Portals World Logic Engine Queue Messages Node Counters.
From S2P Require Import Entries E2E Atomics NicActor Initiator Target MainActor FlowControl.

(** ** Automation *)

Create HintDb progress discriminated.
#[export] Hint Constants Opaque : progress.
#[export] Hint Resolve keeps_ret keeps_fail keeps_load keeps_gets keeps_assert keeps_of_option
  progresses_sim progresses_new_unwatched progresses_free_unwatched progresses_update_unwatched
  progresses_new_req progresses_free_req progresses_free_msg progresses_free_me : progress.
#[export] Hint Extern 0 (PreOrder _) => typeclasses eauto : progress.
#[export] Hint Extern 0 (Unwatched _) => typeclasses eauto : progress.
#[export] Hint Extern 0 (Rely _) => typeclasses eauto : progress.
#[export] Hint Extern 2 (keeps _ (update _ _) _) =>
  first [ apply progresses_update_req; intros; constructor; cbn; (done || auto)
        | apply progresses_update_msg; intros; cbn; by auto
        | apply progresses_update_node; intros; cbn; done
        | apply progresses_update_me; intros; cbn; done ] : progress.
#[export] Hint Extern 1 (keeps _ (modify _) _) =>
  apply keeps_modify; apply evolves_frame; done : progress.

Lemma keeps_bind_cast R {B} p r (f : BxiRequest -> SM B) w :
  (forall q, w_reqs w !! r = Some q -> p (rq_class q) = true -> keeps R (f q) w) ->
  keeps R (q ← cast_request p r; f q) w.
Proof.
  intros Hf. unfold cast_request. apply keeps_bind_assoc, keeps_bind_load. intros q Hq.
  apply keeps_bind_assoc, keeps_bind_assert. intros Hp. apply keeps_bind_ret. auto.
Qed.

Lemma keeps_use R {A} (c : SM A) w a w' : keeps R c w -> c w = Ok a w' -> R w w'.
Proof. intros Hk. apply Hk. Qed.

(** One step of the walk through an operation; what is left is a call without a lemma. *)
Ltac walk_step :=
  lazymatch goal with
  | |- keeps ?R (@mbind _ _ _ _ _ (@mbind _ _ _ _ _ _)) _ => apply (keeps_bind_assoc R)
  | |- keeps ?R (@mbind _ _ _ _ _ (load _)) _ => apply (keeps_bind_load R); intros ??
  | |- keeps ?R (@mbind _ _ _ _ _ (cast_request _ _)) _ => apply (keeps_bind_cast R); intros ???
  | |- keeps ?R (@mbind _ _ _ _ _ (gets _)) _ => apply (keeps_bind_gets R)
  | |- keeps ?R (@mbind _ _ _ _ _ (S4BXI_GLOBAL_CONFIG _)) _ => apply (keeps_bind_gets R)
  | |- keeps ?R (@mbind _ _ _ _ _ (assert _ _)) _ => apply (keeps_bind_assert R); intros ?
  | |- keeps ?R (@mbind _ _ _ _ _ (of_option _ _)) _ => apply (keeps_bind_of_option R); intros ??
  | |- keeps ?R (@mbind _ _ _ _ _ (mret _)) _ => apply (keeps_bind_ret R)
  | |- keeps ?R (@mbind _ _ _ _ _ _) _ => apply (keeps_bind R); [|intros ???]
  | |- keeps ?R (when _ _) _ => apply (keeps_when R); intros ?
  | |- keeps ?R (for_each _ _) _ => apply (keeps_for_each R); intros ???
  | |- keeps ?R (let x := ?e in _) _ => cbv zeta
  | |- keeps ?R (match ?x with _ => _ end) _ => destruct x eqn:?
  end; cbv beta.
Ltac walk := intros; repeat first [ solve [auto 4 with progress] | walk_step ].

(** ** Calls that do not change the progress of any request *)

Definition same_states (w w' : World) : Prop := forall r q', w_reqs w' !! r = Some q' ->
  exists q, w_reqs w !! r = Some q /\ rq_process_state q' = rq_process_state q.

#[export] Instance same_states_preorder : PreOrder same_states.
Proof.
  split.
  - intros w r q ?. eauto.
  - intros w1 w2 w3 H1 H2 r q3 (q2 & H & ->)%H2. by apply H1 in H.
Qed.

Lemma same_states_frame w w' : w_reqs w' = w_reqs w -> same_states w w'.
Proof. intros E r q'. rewrite E. eauto. Qed.

Lemma same_states_req w h q q' :
  w_reqs w !! h = Some q -> rq_process_state q' = rq_process_state q ->
  same_states w (w <| w_reqs ::= <[h := q']> |>).
Proof.
  intros Hq He r q2. cbn. destruct (decide (r = h)) as [->|].
  - rewrite lookup_insert_eq. intros [= <-]. eauto.
  - rewrite lookup_insert_ne by done. eauto.
Qed.

#[export] Hint Extern 2 (keeps same_states (update _ _) _) =>
  apply keeps_update; intros;
  first [ by apply same_states_frame | by eapply same_states_req ] : progress.
#[export] Hint Extern 2 (keeps same_states (new (T := BxiMsg) _) _) =>
  by intros ?? [= _ <-]; apply same_states_frame : progress.

Section SameStates.
Context `{E : Env}.

Lemma first_match_states l q w : keeps same_states (first_match l q) w.
Proof. induction l; cbn [first_match]; walk. Qed.
Hint Resolve first_match_states : progress.
Lemma walk_through_lists_states pt msg w : keeps same_states (walk_through_lists pt msg) w.
Proof. unfold walk_through_lists. walk. Qed.
Hint Resolve walk_through_lists_states : progress.
Lemma match_in_nis_states nis msg r w : keeps same_states (match_in_nis nis msg r) w.
Proof. revert w. induction nis; intros w; cbn [match_in_nis]; walk. Qed.
Hint Resolve match_in_nis_states : progress.
Lemma match_entry_states n msg w : keeps same_states (match_entry n msg) w.
Proof. unfold match_entry. walk. Qed.
Hint Resolve match_entry_states : progress.
Lemma answer_msg_states msg t w : keeps same_states (answer_msg msg t) w.
Proof. unfold answer_msg, BxiMsg_copy, incr_msg_ref_count, set_msg. walk. Qed.
Hint Resolve answer_msg_states : progress.
Lemma new_response_states n msg t w : keeps same_states (new_response n msg t) w.
Proof. unfold new_response, set_msg. walk. Qed.

(** A request that was not received yet has not been touched meanwhile. *)
Lemma created_after w w' r :
  same_states w w' ->
  (forall q, w_reqs w !! r = Some q -> rq_process_state q = S4BXI_REQ_CREATED) ->
  forall q, w_reqs w' !! r = Some q -> rq_process_state q = S4BXI_REQ_CREATED.
Proof. intros HS Hc q' (q & Hq & ->)%HS. eauto. Qed.
End SameStates.

Section Progress.
Context `{E : Env, !Rely E}.
Implicit Types (w : World).

(** ** Engine, queues, messages *)

Lemma BxiEngine_log_progresses l w : progresses (BxiEngine_log l) w.
Proof. unfold BxiEngine_log, log_write. walk. Qed.
Hint Resolve BxiEngine_log_progresses : progress.

Lemma with_log_progresses t i g body w :
  (forall w', progresses body w') -> progresses (with_log t i g body) w.
Proof. intros Hb. unfold with_log. walk. Qed.
Hint Resolve with_log_progresses : progress.

Lemma get_random_mailbox_progresses w : progresses get_random_mailbox w.
Proof. unfold get_random_mailbox. walk. Qed.
Lemma free_random_mailbox_progresses m w : progresses (free_random_mailbox m) w.
Proof. unfold free_random_mailbox. walk. Qed.
Hint Resolve get_random_mailbox_progresses free_random_mailbox_progresses : progress.

Lemma BxiQueue_new_progresses w : progresses BxiQueue_new w.
Proof. unfold BxiQueue_new. walk. Qed.
Lemma BxiQueue_new_mailbox_progresses m w : progresses (BxiQueue_new_mailbox m) w.
Proof. unfold BxiQueue_new_mailbox. walk. Qed.
Lemma BxiQueue_put_progresses q m size async w : progresses (BxiQueue_put q m size async) w.
Proof. unfold BxiQueue_put. walk. Qed.
Lemma BxiQueue_get_progresses q w : progresses (BxiQueue_get q) w.
Proof. unfold BxiQueue_get. walk. Qed.
Hint Resolve BxiQueue_new_progresses BxiQueue_new_mailbox_progresses BxiQueue_put_progresses
  BxiQueue_get_progresses : progress.

Lemma cast_request_progresses p r w : progresses (cast_request p r) w.
Proof. unfold cast_request. walk. Qed.
Lemma incr_msg_ref_count_progresses r w : progresses (incr_msg_ref_count r) w.
Proof. unfold incr_msg_ref_count. walk. Qed.
Hint Resolve cast_request_progresses incr_msg_ref_count_progresses : progress.

Lemma new_msg_progresses m w :
  (wf w -> msg_retries_ok (w_config w) m) -> progresses (new (T := BxiMsg) m) w.
Proof. apply progresses_new_msg. Qed.

Lemma BxiMsg_new_progresses i t ty size r w : progresses (BxiMsg_new i t ty size r) w.
Proof.
  unfold BxiMsg_new. apply (keeps_bind evolves); [|walk].
  apply progresses_new_msg. intros []. unfold msg_retries_ok. cbn. lia.
Qed.

Lemma BxiMsg_copy_progresses m w : progresses (BxiMsg_copy m) w.
Proof.
  unfold BxiMsg_copy. walk_step. apply (keeps_bind evolves); [|walk].
  apply progresses_new_msg. intros W. exact (wf_msgs w W m _ ltac:(eassumption)).
Qed.
Hint Resolve BxiMsg_new_progresses BxiMsg_copy_progresses : progress.

Lemma release_parent_request_progresses r w : progresses (release_parent_request r) w.
Proof. unfold release_parent_request. walk. Qed.
Hint Resolve release_parent_request_progresses : progress.

Lemma destroy_msg_progresses k m w :
  (forall h w', progresses (k h) w') -> progresses (destroy_msg k m) w.
Proof. intros Hk. unfold destroy_msg. walk. Qed.

Lemma unref_fuel_progresses n m w : progresses (unref_fuel n m) w.
Proof.
  revert m w. induction n as [|n IH]; intros m w; cbn [unref_fuel]; [walk|].
  walk. apply destroy_msg_progresses. auto.
Qed.
Lemma unref_progresses m w : progresses (unref m) w.
Proof. apply unref_fuel_progresses. Qed.
Hint Resolve unref_progresses : progress.
Lemma BxiMsg_delete_progresses m w : progresses (BxiMsg_delete m) w.
Proof. apply destroy_msg_progresses. walk. Qed.
Lemma get_vn_progresses m w : progresses (get_vn m) w.
Proof. unfold get_vn. walk. Qed.
Lemma clear_fuel_progresses n q w : progresses (clear_fuel n q) w.
Proof. revert w. induction n; intros w; cbn [clear_fuel]; walk. Qed.
Hint Resolve clear_fuel_progresses BxiMsg_delete_progresses get_vn_progresses : progress.
Lemma BxiQueue_clear_progresses q w : progresses (BxiQueue_clear q) w.
Proof. unfold BxiQueue_clear. walk. Qed.
Hint Resolve BxiQueue_clear_progresses : progress.

(** ** Nodes *)

Lemma S4BXI_GLOBAL_CONFIG_progresses {A} (g : _ -> A) w :
  progresses (S4BXI_GLOBAL_CONFIG g) w.
Proof. unfold S4BXI_GLOBAL_CONFIG. walk. Qed.
Hint Resolve S4BXI_GLOBAL_CONFIG_progresses : progress.
Lemma S4BXI_CONFIG_AND_progresses n l g w : progresses (S4BXI_CONFIG_AND n l g) w.
Proof. unfold S4BXI_CONFIG_AND. walk. Qed.
Lemma S4BXI_CONFIG_OR_progresses n l g w : progresses (S4BXI_CONFIG_OR n l g) w.
Proof. unfold S4BXI_CONFIG_OR. walk. Qed.
Lemma pci_transfer_progresses n s d t w : progresses (pci_transfer n s d t) w.
Proof. unfold pci_transfer. walk. Qed.
Lemma pci_transfer_init_progresses n s d t w : progresses (pci_transfer_init n s d t) w.
Proof. unfold pci_transfer_init. walk. Qed.
Hint Resolve S4BXI_CONFIG_AND_progresses S4BXI_CONFIG_OR_progresses pci_transfer_progresses
  pci_transfer_init_progresses : progress.
Lemma pci_transfer_async_progresses n s d t b w : progresses (pci_transfer_async n s d t b) w.
Proof. unfold pci_transfer_async. walk. Qed.
Lemma issue_event_progresses n eq ev w : progresses (issue_event n eq ev) w.
Proof. unfold issue_event. walk. Qed.
Lemma acquire_e2e_entry_progresses n m w : progresses (acquire_e2e_entry n m) w.
Proof. unfold acquire_e2e_entry. walk. Qed.
Lemma resume_fuel_progresses k n vn w : progresses (resume_fuel k n vn) w.
Proof. revert w. induction k; intros w; cbn [resume_fuel]; walk. Qed.
Hint Resolve pci_transfer_async_progresses issue_event_progresses acquire_e2e_entry_progresses
  resume_fuel_progresses : progress.
Lemma release_e2e_entry_progresses n t vn sp dp w :
  progresses (release_e2e_entry n t vn sp dp) w.
Proof.
  unfold release_e2e_entry, resume_waiting_tx_actors.
  walk_step. destruct (nd_e2e_off _); [walk|]. walk_step; [walk|]. walk_step.
  walk_step; [apply release_node_credit_progresses|]. walk_step.
  walk_step; [apply release_process_credit_progresses|]. walk.
Qed.
Hint Resolve release_e2e_entry_progresses check_flowctrl_progresses : progress.

(** ** Counters and event queues *)

Lemma BxiCT_new_progresses w : progresses BxiCT_new w.
Proof. unfold BxiCT_new. walk. Qed.
Lemma wake_up_progresses a w : progresses (wake_up a) w.
Proof. unfold wake_up. walk. Qed.
Hint Resolve BxiCT_new_progresses wake_up_progresses : progress.
Lemma on_update_fuel_progresses k ct i w : progresses (on_update_fuel k ct i) w.
Proof. revert i w. induction k; intros i w; cbn [on_update_fuel]; walk. Qed.
Hint Resolve on_update_fuel_progresses : progress.
Lemma on_update_progresses ct w : progresses (on_update ct) w.
Proof. unfold on_update. walk. Qed.
Hint Resolve on_update_progresses : progress.
Lemma increment_success_progresses ct a w : progresses (increment_success ct a) w.
Proof. unfold increment_success. walk. Qed.
Lemma set_value_progresses ct a w : progresses (set_value ct a) w.
Proof. unfold set_value. walk. Qed.
Lemma BxiCT_increment_progresses ct a w : progresses (BxiCT_increment ct a) w.
Proof. unfold BxiCT_increment. walk. Qed.
Lemma BxiCT_wait_progresses ct t w : progresses (BxiCT_wait ct t) w.
Proof. unfold BxiCT_wait. walk. Qed.
Lemma find_ready_progresses i cts ts w : progresses (find_ready i cts ts) w.
Proof. revert i ts. induction cts; intros i [|t ts]; cbn [find_ready]; walk. Qed.
Lemma post_waiters_progresses cts ts w : progresses (post_waiters cts ts) w.
Proof. revert ts w. induction cts; intros [|t ts] w; cbn [post_waiters]; walk. Qed.
Hint Resolve increment_success_progresses set_value_progresses BxiCT_increment_progresses
  BxiCT_wait_progresses find_ready_progresses post_waiters_progresses : progress.
Lemma BxiCT_poll_progresses cts ts t w : progresses (BxiCT_poll cts ts t) w.
Proof. unfold BxiCT_poll. walk. Qed.
Lemma BxiEQ_new_progresses w : progresses BxiEQ_new w.
Proof. unfold BxiEQ_new. walk. Qed.
Lemma BxiEQ_delete_progresses eq w : progresses (BxiEQ_delete eq) w.
Proof. unfold BxiEQ_delete. walk. Qed.
Lemma BxiEQ_wait_progresses eq w : progresses (BxiEQ_wait eq) w.
Proof. unfold BxiEQ_wait. walk. Qed.
Hint Resolve BxiCT_poll_progresses BxiEQ_new_progresses BxiEQ_delete_progresses
  BxiEQ_wait_progresses : progress.
Lemma BxiEQ_get_progresses eq w : progresses (BxiEQ_get eq) w.
Proof. unfold BxiEQ_get. walk. Qed.
Lemma poll_ready_progresses i eqs w : progresses (poll_ready i eqs) w.
Proof. revert i w. induction eqs; intros i w; cbn [poll_ready]; walk. Qed.
Hint Resolve BxiEQ_get_progresses poll_ready_progresses : progress.
Lemma BxiEQ_poll_progresses eqs t w : progresses (BxiEQ_poll eqs t) w.
Proof. unfold BxiEQ_poll. walk. Qed.
Lemma BxiMD_new_progresses ni md w : progresses (BxiMD_new ni md) w.
Proof. unfold BxiMD_new. walk. Qed.
Lemma BxiMD_increment_ct_progresses md b w : progresses (BxiMD_increment_ct md b) w.
Proof. unfold BxiMD_increment_ct. walk. Qed.
Hint Resolve BxiEQ_poll_progresses BxiMD_new_progresses BxiMD_increment_ct_progresses : progress.

(** ** Entries, tables, interfaces *)

Lemma offsetted_addr_ok m q upd :
  me_offset_ok m -> let '(_, off, _) := offsetted_addr m q upd in
  0 <= off <= me_length (bme_me m).
Proof.
  unfold me_offset_ok, offsetted_addr. intros Hm.
  destruct (me_has m PTL_ME_MANAGE_LOCAL); cbn; [|done].
  destruct upd; cbn; [|done].
  pose proof (wrap_range 64 (bme_manage_local_offset m + rq_payload_size q) ltac:(lia)).
  unfold add64. destruct (Z.leb_spec (u64 (bme_manage_local_offset m + rq_payload_size q))
    (me_length (bme_me m))); lia.
Qed.

Lemma get_offsetted_addr_progresses me msg upd w : progresses (get_offsetted_addr me msg upd) w.
Proof.
  unfold get_offsetted_addr. walk_step. walk_step. walk_step.
  destruct (offsetted_addr _ _ _) as [[addr off] toff] eqn:Ho.
  walk_step; [solve [auto with progress]|].
  walk_step; [|walk]. apply keeps_update. intros m' Hm'.
  assert (x = m') as <-.
  { match goal with Hu : update _ _ _ = Ok _ _ |- _ => rename Hu into Hu' end.
    rewrite (update_Ok _ _ _ _ H1) in Hu'. injection Hu' as _ <-. cbn in *. congruence. }
  eapply evolves_update_me; [done|]. intros Hok.
  pose proof (offsetted_addr_ok x x1 upd Hok) as Hb. rewrite Ho in Hb. exact Hb.
Qed.
Hint Resolve get_offsetted_addr_progresses : progress.

Lemma BxiME_increment_ct_progresses me b w : progresses (BxiME_increment_ct me b) w.
Proof. unfold BxiME_increment_ct. walk. Qed.
Lemma BxiME_unlink_progresses me w : progresses (BxiME_unlink me) w.
Proof. unfold BxiME_unlink. walk. Qed.
Lemma pt_node_progresses pt w : progresses (pt_node pt) w.
Proof. unfold pt_node. walk. Qed.
Hint Resolve BxiME_increment_ct_progresses BxiME_unlink_progresses pt_node_progresses : progress.
Lemma maybe_auto_unlink_progresses me w : progresses (maybe_auto_unlink me) w.
Proof. unfold maybe_auto_unlink. walk. Qed.
Lemma BxiPT_alloc_progresses ni o eq d w : progresses (BxiPT_alloc ni o eq d) w.
Proof. unfold BxiPT_alloc. walk. Qed.
Lemma getFromNI_progresses ni i w : progresses (getFromNI ni i) w.
Proof. unfold getFromNI. walk. Qed.
Lemma BxiPT_enable_progresses pt w : progresses (BxiPT_enable pt) w.
Proof. unfold BxiPT_enable. walk. Qed.
Lemma BxiPT_disable_progresses pt w : progresses (BxiPT_disable pt) w.
Proof. unfold BxiPT_disable. walk. Qed.
Hint Resolve maybe_auto_unlink_progresses BxiPT_alloc_progresses getFromNI_progresses
  BxiPT_enable_progresses BxiPT_disable_progresses : progress.
Lemma BxiPT_free_progresses ni i w : progresses (BxiPT_free ni i) w.
Proof. unfold BxiPT_free. walk. Qed.
Lemma first_match_progresses l q w : progresses (first_match l q) w.
Proof. induction l; cbn [first_match]; walk. Qed.
Hint Resolve BxiPT_free_progresses first_match_progresses : progress.
Lemma walk_through_lists_progresses pt msg w : progresses (walk_through_lists pt msg) w.
Proof. unfold walk_through_lists. walk. Qed.
Lemma initiator_of_progresses q w : progresses (initiator_of q) w.
Proof. unfold initiator_of. walk. Qed.
Hint Resolve walk_through_lists_progresses initiator_of_progresses : progress.
Lemma overflow_event_progresses q w : progresses (overflow_event q) w.
Proof. unfold overflow_event. walk. Qed.
Hint Resolve overflow_event_progresses : progress.
Lemma walk_UHs_fuel_progresses k pt me i b w : progresses (walk_UHs_fuel k pt me i b) w.
Proof. revert i b w. induction k; intros i b w; cbn [walk_UHs_fuel]; walk. Qed.
Hint Resolve walk_UHs_fuel_progresses : progress.
Lemma walk_through_UHs_progresses pt me w : progresses (walk_through_UHs pt me) w.
Proof. unfold walk_through_UHs. walk. Qed.
Hint Resolve walk_through_UHs_progresses : progress.

Lemma BxiME_append_progresses pt me_t l u w :
  0 <= me_length me_t -> progresses (BxiME_append pt me_t l u) w.
Proof.
  intros Hl. unfold BxiME_append. walk_step; [|walk].
  intros h w' [= _ <-]. apply evolves_new_me. unfold me_offset_ok. cbn. lia.
Qed.

Lemma BxiNI_init_progresses n i o p d w : progresses (BxiNI_init n i o p d) w.
Proof. unfold BxiNI_init. walk. Qed.
Lemma BxiNI_fini_progresses ni w : progresses (BxiNI_fini ni) w.
Proof. unfold BxiNI_fini. walk. Qed.
Lemma get_l2p_rank_progresses ni w : progresses (get_l2p_rank ni) w.
Proof. unfold get_l2p_rank. walk. Qed.
Lemma get_physical_proc_progresses ni p w : progresses (get_physical_proc ni p) w.
Proof. unfold get_physical_proc. walk. Qed.
Hint Resolve BxiNI_init_progresses BxiNI_fini_progresses get_l2p_rank_progresses
  get_physical_proc_progresses : progress.

(** ** End-to-end reliability *)

Lemma BxiNicE2E_new_progresses n w : progresses (BxiNicE2E_new n) w.
Proof. unfold BxiNicE2E_new. walk. Qed.
Lemma BxiNicE2E_on_exit_progresses e w : progresses (BxiNicE2E_on_exit e) w.
Proof. unfold BxiNicE2E_on_exit. walk. Qed.
Lemma process_message_progresses e m w : progresses (process_message e m) w.
Proof. unfold process_message. walk. Qed.
Lemma get_retransmit_mailbox_progresses e m w : progresses (get_retransmit_mailbox e m) w.
Proof. unfold get_retransmit_mailbox. walk. Qed.
Lemma drop_current_progresses e m w : progresses (drop_current e m) w.
Proof. unfold drop_current. walk. Qed.
Hint Resolve process_message_progresses get_retransmit_mailbox_progresses
  drop_current_progresses : progress.

Lemma retransmit_progresses e m x w :
  w_msgs w !! m = Some x -> ms_retry_count x < max_retries (w_config w) ->
  progresses (retransmit e m) w.
Proof.
  intros Hx Hlt. unfold retransmit. walk_step. walk_step; [solve [auto with progress]|].
  walk_step; [|walk]. apply keeps_update. intros x' Hx'.
  match goal with Hu : update _ _ w = Ok _ _ |- _ => unfold update in Hu end.
  case_match; [|done]. simplify_eq. cbn in Hx'. rewrite Hx in Hx'. injection Hx' as <-.
  eapply evolves_update_msg; [exact Hx|]. cbn. unfold msg_retries_ok. cbn. lia.
Qed.

Lemma decide_retry_lt st t c max : decide_retry st t c max = Retransmit -> c < max.
Proof.
  unfold decide_retry. case_match; [done|]. case_match; [done|].
  destruct (Z.ltb_spec c max); [done|]. done.
Qed.

Lemma e2e_expire_progresses e m w : progresses (e2e_expire e m) w.
Proof.
  unfold e2e_expire. do 3 walk_step.
  destruct (decide_retry _ _ _ _) eqn:Hd; [walk| | |walk].
  - walk.
  - eapply retransmit_progresses; [done|]. by eapply decide_retry_lt.
Qed.
Hint Resolve e2e_expire_progresses : progress.

Lemma e2e_turn_progresses e w : progresses (e2e_turn e) w.
Proof. unfold e2e_turn. walk. Qed.

(** ** The NIC, sending *)

Lemma issue_ack_progresses r f w : progresses (issue_ack r f) w.
Proof. unfold issue_ack. walk. Qed.
Lemma maybe_issue_send_progresses r w : progresses (maybe_issue_send r) w.
Proof. unfold maybe_issue_send. walk. Qed.
Lemma maybe_issue_get_progresses n r w : progresses (maybe_issue_get n r) w.
Proof. unfold maybe_issue_get. walk. Qed.
Lemma maybe_issue_fetch_atomic_progresses n r w : progresses (maybe_issue_fetch_atomic n r) w.
Proof. unfold maybe_issue_fetch_atomic. walk. Qed.
Lemma reliable_comm_init_progresses n vn m b w : progresses (reliable_comm_init n vn m b) w.
Proof. unfold reliable_comm_init. walk. Qed.
Hint Resolve issue_ack_progresses maybe_issue_send_progresses maybe_issue_get_progresses
  maybe_issue_fetch_atomic_progresses reliable_comm_init_progresses : progress.
Lemma reliable_comm_progresses n vn m w : progresses (reliable_comm n vn m) w.
Proof.
  unfold reliable_comm. walk_step. apply with_log_progresses. walk.
Qed.
Lemma open_msg_log_progresses m t w : progresses (open_msg_log m t) w.
Proof. unfold open_msg_log. walk. Qed.
Lemma start_msg_log_progresses m w : progresses (start_msg_log m) w.
Proof. unfold start_msg_log. walk. Qed.
Lemma start_dma_progresses n s t w : progresses (start_dma n s t) w.
Proof. unfold start_dma. walk. Qed.
Hint Resolve reliable_comm_progresses open_msg_log_progresses start_msg_log_progresses
  start_dma_progresses : progress.
Lemma handle_put_progresses n vn m w : progresses (handle_put n vn m) w.
Proof. unfold handle_put. walk. Qed.
Lemma handle_get_progresses n vn m w : progresses (handle_get n vn m) w.
Proof. unfold handle_get. walk. Qed.
Lemma initiator_handle_response_progresses n vn m t w :
  progresses (initiator_handle_response n vn m t) w.
Proof. unfold initiator_handle_response. walk. Qed.
Hint Resolve handle_put_progresses handle_get_progresses initiator_handle_response_progresses
  : progress.
Lemma handle_get_response_progresses n vn m w : progresses (handle_get_response n vn m) w.
Proof. unfold handle_get_response. walk. Qed.
Lemma handle_fetch_atomic_response_progresses n vn m w :
  progresses (handle_fetch_atomic_response n vn m) w.
Proof. unfold handle_fetch_atomic_response. walk. Qed.
Hint Resolve handle_get_response_progresses handle_fetch_atomic_response_progresses : progress.
Lemma initiator_dispatch_progresses n vn m w : progresses (initiator_dispatch n vn m) w.
Proof. unfold initiator_dispatch. walk. Qed.
Hint Resolve initiator_dispatch_progresses : progress.
Lemma initiator_turn_progresses n vn q w : progresses (initiator_turn n vn q) w.
Proof.
  unfold initiator_turn. walk. apply progresses_update_node. intros x _.
  unfold enqueue_waiting. by case_decide.
Qed.
Lemma BxiNicInitiator_new_progresses n vn w : progresses (BxiNicInitiator_new n vn) w.
Proof. unfold BxiNicInitiator_new. walk. Qed.

(** ** The NIC, receiving *)

Lemma md_e2e_off_progresses md w : progresses (md_e2e_off md) w.
Proof. unfold md_e2e_off. walk. Qed.
Lemma match_in_nis_progresses nis msg r w : progresses (match_in_nis nis msg r) w.
Proof. revert w. induction nis; intros w; cbn [match_in_nis]; walk. Qed.
Hint Resolve md_e2e_off_progresses match_in_nis_progresses : progress.
Lemma match_entry_progresses n msg w : progresses (match_entry n msg) w.
Proof. unfold match_entry. walk. Qed.
Lemma put_like_progresses n me msg k w :
  progresses (put_like_req_ev_processing n me msg k) w.
Proof. unfold put_like_req_ev_processing. walk. Qed.
Hint Resolve match_entry_progresses put_like_progresses : progress.

Lemma answer_msg_progresses msg t w : progresses (answer_msg msg t) w.
Proof. unfold answer_msg, set_msg. walk. Qed.
Hint Resolve answer_msg_progresses : progress.
Lemma send_bxi_ack_progresses q msg w : progresses (send_bxi_ack q msg) w.
Proof. unfold send_bxi_ack, set_msg. walk. Qed.
Lemma payload_write_async_progresses n msg w : progresses (payload_write_async n msg) w.
Proof. unfold payload_write_async. walk. Qed.
Lemma wait_dma_progresses d w : progresses (wait_dma d) w.
Proof. unfold wait_dma. walk. Qed.
Lemma payload_write_progresses n msg w : progresses (payload_write n msg) w.
Proof. unfold payload_write. walk. Qed.
Lemma count_comm_progresses r me w : progresses (count_comm r me) w.
Proof. unfold count_comm. walk. Qed.
Lemma received_range_progresses r w : progresses (received_range r) w.
Proof. unfold received_range. walk. Qed.
Lemma ack_policy_progresses b md w : progresses (ack_policy b md) w.
Proof. unfold ack_policy. walk. Qed.
Lemma finish_entry_progresses me b w : progresses (finish_entry me b) w.
Proof. unfold finish_entry. walk. Qed.
Hint Resolve send_bxi_ack_progresses payload_write_async_progresses wait_dma_progresses
  payload_write_progresses count_comm_progresses received_range_progresses
  ack_policy_progresses finish_entry_progresses : progress.
Lemma release_entry_progresses me w : progresses (release_entry me) w.
Proof. unfold release_entry, set_me. walk. Qed.
Lemma size_response_progresses m r w : progresses (size_response m r) w.
Proof. unfold size_response, set_msg. walk. Qed.
Lemma response_md_progresses q w : progresses (response_md q) w.
Proof. unfold response_md. walk. Qed.
Lemma release_request_entry_progresses n x q w : progresses (release_request_entry n x q) w.
Proof. unfold release_request_entry. walk. Qed.
Lemma settle_request_progresses n r w : progresses (settle_request n r) w.
Proof. unfold settle_request. walk. Qed.
Lemma close_msg_log_progresses m w : progresses (close_msg_log m) w.
Proof. unfold close_msg_log, set_msg. walk. Qed.
Hint Resolve release_entry_progresses size_response_progresses response_md_progresses
  release_request_entry_progresses settle_request_progresses close_msg_log_progresses
  : progress.

(** Memory is no part of [evolves]. *)
Lemma load_bytes_progresses a k w : progresses (load_bytes a k) w.
Proof. revert a. induction k; intros a; cbn [load_bytes]; walk. Qed.
Lemma store_bytes_progresses a bs w : progresses (store_bytes a bs) w.
Proof. revert a w. induction bs; intros a' w; cbn [store_bytes]; walk. Qed.
Hint Resolve load_bytes_progresses store_bytes_progresses : progress.
Lemma memcpy_progresses d s n w : progresses (memcpy d s n) w.
Proof. unfold memcpy. walk. Qed.
Lemma load_cst_progresses c n w : progresses (load_cst c n) w.
Proof. unfold load_cst. walk. Qed.
Hint Resolve memcpy_progresses load_cst_progresses : progress.
Lemma atomic_loop_progresses k op t me cst rx tx n w :
  progresses (atomic_loop k op t me cst rx tx n) w.
Proof. revert w. induction k; intros w; cbn [atomic_loop]; walk. Qed.
Hint Resolve atomic_loop_progresses : progress.
Lemma apply_atomic_op_progresses op t me cst rx tx len w :
  progresses (apply_atomic_op op t me cst rx tx len) w.
Proof. unfold apply_atomic_op. walk. Qed.
Lemma capped_memcpy_progresses d s n w : progresses (capped_memcpy d s n) w.
Proof. unfold capped_memcpy. walk. Qed.
Hint Resolve apply_atomic_op_progresses capped_memcpy_progresses : progress.
Lemma copy_put_payload_progresses n r w : progresses (copy_put_payload n r) w.
Proof. unfold copy_put_payload. walk. Qed.
Lemma copy_get_payload_progresses r me w : progresses (copy_get_payload r me) w.
Proof. unfold copy_get_payload. walk. Qed.
Lemma run_atomic_progresses n r w : progresses (run_atomic n r) w.
Proof. unfold run_atomic. walk. Qed.
Lemma matched_offsetted_addr_progresses r w : progresses (matched_offsetted_addr r) w.
Proof. unfold matched_offsetted_addr, set_request. walk. Qed.
Hint Resolve copy_put_payload_progresses copy_get_payload_progresses run_atomic_progresses
  matched_offsetted_addr_progresses : progress.
Lemma run_fetch_atomic_progresses n r me w : progresses (run_fetch_atomic n r me) w.
Proof. unfold run_fetch_atomic. walk. Qed.
Hint Resolve run_fetch_atomic_progresses : progress.

Lemma new_response_progresses n msg t w : progresses (new_response n msg t) w.
Proof.
  unfold new_response, set_msg. walk.
Qed.
Hint Resolve new_response_progresses : progress.

Lemma send_ack_progresses n q msg t f w : progresses (send_ack n q msg t f) w.
Proof.
  unfold send_ack, set_msg, set_request. walk.
  apply progresses_update_req. intros qq Hq. constructor; cbn; auto.
  by destruct (rq_process_state qq).
Qed.
Hint Resolve send_ack_progresses : progress.

(** A request leaves the state it was created in only once. *)
Lemma receive_request_progresses r msg me keep_me w :
  (forall q, w_reqs w !! r = Some q -> rq_process_state q = S4BXI_REQ_CREATED) ->
  progresses (receive_request r msg me keep_me) w.
Proof.
  intros Hc. unfold receive_request, set_me, set_request.
  walk_step; [solve [auto with progress]|].
  assert (same_states w w') as S1.
  { eapply keeps_use; [|eassumption]. auto with progress. }
  walk_step. walk_step; [walk|].
  assert (same_states w' w'0) as S2.
  { eapply keeps_use; [|eassumption]. walk. }
  pose proof (created_after _ _ r S2 (created_after _ _ r S1 Hc)) as Hc2.
  walk_step; [|walk]. apply progresses_update_req. intros q Hq.
  constructor; cbn; auto. by rewrite (Hc2 q Hq).
Qed.

Lemma not_received_created q :
  (state_num S4BXI_REQ_CREATED <? state_num (rq_process_state q)) = false ->
  rq_process_state q = S4BXI_REQ_CREATED.
Proof. by destruct (rq_process_state q). Qed.

(** A handler's guard, then calls that change no state, then [receive_request]. *)
Lemma guarded_receive q r msg me keep_me w w' :
  w_reqs w !! r = Some q ->
  (state_num S4BXI_REQ_CREATED <? state_num (rq_process_state q)) = false ->
  same_states w w' -> progresses (receive_request r msg me keep_me) w'.
Proof.
  intros Hq Hg HS. apply receive_request_progresses. eapply created_after; [done|].
  intros q' Hq'. apply not_received_created. congruence.
Qed.

Lemma handle_put_request_progresses n q msg w : progresses (handle_put_request n q msg) w.
Proof.
  unfold handle_put_request, set_me. do 2 walk_step. destruct (_ <? _) eqn:Hg; [walk|]. cbv beta iota.
  walk_step; [solve [auto with progress]|]. destruct a as [f [me|]]; [|walk]. cbv beta iota.
  pose proof (match_entry_states _ _ _ _ _ ltac:(eassumption)) as HS.
  walk_step. walk_step; [by eapply guarded_receive|walk].
Qed.

Lemma handle_get_request_progresses n q msg w : progresses (handle_get_request n q msg) w.
Proof.
  unfold handle_get_request, set_msg. do 2 walk_step. destruct (_ <? _) eqn:Hg; [walk|]. cbv beta iota.
  walk_step; [solve [auto with progress]|]. destruct a as [f [me|]]; [|walk]. cbv beta iota.
  pose proof (new_response_states _ _ _ _ _ _ ltac:(eassumption)) as HS.
  walk_step. walk_step; [by eapply guarded_receive|walk].
Qed.

Lemma handle_atomic_request_progresses n q msg w :
  progresses (handle_atomic_request n q msg) w.
Proof.
  unfold handle_atomic_request, set_me. do 2 walk_step.
  destruct (_ <? _) eqn:Hg; [walk|]. cbv beta iota.
  apply keeps_bind_read. intros p w0 Hp.
  assert (w0 = w) as ->.
  { revert Hp. unfold ack_policy. destruct (negb _); [by intros [= _ <-]|].
    intros (b & w1 & Hb & [= _ <-])%bind_Ok. revert Hb. unfold md_e2e_off, S4BXI_CONFIG_OR.
    intros (i & w2 & [-> _]%load_inv & Hb)%bind_Ok.
    apply bind_Ok in Hb as (nd & w3 & [-> _]%load_inv & Hb).
    destruct (nd_e2e_off nd); by injection Hb as _ <-. }
  split; [done|]. clear Hp p.
  walk_step; [solve [auto with progress]|]. destruct a as [f [me|]]; [|walk]. cbv beta iota.
  pose proof (match_entry_states _ _ _ _ _ ltac:(eassumption)) as HS.
  walk_step. walk_step; [by eapply guarded_receive|walk].
Qed.

Lemma handle_fetch_atomic_request_progresses n q msg w :
  progresses (handle_fetch_atomic_request n q msg) w.
Proof.
  unfold handle_fetch_atomic_request, set_msg. do 2 walk_step.
  destruct (_ <? _) eqn:Hg; [walk|]. cbv beta iota.
  walk_step; [solve [auto with progress]|]. destruct a as [f [me|]]; [|walk]. cbv beta iota.
  pose proof (new_response_states _ _ _ _ _ _ ltac:(eassumption)) as HS.
  walk_step. walk_step; [by eapply guarded_receive|walk].
Qed.

Lemma handle_response_progresses n q msg w : progresses (handle_response n q msg) w.
Proof.
  unfold handle_response, set_request. walk.
  apply progresses_update_req. intros qq Hq. constructor; cbn; auto.
  cbn in *. assert (qq = x1) as -> by congruence. by destruct (rq_process_state x1).
Qed.

Lemma handle_ptl_ack_progresses n q msg w : progresses (handle_ptl_ack n q msg) w.
Proof.
  unfold handle_ptl_ack, set_request. walk.
  apply progresses_update_req. intros qq Hq. constructor; cbn; auto.
  cbn in *. assert (qq = x0) as -> by congruence. by destruct (rq_process_state x0).
Qed.

Lemma handle_bxi_ack_progresses n msg w : progresses (handle_bxi_ack n msg) w.
Proof.
  unfold handle_bxi_ack, set_request. walk.
  apply progresses_update_req. intros qq Hq. constructor; cbn; auto.
  by destruct (rq_process_state qq).
Qed.
Hint Resolve handle_put_request_progresses handle_get_request_progresses
  handle_atomic_request_progresses handle_fetch_atomic_request_progresses
  handle_response_progresses handle_ptl_ack_progresses handle_bxi_ack_progresses : progress.

Lemma target_dispatch_progresses n q msg w : progresses (target_dispatch n q msg) w.
Proof. unfold target_dispatch. walk. Qed.
Hint Resolve target_dispatch_progresses : progress.
Lemma target_turn_progresses n q mb w : progresses (target_turn n q mb) w.
Proof. unfold target_turn. walk. Qed.
Lemma BxiNicTarget_new_progresses n vn w : progresses (BxiNicTarget_new n vn) w.
Proof. unfold BxiNicTarget_new. walk. Qed.
Lemma wait_tx_queue_progresses k n vn w : progresses (wait_tx_queue k n vn) w.
Proof. revert w. induction k; intros w; cbn [wait_tx_queue]; walk. Qed.
End Progress.

(** What the next files use. *)
#[export] Hint Resolve check_flowctrl_progresses with_log_progresses
  BxiEngine_log_progresses get_random_mailbox_progresses free_random_mailbox_progresses
  BxiQueue_new_progresses BxiQueue_new_mailbox_progresses BxiQueue_put_progresses
  BxiQueue_get_progresses cast_request_progresses incr_msg_ref_count_progresses
  new_msg_progresses BxiMsg_new_progresses BxiMsg_copy_progresses
  release_parent_request_progresses unref_fuel_progresses unref_progresses
  BxiMsg_delete_progresses get_vn_progresses clear_fuel_progresses BxiQueue_clear_progresses
  S4BXI_GLOBAL_CONFIG_progresses S4BXI_CONFIG_AND_progresses S4BXI_CONFIG_OR_progresses
  pci_transfer_progresses pci_transfer_init_progresses pci_transfer_async_progresses
  issue_event_progresses acquire_e2e_entry_progresses resume_fuel_progresses
  release_e2e_entry_progresses BxiCT_new_progresses wake_up_progresses
  on_update_fuel_progresses on_update_progresses increment_success_progresses
  set_value_progresses BxiCT_increment_progresses BxiCT_wait_progresses find_ready_progresses
  post_waiters_progresses BxiCT_poll_progresses BxiEQ_new_progresses BxiEQ_delete_progresses
  BxiEQ_wait_progresses BxiEQ_get_progresses poll_ready_progresses BxiEQ_poll_progresses
  BxiMD_new_progresses BxiMD_increment_ct_progresses get_offsetted_addr_progresses
  BxiME_increment_ct_progresses BxiME_unlink_progresses pt_node_progresses
  maybe_auto_unlink_progresses BxiPT_alloc_progresses getFromNI_progresses
  BxiPT_enable_progresses BxiPT_disable_progresses BxiPT_free_progresses
  first_match_progresses walk_through_lists_progresses initiator_of_progresses
  overflow_event_progresses walk_UHs_fuel_progresses walk_through_UHs_progresses
  BxiNI_init_progresses BxiNI_fini_progresses get_l2p_rank_progresses
  get_physical_proc_progresses BxiNicE2E_new_progresses BxiNicE2E_on_exit_progresses
  process_message_progresses get_retransmit_mailbox_progresses drop_current_progresses
  e2e_expire_progresses e2e_turn_progresses issue_ack_progresses maybe_issue_send_progresses
  maybe_issue_get_progresses maybe_issue_fetch_atomic_progresses reliable_comm_init_progresses
  reliable_comm_progresses open_msg_log_progresses start_msg_log_progresses
  start_dma_progresses handle_put_progresses handle_get_progresses
  initiator_handle_response_progresses handle_get_response_progresses
  handle_fetch_atomic_response_progresses initiator_dispatch_progresses
  initiator_turn_progresses BxiNicInitiator_new_progresses md_e2e_off_progresses
  match_in_nis_progresses match_entry_progresses put_like_progresses answer_msg_progresses
  send_bxi_ack_progresses payload_write_async_progresses wait_dma_progresses
  payload_write_progresses count_comm_progresses received_range_progresses
  ack_policy_progresses finish_entry_progresses release_entry_progresses
  size_response_progresses response_md_progresses release_request_entry_progresses
  settle_request_progresses close_msg_log_progresses load_bytes_progresses
  store_bytes_progresses memcpy_progresses load_cst_progresses atomic_loop_progresses
  apply_atomic_op_progresses capped_memcpy_progresses copy_put_payload_progresses
  copy_get_payload_progresses run_atomic_progresses matched_offsetted_addr_progresses
  run_fetch_atomic_progresses new_response_progresses send_ack_progresses
  handle_put_request_progresses handle_get_request_progresses handle_atomic_request_progresses
  handle_fetch_atomic_request_progresses handle_response_progresses handle_ptl_ack_progresses
  handle_bxi_ack_progresses target_dispatch_progresses target_turn_progresses
  BxiNicTarget_new_progresses wait_tx_queue_progresses : progress.
