(* ===== verification/Scenario.v ===== *)
(** A concrete system, for the examples and the witnesses of the theorems: two
    nodes with one process each, joined by a network that delivers in order.
    Everything is built by the simulator's own operations. *)
From S2P Require Import Prelude Portals World Logic Engine Queue Messages Node Counters.
From S2P Require Import Entries E2E Atomics NicActor Initiator Target MainActor.
From Stdlib Require Import SpecFloat.

(** ** A network that delivers in order

    What SimGrid answers is computed from the calls made so far: the [k]-th
    receive on a mailbox gets the [k]-th thing put there. *)
Definition put_in (mb : mailbox) (c : comm) : list payload :=
  match c with CommPut m p _ => if bool_decide (m = mb) then [p] else [] | _ => [] end.
Definition sent (mb : mailbox) (calls : list simcall) : list payload :=
  calls ≫= fun c =>
    match c with CommStart c | CommDetach c | CommWait c => put_in mb c | _ => [] end.
Definition received (mb : mailbox) (calls : list simcall) : nat :=
  length (calls ≫= fun c =>
    match c with GetWait m | GetAsync m => if bool_decide (m = mb) then [tt] else [] | _ => [] end).

(** Semaphores count: what was released less what was acquired, plus the initial value. *)
Definition sem_count (s : sem_id) (calls : list simcall) : Z :=
  foldr (fun c n =>
    match c with
    | SemAcquire s' => if decide (s' = s) then n - 1 else n
    | SemRelease s' => if decide (s' = s) then n + 1 else n
    | _ => n
    end) 0 calls.
Definition sem_capacity (s : sem_id) : Z :=
  match s with SemCQ _ => CQ_INITIAL_CAPACITY | SemE2E _ => MAX_E2E_ENTRIES | SemQueue _ => 0 end.

Definition fifo_env : Env := {|
  env_step _ w := w;
  env_self _ := 1%N;
  env_mailbox_ready w mb :=
    (received mb (w_trace w) <? length (sent mb (rev (w_trace w))))%nat;
  env_mailbox_listen w mb :=
    (received mb (w_trace w) <? length (sent mb (rev (w_trace w))))%nat;
  env_mailbox_size w mb :=
    Z.of_nat (length (sent mb (rev (w_trace w)))) - Z.of_nat (received mb (w_trace w));
  env_received w mb :=
    default (PBool false) (sent mb (rev (w_trace w)) !! pred (received mb (w_trace w)));
  env_wait_any w := 0;
  env_would_block w s := sem_capacity s + sem_count s (w_trace w) <=? 0;
  env_random_int w := Z.of_N (w_next w);
  env_fuel := 50 |}.
#[export] Existing Instance fifo_env | 100.
#[export] Instance fifo_quiet : Quiet fifo_env.
Proof. done. Qed.

(** ** The initial world *)

Definition example_config : s4bxi_config := {|
  max_retries := 3; retry_timeout := double_of_Z 10; use_real_memory := true;
  model_pci := true; model_pci_commands := true; e2e_off := false; log_folder := "/tmp";
  log_computation := true; log_level := 1; privatize_libs := ""; keep_temps := false;
  max_memcpy := -1; cpu_factor := double_of_Z 1; cpu_threshold := double_of_Z 0;
  active_polling_delay := double_of_Z 0; cpu_accumulate := double_of_Z 0; quick_acks := false;
  auto_shared_malloc_thresh := double_of_Z 0; shared_malloc := 0;
  shared_malloc_hugepage := ""; shared_malloc_blocksize := 0;
  max_inflight_to_target := 2; max_inflight_to_process := 1; no_dlclose := false;
  use_pugixml := true |}.

Definition empty_world (cfg : s4bxi_config) : World := {|
  w_cts := ∅; w_eqs := ∅; w_mds := ∅; w_mes := ∅; w_pts := ∅; w_nis := ∅; w_nodes := ∅;
  w_reqs := ∅; w_msgs := ∅; w_queues := ∅; w_e2es := ∅; w_actors := ∅; w_next := 1;
  w_mem := ∅; w_config := cfg; w_clock := double_of_Z 0; w_mailbox_pool := [];
  w_logCount := 0; w_log := []; w_trace := [] |}.

(** The world a call leaves, when it returns. *)
Definition after {A} (c : SM A) (w : World) : World :=
  match c w with Ok _ w' => w' | Fail _ => w end.
Definition result {A} (c : SM A) (w : World) : option A :=
  match c w with Ok a _ => Some a | Fail _ => None end.

(** The handles of the objects of one node with one process. *)
Record site := mk_site {
  s_node : handle; s_actor : handle; s_ni : handle; s_eq : handle; s_ct : handle;
  s_md : handle; s_e2e : handle; s_rx : mailbox; s_rx_resp : mailbox;
  s_tx : handle; s_tx_resp : handle }.

(** 64 bytes of memory at [base], holding [base mod 256], [base mod 256 + 1], ... *)
Definition map_memory (base : Z) : SM unit :=
  for_each (seqZ 0 64) (fun i =>
    modify (fun w => w <| w_mem ::= <[base + i := (base + i) mod 256]> |>)).

Definition new_site (nid base : Z) : SM site :=
  node ← BxiNode_new nid (2 * nid) (2 * nid + 1);
  e2e ← BxiNicE2E_new node;
  tx ← BxiNicInitiator_new node S4BXI_VN_COMPUTE_REQUEST;
  tx_resp ← BxiNicInitiator_new node S4BXI_VN_COMPUTE_RESPONSE;
  rx ← BxiNicTarget_new node S4BXI_VN_COMPUTE_REQUEST;
  rx_resp ← BxiNicTarget_new node S4BXI_VN_COMPUTE_RESPONSE;
  actor ← BxiMainActor_new node (Some "true") None None None true;
  _ ← PtlInit actor;
  '(_, ni, _) ← PtlNIInit actor 0 (Z.lor PTL_NI_MATCHING PTL_NI_PHYSICAL) PTL_PID_ANY None;
  '(_, eq) ← PtlEQAlloc actor;
  '(_, ct) ← PtlCTAlloc actor;
  '(_, _) ← PtlPTAlloc actor ni 0 eq 0;
  _ ← map_memory base;
  '(_, md) ← PtlMDBind actor ni (mk_md base 64 PTL_MD_EVENT_CT_ACK eq ct);
  mret (mk_site node actor ni eq ct md (default NULL e2e) rx rx_resp tx tx_resp).

Definition example_sites : SM (site * site) :=
  a ← new_site 1 1000; b ← new_site 2 2000; mret (a, b).

Definition no_site : site := mk_site NULL NULL NULL NULL NULL NULL NULL "" "" NULL NULL.
Definition sites : site * site :=
  Eval vm_compute in default (no_site, no_site) (result example_sites (empty_world example_config)).
Definition site_a : site := fst sites.
Definition site_b : site := snd sites.
Definition world0 : World :=
  Eval vm_compute in after example_sites (empty_world example_config).

(** ** A put from the first process to the second *)

(** An entry of 16 bytes at the start of the second process's memory, used once. *)
Definition example_me : ptl_me :=
  mk_me 2000 16 PTL_CT_NONE 0 (Z.lor PTL_ME_OP_PUT PTL_ME_USE_ONCE) (mk_process 0 0) 42 0 0.

(** The entry is appended, the put is posted, the NIC of the first node transmits it. *)
Definition example_append (me : ptl_me) : SM (Z * handle) :=
  PtlMEAppend (s_actor site_b) (s_ni site_b) 0 me PTL_PRIORITY_LIST 7.
Definition example_post : SM Z :=
  PtlPut (s_actor site_a) (s_md site_a) 4 8 PTL_ACK_REQ (mk_process 2 2048) 0 42 3 9 0.
Definition example_transmit : SM unit :=
  initiator_turn (s_node site_a) S4BXI_VN_COMPUTE_REQUEST (s_tx site_a).
Definition example_receive : SM unit :=
  target_turn (s_node site_b) (s_tx_resp site_b) (s_rx site_b).
Definition example_answer : SM unit :=
  _ ← initiator_turn (s_node site_b) S4BXI_VN_COMPUTE_RESPONSE (s_tx_resp site_b);
  target_turn (s_node site_a) (s_tx_resp site_a) (s_rx_resp site_a).
Definition example_settle : SM unit :=
  _ ← initiator_turn (s_node site_a) S4BXI_VN_COMPUTE_RESPONSE (s_tx_resp site_a);
  _ ← target_turn (s_node site_b) (s_tx_resp site_b) (s_rx_resp site_b);
  _ ← e2e_turn (s_e2e site_a);
  e2e_turn (s_e2e site_b).

Definition world_appended : World := Eval vm_compute in after (example_append example_me) world0.
Definition world_posted : World := Eval vm_compute in after example_post world_appended.
Definition world_sent : World := Eval vm_compute in after example_transmit world_posted.
Definition world_received : World := Eval vm_compute in after example_receive world_sent.
Definition world_answered : World := Eval vm_compute in after example_answer world_received.
Definition world_settled : World := Eval vm_compute in after example_settle world_answered.

(** The put's message and request. *)
Definition example_msg : handle := 25.
Definition example_req : handle := 24.

(** At the end nothing is left of the exchange: no message, no request, the payload at its
    place. *)
Example put_settles :
  result example_settle world_answered = Some tt /\
  w_msgs world_settled = ∅ /\ w_reqs world_settled = ∅ /\
  (fun i => w_mem world_settled !! (2003 + i)) <$> seqZ 0 8 =
    (fun i => w_mem world0 !! (1004 + i)) <$> seqZ 0 8.
Proof. vm_compute. done. Qed.
