(* ===== verification/Testbed.v ===== *)
(** The platforms and the deployments of the test suite ([teshsuite/]), and a SimGrid for them: a
    network that delivers in order, actors created as the deployment asks, a memory allocator. *)
From S2P Require Import Prelude OMap Portals World Engine Config Runtime Main Scenario.

(** ** The network

    What SimGrid answers is computed from the calls made so far, as [fifo_env] does; the calls are
    read once, from the last one. *)

(** What was put in a mailbox, the last first; how many things were taken from it. *)
Definition puts_in (mb : mailbox) (calls : list simcall) : list payload :=
  omap (fun c =>
    match c with
    | CommStart (CommPut m p _) | CommDetach (CommPut m p _) | CommWait (CommPut m p _) =>
        if String.eqb m mb then Some p else None
    | _ => None end) calls.
Definition gets_from (mb : mailbox) (calls : list simcall) : nat :=
  foldr (fun c n =>
    match c with GetWait m | GetAsync m => if String.eqb m mb then S n else n | _ => n end)
    O calls.

(** What is in a mailbox, with [n] more. *)
Fixpoint backlog (mb : mailbox) (calls : list simcall) (n : Z) : Z :=
  match calls with
  | [] => n
  | (CommStart (CommPut m _ _) | CommDetach (CommPut m _ _) | CommWait (CommPut m _ _)) :: l =>
      backlog mb l (if String.eqb m mb then n + 1 else n)
  | (GetWait m | GetAsync m) :: l => backlog mb l (if String.eqb m mb then n - 1 else n)
  | _ :: l => backlog mb l n
  end.

Definition suite_env : Env := {|
  env_step _ w := w;
  env_self _ := 1%N;
  env_mailbox_ready w mb := 0 <? backlog mb (w_trace w) 0;
  env_mailbox_listen w mb := 0 <? backlog mb (w_trace w) 0;
  env_mailbox_size w mb := backlog mb (w_trace w) 0;
  env_received w mb :=
    let l := puts_in mb (w_trace w) in
    default (PBool false) (l !! (length l - gets_from mb (w_trace w))%nat);
  env_wait_any w := 0;
  env_would_block w s := sem_capacity s + sem_count s (w_trace w) <=? 0;
  env_random_int w := Z.of_N (w_next w);
  env_fuel := 50 |}.
#[export] Instance suite_quiet : Quiet suite_env.
Proof. done. Qed.

(** No call of a semaphore would have had to wait. *)
Fixpoint semaphores_free (calls : list simcall) : bool :=
  match calls with
  | [] => true
  | SemAcquire s :: calls' =>
      (0 <=? sem_capacity s + sem_count s calls) && semaphores_free calls'
  | _ :: calls' => semaphores_free calls'
  end.

(** ** Hosts *)

Definition hosts_of (names : list string) : list string :=
  names ≫= fun n => [n; (n ++ "_NIC")%string].
(** The hosts of [platforms/quito.xml], and the two of [platforms/vix.xml] that the tests use. *)
Definition quito_hosts : list string :=
  hosts_of ((fun i => "quito" ++ pretty i)%string <$> seqZ 0 11).
Definition vix_hosts : list string := hosts_of ["vix10042"; "vix10169"]%string.

(** ** Deployments *)

Definition prop_node (id value : string) : xml_node := mk_xml "prop" [("id", id); ("value", value)]%string [].
Definition argument_node (value : string) : xml_node := mk_xml "argument" [("value", value)]%string [].
Definition actor_node (host function : string) (children : list xml_node) : xml_node :=
  mk_xml "actor" [("host", host); ("function", function)]%string children.

(** [deploys/*_client_server_*.xml]: the server's machine, the client's, what the client is told of
    the server, whether memory is simulated and whether the cards have an end-to-end actor. *)
Definition client_server (server client target : string) (real_memory e2e : bool) : xml_node :=
  let memory := prop_node "use_real_memory" (if real_memory then "true" else "false") in
  let nic h := (h ++ "_NIC")%string in
  let e2e_of h := if e2e then [actor_node (nic h) "nic_e2e" []] else [] in
  mk_xml "" [] [mk_xml "platform" [("version", "4.1")]%string (
    [actor_node server "user_app" [memory];
     actor_node (nic server) "nic_initiator" [prop_node "VN" "3"];
     actor_node (nic server) "nic_target" [prop_node "VN" "1"];
     actor_node (nic server) "nic_target" [prop_node "VN" "3"]] ++ e2e_of server ++
    [actor_node client "user_app" [argument_node target; memory];
     actor_node (nic client) "nic_initiator" [prop_node "VN" "1"];
     actor_node (nic client) "nic_initiator" [prop_node "VN" "3"];
     actor_node (nic client) "nic_target" [prop_node "VN" "3"]] ++ e2e_of client)].

Definition documents : list (string * xml_node) := [
  ("quito_client_server_real_memory.xml", client_server "quito0" "quito1" "42" true true);
  ("quito_client_server_fake_memory.xml", client_server "quito0" "quito1" "42" false true);
  ("vix_client_server_real_memory.xml", client_server "vix10042" "vix10169" "10042" true true);
  ("vix_client_server_fake_memory.xml", client_server "vix10042" "vix10169" "10042" false true);
  ("vix_client_server_no_e2e.xml", client_server "vix10042" "vix10169" "10042" true false)]%string.

(** ** Memory

    Blocks of multiples of 32 bytes, one after the other, filled with zeros. *)

Definition block_size (size : Z) : Z := 32 * ((size + 31) / 32).
Definition heap : Z := 0x10000.
Definition heap_end (calls : list runtime_call) : Z :=
  foldr (fun c top => match c with Malloc n => top + block_size n | _ => top end) heap calls.

(** The last block that was allocated. *)
Fixpoint last_malloc (calls : list runtime_call) : Z :=
  match calls with
  | [] => 0 | Malloc _ :: calls' => heap_end calls' | _ :: calls' => last_malloc calls' end.

(** The size of the block at an address. *)
Fixpoint malloc_size (ptr : Z) (calls : list runtime_call) : Z :=
  match calls with
  | [] => 0
  | Malloc n :: calls' => if heap_end calls' =? ptr then block_size n else malloc_size ptr calls'
  | _ :: calls' => malloc_size ptr calls'
  end.

Definition over_mem (f : gmap Z Z -> gmap Z Z) (s : Sim) : Sim :=
  s <| sim_world ::= over w_mem f |>.

(** ** The machine *)

Fixpoint index_of (x : string) (l : list string) (i : Z) : option Z :=
  match l with
  | [] => None
  | y :: l' => if bool_decide (x = y) then Some i else index_of x l' (i + 1)
  end.

Fixpoint last_property (id : string) (l : list (string * string)) (v : option string)
    : option string :=
  match l with
  | [] => v
  | (i, x) :: l' => last_property id l' (if bool_decide (i = id) then Some x else v)
  end.

(** The properties that were set after the deployment. *)
Definition set_properties (pid : Z) (calls : list runtime_call) : list (string * string) :=
  omap (fun c => match c with
                 | SetActorProperty p id v => if p =? pid then Some (id, v) else None
                 | _ => None end) (reverse calls).

Section Machine.
Context (hosts : list string) (env : Environment).

Definition actor_of (s : Sim) (pid : Z) : option deployed :=
  reverse (deployed_actors (sim_calls s)) !! Z.to_nat (pid - 1).
Definition property_of (s : Sim) (pid : Z) (id : string) : option string :=
  last_property id (from_option dp_properties [] (actor_of s pid)
                    ++ set_properties pid (sim_calls s)) None.

(** SimGrid, for the process [pid]. *)
Definition machine (pid : Z) : Runtime := {|
  rt_step c s :=
    match c with
    | ActorInit _ _ =>
        match on_creation (Z.of_nat (length (deployed_actors (sim_calls s)))) s with
        | Ok _ s' => s' | Fail _ => s end
    | Malloc n =>
        over_mem (fun m => foldr (fun i => <[last_malloc (sim_calls s) + i := 0]>) m
                             (seqZ 0 (block_size n))) s
    | FreeMemory ptr =>
        over_mem (fun m => foldr (fun i => delete (ptr + i)) m
                             (seqZ 0 (malloc_size ptr (sim_calls s)))) s
    | _ => s
    end;
  rt_succeeds c s := true;
  rt_others s := s;
  rt_pid s := pid;
  rt_host s := match actor_of s pid with Some a => dp_host a | None => -1 end;
  rt_property s id := property_of s pid id;
  rt_speed s := double_of_Z 1;
  rt_elapsed s a := double_of_Z 0;
  rt_all_actors s := seqZ 1 (Z.of_nat (length (deployed_actors (sim_calls s))));
  rt_actors_on s h :=
    map dp_function (filter (fun a => dp_host a = h) (reverse (deployed_actors (sim_calls s))));
  rt_host_name h := default ""%string (hosts !! Z.to_nat h);
  rt_by_name name := index_of name hosts 0;
  rt_host_property h id :=
    if bool_decide (hosts !! Z.to_nat h = Some "quito0_NIC"%string /\ id = "nid"%string)
    then Some "42"%string else None;
  rt_isatty fd := false;
  rt_geteuid := 1000;
  rt_printed s := 0;
  rt_getopt s := -1;
  rt_random_int n a b := Z.of_nat n mod 52;
  rt_engine_args argv := argv;
  rt_loaded_libs s := [];
  rt_xml file := snd <$> List.find (fun d => bool_decide (d.1 = file)) documents;
  rt_actor_name s p := match actor_of s p with Some a => dp_function a | None => ""%string end;
  rt_actor_property s p id := property_of s p id;
  rt_malloc s := last_malloc (sim_calls s);
  rt_env := env;
  rt_indeterminate_host := -1;
  rt_mpi_build := false |}.

Definition initial_sim (config : s4bxi_config) : Sim := {|
  sim_world := empty_world config; sim_nodes := []; sim_actors := [];
  sim_rand_id := "0000000000"; sim_users := ∅; sim_ext_valid := false; sim_ext := ∅;
  sim_barrier := None; sim_local_ranks := ∅; sim_initialized_processes := 0; sim_samples := ∅;
  sim_bxi_log := mk_log None None S4BXILOG_COMPUTE 0 0;
  sim_app := mk_Application "" "" []; sim_optind := 0; sim_calls := [] |}.
End Machine.

(** The environment of the tests: the deployment is read with pugixml. *)
Definition test_env : Environment := {["S4BXI_USE_PUGIXML"%string := "1"%string]}.
Definition test_config : option s4bxi_config :=
  match BxiEngine_new test_env with Ok c _ => Some c | Fail _ => None end.
