(* ===== verification/TestLib.v ===== *)
(** What the programs of the test suite ([teshsuite/]) share: the constructs of C they are written
    with, and the pieces that each of them repeats. *)
From ITree Require Import ITree.
From S2P Require Import Prelude Portals Config Atomics Redefine Strings Client.
Import Client.Call.

(** ** C *)

(** [if (!ok) { ...; return r; }] *)
Notation "'ensure' ok 'or' bad ; k" := (if (ok : bool) then k else bad)
  (at level 20, ok at level 100, bad at level 100, k at level 200, right associativity,
   only parsing).

(** [for (i = from; i < from + n; ++i)], with a body that may return from the function. *)
Fixpoint for_return {A R} (n : nat) (i : Z) (a : A) (body : Z -> A -> Program (R + A))
    : Program (R + A) :=
  match n with
  | O => mret (inr a)
  | S n' =>
      r ← body i a;
      match r with inl r => mret (inl r) | inr a => for_return n' (i + 1) a body end
  end.

Definition sizeof_int64 : Z := 8.
Definition sizeof_long_double : Z := 16.
Definition sizeof_pointer : Z := 8.
(** @src/include/portals4.h:406-416 sizeof(ptl_me_t), sizeof(ptl_le_t) *)
Definition sizeof_me : Z := 64.

(** [atoi] *)
Definition atoi (s : string) : Program Z :=
  do (determinate (match Config.atoi s tt with Ok v _ => Some v | Fail _ => None end)).

Definition calloc (n size : Z) : Program Z :=
  p ← do (malloc (n * size)); _ ← do (store p (replicate (Z.to_nat (n * size)) 0)); mret p.

(** [new T(v)] *)
Definition new_int64 (v : Z) : Program Z :=
  p ← do (malloc sizeof_int64); _ ← store_int64 p v; mret p.
Definition new_long_double (v : Z) : Program Z :=
  p ← do (malloc sizeof_long_double); _ ← store_long_double p v; mret p.

(** ** Portals *)

(** [~0ULL], a null pointer *)
Definition ones : Z := 2 ^ 64 - 1.
Definition nullptr : Z := 0.

(** @src/teshsuite/_pt2pt_put_matching/pt2pt_put_matching.cpp:28-31 ptlerr *)
Definition ptlerr (str : string) (rc : Z) : Program unit :=
  fprintf_stderr (str ++ ": " ++ PtlToStr rc PTL_STR_ERROR ++ newline)%string.

(** The loop that waits for an event by polling, 5 seconds at a time. *)
(** @src/teshsuite/_pt2pt_put_matching/pt2pt_put_matching.cpp:153-157 the loop on PtlEQPoll *)
Definition poll_event (eqh : handle) : Program ptl_event :=
  ITree.iter (fun _ : unit =>
    '(rc, r) ← do (PtlEQPoll [eqh] 5000);
    if rc =? PTL_OK then '(ev, _) ← do (determinate r); mret (inr ev) else mret (inl tt)) tt.

(** @src/teshsuite/_pt2pt_counters/pt2pt_counters.cpp:196-200 the loop on PtlCTPoll *)
Definition poll_counter (cth : handle) (test : Z) : Program ptl_ct_event :=
  ITree.iter (fun _ : unit =>
    '(rc, r) ← do (PtlCTPoll [cth] [test] 5000);
    if rc =? PTL_OK then '(ev, _) ← do (determinate r); mret (inr ev) else mret (inl tt)) tt.

Definition event_type (ev : ptl_event) : Program ptl_event_kind := do (determinate (ev_type ev)).

Definition wrong_event (got : ptl_event_kind) (expected : string) (values : string) : Program unit :=
  fprintf_stderr ("Wrong event type, got " ++ fmt_u (event_num got) ++ " instead of "
                  ++ expected ++ " (" ++ values ++ ")")%string.

(** The test of the type of an event, that ends the simulation. *)
Definition expect (ev : ptl_event) (kind : ptl_event_kind) (name : string) : Program unit :=
  t ← event_type ev;
  if decide (t = kind) then mret tt
  else _ ← wrong_event t name (fmt_u (event_num kind)); exit_with 1.

(** The test of a result, that ends the simulation. *)
Definition must (rc : Z) (name : string) : Program unit :=
  if rc =? PTL_OK then mret tt else _ ← ptlerr name rc; exit_with rc.

(** A descriptor of some bytes, with an event queue. *)
Definition md_of (start length : Z) (eqh : handle) (options : Z) : ptl_md :=
  mk_md start length options eqh PTL_CT_NONE.

(** [memset] to 0, then the fields that the tests set; [uid] is an [int]. *)
Definition me_of (start length match_bits options : Z) : ptl_me :=
  mk_me start length NULL (swrap 32 PTL_UID_ANY) options (mk_process 0 0) match_bits 0 0.

(** An entry in the list, with its LINK event; its handle is in memory. *)
(** @src/teshsuite/_pt2pt_put_matching/pt2pt_put_matching.cpp:137-137 PtlMEAppend with its handle in memory *)
Definition append_me (nih : handle) (pte : Z) (me : ptl_me) (l user_ptr meh : Z) : Program Z :=
  '(rc, h) ← do (PtlMEAppend nih pte me l user_ptr); _ ← store_handle meh h; mret rc.
(** @src/teshsuite/_pt2pt_put_non_matching/pt2pt_put_non_matching.cpp:129-129 PtlLEAppend with its handle in memory *)
Definition append_le (nih : handle) (pte : Z) (le : ptl_me) (l user_ptr leh : Z) : Program Z :=
  '(rc, h) ← do (PtlLEAppend nih pte le l user_ptr); _ ← store_handle leh h; mret rc.

Definition wait_event (eqh : handle) : Program ptl_event :=
  '(_, ev) ← do (PtlEQWait eqh); mret ev.

(** The end of a server that tells what went wrong, and leaves the simulation. *)
(** @src/teshsuite/_pt2pt_atomic/pt2pt_atomic.cpp:205-225 the end of server *)
Definition server_end_exit (nih : handle) (pte : Z) (eqh : handle) : Program Z :=
  rc ← do (PtlPTFree nih pte);
  _ ← must rc "PtlPTFree bug";
  rc ← do (PtlEQFree eqh);
  _ ← must rc "PtlEQFree bug";
  rc ← do (PtlNIFini nih);
  _ ← must rc "PtlNIFini bug";
  _ ← do PtlFini; mret 0.

(** The end of a server that returns the error. *)
(** @src/teshsuite/_pt2pt_put_matching/pt2pt_put_matching.cpp:184-204 the end of server *)
Definition server_end_return (nih : handle) (pte : Z) (eqh : handle) : Program Z :=
  rc ← do (PtlPTFree nih pte);
  ensure rc =? PTL_OK or (_ ← ptlerr "server: PtlPTFree" rc; mret rc);
  rc ← do (PtlEQFree eqh);
  ensure rc =? PTL_OK or (_ ← ptlerr "server: PtlEQFree" rc; mret rc);
  rc ← do (PtlNIFini nih);
  ensure rc =? PTL_OK or (_ ← ptlerr "server: PtlNIFini" rc; mret rc);
  _ ← do PtlFini; mret 0.

(** The end of a client. *)
(** @src/teshsuite/_pt2pt_put_matching/pt2pt_put_matching.cpp:95-100 the end of client *)
Definition client_end (nih : handle) (eqh : handle) : Program Z :=
  _ ← do (PtlEQFree eqh);
  _ ← do (PtlNIFini nih);
  _ ← do PtlFini; mret 0.

(** The start of most clients and servers: a network interface and an event queue. *)
(** @src/teshsuite/_pt2pt_put_matching/pt2pt_put_matching.cpp:37-50 the start of client *)
Definition open_portals (options pid : Z) : Program (handle * handle) :=
  _ ← do PtlInit;
  '(_, nih, _) ← do (PtlNIInit PTL_IFACE_DEFAULT options pid None);
  '(_, eqh) ← do (PtlEQAlloc);
  mret (nih, eqh).

(** @src/teshsuite/_pt2pt_put_matching/pt2pt_put_matching.cpp:207-211 main *)
Definition client_or_server (client : string -> Program Z) (server : Program Z)
    (argv : list string) : Program Z :=
  match argv with _ :: target :: _ => client target | _ => server end.
