(* ===== verification/TestAtomics.v ===== *)
(** The programs of the test suite on atomic operations: [teshsuite/_pt2pt_atomic],
    [_pt2pt_fetch_atomic] and [_pt2pt_l2p]. *)
From ITree Require Import ITree.
From S2P Require Import Prelude Portals Client TestLib.
Import Client.Call.

(** @src/teshsuite/_pt2pt_fetch_atomic/pt2pt_fetch_atomic.cpp:25-27 INT64T_ME, LONG_DOUBLE_ME, SWAP_ME *)
Definition INT64T_ME : Z := 1.
Definition LONG_DOUBLE_ME : Z := 2.
Definition SWAP_ME : Z := 3.

Definition matching_physical : Z := Z.lor PTL_NI_MATCHING PTL_NI_PHYSICAL.
Definition put_and_get : Z := Z.lor PTL_ME_OP_PUT PTL_ME_OP_GET.

(** ** PtlAtomic *)

Module Atomic.
(** One operation, on [size] bytes at [p]. *)
(** @src/teshsuite/_pt2pt_atomic/pt2pt_atomic.cpp:57-73 a request of client *)
Definition request (nih eqh : handle) (peer : ptl_process) (p size match_bits hdr : Z)
    (op : ptl_op) (type : ptl_datatype) (delay : bool) : Program unit :=
  '(_, mdh) ← do (PtlMDBind nih (md_of p size eqh PTL_MD_EVENT_SEND_DISABLE));
  _ ← (if delay then _ ← do (sleep 1); mret tt else mret tt);
  _ ← do (PtlAtomic mdh 0 size PTL_ACK_REQ peer 0 match_bits 0 nullptr hdr op type);
  _ ← wait_event eqh;
  _ ← do (PtlMDRelease mdh);
  do (free p).

(** @src/teshsuite/_pt2pt_atomic/pt2pt_atomic.cpp:33-103 client *)
Definition client (target : string) : Program Z :=
  target_nid ← atoi target;
  '(nih, eqh) ← open_portals matching_physical 123;
  let peer := mk_process target_nid 123 in
  (* INT64 *)
  i64 ← new_int64 2;
  _ ← request nih eqh peer i64 sizeof_int64 INT64T_ME 1337 PTL_SUM PTL_INT64_T true;
  (* LONG_DOUBLE *)
  ld ← new_long_double 3;
  _ ← request nih eqh peer ld sizeof_long_double LONG_DOUBLE_ME 7331 PTL_PROD PTL_LONG_DOUBLE false;
  client_end nih eqh.

(** @src/teshsuite/_pt2pt_atomic/pt2pt_atomic.cpp:105-226 server *)
Definition server : Program Z :=
  _ ← do PtlInit;
  '(_, nih, _) ← do (PtlNIInit PTL_IFACE_DEFAULT matching_physical 123 None);
  '(_, eqh) ← do PtlEQAlloc;
  '(_, pte) ← do (PtlPTAlloc nih 0 eqh 0);
  (* INT64 *)
  i64 ← new_int64 40;
  meh_i64 ← do (malloc sizeof_pointer);
  _ ← append_me nih pte (me_of i64 sizeof_int64 INT64T_ME put_and_get) PTL_PRIORITY_LIST
        meh_i64 meh_i64;
  _ ← wait_event eqh;
  (* LONG DOUBLE *)
  ld ← new_long_double 23;
  meh_ld ← do (malloc sizeof_pointer);
  _ ← append_me nih pte (me_of ld sizeof_long_double LONG_DOUBLE_ME put_and_get)
        PTL_PRIORITY_LIST meh_ld meh_ld;
  ev ← wait_event eqh;
  _ ← expect ev PTL_EVENT_LINK "LINK";
  (* Wait for requests *)
  ev ← poll_event eqh;
  _ ← expect ev PTL_EVENT_ATOMIC "ATOMIC";
  v ← load_int64 i64;
  _ ← printf ("INT64 : " ++ Client.ld v ++ newline);
  hdr ← do (determinate (ev_hdr_data ev));
  _ ← printf ("HDR data : " ++ lu hdr ++ newline);
  h ← load_handle meh_i64;
  _ ← do (PtlMEUnlink h);
  _ ← do (free i64);
  _ ← do (free meh_i64);
  (* LONG DOUBLE *)
  ev ← poll_event eqh;
  _ ← expect ev PTL_EVENT_ATOMIC "ATOMIC";
  v ← load_long_double ld;
  _ ← printf ("LONG DOUBLE : " ++ Lf v ++ newline);
  hdr ← do (determinate (ev_hdr_data ev));
  _ ← printf ("HDR data : " ++ lu hdr ++ newline);
  h ← load_handle meh_ld;
  _ ← do (PtlMEUnlink h);
  _ ← do (free ld);
  _ ← do (free meh_ld);
  server_end_exit nih pte eqh.

(** @src/teshsuite/_pt2pt_atomic/pt2pt_atomic.cpp:228-232 main *)
Definition main : list string -> Program Z := client_or_server client server.
End Atomic.

(** ** PtlFetchAtomic and PtlSwap *)

Module FetchAtomic.
(** The two buffers of a request, and what the client does around it. *)
(** @src/teshsuite/_pt2pt_fetch_atomic/pt2pt_fetch_atomic.cpp:138-166 a request of client *)
Definition request (nih eqh : handle) (put get size : Z) (delay : bool)
    (operation : handle -> handle -> call Z) (result : Program unit) : Program unit :=
  '(_, mdh_put) ← do (PtlMDBind nih (md_of put size eqh PTL_MD_EVENT_SEND_DISABLE));
  '(_, mdh_get) ← do (PtlMDBind nih (md_of get size eqh PTL_MD_EVENT_SEND_DISABLE));
  _ ← (if delay then _ ← do (sleep 1); mret tt else mret tt);
  _ ← do (operation mdh_get mdh_put);
  _ ← wait_event eqh;
  _ ← do (PtlMDRelease mdh_put);
  _ ← do (PtlMDRelease mdh_get);
  _ ← do s4bxi_barrier;
  _ ← result;
  _ ← do (free put);
  do (free get).

(** @src/teshsuite/_pt2pt_fetch_atomic/pt2pt_fetch_atomic.cpp:34-174 client *)
Definition client (target : string) : Program Z :=
  target_nid ← atoi target;
  '(nih, eqh) ← open_portals matching_physical 123;
  let peer := mk_process target_nid 123 in
  (* INT64 *)
  i64_put ← new_int64 2;
  i64_get ← new_int64 666;
  _ ← request nih eqh i64_put i64_get sizeof_int64 true
        (fun mdh_get mdh_put =>
           PtlFetchAtomic mdh_get 0 mdh_put 0 sizeof_int64 peer 0 INT64T_ME 0 nullptr 1337
             PTL_SUM PTL_INT64_T)
        (v ← load_int64 i64_get; printf ("Initial INT64 : " ++ ld v ++ newline));
  (* LONG_DOUBLE *)
  ld_put ← new_long_double 3;
  ld_get ← new_long_double 666;
  _ ← request nih eqh ld_put ld_get sizeof_long_double false
        (fun mdh_get mdh_put =>
           PtlFetchAtomic mdh_get 0 mdh_put 0 sizeof_long_double peer 0 LONG_DOUBLE_ME 0 nullptr
             7331 PTL_PROD PTL_LONG_DOUBLE)
        (v ← load_long_double ld_get; printf ("Initial LONG DOUBLE : " ++ Lf v ++ newline));
  (* SWAP *)
  swap_put ← new_long_double 42;
  swap_get ← new_long_double 666;
  _ ← request nih eqh swap_put swap_get sizeof_long_double false
        (fun mdh_get mdh_put =>
           PtlSwap mdh_get 0 mdh_put 0 sizeof_long_double peer 0 SWAP_ME 0 nullptr 3333 0x42
             PTL_SWAP PTL_LONG_DOUBLE)
        (v ← load_long_double swap_get; printf ("Initial SWAP : " ++ Lf v ++ newline));
  client_end nih eqh.

(** A target buffer: its entry, whose handle is in memory. *)
(** @src/teshsuite/_pt2pt_fetch_atomic/pt2pt_fetch_atomic.cpp:243-256 an entry of server *)
Definition post (nih : handle) (pte : Z) (eqh : handle) (start size match_bits : Z)
    : Program (Z * ptl_event) :=
  meh ← do (malloc sizeof_pointer);
  _ ← append_me nih pte (me_of start size match_bits put_and_get) PTL_PRIORITY_LIST meh meh;
  ev ← wait_event eqh;
  mret (meh, ev).

(** What the server does when a request has come. *)
(** @src/teshsuite/_pt2pt_fetch_atomic/pt2pt_fetch_atomic.cpp:304-322 the answer of server *)
Definition answered (eqh : handle) (text : Program string) (meh start : Z) : Program unit :=
  ev ← poll_event eqh;
  _ ← expect ev PTL_EVENT_FETCH_ATOMIC "FETCH_ATOMIC";
  t ← text;
  _ ← printf (t ++ newline);
  hdr ← do (determinate (ev_hdr_data ev));
  _ ← printf ("HDR data : " ++ lu hdr ++ newline);
  _ ← do s4bxi_barrier;
  h ← load_handle meh;
  _ ← do (PtlMEUnlink h);
  _ ← do (free start);
  do (free meh).

(** @src/teshsuite/_pt2pt_fetch_atomic/pt2pt_fetch_atomic.cpp:176-347 server *)
Definition server : Program Z :=
  _ ← do PtlInit;
  '(_, nih, _) ← do (PtlNIInit PTL_IFACE_DEFAULT matching_physical 123 None);
  '(_, eqh) ← do PtlEQAlloc;
  '(_, pte) ← do (PtlPTAlloc nih 0 eqh 0);
  (* INT64 *)
  i64 ← new_int64 40;
  '(meh_i64, _) ← post nih pte eqh i64 sizeof_int64 INT64T_ME;
  (* LONG DOUBLE *)
  ld ← new_long_double 23;
  '(meh_ld, ev) ← post nih pte eqh ld sizeof_long_double LONG_DOUBLE_ME;
  _ ← expect ev PTL_EVENT_LINK "LINK";
  (* SWAP *)
  swap ← new_long_double 12;
  '(meh_swap, ev) ← post nih pte eqh swap sizeof_long_double SWAP_ME;
  _ ← expect ev PTL_EVENT_LINK "LINK";
  (* Wait for requests *)
  _ ← answered eqh (v ← load_int64 i64; mret ("INT64 : " ++ Client.ld v)%string) meh_i64 i64;
  _ ← answered eqh (v ← load_long_double ld; mret ("LONG DOUBLE : " ++ Lf v)%string) meh_ld ld;
  _ ← answered eqh (v ← load_long_double swap; mret ("SWAP : " ++ Lf v)%string) meh_swap swap;
  server_end_exit nih pte eqh.

(** @src/teshsuite/_pt2pt_fetch_atomic/pt2pt_fetch_atomic.cpp:349-353 main *)
Definition main : list string -> Program Z := client_or_server client server.
End FetchAtomic.

(** ** Logical addresses *)

Module L2p.
Definition matching_logical : Z := Z.lor PTL_NI_MATCHING PTL_NI_LOGICAL.

(** @src/teshsuite/_pt2pt_l2p/pt2pt_l2p.cpp:34-106 client *)
Definition client (target : string) : Program Z :=
  target_nid ← atoi target;
  '(nih, eqh) ← open_portals matching_logical 123;
  '(_, my_proc) ← do (PtlGetPhysId nih);
  let peer := mk_process target_nid 123 in
  _ ← do (PtlSetMap nih 2 [my_proc; peer]);
  (* INT64 *)
  i64_put ← new_int64 2;
  i64_get ← new_int64 666;
  '(_, mdh_put) ← do (PtlMDBind nih (md_of i64_put sizeof_int64 eqh PTL_MD_EVENT_SEND_DISABLE));
  '(_, mdh_get) ← do (PtlMDBind nih (md_of i64_get sizeof_int64 eqh PTL_MD_EVENT_SEND_DISABLE));
  _ ← do (sleep 1);
  _ ← do (PtlFetchAtomic mdh_get 0 mdh_put 0 sizeof_int64 (mk_process 1 0) 0 INT64T_ME 0 nullptr
            1337 PTL_SUM PTL_INT64_T);
  _ ← wait_event eqh;
  _ ← do (PtlMDRelease mdh_put);
  _ ← do (PtlMDRelease mdh_get);
  v ← load_int64 i64_get;
  _ ← printf ("Initial INT64 : " ++ ld v ++ newline);
  _ ← do (free i64_put);
  _ ← do (free i64_get);
  client_end nih eqh.

(** @src/teshsuite/_pt2pt_l2p/pt2pt_l2p.cpp:108-184 server *)
Definition server : Program Z :=
  _ ← do PtlInit;
  '(_, nih, _) ← do (PtlNIInit PTL_IFACE_DEFAULT matching_logical 123 None);
  '(_, eqh) ← do PtlEQAlloc;
  '(_, pte) ← do (PtlPTAlloc nih 0 eqh 0);
  i64 ← new_int64 40;
  meh_i64 ← do (malloc sizeof_pointer);
  _ ← append_me nih pte (me_of i64 sizeof_int64 INT64T_ME put_and_get) PTL_PRIORITY_LIST
        meh_i64 meh_i64;
  _ ← wait_event eqh;
  ev ← poll_event eqh;
  _ ← expect ev PTL_EVENT_FETCH_ATOMIC "FETCH_ATOMIC";
  v ← load_int64 i64;
  _ ← printf ("INT64 : " ++ ld v ++ newline);
  hdr ← do (determinate (ev_hdr_data ev));
  _ ← printf ("HDR data : " ++ lu hdr ++ newline);
  h ← load_handle meh_i64;
  _ ← do (PtlMEUnlink h);
  _ ← do (free i64);
  _ ← do (free meh_i64);
  server_end_exit nih pte eqh.

(** @src/teshsuite/_pt2pt_l2p/pt2pt_l2p.cpp:186-190 main *)
Definition main : list string -> Program Z := client_or_server client server.
End L2p.
