(* ===== verification/TestEntries.v ===== *)
(** The programs of the test suite on matching entries: [teshsuite/_pt2pt_offsets],
    [_pt2pt_auto_unlink], [_pt2pt_unexpected_headers] and [_pt2pt_truncated_payload]. *)
From ITree Require Import ITree.
From S2P Require Import Prelude Portals Strings Client TestLib TestAtomics.
Import Client.Call.

(** ** Offsets *)

Module Offsets.
(** [i64 + i] *)
Definition at_index (p i : Z) : Z := p + i * sizeof_int64.

(** The prints of the elements of an array. *)
(** @src/teshsuite/_pt2pt_offsets/pt2pt_offsets.cpp:322-325 the prints of server *)
Fixpoint print_targets (p : Z) (after : string) (indices : list Z) : Program unit :=
  match indices with
  | [] => mret tt
  | i :: indices' =>
      v ← load_int64 (at_index p i);
      _ ← printf ("Target[" ++ ld i ++ "] after " ++ after ++ " : " ++ ld v ++ newline);
      print_targets p after indices'
  end.

(** @src/teshsuite/_pt2pt_offsets/pt2pt_offsets.cpp:74-78 the acknowledgement of a put *)
Definition ack (eqh : handle) : Program unit :=
  ev ← wait_event eqh; expect ev PTL_EVENT_ACK "ACK".

(** @src/teshsuite/_pt2pt_offsets/pt2pt_offsets.cpp:30-156 client *)
Definition client (target : string) : Program Z :=
  target_nid ← atoi target;
  '(nih, eqh) ← open_portals matching_physical 123;
  let peer := mk_process target_nid 123 in
  i64 ← do (malloc (4 * sizeof_int64));
  _ ← store_int64 i64 (-666);
  _ ← store_int64 (at_index i64 1) 27;
  _ ← store_int64 (at_index i64 2) 42;
  _ ← store_int64 (at_index i64 3) 666;
  '(_, mdh) ← do (PtlMDBind nih (md_of i64 (4 * sizeof_int64) eqh PTL_MD_EVENT_SEND_DISABLE));
  (* Local offset test *)
  _ ← printf ("--- Local offset test" ++ newline);
  _ ← do (sleep 1);
  _ ← do (PtlPut mdh (2 * sizeof_int64) sizeof_int64 PTL_ACK_REQ peer 0 42 0 nullptr ones);
  _ ← ack eqh;
  _ ← do s4bxi_barrier;
  _ ← do (PtlFetchAtomic mdh (3 * sizeof_int64) mdh sizeof_int64 sizeof_int64 peer 0 42 0
            nullptr ones PTL_SUM PTL_INT64_T);
  ev ← wait_event eqh;
  _ ← expect ev PTL_EVENT_REPLY "REPLY";
  _ ← do s4bxi_barrier;
  v ← load_int64 (at_index i64 3);
  _ ← printf ("Target value fetched in atomic : " ++ ld v ++ newline);
  (* Remote offset test *)
  _ ← printf ("--- Remote offset test" ++ newline);
  _ ← do (sleep 1);
  _ ← do (PtlPut mdh (2 * sizeof_int64) sizeof_int64 PTL_ACK_REQ peer 0 42 sizeof_int64 nullptr
            ones);
  _ ← ack eqh;
  _ ← do s4bxi_barrier;
  (* MANAGE_LOCAL test *)
  _ ← printf ("--- MANAGE_LOCAL test" ++ newline);
  _ ← do (sleep 1);
  _ ← do (PtlPut mdh sizeof_int64 sizeof_int64 PTL_ACK_REQ peer 0 42 (666 * sizeof_int64)
            nullptr ones);
  _ ← ack eqh;
  _ ← do (PtlPut mdh (2 * sizeof_int64) sizeof_int64 PTL_ACK_REQ peer 0 42 (666 * sizeof_int64)
            nullptr ones);
  _ ← ack eqh;
  _ ← do (PtlGet mdh (3 * sizeof_int64) sizeof_int64 peer 0 42 (666 * sizeof_int64) nullptr);
  ev ← wait_event eqh;
  _ ← expect ev PTL_EVENT_REPLY "REPLY";
  _ ← do (sleep 1);
  v ← load_int64 (at_index i64 3);
  _ ← printf ("Target value fetched in get : " ++ ld v ++ newline);
  _ ← do (PtlMDRelease mdh);
  _ ← do (free i64);
  client_end nih eqh.

(** An array and its entry, whose handle is in memory. *)
(** @src/teshsuite/_pt2pt_offsets/pt2pt_offsets.cpp:286-309 an entry of server *)
Definition post (nih : handle) (pte : Z) (eqh : handle) (values : list Z) (options min_free : Z)
    : Program (Z * Z) :=
  i64 ← do (malloc (Z.of_nat (length values) * sizeof_int64));
  _ ← for_loop (length values) 0 (fun i =>
        store_int64 (at_index i64 i) (nth (Z.to_nat i) values 0));
  meh ← do (malloc sizeof_pointer);
  let me := me_of i64 (Z.of_nat (length values) * sizeof_int64) 42 options in
  let me := mk_me (me_start me) (me_length me) (me_ct_handle me) (me_uid me) (me_options me)
              (me_match_id me) (me_match_bits me) (me_ignore_bits me) min_free in
  _ ← append_me nih pte me PTL_PRIORITY_LIST meh meh;
  ev ← wait_event eqh;
  _ ← expect ev PTL_EVENT_LINK "LINK";
  mret (i64, meh).

(** @src/teshsuite/_pt2pt_offsets/pt2pt_offsets.cpp:278-280 the end of an entry *)
Definition unlink (meh i64 : Z) : Program unit :=
  h ← load_handle meh; _ ← do (PtlMEUnlink h); _ ← do (free i64); do (free meh).

(** @src/teshsuite/_pt2pt_offsets/pt2pt_offsets.cpp:158-372 server *)
Definition server : Program Z :=
  _ ← do PtlInit;
  '(_, nih, _) ← do (PtlNIInit PTL_IFACE_DEFAULT matching_physical 123 None);
  '(_, eqh) ← do PtlEQAlloc;
  '(_, pte) ← do (PtlPTAlloc nih 0 eqh 0);
  (* Local offset test *)
  '(i64, meh) ← post nih pte eqh [0] put_and_get 0;
  ev ← poll_event eqh;
  _ ← expect ev PTL_EVENT_PUT "PUT";
  v ← load_int64 i64;
  _ ← printf ("Target after PUT : " ++ ld v ++ newline);
  _ ← do s4bxi_barrier;
  ev ← poll_event eqh;
  _ ← expect ev PTL_EVENT_FETCH_ATOMIC "FETCH_ATOMIC";
  v ← load_int64 i64;
  _ ← printf ("Target after FETCH_ATOMIC : " ++ ld v ++ newline);
  _ ← do s4bxi_barrier;
  _ ← unlink meh i64;
  (* Remote offset test *)
  '(i64, meh) ← post nih pte eqh [0; 0; 0] PTL_ME_OP_PUT 0;
  ev ← poll_event eqh;
  _ ← expect ev PTL_EVENT_PUT "PUT";
  _ ← print_targets i64 "PUT" [0; 1; 2];
  _ ← do s4bxi_barrier;
  _ ← unlink meh i64;
  (* MANAGE_LOCAL test *)
  '(i64, meh) ← post nih pte eqh [999; 999; 69; 999] (Z.lor put_and_get PTL_ME_MANAGE_LOCAL)
                  (sizeof_int64 + 1);
  _ ← for_loop 2 0 (fun _ =>
        ev ← poll_event eqh;
        _ ← expect ev PTL_EVENT_PUT "PUT";
        print_targets i64 "PUT" [0; 1; 2; 3]);
  _ ← for_loop 2 0 (fun _ =>
        ev ← poll_event eqh;
        t ← event_type ev;
        if decide (t = PTL_EVENT_GET \/ t = PTL_EVENT_AUTO_UNLINK) then mret tt
        else _ ← wrong_event t "GET or AUTO_UNLINK"
                   (fmt_u (event_num PTL_EVENT_GET) ++ " or "
                    ++ fmt_u (event_num PTL_EVENT_AUTO_UNLINK));
             exit_with 1);
  _ ← print_targets i64 "GET" [0; 1; 2; 3];
  _ ← do (free i64);
  _ ← do (free meh);
  (* Cleanup *)
  rc ← do (PtlPTFree nih pte);
  _ ← (if rc =? PTL_OK then mret tt
       else _ ← fprintf_stderr ("PtlPTFree bug" ++ newline); exit_with rc);
  rc ← do (PtlEQFree eqh);
  _ ← (if rc =? PTL_OK then mret tt
       else _ ← fprintf_stderr ("PtlEQFree bug" ++ newline); exit_with rc);
  rc ← do (PtlNIFini nih);
  _ ← (if rc =? PTL_OK then mret tt
       else _ ← fprintf_stderr ("PtlNIFini bug" ++ newline); exit_with rc);
  _ ← do PtlFini; mret 0.

(** @src/teshsuite/_pt2pt_offsets/pt2pt_offsets.cpp:374-378 main *)
Definition main : list string -> Program Z := client_or_server client server.
End Offsets.

(** ** Entries used once *)

Module AutoUnlink.
(** @src/teshsuite/_pt2pt_auto_unlink/pt2pt_auto_unlink.cpp:26-26 MESSAGE_NUMBER *)
Definition MESSAGE_NUMBER : Z := 10.
Definition no_matching_physical : Z := Z.lor PTL_NI_NO_MATCHING PTL_NI_PHYSICAL.

(** @src/teshsuite/_pt2pt_auto_unlink/pt2pt_auto_unlink.cpp:33-82 client *)
Definition client (target : string) : Program Z :=
  target_nid ← atoi target;
  '(nih, eqh) ← open_portals no_matching_physical 123;
  let peer := mk_process target_nid 123 in
  buf ← do (malloc 1);
  _ ← do (store buf [0]);
  '(_, mdh) ← do (PtlMDBind nih (md_of buf 1 eqh
                    (Z.lor PTL_MD_EVENT_SEND_DISABLE PTL_MD_VOLATILE)));
  _ ← for_loop (Z.to_nat MESSAGE_NUMBER) 0 (fun j =>
        _ ← do (sleep 1);
        _ ← do (PtlPut mdh 0 1 PTL_ACK_REQ peer 0 ones 0 nullptr ones);
        _ ← wait_event eqh;
        printf ("Sent message " ++ ld j ++ newline));
  _ ← do (PtlMDRelease mdh);
  _ ← do (free buf);
  client_end nih eqh.

(** The loop over the events, until [MESSAGE_NUMBER] entries are unlinked. *)
(** @src/teshsuite/_pt2pt_auto_unlink/pt2pt_auto_unlink.cpp:121-133 the events of server *)
Definition count_unlinks (nih eqh : handle) : Program unit :=
  ITree.iter (fun j =>
    if j <? MESSAGE_NUMBER then
      ev ← poll_event eqh;
      t ← event_type ev;
      if decide (t = PTL_EVENT_AUTO_UNLINK) then
        n ← do (priority_list_size nih 0);
        _ ← printf ("LE remaining : " ++ lu n ++ newline);
        mret (inl (j + 1))
      else mret (inl j)
    else mret (inr tt)) 0.

(** @src/teshsuite/_pt2pt_auto_unlink/pt2pt_auto_unlink.cpp:84-163 server *)
Definition server : Program Z :=
  _ ← do PtlInit;
  '(_, nih, _) ← do (PtlNIInit PTL_IFACE_DEFAULT no_matching_physical 123 None);
  lepar ← calloc MESSAGE_NUMBER sizeof_me;
  leh_pool ← calloc MESSAGE_NUMBER sizeof_pointer;
  '(_, eqh) ← do PtlEQAlloc;
  bufs ← do (malloc (MESSAGE_NUMBER * sizeof_pointer));
  '(_, pte) ← do (PtlPTAlloc nih 0 eqh 0);
  _ ← for_loop (Z.to_nat MESSAGE_NUMBER) 0 (fun i =>
        buf ← do (malloc 1);
        _ ← store_int64 (bufs + i * sizeof_pointer) buf;
        _ ← append_le nih pte (me_of buf 1 0 (Z.lor PTL_LE_OP_PUT PTL_LE_USE_ONCE))
              PTL_PRIORITY_LIST (leh_pool + i * sizeof_pointer) (leh_pool + i * sizeof_pointer);
        _ ← wait_event eqh;
        mret tt);
  _ ← count_unlinks nih eqh;
  _ ← for_loop (Z.to_nat MESSAGE_NUMBER) 0 (fun i =>
        buf ← load_int64 (bufs + i * sizeof_pointer); do (free buf));
  _ ← do (free bufs);
  _ ← do (free leh_pool);
  _ ← do (free lepar);
  server_end_return nih pte eqh.

(** @src/teshsuite/_pt2pt_auto_unlink/pt2pt_auto_unlink.cpp:165-169 main *)
Definition main : list string -> Program Z := client_or_server client server.
End AutoUnlink.

(** ** Unexpected headers *)

Module UnexpectedHeaders.
(** @src/teshsuite/_pt2pt_unexpected_headers/pt2pt_unexpected_headers.cpp:30-114 client *)
Definition client (target : string) : Program Z :=
  target_nid ← atoi target;
  rc ← do PtlInit;
  ensure rc =? PTL_OK or (_ ← ptlerr "client: PtlInit" rc; mret rc);
  '(rc, nih, _) ← do (PtlNIInit PTL_IFACE_DEFAULT matching_physical 2345 None);
  ensure rc =? PTL_OK or (_ ← ptlerr "client: PtlNIInit" rc; mret rc);
  '(rc, eqh) ← do PtlEQAlloc;
  ensure rc =? PTL_OK or (_ ← ptlerr "client: PtlEQAlloc" rc; mret rc);
  let peer := mk_process target_nid 2345 in
  i64 ← new_int64 42;
  '(rc, mdh) ← do (PtlMDBind nih (md_of i64 sizeof_int64 eqh PTL_MD_EVENT_SEND_DISABLE));
  ensure rc =? PTL_OK or (_ ← ptlerr "client: PtlMDBind" rc; mret rc);
  _ ← do s4bxi_barrier;
  rc ← do (PtlPut mdh 0 sizeof_int64 PTL_ACK_REQ peer 0 42 0 nullptr ones);
  ensure rc =? PTL_OK or (_ ← ptlerr "client: PtlPut" rc; mret rc);
  ev ← wait_event eqh;
  t ← event_type ev;
  ensure bool_decide (t = PTL_EVENT_ACK)
    or (_ ← wrong_event t "ACK" (fmt_u (event_num PTL_EVENT_ACK)); mret 1);
  rc ← do (PtlMDRelease mdh);
  ensure rc =? PTL_OK or (_ ← ptlerr "client: PtlMDRelease" rc; mret rc);
  _ ← do (free i64);
  rc ← do (PtlEQFree eqh);
  ensure rc =? PTL_OK or (_ ← ptlerr "client: PtlEQFree" rc; mret rc);
  rc ← do (PtlNIFini nih);
  ensure rc =? PTL_OK or (_ ← ptlerr "client: PtlNIFini" rc; mret rc);
  _ ← do PtlFini; mret 0.

(** @src/teshsuite/_pt2pt_unexpected_headers/pt2pt_unexpected_headers.cpp:116-248 server *)
Definition server : Program Z :=
  let options := Z.lor PTL_ME_OP_PUT PTL_ME_USE_ONCE in
  rc ← do PtlInit;
  ensure rc =? PTL_OK or (_ ← ptlerr "server: PtlInit" rc; mret rc);
  '(_, nih, _) ← do (PtlNIInit PTL_IFACE_DEFAULT matching_physical 2345 None);
  '(rc, eqh) ← do PtlEQAlloc;
  ensure rc =? PTL_OK or (_ ← ptlerr "server: PtlEQAlloc" rc; mret rc);
  '(rc, pte) ← do (PtlPTAlloc nih 0 eqh 0);
  ensure rc =? PTL_OK or (_ ← ptlerr "server: PtlPTAlloc" rc; mret rc);
  overflow_buf ← new_int64 0;
  meh_overflow ← do (malloc sizeof_pointer);
  rc ← append_me nih pte (me_of overflow_buf sizeof_int64 42 options) PTL_OVERFLOW_LIST
         meh_overflow meh_overflow;
  ensure rc =? PTL_OK or (_ ← ptlerr "server: PtlMEAppend" rc; mret rc);
  ev ← wait_event eqh;
  t ← event_type ev;
  ensure bool_decide (t = PTL_EVENT_LINK)
    or (_ ← wrong_event t "LINK" (fmt_u (event_num PTL_EVENT_LINK)); mret 1);
  _ ← do s4bxi_barrier;
  (* Wait for request *)
  ev ← poll_event eqh;
  t ← event_type ev;
  ensure bool_decide (t = PTL_EVENT_AUTO_UNLINK)
    or (_ ← wrong_event t "PTL_EVENT_AUTO_UNLINK" (fmt_u (event_num PTL_EVENT_AUTO_UNLINK));
        mret 1);
  priority_buf ← new_int64 0;
  meh_priority ← do (malloc sizeof_pointer);
  rc ← append_me nih pte (me_of priority_buf sizeof_int64 42 options) PTL_PRIORITY_LIST
         meh_priority meh_priority;
  ensure rc =? PTL_OK or (_ ← ptlerr "server: PtlMEAppend" rc; mret rc);
  ev ← wait_event eqh;
  t ← event_type ev;
  ensure bool_decide (t = PTL_EVENT_PUT_OVERFLOW)
    or (_ ← wrong_event t "PUT_OVERFLOW" (fmt_u (event_num PTL_EVENT_PUT_OVERFLOW)); mret 1);
  (* No link event : ME is not inserted *)
  overflow ← load_int64 overflow_buf;
  priority ← load_int64 priority_buf;
  _ ← printf ("Target after PUT : overflow " ++ ld overflow ++ " - priority " ++ ld priority
              ++ newline);
  _ ← do (free overflow_buf);
  _ ← do (free priority_buf);
  _ ← do (free meh_overflow);
  _ ← do (free meh_priority);
  server_end_return nih pte eqh.

(** @src/teshsuite/_pt2pt_unexpected_headers/pt2pt_unexpected_headers.cpp:250-254 main *)
Definition main : list string -> Program Z := client_or_server client server.
End UnexpectedHeaders.

(** ** Truncated payloads *)

Module TruncatedPayload.
(** @src/teshsuite/_pt2pt_truncated_payload/pt2pt_truncated_payload.cpp:25-25 RUNS_NUMBER *)
Definition RUNS_NUMBER : nat := 4.

(** The type of an event, in a loop of a function that returns 1 when it is not the expected one. *)
(** @src/teshsuite/_pt2pt_truncated_payload/pt2pt_truncated_payload.cpp:72-75 the test of an event *)
Definition expect_return {A} (ev : ptl_event) (kind : ptl_event_kind) (name : string)
    (k : Program (Z + A)) : Program (Z + A) :=
  t ← event_type ev;
  ensure bool_decide (t = kind) or (_ ← wrong_event t name (fmt_u (event_num kind)); mret (inl 1));
  k.

(** @src/teshsuite/_pt2pt_truncated_payload/pt2pt_truncated_payload.cpp:32-102 client *)
Definition client (target : string) : Program Z :=
  target_nid ← atoi target;
  _ ← do PtlInit;
  '(_, nih, _) ← do (PtlNIInit PTL_IFACE_DEFAULT matching_physical 123 None);
  buf ← do (malloc 512);
  _ ← sprintf buf "Lorem ipsum dolor sit amet, consectetur adipiscing elit.";
  '(_, eqh) ← do PtlEQAlloc;
  let peer := mk_process target_nid 123 in
  '(_, mdh) ← do (PtlMDBind nih (md_of buf 512 eqh 0));
  r ← for_return RUNS_NUMBER 0 1 (fun _ buffer_size =>
        _ ← do (sleep 2);
        _ ← do (PtlPut mdh 0 buffer_size PTL_ACK_REQ peer 0 42 0 nullptr 0);
        ev ← wait_event eqh;
        expect_return ev PTL_EVENT_SEND "SEND" (
        n ← do (determinate (ev_mlength ev));
        _ ← printf ("SEND mlength " ++ ld n ++ newline);
        ev ← wait_event eqh;
        expect_return ev PTL_EVENT_ACK "ACK" (
        _ ← do (sleep 1);
        n ← do (determinate (ev_mlength ev));
        _ ← printf ("ACK mlength " ++ ld n ++ newline);
        mret (inr (buffer_size * 4)))));
  match r with
  | inl rc => mret rc
  | inr _ =>
      _ ← do (PtlMDRelease mdh);
      rc ← client_end nih eqh;
      _ ← do (free buf); mret rc
  end.

(** @src/teshsuite/_pt2pt_truncated_payload/pt2pt_truncated_payload.cpp:104-189 server *)
Definition server : Program Z :=
  _ ← do PtlInit;
  '(_, nih, _) ← do (PtlNIInit PTL_IFACE_DEFAULT matching_physical 123 None);
  '(_, eqh) ← do PtlEQAlloc;
  '(_, pte) ← do (PtlPTAlloc nih 0 eqh 0);
  buf ← do (malloc 12);
  '(_, meh) ← do (PtlMEAppend nih pte (me_of buf 11 42 (Z.lor PTL_LE_OP_PUT PTL_LE_OP_GET))
                    PTL_PRIORITY_LIST nullptr);
  ev ← wait_event eqh;
  t ← event_type ev;
  ensure bool_decide (t = PTL_EVENT_LINK)
    or (_ ← wrong_event t "LINK" (fmt_u (event_num PTL_EVENT_LINK)); mret 1);
  r ← for_return RUNS_NUMBER 0 tt (fun _ _ =>
        ev ← poll_event eqh;
        expect_return ev PTL_EVENT_PUT "PUT" (
        _ ← do (sleep 1);
        n ← do (determinate (ev_mlength ev));
        _ ← do (store (buf + (if n >? 11 then 11 else n)) [0]);
        s ← do (load_string buf);
        _ ← printf ("Message : " ++ s ++ newline);
        _ ← printf ("PUT mlength : " ++ ld n ++ newline);
        mret (inr tt)));
  match r with
  | inl rc => mret rc
  | inr _ =>
      _ ← do (free buf);
      _ ← do (PtlMEUnlink meh);
      server_end_return nih pte eqh
  end.

(** @src/teshsuite/_pt2pt_truncated_payload/pt2pt_truncated_payload.cpp:191-195 main *)
Definition main : list string -> Program Z := client_or_server client server.
End TruncatedPayload.
