(* ===== verification/TestTransfers.v ===== *)
(** The programs of the test suite on data transfers: [teshsuite/_pt2pt_put_matching],
    [_pt2pt_put_non_matching], [_pt2pt_get_matching], [_pt2pt_get_non_matching] and
    [_pt2pt_counters].

    Each one repeats [MESSAGE_NUMBER] transfers in each of [RUNS_NUMBER] runs, with larger and larger
    messages, to buffers of 4200000 bytes; the three numbers are parameters here, so that smaller
    instances can be run. *)
From ITree Require Import ITree.
From S2P Require Import Prelude Portals Client TestLib TestAtomics.
Import Client.Call.

Definition no_matching_physical : Z := Z.lor PTL_NI_NO_MATCHING PTL_NI_PHYSICAL.
Definition le_put_and_get : Z := Z.lor PTL_LE_OP_PUT PTL_LE_OP_GET.

(** [array[i]], for pointers *)
Definition slot (array i : Z) : Z := array + i * sizeof_pointer.
Definition load_pointer (array i : Z) : Program Z :=
  bs ← do (load (slot array i) 8); mret (Atomics.uint_of bs).
Definition store_pointer (array i v : Z) : Program unit := store_int64 (slot array i) v.

(** [%d] *)
Definition d (i : Z) : string := pretty (swrap 32 i).

Section Transfers.
Context (RUNS_NUMBER MESSAGE_NUMBER : nat) (buffer_bytes : Z).

(** The ten buffers of a server, each with the entry that [append] posts. *)
(** @src/teshsuite/_pt2pt_put_matching/pt2pt_put_matching.cpp:126-143 the entries of server *)
Definition post_buffers (bufs eqh_pool : Z) (append : Z -> Z -> Z -> Program unit) : Program unit :=
  for_loop 10 0 (fun i =>
    buf ← do (malloc buffer_bytes);
    _ ← store_pointer bufs i buf;
    append i buf (slot eqh_pool i)).

(** @src/teshsuite/_pt2pt_put_matching/pt2pt_put_matching.cpp:173-175 the end of the buffers *)
Definition free_buffers (bufs : Z) : Program unit :=
  _ ← for_loop 10 0 (fun i => buf ← load_pointer bufs i; do (free buf));
  do (free bufs).

(** @src/teshsuite/_pt2pt_put_matching/pt2pt_put_matching.cpp:177-179 the end of the entries *)
Definition unlink_entries (pool : Z) (unlink : N -> call Z) : Program unit :=
  for_loop 10 0 (fun i => h ← load_handle (slot pool i); _ ← do (unlink h); mret tt).

(** The puts of one run: small messages are sent without waiting. *)
(** @src/teshsuite/_pt2pt_put_matching/pt2pt_put_matching.cpp:69-82 the messages of a run *)
Definition put_messages (mdh eqh : N) (peer : ptl_process) (buffer_size match_bits hdr : Z)
    : Program unit :=
  got_ack ← for_loop_with MESSAGE_NUMBER 0 0 (fun _ got_ack =>
    _ ← do (PtlPut mdh 0 buffer_size PTL_ACK_REQ peer 0 match_bits 0 nullptr hdr);
    if buffer_size >? 64 then _ ← wait_event eqh; mret (got_ack + 1) else mret got_ack);
  for_loop (MESSAGE_NUMBER - Z.to_nat got_ack) got_ack (fun _ => _ ← wait_event eqh; mret tt).

(** ** Puts *)

(** @src/teshsuite/_pt2pt_put_matching/pt2pt_put_matching.cpp:33-101 client *)
Definition put_matching_client (target : string) : Program Z :=
  target_nid ← atoi target;
  '(nih, eqh) ← open_portals matching_physical 123;
  let peer := mk_process target_nid 123 in
  _ ← do s4bxi_barrier;
  _ ← for_loop_with RUNS_NUMBER 0 1 (fun i buffer_size =>
        buf ← do (malloc buffer_size);
        _ ← sprintf buf ("Message of run " ++ d i);
        '(_, mdh) ← do (PtlMDBind nih (md_of buf buffer_size eqh PTL_MD_EVENT_SEND_DISABLE));
        _ ← put_messages mdh eqh peer buffer_size 42 (100 + i);
        _ ← do (PtlMDRelease mdh);
        _ ← do (free buf);
        _ ← do s4bxi_barrier;
        _ ← printf ("Finished run " ++ d i ++ newline);
        mret (buffer_size * 4));
  client_end nih eqh.

(** @src/teshsuite/_pt2pt_put_matching/pt2pt_put_matching.cpp:103-205 server *)
Definition put_matching_server : Program Z :=
  _ ← do PtlInit;
  '(_, nih, _) ← do (PtlNIInit PTL_IFACE_DEFAULT matching_physical 123 None);
  mepar ← calloc 10 sizeof_me;
  meh_pool ← calloc 10 sizeof_pointer;
  '(_, eqh) ← do PtlEQAlloc;
  bufs ← do (malloc (10 * sizeof_pointer));
  '(_, pte) ← do (PtlPTAlloc nih 0 eqh 0);
  _ ← post_buffers bufs meh_pool (fun i buf meh =>
        _ ← append_me nih pte (me_of buf buffer_bytes (40 + i) le_put_and_get) PTL_PRIORITY_LIST
              meh meh;
        ev ← wait_event eqh;
        expect ev PTL_EVENT_LINK "LINK");
  _ ← do s4bxi_barrier;
  _ ← for_loop RUNS_NUMBER 0 (fun _ =>
        _ ← for_loop MESSAGE_NUMBER 0 (fun j =>
              ev ← poll_event eqh;
              _ ← expect ev PTL_EVENT_PUT "PUT";
              if j =? 0 then
                buf ← load_pointer bufs 0; s ← do (load_string buf);
                _ ← printf ("First buffer : " ++ s ++ newline);
                buf ← load_pointer bufs 2; s ← do (load_string buf);
                _ ← printf ("Third buffer : " ++ s ++ newline);
                hdr ← do (determinate (ev_hdr_data ev));
                printf ("HDR data : " ++ lu hdr ++ newline)
              else mret tt);
        do s4bxi_barrier);
  _ ← free_buffers bufs;
  _ ← unlink_entries meh_pool PtlMEUnlink;
  _ ← do (free meh_pool);
  _ ← do (free mepar);
  server_end_return nih pte eqh.

(** @src/teshsuite/_pt2pt_put_matching/pt2pt_put_matching.cpp:207-211 main *)
Definition put_matching : list string -> Program Z :=
  client_or_server put_matching_client put_matching_server.

(** @src/teshsuite/_pt2pt_put_non_matching/pt2pt_put_non_matching.cpp:32-95 client *)
Definition put_non_matching_client (target : string) : Program Z :=
  target_nid ← atoi target;
  '(nih, eqh) ← open_portals no_matching_physical 123;
  let peer := mk_process target_nid 123 in
  _ ← do (sleep 1);
  _ ← for_loop_with RUNS_NUMBER 0 1 (fun i buffer_size =>
        buf ← do (malloc buffer_size);
        _ ← sprintf buf ("Message of run " ++ d i);
        '(_, mdh) ← do (PtlMDBind nih (md_of buf buffer_size eqh PTL_MD_EVENT_SEND_DISABLE));
        _ ← put_messages mdh eqh peer buffer_size ones ones;
        _ ← do (PtlMDRelease mdh);
        _ ← do (free buf);
        _ ← printf ("Finished run " ++ d i ++ newline);
        mret (buffer_size * 4));
  client_end nih eqh.

(** @src/teshsuite/_pt2pt_put_non_matching/pt2pt_put_non_matching.cpp:97-181 server *)
Definition put_non_matching_server : Program Z :=
  _ ← do PtlInit;
  '(_, nih, _) ← do (PtlNIInit PTL_IFACE_DEFAULT no_matching_physical 123 None);
  lepar ← calloc 10 sizeof_me;
  leh_pool ← calloc 10 sizeof_pointer;
  '(_, eqh) ← do PtlEQAlloc;
  bufs ← do (malloc (10 * sizeof_pointer));
  '(_, pte) ← do (PtlPTAlloc nih 0 eqh 0);
  _ ← post_buffers bufs leh_pool (fun _ buf leh =>
        _ ← append_le nih pte (me_of buf buffer_bytes 0 le_put_and_get) PTL_PRIORITY_LIST leh leh;
        _ ← wait_event eqh; mret tt);
  _ ← for_loop RUNS_NUMBER 0 (fun _ =>
        for_loop MESSAGE_NUMBER 0 (fun j =>
          _ ← poll_event eqh;
          if j =? 0 then
            buf ← load_pointer bufs 0; s ← do (load_string buf);
            printf ("Received : " ++ s ++ newline)
          else mret tt));
  _ ← free_buffers bufs;
  _ ← unlink_entries leh_pool PtlLEUnlink;
  _ ← do (free leh_pool);
  _ ← do (free lepar);
  server_end_return nih pte eqh.

(** @src/teshsuite/_pt2pt_put_non_matching/pt2pt_put_non_matching.cpp:183-187 main *)
Definition put_non_matching : list string -> Program Z :=
  client_or_server put_non_matching_client put_non_matching_server.

(** ** Gets *)

(** The replies that are already there are counted. *)
(** @src/teshsuite/_pt2pt_get_matching/pt2pt_get_matching.cpp:75-84 the replies *)
Definition count_replies (eqh : N) (got_reply : Z) : Program Z :=
  ITree.iter (fun got_reply =>
    '(rc, r) ← do (PtlEQGet eqh);
    if rc =? PTL_OK then
      ev ← do (determinate r);
      t ← event_type ev;
      _ ← (if decide (t = PTL_EVENT_REPLY) then mret tt
           else fprintf_stderr ("Wrong event type in client, got " ++ fmt_u (Strings.event_num t)
                  ++ " instead of " ++ fmt_u (Strings.event_num PTL_EVENT_REPLY)
                  ++ " (PTL_EVENT_REPLY)" ++ newline));
      mret (inl (got_reply + 1))
    else mret (inr got_reply)) got_reply.

(** @src/teshsuite/_pt2pt_get_matching/pt2pt_get_matching.cpp:33-106 client *)
Definition get_client (options : Z) (target : string) : Program Z :=
  target_nid ← atoi target;
  '(nih, eqh) ← open_portals options 123;
  let peer := mk_process target_nid 123 in
  _ ← for_loop_with RUNS_NUMBER 0 1 (fun i buffer_size =>
        buf ← do (malloc (buffer_size + 1));
        _ ← do (store buf [0]);
        '(_, mdh) ← do (PtlMDBind nih (md_of buf buffer_size eqh PTL_MD_EVENT_SEND_DISABLE));
        _ ← do s4bxi_barrier;
        got_reply ← for_loop_with MESSAGE_NUMBER 0 0 (fun _ got_reply =>
              _ ← do (PtlGet mdh 0 buffer_size peer 0 42 0 nullptr);
              count_replies eqh got_reply);
        _ ← for_loop (MESSAGE_NUMBER - Z.to_nat got_reply) got_reply (fun _ =>
              _ ← wait_event eqh; mret tt);
        _ ← do (store (buf + buffer_size) [0]);
        s ← do (load_string buf);
        _ ← printf ("Received : " ++ s ++ newline);
        _ ← do (PtlMDRelease mdh);
        _ ← do (free buf);
        _ ← printf ("Finished run " ++ d i ++ newline);
        mret (buffer_size * 4));
  client_end nih eqh.

(** The runs of a server of gets: it writes its buffers, then waits for the gets. *)
(** @src/teshsuite/_pt2pt_get_matching/pt2pt_get_matching.cpp:149-168 the runs of server *)
Definition get_runs (bufs eqh : Z) (fill : Z -> Program unit) : Program unit :=
  for_loop RUNS_NUMBER 0 (fun run =>
    _ ← do s4bxi_barrier;
    _ ← fill run;
    for_loop MESSAGE_NUMBER 0 (fun _ =>
      ev ← poll_event (Z.to_N eqh);
      t ← event_type ev;
      if decide (t = PTL_EVENT_GET) then mret tt
      else fprintf_stderr ("Wrong event type in server, got " ++ fmt_u (Strings.event_num t)
             ++ " instead of " ++ fmt_u (Strings.event_num PTL_EVENT_GET)
             ++ " (PTL_EVENT_GET)" ++ newline))).

(** @src/teshsuite/_pt2pt_get_matching/pt2pt_get_matching.cpp:108-202 server *)
Definition get_matching_server : Program Z :=
  _ ← do PtlInit;
  '(_, nih, _) ← do (PtlNIInit PTL_IFACE_DEFAULT matching_physical 123 None);
  mepar ← calloc 10 sizeof_me;
  meh_pool ← calloc 10 sizeof_pointer;
  '(_, eqh) ← do PtlEQAlloc;
  bufs ← do (malloc (10 * sizeof_pointer));
  '(_, pte) ← do (PtlPTAlloc nih 0 eqh 0);
  _ ← post_buffers bufs meh_pool (fun i buf meh =>
        _ ← append_me nih pte (me_of buf buffer_bytes (40 + i) PTL_ME_OP_GET) PTL_PRIORITY_LIST
              meh meh;
        _ ← wait_event eqh; mret tt);
  _ ← get_runs bufs (Z.of_N eqh) (fun run =>
        _ ← for_loop 10 0 (fun i =>
              buf ← load_pointer bufs i; sprintf buf ("Wrong message (buffer " ++ d i ++ ")"));
        buf ← load_pointer bufs 2; sprintf buf ("Message of run " ++ d run));
  _ ← free_buffers bufs;
  _ ← unlink_entries meh_pool PtlMEUnlink;
  _ ← do (free meh_pool);
  _ ← do (free mepar);
  server_end_return nih pte eqh.

(** @src/teshsuite/_pt2pt_get_matching/pt2pt_get_matching.cpp:204-208 main *)
Definition get_matching : list string -> Program Z :=
  client_or_server (get_client matching_physical) get_matching_server.

(** @src/teshsuite/_pt2pt_get_non_matching/pt2pt_get_non_matching.cpp:33-106 client *)
Definition get_non_matching_client : string -> Program Z := get_client no_matching_physical.

(** @src/teshsuite/_pt2pt_get_non_matching/pt2pt_get_non_matching.cpp:108-199 server *)
Definition get_non_matching_server : Program Z :=
  _ ← do PtlInit;
  '(_, nih, _) ← do (PtlNIInit PTL_IFACE_DEFAULT no_matching_physical 123 None);
  lepar ← calloc 10 sizeof_me;
  leh_pool ← calloc 10 sizeof_pointer;
  '(_, eqh) ← do PtlEQAlloc;
  bufs ← do (malloc (10 * sizeof_pointer));
  '(_, pte) ← do (PtlPTAlloc nih 0 eqh 0);
  _ ← post_buffers bufs leh_pool (fun _ buf leh =>
        _ ← append_le nih pte (me_of buf buffer_bytes 0 le_put_and_get) PTL_PRIORITY_LIST leh leh;
        _ ← wait_event eqh; mret tt);
  _ ← get_runs bufs (Z.of_N eqh) (fun run =>
        for_loop 10 0 (fun i =>
          buf ← load_pointer bufs i; sprintf buf ("Message of run " ++ d run)));
  _ ← free_buffers bufs;
  _ ← unlink_entries leh_pool PtlLEUnlink;
  _ ← do (free leh_pool);
  _ ← do (free lepar);
  server_end_return nih pte eqh.

(** @src/teshsuite/_pt2pt_get_non_matching/pt2pt_get_non_matching.cpp:201-205 main *)
Definition get_non_matching : list string -> Program Z :=
  client_or_server get_non_matching_client get_non_matching_server.

(** ** Counters *)

(** @src/teshsuite/_pt2pt_counters/pt2pt_counters.cpp:33-118 client *)
Definition counters_client (target : string) : Program Z :=
  target_nid ← atoi target;
  rc ← do PtlInit;
  _ ← must rc "PtlInit";
  '(rc, nih, _) ← do (PtlNIInit PTL_IFACE_DEFAULT matching_physical 123 None);
  _ ← must rc "PtlNIInit";
  '(rc, cth) ← do PtlCTAlloc;
  _ ← must rc "PtlCTAlloc";
  let peer := mk_process target_nid 123 in
  _ ← for_loop_with RUNS_NUMBER 0 1 (fun i buffer_size =>
        buf ← do (malloc buffer_size);
        _ ← sprintf buf ("Message of run " ++ d i);
        '(rc, mdh) ← do (PtlMDBind nih
                           (mk_md buf buffer_size PTL_MD_EVENT_CT_ACK PTL_EQ_NONE cth));
        _ ← must rc "PtlMDBind";
        _ ← do (sleep 1);
        _ ← do (PtlCTSet cth (mk_ct_event 0 0));
        _ ← for_loop MESSAGE_NUMBER 0 (fun j =>
              _ ← do (PtlPut mdh 0 buffer_size PTL_ACK_REQ peer 0 42 0 nullptr ones);
              _ ← do (PtlCTWait cth (j + 1)); mret tt);
        _ ← do (PtlMDRelease mdh);
        _ ← do (free buf);
        _ ← printf ("Finished run " ++ d i ++ newline);
        mret (buffer_size * 4));
  _ ← do s4bxi_barrier;
  _ ← do (PtlCTFree cth);
  _ ← do (PtlNIFini nih);
  _ ← do PtlFini; mret 0.

(** @src/teshsuite/_pt2pt_counters/pt2pt_counters.cpp:120-220 server *)
Definition counters_server : Program Z :=
  rc ← do PtlInit;
  _ ← must rc "PtlInit";
  '(rc, nih, _) ← do (PtlNIInit PTL_IFACE_DEFAULT matching_physical 123 None);
  _ ← must rc "PtlNIInit";
  '(rc, cth) ← do PtlCTAlloc;
  _ ← must rc "PtlCTAlloc";
  meh_pool ← calloc 10 sizeof_pointer;
  bufs ← do (malloc (10 * sizeof_pointer));
  '(rc, pte) ← do (PtlPTAlloc nih 0 PTL_EQ_NONE 0);
  _ ← must rc "PtlPTAlloc";
  _ ← post_buffers bufs meh_pool (fun i buf meh =>
        let me := me_of buf buffer_bytes (40 + i) (Z.lor put_and_get PTL_ME_EVENT_CT_COMM) in
        rc ← append_me nih pte
               (mk_me (me_start me) (me_length me) cth (me_uid me) (me_options me)
                  (me_match_id me) (me_match_bits me) (me_ignore_bits me) (me_min_free me))
               PTL_PRIORITY_LIST nullptr meh;
        must rc "PtlMEAppend");
  _ ← for_loop RUNS_NUMBER 0 (fun _ =>
        _ ← do (PtlCTSet cth (mk_ct_event 0 0));
        _ ← poll_counter cth (Z.of_nat MESSAGE_NUMBER);
        buf ← load_pointer bufs 0; s ← do (load_string buf);
        _ ← printf ("First buffer : " ++ s ++ newline);
        buf ← load_pointer bufs 2; s ← do (load_string buf);
        printf ("Third buffer : " ++ s ++ newline));
  _ ← do s4bxi_barrier;
  _ ← for_loop 10 0 (fun i =>
        buf ← load_pointer bufs i;
        _ ← do (free buf);
        h ← load_handle (slot meh_pool i);
        _ ← do (PtlMEUnlink h); mret tt);
  _ ← do (free bufs);
  _ ← do (free meh_pool);
  _ ← do (PtlPTFree nih pte);
  _ ← do (PtlCTFree cth);
  _ ← do (PtlNIFini nih);
  _ ← do PtlFini; mret 0.

(** @src/teshsuite/_pt2pt_counters/pt2pt_counters.cpp:222-226 main *)
Definition counters : list string -> Program Z := client_or_server counters_client counters_server.
End Transfers.

(** The numbers of the source. *)
(** @src/teshsuite/_pt2pt_put_matching/pt2pt_put_matching.cpp:25-26 RUNS_NUMBER, MESSAGE_NUMBER *)
Definition put_numbers : nat * nat := (11, 1000)%nat.
(** @src/teshsuite/_pt2pt_get_matching/pt2pt_get_matching.cpp:25-26 RUNS_NUMBER, MESSAGE_NUMBER *)
Definition get_numbers : nat * nat := (11, 100)%nat.
(** @src/teshsuite/_pt2pt_counters/pt2pt_counters.cpp:25-26 RUNS_NUMBER, MESSAGE_NUMBER *)
Definition counters_numbers : nat * nat := (11, 1000)%nat.
