(* ===== verification/System.v ===== *)
(** The simulator as a state machine: what an actor can do between two moments
    at which it is observed, and what holds in every world it can reach. *)
From S2P Require Import Prelude Portals World Logic Engine Queue Messages Node Counters.
From S2P Require Import Entries E2E Atomics NicActor Initiator Target MainActor FlowControl.
From S2P Require Import Progress Scenario.

(** A call of the Portals API by a process. *)
Inductive api_call :=
| CallInit
| CallNIInit (iface options pid : Z) (desired : option ptl_ni_limits)
| CallNIFini (ni : handle)
| CallSetMap (ni : handle) (size : Z) (map : list ptl_process)
| CallPTAlloc (ni : handle) (options : Z) (eq : handle) (desired : Z)
| CallPTEnable (ni : handle) (pt_index : Z)
| CallPTDisable (ni : handle) (pt_index : Z)
| CallPTFree (ni : handle) (pt_index : Z)
| CallEQAlloc
| CallEQFree (eq : handle)
| CallEQGet (eq : handle)
| CallEQWait (eq : handle)
| CallEQPoll (eqs : list handle) (timeout : Z)
| CallMDBind (ni : handle) (md : ptl_md)
| CallMDRelease (md : handle)
| CallMEAppend (ni : handle) (pt_index : Z) (me : ptl_me) (ptl_list user_ptr : Z)
| CallMEUnlink (me : handle)
| CallCTAlloc
| CallCTFree (ct : handle)
| CallCTWait (ct : handle) (test : Z)
| CallCTPoll (cts : list handle) (tests : list Z) (timeout : Z)
| CallCTSet (ct : handle) (ev : ptl_ct_event)
| CallCTInc (ct : handle) (ev : ptl_ct_event)
| CallPut (nb : bool) (md : handle) (local_offset length ack_req : Z) (target : ptl_process)
    (pt_index match_bits remote_offset user_ptr hdr : Z)
| CallGet (nb : bool) (md : handle) (local_offset length : Z) (target : ptl_process)
    (pt_index match_bits remote_offset user_ptr : Z)
| CallAtomic (md : handle) (loffs length ack_req : Z) (target : ptl_process)
    (pt_index match_bits roffs user_ptr hdr : Z) (op : ptl_op) (datatype : ptl_datatype)
| CallFetchAtomic (get_md : handle) (get_loffs : Z) (put_md : handle) (put_loffs length : Z)
    (target : ptl_process) (pt_index match_bits roffs user_ptr hdr : Z) (op : ptl_op)
    (datatype : ptl_datatype)
| CallSwap (get_md : handle) (get_loffs : Z) (put_md : handle) (put_loffs length : Z)
    (target : ptl_process) (pt_index match_bits roffs user_ptr hdr cst : Z) (op : ptl_op)
    (datatype : ptl_datatype).

(** The arguments are values of their C types, as far as it matters: a [size_t] length is not
    negative. *)
Definition call_ok (c : api_call) : Prop :=
  match c with CallMEAppend _ _ me _ _ => 0 <= me_length me | _ => True end.

Definition ignore {A} `{Env} (c : SM A) : SM unit := _ ← c; mret tt.

Section System.
Context `{E : Env}.

Definition run_call (a : handle) (c : api_call) : SM unit :=
  match c with
  | CallInit => ignore (PtlInit a)
  | CallNIInit i o p d => ignore (PtlNIInit a i o p d)
  | CallNIFini ni => ignore (PtlNIFini a ni)
  | CallSetMap ni s m => ignore (PtlSetMap ni s m)
  | CallPTAlloc ni o eq d => ignore (PtlPTAlloc a ni o eq d)
  | CallPTEnable ni i => ignore (PtlPTEnable a ni i)
  | CallPTDisable ni i => ignore (PtlPTDisable a ni i)
  | CallPTFree ni i => ignore (PtlPTFree a ni i)
  | CallEQAlloc => ignore (PtlEQAlloc a)
  | CallEQFree eq => ignore (PtlEQFree a eq)
  | CallEQGet eq => ignore (PtlEQGet a eq)
  | CallEQWait eq => ignore (PtlEQWait eq)
  | CallEQPoll eqs t => ignore (PtlEQPoll eqs t)
  | CallMDBind ni md => ignore (PtlMDBind a ni md)
  | CallMDRelease md => ignore (PtlMDRelease a md)
  | CallMEAppend ni i me l u => ignore (PtlMEAppend a ni i me l u)
  | CallMEUnlink me => ignore (PtlMEUnlink a me)
  | CallCTAlloc => ignore (PtlCTAlloc a)
  | CallCTFree ct => ignore (PtlCTFree a ct)
  | CallCTWait ct t => ignore (PtlCTWait ct t)
  | CallCTPoll cts ts t => ignore (PtlCTPoll cts ts t)
  | CallCTSet ct ev => ignore (PtlCTSet ct ev)
  | CallCTInc ct ev => ignore (PtlCTInc ct ev)
  | CallPut false md lo len ar t i mb ro u h => ignore (PtlPut a md lo len ar t i mb ro u h)
  | CallPut true md lo len ar t i mb ro u h => ignore (PtlPutNB a md lo len ar t i mb ro u h)
  | CallGet false md lo len t i mb ro u => ignore (PtlGet a md lo len t i mb ro u)
  | CallGet true md lo len t i mb ro u => ignore (PtlGetNB a md lo len t i mb ro u)
  | CallAtomic md lo len ar t i mb ro u h op ty =>
      ignore (PtlAtomic a md lo len ar t i mb ro u h op ty)
  | CallFetchAtomic g go p po len t i mb ro u h op ty =>
      ignore (PtlFetchAtomic a g go p po len t i mb ro u h op ty)
  | CallSwap g go p po len t i mb ro u h cst op ty =>
      ignore (PtlSwap a g go p po len t i mb ro u h cst op ty)
  end.

(** What an actor of the simulator does. *)
Inductive step (w w' : World) : Prop :=
| step_call a c : call_ok c -> run_call a c w = Ok tt w' -> step w w'
| step_initiator node vn q : initiator_turn node vn q w = Ok tt w' -> step w w'
| step_target node q mb : target_turn node q mb w = Ok tt w' -> step w w'
| step_e2e e2e : e2e_turn e2e w = Ok tt w' -> step w w'
| step_new_initiator node vn q : BxiNicInitiator_new node vn w = Ok q w' -> step w w'
| step_new_target node vn mb : BxiNicTarget_new node vn w = Ok mb w' -> step w w'
| step_new_e2e node e : BxiNicE2E_new node w = Ok e w' -> step w w'
| step_e2e_exit e2e : BxiNicE2E_on_exit e2e w = Ok tt w' -> step w w'
| step_new_process node real pci cmds service has_e2e a :
    BxiMainActor_new node real pci cmds service has_e2e w = Ok a w' -> step w w'.
End System.

(** Takes a call of the API apart. *)
Ltac walk_api :=
  unfold PtlInit, PtlNIInit, PtlNIFini, PtlGetPhysId, PtlSetMap, PtlPTAlloc, PtlPTEnable,
    PtlPTDisable, PtlPTFree, PtlEQAlloc, PtlEQFree, PtlEQGet, PtlEQWait, PtlEQPoll, PtlMDBind,
    PtlMDRelease, PtlLEAppend, PtlLEUnlink, PtlMEUnlink, PtlCTAlloc, PtlCTFree, PtlCTWait,
    PtlCTPoll, PtlCTSet, PtlCTInc, PtlPutNB, PtlGetNB, PtlAtomic, PtlFetchAtomic, PtlSwap; walk.

Section Invariants.
Context `{E : Env, !Rely E}.
Implicit Types w : World.

Lemma ignore_progresses {A} (c : SM A) w : progresses c w -> progresses (ignore c) w.
Proof. intros Hc. unfold ignore. walk. Qed.

#[local] Hint Resolve initiator_turn_progresses : progress.

Lemma issue_portals_command_progresses a w : progresses (issue_portals_command a) w.
Proof. unfold issue_portals_command, issue_portals_command_size. walk. Qed.
#[local] Hint Resolve issue_portals_command_progresses : progress.
Lemma enter_nonblocking_progresses a w : progresses (enter_nonblocking a) w.
Proof. unfold enter_nonblocking. walk. Qed.
Lemma reset_polling_progresses a b w : progresses (reset_polling a b) w.
Proof. unfold reset_polling. walk. Qed.
Lemma choose_pid_progresses l p w : progresses (choose_pid l p) w.
Proof. unfold choose_pid. walk. Qed.
Lemma any_header_matches_progresses me l w : progresses (any_header_matches me l) w.
Proof. induction l; cbn [any_header_matches]; walk. Qed.
Lemma post_message_progresses a m w : progresses (post_message a m) w.
Proof. unfold post_message. walk. Qed.
Lemma create_request_progresses a md t ty s mk w : progresses (create_request a md t ty s mk) w.
Proof. unfold create_request. walk. Qed.
Lemma is_PIO_progresses a m w : progresses (is_PIO a m) w.
Proof. unfold is_PIO. walk. Qed.
#[local] Hint Resolve enter_nonblocking_progresses reset_polling_progresses
  choose_pid_progresses any_header_matches_progresses post_message_progresses
  create_request_progresses is_PIO_progresses : progress.
Lemma enter_command_queue_progresses a md m w : progresses (enter_command_queue a md m) w.
Proof. unfold enter_command_queue. walk. Qed.
Lemma pio_size_progresses m w : progresses (pio_size m) w.
Proof. unfold pio_size. walk. Qed.
#[local] Hint Resolve enter_command_queue_progresses pio_size_progresses : progress.
Lemma pio_transfer_progresses a m b w : progresses (pio_transfer a m b) w.
Proof. unfold pio_transfer. walk. Qed.
#[local] Hint Resolve pio_transfer_progresses : progress.
Lemma PtlPut_progresses a md lo len ar t i mb ro u h w :
  progresses (PtlPut a md lo len ar t i mb ro u h) w.
Proof. unfold PtlPut. walk. Qed.
Lemma PtlGet_progresses a md lo len t i mb ro u w :
  progresses (PtlGet a md lo len t i mb ro u) w.
Proof. unfold PtlGet. walk. Qed.
Lemma nonblocking_progresses a md (c : SM Z) w :
  (forall w', progresses c w') -> progresses (nonblocking a md c) w.
Proof. intros Hc. unfold nonblocking. walk. Qed.

Lemma PtlMEAppend_progresses a ni i me l u w :
  0 <= me_length me -> progresses (PtlMEAppend a ni i me l u) w.
Proof.
  intros Hl. unfold PtlMEAppend. walk. by apply BxiME_append_progresses.
Qed.
#[local] Hint Resolve PtlPut_progresses PtlGet_progresses nonblocking_progresses
  PtlMEAppend_progresses : progress.

Lemma run_call_progresses a c w : call_ok c -> progresses (run_call a c) w.
Proof.
  intros Hok. destruct c; cbn [run_call call_ok] in *;
    try match goal with |- context [if ?b then _ else _] => destruct b end;
    apply ignore_progresses; auto with progress; walk_api.
Qed.

Lemma BxiMainActor_new_progresses n a b c d e w :
  progresses (BxiMainActor_new n a b c d e) w.
Proof. unfold BxiMainActor_new. walk. Qed.

Lemma step_evolves w w' : step w w' -> evolves w w'.
Proof.
  intros [].
  - by eapply run_call_progresses.
  - by eapply initiator_turn_progresses.
  - by eapply target_turn_progresses.
  - by eapply e2e_turn_progresses.
  - by eapply BxiNicInitiator_new_progresses.
  - by eapply BxiNicTarget_new_progresses.
  - by eapply BxiNicE2E_new_progresses.
  - by eapply BxiNicE2E_on_exit_progresses.
  - by eapply BxiMainActor_new_progresses.
Qed.

Lemma reachable_evolves w w' : rtc step w w' -> evolves w w'.
Proof. induction 1; [done|]. etrans; [by apply step_evolves|done]. Qed.
End Invariants.
#[export] Hint Resolve initiator_turn_progresses PtlPut_progresses PtlGet_progresses
  nonblocking_progresses PtlMEAppend_progresses choose_pid_progresses any_header_matches_progresses
  issue_portals_command_progresses enter_nonblocking_progresses reset_polling_progresses
  post_message_progresses create_request_progresses is_PIO_progresses
  enter_command_queue_progresses pio_size_progresses pio_transfer_progresses : progress.

(** ** What holds in every reachable world *)

Section Reachable.
Context `{E : Env, !Rely E}.
Implicit Types w : World.

(** C19. In every world the simulator reaches from a well-formed one, whatever the other actors
    do as long as they respect [evolves]: no flow-control counter is negative or above its
    limit, no message was retried more than [max_retries] times, and the locally managed offset
    of every list entry is inside the entry. *)
Theorem reachable_wf w w' : wf w -> rtc step w w' -> wf w'.
Proof. intros W R. by apply (ev_wf _ _ (reachable_evolves _ _ R)). Qed.

(** A request that exists before and after a run of the simulator is the same operation
    (class, type, size, target, acknowledgement asked), its state did not go back, and an event
    recorded as issued stays recorded. *)
Theorem reachable_request_progress w w' r q' :
  rtc step w w' -> (r < w_next w)%N -> w_reqs w' !! r = Some q' ->
  exists q, w_reqs w !! r = Some q /\ req_evolves q q'.
Proof. intros R. apply (ev_reqs _ _ (reachable_evolves _ _ R)). Qed.

(** The class of the request a message of each type carries. *)
Definition carries (t : bxi_msg_type) (c : request_class) : bool :=
  match t with
  | S4BXI_PTL_PUT => is_put_like c
  | S4BXI_PTL_GET => is_get_request c
  | S4BXI_PTL_ATOMIC => is_atomic_like c
  | S4BXI_PTL_FETCH_ATOMIC => is_fetch_like c
  | _ => false
  end.

Lemma cast_request_Ok p r q w :
  w_reqs w !! r = Some q -> p (rq_class q) = true -> cast_request p r w = Ok q w.
Proof.
  intros Hq Hp. unfold cast_request. cbv [mbind M_bind]. run_load. by rewrite Hp.
Qed.

Lemma dispatch_received node tx msg x q w :
  w_msgs w !! msg = Some x -> w_reqs w !! ms_parent_request x = Some q ->
  carries (ms_type x) (rq_class q) = true -> rq_process_state q <> S4BXI_REQ_CREATED ->
  target_dispatch node tx msg w = Ok tt w.
Proof.
  intros Hx Hq Hc Hs. unfold target_dispatch. step_load.
  assert (forall p, p (rq_class q) = true -> forall k : BxiRequest -> SM unit,
    (q ← cast_request p (ms_parent_request x);
     if state_num S4BXI_REQ_CREATED <? state_num (rq_process_state q) then mret tt else k q) w
    = Ok tt w) as Hguard.
  { intros p Hp k. rewrite (bind_run _ _ _ _ _ (cast_request_Ok p _ _ _ Hq Hp)).
    by destruct (rq_process_state q). }
  destruct (ms_type x); try done; cbn in Hc;
    unfold handle_put_request, handle_get_request, handle_atomic_request,
      handle_fetch_atomic_request; step_load; by apply Hguard.
Qed.

(** C2. A request is executed at most once: once it has left the state it was created in, every
    copy of its message that a NIC dispatches in any later world (duplicates of the network,
    retransmissions) is ignored and changes nothing. *)
Theorem executed_once w w' r q node tx msg x :
  w_reqs w !! r = Some q -> (r < w_next w)%N -> rq_process_state q <> S4BXI_REQ_CREATED ->
  rtc step w w' ->
  w_msgs w' !! msg = Some x -> ms_parent_request x = r -> is_Some (w_reqs w' !! r) ->
  carries (ms_type x) (rq_class q) = true ->
  target_dispatch node tx msg w' = Ok tt w'.
Proof.
  intros Hq Hr Hs R Hx <- [q' Hq'] Hc.
  destruct (ev_reqs _ _ (reachable_evolves _ _ R) _ _ Hr Hq') as (q0 & Hq0 & []).
  assert (q0 = q) as -> by congruence. eapply dispatch_received; [done..| |].
  - congruence.
  - intros Hc'. rewrite Hc' in *. cbn in *. by destruct (rq_process_state q).
Qed.

Lemma maybe_issue_send_sets r w w' q' :
  maybe_issue_send r w = Ok tt w' -> (r < w_next w)%N -> w_reqs w' !! r = Some q' ->
  rq_send_event_issued q' = true /\ is_put_like (rq_class q') = true.
Proof.
  unfold maybe_issue_send. intros (q & w1 & Hc & H)%bind_Ok Hr Hq'.
  unfold cast_request in Hc. apply bind_Ok in Hc as (q0 & w0 & [-> Hq]%load_inv & Hc).
  apply bind_Ok in Hc as (u & w2 & [Hp ->]%assert_inv & [= <- <-]).
  destruct (rq_send_event_issued q0) eqn:Hs.
  - injection H as <-. cbn in Hq. split; congruence.
  - apply bind_Ok in H as (u2 & w1 & Hu & H).
    rewrite (update_Ok _ _ _ _ Hq) in Hu. injection Hu as _ <-.
    assert (evolves (on_objects <[r := q0 <| rq_send_event_issued := true |>]> w) w') as [].
    { eapply (keeps_use evolves); [|exact H]. walk. }
    destruct (ev_reqs r q') as (q1 & Hq1 & []); [done..|]. cbn in Hq1.
    rewrite lookup_insert_eq in Hq1. injection Hq1 as <-. cbn in *. split; [auto|congruence].
Qed.

(** C12. The SEND event of a put is issued at most once: after a call of [maybe_issue_send] that
    returned, every later call for the same request, in any world reached since (processing the
    acknowledgement, a retransmission, a duplicate), does nothing. *)
Theorem send_issued_once r w w1 w2 :
  (r < w_next w)%N -> maybe_issue_send r w = Ok tt w1 -> is_Some (w_reqs w1 !! r) ->
  rtc step w1 w2 -> is_Some (w_reqs w2 !! r) ->
  maybe_issue_send r w2 = Ok tt w2.
Proof.
  intros Hr H [q1 Hq1] R [q2 Hq2].
  destruct (maybe_issue_send_sets _ _ _ _ H Hr Hq1) as [Hs Hp].
  assert (evolves w w1) as [].
  { eapply (keeps_use evolves); [|exact H]. auto with progress. }
  destruct (reachable_evolves _ _ R) as [_ _ _ Hev _].
  destruct (Hev r q2) as (q & Hq & []); [lia|done|]. rewrite Hq1 in Hq. injection Hq as <-.
  unfold maybe_issue_send.
  rewrite (bind_run _ _ _ _ _ (cast_request_Ok is_put_like r q2 w2 Hq2 ltac:(congruence))).
  by rewrite re_send.
Qed.
End Reachable.

(** ** Witnesses: the put of [Scenario.v] *)

Lemma world0_wf : wf world0.
Proof.
  constructor; try (vm_compute; discriminate);
    refine (bool_decide_unpack _ _); vm_compute; exact I.
Qed.

Lemma step_post : step world_appended world_posted.
Proof.
  apply (step_call _ _ (s_actor site_a)
    (CallPut false (s_md site_a) 4 8 PTL_ACK_REQ (mk_process 2 2048) 0 42 3 9 0)); [exact I|].
  vm_compute. reflexivity.
Qed.

Lemma step_transmit : step world_posted world_sent.
Proof.
  apply (step_initiator _ _ (s_node site_a) S4BXI_VN_COMPUTE_REQUEST (s_tx site_a)).
  vm_compute. reflexivity.
Qed.

Lemma step_receive : step world_sent world_received.
Proof.
  apply (step_target _ _ (s_node site_b) (s_tx_resp site_b) (s_rx site_b)). vm_compute. reflexivity.
Qed.

Lemma step_append : step world0 world_appended.
Proof.
  apply (step_call _ _ (s_actor site_b)
    (CallMEAppend (s_ni site_b) 0 example_me PTL_PRIORITY_LIST 7)).
  - vm_compute. discriminate.
  - vm_compute. reflexivity.
Qed.

Lemma run_received : rtc step world0 world_received.
Proof.
  eapply rtc_l; [exact step_append|]. eapply rtc_l; [exact step_post|].
  eapply rtc_l; [exact step_transmit|]. apply rtc_once. exact step_receive.
Qed.

Lemma reachable_wf_witness : wf world_received.
Proof. exact (reachable_wf world0 world_received world0_wf run_received). Defined.

Lemma reachable_request_progress_witness : exists q q',
  w_reqs world_posted !! example_req = Some q /\
  w_reqs world_received !! example_req = Some q' /\ req_evolves q q'.
Proof.
  destruct (w_reqs world_received !! example_req) as [q'|] eqn:Hq'; [|vm_compute in Hq'; done].
  destruct (reachable_request_progress world_posted world_received example_req q')
    as (q & Hq & He); [|(vm_compute; reflexivity)|exact Hq'|].
  - eapply rtc_l; [exact step_transmit|]. apply rtc_once. exact step_receive.
  - exists q, q'. repeat split; try exact Hq; apply He.
Defined.

(** The put's message and request in the world where the target has processed them. *)
Definition example_x : BxiMsg :=
  Eval vm_compute in default (mk_Msg 0 0 0 None 0 S4BXI_PTL_PUT NULL 0 0 NULL None false)
                       (w_msgs world_received !! example_msg).
Definition example_q : option BxiRequest :=
  Eval vm_compute in w_reqs world_received !! example_req.

(** The copy of the put the E2E actor still holds is ignored by a NIC it would reach. *)
Lemma executed_once_witness :
  target_dispatch (s_node site_b) (s_tx_resp site_b) example_msg world_received =
  Ok tt world_received.
Proof.
  destruct example_q as [q|] eqn:Hq; [|discriminate Hq].
  refine (executed_once world_received world_received example_req q (s_node site_b)
    (s_tx_resp site_b) example_msg example_x _ _ _ _ _ _ _ _).
  - rewrite <- Hq. vm_compute. reflexivity.
  - vm_compute. reflexivity.
  - vm_compute in Hq. injection Hq as <-. discriminate.
  - apply rtc_refl.
  - vm_compute. reflexivity.
  - reflexivity.
  - eexists. vm_compute. reflexivity.
  - vm_compute in Hq. injection Hq as <-. reflexivity.
Defined.

Lemma send_issued_once_witness :
  maybe_issue_send example_req world_received = Ok tt world_received.
Proof.
  refine (send_issued_once example_req world_sent world_sent world_received _ _ _ _ _).
  - vm_compute. reflexivity.
  - vm_compute. reflexivity.
  - eexists. vm_compute. reflexivity.
  - apply rtc_once. exact step_receive.
  - eexists. vm_compute. reflexivity.
Defined.
