(* ===== verification/ClusterSpec.v ===== *)
(** Theorems on whole simulations ([Cluster.v]): whatever the user programs do and however SimGrid
    interleaves the actors, the network stays well formed and its requests only go forward; the
    scheduler produces executions of the simulation, and stops only when nothing can happen. *)
From ITree Require Import ITree.
From S2P Require Import Prelude OMap Portals World Logic Engine Config Queue Messages Node.
From S2P Require Import Counters Entries E2E NicActor Initiator Target MainActor Runtime Bench.
From S2P Require Import CUtil CApi UserApp Redefine Main Client Cluster Progress System.

(** ** Calls that respect the network *)

Definition sim_evolves (s s' : Sim) : Prop := evolves (sim_world s) (sim_world s').

#[export] Instance sim_evolves_preorder : PreOrder sim_evolves.
Proof. split; unfold sim_evolves; [by intros s|intros s1 s2 s3; apply transitivity]. Qed.

(** [advances c]: when [c] returns, the network has only gone forward. *)
Definition advances {A} (c : PM A) : Prop := forall s a s', c s = Ok a s' -> sim_evolves s s'.

Lemma advances_ret {A} (a : A) : advances (mret a).
Proof. intros s b s' [= _ <-]. reflexivity. Qed.
Lemma advances_fail {A} e : advances (fail (A := A) e).
Proof. by intros s a s'. Qed.
Lemma advances_gets {A} (f : Sim -> A) : advances (gets f).
Proof. intros s a s' [= _ <-]. reflexivity. Qed.
Lemma advances_of_option {A} (o : option A) e : advances (of_option o e).
Proof. destruct o; [apply advances_ret|apply advances_fail]. Qed.
Lemma advances_assert b e : advances (assert b e).
Proof. destruct b; [apply advances_ret|apply advances_fail]. Qed.
Lemma advances_bind {A B} (c : PM A) (f : A -> PM B) :
  advances c -> (forall a, advances (f a)) -> advances (a ← c; f a).
Proof.
  intros Hc Hf s b s' (a & s1 & H1 & H2)%bind_Ok. etrans; [eapply Hc|eapply Hf]; eauto.
Qed.
Lemma advances_when b c : advances c -> advances (when b c).
Proof. destruct b; [done|intros; apply advances_ret]. Qed.
Lemma advances_for_each {A} (l : list A) f : (forall a, advances (f a)) -> advances (for_each l f).
Proof. intros Hf. induction l; [apply advances_ret|apply advances_bind; auto]. Qed.

(** A change of the registry, of the processes or of the static variables. *)
Lemma advances_modify f : (forall s, sim_world (f s) = sim_world s) -> advances (modify f).
Proof. intros Hf s a s' [= _ <-]. unfold sim_evolves. by rewrite Hf. Qed.
Lemma advances_on_world {A} (c : SM A) : (forall w, progresses c w) -> advances (on_world c).
Proof.
  intros Hc s a s'. unfold on_world. destruct (c (sim_world s)) as [b w|] eqn:E; [|done].
  intros [= -> <-]. exact (keeps_use _ _ _ _ _ (Hc _) E).
Qed.

Create HintDb advance discriminated.
#[export] Hint Resolve advances_ret advances_fail advances_gets advances_bind : advance.

(** Takes a call apart; what is left is for the hints. *)
Ltac march :=
  repeat (cbv zeta; match goal with
  | |- advances (mret _) => apply advances_ret
  | |- advances (fail _) => apply advances_fail
  | |- advances (gets _) => apply advances_gets
  | |- advances (of_option _ _) => apply advances_of_option
  | |- advances (assert _ _) => apply advances_assert
  | |- advances (mbind _ _) => apply advances_bind; [|intros ?]
  | |- advances (when _ _) => apply advances_when
  | |- advances (for_each _ _) => apply advances_for_each; intros ?
  | |- advances (modify _) => apply advances_modify; by intros []
  | |- advances (on_world _) => apply advances_on_world; intros ?; walk
  | |- advances (let '(_, _) := ?p in _) => destruct p
  | |- advances (if ?b then _ else _) => destruct b
  | |- advances (match ?x with _ => _ end) => destruct x
  | |- advances _ => solve [auto with advance]
  end).

Section Runtime.
Context `{E : Env, !Rely E} `{Runtime}.

(** What SimGrid and the other actors do during a call respects the network. *)
Class Respectful : Prop := {
  respectful_step c s : sim_evolves s (rt_step c s);
  respectful_others s : sim_evolves s (rt_others s) }.
Context `{!Respectful}.

Lemma call_advances c : advances (call c).
Proof.
  intros s a s' [= _ <-]. etrans; [|apply respectful_step].
  unfold sim_evolves. by destruct s.
Qed.
Lemma network_advances {A} (c : SM A) : (forall w, progresses c w) -> advances (network c).
Proof.
  intros Hc. unfold network. apply advances_bind; [by apply advances_on_world|]. intros a.
  apply advances_bind; [|intros; apply advances_ret]. intros s b s' [= _ <-]. apply respectful_others.
Qed.
#[local] Hint Resolve call_advances : advance.

Lemma checked_advances c e : advances (checked c e).
Proof. unfold checked. march. Qed.
Lemma config_field_advances {A} (f : _ -> A) : advances (config_field f).
Proof. unfold config_field. march. Qed.
Lemma get_clock_advances : advances get_clock.
Proof. unfold get_clock. march. Qed.
Lemma user_advances h : advances (user h).
Proof. unfold user. march. Qed.
#[local] Hint Resolve checked_advances config_field_advances get_clock_advances user_advances
  : advance.
Lemma update_user_advances h f : advances (update_user h f).
Proof. unfold update_user. march. Qed.
Lemma get_current_main_actor_advances : advances get_current_main_actor.
Proof. unfold get_current_main_actor, get_main_actor. march. Qed.
#[local] Hint Resolve update_user_advances get_current_main_actor_advances : advance.
Lemma GET_CURRENT_MAIN_ACTOR_advances : advances GET_CURRENT_MAIN_ACTOR.
Proof. unfold GET_CURRENT_MAIN_ACTOR, get_cached_current_main_actor. march. Qed.
#[local] Hint Resolve GET_CURRENT_MAIN_ACTOR_advances : advance.

(** ** Benchmarks and C helpers *)

Lemma getNid_advances h : advances (getNid h).
Proof. unfold getNid. march. Qed.
Lemma must_log_computation_advances : advances must_log_computation.
Proof. unfold must_log_computation. march. Qed.
#[local] Hint Resolve getNid_advances must_log_computation_advances network_advances : advance.
Lemma write_compute_log_advances start nid : advances (write_compute_log start nid).
Proof. unfold write_compute_log. march. Qed.
#[local] Hint Resolve write_compute_log_advances : advance.
Lemma with_compute_log_advances nid body : advances body -> advances (with_compute_log nid body).
Proof. intros. unfold with_compute_log. march. Qed.
#[local] Hint Resolve with_compute_log_advances : advance.
Lemma s4bxi_execute_advances d : advances (s4bxi_execute d).
Proof. unfold s4bxi_execute, s4bxi_execute_smpi, s4bxi_execute_alone. march. Qed.
Lemma sampling_advances h : advances (sampling h).
Proof. unfold sampling. march. Qed.
#[local] Hint Resolve s4bxi_execute_advances sampling_advances : advance.
Lemma s4bxi_bench_begin_advances : advances s4bxi_bench_begin.
Proof. unfold s4bxi_bench_begin, s4bxi_bench_begin_smpi, s4bxi_bench_begin_alone. march. Qed.
Lemma s4bxi_bench_end_advances : advances s4bxi_bench_end.
Proof. unfold s4bxi_bench_end, s4bxi_bench_end_smpi, s4bxi_bench_end_alone. march. Qed.
#[local] Hint Resolve s4bxi_bench_begin_advances s4bxi_bench_end_advances : advance.
Lemma unbenched_advances {A} (c : PM A) : advances c -> advances (unbenched c).
Proof. intros. unfold unbenched. march. Qed.
Lemma barrier_advances : advances barrier.
Proof. unfold barrier. march. Qed.
#[local] Hint Resolve unbenched_advances barrier_advances : advance.

(** ** The C interface of Portals *)

Lemma bench_call_advances {A} (op : handle -> SM A) :
  (forall a w, progresses (op a) w) -> advances (BENCH_PORTALS_CALL op).
Proof. intros. unfold BENCH_PORTALS_CALL. march. Qed.
Lemma instant_call_advances {A} (op : handle -> SM A) :
  (forall a w, progresses (op a) w) -> advances (INSTANT_PORTALS_CALL op).
Proof. intros. unfold INSTANT_PORTALS_CALL. march. Qed.

(** ** User processes *)

Lemma setup_barrier_advances : advances setup_barrier.
Proof. unfold setup_barrier, get_main_actor_count. march. Qed.
Lemma determinate_advances {A} (v : option A) : advances (determinate v).
Proof. unfold determinate. march. Qed.
Lemma stoul_advances s : advances (stoul s).
Proof. unfold stoul. march. Qed.
#[local] Hint Resolve setup_barrier_advances determinate_advances stoul_advances : advance.
Lemma assign_ranks_advances a : advances (assign_ranks a).
Proof. unfold assign_ranks. march. Qed.
Lemma privatize_advances a r t l rn : advances (privatize a r t l rn).
Proof. unfold privatize, s4bxi_copy_file. march. Qed.
#[local] Hint Resolve assign_ranks_advances privatize_advances : advance.
Lemma privatize_all_advances a r t ls rn : advances (privatize_all a r t ls rn).
Proof. revert rn. induction ls; intros; cbn [privatize_all]; march. Qed.
Lemma relink_advances rn : advances (relink rn).
Proof. unfold relink. march. Qed.
Lemma load_mpi_advances a : advances (load_mpi a).
Proof. unfold load_mpi. march. Qed.
#[local] Hint Resolve privatize_all_advances relink_advances load_mpi_advances : advance.
Lemma load_program_advances a r : advances (load_program a r).
Proof. unfold load_program, s4bxi_copy_file. march. Qed.
Lemma process_ready_advances : advances process_ready.
Proof. unfold process_ready, get_main_actor_count. march. Qed.
Lemma program_args_advances n l : advances (program_args n l).
Proof. unfold program_args. march. Qed.
#[local] Hint Resolve load_program_advances process_ready_advances program_args_advances : advance.
Lemma user_app_prepare_advances a : advances (user_app_prepare a).
Proof. unfold user_app_prepare. march. Qed.
Lemma user_app_enter_advances argv : advances (user_app_enter argv).
Proof. unfold user_app_enter. march. Qed.
Lemma user_app_leave_advances h : advances (user_app_leave h).
Proof. unfold user_app_leave. march. Qed.
Lemma BxiUserAppActor_delete_advances a : advances (BxiUserAppActor_delete a).
Proof. unfold BxiUserAppActor_delete. march. Qed.

(** ** User programs *)

Lemma u64_nonneg z : 0 <= u64 z.
Proof. unfold u64. apply Z.mod_pos_bound. lia. Qed.

Lemma string_at_progresses n a w : progresses (string_at n a) w.
Proof. revert a w. induction n; intros; cbn [string_at]; walk. Qed.
#[local] Hint Resolve string_at_progresses : progress.
Lemma read_string_progresses a w : progresses (read_string a) w.
Proof. unfold read_string. walk. Qed.
Lemma list_size_progresses ni i w : progresses (list_size ni i) w.
Proof. unfold list_size. walk. Qed.
#[local] Hint Resolve read_string_progresses list_size_progresses : progress.

(** Every call of a program respects the network. *)
Lemma serve_advances {A} (c : Call.call A) : advances (serve c).
Proof.
  destruct c; cbn [serve];
    try (apply bench_call_advances; intros a w; walk_api);
    try (apply instant_call_advances; intros a w; walk_api).
  all: try (apply PtlMEAppend_progresses; cbn [me_length sized]; apply u64_nonneg).
  all: unfold api_PtlFini, PtlFini, s4bxi_barrier, s4bxi_sleep; march.
  apply unbenched_advances, advances_on_world. intros w. apply keeps_ret. apply _.
Qed.
(** ** The start *)

(** A new node has given no credit. *)
Lemma BxiNode_new_progresses nid h1 h2 w : progresses (BxiNode_new nid h1 h2) w.
Proof.
  intros a w' [= _ <-]. constructor; cbn; [lia|done|by exists []|by eauto|].
  intros W. pose proof W as []. constructor; try done.
  by apply map_Forall_insert_2.
Qed.
#[local] Hint Resolve BxiNode_new_progresses : progress.
Lemma get_node_advances nid : advances (get_node nid).
Proof. unfold get_node. march. Qed.
Lemma by_name_advances name : advances (by_name name).
Proof. unfold by_name. march. Qed.
Lemma atoi_advances s : advances (atoi s).
Proof. unfold atoi, ato_integer. march. Qed.
Lemma guess_nid_advances s : advances (guess_nid s).
Proof. unfold guess_nid. march. Qed.
#[local] Hint Resolve get_node_advances by_name_advances atoi_advances guess_nid_advances : advance.
Lemma find_nid_advances s : advances (find_nid s).
Proof. unfold find_nid. march. Qed.
#[local] Hint Resolve find_nid_advances : advance.
Lemma BxiActor_new_advances : advances BxiActor_new.
Proof. unfold BxiActor_new. march. Qed.
#[local] Hint Resolve BxiActor_new_advances : advance.
Lemma BxiNicActor_new_advances args : advances (BxiNicActor_new args).
Proof. unfold BxiNicActor_new. march. Qed.
Lemma BxiUserAppActor_new_advances args : advances (BxiUserAppActor_new args).
Proof.
  unfold BxiUserAppActor_new, register_main_actor. march. apply BxiMainActor_new_progresses.
Qed.
#[local] Hint Resolve BxiNicActor_new_advances BxiUserAppActor_new_advances : advance.
Lemma construct_advances f args : advances (construct f args).
Proof. unfold construct. march. Qed.

Lemma iterate_libs_advances paths name : advances (iterate_libs paths name).
Proof. induction paths; cbn [iterate_libs]; unfold visit_libs; march. Qed.
#[local] Hint Resolve iterate_libs_advances : advance.
Lemma find_lib_advances name : advances (find_lib name).
Proof. unfold find_lib. march. Qed.
#[local] Hint Resolve find_lib_advances : advance.
Lemma draw_rand_id_advances n id : advances (draw_rand_id n id).
Proof. revert n. induction id; intros; cbn [draw_rand_id]; march. Qed.
#[local] Hint Resolve draw_rand_id_advances : advance.
Lemma set_up_advances platf lib : advances (set_up platf lib).
Proof.
  unfold set_up, set_simulation_rand_id, s4bxi_init_privatization_dlopen, configure_engine,
    configure_smpi, load_platform. march.
Qed.
Lemma deploy_node_advances node : advances (deploy_node node).
Proof. unfold deploy_node. march. Qed.
#[local] Hint Resolve set_up_advances deploy_node_advances : advance.
Lemma load_deployment_advances file : advances (load_deployment file).
Proof. unfold load_deployment. march. Qed.
Lemma default_ranks_advances actors n : advances (default_ranks actors n).
Proof. revert n. induction actors; intros; cbn [default_ranks]; march. Qed.
#[local] Hint Resolve load_deployment_advances default_ranks_advances : advance.
Lemma start_up_advances argv : advances (start_up argv).
Proof. unfold start_up, s4bxi_actor_ext_plugin_init, command_line, is_library. march. Qed.
End Runtime.
#[export] Hint Resolve start_up_advances construct_advances serve_advances user_app_prepare_advances user_app_enter_advances
  user_app_leave_advances BxiUserAppActor_delete_advances barrier_advances get_clock_advances : advance.

(** ** Steps of a simulation *)

Section Steps.
Context `{E : Env, !Rely E} (machine : Z -> Runtime) (main : list string -> Program Z).
Context `{Hmachine : forall pid, Respectful (H := machine pid)}.
Implicit Types (c : cluster) (p : process) (s : Sim).

Lemma process_turn_advances p : advances (process_turn machine main p).
Proof.
  unfold process_turn. destruct (pr_phase p) as [| |h t| |]; try destruct (observe t); march.
Qed.
#[local] Hint Resolve process_turn_advances : advance.
Lemma process_step_advances p : advances (process_step machine main p).
Proof. unfold process_step. march. Qed.

Lemma nic_turn_progresses n w : progresses (nic_turn n) w.
Proof.
  destruct n as [| |e2e|]; cbn [nic_turn]; try destruct e2e;
    first [apply target_turn_progresses | walk].
Qed.

Lemma cluster_step_evolves c c' :
  cluster_step machine main c c' -> evolves (cl_world c) (cl_world c').
Proof.
  intros [i p p' s _ _ Hs|i p _ _|_|i n s _ _ Hs|date _ _]; try reflexivity.
  - exact (process_step_advances _ _ _ _ Hs).
  - apply (advances_on_world (nic_turn n.2)) in Hs; [exact Hs|apply nic_turn_progresses].
  - unfold cl_world, at_date. destruct c as [[] ? ?]. by apply evolves_frame.
Qed.

Lemma cluster_evolves c c' : 
  rtc (cluster_step machine main) c c' -> evolves (cl_world c) (cl_world c').
Proof. induction 1; [done|]. etrans; [by apply cluster_step_evolves|done]. Qed.

Lemma construct_all_evolves pid l c c' s :
  construct_all machine pid l c = Ok c' s -> evolves (cl_world c) (cl_world c').
Proof.
  revert pid c. induction l as [|d l IH]; intros pid c; cbn [construct_all]; [by intros [= <- _]|].
  destruct (dp_args d) as [args|]; [|apply IH].
  destruct (construct (H0 := machine pid) (dp_function d) args (cl_sim c)) as [n s1|] eqn:Hc;
    [|done]. apply construct_advances in Hc.
  intros Hr. etrans; [exact Hc|]. by destruct n; apply IH in Hr.
Qed.

Lemma boot_evolves argv s c s' :
  boot machine argv s = Ok c s' -> evolves (sim_world s) (cl_world c).
Proof.
  unfold boot. destruct (start_up (H0 := machine 0) argv s) as [[n|] s1|] eqn:Hs; try done.
  apply start_up_advances in Hs.
  intros Hr%construct_all_evolves. etrans; [exact Hs|exact Hr].
Qed.

(** C1. Whatever the user programs are and however SimGrid interleaves the processes and the cards:
    a simulation that is started in a well-formed world stays in well-formed worlds (credits
    between zero and their limits, retries within the maximum, managed offsets inside their
    entries) and keeps its configuration; and from any of its states on, a request that exists
    keeps its identity and only goes forward. *)
Theorem simulation_respects_network argv s c0 s0 c c' :
  wf (sim_world s) -> boot machine argv s = Ok c0 s0 ->
  rtc (cluster_step machine main) c0 c -> rtc (cluster_step machine main) c c' ->
  wf (cl_world c') /\ w_config (cl_world c') = w_config (sim_world s) /\
  forall r q', (r < w_next (cl_world c))%N -> w_reqs (cl_world c') !! r = Some q' ->
    exists q, w_reqs (cl_world c) !! r = Some q /\ req_evolves q q'.
Proof.
  intros W B%boot_evolves R1%cluster_evolves R2%cluster_evolves.
  assert (evolves (sim_world s) (cl_world c')) as [] by (etrans; [exact B|]; by etrans).
  destruct R2. auto.
Qed.
End Steps.

(** ** The scheduler *)

Lemma rotate_Permutation {A} n (l : list A) : rotate n l ≡ₚ l.
Proof. unfold rotate. by rewrite Permutation_app_comm, take_drop. Qed.

Lemma elem_of_numbered {A} (l : list A) i x : (i, x) ∈ zip (seq 0 (length l)) l <-> l !! i = Some x.
Proof.
  rewrite elem_of_lookup_zip_with. split.
  - intros (j & ? & ? & [= -> ->] & [? ?]%lookup_seq & ?). by subst.
  - intros Hx. exists i, i, x. repeat split; [|done]. apply lookup_seq.
    split; [done|]. by eapply lookup_lt_Some.
Qed.

Lemma find_from_Some {A} test start (l : list A) i x :
  find_from test start l = Some (i, x) -> l !! i = Some x /\ test x = true.
Proof.
  intros [Hin Ht]%List.find_some. split; [|done].
  by rewrite <- list_elem_of_In, rotate_Permutation, elem_of_numbered in Hin.
Qed.

Lemma find_from_None {A} test start (l : list A) :
  find_from test start l = None -> existsb test l = false.
Proof.
  intros Hf. apply not_true_iff_false. rewrite existsb_exists. intros (x & Hx & Ht).
  apply list_elem_of_In, list_elem_of_lookup in Hx as [i Hx].
  assert (test x = false); [|congruence].
  apply (List.find_none _ _ Hf (i, x)), list_elem_of_In.
  by rewrite rotate_Permutation, elem_of_numbered.
Qed.

Section Scheduler.
Context `{E : Env} (machine : Z -> Runtime) (main : list string -> Program Z).
Implicit Types (c : cluster) (p : process) (s : Sim).
#[local] Abbreviation step := (cluster_step machine main).

(** The actor that runs fails with this error. *)
Inductive cluster_fails c (e : failure) : Prop :=
| fails_process i p :
    cl_processes c !! i = Some p -> process_enabled (cl_world c) p = true ->
    process_step machine main p (cl_sim c) = Fail e -> cluster_fails c e
| fails_card i n :
    cl_nics c !! i = Some n -> nic_enabled (cl_world c) n.2 = true ->
    on_world (nic_turn n.2) (cl_sim c) = Fail e -> cluster_fails c e.

(** What an attempt of the scheduler does is a step, or the failure of an actor. *)
Definition sound_attempt c (r : option (Res Sim cluster)) : Prop :=
  match r with
  | Some (Ok c' _) => step c c'
  | Some (Fail e) => cluster_fails c e
  | None => True
  end.

Lemma try_process_sound c : sound_attempt c (try_process machine main c).
Proof.
  unfold try_process. destruct (find_from _ _ _) as [[i p]|] eqn:Hf; cbn; [|done].
  apply find_from_Some in Hf as [Hp He].
  destruct (process_step machine main p (cl_sim c)) eqn:Hs; [by eapply step_process|].
  by eapply fails_process.
Qed.
Lemma try_card_sound start c : sound_attempt c (try_card start c).
Proof.
  unfold try_card. destruct (find_from _ _ _) as [[i n]|] eqn:Hf; cbn; [|done].
  apply find_from_Some in Hf as [Hn He].
  destruct (on_world (nic_turn n.2) (cl_sim c)) as [[]|] eqn:Hs; [by eapply step_card|].
  by eapply fails_card.
Qed.
Lemma try_wake_sound c : sound_attempt c (try_wake c).
Proof.
  unfold try_wake. destruct (find_from _ _ _) as [[i p]|] eqn:Hf; cbn; [|done].
  apply find_from_Some in Hf as [Hp Hd]. by eapply step_wake.
Qed.
Lemma try_barrier_sound c : sound_attempt c (try_barrier c).
Proof. unfold try_barrier. destruct (barrier_full c) eqn:?; [by apply step_barrier|done]. Qed.
Lemma try_time_sound c : quiescent c = true -> sound_attempt c (try_time c).
Proof.
  intros Hq. unfold try_time. destruct (earliest (dates c)) eqn:?; cbn; [|done].
  by apply step_time.
Qed.

(** Nobody can run when the attempts find nobody. *)
Lemma none_quiescent start c :
  try_process machine main c = None -> try_card start c = None -> try_wake c = None ->
  try_barrier c = None -> quiescent c = true.
Proof.
  unfold try_process, try_card, try_wake, try_barrier, quiescent. intros Hp Hn Hw Hb.
  destruct (find_from (process_enabled _) _ _) as [[]|] eqn:Fp; [done|].
  destruct (find_from (fun n => nic_enabled _ n.2) _ _) as [[]|] eqn:Fn; [done|].
  destruct (find_from (is_due _) _ _) as [[]|] eqn:Fw; [done|].
  rewrite (find_from_None _ _ _ Fp), (find_from_None _ _ _ Fn), (find_from_None _ _ _ Fw).
  by destruct (barrier_full c).
Qed.

(** The results of the attempts. *)
#[local] Ltac attempts start c :=
  destruct (try_process machine main c) eqn:?, (try_card start c) eqn:?, (try_wake c) eqn:?,
    (try_barrier c) eqn:?; try done.

Lemma next_step_sound prefer c : sound_attempt c (next_step machine main prefer c).
Proof.
  pose proof (try_process_sound c) as Hp. pose proof (try_wake_sound c) as Hw.
  pose proof (try_barrier_sound c) as Hb. pose proof (fun n => try_card_sound n c) as Hn.
  unfold next_step. destruct prefer as [n|]; [specialize (Hn n)|specialize (Hn O)]; cbn [first_of].
  1: attempts n c. 2: attempts O c.
  all: by destruct (try_time c) eqn:Ht; [|done]; rewrite <- Ht; eapply try_time_sound, none_quiescent.
Qed.

Lemma not_existsb {A} (f : A -> bool) l x i :
  existsb f l = false -> l !! i = Some x -> f x = true -> False.
Proof.
  intros Hl Hx Hf. apply not_true_iff_false in Hl as []. apply existsb_exists. exists x.
  split; [|done]. apply list_elem_of_In. by eapply list_elem_of_lookup_2.
Qed.

Lemma not_forallb {A} (f : A -> bool) l : forallb f l = false -> exists x, x ∈ l /\ f x = false.
Proof.
  induction l as [|x l IH]; [done|]. cbn. intros [Hx|(y & Hy & Hf)%IH]%andb_false_iff.
  - exists x. split; [constructor|done].
  - exists y. split; [by constructor|done].
Qed.

Lemma next_step_None prefer c :
  next_step machine main prefer c = None -> quiescent c = true /\ earliest (dates c) = None.
Proof.
  intros Hn. unfold next_step in Hn. destruct prefer as [n|]; cbn [first_of] in Hn.
  1: attempts n c. 2: attempts O c.
  all: split; [eapply none_quiescent; eassumption|].
  all: unfold try_time in Hn; by destruct (earliest (dates c)).
Qed.

Lemma quiescent_stuck c c' : quiescent c = true -> earliest (dates c) = None -> ~ step c c'.
Proof.
  intros Hq Hd. unfold quiescent in Hq. rewrite !andb_true_iff, !negb_true_iff in Hq.
  destruct Hq as [[[Qp Qw] Qn] Qb].
  intros [i p p' s Hp He _|i p Hp He|He|i n s Hn' He _|date _ He].
  - exact (not_existsb _ _ _ _ Qp Hp He).
  - exact (not_existsb _ _ _ _ Qw Hp He).
  - congruence.
  - exact (not_existsb _ _ _ _ Qn Hn' He).
  - congruence.
Qed.

Lemma earliest_None l : earliest l = None -> l = [].
Proof. destruct l as [|d l]; [done|]. cbn. by destruct (foldr _ None l). Qed.

(** What a process waits for when it cannot run: the others at the barrier, or the network in the
    call that it makes. *)
Definition waits c p : Prop :=
  pr_blocked p = AtBarrier \/
  exists h t A (call : Call.call A) k, pr_phase p = Running h t /\ observe t = VisF call k /\
    can_proceed call (cl_world c) = false.

Lemma quiescent_waits c p :
  quiescent c = true -> earliest (dates c) = None -> p ∈ cl_processes c -> pr_phase p <> Ended ->
  waits c p.
Proof.
  intros Hq Hd%earliest_None Hp He. unfold quiescent in Hq.
  rewrite !andb_true_iff, !negb_true_iff in Hq. destruct Hq as [[[Qp _] _] _].
  apply list_elem_of_lookup in Hp as [i Hp].
  assert (process_enabled (cl_world c) p = false) as Hn.
  { apply not_true_iff_false. intros Hn. exact (not_existsb _ _ _ _ Qp Hp Hn). }
  unfold process_enabled, is_ready in Hn. unfold waits. destruct (pr_blocked p) eqn:Hb.
  - right. destruct (pr_phase p) as [| |h t| |] eqn:Hph; try done.
    destruct (observe t) as [| |A call k] eqn:Ht; try done. by exists h, t, A, call, k.
  - by left.
  - exfalso. unfold dates in Hd. apply app_eq_nil in Hd as [Hd _].
    enough (date ∈ @nil double) as []%not_elem_of_nil. rewrite <- Hd.
    apply list_elem_of_omap. exists p. rewrite Hb. split; [|done]. by eapply list_elem_of_lookup_2.
Qed.

(** The last state of an execution. *)
Definition final (o : outcome) : cluster :=
  match o with Finished c | Failed c _ | Deadlock c | Unfinished c => c end.

Lemma run_steps fuel schedule c : rtc step c (final (run machine main fuel schedule c)).
Proof.
  revert c. induction fuel as [|fuel IH]; intros c; cbn [run]; [done|].
  destruct (forallb _ _); [done|]. pose proof (next_step_sound (schedule (S fuel)) c) as Hs.
  destruct (next_step _ _ _ c) as [[c1 s|e]|]; [|done..]. by eapply rtc_l.
Qed.

End Scheduler.
