(* ===== verification/Suite.v ===== *)
(** The test suite ([teshsuite/]) run in the model: each test is deployed from its XML file, its
    processes and its cards are scheduled, and what it prints is compared with its [.tesh] file. *)
From ITree Require Import ITree.
From S2P Require Import Prelude OMap Portals World Logic Engine Config Queue Messages Node.
From S2P Require Import Counters Entries E2E NicActor Initiator Target MainActor Runtime Bench.
From S2P Require Import CUtil CApi UserApp Redefine Main Client Cluster Scenario Testbed.
From S2P Require Import TestLib TestAtomics TestEntries TestTransfers.

(** ** An execution of a test *)

Section Execution.
Context (main : list string -> Program Z) (deploy : string).

Definition platform_hosts : list string :=
  if String.prefix "vix" deploy then vix_hosts else quito_hosts.
Definition platform_file : string :=
  if String.prefix "vix" deploy then "vix.xml" else "quito.xml".
Definition command : list string :=
  ["s4bximain"; platform_file; deploy; "libpt2pt_test.so"; "pt2pt_test"]%string.

Definition booted : option cluster :=
  config ← test_config;
  match boot (E := suite_env) (machine platform_hosts test_env) command (initial_sim config) with
  | Ok c _ => Some c
  | Fail _ => None
  end.
Definition executed (schedule : nat -> preference) : option outcome :=
  run (E := suite_env) (machine platform_hosts test_env) main 5000 schedule <$> booted.
End Execution.

(** What is seen of an execution: how it ended and what it has printed. *)
Inductive report :=
| Passes (output : string)
| Breaks (error : failure) (output : string)
| Hangs (output : string)
| Unreported.

Definition output_of (c : cluster) : string := printed stdout (sim_calls (cl_sim c)).

Definition report_of (o : option outcome) : report :=
  match o with
  | Some (Finished c) =>
      if semaphores_free (w_trace (cl_world c)) then Passes (output_of c) else Unreported
  | Some (Failed c e) => Breaks e (output_of c)
  | Some (Deadlock c) => Hangs (output_of c)
  | _ => Unreported
  end.

(** The lines that a [.tesh] file expects. *)
Definition lines (l : list string) : string := foldr (fun s t => s ++ newline ++ t)%string ""%string l.

(** The cards before the processes; the order of the cards changes at each step. *)
Definition cards_first (seed : nat) : nat -> preference := fun n => CardsFirst (n mod S seed).

Definition quito (real : bool) : string :=
  if real then "quito_client_server_real_memory.xml" else "quito_client_server_fake_memory.xml".
Definition vix (real : bool) : string :=
  if real then "vix_client_server_real_memory.xml" else "vix_client_server_fake_memory.xml".
Definition vix_no_e2e : string := "vix_client_server_no_e2e.xml".

Definition tested (main : list string -> Program Z) (deploy : string) (seed : nat) : report :=
  report_of (executed main deploy (cards_first seed)).

(** The test prints these lines on each of these platforms, with several orders of the cards. *)
Definition passes (main : list string -> Program Z) (deploys : list string)
    (expected : list string) : Prop :=
  Forall (fun deploy =>
    Forall (fun seed => tested main deploy seed = Passes (lines expected)) [0%nat; 6%nat]) deploys.

Ltac run_tests :=
  unfold passes;
  repeat match goal with
  | |- _ /\ _ => split
  | |- Forall _ [] => apply Forall_nil
  | |- Forall _ (_ :: _) => apply Forall_cons; split; cbv beta
  end; vm_compute; reflexivity.

(** ** Atomic operations *)

(** The tests of the atomic operations, run from their deployment to the end of their processes
    (two user processes, the NIC and the end-to-end actors of two machines), print what their
    [.tesh] files expect: [pt2pt_atomic], [pt2pt_l2p] and [pt2pt_fetch_atomic], with memory that is
    simulated or not (then the buffers keep their values), and without the end-to-end actors.
    No semaphore would have blocked. *)
Definition atomic_outputs : Prop :=
  passes Atomic.main [quito true]
    ["INT64 : 42"; "HDR data : 1337"; "LONG DOUBLE : 69.000000"; "HDR data : 7331"]%string /\
  passes Atomic.main [quito false]
    ["INT64 : 40"; "HDR data : 1337"; "LONG DOUBLE : 23.000000"; "HDR data : 7331"]%string /\
  passes L2p.main [quito true; vix_no_e2e]
    ["INT64 : 42"; "HDR data : 1337"; "Initial INT64 : 40"]%string /\
  passes L2p.main [quito false]
    ["INT64 : 40"; "HDR data : 1337"; "Initial INT64 : 666"]%string /\
  passes FetchAtomic.main [quito false]
    ["INT64 : 40"; "HDR data : 1337"; "Initial INT64 : 666";
     "LONG DOUBLE : 23.000000"; "HDR data : 7331"; "Initial LONG DOUBLE : 666.000000";
     "SWAP : 12.000000"; "HDR data : 3333"; "Initial SWAP : 666.000000"]%string.
Lemma atomic_tests_pass : atomic_outputs.
Proof. unfold atomic_outputs. run_tests. Qed.

(** [pt2pt_fetch_atomic] with real memory prints the first six lines that its [.tesh] file
    expects, then [PtlSwap] has the target read its operand past the end of the request, which is
    not a [BxiSwapRequest]: the behaviour of the rest is undefined. *)
Theorem swap_test_undefined :
  Forall (fun seed => tested FetchAtomic.main (quito true) seed
    = Breaks (Undefined "read past the end of an object")
        (lines ["INT64 : 42"; "HDR data : 1337"; "Initial INT64 : 40";
                "LONG DOUBLE : 69.000000"; "HDR data : 7331"; "Initial LONG DOUBLE : 23.000000"]%string))
    [0%nat; 6%nat].
Proof. run_tests. Qed.

(** A process may close its interface as soon as it has the reply it waits for, as the client
    of [pt2pt_l2p] does; when the acknowledgement of its own request comes later, the NIC reads the
    interface, through the request, after it was freed. *)
Theorem early_close_undefined :
  report_of (executed L2p.main (quito true) (fun _ => ProcessesFirst))
  = Breaks (Undefined "invalid pointer") (lines ["Initial INT64 : 40"]%string).
Proof. run_tests. Qed.

(** ** Entries *)

(** The tests of the entries of a target print what their [.tesh] files expect: local, remote
    and managed offsets ([pt2pt_offsets]), use-once entries that unlink themselves one per message
    ([pt2pt_auto_unlink]), a message that comes before the entry that receives it
    ([pt2pt_unexpected_headers]), puts longer than their entry ([pt2pt_truncated_payload]). *)
Definition entry_outputs : Prop :=
  passes Offsets.main [quito true; vix true]
    ["--- Local offset test"; "Target after PUT : 42"; "Target after FETCH_ATOMIC : 69";
     "Target value fetched in atomic : 42"; "--- Remote offset test"; "Target[0] after PUT : 0";
     "Target[1] after PUT : 42"; "Target[2] after PUT : 0"; "--- MANAGE_LOCAL test";
     "Target[0] after PUT : 27"; "Target[1] after PUT : 999"; "Target[2] after PUT : 69";
     "Target[3] after PUT : 999"; "Target[0] after PUT : 27"; "Target[1] after PUT : 42";
     "Target[2] after PUT : 69"; "Target[3] after PUT : 999"; "Target[0] after GET : 27";
     "Target[1] after GET : 42"; "Target[2] after GET : 69"; "Target[3] after GET : 999";
     "Target value fetched in get : 69"]%string /\
  passes Offsets.main [quito false]
    ["--- Local offset test"; "Target after PUT : 0"; "Target after FETCH_ATOMIC : 0";
     "Target value fetched in atomic : 666"; "--- Remote offset test"; "Target[0] after PUT : 0";
     "Target[1] after PUT : 0"; "Target[2] after PUT : 0"; "--- MANAGE_LOCAL test";
     "Target[0] after PUT : 999"; "Target[1] after PUT : 999"; "Target[2] after PUT : 69";
     "Target[3] after PUT : 999"; "Target[0] after PUT : 999"; "Target[1] after PUT : 999";
     "Target[2] after PUT : 69"; "Target[3] after PUT : 999"; "Target[0] after GET : 999";
     "Target[1] after GET : 999"; "Target[2] after GET : 69"; "Target[3] after GET : 999";
     "Target value fetched in get : 666"]%string /\
  passes AutoUnlink.main [quito false]
    ((fun i => "LE remaining : " ++ pretty (9 - i) ++ newline ++ "Sent message " ++ pretty i)%string
       <$> seqZ 0 10) /\
  passes UnexpectedHeaders.main [quito true; vix true; vix_no_e2e]
    ["Target after PUT : overflow 42 - priority 0"]%string /\
  passes UnexpectedHeaders.main [quito false; vix false]
    ["Target after PUT : overflow 0 - priority 0"]%string /\
  passes TruncatedPayload.main [quito true; vix true]
    ["SEND mlength 1"; "Message : L"; "PUT mlength : 1"; "ACK mlength 1";
     "SEND mlength 4"; "Message : Lore"; "PUT mlength : 4"; "ACK mlength 4";
     "SEND mlength 16"; "Message : Lorem ipsum"; "PUT mlength : 11"; "ACK mlength 11";
     "SEND mlength 64"; "Message : Lorem ipsum"; "PUT mlength : 11"; "ACK mlength 11"]%string.
Lemma entry_tests_pass : entry_outputs.
Proof. unfold entry_outputs. run_tests. Qed.

(** ** Transfers *)

(** The lines of each of the first runs. *)
Definition runs (n : Z) (f : Z -> string) : list string :=
  (fun run => f run ++ newline ++ "Finished run " ++ pretty run)%string <$> seqZ 0 n.

(** What [sprintf] has written in the buffer of a run, as far as the message is long. *)
Definition text_of_run (real : bool) (run : Z) : string :=
  if real then substr ("Message of run " ++ pretty run) 0 (Z.to_nat (4 ^ run)) else ""%string.

Definition buffers_of_run (real : bool) (run : Z) : string :=
  ("First buffer : " ++ newline ++ "Third buffer : " ++ text_of_run real run)%string.

(** The programs on 3 runs of 2 messages. *)
Definition reduced {T} (program : nat -> nat -> Z -> T) : T := program 3%nat 2%nat 64.

(** The tests of puts, gets and counters, with matching or not, on their first three runs (two
    messages per run instead of 100 or 1000, buffers of 64 bytes), print the lines that their
    [.tesh] files expect: each message comes whole in the entry that it matches, cut to its length
    (1, 4 and 16 bytes), and nothing is written when memory is not simulated. *)
Definition transfer_outputs (real : bool) : Prop :=
  passes (reduced put_matching) [quito real; vix real]
    (runs 3 (fun run => buffers_of_run real run ++ newline ++ "HDR data : " ++ pretty (100 + run))%string) /\
  passes (reduced put_non_matching) [quito real]
    (runs 3 (fun run => "Received : " ++ text_of_run real run)%string) /\
  passes (reduced get_matching) [quito real; vix real]
    (runs 3 (fun run => "Received : " ++ text_of_run real run)%string) /\
  passes (reduced get_non_matching) [quito real]
    (runs 3 (fun run => "Received : " ++ text_of_run real run)%string) /\
  passes (reduced counters) [quito real]
    (runs 3 (fun run => buffers_of_run real run)).
Lemma transfer_tests_pass real : transfer_outputs real.
Proof. unfold transfer_outputs. destruct real; run_tests. Qed.

