(* ===== verification/SuiteWitnesses.v ===== *)
(** The theorems on simulations ([ClusterSpec.v]) and on their start ([MainSpec.v]), applied to the
    test suite ([Testbed.v], [Suite.v]). *)
From ITree Require Import ITree.
From S2P Require Import Prelude OMap Portals World Logic Engine Config Runtime Main Client Cluster.
From S2P Require Import MainSpec System ClusterSpec Scenario Testbed TestAtomics Suite.

(** The processes of the tests respect the network. *)
#[export] Instance machine_respectful hosts env pid :
  Respectful (H := machine hosts env pid).
Proof.
  constructor; [|reflexivity]. intros c s. unfold sim_evolves.
  destruct c; cbn; try reflexivity.
  - destruct (sim_ext_valid s); by destruct s.
  - unfold over_mem. destruct s. by apply evolves_frame.
  - unfold over_mem. destruct s. by apply evolves_frame.
Qed.

(** ** Whole simulations *)

(** The start of the tests. *)
Lemma empty_world_wf config :
  0 <= max_inflight_to_target config -> 0 <= max_inflight_to_process config ->
  0 <= max_retries config -> wf (empty_world config).
Proof. intros. constructor; cbn; try done; apply map_Forall_empty. Qed.

(** The configuration of the tests is the default one; the deployment starts. *)
Definition suite_config : s4bxi_config :=
  Eval vm_compute in match BxiEngine_new test_env with Ok c _ => c | Fail _ => example_config end.
Lemma suite_config_read : test_config = Some suite_config.
Proof. vm_compute. reflexivity. Qed.

(** The whole run of [pt2pt_l2p]: its last world is well formed. *)
Lemma simulation_respects_network_witness :
  match boot (E := suite_env) (machine quito_hosts test_env) (command (quito true))
          (initial_sim suite_config) with
  | Ok c0 _ => wf (cl_world (final (run (E := suite_env) (machine quito_hosts test_env) L2p.main
                                      5000 (cards_first 0) c0)))
  | Fail _ => False
  end.
Proof.
  destruct (boot _ _ _) as [c0 s0|e] eqn:Hb.
  - eapply (simulation_respects_network (E := suite_env) (machine quito_hosts test_env) L2p.main
      (command (quito true)) (initial_sim suite_config) c0 s0 c0 _).
    + apply empty_world_wf; vm_compute; discriminate.
    + exact Hb.
    + reflexivity.
    + apply run_steps.
  - assert (match boot (E := suite_env) (machine quito_hosts test_env) (command (quito true))
              (initial_sim suite_config) with Ok _ _ => true | Fail _ => false end = true) as Hok
      by (vm_compute; reflexivity).
    rewrite Hb in Hok. discriminate Hok.
Defined.

(** ** The start *)

Section Machine.
Context (hosts : list string) (env : Environment) (pid : Z).
#[local] Instance this_machine : Runtime := machine hosts env pid.

Lemma machine_step_calls c s : sim_calls (rt_step c s) = sim_calls s.
Proof. destruct c; cbn; try reflexivity. by destruct (sim_ext_valid s). Qed.

Lemma last_property_app id l i v x :
  last_property id (l ++ [(i, v)]) x
  = if decide (id = i) then Some v else last_property id l x.
Proof.
  revert x. induction l as [|[j y] l IH]; intros x; cbn; [|by apply IH].
  case_bool_decide; case_decide; congruence.
Qed.

(** Setting a property changes no name, and only this property. *)
Lemma machine_set_property a id v s s' :
  call (SetActorProperty a id v) s = Ok tt s' ->
  (forall b, rt_actor_name s' b = rt_actor_name s b) /\
  (forall b i, rt_actor_property s' b i
     = if decide (b = a /\ i = id) then Some v else rt_actor_property s b i).
Proof.
  intros [= <-]. cbn. split; [done|]. intros b i. unfold property_of, set_properties.
  change (sim_calls (s <| sim_calls ::= _ |>)) with (SetActorProperty a id v :: sim_calls s).
  change (actor_of (s <| sim_calls ::= _ |>) b) with (actor_of s b).
  rewrite reverse_cons, omap_app. cbn [omap list_omap].
  destruct (a =? b) eqn:Hab; [|rewrite app_nil_r].
  - apply Z.eqb_eq in Hab as <-. rewrite app_assoc, last_property_app.
    case_decide; case_decide; naive_solver.
  - apply Z.eqb_neq in Hab. rewrite decide_False by naive_solver. done.
Qed.
End Machine.

Definition maestro : Runtime := machine quito_hosts test_env 0.

(** The deployment with real memory: two user processes and eight actors of the cards. *)
Lemma deployment_deployed_witness : exists s',
  load_deployment (H0 := maestro) (quito true) (initial_sim suite_config) = Ok true s' /\
  map dp_function (reverse (deployed_actors (sim_calls s')))
  = ["user_app"; "nic_initiator"; "nic_target"; "nic_target"; "nic_e2e";
     "user_app"; "nic_initiator"; "nic_initiator"; "nic_target"; "nic_e2e"]%string.
Proof.
  pose proof (deployment_deployed (H0 := maestro)
    (machine_step_calls quito_hosts test_env 0) (quito true) (initial_sim suite_config)
    ltac:(vm_compute; reflexivity)) as Hd.
  destruct (rt_xml (Runtime := maestro) (quito true)) as [doc|] eqn:Hx; [|discriminate Hx].
  injection Hx as <-.
  destruct (described_actors (H0 := maestro) _) as [actors|] eqn:Ha; [|vm_compute in Ha; discriminate Ha].
  destruct Hd as (s' & Hl & Hd). exists s'. split; [exact Hl|]. rewrite Hd.
  vm_compute in Ha. injection Ha as <-. vm_compute. reflexivity.
Defined.

(** The actors of this deployment, in SimGrid. *)
Definition deployed_sim : Sim :=
  match load_deployment (H0 := maestro) (quito true) (initial_sim suite_config) with
  | Ok _ s => s | Fail _ => initial_sim suite_config end.

