(* ===== verification/Matching.v ===== *)
(** Theorems about matching, list entries and memory bounds ([Entries.v] and
    the matching part of [Target.v]). *)
From S2P Require Import Prelude Portals World Logic Engine Queue Messages Node Counters Entries.
From S2P Require Import E2E Atomics NicActor Target FlowControl.

(** ** Matching bits *)

Lemma lnot_bits_64 z i : 0 <= i < 64 -> Z.testbit (u64 (Z.lnot z)) i = negb (Z.testbit z i).
Proof.
  intros Hi. unfold wrap. rewrite Z.mod_pow2_bits_low by lia. apply Z.lnot_spec. lia.
Qed.

Lemma testbit_range z i : 0 <= z < 2 ^ 64 -> 64 <= i -> Z.testbit z i = false.
Proof.
  intros Hz Hi. rewrite <- (Z.mod_small z (2 ^ 64)) by done. apply Z.mod_pow2_bits_high. lia.
Qed.

Lemma masked_zero a b ignore :
  0 <= a < 2 ^ 64 -> 0 <= b < 2 ^ 64 ->
  Z.land (Z.lxor a b) (u64 (Z.lnot ignore)) = 0 <->
  forall i, 0 <= i < 64 -> Z.testbit ignore i = false -> Z.testbit a i = Z.testbit b i.
Proof.
  intros Ha Hb. split.
  - intros H i Hi Hign. apply (f_equal (fun z => Z.testbit z i)) in H.
    rewrite Z.land_spec, Z.lxor_spec, lnot_bits_64, Hign, Z.bits_0 in H by lia.
    by destruct (Z.testbit a i), (Z.testbit b i).
  - intros H. apply Z.bits_inj_0. intros i.
    rewrite Z.land_spec, Z.lxor_spec. destruct (Z.neg_nonneg_cases i) as [|Hi0].
    { by rewrite !Z.testbit_neg_r by done. }
    destruct (decide (i < 64)) as [Hi|Hi].
    + rewrite lnot_bits_64 by lia. destruct (Z.testbit ignore i) eqn:E; [apply andb_false_r|].
      rewrite (H i) by (done || lia). by rewrite xorb_nilpotent.
    + rewrite (testbit_range a), (testbit_range b) by lia. done.
Qed.

(** C14. Which entries a request matches: an entry used once that was already used matches
    nothing; any other entry of a non-matching interface matches everything; in a matching
    interface the match bits must agree at every bit the entry does not ignore. *)
Theorem matches_request_spec me req :
  0 <= rq_match_bits req < 2 ^ 64 -> 0 <= me_match_bits (bme_me me) < 2 ^ 64 ->
  matches_request me req = true <->
  ~ (me_has me PTL_ME_USE_ONCE = true /\ bme_used me = true) /\
  (rq_matching req = true -> forall i, 0 <= i < 64 ->
     Z.testbit (me_ignore_bits (bme_me me)) i = false ->
     Z.testbit (rq_match_bits req) i = Z.testbit (me_match_bits (bme_me me)) i).
Proof.
  intros Hr Hm. unfold matches_request.
  destruct (me_has me PTL_ME_USE_ONCE && bme_used me) eqn:Hu.
  - apply andb_true_iff in Hu. intuition congruence.
  - assert (~ (me_has me PTL_ME_USE_ONCE = true /\ bme_used me = true)) as Hu'.
    { rewrite <- andb_true_iff. congruence. }
    destruct (rq_matching req); cbn; [|intuition congruence].
    rewrite Z.eqb_eq, masked_zero by done. intuition congruence.
Qed.

(** ** The walk through the lists of a table entry *)

(** Whether the entry under a handle matches, in a world. *)
Definition hits (w : World) (req : BxiRequest) (h : handle) : bool :=
  match w_mes w !! h with Some m => matches_request m req | None => false end.

Definition valid_entries (w : World) (l : list handle) : Prop :=
  Forall (fun h => is_Some (w_mes w !! h)) l.

Lemma first_match_eq `{E : Env} w req l :
  valid_entries w l ->
  first_match l req w = Ok (head (filter (fun h => hits w req h = true) l)) w.
Proof.
  induction 1 as [|h l [m Hm] _ IH]; [done|]. cbn [first_match].
  step_load. assert (hits w req h = matches_request m req) as Hh by (unfold hits; by rewrite Hm).
  destruct (matches_request m req).
  - by rewrite filter_cons_True.
  - rewrite filter_cons_False by congruence. exact IH.
Qed.

Definition mark_used (me : handle) (w : World) : World :=
  w <| w_mes ::= alter (fun m => m <| bme_used := true |>) me |>.

(** What an overflow match records: the header waits in the table, and holds its message. *)
Definition record_header (pt msg : handle) (w : World) : World :=
  w <| w_msgs ::= alter (fun x => x <| ms_ref_count ::= fun c => u32 (c + 1) |>) msg |>
    <| w_pts ::= alter (fun p => p <| pt_unexpected_headers ::= fun l => l ++ [msg] |>) pt |>.

Lemma insert_alter {K A} `{Countable K} (m : gmap K A) k f x :
  m !! k = Some x -> <[k := f x]> m = alter f k m.
Proof.
  intros Hx. apply map_eq. intros i. destruct (decide (i = k)) as [->|].
  - by rewrite lookup_insert_eq, lookup_alter_eq, Hx.
  - by rewrite lookup_insert_ne, lookup_alter_ne.
Qed.

Lemma head_hit w req l me :
  head (filter (fun h => hits w req h = true) l) = Some me ->
  exists m, w_mes w !! me = Some m /\ matches_request m req = true.
Proof.
  intros Hh. assert (me ∈ filter (fun h => hits w req h = true) l) as Hin.
  { destruct (filter _ l); [done|]. injection Hh as ->. apply list_elem_of_here. }
  apply list_elem_of_filter in Hin as [Hhit _]. unfold hits in Hhit.
  destruct (w_mes w !! me) as [m|]; [|done]. by exists m.
Qed.

Lemma mark_used_eq me m w :
  w_mes w !! me = Some m ->
  on_objects (T := BxiME) <[me := m <| bme_used := true |>]> w = mark_used me w.
Proof.
  intros Hm. unfold mark_used. cbn. unfold over. cbn.
  f_equal. exact (insert_alter (w_mes w) me (fun m => m <| bme_used := true |>) m Hm).
Qed.

(** C13. The walk through the lists: the priority list before the overflow list, each in order,
    the first entry that matches.  A priority match only marks the entry as used; an overflow
    match also appends the message to the unexpected headers and takes a reference to it; without
    a match nothing changes. *)
Theorem walk_through_lists_spec `{E : Env} pt msg p x req w :
  w_pts w !! pt = Some p -> w_msgs w !! msg = Some x ->
  w_reqs w !! ms_parent_request x = Some req -> pt_enabled p = true ->
  valid_entries w (pt_priority_list p) -> valid_entries w (pt_overflow_list p) ->
  let first l := head (filter (fun h => hits w req h = true) l) in
  walk_through_lists pt msg w =
    match first (pt_priority_list p) with
    | Some me => Ok (Some me) (mark_used me w)
    | None =>
        match first (pt_overflow_list p) with
        | Some me => Ok (Some me) (record_header pt msg (mark_used me w))
        | None => Ok None w
        end
    end.
Proof.
  intros Hp Hx Hq Hen Hv1 Hv2. cbv zeta. unfold walk_through_lists.
  step_load. rewrite Hen. cbn [negb]. step_load. step_load.
  rewrite (bind_run _ _ _ _ _ (first_match_eq w req _ Hv1)).
  destruct (head (filter _ (pt_priority_list p))) as [me|] eqn:H1.
  - destruct (head_hit _ _ _ _ H1) as (m & Hm & _). step_update. by rewrite mark_used_eq.
  - rewrite (bind_run _ _ _ _ _ (first_match_eq w req _ Hv2)).
    destruct (head (filter _ (pt_overflow_list p))) as [me|] eqn:H2; [|done].
    destruct (head_hit _ _ _ _ H2) as (m & Hm & _). step_update. rewrite mark_used_eq by done.
    assert (w_msgs (mark_used me w) !! msg = Some x) as Hx' by done. step_update.
    set (w1 := on_objects _ _). assert (w_pts w1 !! pt = Some p) as Hp' by done. step_update.
    unfold record_header, w1, over. cbn. unfold over. cbn. cbv [mret M_ret]. do 2 f_equal.
    + exact (insert_alter (w_pts w) pt
        (fun p => p <| pt_unexpected_headers ::= fun l => l ++ [msg] |>) p Hp).
    + exact (insert_alter (w_msgs w) msg
        (fun x => x <| ms_ref_count ::= fun c => u32 (c + 1) |>) x Hx).
Qed.

(** C37. An entry with PTL_ME_USE_ONCE that was matched matches no request any more: the walk
    marks the entry it returns, and a marked entry matches nothing. *)
Theorem use_once_matched_once `{E : Env} pt msg me w w' :
  walk_through_lists pt msg w = Ok (Some me) w' ->
  exists m, w_mes w' !! me = Some m /\ bme_used m = true /\
    (me_has m PTL_ME_USE_ONCE = true -> forall req, matches_request m req = false).
Proof.
  intros H.
  assert (exists m, w_mes w' !! me = Some m /\ bme_used m = true) as (m & Hm & Hu).
  { assert (forall (k : SM (option handle)) w0,
      (forall w1 r w2, k w1 = Ok r w2 -> r = Some me -> w_mes w2 = w_mes w1) ->
      forall r w2, (_ ← update (T := BxiME) me (fun m => m <| bme_used := true |>); k) w0 = Ok r w2 ->
      r = Some me -> exists m, w_mes w2 !! me = Some m /\ bme_used m = true) as Hmark.
    { intros k w0 Hk r w2 (u & w1 & Hup & Hk')%bind_Ok ->.
      rewrite (Hk _ _ _ Hk' eq_refl). unfold update in Hup.
      destruct (objects w0 !! me) as [m|]; [|done]. injection Hup as _ <-.
      eexists. split; [apply lookup_insert_eq|done]. }
    unfold walk_through_lists in H. apply bind_Ok in H as (p & w1 & [-> _]%load_inv & H).
    destruct (pt_enabled p); [|done]. cbn [negb] in H.
    apply bind_Ok in H as (x & w1 & [-> _]%load_inv & H).
    apply bind_Ok in H as (req & w1 & [-> _]%load_inv & H).
    apply bind_Ok in H as ([me1|] & w1 & _ & H).
    - assert (me1 = me) as -> by (by apply bind_Ok in H as (? & ? & _ & [= ->])).
      eapply Hmark; [|exact H|done]. by intros ??? [= _ <-].
    - apply bind_Ok in H as ([me1|] & w2 & _ & H); [|done].
      assert (me1 = me) as ->.
      { by do 3 (apply bind_Ok in H as (? & ? & _ & H)); injection H. }
      eapply Hmark; [|exact H|done]. clear. intros w1 r w2 H _.
      apply bind_Ok in H as (? & wa & Ha & H). apply bind_Ok in H as (? & wb & Hb & [= _ <-]).
      unfold update in Ha, Hb. repeat case_match; try done.
      injection Ha as _ <-. by injection Hb as _ <-. }
  exists m. split_and!; [done|done|]. intros Ho req. unfold matches_request. by rewrite Ho, Hu.
Qed.

(** ** Where the data of a request goes *)


(** An entry that is not locally managed: the length written ignores the offset the
    initiator gives, so the write stays inside the entry only when that offset leaves room for
    all of it. *)
Theorem unmanaged_write_bounds me req addr off' toff :
  me_has me PTL_ME_MANAGE_LOCAL = false -> bme_manage_local_offset me = 0 ->
  0 <= rq_payload_size req -> 0 <= me_length (bme_me me) < 2 ^ 64 ->
  0 <= rq_remote_offset req -> 0 <= me_start (bme_me me) ->
  me_start (bme_me me) + rq_remote_offset req < 2 ^ 64 ->
  offsetted_addr me req true = (addr, off', toff) ->
  let mlength := get_mlength me req in
  mlength = Z.min (me_length (bme_me me)) (rq_payload_size req) /\
  (addr + mlength <= me_start (bme_me me) + me_length (bme_me me) <->
   rq_remote_offset req + Z.min (me_length (bme_me me)) (rq_payload_size req)
     <= me_length (bme_me me)).
Proof.
  unfold offsetted_addr, get_mlength, add64, sub64.
  intros Hman Hoff Hp Hlen Hr Hst Hsum. rewrite Hman, Hoff. cbn [negb].
  rewrite !wrap_small by lia. intros [= <- _ _]. cbv zeta.
  destruct (Z.ltb_spec (me_length (bme_me me) - 0) (rq_payload_size req)); lia.
Qed.

(** A request whose offset goes past the end of the entry is not refused or truncated: here
    8 bytes at offset 12 of an entry of 16 bytes are written up to 4 bytes after its end. *)
Theorem unmanaged_overrun :
  let me := BxiME_init 1 (mk_me 1000 16 PTL_CT_NONE 0 PTL_ME_OP_PUT (mk_process 0 0) 0 0 0)
              PTL_PRIORITY_LIST 0 in
  let req := BxiPutRequest_init (mk_MD 1 (mk_md 0 64 0 PTL_EQ_NONE PTL_CT_NONE)) 8 false 0 0 0 0
               false 0 12 PTL_NO_ACK_REQ 0 in
  matches_request me req = true /\
  fst (fst (offsetted_addr me req true)) + get_mlength me req
    = me_start (bme_me me) + me_length (bme_me me) + 4.
Proof. by vm_compute. Qed.

(** ** Unlinking *)

Lemma erase_remove_once {A} `{EqDecision A} (x : A) l :
  NoDup l -> x ∈ l -> erase_remove x l = Some (filter (fun y => y <> x) l).
Proof.
  intros Hnd Hin. unfold erase_remove. rewrite decide_True; [done|].
  induction Hnd as [|y l Hy Hnd IH]; [by apply not_elem_of_nil in Hin|].
  rewrite filter_cons. destruct (decide (y = x)) as [->|Hne].
  - cbn. f_equal. apply length_zero_iff_nil.
    destruct (filter _ l) as [|z f] eqn:E; [done|].
    assert (z ∈ filter (fun y => y = x) l) as [-> Hz]%list_elem_of_filter
      by (rewrite E; apply list_elem_of_here). done.
  - apply IH. by apply elem_of_cons in Hin as [->|].
Qed.

(** Unlinking an entry: one that a request is using is only flagged, to be unlinked when the
    request is done with it; any other leaves its list, where nothing else moves, and is freed. *)
Theorem BxiME_unlink_spec `{E : Env} me m p w :
  w_mes w !! me = Some m -> w_pts w !! bme_pt m = Some p ->
  NoDup (get_list (bme_list m) p) -> me ∈ get_list (bme_list m) p ->
  BxiME_unlink me w =
    Ok tt (if bme_in_use m then w <| w_mes ::= alter (fun m => m <| bme_needs_unlink := true |>) me |>
           else w <| w_pts ::= alter (over_list (bme_list m)
                                        (fun l => filter (fun h => h <> me) l)) (bme_pt m) |>
                  <| w_mes ::= delete me |>).
Proof.
  intros Hm Hp Hnd Hin. unfold BxiME_unlink. step_load. destruct (bme_in_use m).
  - run_update. f_equal. unfold over at 1. cbn. unfold over. f_equal.
    exact (insert_alter (w_mes w) me (fun m => m <| bme_needs_unlink := true |>) m Hm).
  - step_load. rewrite (erase_remove_once _ _ Hnd Hin).
    rewrite (bind_run _ _ w _ w) by done. step_update. unfold free. cbn. rewrite Hm.
    do 2 f_equal. unfold over. cbn. f_equal.
    rewrite <- (insert_alter (w_pts w) (bme_pt m) _ p Hp). f_equal.
    unfold over_list, get_list. by destruct (bme_list m =? PTL_PRIORITY_LIST).
Qed.

(** ** The status of a request *)

Lemma first_match_read `{E : Env} l req w r w' : first_match l req w = Ok r w' -> w' = w.
Proof.
  induction l as [|h l IH]; cbn [first_match]; [by intros [= _ <-]|].
  intros (m & w1 & [-> _]%load_inv & H)%bind_Ok.
  destruct (matches_request m req); [by injection H as _ <-|auto].
Qed.

Lemma walk_through_lists_none `{E : Env} pt msg w w' :
  walk_through_lists pt msg w = Ok None w' -> w' = w.
Proof.
  unfold walk_through_lists. intros (p & w1 & [-> _]%load_inv & H)%bind_Ok.
  destruct (pt_enabled p); cbn [negb] in H; [|by injection H as <-].
  apply bind_Ok in H as (x & w1 & [-> _]%load_inv & H).
  apply bind_Ok in H as (req & w1 & [-> _]%load_inv & H).
  apply bind_Ok in H as ([me1|] & w1 & ->%first_match_read & H).
  { by apply bind_Ok in H as (? & ? & _ & [=]). }
  apply bind_Ok in H as ([me1|] & w1 & ->%first_match_read & H); [|by injection H as <-].
  by do 3 (apply bind_Ok in H as (? & ? & _ & H)); injection H.
Qed.

Lemma match_in_nis_status `{E : Env} nis msg r w code me w' :
  match_in_nis nis msg r w = Ok (code, me) w' ->
  match me with
  | Some _ => code = PTL_NI_OK
  | None => (code = PTL_NI_TARGET_INVALID \/ code = PTL_NI_PT_DISABLED) /\ w' = w
  end.
Proof.
  intros H. induction nis as [|ni nis IH].
  { injection H as <- <- <-. auto. }
  cbn [match_in_nis] in H. apply bind_Ok in H as (i & w1 & [-> _]%load_inv & H).
  apply bind_Ok in H as (req & w1 & [-> _]%load_inv & H).
  destruct (can_match_request i req); cbn [negb] in H; [|by apply IH].
  destruct (ni_pt_indexes i !! rq_pt_index req) as [pt|]; [|injection H as <- <- <-; auto].
  apply bind_Ok in H as (p & w1 & [-> _]%load_inv & H).
  destruct (pt_enabled p); cbn [negb] in H; [|injection H as <- <- <-; auto].
  apply bind_Ok in H as ([h|] & w1 & Hw & H).
  - by injection H as <- <- <-.
  - apply walk_through_lists_none in Hw as ->. by apply IH.
Qed.

Lemma match_entry_inv `{E : Env} node msg w r w' :
  match_entry node msg w = Ok r w' ->
  exists nis h, match_in_nis nis msg h w = Ok r w'.
Proof.
  unfold match_entry. intros (x & w1 & [-> _]%load_inv & H)%bind_Ok.
  apply bind_Ok in H as (n & w1 & [-> _]%load_inv & H). eauto.
Qed.

(** The status [match_entry] gives: PTL_NI_OK exactly when it found an entry.  Otherwise the
    status says why (no such target, or a disabled table) and nothing has changed. *)
Theorem match_entry_status `{E : Env} node msg w code r w' :
  match_entry node msg w = Ok (code, r) w' ->
  match r with
  | Some _ => code = PTL_NI_OK
  | None => (code = PTL_NI_TARGET_INVALID \/ code = PTL_NI_PT_DISABLED) /\ w' = w
  end.
Proof. intros (nis & h & H)%match_entry_inv. by apply match_in_nis_status in H. Qed.
