(* ===== verification/Waiting.v ===== *)
(** Theorems about the waiters of a counter ([Counters.v]) and about the FIFO
    order of queues and of resumed messages ([Queue.v], [Node.v]). *)
From S2P Require Import Prelude Portals World Logic Engine Queue Messages Node Counters.

(** ** Waking waiters up *)

(** The calls that wake one waiter up. *)
Definition wake_calls (a : ActorWaitingCT) : list simcall :=
  if negb (wct_actor a =? NULL)%N then [ActorResume (wct_actor a)]
  else match wct_mailbox a with
       | Some mb => [CommWait (CommPut mb (PBool true) 0); SetReceiver mb false]
       | None => []
       end.

(** A waiter that can be woken up: an actor, or a mailbox. *)
Definition wakeable (a : ActorWaitingCT) : Prop :=
  wct_actor a <> NULL \/ is_Some (wct_mailbox a).

Section OnUpdate.
Context `{E : Env, !Quiet E}.

Lemma sim_quiet c w : sim c w = Ok tt (w <| w_trace ::= cons c |>).
Proof. unfold sim. by rewrite quiet. Qed.

Lemma wake_up_spec a w :
  wakeable a -> exists w', wake_up a w = Ok tt w' /\
    w_cts w' = w_cts w /\ w_trace w' = rev (wake_calls a) ++ w_trace w.
Proof.
  intros Ha. unfold wake_up, wake_calls.
  destruct (N.eqb_spec (wct_actor a) NULL) as [Hn|Hn]; cbn [negb].
  - destruct Ha as [|[mb Hmb]]; [done|]. rewrite Hmb. unfold free_random_mailbox.
    rewrite (bind_run _ _ _ tt _ (sim_quiet _ _)), (bind_run _ _ _ tt _ (sim_quiet _ _)).
    eexists. split; [reflexivity|done].
  - rewrite sim_quiet. eexists. split; [reflexivity|done].
Qed.

(** The loop, from an index below which nothing has to be woken up. *)
Lemma on_update_fuel_spec fuel ct i c w :
  w_cts w !! ct = Some c -> Forall wakeable (ct_waiting c) ->
  (length (ct_waiting c) - i < fuel)%nat -> (i <= length (ct_waiting c))%nat ->
  exists w' c', on_update_fuel fuel ct i w = Ok tt w' /\ w_cts w' !! ct = Some c' /\
    ct_event c' = ct_event c /\
    ct_waiting c' = take i (ct_waiting c)
      ++ filter (fun a => wakes (ct_event c) a = false) (drop i (ct_waiting c)) /\
    w_trace w' = rev (mbind wake_calls
                   (filter (fun a => wakes (ct_event c) a = true) (drop i (ct_waiting c))))
                 ++ w_trace w.
Proof.
  revert i c w. induction fuel as [|fuel IH]; intros i c w Hc Hw Hf Hi; [lia|].
  cbn [on_update_fuel]. step_load. case_decide as Hend.
  { exists w, c. rewrite drop_ge, take_ge by lia. cbn. rewrite app_nil_r. done. }
  destruct (lookup_lt_is_Some_2 (ct_waiting c) i) as [a Ha]; [lia|].
  rewrite Ha. rewrite (bind_run _ _ w a w) by done.
  rewrite (drop_S _ _ _ Ha), !filter_cons.
  destruct (wakes (ct_event c) a) eqn:Hwk.
  - rewrite decide_False, decide_True by done. step_update.
    set (w1 := on_objects _ _). set (l := take i (ct_waiting c) ++ drop (S i) (ct_waiting c)).
    assert (wakeable a) as Haw by by eapply Forall_lookup_1.
    destruct (wake_up_spec a w1 Haw) as (w2 & E2 & C2 & T2).
    rewrite (bind_run _ _ _ _ _ E2).
    assert (w_cts w2 !! ct = Some (c <| ct_waiting := l |>)) as Hc2.
    { rewrite C2. unfold w1. cbn. apply lookup_insert_eq. }
    assert (length l = pred (length (ct_waiting c))) as Hl.
    { unfold l. rewrite length_app, length_take, length_drop. lia. }
    assert (i = length (take i (ct_waiting c))) as Hti by (rewrite length_take; lia).
    destruct (IH i _ _ Hc2) as (w' & c' & Hrun & Hc' & He & Hwt & Ht); cbn.
    + unfold l. apply Forall_app. split; [by apply Forall_take|by apply Forall_drop].
    + lia.
    + lia.
    + exists w', c'. split_and!; [done|done|done| |].
      * rewrite Hwt. cbn. unfold l. by rewrite take_app_length', drop_app_length'.
      * rewrite Ht, T2. cbn. unfold l. rewrite drop_app_length' by done.
        by rewrite rev_app_distr, <- app_assoc.
  - rewrite decide_True, decide_False by done.
    destruct (IH (S i) c w Hc Hw) as (w' & c' & Hrun & Hc' & He & Hwt & Ht); [lia|lia|].
    exists w', c'. split_and!; try done.
    rewrite Hwt, (take_S_r _ _ _ Ha), <- app_assoc. done.
Qed.

(** Updating a counter wakes up, in the order they came, exactly the waiters whose test equals
    the success count, or all of them when the failure count is not zero; the others stay, in
    their order. *)
Theorem on_update_wakes ct c w :
  w_cts w !! ct = Some c -> Forall wakeable (ct_waiting c) ->
  (length (ct_waiting c) < env_fuel)%nat ->
  exists w' c', on_update ct w = Ok tt w' /\ w_cts w' !! ct = Some c' /\
    ct_event c' = ct_event c /\
    ct_waiting c' = filter (fun a => wakes (ct_event c) a = false) (ct_waiting c) /\
    w_trace w' = rev (mbind wake_calls
                   (filter (fun a => wakes (ct_event c) a = true) (ct_waiting c)))
                 ++ w_trace w.
Proof.
  intros Hc Hw Hf. unfold on_update.
  destruct (on_update_fuel_spec env_fuel ct 0 c w Hc Hw) as (w' & c' & H); [lia|lia|].
  exists w', c'. by rewrite drop_0 in H.
Qed.

Lemma stays_in_filter {A} (p : A -> bool) (x : A) (l : list A) :
  x ∈ l -> p x = false -> x ∈ filter (fun y => p y = false) l.
Proof. intros. by apply list_elem_of_filter. Qed.

(** A counter that goes past a test without stopping at it does not wake its waiter: an
    increment that jumps from below [wct_test a] to above it leaves [a] in the list, although
    [BxiCT_wait] with the same test would not wait any more. *)
Theorem increment_past_test_not_woken ct c a amount w :
  w_cts w !! ct = Some c -> Forall wakeable (ct_waiting c) -> a ∈ ct_waiting c ->
  (length (ct_waiting c) < env_fuel)%nat ->
  ct_failure (ct_event c) = 0 -> 0 <= ct_success (ct_event c) < wct_test a ->
  wct_test a < ct_success (ct_event c) + amount < 2 ^ 64 ->
  exists w' c', increment_success ct amount w = Ok tt w' /\ w_cts w' !! ct = Some c' /\
    a ∈ ct_waiting c' /\ wct_test a < ct_success (ct_event c') /\
    exists w2, BxiCT_wait ct (wct_test a) w' = Ok (PTL_OK, ct_event c') w2 /\ w2 = w'.
Proof.
  intros Hc Hw Ha Hf Hfail Hlt Hjump. unfold increment_success. step_update.
  set (w1 := on_objects _ _). set (c1 := c <| ct_event := mk_ct_event (add64 (ct_success (ct_event c)) amount)
                                 (ct_failure (ct_event c)) |>).
  assert (w_cts w1 !! ct = Some c1) as Hc1 by apply lookup_insert_eq.
  destruct (on_update_fuel_spec env_fuel ct 0 c1 w1 Hc1 Hw)
    as (w' & c' & Hrun & Hc' & He & Hwt & _); [cbn; lia|lia|].
  assert (ct_success (ct_event c1) = ct_success (ct_event c) + amount) as Hs.
  { apply wrap_small. lia. }
  exists w', c'. split_and!; [done|done| | |].
  - rewrite Hwt, drop_0. apply stays_in_filter; [done|]. unfold wakes.
    rewrite Hs. cbn. rewrite Hfail, orb_false_r. apply Z.eqb_neq. lia.
  - rewrite He, Hs. lia.
  - unfold BxiCT_wait. eexists. split; [|done].
    rewrite (bind_run _ _ w' (env_self w') w') by done. step_load.
    rewrite He, (proj2 (Z.ltb_ge (ct_success (ct_event c1)) (wct_test a))) by lia. cbn [andb].
    rewrite (bind_run _ _ w' tt w') by done. step_load. by rewrite He.
Qed.
End OnUpdate.

(** ** Queues *)

(** What actors do with a queue: put a message, get the message [m]. *)
Inductive queue_op := OpPut (m : handle) | OpGet (m : handle).

(** The queue that is promised: [fifo t l l'] when the operations [t], of any actors, lead from the
    contents [l] to [l']. *)
Inductive fifo : list queue_op -> list handle -> list handle -> Prop :=
| fifo_nil l : fifo [] l l
| fifo_put m t l l' : fifo t (l ++ [m]) l' -> fifo (OpPut m :: t) l l'
| fifo_get m t l l' : fifo t l l' -> fifo (OpGet m :: t) (m :: l) l'.

Definition put_messages (t : list queue_op) : list handle :=
  omap (fun o => match o with OpPut m => Some m | OpGet _ => None end) t.
Definition got_messages (t : list queue_op) : list handle :=
  omap (fun o => match o with OpGet m => Some m | OpPut _ => None end) t.

(** What comes out, whoever gets it, is what was there and then what was put, in that order. *)
Lemma fifo_order t l l' : fifo t l l' -> l ++ put_messages t = got_messages t ++ l'.
Proof.
  induction 1 as [l|m t l l' _ IH|m t l l' _ IH].
  - apply app_nil_r.
  - change (l ++ m :: put_messages t = got_messages t ++ l'). by rewrite <- IH, <- app_assoc.
  - cbn. f_equal. exact IH.
Qed.

Lemma fifo_app t1 t2 l1 l2 l3 : fifo t1 l1 l2 -> fifo t2 l2 l3 -> fifo (t1 ++ t2) l1 l3.
Proof. induction 1; intros; cbn; [done|constructor; auto..]. Qed.

(** The queue [q], when it is not a mailbox of SimGrid, holds [l]. *)
Definition holds (q : handle) (w : World) (l : list handle) : Prop :=
  exists qu, w_queues w !! q = Some qu /\ q_mailbox qu = None /\ q_to_process qu = l.

(** The other actors use the queue [q] only by its operations, and an actor that acquires its
    semaphore goes on when there is a message for it. *)
Class Shares (q : handle) (E : Env) := {
  shares : forall c w l, holds q w l -> exists t l', holds q (env_step c w) l' /\ fifo t l l';
  guards : forall w, ~ holds q (env_step (SemAcquire (SemQueue q)) w) [] }.

(** The calls that one actor makes, and what it does with them. *)
Inductive queue_call := CallPut (m : handle) (size : Z) (async : bool) | CallGet.

Fixpoint queue_calls `{Env} (q : handle) (calls : list queue_call) : SM (list queue_op) :=
  match calls with
  | [] => mret []
  | CallPut m size async :: calls' =>
      _ ← BxiQueue_put q m size async;
      own ← queue_calls q calls';
      mret (OpPut m :: own)
  | CallGet :: calls' =>
      m ← BxiQueue_get q;
      own ← queue_calls q calls';
      mret (OpGet m :: own)
  end.

Definition does (c : queue_call) (o : queue_op) : Prop :=
  match c, o with
  | CallPut m _ _, OpPut m' => m' = m
  | CallGet, OpGet _ => True
  | _, _ => False
  end.

Section Shared.
Context `{E : Env} (q : handle) `{!Shares q E}.

Lemma BxiQueue_put_shared m size async l w :
  holds q w l -> exists w' t l', BxiQueue_put q m size async w = Ok tt w' /\ holds q w' l' /\
    fifo (OpPut m :: t) l l'.
Proof.
  intros (qu & Hq & Hmb & Hl). unfold BxiQueue_put. step_load. rewrite Hmb. step_update.
  set (w1 := on_objects _ w).
  set (w2 := w1 <| w_trace ::= cons (SemRelease (SemQueue q)) |>).
  assert (holds q w2 (l ++ [m])) as H2.
  { eexists. split; [apply lookup_insert_eq|]. split; [done|]. cbn. by rewrite Hl. }
  destruct (shares (SemRelease (SemQueue q)) _ _ H2) as (t & l' & H3 & Ht).
  eexists _, t, l'. split; [reflexivity|]. split; [exact H3|by constructor].
Qed.

Lemma BxiQueue_get_shared l w :
  holds q w l -> exists m w' t l', BxiQueue_get q w = Ok m w' /\ holds q w' l' /\
    fifo (t ++ [OpGet m]) l l'.
Proof.
  intros H. pose proof H as (qu & Hq & Hmb & Hl). unfold BxiQueue_get. step_load. rewrite Hmb.
  set (w1 := w <| w_trace ::= cons (SemAcquire (SemQueue q)) |>).
  assert (holds q w1 l) as H1 by exact H.
  destruct (shares (SemAcquire (SemQueue q)) _ _ H1) as (t & l1 & H2 & Ht).
  rewrite (bind_run (sim (SemAcquire (SemQueue q))) _ w tt _ eq_refl). fold w1.
  destruct l1 as [|m l1]; [by apply guards in H2|].
  destruct H2 as (qu2 & Hq2 & Hmb2 & Hl2). step_load. rewrite Hl2. step_update.
  eexists m, _, t, l1. split; [reflexivity|]. split.
  - eexists. split; [apply lookup_insert_eq|]. by split.
  - eapply fifo_app; [exact Ht|]. repeat constructor.
Qed.

Lemma queue_calls_shared calls l w :
  holds q w l ->
  exists own w' t l', queue_calls q calls w = Ok own w' /\ Forall2 does calls own /\
    mixed (fun _ => True) own t /\ fifo t l l' /\ holds q w' l'.
Proof.
  revert l w. induction calls as [|[m size async|] calls IH]; intros l w H; cbn [queue_calls].
  - exists [], w, [], l. split_and!; by repeat constructor.
  - destruct (BxiQueue_put_shared m size async l w H) as (w1 & t1 & l1 & H1 & Hh & F1).
    destruct (IH l1 w1 Hh) as (own & w' & t & l' & Hr & Hd & Hm & Hf & Hh').
    exists (OpPut m :: own), w', ((OpPut m :: t1) ++ t), l'.
    rewrite (bind_run _ _ _ _ _ H1), (bind_run _ _ _ _ _ Hr).
    split_and!; [done|by constructor| |by eapply fifo_app|done].
    constructor. by apply mixed_others_l.
  - destruct (BxiQueue_get_shared l w H) as (m & w1 & t1 & l1 & H1 & Hh & F1).
    destruct (IH l1 w1 Hh) as (own & w' & t & l' & Hr & Hd & Hm & Hf & Hh').
    exists (OpGet m :: own), w', ((t1 ++ [OpGet m]) ++ t), l'.
    rewrite (bind_run _ _ _ _ _ H1), (bind_run _ _ _ _ _ Hr).
    split_and!; [done|by constructor| |by eapply fifo_app|done].
    rewrite <- app_assoc. apply mixed_others_l; [done|]. by constructor.
Qed.

End Shared.

Section Fifo.
Context `{E : Env, !Quiet E}.

Lemma BxiQueue_put_local q m size async qu w :
  w_queues w !! q = Some qu -> q_mailbox qu = None ->
  BxiQueue_put q m size async w =
    Ok tt (w <| w_queues ::= <[q := qu <| q_to_process ::= fun l => l ++ [m] |>]> |>
             <| w_trace ::= cons (SemRelease (SemQueue q)) |>).
Proof.
  intros Hq Hmb. unfold BxiQueue_put. step_load. rewrite Hmb. step_update. by rewrite sim_quiet.
Qed.

Lemma BxiQueue_get_local q m rest qu w :
  w_queues w !! q = Some qu -> q_mailbox qu = None -> q_to_process qu = m :: rest ->
  BxiQueue_get q w =
    Ok m (w <| w_trace ::= cons (SemAcquire (SemQueue q)) |>
            <| w_queues ::= <[q := qu <| q_to_process := rest |>]> |>).
Proof.
  intros Hq Hmb Hl. unfold BxiQueue_get. step_load. rewrite Hmb.
  rewrite (bind_run _ _ _ tt _ (sim_quiet _ _)).
  set (w1 := over w_trace _ _). assert (w_queues w1 !! q = Some qu) as Hq1 by done.
  step_load. rewrite Hl. by step_update.
Qed.

(** ** Messages waiting for a credit *)

(** When a credit comes back, every message that waits for the network is handed to its
    transmission queue again, oldest first, and none waits any more. *)
Theorem resume_hands_over_in_order node n vn q qu w :
  w_nodes w !! node = Some n -> nd_tx_queues n !! vn = Some q ->
  w_queues w !! q = Some qu -> q_mailbox qu = None ->
  let waiting := default [] (nd_flowctrl_waiting_messages n !! vn) in
  (length waiting < env_fuel)%nat ->
  exists w' n', resume_waiting_tx_actors node vn w = Ok tt w' /\
    w_queues w' !! q = Some (qu <| q_to_process ::= fun l => l ++ waiting |>) /\
    w_nodes w' !! node = Some n' /\
    default [] (nd_flowctrl_waiting_messages n' !! vn) = [].
Proof.
  cbv zeta. unfold resume_waiting_tx_actors. generalize (@env_fuel E). intros fuel.
  revert n qu w. induction fuel as [|fuel IH]; intros n qu w Hn Hq Hqu Hmb Hf; [lia|].
  cbn [resume_fuel]. step_load.
  destruct (nd_flowctrl_waiting_messages n !! vn) as [[|m l]|] eqn:Hw; cbn [from_option id] in *.
  - exists w, n. split_and!; [done| |done|by rewrite Hw].
    rewrite Hqu. destruct qu. unfold over. cbn. by rewrite app_nil_r.
  - rewrite Hq. rewrite (bind_run _ _ w q w) by done.
    rewrite (bind_run _ _ _ _ _ (BxiQueue_put_local q m 0 true qu w Hqu Hmb)).
    set (w1 := over w_trace _ _). assert (w_nodes w1 !! node = Some n) as Hn1 by done.
    step_update. set (n2 := n <| nd_flowctrl_waiting_messages ::= alter tail vn |>).
    assert (nd_flowctrl_waiting_messages n2 !! vn = Some l) as Hw2.
    { unfold n2. cbn. by rewrite lookup_alter_eq, Hw. }
    destruct (IH n2 (qu <| q_to_process ::= fun l => l ++ [m] |>)
      (on_objects <[node := n2]> w1)) as (w' & n' & Hrun & Hq' & Hn' & Hl).
    + apply lookup_insert_eq.
    + done.
    + apply lookup_insert_eq.
    + done.
    + rewrite Hw2. cbn in *. lia.
    + exists w', n'. split_and!; [done| |done|done]. rewrite Hq', Hw2. cbn. unfold over. cbn.
      by rewrite <- app_assoc.
  - exists w, n. split_and!; [done| |done|by rewrite Hw].
    rewrite Hqu. destruct qu. unfold over. cbn. by rewrite app_nil_r.
Qed.
End Fifo.
