(* ===== verification/Reliability.v ===== *)
(** Theorems about reference counts ([Messages.v]) and end-to-end reliability
    ([E2E.v] and the acknowledgements of [Target.v]). *)
From S2P Require Import Prelude Portals World Logic Engine Queue Messages Node Counters Entries.
From S2P Require Import E2E Atomics NicActor Initiator Target FlowControl Progress Waiting.

(** ** Reference counts *)

(** A message answers an older one: what the copy constructor and the handlers build. *)
Definition answers_older (w : World) : Prop := forall h x,
  w_msgs w !! h = Some x -> ms_answers_msg x = NULL \/ (ms_answers_msg x < h)%N.

Lemma answers_older_sub w w' :
  (forall h x', w_msgs w' !! h = Some x' ->
     exists x, w_msgs w !! h = Some x /\ ms_answers_msg x' = ms_answers_msg x) ->
  answers_older w -> answers_older w'.
Proof. intros Hs Ho h x' (x & Hx & ->)%Hs. eauto. Qed.

Section Unref.
Context `{E : Env}.

Lemma release_parent_request_fuel r w : release_parent_request r w <> Fail OutOfFuel.
Proof.
  unfold release_parent_request, update, load, when, free. cbv [mbind M_bind mret M_ret].
  repeat (case_match; try done); congruence.
Qed.

Lemma unref_fuel_enough k msg w :
  answers_older w -> (N.to_nat msg < k)%nat -> unref_fuel k msg w <> Fail OutOfFuel.
Proof.
  revert msg w. induction k as [|k IH]; intros msg w Ho Hk; [lia|]. cbn [unref_fuel].
  destruct (w_msgs w !! msg) as [x|] eqn:Hx.
  2:{ unfold update. cbv [mbind M_bind]. cbn. by rewrite Hx. }
  step_update. set (w1 := on_objects _ w). set (x1 := x <| ms_ref_count ::= fun c => u32 (c - 1) |>).
  assert (w_msgs w1 !! msg = Some x1) as Hx1 by apply lookup_insert_eq.
  assert (answers_older w1) as Ho1.
  { eapply answers_older_sub; [|exact Ho]. intros h x'. cbn.
    destruct (decide (h = msg)) as [->|].
    - rewrite lookup_insert_eq. intros [= <-]. by exists x.
    - rewrite lookup_insert_ne by done. eauto. }
  step_load. destruct (ms_ref_count x1 =? 0); [|done].
  unfold destroy_msg. step_load. cbn [ms_answers_msg].
  assert (forall w2, (_ ← release_parent_request (ms_parent_request x1); free (T := BxiMsg) msg) w2
    <> Fail OutOfFuel) as Hrest.
  { intros w2 H. cbv [mbind M_bind] in H. destruct (release_parent_request _ w2) eqn:Hr.
    - unfold free in H. by case_match.
    - injection H as ->. by apply release_parent_request_fuel in Hr. }
  destruct (N.eqb_spec (ms_answers_msg x1) NULL) as [|Hne]; [apply Hrest|].
  intros H. cbv [mbind M_bind] in H.
  destruct (unref_fuel k (ms_answers_msg x1) w1) as [u w2|e] eqn:Hu.
  - by apply (Hrest w2).
  - injection H as ->. apply (IH _ _ Ho1) in Hu; [done|].
    destruct (Ho1 _ _ Hx1) as [|Hlt]; [done|]. lia.
Qed.

(** Dropping a reference terminates: the chain of messages that answer one another is
    followed to its end, however long, because each answers an older one. *)
Theorem unref_terminates msg w : answers_older w -> unref msg w <> Fail OutOfFuel.
Proof. intros Ho. apply unref_fuel_enough; [done|lia]. Qed.

Lemma release_parent_request_eq r q w :
  w_reqs w !! r = Some q -> 1 <= rq_msg_ref_count q < 2 ^ 32 ->
  release_parent_request r w = Ok tt
    (if rq_msg_ref_count q =? 1 then w <| w_reqs ::= delete r |>
     else w <| w_reqs ::= <[r := q <| rq_msg_ref_count := rq_msg_ref_count q - 1 |>]> |>).
Proof.
  intros Hq Hc. unfold release_parent_request. step_update.
  set (q1 := over rq_msg_ref_count _ q). set (w1 := on_objects _ w).
  assert (rq_msg_ref_count q1 = rq_msg_ref_count q - 1) as Hc1 by (apply wrap_small; lia).
  assert (w_reqs w1 !! r = Some q1) as Hq1 by apply lookup_insert_eq. step_load.
  assert (q1 = q <| rq_msg_ref_count := rq_msg_ref_count q - 1 |>) as Eq.
  { unfold q1, over. by rewrite wrap_small by lia. }
  rewrite Hc1. destruct (Z.eqb_spec (rq_msg_ref_count q) 1) as [E1|E1].
  - rewrite (proj2 (Z.eqb_eq _ _)) by lia. cbn [when]. unfold free. cbn [objects store_Request].
    rewrite Hq1. f_equal. unfold w1, over. cbn. unfold over. cbn. f_equal. by rewrite delete_insert_eq.
  - rewrite (proj2 (Z.eqb_neq _ _)) by lia. cbn [when]. unfold w1. by rewrite Eq.
Qed.

(** The messages that dropping a reference to [msg] frees, in the order of the answers: those that
    have no other reference, up to the end of the chain or to a message that is still used. *)
Inductive chain (w : World) : handle -> list (handle * BxiMsg) -> option (handle * BxiMsg) -> Prop :=
| chain_used h x :
    w_msgs w !! h = Some x -> 1 < ms_ref_count x < 2 ^ 32 -> chain w h [] (Some (h, x))
| chain_end h x :
    w_msgs w !! h = Some x -> ms_ref_count x = 1 -> ms_answers_msg x = NULL -> chain w h [(h, x)] None
| chain_answer h x l o :
    w_msgs w !! h = Some x -> ms_ref_count x = 1 -> ms_answers_msg x <> NULL ->
    chain w (ms_answers_msg x) l o -> chain w h ((h, x) :: l) o.

(** How many of the messages [l] belong to the request [r]. *)
Definition owed (l : list (handle * BxiMsg)) (r : handle) : Z :=
  Z.of_nat (length (filter (fun p => ms_parent_request (snd p) = r) l)).

(** Their requests are there, and count them. *)
Definition counted (w : World) (l : list (handle * BxiMsg)) : Prop := forall r, owed l r <> 0 ->
  exists q, w_reqs w !! r = Some q /\ owed l r <= rq_msg_ref_count q < 2 ^ 32.

(** What is left when the messages [l] are freed and the message [o] is used once less. *)
Definition msg_left (w : World) (l : list (handle * BxiMsg)) (o : option (handle * BxiMsg)) (h : handle)
    : option BxiMsg :=
  if decide (h ∈ l.*1) then None else
  match o with
  | Some (h', x) =>
      if decide (h = h') then Some (x <| ms_ref_count := ms_ref_count x - 1 |>) else w_msgs w !! h
  | None => w_msgs w !! h
  end.
Definition req_left (w : World) (l : list (handle * BxiMsg)) (r : handle) : option BxiRequest :=
  q ← w_reqs w !! r;
  if owed l r =? 0 then Some q
  else if rq_msg_ref_count q =? owed l r then None
  else Some (q <| rq_msg_ref_count := rq_msg_ref_count q - owed l r |>).
Record freed (w : World) (l : list (handle * BxiMsg)) (o : option (handle * BxiMsg)) (w' : World)
    : Prop := {
  fr_msgs : forall h, w_msgs w' !! h = msg_left w l o h;
  fr_reqs : forall r, w_reqs w' !! r = req_left w l r;
  fr_rest : w' <| w_msgs := w_msgs w |> <| w_reqs := w_reqs w |> = w }.

Lemma owed_cons h x l r :
  owed ((h, x) :: l) r = (if decide (ms_parent_request x = r) then 1 else 0) + owed l r.
Proof. unfold owed. rewrite filter_cons. cbn [snd]. case_decide; cbn [length]; lia. Qed.
Lemma owed_nonneg l r : 0 <= owed l r.
Proof. unfold owed. lia. Qed.

Lemma chain_older w h l o : answers_older w -> chain w h l o ->
  (forall p, p ∈ l -> (fst p <= h)%N) /\ (forall p, o = Some p -> (fst p <= h)%N).
Proof.
  intros Ho. induction 1 as [h x|h x|h x l o Hx _ Hne _ [IH1 IH2]].
  - split; [by intros p ?%elem_of_nil|]. intros p [= <-]. cbn. lia.
  - split; [|done]. intros p [-> | ?%elem_of_nil]%elem_of_cons; [cbn; lia|done].
  - destruct (Ho _ _ Hx) as [|Hlt]; [done|]. split.
    + intros p [-> | Hp%IH1]%elem_of_cons; cbn; lia.
    + intros p Hp%IH2. lia.
Qed.

(** Changing a message that is newer than those of a chain does not change the chain. *)
Lemma chain_newer w msg y h l o : answers_older w -> (h < msg)%N -> chain w h l o ->
  chain (w <| w_msgs ::= <[msg := y]> |>) h l o.
Proof.
  intros Ho Hlt Hc. induction Hc as [h x Hx|h x Hx|h x l o Hx Hc1 Hne Hc IH].
  - apply chain_used; [cbn; rewrite lookup_insert_ne by lia|]; done.
  - apply chain_end; [cbn; rewrite lookup_insert_ne by lia|..]; done.
  - destruct (Ho _ _ Hx) as [|Hl]; [done|].
    apply chain_answer; [cbn; rewrite lookup_insert_ne by lia; done|done|done|]. apply IH. lia.
Qed.

Lemma release_left w r q k :
  w_reqs w !! r = Some q -> 0 <= k -> k + 1 <= rq_msg_ref_count q < 2 ^ 32 ->
  forall w2, w_reqs w2 !! r = (if k =? 0 then Some q
                              else if rq_msg_ref_count q =? k then None
                              else Some (q <| rq_msg_ref_count := rq_msg_ref_count q - k |>)) ->
  exists w3, release_parent_request r w2 = Ok tt w3 /\
    w3 <| w_reqs := w_reqs w2 |> = w2 /\
    (forall r', r' <> r -> w_reqs w3 !! r' = w_reqs w2 !! r') /\
    w_reqs w3 !! r = (if rq_msg_ref_count q =? 1 + k then None
                      else Some (q <| rq_msg_ref_count := rq_msg_ref_count q - (1 + k) |>)).
Proof.
  intros Hq Hk Hc w2 H2. rewrite (proj2 (Z.eqb_neq (rq_msg_ref_count q) k)) in H2 by lia.
  set (q2 := q <| rq_msg_ref_count := rq_msg_ref_count q - k |>).
  assert (w_reqs w2 !! r = Some q2) as Hq2.
  { rewrite H2. destruct (Z.eqb_spec k 0) as [->|]; [|done]. unfold q2, over. rewrite Z.sub_0_r.
    by destruct q. }
  assert (rq_msg_ref_count q2 = rq_msg_ref_count q - k) as E2 by done.
  rewrite (release_parent_request_eq r q2 w2 Hq2) by lia. rewrite E2.
  destruct (Z.eqb_spec (rq_msg_ref_count q - k) 1) as [Ek|Ek]; (eexists; split; [done|]).
  - rewrite (proj2 (Z.eqb_eq (rq_msg_ref_count q) _)) by lia. split; [by destruct w2|]. split.
    + intros r' Hr. cbn. by rewrite lookup_delete_ne.
    + cbn. by rewrite lookup_delete_eq.
  - rewrite (proj2 (Z.eqb_neq (rq_msg_ref_count q) _)) by lia. split; [by destruct w2|]. split.
    + intros r' Hr. cbn. by rewrite lookup_insert_ne.
    + cbn. rewrite lookup_insert_eq. unfold q2, over. cbn. do 2 f_equal. lia.
Qed.

(** The end of the destruction of a message, when the messages [l] it answers are already freed. *)
Lemma free_head w h x y l o w2 :
  w_msgs w !! h = Some x -> h ∉ l.*1 -> (forall p, o = Some p -> fst p <> h) ->
  freed (w <| w_msgs ::= <[h := y]> |>) l o w2 -> counted w ((h, x) :: l) ->
  exists w', (_ ← release_parent_request (ms_parent_request x); free (T := BxiMsg) h) w2 = Ok tt w' /\
    freed w ((h, x) :: l) o w'.
Proof.
  intros Hx Hl Ho [FM FR FT] Hc.
  assert (owed ((h, x) :: l) (ms_parent_request x) = 1 + owed l (ms_parent_request x)) as Hn
    by (rewrite owed_cons; by rewrite decide_True).
  pose proof (owed_nonneg l (ms_parent_request x)) as Hn0.
  destruct (Hc (ms_parent_request x)) as (q & Hq & Hqc); [lia|]. rewrite Hn in Hqc.
  destruct (release_left w _ q (owed l (ms_parent_request x)) Hq ltac:(lia) ltac:(lia) w2)
    as (w3 & H3 & R3 & O3 & Q3).
  { rewrite FR. unfold req_left. cbn. by rewrite Hq. }
  rewrite (bind_run _ _ _ _ _ H3).
  assert (w_msgs w3 = w_msgs w2) as M3 by (rewrite <- R3; done).
  assert (w_msgs w2 !! h = Some y) as Hy.
  { rewrite FM. unfold msg_left. rewrite decide_False by done. cbn.
    destruct o as [[h' x']|]; [rewrite decide_False|]; try apply lookup_insert_eq.
    intros ->. by apply (Ho _ eq_refl). }
  unfold free. cbn [objects on_objects store_Msg]. rewrite M3, Hy. eexists. split; [done|]. split.
  - intros h'. cbn. rewrite M3. unfold msg_left. destruct (decide (h' = h)) as [->|Hne].
    + rewrite lookup_delete_eq, decide_True; [done|]. cbn. set_solver.
    + rewrite lookup_delete_ne, FM by done. unfold msg_left. cbn.
      rewrite !lookup_insert_ne by done.
      destruct (decide (h' ∈ l.*1)); [rewrite decide_True; [done|set_solver]|].
      rewrite decide_False by set_solver. done.
  - intros r. cbn. unfold req_left. rewrite owed_cons. cbn.
    destruct (decide (ms_parent_request x = r)) as [<-|Hne].
    + rewrite Q3, Hq. cbn [option_bind mbind].
      by rewrite (proj2 (Z.eqb_neq (1 + owed l (ms_parent_request x)) 0)) by lia.
    + rewrite O3, FR by done. done.
  - destruct w, w2, w3. cbn in FT, R3 |- *. injection R3. injection FT.
    intros. by subst.
Qed.

Lemma freed_nothing w h x :
  w_msgs w !! h = Some x ->
  freed w [] (Some (h, x)) (w <| w_msgs ::= <[h := x <| ms_ref_count := ms_ref_count x - 1 |>]> |>).
Proof.
  intros Hx. split.
  - intros h'. unfold msg_left. rewrite decide_False by (cbn; set_solver). cbn.
    destruct (decide (h' = h)) as [->|]; [by rewrite lookup_insert_eq|by rewrite lookup_insert_ne].
  - intros r. unfold req_left. cbn. by destruct (w_reqs w !! r).
  - by destruct w.
Qed.
Lemma freed_refl w : freed w [] None w.
Proof.
  split; [done| |by destruct w]. intros r. unfold req_left. by destruct (w_reqs w !! r).
Qed.

Lemma unref_fuel_frees k msg l o w :
  answers_older w -> chain w msg l o -> counted w l -> (N.to_nat msg < k)%nat ->
  exists w', unref_fuel k msg w = Ok tt w' /\ freed w l o w'.
Proof.
  revert msg l o w. induction k as [|k IH]; intros msg l o w Ho Hc Hn Hk; [lia|]. cbn [unref_fuel].
  assert (exists x, w_msgs w !! msg = Some x /\ 1 <= ms_ref_count x < 2 ^ 32) as (x & Hx & Hr).
  { destruct Hc; eexists; (split; [done|]); lia. }
  step_update. set (w1 := on_objects _ w). set (x1 := over ms_ref_count _ x) in w1.
  assert (w_msgs w1 !! msg = Some x1) as Hx1 by apply lookup_insert_eq. step_load.
  assert (x1 = x <| ms_ref_count := ms_ref_count x - 1 |>) as Ex1.
  { unfold x1, over. by rewrite wrap_small by lia. }
  rewrite Ex1. cbn [ms_ref_count]. unfold over at 1. cbn [ms_ref_count].
  inversion Hc as [h y Hy Hy1|h y Hy Hy1 Hy2|h y l' o' Hy Hy1 Hy2 Hc']; subst;
    rewrite Hx in Hy; injection Hy as <-.
  - rewrite (proj2 (Z.eqb_neq _ _)) by lia. eexists. split; [done|]. unfold w1. rewrite Ex1.
    by apply freed_nothing.
  - rewrite (proj2 (Z.eqb_eq _ _)) by lia. unfold destroy_msg. step_load. rewrite Ex1.
    cbn [ms_answers_msg ms_parent_request]. unfold over. cbn [ms_answers_msg ms_parent_request].
    rewrite Hy2. cbn [N.eqb NULL]. rewrite (bind_run _ _ w1 tt w1) by done.
    apply (free_head w msg x x1 [] None w1 Hx); [set_solver|done|apply freed_refl|done].
  - rewrite (proj2 (Z.eqb_eq _ _)) by lia. unfold destroy_msg. step_load. rewrite Ex1.
    cbn [ms_answers_msg ms_parent_request]. unfold over. cbn [ms_answers_msg ms_parent_request].
    rewrite (proj2 (N.eqb_neq _ _)) by done.
    destruct (Ho _ _ Hx) as [|Hlt]; [done|].
    destruct (chain_older w _ _ _ Ho Hc') as [Hol Hoo].
    assert (answers_older w1) as Ho1.
    { eapply answers_older_sub; [|exact Ho]. intros h z. cbn. destruct (decide (h = msg)) as [->|].
      - rewrite lookup_insert_eq. intros [= <-]. exists x. split; [done|]. by rewrite Ex1.
      - rewrite lookup_insert_ne by done. eauto. }
    assert (counted w1 l') as Hn1.
    { intros r Hrn. destruct (Hn r) as (q & Hq & Hqc); rewrite owed_cons in *;
        pose proof (owed_nonneg l' r); [case_decide; lia|]. exists q. split; [done|].
      case_decide; lia. }
    destruct (IH (ms_answers_msg x) l' o w1 Ho1) as (w2 & H2 & F2);
      [by apply chain_newer|done|lia|].
    rewrite (bind_run _ _ _ _ _ H2).
    apply (free_head w msg x x1 l' o w2 Hx); [| |exact F2|done].
    + intros ([h z] & -> & Hin)%list_elem_of_fmap. apply Hol in Hin. cbn in *. lia.
    + intros p Hp%Hoo. lia.
Qed.

(** C20. Reference counting of messages and requests: dropping a reference that is not the last only
    counts it; dropping the last one frees the message and drops its reference to the message it
    answers, and so on along the chain of answers, down to a message that is still used.  Each freed
    message drops one reference of its request, and a request is freed with the last of its messages,
    not before; no other message, no other request, nothing else of the world changes. *)
Theorem unref_counts msg l o w :
  answers_older w -> chain w msg l o -> counted w l ->
  exists w', unref msg w = Ok tt w' /\ freed w l o w'.
Proof. intros. apply unref_fuel_frees; [done..|lia]. Qed.
End Unref.

(** ** What happens when the timeout of a message has elapsed *)

(** The state of a request that makes retransmitting a message of type [t] useless. *)
Definition done_state (t : bxi_msg_type) : bxi_req_process_state :=
  match t with S4BXI_PTL_ACK => S4BXI_REQ_FINISHED | _ => S4BXI_REQ_ANSWERED end.

Section Expire.
Context `{E : Env} (e2e msg : handle) (a : BxiNicE2E) (n : BxiNode) (x : BxiMsg) (q : BxiRequest).

(** The actor gives up: the node only counts it. *)
Definition gave_up (w : World) : World :=
  w <| w_nodes ::= <[e2e_node a := n <| nd_e2e_gave_up ::= fun c => add64 c 1 |>]> |>.

(** The copy that is sent again: the same message once more, with one more retry. *)
Definition again : BxiMsg := {|
  ms_initiator := ms_initiator x; ms_target := ms_target x; ms_type := ms_type x;
  ms_send_init_time := ms_send_init_time x; ms_simulated_size := ms_simulated_size x;
  ms_retry_count := ms_retry_count x + 1; ms_parent_request := ms_parent_request x;
  ms_ref_count := 1; ms_bxi_log := None; ms_is_PIO := false; ms_ni_fail_type := PTL_NI_OK;
  ms_answers_msg := NULL |}.

(** The mailbox of the network of the message, remembered after the first time. *)
Definition retransmit_mailbox : mailbox :=
  let vn := vn_of_msg (ms_type x) (rq_service_vn q) in
  default (nic_tx_mailbox_name (nd_nid n) vn) (e2e_nic_cmd_mailboxes a !! vn).
Definition remembered : BxiNicE2E :=
  let vn := vn_of_msg (ms_type x) (rq_service_vn q) in
  match e2e_nic_cmd_mailboxes a !! vn with
  | Some _ => a
  | None => a <| e2e_nic_cmd_mailboxes ::= <[vn := retransmit_mailbox]> |>
  end.

(** The actor sends the message again: the node and the message count it, and a copy that holds a
    reference to the request is posted to the transmitter of its network; then other actors run. *)
Definition sent_again (w : World) : World :=
  let post := CommDetach (CommPut retransmit_mailbox (PMsg (w_next w)) 0) in
  env_step post
    (w <| w_nodes ::= <[e2e_node a := n <| nd_e2e_retried ::= fun c => add64 c 1 |>]> |>
       <| w_msgs ::= fun m =>
            <[w_next w := again]> (<[msg := x <| ms_retry_count := ms_retry_count x + 1 |>]> m) |>
       <| w_e2es ::= <[e2e := remembered]> |>
       <| w_reqs ::= <[ms_parent_request x :=
            q <| rq_msg_ref_count := u32 (rq_msg_ref_count q + 1) |>]> |>
       <| w_next ::= N.succ |> <| w_trace ::= cons post |>).

Lemma drop_current_frees l o w a' :
  answers_older w -> chain w msg l o -> counted w l -> w_e2es w !! e2e = Some a' ->
  exists w', freed w l o w' /\
    drop_current e2e msg w = Ok tt (w' <| w_e2es ::= <[e2e := a' <| e2e_current_msg := NULL |>]> |>).
Proof.
  intros Ho Hc Hn Ha. destruct (unref_fuel_frees (S (N.to_nat msg)) msg l o w Ho Hc Hn) as (w' & Hu & F);
    [lia|]. exists w'. split; [done|]. unfold drop_current, unref. rewrite (bind_run _ _ _ _ _ Hu).
  assert (w_e2es w' !! e2e = Some a') as Ha' by (rewrite <- Ha, <- (fr_rest _ _ _ _ F); done).
  by run_update.
Qed.

Lemma get_retransmit_mailbox_eq w :
  w_e2es w !! e2e = Some a -> (exists n', w_nodes w !! e2e_node a = Some n' /\ nd_nid n' = nd_nid n) ->
  (exists x', w_msgs w !! msg = Some x' /\ ms_type x' = ms_type x /\
     ms_parent_request x' = ms_parent_request x) ->
  w_reqs w !! ms_parent_request x = Some q ->
  get_retransmit_mailbox e2e msg w =
    Ok retransmit_mailbox (w <| w_e2es ::= <[e2e := remembered]> |>).
Proof.
  intros Ha (n' & Hn & En) (x' & Hx & Et & Ep) Hq. unfold get_retransmit_mailbox.
  rewrite <- Ep in Hq.
  rewrite (bind_run _ _ _ _ _ (get_vn_eq msg x' q w Hx Hq)), Et. step_load.
  unfold retransmit_mailbox, remembered, retransmit_mailbox.
  destruct (e2e_nic_cmd_mailboxes a !! _) as [mb|] eqn:Hmb; cbn.
  - unfold mret, M_ret. f_equal. destruct w; unfold over; cbn in *. by rewrite insert_id.
  - step_load. step_update. by rewrite En.
Qed.

Lemma retransmit_sends w :
  w_e2es w !! e2e = Some a -> w_nodes w !! e2e_node a = Some n ->
  w_msgs w !! msg = Some x -> w_reqs w !! ms_parent_request x = Some q ->
  retransmit e2e msg w = drop_current e2e msg (sent_again w).
Proof.
  intros Ha Hn Hx Hq. unfold retransmit. step_load. step_update. set (w1 := on_objects _ w).
  assert (w_msgs w1 !! msg = Some x) as Hx1 by done. step_update. set (w2 := on_objects _ w1).
  assert (w_msgs w2 !! msg = Some (over ms_retry_count Z.succ x)) as Hx2 by apply lookup_insert_eq.
  rewrite (bind_run _ _ w2 retransmit_mailbox (w2 <| w_e2es ::= <[e2e := remembered]> |>)).
  2:{ apply get_retransmit_mailbox_eq; [done| |by eexists|done].
      eexists. split; [apply lookup_insert_eq|done]. }
  set (w3 := over w_e2es _ w2).
  assert (w_msgs w3 !! msg = Some (over ms_retry_count Z.succ x)) as Hx3 by exact Hx2.
  unfold BxiMsg_copy, incr_msg_ref_count. cbv [mbind M_bind].
  rewrite (load_Ok (H := store_Msg) msg w3 _ Hx3). unfold new.
  match goal with |- context [@update _ ?S ?r ?f ?w'] =>
    rewrite (@update_Ok _ S r f w' q Hq) end.
  reflexivity.
Qed.

(** C21. In a well-formed world the E2E actor does one of three things with a message whose timeout
    has elapsed, and never panics about its retry count.  It forgets it when its request was answered
    (for a Portals acknowledgement, when it is finished).  It gives up when [max_retries] copies were
    sent: the node counts it.  Otherwise it sends it again ([sent_again]): the retry counts of the
    message and of the node go up by one, and one copy of the message, which carries the new retry
    count (so that the transmitter that sends it arms its timer again) and a reference to the request,
    is posted to the transmitter of its network.  In the three cases it ends by dropping its reference
    to the message (what this frees is [freed]) and it has no current message any more; nothing else
    changes, but for what other actors do while the copy is posted. *)
Theorem e2e_expire_decides w :
  w_e2es w !! e2e = Some a -> w_nodes w !! e2e_node a = Some n ->
  w_msgs w !! msg = Some x -> w_reqs w !! ms_parent_request x = Some q -> wf w ->
  let v :=
    if state_num (done_state (ms_type x)) <=? state_num (rq_process_state q) then w
    else if ms_retry_count x =? max_retries (w_config w) then gave_up w else sent_again w in
  forall l o a', answers_older v -> chain v msg l o -> counted v l -> w_e2es v !! e2e = Some a' ->
  exists w', freed v l o w' /\
    e2e_expire e2e msg w = Ok tt (w' <| w_e2es ::= <[e2e := a' <| e2e_current_msg := NULL |>]> |>).
Proof.
  intros Ha Hn Hx Hq W v l o a' Ho Hc Hl Ha'.
  destruct (drop_current_frees l o v a' Ho Hc Hl Ha') as (w' & F & Hd). exists w'. split; [done|].
  rewrite <- Hd. unfold e2e_expire. step_load. step_load.
  rewrite (bind_run _ _ w (max_retries (w_config w)) w) by done.
  unfold decide_retry, acked_state.
  assert ((if decide (ms_type x = S4BXI_PTL_ACK) then S4BXI_REQ_FINISHED else S4BXI_REQ_ANSWERED)
    = done_state (ms_type x)) as -> by (by destruct (ms_type x)).
  unfold v. destruct (_ <=? _); [done|].
  destruct (Z.eqb_spec (ms_retry_count x) (max_retries (w_config w))).
  - clear Ha' Hd. step_load. by step_update.
  - destruct (wf_msgs _ W _ _ Hx). rewrite (proj2 (Z.ltb_lt _ _)) by lia. by apply retransmit_sends.
Qed.
End Expire.

Lemma keeps_free R {T} `{Store T} h w : R w (on_objects (delete h) w) -> keeps R (free h) w.
Proof. intros HR a w'. unfold free. case_match; [|done]. intros H2. by injection H2 as <- <-. Qed.

(** The calls that touch neither the nodes nor SimGrid. *)
Definition same_nodes (w w' : World) : Prop := w_nodes w' = w_nodes w /\ w_trace w' = w_trace w.
#[export] Instance same_nodes_preorder : PreOrder same_nodes.
Proof. split; [done|]. intros ??? [] []. split; congruence. Qed.
#[export] Hint Extern 2 (keeps same_nodes (update _ _) _) => apply keeps_update; intros; done : progress.
#[export] Hint Extern 2 (keeps same_nodes (free _) _) => apply keeps_free; done : progress.

Section SameNodes.
Context `{E : Env}.

Lemma release_parent_request_nodes r w : keeps same_nodes (release_parent_request r) w.
Proof. unfold release_parent_request. walk. Qed.
Hint Resolve release_parent_request_nodes : progress.
Lemma unref_fuel_nodes k m w : keeps same_nodes (unref_fuel k m) w.
Proof.
  revert m w. induction k as [|k IH]; intros m w; cbn [unref_fuel]; [walk|]. unfold destroy_msg. walk.
Qed.
Lemma unref_nodes m w : keeps same_nodes (unref m) w.
Proof. apply unref_fuel_nodes. Qed.

Lemma drop_current_nodes e m w : keeps same_nodes (drop_current e m) w.
Proof. unfold drop_current. walk_step; [apply unref_nodes|]. walk. Qed.
End SameNodes.

(** Giving up on a message gives nothing back: neither its place among the entries of the
    node (no semaphore is released) nor its flow-control credits; the node only counts it. *)
Theorem abandon_leaks `{E : Env} e2e a msg x q w w' node n :
  w_e2es w !! e2e = Some a -> w_nodes w !! node = Some n ->
  w_msgs w !! msg = Some x -> w_reqs w !! ms_parent_request x = Some q ->
  decide_retry (rq_process_state q) (ms_type x) (ms_retry_count x) (max_retries (w_config w)) = GiveUp ->
  e2e_expire e2e msg w = Ok tt w' ->
  w_trace w' = w_trace w /\
  exists n', w_nodes w' !! node = Some n' /\
    nd_flowctrl_node_counts n' = nd_flowctrl_node_counts n /\
    nd_flowctrl_process_counts n' = nd_flowctrl_process_counts n /\
    (node = e2e_node a -> nd_e2e_gave_up n' = add64 (nd_e2e_gave_up n) 1).
Proof.
  intros Ha Hn Hx Hq Hd. unfold e2e_expire. step_load. step_load.
  rewrite (bind_run _ _ w (max_retries (w_config w)) w) by done. rewrite Hd. intros (a' & w1 & [-> Ha']%load_inv & H)%bind_Ok.
  cbn in Ha'. rewrite Ha in Ha'. injection Ha' as <-.
  apply bind_Ok in H as (u & w1 & Hu & H).
  apply (keeps_use same_nodes) in H as [HN HT]; [|apply drop_current_nodes].
  unfold update in Hu. cbn in Hu. destruct (w_nodes w !! e2e_node a) as [na|] eqn:Hna; [|done].
  injection Hu as _ <-. rewrite HT, HN. split; [done|]. cbn.
  destruct (decide (node = e2e_node a)) as [->|Hne].
  - rewrite lookup_insert_eq. eexists. split; [done|]. rewrite Hn in Hna. injection Hna as <-. done.
  - rewrite lookup_insert_ne by done. by exists n.
Qed.

(** A retransmission is not the message it repeats: the copy has the same ends, type, size,
    request and retry count, but the status PTL_NI_OK, whatever status the message carried, and
    answers no message. *)
Theorem copy_forgets_status `{E : Env} msg x w c w' :
  w_msgs w !! msg = Some x -> BxiMsg_copy msg w = Ok c w' ->
  exists y, w_msgs w' !! c = Some y /\
    ms_initiator y = ms_initiator x /\ ms_target y = ms_target x /\ ms_type y = ms_type x /\
    ms_simulated_size y = ms_simulated_size x /\ ms_retry_count y = ms_retry_count x /\
    ms_parent_request y = ms_parent_request x /\
    ms_ni_fail_type y = PTL_NI_OK /\ ms_answers_msg y = NULL.
Proof.
  intros Hx. unfold BxiMsg_copy. intros (x' & w1 & [-> Hx']%load_inv & H)%bind_Ok.
  cbn in Hx'. rewrite Hx in Hx'. injection Hx' as <-.
  apply bind_Ok in H as (m & w1 & [= <- <-] & H).
  apply bind_Ok in H as (u & w2 & Hu & [= <- <-]).
  unfold incr_msg_ref_count, update in Hu. cbn in Hu. case_match; [|done]. injection Hu as _ <-.
  cbn. eexists. split; [apply lookup_insert_eq|]. done.
Qed.

(** The calls that leave the queues alone. *)
Definition same_queues (w w' : World) : Prop := w_queues w' = w_queues w.
#[export] Instance same_queues_preorder : PreOrder same_queues.
Proof. split; [done|]. intros ??? H1 H2. unfold same_queues in *. congruence. Qed.
#[export] Hint Extern 2 (keeps same_queues (update _ _) _) => apply keeps_update; intros; done : progress.
#[export] Hint Extern 2 (keeps same_queues (free _) _) => apply keeps_free; done : progress.
#[export] Hint Extern 2 (keeps same_queues (new (T := BxiMsg) _) _) => by intros ?? [= _ <-] : progress.

Section Lost.
Context `{E : Env, !Quiet E}.

Lemma sim_same_queues c w : keeps same_queues (sim c) w.
Proof. intros u w'. rewrite sim_quiet. by intros [= _ <-]. Qed.
Hint Resolve sim_same_queues : progress.
Lemma release_parent_request_queues r w : keeps same_queues (release_parent_request r) w.
Proof. unfold release_parent_request. walk. Qed.
Hint Resolve release_parent_request_queues : progress.
Lemma unref_fuel_queues k m w : keeps same_queues (unref_fuel k m) w.
Proof.
  revert m w. induction k as [|k IH]; intros m w; cbn [unref_fuel]; [walk|]. unfold destroy_msg. walk.
Qed.
Lemma retransmit_queues e m w : keeps same_queues (retransmit e m) w.
Proof.
  unfold retransmit, get_retransmit_mailbox, get_vn, BxiMsg_copy, incr_msg_ref_count, drop_current.
  walk. apply unref_fuel_queues.
Qed.

(** Retransmissions never enter a transmission queue that is not a mailbox, the kind
    [BxiNicInitiator] creates when PCI commands are not modelled: they are posted to the mailbox
    of that name, which such an initiator does not read. *)
Theorem retransmission_bypasses_queue node n vn q w w1 e2e msg w2 :
  w_nodes w !! node = Some n -> nd_tx_queues n !! vn = None ->
  nd_model_pci_commands n && model_pci_commands (w_config w) = false ->
  BxiNicInitiator_new node vn w = Ok q w1 ->
  retransmit e2e msg w1 = Ok tt w2 ->
  exists qu, w_queues w2 !! q = Some qu /\ q_mailbox qu = None /\ q_to_process qu = [].
Proof.
  intros Hn Hq Hpci. unfold BxiNicInitiator_new. intros H Hr.
  apply (keeps_use same_queues) in Hr; [|apply retransmit_queues]. unfold same_queues in Hr.
  rewrite Hr. revert H. step_load. rewrite Hq.
  assert (S4BXI_CONFIG_AND node nd_model_pci_commands model_pci_commands w = Ok false w) as Hc.
  { unfold S4BXI_CONFIG_AND. step_load. destruct (nd_model_pci_commands n); [|done].
    cbn in Hpci. unfold S4BXI_GLOBAL_CONFIG, gets. by rewrite Hpci. }
  rewrite (bind_run _ _ _ _ _ Hc). unfold BxiQueue_new.
  intros (q' & w' & [= <- <-] & H)%bind_Ok. apply bind_Ok in H as (u & w' & Hu & [= <- <-]).
  unfold update in Hu. cbn in Hu. rewrite Hn in Hu. injection Hu as _ <-. cbn.
  eexists. split; [apply lookup_insert_eq|done].
Qed.
End Lost.

(** ** Acknowledgements *)

