(* ===== verification/AtomicsSpec.v ===== *)
(** Theorems about the atomic operations ([Atomics.v]): integers read back from the bytes an
    operation leaves, bit by bit for the bitwise operations, and the memory it touches. *)
From S2P Require Import Prelude Portals World Logic Atomics Memory.
From Stdlib Require Import SpecFloat.

(** ** Integers as bytes *)

Definition are_bytes (bs : list Z) : Prop := Forall (fun b => 0 <= b < 256) bs.

(** [z] converted to the integer type of [n] bytes: reduced modulo [2 ^ width n]. *)
Definition as_type (signed : bool) (n : nat) (z : Z) : Z :=
  if signed then swrap (width n) z else wrap (width n) z.

Lemma width_S n : 2 ^ width (S n) = 256 * 2 ^ width n.
Proof. unfold width. replace (8 * Z.of_nat (S n)) with (8 + 8 * Z.of_nat n) by lia.
  rewrite Z.pow_add_r by lia. done. Qed.

Lemma width_pos n : 0 < 2 ^ width n.
Proof. apply Z.pow_pos_nonneg; unfold width; lia. Qed.

Lemma length_bytes_of_Z n z : length (bytes_of_Z n z) = n.
Proof. revert z. induction n as [|n IH]; intros z; [done|]. cbn. by rewrite IH. Qed.

Lemma bytes_of_Z_bytes n z : are_bytes (bytes_of_Z n z).
Proof.
  revert z. induction n as [|n IH]; intros z; constructor; [|apply IH]. by apply Z.mod_pos_bound.
Qed.

Lemma Z_of_bytes_of_Z n z : Z_of_bytes (bytes_of_Z n z) = wrap (width n) z.
Proof.
  revert z. induction n as [|n IH]; intros z; cbn [bytes_of_Z Z_of_bytes].
  - unfold wrap, width. cbn. by rewrite Z.mod_1_r.
  - rewrite IH. unfold wrap. rewrite width_S.
    pose proof (width_pos n). by rewrite Z.rem_mul_r by lia.
Qed.

Lemma Z_of_bytes_range bs : are_bytes bs -> 0 <= Z_of_bytes bs < 2 ^ width (length bs).
Proof.
  induction 1 as [|b bs Hb _ IH]; [done|]. cbn [Z_of_bytes length]. rewrite width_S. lia.
Qed.

Lemma bytes_of_Z_of_bytes bs : are_bytes bs -> bytes_of_Z (length bs) (Z_of_bytes bs) = bs.
Proof.
  induction 1 as [|b bs Hb _ IH]; [done|]. cbn [Z_of_bytes length bytes_of_Z].
  replace (b + 256 * Z_of_bytes bs) with (Z_of_bytes bs * 256 + b) by lia.
  rewrite Z.div_add_l, (Z.div_small b), Z.add_0_r, IH by lia.
  rewrite Z.add_comm, Z.mod_add, Z.mod_small by lia. done.
Qed.

Lemma swrap_mod w z : 0 <= w -> wrap w (swrap w z) = wrap w z.
Proof.
  intros Hw. unfold swrap. case_decide; [by apply wrap_wrap|]. unfold wrap.
  replace (z mod 2 ^ w - 2 ^ w) with (z mod 2 ^ w + (-1) * 2 ^ w) by lia.
  rewrite Z.mod_add by (apply Z.pow_nonzero; lia). by apply wrap_wrap.
Qed.

Lemma swrap_wrap w z : 0 <= w -> swrap w (wrap w z) = swrap w z.
Proof. intros Hw. unfold swrap. by rewrite wrap_wrap. Qed.

Lemma as_type_cong s n a b : wrap (width n) a = wrap (width n) b -> as_type s n a = as_type s n b.
Proof. unfold as_type, swrap. by intros ->. Qed.

Lemma as_type_wrap s n z : as_type s n (wrap (width n) z) = as_type s n z.
Proof. apply as_type_cong, wrap_wrap. unfold width. lia. Qed.

Lemma int_of_bytes_of_Z s n z : int_of s (bytes_of_Z n z) = as_type s n z.
Proof.
  unfold int_of, sint_of, uint_of, as_type. rewrite Z_of_bytes_of_Z, length_bytes_of_Z.
  destruct s; [apply swrap_wrap; unfold width; lia|done].
Qed.

(** An integer is, modulo [2 ^ width], the number its bytes write, signed or not. *)
Lemma int_of_mod s bs :
  are_bytes bs -> wrap (width (length bs)) (int_of s bs) = uint_of bs.
Proof.
  intros Hb. pose proof (Z_of_bytes_range _ Hb) as Hr. unfold int_of, sint_of, uint_of.
  destruct s; [rewrite swrap_mod by (unfold width; lia)|]; by apply wrap_small.
Qed.

Lemma wrap_op (g : Z -> Z -> Z) n :
  (forall a b, wrap (width n) (g a b) = wrap (width n) (g (wrap (width n) a) (wrap (width n) b))) ->
  forall s me rx, are_bytes me -> are_bytes rx -> length me = n -> length rx = n ->
  wrap (width n) (g (sint_of me) (sint_of rx)) = wrap (width n) (g (int_of s me) (int_of s rx)).
Proof.
  intros Hg s me rx Hm Hr Lm Lr. rewrite Hg, (Hg (int_of s me)).
  assert (forall s', wrap (width n) (int_of s' me) = uint_of me) as Em
    by (intros; rewrite <- Lm; by apply int_of_mod).
  assert (forall s', wrap (width n) (int_of s' rx) = uint_of rx) as Er
    by (intros; rewrite <- Lr; by apply int_of_mod).
  rewrite !Em, !Er. change (sint_of me) with (int_of true me).
  change (sint_of rx) with (int_of true rx). by rewrite Em, Er.
Qed.

Lemma wrap_add w a b : wrap w (a + b) = wrap w (wrap w a + wrap w b).
Proof. apply Zplus_mod. Qed.
Lemma wrap_mul w a b : wrap w (a * b) = wrap w (wrap w a * wrap w b).
Proof. apply Zmult_mod. Qed.

(** ** Arithmetic *)

Lemma operand_size t s n : operand_of t = OInt s n -> (n <= 2 \/ 4 <= n)%nat.
Proof. destruct t; intros [=]; lia. Qed.

(** What each bitwise operation does to one bit. *)
Definition bit_function (op : ptl_op) : option (bool -> bool -> bool) :=
  match op with
  | PTL_BOR => Some orb | PTL_BAND => Some andb | PTL_BXOR => Some xorb | _ => None
  end.

Section Integers.
Context (t : ptl_datatype) (s : bool) (n : nat) (Ht : operand_of t = OInt s n).
Context (me rx : list Z) (Hme : are_bytes me) (Hrx : are_bytes rx).
Context (Lme : length me = n) (Lrx : length rx = n).

(** C38. PTL_SUM on an integer type leaves the sum of the two operands, modulo the width of the
    type, whether they are read signed or unsigned; it is undefined exactly when the type has 32
    or 64 bits and the sum of the operands read as signed integers overflows, even when the type
    is unsigned and nothing overflows it. *)
Theorem int_sum_spec :
  (op_sum t me rx = inl (Undefined "signed integer overflow") <->
     (4 <= n)%nat /\ in_signed_range n (sint_of me + sint_of rx) = false) /\
  (forall r, op_sum t me rx = inr r ->
     length r = n /\ are_bytes r /\ int_of s r = as_type s n (int_of s me + int_of s rx)).
Proof.
  unfold op_sum. rewrite Ht. pose proof (operand_size _ _ _ Ht) as Hn.
  split.
  - destruct (Nat.leb_spec n 2), (in_signed_range n _); cbn; split; try done; try lia.
  - intros r. case_match; [|done]. intros [= <-].
    split_and!; [apply length_bytes_of_Z|apply bytes_of_Z_bytes|].
    rewrite int_of_bytes_of_Z. apply as_type_cong.
    apply wrap_op; [apply wrap_add|done..].
Qed.

(** PTL_PROD on an integer type leaves the product of the two operands modulo the width of
    the type; it is undefined exactly when the product overflows the type it is computed in:
    [int] for the 8- and 16-bit types, also the unsigned ones, the type itself for the signed
    ones; the products of 32- and 64-bit unsigned operands are always defined. *)
Theorem int_prod_spec :
  let r := int_of s me * int_of s rx in
  (op_prod t me rx = inl (Undefined "signed integer overflow") <->
     if (n <=? 2)%nat then in_signed_range 4 r = false
     else s = true /\ in_signed_range n r = false) /\
  (forall bs, op_prod t me rx = inr bs ->
     length bs = n /\ are_bytes bs /\ int_of s bs = as_type s n r).
Proof.
  cbv zeta. unfold op_prod. rewrite Ht. split.
  - destruct (n <=? 2)%nat; [by destruct (in_signed_range 4 _)|].
    destruct s; [|by split; [|intros []]]. destruct (in_signed_range n _); [|done].
    by split; [|intros []].
  - intros bs. case_match; [|done]. intros [= <-].
    split_and!; [apply length_bytes_of_Z|apply bytes_of_Z_bytes|apply int_of_bytes_of_Z].
Qed.

(** PTL_MIN and PTL_MAX on an integer type leave the smaller and the larger of the two
    operands, compared with the sign of the type. *)
Theorem int_min_max_spec :
  (exists r, op_min t me rx = inr r /\ (r = me \/ r = rx) /\
     int_of s r = Z.min (int_of s me) (int_of s rx)) /\
  (exists r, op_max t me rx = inr r /\ (r = me \/ r = rx) /\
     int_of s r = Z.max (int_of s me) (int_of s rx)).
Proof.
  clear Hme Hrx Lme Lrx. unfold op_min, op_max. rewrite Ht. split; eexists; (split; [done|]).
  - destruct (Z.ltb_spec (int_of s rx) (int_of s me)); (split; [auto|]); lia.
  - destruct (Z.ltb_spec (int_of s me) (int_of s rx)); (split; [auto|]); lia.
Qed.

Lemma sint_testbit bs i :
  are_bytes bs -> 0 <= i < width (length bs) ->
  Z.testbit (sint_of bs) i = Z.testbit (uint_of bs) i.
Proof.
  intros Hb Hi. rewrite <- (int_of_mod true bs Hb). cbn [int_of]. unfold wrap.
  by rewrite Z.mod_pow2_bits_low by lia.
Qed.

(** An operation on each bit, computed on the signed readings. *)
Lemma on_signed_bits (g : Z -> Z -> Z) (b : bool -> bool -> bool) :
  (forall x y i, Z.testbit (g x y) i = b (Z.testbit x i) (Z.testbit y i)) ->
  exists r, on_signed g t me rx = inr r /\ length r = n /\ are_bytes r /\
    forall i, 0 <= i < width n ->
      Z.testbit (uint_of r) i = b (Z.testbit (uint_of me) i) (Z.testbit (uint_of rx) i).
Proof.
  intros Hg. unfold on_signed. rewrite Ht. eexists. split; [done|].
  split_and!; [apply length_bytes_of_Z|apply bytes_of_Z_bytes|]. intros i Hi.
  unfold uint_of at 1. rewrite Z_of_bytes_of_Z. unfold wrap.
  rewrite Z.mod_pow2_bits_low, Hg by lia. rewrite !sint_testbit by (rewrite ?Lme, ?Lrx; done). done.
Qed.

(** PTL_BOR, PTL_BAND and PTL_BXOR act on each bit of the operands, on every integer type,
    signed or not. *)
Theorem bitwise_spec op b :
  bit_function op = Some b -> forall cst k, exists r,
    apply_element op t k me rx cst = inr r /\ length r = n /\ are_bytes r /\
    forall i, 0 <= i < width n ->
      Z.testbit (uint_of r) i = b (Z.testbit (uint_of me) i) (Z.testbit (uint_of rx) i).
Proof.
  intros Hb cst k. destruct op; try discriminate Hb; injection Hb as <-; apply on_signed_bits;
    [apply Z.lor_spec|apply Z.land_spec|apply Z.lxor_spec].
Qed.
End Integers.

(** ** Swaps *)

Lemma byte_testbit b z i : 0 <= b < 256 -> 0 <= i ->
  Z.testbit (b + 256 * z) i = if decide (i < 8) then Z.testbit b i else Z.testbit z (i - 8).
Proof.
  intros Hb Hi. replace (b + 256 * z) with (z * 2 ^ 8 + b) by lia. case_decide.
  - rewrite <- (Z.mod_pow2_bits_low _ 8) by lia.
    by rewrite Z.add_comm, Z.mod_add, Z.mod_small by lia.
  - replace i with (i - 8 + 8) at 1 by lia. rewrite <- Z.div_pow2_bits by lia.
    by rewrite Z.div_add_l, Z.div_small, Z.add_0_r by lia.
Qed.

Lemma masked_byte m r c : 0 <= m < 256 -> 0 <= r < 256 -> 0 <= c < 256 ->
  0 <= Z.lor (Z.land m (wrap 8 (Z.lnot c))) (Z.land r c) < 256 /\
  forall i, 0 <= i < 8 ->
    Z.testbit (Z.lor (Z.land m (wrap 8 (Z.lnot c))) (Z.land r c)) i =
    if Z.testbit c i then Z.testbit r i else Z.testbit m i.
Proof.
  intros Hm Hr Hc. set (v := Z.lor _ _).
  assert (v = v mod 2 ^ 8) as Ev.
  { apply Z.bits_inj'. intros i Hi. destruct (decide (i < 8)).
    - by rewrite Z.mod_pow2_bits_low by lia.
    - rewrite Z.mod_pow2_bits_high by lia. unfold v. rewrite Z.lor_spec, !Z.land_spec.
      assert (forall x, 0 <= x < 256 -> Z.testbit x i = false) as Hf.
      { intros x Hx. rewrite <- (Z.mod_small x (2 ^ 8)) by lia. by apply Z.mod_pow2_bits_high; lia. }
      by rewrite (Hf m), (Hf r). }
  split; [rewrite Ev; by apply Z.mod_pos_bound|]. intros i Hi. unfold v, wrap.
  rewrite Z.lor_spec, !Z.land_spec, Z.mod_pow2_bits_low, Z.lnot_spec by lia.
  destruct (Z.testbit c i), (Z.testbit r i), (Z.testbit m i); done.
Qed.

(** PTL_MSWAP replaces exactly the bits the mask selects: each bit of the result comes from
    the request where the mask has a one, and is kept where it has a zero. *)
Theorem op_mswap_spec me rx cst :
  are_bytes me -> are_bytes rx -> are_bytes cst ->
  length rx = length me -> length cst = length me ->
  length (op_mswap me rx cst) = length me /\ are_bytes (op_mswap me rx cst) /\
  forall i, 0 <= i < width (length me) ->
    Z.testbit (uint_of (op_mswap me rx cst)) i =
    if Z.testbit (uint_of cst) i then Z.testbit (uint_of rx) i else Z.testbit (uint_of me) i.
Proof.
  intros Hm. revert rx cst. induction Hm as [|m me Hb _ IH]; intros rx cst Hr Hc Lr Lc.
  { split_and!; [done|constructor|]. unfold width. cbn. lia. }
  destruct Hr as [|r rx Hr0 Hr]; [done|]. destruct Hc as [|c cst Hc0 Hc]; [done|].
  destruct (IH rx cst) as (Hl & Hbs & Hi); [done..|by injection Lr|by injection Lc|].
  destruct (masked_byte m r c) as [Hv Hvi]; [done..|]. cbn [op_mswap].
  split_and!; [cbn; by rewrite Hl|by constructor|]. intros i Hlt. unfold uint_of. cbn [Z_of_bytes].
  rewrite !byte_testbit by lia. case_decide; [apply Hvi; lia|].
  apply Hi. unfold width in *. cbn in Hlt. lia.
Qed.

(** The comparison each conditional swap stands for: the target's value against the operand. *)
Definition swap_test (op : ptl_op) : Z -> Z -> Prop :=
  match op with
  | PTL_SWAP => fun _ _ => True
  | PTL_CSWAP => fun v c => v = c
  | PTL_CSWAP_NE => fun v c => v <> c
  | PTL_CSWAP_LE => fun v c => c <= v
  | PTL_CSWAP_LT => fun v c => c < v
  | PTL_CSWAP_GE => fun v c => v <= c
  | PTL_CSWAP_GT => fun v c => v < c
  | _ => fun _ _ => False
  end.

(** A swap of one integer replaces the target's value by the request's exactly when the
    operand is equal to, different from, at most, below, at least or above the target's value, as
    its name says, with the sign of the type; a swap of more than one element aborts. *)
Theorem swap_spec t s n op me rx cst k :
  operand_of t = OInt s n ->
  op ∈ [PTL_SWAP; PTL_CSWAP; PTL_CSWAP_NE; PTL_CSWAP_LE; PTL_CSWAP_LT; PTL_CSWAP_GE; PTL_CSWAP_GT] ->
  (k <> 1 -> apply_element op t k me rx cst = inl (Abort "only one item allowed for swap")) /\
  (k = 1 -> swap_test op (int_of s me) (int_of s cst) -> apply_element op t k me rx cst = inr rx) /\
  (k = 1 -> ~ swap_test op (int_of s me) (int_of s cst) ->
     apply_element op t k me rx cst = inr me).
Proof.
  intros Ht Hop. rewrite !elem_of_cons, elem_of_nil in Hop.
  assert (apply_element op t k me rx cst =
    if k =? 1 then inr (if swap_condition op (compare_cst t me cst) then rx else me)
    else inl (Abort "only one item allowed for swap")) as ->.
  { by destruct Hop as [->|[->|[->|[->|[->|[->|[->|[]]]]]]]]. }
  split; [by intros ?%Z.eqb_neq%not_true_iff_false; destruct (k =? 1)|].
  unfold compare_cst. rewrite Ht. destruct (Z.eqb_spec (int_of s me) (int_of s cst)),
    (Z.leb_spec (int_of s cst) (int_of s me)), (Z.leb_spec (int_of s me) (int_of s cst)); try lia.
  all: destruct Hop as [->|[->|[->|[->|[->|[->|[->|[]]]]]]]]; split; intros -> Htest; cbn in *.
  all: done || lia.
Qed.

(** ** The loop over the elements of an array *)

Definition outside (a n x : Z) : Prop := ~ (a <= x < a + n).

Lemma written_outside m a bs x : outside a (Z.of_nat (length bs)) x -> written m a bs x = m !! x.
Proof. intros Ho. unfold written. by rewrite decide_False. Qed.
Lemma copied_outside m d s n x : outside d n x -> copied m d s n x = m !! x.
Proof. intros Ho. unfold copied. by rewrite decide_False. Qed.

Lemma length_store_float f x old :
  (f_bytes f <= length old)%nat -> length (store_float f x old) = length old.
Proof.
  intros Hl. unfold store_float. rewrite length_app, length_drop.
  assert (length (encode_float f x) = f_bytes f) as ->; [|lia].
  unfold encode_float. destruct x; try apply length_bytes_of_Z.
  case_match; apply length_bytes_of_Z.
Qed.

Lemma length_store_complex f x y old :
  (f_bytes f <= f_size f)%nat -> length old = (f_size f + f_size f)%nat ->
  length (store_complex f x y old) = length old.
Proof.
  intros Hf Hl. unfold store_complex.
  rewrite length_app, !length_store_float; rewrite ?length_take, ?length_drop; lia.
Qed.

Lemma take_drop_length {A} n (l l' : list A) : length l' = length l -> (n <= length l)%nat ->
  length (take n l ++ drop n l') = length l.
Proof. intros Hl Hn. rewrite length_app, length_take, length_drop. lia. Qed.

(** The operand of a type fills the size of the type. *)
Lemma operand_fits t :
  match operand_of t with
  | OInt _ n => n = ptl_atsize t
  | OFloat f => (f_bytes f <= ptl_atsize t)%nat
  | OComplex f => (f_bytes f <= f_size f)%nat /\ ptl_atsize t = (f_size f + f_size f)%nat
  end.
Proof. destruct t; cbn; lia. Qed.

Lemma length_op_mswap me rx cst :
  length rx = length me -> length cst = length me -> length (op_mswap me rx cst) = length me.
Proof.
  revert rx cst. induction me as [|m me IH]; intros [|r rx] [|c cst]; cbn; try done.
  intros [= Lr] [= Lc]. by rewrite IH.
Qed.

Lemma apply_element_length op t k me rx cst r :
  length me = ptl_atsize t -> length rx = ptl_atsize t ->
  (reads_cst op = true -> length cst = ptl_atsize t) ->
  apply_element op t k me rx cst = inr r -> length r = ptl_atsize t.
Proof.
  intros Lm Lr Lc. pose proof (operand_fits t) as Hfit.
  assert (forall g r, on_signed g t me rx = inr r -> length r = ptl_atsize t) as Hs.
  { intros g r'. unfold on_signed. destruct (operand_of t); intros [= <-].
    by rewrite length_bytes_of_Z. }
  assert (forall b : bool, length (if b then rx else me) = ptl_atsize t) as Hif by (by intros []).
  assert (forall f (b : bool), (f_bytes f <= ptl_atsize t)%nat ->
    length (if b then take (f_bytes f) rx ++ drop (f_bytes f) me else me) = ptl_atsize t) as Hiff.
  { intros f [] Hf; [|done]. rewrite take_drop_length; lia. }
  destruct op; cbn [apply_element]; try apply Hs;
    try (destruct (k =? 1); [intros [= <-]; apply (Hif (swap_condition _ _)) | done]).
  - unfold op_min. destruct (operand_of t); intros [= <-]; auto.
  - unfold op_max. destruct (operand_of t); intros [= <-]; auto.
  - unfold op_sum. destruct (operand_of t); [case_match; [|done]|..]; intros [= <-].
    + by rewrite length_bytes_of_Z.
    + rewrite length_store_float; lia.
    + rewrite length_store_complex; lia.
  - unfold op_prod. destruct (operand_of t); [case_match; [|done]| |destruct (cmul _ _ _ _)];
      intros [= <-].
    + by rewrite length_bytes_of_Z.
    + rewrite length_store_float; lia.
    + rewrite length_store_complex; lia.
  - intros [= <-]. rewrite length_op_mswap; rewrite ?Lc; lia || done.
Qed.

Lemma load_cst_inv c n w bs w' : load_cst c n w = Ok bs w' -> w' = w /\ length bs = n.
Proof.
  destruct c as [a|l]; cbn [load_cst]; [by intros (-> & ? & _)%load_bytes_spec|].
  intros (u & w1 & Ha & [= <- <-])%bind_Ok. destruct (Nat.leb_spec n (length l)); [|done].
  injection Ha as _ <-. split; [done|]. rewrite length_take. lia.
Qed.

(** Only the memory changes, and only in two ranges of [n] bytes. *)
Definition touches (me tx n : Z) (w w' : World) : Prop :=
  only_mem w w' /\ forall x, outside me n x -> outside tx n x -> w_mem w' !! x = w_mem w !! x.
#[export] Instance touches_preorder me tx n : PreOrder (touches me tx n).
Proof.
  split; [by intros w; split|]. intros w1 w2 w3 [H12 M12] [H23 M23].
  split; [by etransitivity|]. intros x Hm Hr. by rewrite M23, M12.
Qed.

Lemma atomic_turn_touches op t me cst rx tx k w bs m r c w1 w2 w3 u u' :
  (when (negb (tx =? me)) (memcpy tx me (Z.of_nat (ptl_atsize t)))) w = Ok u w1 ->
  load_bytes me (ptl_atsize t) w1 = Ok m w1 -> load_bytes rx (ptl_atsize t) w1 = Ok r w1 ->
  (if reads_cst op then load_cst cst (ptl_atsize t) else mret []) w1 = Ok c w2 ->
  apply_element op t k m r c = inr bs -> store_bytes me bs w2 = Ok u' w3 ->
  touches me tx (Z.of_nat (ptl_atsize t)) w w3.
Proof.
  intros Hcp (_ & Lm & _)%load_bytes_spec (_ & Lr & _)%load_bytes_spec Hc He Hs.
  assert (w2 = w1 /\ (reads_cst op = true -> length c = ptl_atsize t)) as [-> Lc].
  { destruct (reads_cst op); [apply load_cst_inv in Hc as [-> ?]|injection Hc as _ <-]; by split. }
  etransitivity.
  - instantiate (1 := w1). destruct (negb _); [|injection Hcp as _ <-; reflexivity].
    apply memcpy_spec in Hcp as [Ho Hx]. split; [done|]. intros x _ Ht. rewrite Hx.
    by apply copied_outside.
  - apply store_bytes_spec in Hs as [Ho Hx]. split; [done|]. intros x Hm _. rewrite Hx.
    apply written_outside. by rewrite (apply_element_length _ _ _ _ _ _ _ Lm Lr Lc He).
Qed.

Lemma atomic_loop_touches turns op t me cst rx tx k w u w' :
  atomic_loop turns op t me cst rx tx k w = Ok u w' ->
  touches me tx (Z.of_nat (ptl_atsize t)) w w'.
Proof.
  revert w. induction turns as [|turns IH]; intros w; cbn [atomic_loop].
  { intros [= _ <-]. reflexivity. }
  intros (u1 & w1 & Hcp & H)%bind_Ok.
  apply bind_Ok in H as (m & w2 & Hm & H). pose proof Hm as (-> & _)%load_bytes_spec.
  apply bind_Ok in H as (r & w2 & Hr & H). pose proof Hr as (-> & _)%load_bytes_spec.
  apply bind_Ok in H as (c & w2 & Hc & H). apply bind_Ok in H as (u2 & w3 & Hs & H).
  apply IH in H. etransitivity; [|exact H].
  destruct (apply_element _ _ _ _ _ _) as [e|bs] eqn:He; [done|].
  exact (atomic_turn_touches _ _ _ _ _ _ _ _ _ _ _ _ _ _ _ _ _ Hcp Hm Hr Hc He Hs).
Qed.

(** An atomic operation on an array of [len] bytes changes nothing beyond the first element
    of the target's range and of the fetched one: every turn of the loop works on the same
    element, so the others are never updated nor fetched. *)
Theorem atomic_touches_first_element op t me cst rx tx len w u w' :
  apply_atomic_op op t me cst rx tx len w = Ok u w' ->
  w' = w <| w_mem := w_mem w' |> /\
  forall x, ~ (me <= x < me + Z.of_nat (ptl_atsize t)) ->
    ~ (tx <= x < tx + Z.of_nat (ptl_atsize t)) -> w_mem w' !! x = w_mem w !! x.
Proof.
  unfold apply_atomic_op. destruct (negb _); [done|]. by intros [Ho Hx]%atomic_loop_touches.
Qed.
