(* ===== verification/Frames.v ===== *)
(** What the other actors may do while a card handles a message: they may issue events, move time on
    and work on their own objects, and leave the objects of this message as they are ([Spares]).  The
    events of the card are then found in the trace in their order, among those of the others
    ([tells]). *)
From S2P Require Import Prelude Portals World Logic Engine Queue Messages Node Counters Entries.
From S2P Require Import E2E NicActor Progress Waiting Reliability.

(** ** Objects that stay *)

(** The objects of [mine] that are there are still there, with the same [f]. *)
Definition kept {T V} (mine : handle -> Prop) (f : T -> V) (m m' : gmap N T) : Prop :=
  forall h x, mine h -> m !! h = Some x -> exists x', m' !! h = Some x' /\ f x' = f x.

Section Kept.
Context {T V : Type} (mine : handle -> Prop) (f : T -> V).
Implicit Types m : gmap N T.

Lemma kept_objects_refl m : kept mine f m m.
Proof. intros h x _ Hx. by exists x. Qed.
Lemma kept_objects_trans m1 m2 m3 : kept mine f m1 m2 -> kept mine f m2 m3 -> kept mine f m1 m3.
Proof. intros H1 H2 h x Hh (x1 & Hx & <-)%H1; [|done]. by apply H2. Qed.
Lemma kept_objects_insert m h x y : m !! h = Some x -> f y = f x -> kept mine f m (<[h := y]> m).
Proof.
  intros Hx Hf h' x' _ Hx'. destruct (decide (h' = h)) as [->|].
  - exists y. rewrite lookup_insert_eq. split; [done|]. congruence.
  - exists x'. by rewrite lookup_insert_ne.
Qed.
(** An object with a fresh handle is none of those that were there. *)
Lemma kept_objects_new m n y :
  kept (fun h => mine h /\ (h < n)%N) f m (<[n := y]> m).
Proof. intros h x [_ Hl] Hx. exists x. rewrite lookup_insert_ne by lia. done. Qed.
Lemma kept_factor {W} (g : T -> W) m m' :
  (forall x y, f y = f x -> g y = g x) -> kept mine f m m' -> kept mine g m m'.
Proof. intros Hg Hk h x Hh (x' & Hx & Hf)%Hk; [|done]. eauto. Qed.
Lemma kept_sub (mine' : handle -> Prop) m m' :
  (forall h, mine' h -> mine h) -> kept mine f m m' -> kept mine' f m m'.
Proof. intros Hs Hk h x Hh. apply Hk. auto. Qed.
End Kept.
#[export] Hint Resolve kept_objects_refl : core.

(** ** Events *)

Definition event_of (c : simcall) : option (mailbox * ptl_event) :=
  match c with CommDetach (CommPut mb (PEvent ev) _) => Some (mb, ev) | _ => None end.

(** The events that were put in mailboxes, the last one first. *)
Definition events (w : World) : list (mailbox * ptl_event) := omap event_of (w_trace w).

(** From [w] to [w'] the events [own] were told, the last one first, among others that satisfy
    [P]. *)
Definition tells (P : mailbox * ptl_event -> Prop) (own : list (mailbox * ptl_event))
    (w w' : World) : Prop :=
  exists l, events w' = l ++ events w /\ mixed P own l.

Lemma tells_same P w w' : events w' = events w -> tells P [] w w'.
Proof. intros He. exists []. split; [by rewrite He|constructor]. Qed.
Lemma tells_trans P own1 own2 w1 w2 w3 :
  tells P own1 w1 w2 -> tells P own2 w2 w3 -> tells P (own2 ++ own1) w1 w3.
Proof.
  intros (l1 & E1 & M1) (l2 & E2 & M2). exists (l2 ++ l1). split; [|by apply mixed_app].
  by rewrite E2, E1, app_assoc.
Qed.

(** When the others cannot tell what the card tells, the card's events can be told apart. *)
Lemma tells_own P `{!forall x, Decision (P x)} own w w' :
  Forall (fun e => ~ P e) own -> tells P own w w' ->
  exists l, events w' = l ++ events w /\ filter (fun e => ~ P e) l = own.
Proof. intros Ho (l & He & Hm). exists l. split; [done|]. by apply mixed_filter. Qed.

(** The event that [issue_event] puts in the mailbox of a queue. *)
Definition told (w : World) (eq : handle) (ev : ptl_event) : list (mailbox * ptl_event) :=
  if (eq =? PTL_EQ_NONE)%N then [] else
  match w_eqs w !! eq with Some e => [(eq_mailbox e, ev)] | None => [] end.

(** ** What an event is made of *)

Definition me_identity (m : BxiME) := (bme_me m, bme_list m, bme_pt m, bme_user_ptr m).
Definition pt_identity (p : BxiPT) := (pt_eq p, pt_index p).
Definition ni_identity (i : BxiNI) := (ni_node i, ni_pid i).
Definition node_identity (n : BxiNode) := (nd_nid n, nd_use_real_memory n).
(** What the target reads of a request: what the call has asked for, and where it was received. *)
Definition req_call (q : BxiRequest) :=
  (rq_md q, rq_payload_size q, rq_local_offset q, rq_remote_offset q, rq_match_bits q, rq_hdr q).
Definition req_received (q : BxiRequest) := (req_call q, rq_start q, rq_mlength q).
Definition msg_identity (x : BxiMsg) := (ms_parent_request x, ms_ni_fail_type x).

Section Frames.
Context (mine : handle -> Prop) (P : mailbox * ptl_event -> Prop).

(** Calls whose card tells [own]: the queues of [mine] keep their mailboxes, and the configuration
    does not change. *)
Record adds (own : list (mailbox * ptl_event)) (w w' : World) : Prop := {
  ad_tells : tells P own w w';
  ad_eqs : kept mine eq_mailbox (w_eqs w) (w_eqs w');
  ad_config : w_config w' = w_config w }.

(** Calls whose card tells nothing. *)
Definition silent : World -> World -> Prop := adds [].

Lemma adds_trans own1 own2 w1 w2 w3 :
  adds own1 w1 w2 -> adds own2 w2 w3 -> adds (own2 ++ own1) w1 w3.
Proof.
  intros [T1 E1 C1] [T2 E2 C2].
  split; [by eapply tells_trans|by eapply kept_objects_trans|congruence].
Qed.
Lemma adds_silent_l own w1 w2 w3 : silent w1 w2 -> adds own w2 w3 -> adds own w1 w3.
Proof. intros H1 H2. pose proof (adds_trans _ _ _ _ _ H1 H2) as H. by rewrite app_nil_r in H. Qed.
Lemma adds_silent_r own w1 w2 w3 : adds own w1 w2 -> silent w2 w3 -> adds own w1 w3.
Proof. intros H1 H2. by apply (adds_trans _ _ _ _ _ H1 H2). Qed.

Lemma silent_frame w w' :
  events w' = events w -> w_eqs w' = w_eqs w -> w_config w' = w_config w -> silent w w'.
Proof. intros He Hq Hc. split; [by apply tells_same|by rewrite Hq|done]. Qed.

#[export] Instance silent_preorder : PreOrder silent.
Proof. split; [intros w; by apply silent_frame|]. intros w1 w2 w3. apply adds_silent_l. Qed.

(** Objects that an event is made of, [f] of the requests included, stay as they are. *)
Record stands {V} (f : BxiRequest -> V) (w w' : World) : Prop := {
  sd_next : (w_next w <= w_next w')%N;
  sd_nodes : kept mine node_identity (w_nodes w) (w_nodes w');
  sd_nis : kept mine ni_identity (w_nis w) (w_nis w');
  sd_msgs : kept (fun h => mine h /\ (h < w_next w)%N) msg_identity (w_msgs w) (w_msgs w');
  sd_pts : kept mine pt_identity (w_pts w) (w_pts w');
  sd_mes : kept mine me_identity (w_mes w) (w_mes w');
  sd_reqs : kept mine f (w_reqs w) (w_reqs w') }.

#[export] Instance stands_preorder {V} (f : BxiRequest -> V) : PreOrder (stands f).
Proof.
  split; [by intros w; split|].
  intros w1 w2 w3 [] []. split; try (by eapply kept_objects_trans); [lia|].
  eapply kept_objects_trans; [eassumption|]. eapply kept_sub; [|eassumption].
  intros h [? ?]. split; [done|lia].
Qed.

Lemma stands_factor {V W} (f : BxiRequest -> V) (g : BxiRequest -> W) w w' :
  (forall x y, f y = f x -> g y = g x) -> stands f w w' -> stands g w w'.
Proof. intros Hg []. split; try done. by eapply kept_factor. Qed.

(** Both. *)
Record settled {V} (f : BxiRequest -> V) (w w' : World) : Prop := {
  st_silent : silent w w';
  st_stands : stands f w w' }.

#[export] Instance settled_preorder {V} (f : BxiRequest -> V) : PreOrder (settled f).
Proof. split; [by intros w; split|]. intros w1 w2 w3 [] []. split; by etrans. Qed.
End Frames.

(** While the actor waits in a call to SimGrid, the others leave the objects of [mine] alone
    ([f] of its requests, the mailboxes of its queues), and tell only events that satisfy [P]. *)
Class Spares {V} (mine : handle -> Prop) (P : mailbox * ptl_event -> Prop) (f : BxiRequest -> V)
  (E : Env) := spares : forall c w, settled mine P f w (env_step c w).

(** Its two halves. *)
Class Discreet (mine : handle -> Prop) (P : mailbox * ptl_event -> Prop) (E : Env) :=
  discreet : forall c w, silent mine P w (env_step c w).
Class Undisturbed {V} (mine : handle -> Prop) (f : BxiRequest -> V) (E : Env) :=
  undisturbed : forall c w, stands mine f w (env_step c w).

#[export] Instance spares_discreet {V} mine P (f : BxiRequest -> V) E :
  Spares mine P f E -> Discreet mine P E.
Proof. intros S c w. apply S. Qed.
#[export] Instance spares_undisturbed {V} mine P (f : BxiRequest -> V) E :
  Spares mine P f E -> Undisturbed mine f E.
Proof. intros S c w. apply S. Qed.
#[export] Instance quiet_spares {V} mine P (f : BxiRequest -> V) (E : Env) :
  Quiet E -> Spares mine P f E.
Proof. intros Q c w. rewrite Q. reflexivity. Qed.

#[export] Hint Extern 0 (Discreet _ _ _) => typeclasses eauto : progress.
#[export] Hint Extern 0 (Undisturbed _ _ _) => typeclasses eauto : progress.

(** ** Calls that tell nothing *)

#[export] Hint Extern 2 (keeps (silent _ _) (update _ _) _) =>
  apply keeps_update; intros; by apply silent_frame : progress.
#[export] Hint Extern 2 (keeps (silent _ _) (free _) _) =>
  apply keeps_free; by apply silent_frame : progress.
#[export] Hint Extern 2 (keeps (silent _ _) (new _) _) =>
  by intros ?? [= _ <-]; apply silent_frame : progress.
#[export] Hint Extern 2 (keeps (silent _ _) (modify _) _) =>
  apply keeps_modify; by apply silent_frame : progress.

Section Silent.
Context `{E : Env} (mine : handle -> Prop) (P : mailbox * ptl_event -> Prop).
Context `{!Discreet mine P E}.

Lemma sim_silent c w : event_of c = None -> keeps (silent mine P) (sim c) w.
Proof.
  intros Hc u w'. unfold sim. intros [= _ <-]. etransitivity; [|apply discreet].
  apply silent_frame; [|done|done]. unfold events. cbn. by rewrite Hc.
Qed.
Hint Extern 2 (keeps (silent _ _) (sim _) _) => by apply sim_silent : progress.

Lemma BxiEngine_log_silent l w : keeps (silent mine P) (BxiEngine_log l) w.
Proof. unfold BxiEngine_log, log_write. walk. Qed.
Hint Resolve BxiEngine_log_silent : progress.
Lemma with_log_silent t i g body w :
  (forall w', keeps (silent mine P) body w') -> keeps (silent mine P) (with_log t i g body) w.
Proof. intros Hb. unfold with_log. walk. Qed.
Hint Resolve with_log_silent : progress.
Lemma CONFIG_AND_silent n l g w : keeps (silent mine P) (S4BXI_CONFIG_AND n l g) w.
Proof. unfold S4BXI_CONFIG_AND, S4BXI_GLOBAL_CONFIG. walk. Qed.
Hint Resolve CONFIG_AND_silent : progress.
Lemma pci_transfer_silent n s d t w : keeps (silent mine P) (pci_transfer n s d t) w.
Proof. unfold pci_transfer. walk. Qed.
Hint Resolve pci_transfer_silent : progress.
Lemma BxiQueue_put_silent q m size w : keeps (silent mine P) (BxiQueue_put q m size true) w.
Proof. unfold BxiQueue_put. walk. Qed.

(** A queue that the card can tell something to: none, or one of [mine]. *)
Definition queue_known (w : World) (eq : handle) : Prop :=
  eq = PTL_EQ_NONE \/ mine eq /\ is_Some (w_eqs w !! eq).

Lemma told_kept own w w' eq ev :
  adds mine P own w w' -> queue_known w eq -> told w' eq ev = told w eq ev.
Proof.
  intros [_ Hq _] [->|[Hm [e He]]]; [done|]. unfold told. rewrite He.
  destruct (Hq _ _ Hm He) as (e' & -> & <-). done.
Qed.
Lemma queue_known_kept own w w' eq :
  adds mine P own w w' -> queue_known w eq -> queue_known w' eq.
Proof.
  intros [_ Hq _] [->|[Hm [e He]]]; [by left|right]. split; [done|].
  destruct (Hq _ _ Hm He) as (e' & -> & _). by exists e'.
Qed.

Lemma issue_event_told node eq ev w u w' :
  queue_known w eq -> issue_event node eq ev w = Ok u w' -> adds mine P (told w eq ev) w w'.
Proof.
  intros Hk. unfold issue_event. destruct (eq =? PTL_EQ_NONE)%N eqn:Hnone.
  { intros [= _ <-]. unfold told. rewrite Hnone. reflexivity. }
  intros (b & w1 & H1 & H)%bind_Ok. apply bind_Ok in H as (u2 & w2 & H2 & H).
  apply (keeps_use (silent mine P)) in H1; [|walk]. apply (keeps_use (silent mine P)) in H2; [|walk].
  assert (silent mine P w w2) as S by by etrans.
  apply bind_Ok in H as (e & w3 & [-> He]%load_inv & [= _ <-]).
  rewrite <- (told_kept _ _ _ _ ev S Hk). eapply adds_silent_l; [exact S|].
  eapply adds_silent_r; [|apply discreet]. cbn in He.
  split; [|by apply kept_objects_refl|done]. exists (told w2 eq ev).
  unfold told. rewrite Hnone, He. split; [done|apply mixed_refl].
Qed.
End Silent.

(** ** Calls that leave the objects alone *)

#[export] Hint Extern 2 (keeps (stands _ _) (update _ _) _) =>
  apply keeps_update; intros; split; try done; by eapply kept_objects_insert : progress.
#[export] Hint Extern 2 (keeps (stands _ _) (modify _) _) =>
  apply keeps_modify; by split : progress.
#[export] Hint Extern 2 (keeps (settled _ _ _) (update _ _) _) =>
  apply keeps_update; intros; split;
  [by apply silent_frame|split; try done; by eapply kept_objects_insert] : progress.
#[export] Hint Extern 2 (keeps (settled _ _ _) (modify _) _) =>
  apply keeps_modify; split; [by apply silent_frame|by split] : progress.

Section Stands.
Context `{E : Env} (mine : handle -> Prop) {V : Type} (f : BxiRequest -> V).

Lemma new_msg_stands y w : keeps (stands mine f) (new (T := BxiMsg) y) w.
Proof. intros h w' [= <- <-]. split; try done; [cbn; lia|]. apply kept_objects_new. Qed.

Context `{!Undisturbed mine f E}.

Lemma sim_stands c w : keeps (stands mine f) (sim c) w.
Proof.
  intros u w'. unfold sim. intros [= _ <-]. etransitivity; [|apply undisturbed]. by split.
Qed.
Hint Resolve sim_stands : progress.
Lemma on_update_fuel_stands k ct i w : keeps (stands mine f) (on_update_fuel k ct i) w.
Proof.
  revert i w. induction k; intros i w; cbn [on_update_fuel]; unfold wake_up, free_random_mailbox;
    walk.
Qed.
Lemma BxiEngine_log_stands l w : keeps (stands mine f) (BxiEngine_log l) w.
Proof. unfold BxiEngine_log, log_write. walk. Qed.
Hint Resolve BxiEngine_log_stands : progress.
Lemma issue_event_stands n eq ev w : keeps (stands mine f) (issue_event n eq ev) w.
Proof.
  unfold issue_event, S4BXI_CONFIG_AND, S4BXI_GLOBAL_CONFIG, pci_transfer, with_log. walk.
Qed.
End Stands.
#[export] Hint Resolve new_msg_stands sim_stands on_update_fuel_stands : progress.

Section Settled.
Context `{E : Env} (mine : handle -> Prop) (P : mailbox * ptl_event -> Prop).
Context {V : Type} (f : BxiRequest -> V).

Lemma CONFIG_OR_settled n l g w : keeps (settled mine P f) (S4BXI_CONFIG_OR n l g) w.
Proof. unfold S4BXI_CONFIG_OR, S4BXI_GLOBAL_CONFIG. walk. Qed.
Lemma CONFIG_AND_settled n l g w : keeps (settled mine P f) (S4BXI_CONFIG_AND n l g) w.
Proof. unfold S4BXI_CONFIG_AND, S4BXI_GLOBAL_CONFIG. walk. Qed.
Lemma new_msg_settled y w : keeps (settled mine P f) (new (T := BxiMsg) y) w.
Proof.
  intros h w' H. split; [|by eapply new_msg_stands]. injection H as <- <-. by apply silent_frame.
Qed.
Hint Resolve CONFIG_OR_settled CONFIG_AND_settled new_msg_settled : progress.

Context `{!Spares mine P f E}.

Lemma sim_settled c w : event_of c = None -> keeps (settled mine P f) (sim c) w.
Proof.
  intros Hc u w' H.
  split; [exact (sim_silent mine P c w Hc u w' H)|exact (sim_stands mine f c w u w' H)].
Qed.
Hint Extern 2 (keeps (settled _ _ _) (sim _) _) => by apply sim_settled : progress.

Lemma on_update_fuel_settled k ct i w : keeps (settled mine P f) (on_update_fuel k ct i) w.
Proof.
  revert i w. induction k; intros i w; cbn [on_update_fuel]; unfold wake_up, free_random_mailbox;
    walk.
Qed.
Lemma BxiEngine_log_settled l w : keeps (settled mine P f) (BxiEngine_log l) w.
Proof. unfold BxiEngine_log, log_write. walk. Qed.
Hint Resolve BxiEngine_log_settled : progress.
Lemma with_log_settled t i g body w :
  (forall w', keeps (settled mine P f) body w') -> keeps (settled mine P f) (with_log t i g body) w.
Proof. intros Hb. unfold with_log. walk. Qed.
Lemma BxiQueue_put_settled q m size w : keeps (settled mine P f) (BxiQueue_put q m size true) w.
Proof. unfold BxiQueue_put. walk. Qed.
End Settled.
#[export] Hint Resolve CONFIG_OR_settled CONFIG_AND_settled new_msg_settled : progress.
#[export] Hint Extern 2 (keeps (silent _ _) (sim _) _) => by apply sim_silent : progress.
#[export] Hint Extern 2 (keeps (settled _ _ _) (sim _) _) => by apply sim_settled : progress.
#[export] Hint Extern 0 (Spares _ _ _ _) => typeclasses eauto : progress.
#[export] Hint Resolve BxiEngine_log_silent with_log_silent CONFIG_AND_silent pci_transfer_silent
  BxiQueue_put_silent BxiEngine_log_settled with_log_settled BxiQueue_put_settled
  on_update_fuel_settled : progress.
