(* ===== verification/Deliver.v ===== *)
(** Theorems about the payloads: where a put writes and what a get reads ([Target.v]), whatever
    the other actors do meanwhile as long as they leave the memory of the processes alone. *)
From S2P Require Import Prelude Portals World Logic Engine Queue Messages Node Counters Entries.
From S2P Require Import E2E Atomics Memory NicActor Target FlowControl Progress Matching.
From S2P Require Import Waiting Reliability Frames.

(** The other actors neither write the memory of the processes nor change the configuration. *)
Class KeepsMemory (E : Env) := keeps_memory : forall c w, same_mem w (env_step c w).

#[export] Instance quiet_keeps_memory `{E : Env, !Quiet E} : KeepsMemory E.
Proof. intros c w. by rewrite quiet. Qed.

#[export] Hint Extern 0 (KeepsMemory _) => typeclasses eauto : progress.

(** ** The calls that leave the memory alone *)

#[export] Hint Extern 2 (keeps same_mem (update _ _) _) => apply keeps_update; intros; done : progress.
#[export] Hint Extern 2 (keeps same_mem (free _) _) => apply keeps_free; done : progress.
#[export] Hint Extern 2 (keeps same_mem (new _) _) => by intros ?? [= _ <-] : progress.
#[export] Hint Extern 2 (keeps same_mem (modify _) _) => apply keeps_modify; done : progress.

Section SameMem.
Context `{E : Env, !KeepsMemory E}.

Lemma sim_mem c w : keeps same_mem (sim c) w.
Proof. intros u w'. unfold sim. intros [= _ <-]. etransitivity; [|apply keeps_memory]. done. Qed.
Hint Resolve sim_mem : progress.

Lemma cast_request_mem p r w : keeps same_mem (cast_request p r) w.
Proof. unfold cast_request. walk. Qed.
Lemma BxiEngine_log_mem l w : keeps same_mem (BxiEngine_log l) w.
Proof. unfold BxiEngine_log, log_write. walk. Qed.
Hint Resolve cast_request_mem BxiEngine_log_mem : progress.
Lemma with_log_mem t i g body w :
  (forall w', keeps same_mem body w') -> keeps same_mem (with_log t i g body) w.
Proof. intros Hb. unfold with_log. walk. Qed.
Hint Resolve with_log_mem : progress.
Lemma BxiQueue_put_mem q m size async w : keeps same_mem (BxiQueue_put q m size async) w.
Proof. unfold BxiQueue_put. walk. Qed.
Lemma CONFIG_AND_mem n l g w : keeps same_mem (S4BXI_CONFIG_AND n l g) w.
Proof. unfold S4BXI_CONFIG_AND, S4BXI_GLOBAL_CONFIG. walk. Qed.
Lemma CONFIG_OR_mem n l g w : keeps same_mem (S4BXI_CONFIG_OR n l g) w.
Proof. unfold S4BXI_CONFIG_OR, S4BXI_GLOBAL_CONFIG. walk. Qed.
Hint Resolve BxiQueue_put_mem CONFIG_AND_mem CONFIG_OR_mem : progress.
Lemma pci_transfer_mem n s d t w : keeps same_mem (pci_transfer n s d t) w.
Proof. unfold pci_transfer. walk. Qed.
Hint Resolve pci_transfer_mem : progress.
Lemma issue_event_mem n eq ev w : keeps same_mem (issue_event n eq ev) w.
Proof. unfold issue_event. walk. Qed.
Lemma resume_fuel_mem k n vn w : keeps same_mem (resume_fuel k n vn) w.
Proof. revert w. induction k; intros w; cbn [resume_fuel]; walk. Qed.
Hint Resolve issue_event_mem resume_fuel_mem : progress.
Lemma release_e2e_entry_mem n t vn sp dp w : keeps same_mem (release_e2e_entry n t vn sp dp) w.
Proof.
  unfold release_e2e_entry, release_node_credit, release_process_credit,
    resume_waiting_tx_actors. walk.
Qed.
Hint Resolve release_e2e_entry_mem : progress.

Lemma wake_up_mem a w : keeps same_mem (wake_up a) w.
Proof. unfold wake_up, free_random_mailbox. walk. Qed.
Hint Resolve wake_up_mem : progress.
Lemma on_update_fuel_mem k ct i w : keeps same_mem (on_update_fuel k ct i) w.
Proof. revert i w. induction k; intros i w; cbn [on_update_fuel]; walk. Qed.
Hint Resolve on_update_fuel_mem : progress.
Lemma increment_success_mem ct a w : keeps same_mem (increment_success ct a) w.
Proof. unfold increment_success, on_update. walk. Qed.
Hint Resolve increment_success_mem : progress.
Lemma BxiMD_increment_ct_mem md b w : keeps same_mem (BxiMD_increment_ct md b) w.
Proof. unfold BxiMD_increment_ct. walk. Qed.
Lemma BxiME_unlink_mem me w : keeps same_mem (BxiME_unlink me) w.
Proof. unfold BxiME_unlink. walk. Qed.
Hint Resolve BxiMD_increment_ct_mem BxiME_unlink_mem : progress.
Lemma maybe_auto_unlink_mem me w : keeps same_mem (maybe_auto_unlink me) w.
Proof. unfold maybe_auto_unlink, pt_node. walk. Qed.
Hint Resolve maybe_auto_unlink_mem : progress.

Lemma issue_ack_mem r t w : keeps same_mem (issue_ack r t) w.
Proof. unfold issue_ack. walk. Qed.
Lemma maybe_issue_send_mem r w : keeps same_mem (maybe_issue_send r) w.
Proof. unfold maybe_issue_send. walk. Qed.
Lemma answer_msg_mem msg t w : keeps same_mem (answer_msg msg t) w.
Proof. unfold answer_msg, BxiMsg_copy, incr_msg_ref_count, set_msg. walk. Qed.
Hint Resolve issue_ack_mem maybe_issue_send_mem answer_msg_mem : progress.
Lemma send_ack_mem n q m t f w : keeps same_mem (send_ack n q m t f) w.
Proof. unfold send_ack, set_msg, set_request. walk. Qed.
Lemma put_like_ev_mem n me m k w : keeps same_mem (put_like_req_ev_processing n me m k) w.
Proof. unfold put_like_req_ev_processing, initiator_of. walk. Qed.
Lemma finish_entry_mem me b w : keeps same_mem (finish_entry me b) w.
Proof. unfold finish_entry. walk. Qed.
Lemma count_comm_mem r me w : keeps same_mem (count_comm r me) w.
Proof. unfold count_comm, BxiME_increment_ct. walk. Qed.
Lemma ack_policy_mem b md w : keeps same_mem (ack_policy b md) w.
Proof. unfold ack_policy, md_e2e_off. walk. Qed.
Lemma payload_write_mem n m w : keeps same_mem (payload_write n m) w.
Proof. unfold payload_write. walk. Qed.
Lemma size_response_mem m r w : keeps same_mem (size_response m r) w.
Proof. unfold size_response, received_range, set_msg. walk. Qed.
Hint Resolve send_ack_mem put_like_ev_mem finish_entry_mem count_comm_mem ack_policy_mem
  payload_write_mem size_response_mem : progress.
Lemma release_entry_mem me w : keeps same_mem (release_entry me) w.
Proof. unfold release_entry, set_me. walk. Qed.
Hint Resolve release_entry_mem : progress.
End SameMem.
#[export] Hint Resolve sim_mem cast_request_mem BxiQueue_put_mem CONFIG_AND_mem CONFIG_OR_mem
  issue_event_mem answer_msg_mem send_ack_mem put_like_ev_mem finish_entry_mem count_comm_mem
  ack_policy_mem payload_write_mem size_response_mem release_entry_mem : progress.

(** ** What matching and receiving a request leave *)

(** What matching may change around the message [msg]: entries are marked as used, messages and
    requests are counted, and tables record headers. *)
Record marks (msg : handle) (w w' : World) : Prop := {
  mk_mem : same_mem w w';
  mk_nodes : w_nodes w' = w_nodes w;
  mk_nis : w_nis w' = w_nis w;
  mk_msg : forall x, w_msgs w !! msg = Some x ->
    exists x', w_msgs w' !! msg = Some x' /\ ms_parent_request x' = ms_parent_request x;
  mk_reqs : forall r q, w_reqs w !! r = Some q ->
    exists c, w_reqs w' !! r = Some (q <| rq_msg_ref_count := c |>);
  mk_mes : forall h m, w_mes w !! h = Some m ->
    exists u, w_mes w' !! h = Some (m <| bme_used := u |>) }.

#[export] Instance marks_preorder msg : PreOrder (marks msg).
Proof.
  split.
  - intros w. split; [reflexivity|done|done|eauto| |].
    + intros r q Hq. exists (rq_msg_ref_count q). rewrite Hq. by destruct q.
    + intros h m Hm. exists (bme_used m). rewrite Hm. by destruct m.
  - intros w1 w2 w3 [M N I X R S] [M' N' I' X' R' S']. split.
    + by transitivity w2.
    + congruence.
    + congruence.
    + intros x (x1 & H1 & <-)%X. by apply X' in H1.
    + intros r q (c & Hc)%R. apply R' in Hc as (c' & Hc). by exists c'.
    + intros h m (u & Hu)%S. apply S' in Hu as (u' & Hu). by exists u'.
Qed.

Lemma marks_no_store msg w w' :
  same_mem w w' -> w_nodes w' = w_nodes w -> w_nis w' = w_nis w -> w_msgs w' = w_msgs w ->
  w_reqs w' = w_reqs w -> w_mes w' = w_mes w -> marks msg w w'.
Proof.
  intros Hm Hn Hi Hx Hr He. split; try done; rewrite ?Hx, ?Hr, ?He; eauto.
  - intros r q Hq. exists (rq_msg_ref_count q). rewrite Hq. by destruct q.
  - intros h m Hq. exists (bme_used m). rewrite Hq. by destruct m.
Qed.

Lemma marks_me msg w h m :
  w_mes w !! h = Some m -> marks msg w (w <| w_mes ::= <[h := m <| bme_used := true |>]> |>).
Proof.
  intros Hm. destruct (marks_no_store msg w w) as [M N I X R _]; try done.
  split; try done. intros h' m' Hm'. cbn. destruct (decide (h' = h)) as [->|].
  - rewrite lookup_insert_eq. exists true. congruence.
  - rewrite lookup_insert_ne by done. exists (bme_used m'). rewrite Hm'. by destruct m'.
Qed.

Lemma marks_insert_msg msg w h y :
  (h = msg -> exists x, w_msgs w !! h = Some x /\ ms_parent_request y = ms_parent_request x) ->
  marks msg w (w <| w_msgs ::= <[h := y]> |>).
Proof.
  intros Hp. destruct (marks_no_store msg w w) as [M N I X R S]; try done.
  split; try done. intros x0 Hx0. cbn. destruct (decide (msg = h)) as [->|].
  - rewrite lookup_insert_eq. destruct (Hp eq_refl) as (x1 & H1 & H2). eexists. split; [done|]. congruence.
  - rewrite lookup_insert_ne by done. eauto.
Qed.

Lemma marks_msg msg w h x y :
  w_msgs w !! h = Some x -> ms_parent_request y = ms_parent_request x ->
  marks msg w (w <| w_msgs ::= <[h := y]> |>).
Proof. intros Hx Hy. apply marks_insert_msg. eauto. Qed.

Lemma marks_req msg w r q c :
  w_reqs w !! r = Some q -> marks msg w (w <| w_reqs ::= <[r := q <| rq_msg_ref_count := c |>]> |>).
Proof.
  intros Hq. destruct (marks_no_store msg w w) as [M N I X _ S]; try done.
  split; try done. intros r' q' Hq'. cbn. destruct (decide (r' = r)) as [->|].
  - rewrite lookup_insert_eq. exists c. congruence.
  - rewrite lookup_insert_ne by done. exists (rq_msg_ref_count q'). rewrite Hq'. by destruct q'.
Qed.

#[export] Hint Extern 2 (keeps (marks _) (update _ _) _) =>
  apply keeps_update; intros;
  first [ by apply marks_no_store | by apply marks_me
        | by eapply marks_msg
        | eapply marks_req; eassumption ] : progress.

Section Marks.
Context `{E : Env} (msg : handle).

Lemma first_match_marks l q w : keeps (marks msg) (first_match l q) w.
Proof. induction l; cbn [first_match]; walk. Qed.
Hint Resolve first_match_marks : progress.
Lemma walk_through_lists_marks pt m w : keeps (marks msg) (walk_through_lists pt m) w.
Proof. unfold walk_through_lists. walk. Qed.
Hint Resolve walk_through_lists_marks : progress.
Lemma match_in_nis_marks nis m r w : keeps (marks msg) (match_in_nis nis m r) w.
Proof. revert w. induction nis; intros w; cbn [match_in_nis]; walk. Qed.
Hint Resolve match_in_nis_marks : progress.
Lemma match_entry_marks n m w : keeps (marks msg) (match_entry n m) w.
Proof. unfold match_entry. walk. Qed.
Hint Resolve match_entry_marks : progress.
Lemma new_msg_marks x y w :
  w_msgs w !! msg = Some x -> ms_parent_request y = ms_parent_request x ->
  keeps (marks msg) (new (T := BxiMsg) y) w.
Proof.
  intros Hx Hy h w' [= <- <-]. transitivity (w <| w_msgs ::= <[w_next w := y]> |>).
  - apply marks_insert_msg. intros ->. eauto.
  - by apply marks_no_store.
Qed.
Lemma BxiMsg_copy_marks w : keeps (marks msg) (BxiMsg_copy msg) w.
Proof.
  unfold BxiMsg_copy, incr_msg_ref_count. walk_step. walk_step; [by eapply new_msg_marks|walk].
Qed.
Hint Resolve BxiMsg_copy_marks : progress.
Lemma new_response_marks n t w : keeps (marks msg) (new_response n msg t) w.
Proof. unfold new_response, answer_msg, set_msg. walk. Qed.
End Marks.

(** The address an entry gives to a request, and the number of bytes it accepts. *)
Definition entry_addr (m : BxiME) (q : BxiRequest) : Z := fst (fst (offsetted_addr m q true)).

(** What a received request holds: where its payload starts in the entry, and how long it is. *)
Record received (r me : handle) (m : BxiME) (q : BxiRequest) (w w' : World) : Prop := {
  rc_mem : same_mem w w';
  rc_nodes : w_nodes w' = w_nodes w;
  rc_nis : w_nis w' = w_nis w;
  rc_req : exists q', w_reqs w' !! r = Some q' /\ rq_md q' = rq_md q /\
    rq_local_offset q' = rq_local_offset q /\ rq_start q' = Some (entry_addr m q) /\
    rq_mlength q' = Some (get_mlength m q);
  rc_me : exists m', w_mes w' !! me = Some m' /\ bme_me m' = bme_me m }.

Lemma start_received `{E : Env} r msg me m q x w u w' :
  w_msgs w !! msg = Some x -> ms_parent_request x = r ->
  w_reqs w !! r = Some q -> w_mes w !! me = Some m ->
  (start ← get_offsetted_addr me msg true;
   update (T := BxiRequest) r (fun q => q <| rq_start := Some start |>)) w = Ok u w' ->
  same_mem w w' /\ w_nodes w' = w_nodes w /\ w_nis w' = w_nis w /\
  (exists o, w_mes w' !! me = Some (m <| bme_manage_local_offset := o |>)) /\
  exists t, w_reqs w' !! r =
    Some (q <| rq_target_remote_offset := t |> <| rq_start := Some (entry_addr m q) |>).
Proof.
  intros Hx <- Hq Hm. unfold get_offsetted_addr, entry_addr.
  intros (a & w1 & Ho & H)%bind_Ok. revert Ho. step_load. step_load. step_load.
  destruct (offsetted_addr m q true) as [[addr off] toff]. step_update.
  set (q1 := over rq_target_remote_offset _ _). set (w2 := on_objects _ w).
  assert (w_mes w2 !! me = Some m) as Hm2 by done. step_update.
  intros [= <- <-]. set (w3 := over w_mes _ w2) in H.
  assert (w_reqs w3 !! ms_parent_request x = Some q1) as Hq3 by apply lookup_insert_eq.
  revert H. run_update. intros [= _ <-]. split_and!; try done.
  - exists off. apply lookup_insert_eq.
  - exists (Some toff). apply lookup_insert_eq.
Qed.

Lemma receive_request_received `{E : Env} r msg me keep m q x w u w' :
  w_msgs w !! msg = Some x -> ms_parent_request x = r ->
  w_reqs w !! r = Some q -> w_mes w !! me = Some m ->
  receive_request r msg me keep w = Ok u w' -> received r me m q w w'.
Proof.
  intros Hx Hr Hq Hm. unfold receive_request, set_me, set_request. step_update.
  set (m1 := m <| bme_in_use := true |>). set (w1 := on_objects _ w).
  assert (w_mes w1 !! me = Some m1) as Hm1 by apply lookup_insert_eq. step_load.
  set (q2 := if keep m1 then q <| rq_matched_me := Some (BxiME_copy m1) |> else q).
  assert (exists w2, (when (keep m1) (update r (fun q => q <| rq_matched_me := Some (BxiME_copy m1) |>))) w1
      = Ok tt w2 /\ w_reqs w2 !! r = Some q2 /\ w_mes w2 !! me = Some m1 /\
      w_msgs w2 !! msg = Some x /\ same_mem w w2 /\ w_nodes w2 = w_nodes w /\ w_nis w2 = w_nis w)
    as (w2 & Hw & Hq2 & Hm2 & Hx2 & [HM HC] & HN & HI).
  { assert (w_reqs w1 !! r = Some q) as Hq1 by done. unfold q2.
    destruct (keep m1); cbn [when]; [run_update|]; eexists; (split; [done|]); split_and!; try done.
    apply lookup_insert_eq. }
  rewrite (bind_run _ _ w1 tt w2 Hw).
  assert (entry_addr m1 q2 = entry_addr m q /\ get_mlength m1 q2 = get_mlength m q /\
    rq_md q2 = rq_md q /\ rq_local_offset q2 = rq_local_offset q) as (Ea & El & Emd & Eo)
    by (unfold q2; by destruct (keep m1)).
  step_update. set (q3 := over rq_process_state _ q2). set (w3 := on_objects _ w2).
  assert (w_reqs w3 !! r = Some q3) as Hq3 by apply lookup_insert_eq.
  step_update. set (q4 := over rq_mlength _ q3). set (w4 := on_objects _ w3).
  assert (w_reqs w4 !! r = Some q4) as Hq4 by apply lookup_insert_eq.
  assert (w_mes w4 !! me = Some m1) as Hm4 by done.
  assert (w_msgs w4 !! msg = Some x) as Hx4 by done.
  intros ([HM' HC'] & HN' & HI' & (o & Ho) & t & Ht)%(start_received _ _ _ _ _ _ _ _ _ Hx4 Hr Hq4 Hm4).
  split; [split; [rewrite HM'; exact HM|rewrite HC'; exact HC]|rewrite HN'; exact HN
         |rewrite HI'; exact HI| |by eexists].
  eexists. split; [exact Ht|]. rewrite <- Emd, <- Eo, <- Ea, <- El. done.
Qed.

(** ** Puts and gets *)

Lemma config_and `{E : Env} node n local global w :
  w_nodes w !! node = Some n ->
  S4BXI_CONFIG_AND node local global w = Ok (local n && global (w_config w)) w.
Proof. intros Hn. unfold S4BXI_CONFIG_AND. step_load. by destruct (local n). Qed.

Lemma received_range_eq r q start mlength w :
  w_reqs w !! r = Some q -> rq_start q = Some start -> rq_mlength q = Some mlength ->
  received_range r w = Ok (start, mlength) w.
Proof. intros Hq Hs Hl. unfold received_range. step_load. by rewrite Hs, Hl. Qed.

(** Where the payload of a request is in the memory of its initiator. *)
Definition md_addr (q : BxiRequest) : Z :=
  add64 (md_start (bmd_md (rq_md q))) (rq_local_offset q).

(** How many bytes of a payload are copied: none without real memory, or when the other end
    ([len] bytes) is empty. *)
Definition moved (n : BxiNode) (cfg : s4bxi_config) (len mlength : Z) : Z :=
  if nd_use_real_memory n && use_real_memory cfg && negb (len =? 0) then cap cfg mlength else 0.

Section Payloads.
Context `{E : Env, !KeepsMemory E}.

Lemma copy_put_payload_spec node r me m q n w w1 u w2 :
  received r me m q w w1 -> w_nodes w !! node = Some n ->
  copy_put_payload node r w1 = Ok u w2 ->
  w_config w2 = w_config w /\ forall a, w_mem w2 !! a =
    copied (w_mem w) (entry_addr m q) (md_addr q)
      (moved n (w_config w) (md_length (bmd_md (rq_md q))) (get_mlength m q)) a.
Proof.
  intros [[HM HC] HN HI (q' & Hq' & Emd & Eo & Es & El) _] Hn. unfold copy_put_payload.
  assert (w_nodes w1 !! node = Some n) as Hn1 by by rewrite HN.
  rewrite (bind_run _ _ _ _ _ (config_and _ _ _ _ _ Hn1)). step_load. rewrite HC, Emd, Eo.
  unfold moved. destruct (_ && _ && _); cbn [when].
  - rewrite (bind_run _ _ _ _ _ (received_range_eq _ _ _ _ _ Hq' Es El)).
    intros [Ho Hx]%capped_memcpy_spec. rewrite Ho. split; [done|]. intros a.
    rewrite Hx, HC. unfold copied. by rewrite HM.
  - intros [= _ <-]. split; [done|]. intros a. by rewrite copied_nothing, HM by lia.
Qed.

(** A put that is executed copies its payload where it matched and nowhere else: the bytes at
    the initiator's local offset go to the address the entry gives, truncated to what the entry
    accepts (and to [max_memcpy]); no other byte of memory changes, and none when no entry
    matched. *)
Theorem put_writes_payload node tx_queue msg x q n code matched w w1 u w' :
  w_msgs w !! msg = Some x -> w_reqs w !! ms_parent_request x = Some q ->
  rq_process_state q = S4BXI_REQ_CREATED -> w_nodes w !! node = Some n ->
  match_entry node msg w = Ok (code, matched) w1 ->
  handle_put_request node tx_queue msg w = Ok u w' ->
  forall a,
    match matched with
    | Some me => forall m, w_mes w !! me = Some m -> w_mem w' !! a =
        copied (w_mem w) (entry_addr m q) (md_addr q)
          (moved n (w_config w) (md_length (bmd_md (rq_md q))) (get_mlength m q)) a
    | None => w_mem w' !! a = w_mem w !! a
    end.
Proof.
  intros Hx Hq Hs Hn Hme H a. revert H. unfold handle_put_request. step_load.
  unfold cast_request. intros (q0 & w0 & Hc & H)%bind_Ok. revert Hc. step_load.
  destruct (is_put_like (rq_class q)); [|done]. intros [= <- <-].
  rewrite Hs in H. cbn in H. rewrite (bind_run _ _ _ _ _ Hme) in H.
  pose proof (match_entry_marks msg _ _ _ _ _ Hme) as [[HM HC] HN HI HX HR HE].
  apply bind_Ok in H as (ack & w2 & Hin & Hout).
  apply (keeps_use same_mem) in Hout as [HM' _]; [|unfold set_msg; walk].
  destruct matched as [me|].
  2:{ injection Hin as _ <-. by rewrite HM', HM. }
  intros m Hm.
  apply HE in Hm as (b & Hm1). apply HR in Hq as (c & Hq1). apply HX in Hx as (x1 & Hx1 & Ex).
  apply bind_Ok in Hin as (t & w3 & Hrc & Hin).
  eapply receive_request_received in Hrc; [|eassumption..].
  apply bind_Ok in Hin as (t' & w4 & Hcp & Hin).
  eapply copy_put_payload_spec in Hcp as [_ Hmem]; [|exact Hrc|by rewrite HN].
  apply (keeps_use same_mem) in Hin as [HM4 _]; [|unfold set_me; walk].
  rewrite HM', HM4, Hmem, HM, HC. done.
Qed.
End Payloads.

(** A get makes calls to SimGrid between its reception and its copy: the other actors must leave
    its request, its entry, and the node of its initiator as they are. *)
Section Reads.
Context `{E : Env, !KeepsMemory E} (mine : handle -> Prop).
Context `{!Undisturbed mine req_received E}.

Lemma count_comm_stands r me w : keeps (stands mine req_received) (count_comm r me) w.
Proof. unfold count_comm, BxiME_increment_ct, increment_success, on_update. walk. Qed.
Lemma size_response_stands m r w : keeps (stands mine req_received) (size_response m r) w.
Proof. unfold size_response, received_range, set_msg. walk. Qed.

Lemma copy_get_payload_spec r me m q ni n w w1 w2 u w3 :
  mine r -> mine me -> mine (bmd_ni (rq_md q)) -> mine (ni_node ni) ->
  received r me m q w w1 -> same_mem w1 w2 -> stands mine req_received w1 w2 ->
  w_nis w !! bmd_ni (rq_md q) = Some ni -> w_nodes w !! ni_node ni = Some n ->
  copy_get_payload r me w2 = Ok u w3 ->
  forall a, w_mem w3 !! a =
    copied (w_mem w) (md_addr q) (entry_addr m q)
      (moved n (w_config w) (me_length (bme_me m)) (get_mlength m q)) a.
Proof.
  intros Mr Mm Mi Mn [[HM HC] HN HI (q' & Hq' & Emd & Eo & Es & El) (m' & Hm' & Em)].
  intros [HM2 HC2] S Hni Hn. unfold copy_get_payload.
  rewrite <- HI in Hni. rewrite <- HN in Hn.
  destruct (sd_reqs _ _ _ _ S _ _ Mr Hq') as (q2 & Hq2 & Eq2).
  destruct (sd_mes _ _ _ _ S _ _ Mm Hm') as (m2 & Hm2 & Em2).
  destruct (sd_nis _ _ _ _ S _ _ Mi Hni) as (ni2 & Hni2 & Ei2).
  destruct (sd_nodes _ _ _ _ S _ _ Mn Hn) as (n2 & Hn2 & En2).
  unfold req_received, req_call, me_identity, ni_identity, node_identity in *.
  injection Eq2 as Emd2 _ Elo2 _ _ _ Es2 El2. injection Em2 as Em2 _ _ _.
  injection Ei2 as Ei2 _. injection En2 as _ En2.
  rewrite <- Emd, <- Emd2 in Hni2. rewrite <- Ei2 in Hn2. step_load. step_load.
  rewrite (bind_run _ _ _ _ _ (config_and _ _ _ _ _ Hn2)). step_load.
  rewrite HC2, HC, Em2, Em, Elo2, Eo, Emd2, Emd, En2. unfold moved. intros H a. revert H.
  destruct (_ && _ && _); cbn [when].
  - rewrite Es in Es2. rewrite El in El2.
    rewrite (bind_run _ _ _ _ _ (received_range_eq _ _ _ _ _ Hq2 Es2 El2)).
    intros [_ Hx]%capped_memcpy_spec. rewrite Hx, HC2, HC. unfold copied. by rewrite HM2, HM.
  - intros [= _ <-]. by rewrite copied_nothing, HM2, HM by lia.
Qed.

(** A get that is executed copies the bytes of the entry it matched, from the address the
    entry gives, to the initiator's local offset, truncated to what the entry holds (and to
    [max_memcpy]); no other byte of memory changes, and none when no entry matched. *)
Theorem get_reads_payload node tx_queue msg x q ni n response matched w w1 u w' :
  mine (ms_parent_request x) -> mine (bmd_ni (rq_md q)) -> mine (ni_node ni) ->
  w_msgs w !! msg = Some x -> w_reqs w !! ms_parent_request x = Some q ->
  rq_process_state q = S4BXI_REQ_CREATED ->
  w_nis w !! bmd_ni (rq_md q) = Some ni -> w_nodes w !! ni_node ni = Some n ->
  new_response node msg S4BXI_PTL_GET_RESPONSE w = Ok (response, matched) w1 ->
  handle_get_request node tx_queue msg w = Ok u w' ->
  forall a,
    match matched with
    | Some me => mine me -> forall m, w_mes w !! me = Some m -> w_mem w' !! a =
        copied (w_mem w) (md_addr q) (entry_addr m q)
          (moved n (w_config w) (me_length (bme_me m)) (get_mlength m q)) a
    | None => w_mem w' !! a = w_mem w !! a
    end.
Proof.
  intros Mr Mi Mn Hx Hq Hs Hni Hn Hnr H a. revert H. unfold handle_get_request. step_load.
  unfold cast_request. intros (q0 & w0 & Hc & H)%bind_Ok. revert Hc. step_load.
  destruct (is_get_request (rq_class q)); [|done]. intros [= <- <-].
  rewrite Hs in H. cbn in H. rewrite (bind_run _ _ _ _ _ Hnr) in H.
  pose proof (new_response_marks msg _ _ _ _ _ Hnr) as [[HM HC] HN HI HX HR HE].
  apply bind_Ok in H as (t & w2 & Hin & Hout).
  apply (keeps_use same_mem) in Hout as [HM' _]; [|walk].
  destruct matched as [me|].
  2:{ apply (keeps_use same_mem) in Hin as [HM2 _]; [by rewrite HM', HM2, HM|unfold set_msg; walk]. }
  intros Mm m Hm.
  apply HE in Hm as (b & Hm1). apply HR in Hq as (c & Hq1). apply HX in Hx as (x1 & Hx1 & Ex).
  apply bind_Ok in Hin as (t' & w3 & Hrc & Hin).
  eapply receive_request_received in Hrc; [|eassumption..].
  apply bind_Ok in Hin as (t1 & w4 & Hct & Hin). apply bind_Ok in Hin as (t2 & w5 & Hsz & Hin).
  apply bind_Ok in Hin as (t3 & w6 & Hcp & Hin).
  apply (keeps_use same_mem) in Hin as [HM6 _]; [|walk].
  pose proof (count_comm_mem _ _ _ _ _ Hct) as C1.
  pose proof (size_response_mem _ _ _ _ _ Hsz) as C2.
  apply (keeps_use (stands mine req_received)) in Hct; [|apply count_comm_stands].
  apply (keeps_use (stands mine req_received)) in Hsz; [|apply size_response_stands].
  eapply copy_get_payload_spec in Hcp;
    [|done|exact Mm| | |exact Hrc|by etransitivity|by etransitivity|by rewrite HI|by rewrite HN];
    [|done..].
  rewrite HM', HM6, Hcp, HM, HC. done.
Qed.
End Reads.
