(* ===== verification/EndToEnd.v ===== *)
(** From the call of a process to the memory of another: what a put or a get asks for is what the
    target executes, whatever happens in between. *)
From S2P Require Import Prelude Portals World Logic Engine Queue Messages Node Counters Entries.
From S2P Require Import E2E Atomics Memory NicActor Initiator Target MainActor FlowControl Progress.
From S2P Require Import System Matching Waiting Reliability Frames Deliver.

(** ** The request of a call *)

Section Requests.
Context `{E : Env, !Rely E}.
Implicit Types w : World.

Lemma get_physical_proc_read ni t w p w' : get_physical_proc ni t w = Ok p w' -> w' = w.
Proof.
  unfold get_physical_proc. intros (i & w1 & [-> _]%load_inv & H)%bind_Ok. revert H.
  destruct (HAS_PTL_OPTION _ _); [by intros [= _ <-]|].
  destruct (_ !! _); [by intros [= _ <-]|done].
Qed.

(** The request that a call makes is the next object of the world. *)
Lemma create_request_made a d target type size mk w msg w1 :
  create_request a d target type size mk w = Ok msg w1 ->
  exists i p w0, w_nis w !! bmd_ni d = Some i /\ get_physical_proc (bmd_ni d) target w = Ok p w /\
    w_reqs w0 !! w_next w
      = Some (mk (HAS_PTL_OPTION (ni_options i) PTL_NI_MATCHING) (phys_pid p)) /\
    w_next w0 = N.succ (w_next w) /\ evolves w0 w1.
Proof.
  unfold create_request. intros (i & w' & [-> Hi]%load_inv & H)%bind_Ok.
  apply bind_Ok in H as (p & w' & Hp & H).
  pose proof (get_physical_proc_read _ _ _ _ _ Hp) as ->.
  apply bind_Ok in H as (b & w' & [-> _]%load_inv & H).
  apply bind_Ok in H as (n & w' & [-> _]%load_inv & H).
  apply bind_Ok in H as (r & w0 & [= <- <-] & H).
  exists i, p, (on_objects (T := BxiRequest)
    <[w_next w := mk (HAS_PTL_OPTION (ni_options i) PTL_NI_MATCHING) (phys_pid p)]> w
    <| w_next ::= N.succ |>).
  split; [done|]. split; [done|]. split; [by cbn; rewrite lookup_insert_eq|]. split; [done|].
  eapply (keeps_use evolves); [|exact H]. walk.
Qed.

(** In any later world, the request is still what the call has asked for. *)
Definition asks (q0 : BxiRequest) (r : handle) (w1 : World) : Prop :=
  forall w2 q, rtc step w1 w2 -> w_reqs w2 !! r = Some q -> req_evolves q0 q.

Lemma made_asks q0 r w0 w1 :
  w_reqs w0 !! r = Some q0 -> (r < w_next w0)%N -> evolves w0 w1 -> asks q0 r w1.
Proof.
  intros Hr Hlt He w2 q R Hq. assert (evolves w0 w2) as He2.
  { etrans; [exact He|]. by apply reachable_evolves. }
  destruct (ev_reqs _ _ He2 r q Hlt Hq) as (q1 & Hq1 & Hev). by rewrite Hr in Hq1; injection Hq1 as <-.
Qed.

Lemma PtlPut_asks a md lo len ack target pt bits ro up hdr w code w1 :
  PtlPut a md lo len ack target pt bits ro up hdr w = Ok code w1 ->
  exists d i p service, w_mds w !! md = Some d /\ w_nis w !! bmd_ni d = Some i /\
    get_physical_proc (bmd_ni d) target w = Ok p w /\ code = PTL_OK /\
    asks (BxiPutRequest_init d len (HAS_PTL_OPTION (ni_options i) PTL_NI_MATCHING) bits
            (phys_pid p) pt up service lo ro ack hdr) (w_next w) w1.
Proof.
  unfold PtlPut. intros (d & w' & [-> Hd]%load_inv & H)%bind_Ok.
  apply bind_Ok in H as (ac & w' & [-> _]%load_inv & H).
  apply bind_Ok in H as (msg & w2 & (i & p & w0 & Hi & Hp & Hr & Hn & He)%create_request_made & H).
  exists d, i, p, (ma_service_mode ac). do 3 (split; [done|]).
  assert (evolves w2 w1) as He2.
  { eapply (keeps_use evolves); [|exact H]. walk. }
  split; [|eapply made_asks; [exact Hr|lia|by etrans]].
  do 3 apply bind_Ok in H as (? & ? & _ & H). by injection H.
Qed.

Lemma PtlGet_asks a md lo len target pt bits ro up w code w1 :
  PtlGet a md lo len target pt bits ro up w = Ok code w1 ->
  exists d i p service, w_mds w !! md = Some d /\ w_nis w !! bmd_ni d = Some i /\
    get_physical_proc (bmd_ni d) target w = Ok p w /\ code = PTL_OK /\
    asks (BxiGetRequest_init d len (HAS_PTL_OPTION (ni_options i) PTL_NI_MATCHING) bits
            (phys_pid p) pt up service lo ro) (w_next w) w1.
Proof.
  unfold PtlGet. intros (d & w' & [-> Hd]%load_inv & H)%bind_Ok.
  apply bind_Ok in H as (ac & w' & [-> _]%load_inv & H).
  apply bind_Ok in H as (msg & w2 & (i & p & w0 & Hi & Hp & Hr & Hn & He)%create_request_made & H).
  exists d, i, p, (ma_service_mode ac). do 3 (split; [done|]).
  assert (evolves w2 w1) as He2.
  { eapply (keeps_use evolves); [|exact H]. walk. }
  split; [|eapply made_asks; [exact Hr|lia|by etrans]].
  do 2 apply bind_Ok in H as (? & ? & _ & H). by injection H.
Qed.
End Requests.

(** ** Where a message goes *)

(** An entry of the table entry that the request names, of an enabled table on an interface of the
    node that accepts the target of the request, and that the request matches. *)
Record entry_found (w : World) (node : handle) (q : BxiRequest) (me : handle) : Prop := {
  ef_entry : exists n ni i pt p m,
    w_nodes w !! node = Some n /\ ni ∈ nd_ni_handles n /\
    w_nis w !! ni = Some i /\ can_match_request i q = true /\
    ni_pt_indexes i !! rq_pt_index q = Some pt /\
    w_pts w !! pt = Some p /\ pt_enabled p = true /\
    me ∈ pt_priority_list p ++ pt_overflow_list p /\
    w_mes w !! me = Some m /\ matches_request m q = true }.

(** What a request asks for decides where it goes. *)
Lemma entry_found_evolves w node q q' me :
  req_evolves q q' -> entry_found w node q' me -> entry_found w node q me.
Proof.
  intros [] [(n & ni & i & pt & p & m & H)]. constructor. exists n, ni, i, pt, p, m.
  unfold can_match_request, matches_request in *.
  by repeat match goal with Heq : _ q' = _ q |- _ => rewrite Heq in H; clear Heq end.
Qed.

Section Found.
Context `{E : Env}.
Implicit Types w : World.

Lemma first_match_found l q w me w' :
  first_match l q w = Ok (Some me) w' ->
  me ∈ l /\ exists m, w_mes w !! me = Some m /\ matches_request m q = true.
Proof.
  induction l as [|h l IH]; [done|]. cbn [first_match].
  intros (m & w1 & [-> Hm]%load_inv & H)%bind_Ok.
  destruct (matches_request m q) eqn:Hq.
  - injection H as <- _. split; [constructor|by exists m].
  - apply IH in H as [? ?]. split; [by constructor|done].
Qed.

Lemma walk_through_lists_found pt msg w me w' p x q :
  walk_through_lists pt msg w = Ok (Some me) w' ->
  w_pts w !! pt = Some p -> w_msgs w !! msg = Some x -> w_reqs w !! ms_parent_request x = Some q ->
  pt_enabled p = true /\ me ∈ pt_priority_list p ++ pt_overflow_list p /\
  exists m, w_mes w !! me = Some m /\ matches_request m q = true.
Proof.
  intros H Hp Hx Hq. revert H. unfold walk_through_lists. step_load.
  destruct (pt_enabled p); [cbn [negb]|done]. step_load. step_load.
  intros ([me1|] & w1 & H1 & H)%bind_Ok.
  - apply bind_Ok in H as (? & ? & _ & [= -> _]). apply first_match_found in H1 as [Hin Hm].
    split; [done|]. split; [set_solver|done].
  - apply first_match_read in H1 as ->. apply bind_Ok in H as ([me1|] & w1 & H1 & H); [|done].
    do 3 apply bind_Ok in H as (? & ? & _ & H). injection H as -> _.
    apply first_match_found in H1 as [Hin Hm]. split; [done|]. split; [set_solver|done].
Qed.

Lemma match_in_nis_found node n nis msg r x q w c me w' :
  match_in_nis nis msg r w = Ok (c, Some me) w' ->
  w_nodes w !! node = Some n -> (forall ni, ni ∈ nis -> ni ∈ nd_ni_handles n) ->
  w_msgs w !! msg = Some x -> ms_parent_request x = r -> w_reqs w !! r = Some q ->
  entry_found w node q me.
Proof.
  intros H Hn Hin Hx <- Hq. induction nis as [|ni nis IH]; [done|]. revert H. cbn [match_in_nis].
  intros (i & w1 & [-> Hi]%load_inv & H)%bind_Ok. revert H. step_load.
  destruct (can_match_request i q) eqn:Hc; cbn [negb]; [|intros H; apply IH; [done|set_solver]].
  destruct (ni_pt_indexes i !! rq_pt_index q) as [pt|] eqn:Hpt; [|done].
  intros (p & w1 & [-> Hp]%load_inv & H)%bind_Ok. revert H.
  destruct (pt_enabled p) eqn:He; cbn [negb]; [|done].
  intros ([me1|] & w1 & Hw & H)%bind_Ok.
  - injection H as _ -> _. destruct (walk_through_lists_found _ _ _ _ _ _ _ _ Hw Hp Hx Hq)
      as (_ & Hl & m & Hm & Hmq).
    constructor. exists n, ni, i, pt, p, m. split_and!; try done. apply Hin. set_solver.
  - apply walk_through_lists_none in Hw as ->. apply IH; [done|set_solver].
Qed.

Lemma match_entry_found node msg x q w c me w' :
  match_entry node msg w = Ok (c, Some me) w' ->
  w_msgs w !! msg = Some x -> w_reqs w !! ms_parent_request x = Some q -> entry_found w node q me.
Proof.
  intros H Hx Hq. revert H. unfold match_entry. step_load.
  intros (n & w1 & [-> Hn]%load_inv & H)%bind_Ok. by eapply match_in_nis_found.
Qed.

(** The answer that the target prepares before it looks for an entry. *)
Definition same_tables (w w' : World) : Prop := w_pts w' = w_pts w /\ w_mes w' = w_mes w.
#[export] Instance same_tables_preorder : PreOrder same_tables.
Proof. split; [by intros w|]. intros w1 w2 w3 [] []. split; congruence. Qed.
#[local] Hint Extern 2 (keeps same_tables (update _ _) _) =>
  apply keeps_update; intros; done : progress.
#[local] Hint Extern 2 (keeps same_tables (new _) _) => by intros ?? [= _ <-] : progress.

Lemma answer_tables msg t w :
  keeps same_tables (a ← answer_msg msg t; set_msg a (fun a => a <| ms_retry_count := 0 |>)) w.
Proof. unfold answer_msg, BxiMsg_copy, incr_msg_ref_count, set_msg. walk. Qed.
Lemma answer_marks msg t w :
  keeps (marks msg) (a ← answer_msg msg t; set_msg a (fun a => a <| ms_retry_count := 0 |>)) w.
Proof. unfold answer_msg, set_msg. walk. apply BxiMsg_copy_marks. Qed.

Lemma new_response_found node msg t x q w r me w' :
  new_response node msg t w = Ok (r, Some me) w' ->
  w_msgs w !! msg = Some x -> w_reqs w !! ms_parent_request x = Some q -> entry_found w node q me.
Proof.
  unfold new_response. intros (a & w1 & H1 & H)%bind_Ok Hx Hq.
  apply bind_Ok in H as (u & w2 & H2 & H). apply bind_Ok in H as ([c matched] & w3 & Hm & H).
  apply bind_Ok in H as (? & ? & _ & [= _ -> _]).
  assert ((a ← answer_msg msg t; set_msg a (fun a => a <| ms_retry_count := 0 |>)) w = Ok u w2) as Ha
    by (by rewrite (bind_run _ _ _ _ _ H1)).
  destruct (answer_tables msg t w u w2 Ha) as [HP HE].
  destruct (answer_marks msg t w u w2 Ha) as [_ HN HI HX HR _].
  destruct (HX x Hx) as (x' & Hx' & Ep). destruct (HR _ q Hq) as (k & Hq').
  rewrite <- Ep in Hq'. destruct (match_entry_found _ _ _ _ _ _ _ _ Hm Hx' Hq') as [Hf].
  rewrite HN, HI, HP, HE in Hf.
  eapply entry_found_evolves; [|exact (Build_entry_found _ _ _ _ Hf)]. by constructor.
Qed.
End Found.

(** Where it is in the entry depends only on what it asks for. *)
Lemma entry_addr_evolves m q q' : req_evolves q q' -> entry_addr m q' = entry_addr m q.
Proof.
  intros []. unfold entry_addr, offsetted_addr, get_mlength. by rewrite re_size, re_remote_offset.
Qed.
Lemma get_mlength_evolves m q q' : req_evolves q q' -> get_mlength m q' = get_mlength m q.
Proof. intros []. unfold get_mlength. by rewrite re_size. Qed.

(** ** Puts *)

Section Delivered.
Context `{E : Env, !Rely E, !KeepsMemory E}.
Implicit Types w : World.

(** C3. A put is executed as it was called, whatever happens between the call and its execution (other
    calls, other messages, retransmissions): when a card executes the request of [PtlPut], in any
    later world, the entry it finds is one of the table entry that the call names, enabled, on an
    interface of its node with the target's PID, that matches the bits of the call; the bytes at the
    local offset of the descriptor of the call go where this entry puts them, truncated to what it
    accepts (and to [max_memcpy]), and no other byte of memory changes.  When no entry matches,
    memory does not change. *)
Theorem put_delivered a md lo len ack target pt bits ro up hdr w code w1 :
  PtlPut a md lo len ack target pt bits ro up hdr w = Ok code w1 ->
  exists d i p service, w_mds w !! md = Some d /\ w_nis w !! bmd_ni d = Some i /\
  get_physical_proc (bmd_ni d) target w = Ok p w /\
  let asked := BxiPutRequest_init d len (HAS_PTL_OPTION (ni_options i) PTL_NI_MATCHING) bits
                 (phys_pid p) pt up service lo ro ack hdr in
  forall w2 q node n tx msg x c matched w3 u w4,
  rtc step w1 w2 -> w_reqs w2 !! w_next w = Some q ->
  rq_process_state q = S4BXI_REQ_CREATED -> w_nodes w2 !! node = Some n ->
  w_msgs w2 !! msg = Some x -> ms_parent_request x = w_next w -> ms_type x = S4BXI_PTL_PUT ->
  match_entry node msg w2 = Ok (c, matched) w3 -> target_dispatch node tx msg w2 = Ok u w4 ->
  match matched with
  | Some me =>
      entry_found w2 node asked me /\
      forall m addr, w_mes w2 !! me = Some m -> w_mem w4 !! addr =
        copied (w_mem w2) (entry_addr m asked) (add64 (md_start (bmd_md d)) lo)
          (moved n (w_config w2) (md_length (bmd_md d)) (get_mlength m asked)) addr
  | None => forall addr, w_mem w4 !! addr = w_mem w2 !! addr
  end.
Proof.
  intros (d & i & p & service & Hd & Hi & Hp & _ & Ha)%PtlPut_asks.
  exists d, i, p, service. do 3 (split; [done|]). cbv zeta.
  intros w2 q node n tx msg x c matched w3 u w4 R Hq Hs Hn Hx Hr Ht Hm Hdis.
  specialize (Ha w2 q R Hq). rewrite <- Hr in Hq. revert Hdis. unfold target_dispatch. step_load.
  rewrite Ht. intros Hput.
  pose proof (put_writes_payload _ _ _ _ _ _ _ _ _ _ _ _ Hx Hq Hs Hn Hm Hput) as Hw.
  destruct matched as [me|]; [|exact Hw].
  split; [by eapply entry_found_evolves, match_entry_found|].
  intros m addr Hme. rewrite (Hw addr m Hme).
  rewrite (entry_addr_evolves m _ _ Ha), (get_mlength_evolves m _ _ Ha).
  unfold md_addr. by rewrite (re_md _ _ Ha), (re_local_offset _ _ Ha).
Qed.
End Delivered.

(** ** Gets *)

Section Got.
Context `{E : Env, !Rely E}.
Implicit Types w : World.

(** C4. A get is executed as it was called, whatever happens between the call and its execution, and
    whatever the other actors do while the card executes it ([F]), as long as they leave alone the
    memory of the processes, the configuration, and the objects of this get ([mine]: its request, the
    interface of its descriptor, the node of its initiator, the entry it matches): the entry that the
    card finds is one of the table entry that the call names, as for a put, and the bytes that come to
    the local offset of the descriptor of the call are those that this entry has at the remote offset,
    truncated to what it holds; no other byte of memory changes, and none when no entry matches. *)
Theorem get_delivered a md lo len target pt bits ro up w code w1 :
  PtlGet a md lo len target pt bits ro up w = Ok code w1 ->
  exists d i p service, w_mds w !! md = Some d /\ w_nis w !! bmd_ni d = Some i /\
  get_physical_proc (bmd_ni d) target w = Ok p w /\
  let asked := BxiGetRequest_init d len (HAS_PTL_OPTION (ni_options i) PTL_NI_MATCHING) bits
                 (phys_pid p) pt up service lo ro in
  forall w2 q ni n node tx msg x response matched w3 F mine u w4,
  rtc (@step E) w1 w2 -> w_reqs w2 !! w_next w = Some q ->
  rq_process_state q = S4BXI_REQ_CREATED ->
  w_nis w2 !! bmd_ni d = Some ni -> w_nodes w2 !! ni_node ni = Some n ->
  w_msgs w2 !! msg = Some x -> ms_parent_request x = w_next w -> ms_type x = S4BXI_PTL_GET ->
  new_response node msg S4BXI_PTL_GET_RESPONSE w2 = Ok (response, matched) w3 ->
  KeepsMemory F -> Undisturbed mine req_received F ->
  mine (w_next w) -> mine (bmd_ni d) -> mine (ni_node ni) -> (forall me, matched = Some me -> mine me) ->
  @target_dispatch F node tx msg w2 = Ok u w4 ->
  match matched with
  | Some me =>
      entry_found w2 node asked me /\
      forall m addr, w_mes w2 !! me = Some m -> w_mem w4 !! addr =
        copied (w_mem w2) (add64 (md_start (bmd_md d)) lo) (entry_addr m asked)
          (moved n (w_config w2) (me_length (bme_me m)) (get_mlength m asked)) addr
  | None => forall addr, w_mem w4 !! addr = w_mem w2 !! addr
  end.
Proof.
  intros (d & i & p & service & Hd & Hi & Hp & _ & Ha)%PtlGet_asks.
  exists d, i, p, service. do 3 (split; [done|]). cbv zeta.
  intros w2 q ni n node tx msg x response matched w3 F mine u w4 R Hq Hs Hni Hn Hx Hr Ht Hm.
  intros KF UF Mr Mi Mn Mm Hdis.
  specialize (Ha w2 q R Hq). rewrite <- Hr in Hq, Mr. revert Hdis. unfold target_dispatch. step_load.
  rewrite Ht. intros Hget. assert (rq_md q = d) as Emd by exact (re_md _ _ Ha).
  rewrite <- Emd in Hni, Mi.
  pose proof (get_reads_payload mine _ _ _ _ _ _ _ _ _ _ _ _ _ Mr Mi Mn Hx Hq Hs Hni Hn Hm Hget) as Hw.
  destruct matched as [me|]; [|exact Hw].
  split; [by eapply entry_found_evolves, new_response_found|].
  intros m addr Hme. rewrite (Hw addr (Mm me eq_refl) m Hme).
  rewrite (entry_addr_evolves m _ _ Ha), (get_mlength_evolves m _ _ Ha).
  unfold md_addr. by rewrite (re_md _ _ Ha), (re_local_offset _ _ Ha).
Qed.
End Got.
