(* ===== verification/Reports.v ===== *)
(** The events of a put, from its call on: what the card of the target tells the owner of the entry
    that matched, and what the card of the initiator tells when the acknowledgement arrives, among the
    events that the other actors tell meanwhile. *)
From S2P Require Import Prelude Portals World Logic Engine Queue Messages Node Counters Entries.
From S2P Require Import E2E Atomics Memory NicActor Initiator Target MainActor FlowControl Progress.
From S2P Require Import System Matching Waiting Reliability Frames Deliver EndToEnd.

(** ** The calls of a target *)

Section Calls.
Context `{E : Env} (mine : handle -> Prop) (P : mailbox * ptl_event -> Prop).

Lemma first_match_settled {V} (f : BxiRequest -> V) l q w :
  keeps (settled mine P f) (first_match l q) w.
Proof. induction l; cbn [first_match]; walk. Qed.
Hint Resolve first_match_settled : progress.
Lemma match_in_nis_settled {V} (f : BxiRequest -> V) nis m r w :
  (forall q c, f (q <| rq_msg_ref_count := c |>) = f q) ->
  keeps (settled mine P f) (match_in_nis nis m r) w.
Proof.
  intros Hf. revert w.
  induction nis; intros w; cbn [match_in_nis]; unfold walk_through_lists; walk.
Qed.
Lemma match_entry_settled n m w : keeps (settled mine P req_received) (match_entry n m) w.
Proof. unfold match_entry. walk. by apply match_in_nis_settled. Qed.
Lemma receive_request_settled r msg me k w :
  keeps (settled mine P req_call) (receive_request r msg me k) w.
Proof. unfold receive_request, set_me, set_request, get_offsetted_addr. walk. Qed.
Lemma ack_policy_settled {V} (f : BxiRequest -> V) b md w :
  keeps (settled mine P f) (ack_policy b md) w.
Proof. unfold ack_policy, md_e2e_off. walk. Qed.
Lemma load_bytes_settled {V} (f : BxiRequest -> V) a k w :
  keeps (settled mine P f) (load_bytes a k) w.
Proof. by intros bs w' (-> & _)%load_bytes_spec. Qed.
Lemma store_bytes_settled {V} (f : BxiRequest -> V) a bs w :
  keeps (settled mine P f) (store_bytes a bs) w.
Proof. revert a w. induction bs; intros; cbn [store_bytes]; walk. Qed.
Hint Resolve load_bytes_settled store_bytes_settled : progress.
Lemma copy_put_payload_settled {V} (f : BxiRequest -> V) n r w :
  keeps (settled mine P f) (copy_put_payload n r) w.
Proof. unfold copy_put_payload, received_range, capped_memcpy, memcpy. walk. Qed.

Lemma BxiME_unlink_silent me w : keeps (silent mine P) (BxiME_unlink me) w.
Proof. unfold BxiME_unlink. walk. Qed.
Hint Resolve BxiME_unlink_silent : progress.
Lemma finish_entry_silent me b w : keeps (silent mine P) (finish_entry me b) w.
Proof. unfold finish_entry. walk. Qed.

Lemma BxiME_unlink_tables me w :
  keeps (fun w w' => kept mine pt_identity (w_pts w) (w_pts w')) (BxiME_unlink me) w.
Proof.
  intros u w'. unfold BxiME_unlink. intros (m & w1 & [-> _]%load_inv & H)%bind_Ok. revert H.
  destruct (bme_in_use m); [unfold update; case_match; [|done]; by intros [= _ <-]|].
  intros (p & w1 & [-> Hp]%load_inv & H)%bind_Ok. revert H.
  destruct (erase_remove _ _) as [l|]; [|done]. intros (? & ? & [= <- <-] & H)%bind_Ok. revert H.
  step_update. unfold free. case_match; [|done]. intros [= _ <-].
  eapply kept_objects_insert; [exact Hp|].
  unfold over_list. by case_match.
Qed.

Section Count.
Context {V : Type} (f : BxiRequest -> V) `{!Spares mine P f E}.
Lemma count_comm_settled r me w : keeps (settled mine P f) (count_comm r me) w.
Proof.
  unfold count_comm, BxiME_increment_ct, increment_success, on_update. walk.
Qed.
End Count.

Section Told.
Context `{!Discreet mine P E}.
Lemma payload_write_silent n m w : keeps (silent mine P) (payload_write n m) w.
Proof. unfold payload_write. walk. Qed.
Lemma answer_silent m t w : keeps (silent mine P) (answer_msg m t) w.
Proof. unfold answer_msg, BxiMsg_copy, incr_msg_ref_count, set_msg. walk. Qed.
Hint Resolve answer_silent : progress.

(** Without quick acknowledgements, an acknowledgement is a message. *)
Lemma send_ack_silent n q m t ft w :
  quick_acks (w_config w) = false -> keeps (silent mine P) (send_ack n q m t ft) w.
Proof.
  intros Hq. unfold send_ack. walk_step. walk_step. walk_step. rewrite Hq. unfold set_msg. walk.
Qed.

(** An entry that is unlinked tells it at most once. *)
Lemma maybe_auto_unlink_told me m p w b w' :
  mine (bme_pt m) -> queue_known mine w (pt_eq p) ->
  w_mes w !! me = Some m -> w_pts w !! bme_pt m = Some p ->
  maybe_auto_unlink me w = Ok b w' ->
  exists us, (us = [] \/ us = told w (pt_eq p) (auto_unlink_event p m)) /\ adds mine P us w w'.
Proof.
  intros Mp Hk Hm Hp. unfold maybe_auto_unlink. step_load.
  destruct (should_unlink m); cbn [negb].
  2:{ intros [= _ <-]. exists []. split; [by left|reflexivity]. }
  step_load. intros (u & w1 & H1 & H)%bind_Ok.
  destruct (BxiME_unlink_tables _ _ _ _ H1 _ _ Mp Hp) as (p' & Hp' & Ep).
  apply (keeps_use (silent mine P)) in H1; [|apply BxiME_unlink_silent].
  destruct (_ && _); cbn [when] in H.
  - apply bind_Ok in H as (u2 & w2 & H & [= _ ->]). revert H. step_load.
    intros (node & w3 & H3 & H)%bind_Ok. revert H3. unfold pt_node.
    intros (i & w4 & [-> _]%load_inv & [= _ <-])%bind_Ok.
    unfold pt_identity in Ep. injection Ep as Ee Ei.
    apply (issue_event_told mine P) in H; [|by eapply queue_known_kept].
    exists (told w (pt_eq p) (auto_unlink_event p m)). split; [by right|].
    rewrite (told_kept mine P _ _ _ _ _ H1 Hk) in H. eapply adds_silent_l; [exact H1|].
    unfold auto_unlink_event in *. by rewrite Ei in H.
  - injection H as _ <-. exists []. by auto.
Qed.
End Told.
End Calls.

(** Whether the owner of an entry is told depends only on the entry's identity. *)
Lemma reports_to_identity m m' :
  me_identity m' = me_identity m -> reports_to (Some m') = (fun _ => m') <$> reports_to (Some m).
Proof.
  unfold me_identity, reports_to, me_has. intros [= -> -> _ _]. by destruct (_ && _ && _).
Qed.

Lemma initiator_of_value q i n w :
  w_nis w !! bmd_ni (rq_md q) = Some i -> w_nodes w !! ni_node i = Some n ->
  initiator_of q w = Ok (mk_process (nd_nid n) (ni_pid i)) w.
Proof. intros Hi Hn. unfold initiator_of. step_load. by step_load. Qed.

(** ** Puts *)

(** The event that tells the owner of the entry [m] of the request [q]. *)
Definition put_event (who : ptl_process) (index : Z) (m : BxiME) (q : BxiRequest) : ptl_event :=
  new_event <| ev_initiator := Some who |> <| ev_type := Some PTL_EVENT_PUT |>
    <| ev_ni_fail_type := Some PTL_OK |> <| ev_pt_index := Some index |>
    <| ev_user_ptr := Some (bme_user_ptr m) |>
    <| ev_rlength := Some (rq_payload_size q) |> <| ev_mlength := Some (get_mlength m q) |>
    <| ev_remote_offset := Some (rq_remote_offset q) |>
    <| ev_match_bits := Some (rq_match_bits q) |> <| ev_start := Some (entry_addr m q) |>
    <| ev_hdr_data := Some (rq_hdr q) |>.

(** What an entry that matched a put tells, among the events of others: the event of the put, and
    before it at most that of the entry that is unlinked. *)
Definition put_tells (P : mailbox * ptl_event -> Prop) (who : ptl_process) (m : BxiME)
    (table : BxiPT) (q : BxiRequest) (w w' : World) : Prop :=
  exists unlinked,
    (unlinked = [] \/ unlinked = told w (pt_eq table) (auto_unlink_event table m)) /\
    tells P (match reports_to (Some m) with
             | Some _ => told w (pt_eq table) (put_event who (pt_index table) m q)
             | None => []
             end ++ unlinked) w w'.

Lemma put_event_evolves who index m q q' :
  req_evolves q q' -> put_event who index m q' = put_event who index m q.
Proof.
  intros Hev. unfold put_event. rewrite (entry_addr_evolves m _ _ Hev), (get_mlength_evolves m _ _ Hev).
  destruct Hev. by rewrite re_size, re_remote_offset, re_bits, re_hdr.
Qed.

Section Reported.
Context `{F : Env} (mine : handle -> Prop) (P : mailbox * ptl_event -> Prop).
Context `{!Spares mine P req_received F}.
Implicit Types w : World.
#[local] Instance reported_discreet : Discreet mine P F := spares_discreet mine P req_received F _.

(** The objects that the card of the target works on are among those that stay. *)
Record put_mine (me msg : handle) (x : BxiMsg) (q : BxiRequest) (m : BxiME) (p : BxiPT) (i : BxiNI)
    (w : World) : Prop := {
  pm_msg : mine msg /\ (msg < w_next w)%N;
  pm_req : mine (ms_parent_request x);
  pm_me : mine me;
  pm_pt : mine (bme_pt m);
  pm_eq : queue_known mine w (pt_eq p);
  pm_ni : mine (bmd_ni (rq_md q));
  pm_node : mine (ni_node i) }.

(** What is told of a request that was received is about the request and the entry that matched. *)
Lemma put_like_reported node me msg x q q1 m p i n b w w1 w' :
  put_mine me msg x q m p i w -> settled mine P req_call w w1 ->
  w_msgs w !! msg = Some x -> w_reqs w !! ms_parent_request x = Some q ->
  w_nis w !! bmd_ni (rq_md q) = Some i -> w_nodes w !! ni_node i = Some n ->
  w_mes w !! me = Some m -> w_pts w !! bme_pt m = Some p ->
  w_reqs w1 !! ms_parent_request x = Some q1 ->
  rq_start q1 = Some (entry_addr m q) -> rq_mlength q1 = Some (get_mlength m q) ->
  put_like_req_ev_processing node me msg PTL_EVENT_PUT w1 = Ok b w' ->
  put_tells P (mk_process (nd_nid n) (ni_pid i)) m p q w w' /\ w_config w' = w_config w.
Proof.
  intros [Mx Mr Mm Mp Hk Mi Mn] [Si St] Hx Hq Hi Hn Hm Hp Hq1 Hs Hl.
  destruct (sd_msgs _ _ _ _ St _ _ Mx Hx) as (x1 & Hx1 & Ex).
  destruct (sd_mes _ _ _ _ St _ _ Mm Hm) as (m1 & Hm1 & Em).
  destruct (sd_pts _ _ _ _ St _ _ Mp Hp) as (p1 & Hp1 & Ep).
  destruct (sd_reqs _ _ _ _ St _ _ Mr Hq) as (q2 & Hq2 & Er). rewrite Hq1 in Hq2. injection Hq2 as <-.
  destruct (sd_nis _ _ _ _ St _ _ Mi Hi) as (i1 & Hi1 & Ei).
  destruct (sd_nodes _ _ _ _ St (ni_node i) n Mn Hn) as (n1 & Hn1 & En).
  pose proof (reports_to_identity _ _ Em) as Hrep.
  unfold me_identity, pt_identity, req_call, msg_identity, ni_identity, node_identity in *.
  injection Em as Ebm _ Ept Eup. injection Ex as Ex _. injection Ei as Ein Eip. injection En as En _.
  injection Ep as Epe Epi. injection Er as Emd Eps _ Ero Emb Ehd.
  rewrite <- Ex in Hq1. rewrite <- Ept in Hp1, Mp. rewrite <- Emd in Hi1. rewrite <- Ein in Hn1.
  assert (queue_known mine w1 (pt_eq p1)) as Hk1 by (rewrite Epe; by eapply queue_known_kept).
  assert (forall ev, told w1 (pt_eq p1) ev = told w (pt_eq p) ev) as Ht
    by (intros ev; rewrite Epe; by eapply told_kept).
  unfold put_like_req_ev_processing. step_load. unfold cast_request.
  intros (q0 & w0 & Hc & H)%bind_Ok. revert Hc. step_load.
  destruct (is_put_like (rq_class q1)); [|done]. intros [= <- <-]. revert H. step_load.
  rewrite Hrep. unfold put_tells.
  assert (reports_to (Some m) = None \/ reports_to (Some m) = Some m) as [-> | ->]
    by (unfold reports_to; case_match; auto); cbn [fmap option_fmap option_map].
  - intros (us & Hus & Ha)%(maybe_auto_unlink_told mine P me m1 p1 w1); [|done..].
    pose proof (adds_silent_l _ _ _ _ _ _ Si Ha) as [Htl _ Hcf]. split; [|done].
    exists us. rewrite Ht in Hus. unfold auto_unlink_event in *.
    rewrite Epi, Eup in Hus. by split.
  - step_load. rewrite (bind_run _ _ _ _ _ (initiator_of_value q1 i1 n1 w1 Hi1 Hn1)).
    intros (b1 & w2 & H1 & H)%bind_Ok.
    apply (maybe_auto_unlink_told mine P me m1 p1 w1) in H1 as (us & Hus & Ha); [|done..].
    apply bind_Ok in H as (u & w3 & H & [= _ ->]).
    apply (issue_event_told mine P) in H; [|by eapply queue_known_kept].
    rewrite (told_kept mine P _ _ _ _ _ Ha Hk1), Ht in H.
    pose proof (adds_silent_l _ _ _ _ _ _ Si (adds_trans _ _ _ _ _ _ _ Ha H)) as [Htl _ Hcf].
    split; [|done]. exists us. rewrite Ht in Hus. unfold auto_unlink_event in *.
    rewrite Epi, Eup in Hus. split; [done|].
    unfold put_event. unfold target_event in Htl.
    by rewrite Eup, Eps, Ero, Emb, Ehd, Hs, Hl, En, Eip, Epi in Htl.
Qed.

Lemma put_events node tx msg x q me m p i n c w w1 u w' :
  put_mine me msg x q m p i w -> quick_acks (w_config w) = false ->
  w_msgs w !! msg = Some x -> w_reqs w !! ms_parent_request x = Some q ->
  rq_process_state q = S4BXI_REQ_CREATED ->
  w_nis w !! bmd_ni (rq_md q) = Some i -> w_nodes w !! ni_node i = Some n ->
  w_mes w !! me = Some m -> w_pts w !! bme_pt m = Some p ->
  match_entry node msg w = Ok (c, Some me) w1 ->
  handle_put_request node tx msg w = Ok u w' ->
  put_tells P (mk_process (nd_nid n) (ni_pid i)) m p q w w'.
Proof.
  intros M Hqa Hx Hq Hs Hi Hn Hm Hp Hme. pose proof (pm_req _ _ _ _ _ _ _ _ M) as Mr.
  unfold handle_put_request. step_load.
  unfold cast_request. intros (q0 & w0 & Hc & H)%bind_Ok. revert Hc. step_load.
  destruct (is_put_like (rq_class q)); [|done]. intros [= <- <-].
  rewrite Hs in H. cbn in H. rewrite (bind_run _ _ _ _ _ Hme) in H.
  pose proof (match_entry_marks msg _ _ _ _ _ Hme) as [_ _ _ HX HR HE].
  pose proof (match_entry_settled mine P _ _ _ _ _ Hme) as S1.
  apply bind_Ok in H as (ack & w2 & Hin & Hout).
  assert (put_tells P (mk_process (nd_nid n) (ni_pid i)) m p q w w2 /\ w_config w2 = w_config w)
    as [(us & Hus & Ht) Ec].
  { destruct (HX _ Hx) as (x1 & Hx1 & Ex). destruct (HR _ _ Hq) as (rc & Hq1).
    destruct (HE _ _ Hm) as (ud & Hm1).
    apply bind_Ok in Hin as (t & w3 & Hrc & Hin).
    pose proof (receive_request_settled mine P _ _ _ _ _ _ _ Hrc) as S2.
    eapply receive_request_received in Hrc as [_ _ _ (q3 & Hq3 & _ & _ & Es & El) _];
      [|eassumption..].
    apply bind_Ok in Hin as (t1 & w4 & Hcp%(copy_put_payload_settled mine P req_received) & Hin).
    apply bind_Ok in Hin as (t2 & w5 & Hct%(count_comm_settled mine P req_received) & Hin).
    apply bind_Ok in Hin as (m5 & w6 & [-> Hm5]%load_inv & Hin).
    apply bind_Ok in Hin as (a & w6 & Hap%(ack_policy_settled mine P req_received) & Hin).
    apply bind_Ok in Hin as (t3 & w7 & Hsm & Hin).
    apply (keeps_use (settled mine P req_received)) in Hsm; [|unfold set_me; walk].
    apply bind_Ok in Hin as (b & w8 & Hpl & Hin). apply bind_Ok in Hin as (t4 & w9 & Hfe & Hin).
    injection Hin as _ <-. apply (finish_entry_silent mine P) in Hfe.
    assert (settled mine P req_received w3 w7) as S3 by (do 3 (etrans; [eassumption|]); done).
    destruct (sd_reqs _ _ _ _ (st_stands _ _ _ _ _ S3) _ _ Mr Hq3) as (q7 & Hq7 & E7).
    unfold req_received in E7. injection E7 as _ _ _ _ _ _ Es7 El7.
    assert (settled mine P req_call w w7) as S4.
    { assert (forall w w', settled mine P req_received w w' -> settled mine P req_call w w') as Hf.
      { intros v v' []. split; [done|]. eapply stands_factor; [|done]. by intros ?? [[? ?]%pair_equal_spec ?]%pair_equal_spec. }
      etrans; [by apply Hf|]. etrans; [exact S2|]. by apply Hf. }
    destruct (put_like_reported _ _ _ _ _ q7 _ _ _ _ _ _ _ _ M S4 Hx Hq Hi Hn Hm Hp Hq7
      ltac:(by rewrite Es7) ltac:(by rewrite El7) Hpl) as [(us & Hus & Ht) Hcf].
    split; [|by rewrite (ad_config _ _ _ _ _ Hfe)]. exists us. split; [done|].
    exact (tells_trans _ _ _ _ _ _ Ht (ad_tells _ _ _ _ _ Hfe)). }
  apply (keeps_use (silent mine P)) in Hout.
  - exists us. split; [done|]. exact (tells_trans _ _ _ _ _ _ Ht (ad_tells _ _ _ _ _ Hout)).
  - walk; [apply (send_ack_silent mine P); by rewrite Ec|apply (payload_write_silent mine P)].
Qed.

Lemma put_no_event node tx msg x q c w w1 u w' :
  quick_acks (w_config w) = false ->
  w_msgs w !! msg = Some x -> w_reqs w !! ms_parent_request x = Some q ->
  rq_process_state q = S4BXI_REQ_CREATED ->
  match_entry node msg w = Ok (c, None) w1 ->
  handle_put_request node tx msg w = Ok u w' -> tells P [] w w'.
Proof.
  intros Hqa Hx Hq Hs Hme. unfold handle_put_request. step_load.
  unfold cast_request. intros (q0 & w0 & Hc & H)%bind_Ok. revert Hc. step_load.
  destruct (is_put_like (rq_class q)); [|done]. intros [= <- <-].
  rewrite Hs in H. cbn in H. rewrite (bind_run _ _ _ _ _ Hme) in H.
  pose proof (match_entry_settled mine P _ _ _ _ _ Hme) as [Si _].
  apply bind_Ok in H as (ack & w2 & [= _ <-] & H).
  apply (keeps_use (silent mine P)) in H.
  - apply (ad_tells mine P [] w w'). by etrans.
  - walk. apply (send_ack_silent mine P). by rewrite (ad_config _ _ _ _ _ Si).
Qed.
End Reported.

Section Reports.
Context `{E : Env, !Rely E}.
Implicit Types w : World.

(** C5. The owner of the entry is told what the initiator has asked for, whatever happened between
    the call and its execution: a card executes the request of [PtlPut] in any later world, with
    acknowledgements that travel ([quick_acks] off), while the other actors do what they want ([F])
    but leave alone the configuration and the objects of this put ([mine]: its message, its request,
    the interface and the node of its initiator, the entry it matches, its table entry and its
    queue).  Then an entry of the priority list that does not disable these events puts one PUT event
    in the mailbox of its table entry's queue, with the process of the initiator, the index of the
    table entry, the user pointer of the entry, the length, the offset, the bits and the header data
    of the call, the bytes accepted and the address where they were put; before it the card issues at
    most one AUTO_UNLINK event, and nothing else: all other new events are events of the others
    ([P]).  An entry of the overflow list is told nothing yet, and neither is anyone when no entry
    matches. *)
Theorem put_reported a md lo len ack target pt bits ro up hdr w code w1 :
  PtlPut a md lo len ack target pt bits ro up hdr w = Ok code w1 ->
  exists d i p service, w_mds w !! md = Some d /\ w_nis w !! bmd_ni d = Some i /\
  get_physical_proc (bmd_ni d) target w = Ok p w /\
  let asked := BxiPutRequest_init d len (HAS_PTL_OPTION (ni_options i) PTL_NI_MATCHING) bits
                 (phys_pid p) pt up service lo ro ack hdr in
  forall w2 q ni from node tx msg x c matched w3 F mine P u w4,
  rtc (@step E) w1 w2 -> quick_acks (w_config w2) = false -> w_reqs w2 !! w_next w = Some q ->
  rq_process_state q = S4BXI_REQ_CREATED ->
  w_nis w2 !! bmd_ni d = Some ni -> w_nodes w2 !! ni_node ni = Some from ->
  w_msgs w2 !! msg = Some x -> ms_parent_request x = w_next w -> ms_type x = S4BXI_PTL_PUT ->
  match_entry node msg w2 = Ok (c, matched) w3 ->
  Spares mine P req_received F -> @target_dispatch F node tx msg w2 = Ok u w4 ->
  match matched with
  | Some me =>
      forall m table, w_mes w2 !! me = Some m -> w_pts w2 !! bme_pt m = Some table ->
      put_mine mine me msg x q m table ni w2 ->
      put_tells P (mk_process (nd_nid from) (ni_pid ni)) m table asked w2 w4
  | None => tells P [] w2 w4
  end.
Proof.
  intros (d & i & p & service & Hd & Hi & Hp & _ & Ha)%PtlPut_asks.
  exists d, i, p, service. do 3 (split; [done|]). cbv zeta.
  intros w2 q ni from node tx msg x c matched w3 F mine P u w4 R Hqa Hq Hs Hni Hn Hx Hr Ht Hm SF Hdis.
  specialize (Ha w2 q R Hq). rewrite <- Hr in Hq. revert Hdis. unfold target_dispatch. step_load.
  rewrite Ht. intros Hput. destruct matched as [me|]; [|by eapply (put_no_event mine)].
  assert (w_nis w2 !! bmd_ni (rq_md q) = Some ni) as Hni' by by rewrite (re_md _ _ Ha).
  intros m table Hme Hpt M. unfold put_tells. rewrite <- (put_event_evolves _ _ m _ _ Ha).
  by eapply put_events.
Qed.
End Reports.

(** ** Acknowledgements *)

(** What the events of an acknowledged request are made of, and what decides whether they are due. *)
Definition req_answer (q : BxiRequest) :=
  (rq_class q, rq_md q, rq_payload_size q, rq_ack_req q, rq_user_ptr q, rq_mlength q,
   rq_target_remote_offset q).
Definition req_acked (q : BxiRequest) :=
  (req_answer q, rq_send_event_issued q, rq_process_state q).

(** The events of the initiator of a put. *)
Definition send_event (q : BxiRequest) : ptl_event :=
  new_event <| ev_type := Some PTL_EVENT_SEND |> <| ev_ni_fail_type := Some PTL_OK |>
    <| ev_user_ptr := Some (rq_user_ptr q) |> <| ev_mlength := Some (rq_payload_size q) |>.
Definition ack_event (ni_fail_type : Z) (q : BxiRequest) : ptl_event :=
  new_event <| ev_type := Some PTL_EVENT_ACK |> <| ev_ni_fail_type := Some ni_fail_type |>
    <| ev_user_ptr := Some (rq_user_ptr q) |> <| ev_mlength := rq_mlength q |>
    <| ev_remote_offset := rq_target_remote_offset q |>.

(** Those that are due: the SEND event unless it was issued or the descriptor disables it, the ACK
    event when the call has asked for it. *)
Definition send_due (w : World) (q : BxiRequest) : list (mailbox * ptl_event) :=
  let md := bmd_md (rq_md q) in
  if negb (rq_send_event_issued q)
     && negb (HAS_PTL_OPTION (md_options md) PTL_MD_EVENT_SEND_DISABLE)
     && negb (HAS_PTL_OPTION (md_options md) PTL_MD_EVENT_SUCCESS_DISABLE)
  then told w (md_eq_handle md) (send_event q) else [].
Definition ack_due (w : World) (ni_fail_type : Z) (q : BxiRequest) : list (mailbox * ptl_event) :=
  if rq_ack_req q =? PTL_ACK_REQ
  then told w (md_eq_handle (bmd_md (rq_md q))) (ack_event ni_fail_type q) else [].

Section Acknowledged.
Context `{F : Env} (mine : handle -> Prop) (P : mailbox * ptl_event -> Prop).
Context `{!Spares mine P req_acked F}.
Implicit Types w : World.
Abbreviation settles := (settled mine P req_acked).
#[local] Instance acknowledged_discreet : Discreet mine P F := spares_discreet mine P req_acked F _.

Lemma send_bxi_ack_settled tx msg w : keeps settles (send_bxi_ack tx msg) w.
Proof. unfold send_bxi_ack, answer_msg, BxiMsg_copy, incr_msg_ref_count, set_msg. walk. Qed.
Lemma md_e2e_off_settled md w : keeps settles (md_e2e_off md) w.
Proof. unfold md_e2e_off. walk. Qed.
Lemma resume_fuel_settled k n vn w : keeps settles (resume_fuel k n vn) w.
Proof. revert w. induction k; intros w; cbn [resume_fuel]; walk. Qed.
Hint Resolve resume_fuel_settled : progress.
Lemma release_request_entry_settled n x q w : keeps settles (release_request_entry n x q) w.
Proof.
  unfold release_request_entry, release_e2e_entry, release_node_credit, release_process_credit,
    resume_waiting_tx_actors. walk.
Qed.
Lemma BxiMD_increment_ct_settled md b w : keeps settles (BxiMD_increment_ct md b) w.
Proof. unfold BxiMD_increment_ct, increment_success, on_update. walk. Qed.

(** What is due stays the same while the request and its queue stay as they are. *)
Lemma ack_due_kept own w w' ft q q' :
  adds mine P own w w' -> queue_known mine w (md_eq_handle (bmd_md (rq_md q))) ->
  req_answer q' = req_answer q -> ack_due w' ft q' = ack_due w ft q.
Proof.
  intros Ha Hk Hq. unfold ack_due, ack_event, req_answer in *.
  injection Hq as _ -> _ -> -> -> ->. by rewrite (told_kept mine P _ _ _ _ _ Ha Hk).
Qed.
Lemma send_due_kept own w w' q q' :
  adds mine P own w w' -> queue_known mine w (md_eq_handle (bmd_md (rq_md q))) ->
  req_acked q' = req_acked q -> send_due w' q' = send_due w q.
Proof.
  intros Ha Hk [[Hq Hi]%pair_equal_spec _]%pair_equal_spec.
  unfold send_due, send_event, req_answer in *. rewrite Hi.
  injection Hq as _ -> -> _ -> _ _. by rewrite (told_kept mine P _ _ _ _ _ Ha Hk).
Qed.

Lemma settled_req r q w w' :
  mine r -> stands mine req_acked w w' -> w_reqs w !! r = Some q ->
  exists q', w_reqs w' !! r = Some q' /\ req_acked q' = req_acked q /\
    req_answer q' = req_answer q /\ rq_process_state q' = rq_process_state q.
Proof.
  intros Hr S Hq. destruct (sd_reqs _ _ _ _ S _ _ Hr Hq) as (q' & Hq' & He). exists q'.
  split; [done|]. split; [done|]. by apply pair_equal_spec in He as [[? ?]%pair_equal_spec ?].
Qed.

Lemma issue_ack_told r ft q w u w' :
  mine r -> queue_known mine w (md_eq_handle (bmd_md (rq_md q))) ->
  w_reqs w !! r = Some q -> issue_ack r ft w = Ok u w' -> adds mine P (ack_due w ft q) w w'.
Proof.
  intros Mr Hk Hq. unfold issue_ack, cast_request. intros (q0 & w0 & Hc & H)%bind_Ok. revert Hc.
  step_load. destruct (is_put_like (rq_class q)); [|done]. intros [= <- <-].
  apply bind_Ok in H as (u1 & w1 & H1 & H).
  assert (settles w w1) as [Si St].
  { eapply keeps_use; [|exact H1]. walk. apply BxiMD_increment_ct_settled. }
  destruct (settled_req _ _ _ _ Mr St Hq) as (q1 & Hq1 & _ & E1 & _).
  rewrite <- (ack_due_kept _ _ _ ft _ _ Si Hk E1). eapply adds_silent_l; [exact Si|]. revert H.
  step_load. unfold ack_due, ack_event. unfold req_answer in E1. injection E1 as _ Emd _ _ _ _ _.
  rewrite Emd, <- Emd.
  destruct (_ =? _); cbn [when]; [|by intros [= _ <-]].
  intros (i & w2 & [-> _]%load_inv & H)%bind_Ok.
  apply (issue_event_told mine P) in H; [done|]. rewrite Emd. by eapply queue_known_kept.
Qed.

Lemma maybe_issue_send_told r q w u w' :
  mine r -> queue_known mine w (md_eq_handle (bmd_md (rq_md q))) ->
  w_reqs w !! r = Some q -> maybe_issue_send r w = Ok u w' ->
  adds mine P (send_due w q) w w' /\ stands mine req_answer w w'.
Proof.
  intros Mr Hk Hq. unfold maybe_issue_send, cast_request. intros (q0 & w0 & Hc & H)%bind_Ok.
  revert Hc. step_load. destruct (is_put_like (rq_class q)); [|done]. intros [= <- <-]. revert H.
  unfold send_due. destruct (rq_send_event_issued q) eqn:Hsi; cbn [negb andb].
  { by intros [= _ <-]. }
  step_update. set (w0' := on_objects _ w).
  assert (silent mine P w w0') as S0 by by apply silent_frame.
  assert (stands mine req_answer w w0') as A0 by (split; try done; by eapply kept_objects_insert).
  intros (u1 & w1 & H1 & H)%bind_Ok.
  assert (settles w0' w1) as [Si St].
  { eapply keeps_use; [|exact H1]. walk. apply BxiMD_increment_ct_settled. }
  set (q0 := over rq_send_event_issued _ q) in w0'.
  assert (w_reqs w0' !! r = Some q0) as Hq0 by apply lookup_insert_eq.
  assert (forall v v', stands mine req_acked v v' -> stands mine req_answer v v') as Hf.
  { intros v v'. apply stands_factor. by intros ?? [[? ?]%pair_equal_spec ?]%pair_equal_spec. }
  destruct (_ && _); cbn [when] in H.
  - apply bind_Ok in H as (i & w2 & [-> _]%load_inv & H).
    pose proof (issue_event_stands mine req_acked _ _ _ _ _ _ H) as St2.
    apply (issue_event_told mine P) in H; [|by do 2 (eapply queue_known_kept; [done|])].
    rewrite (told_kept mine P _ _ _ _ _ Si), (told_kept mine P _ _ _ _ _ S0) in H by
      (done || by eapply queue_known_kept).
    split; [|etrans; [exact A0|]; etrans; [exact (Hf _ _ St)|exact (Hf _ _ St2)]].
    do 2 (eapply adds_silent_l; [done|]). exact H.
  - injection H as _ <-. split; [|etrans; [exact A0|exact (Hf _ _ St)]]. exact (adds_silent_l _ _ _ _ _ _ S0 Si).
Qed.

(** What is told of a request whose acknowledgement arrives. *)
Lemma settle_ack_told msg r q x w u w' :
  mine r -> mine msg -> (msg < w_next w)%N ->
  queue_known mine w (md_eq_handle (bmd_md (rq_md q))) ->
  w_reqs w !! r = Some q -> w_msgs w !! msg = Some x ->
  (_ ← maybe_issue_send r; x ← load (T := BxiMsg) msg; issue_ack r (ms_ni_fail_type x)) w = Ok u w' ->
  adds mine P (ack_due w (ms_ni_fail_type x) q ++ send_due w q) w w'.
Proof.
  intros Mr Mx Hl Hk Hq Hx (u1 & w1 & H1 & H)%bind_Ok.
  destruct (maybe_issue_send_told _ _ _ _ _ Mr Hk Hq H1) as [A1 St].
  destruct (sd_reqs _ _ _ _ St _ _ Mr Hq) as (q1 & Hq1 & E1).
  destruct (sd_msgs _ _ _ _ St _ _ (conj Mx Hl) Hx) as (x1 & Hx1 & [_ Ef]%pair_equal_spec).
  revert H. step_load. intros H.
  apply issue_ack_told with (q := q1) in H; [|done| |done].
  - eapply adds_trans; [exact A1|].
    by rewrite (ack_due_kept _ _ _ _ _ _ A1 Hk E1), Ef in H.
  - unfold req_answer in E1. injection E1 as _ -> _ _ _ _ _. by eapply queue_known_kept.
Qed.

Lemma handle_ptl_ack_told node tx msg x q w u w' :
  mine (ms_parent_request x) -> mine msg -> (msg < w_next w)%N ->
  queue_known mine w (md_eq_handle (bmd_md (rq_md q))) ->
  w_msgs w !! msg = Some x -> w_reqs w !! ms_parent_request x = Some q ->
  handle_ptl_ack node tx msg w = Ok u w' ->
  tells P (if state_num (rq_process_state q) <=? state_num S4BXI_REQ_RECEIVED
           then ack_due w (ms_ni_fail_type x) q ++ send_due w q else []) w w'.
Proof.
  intros Mr Mx Hl Hk Hx Hq. unfold handle_ptl_ack. step_load. unfold cast_request.
  intros (q0 & w0 & Hc & H)%bind_Ok. revert Hc. step_load.
  destruct (is_put_like (rq_class q)); [|done]. intros [= <- <-].
  apply bind_Ok in H as (u1 & w1 & H1%release_request_entry_settled & H).
  apply bind_Ok in H as (off & w2 & H2%md_e2e_off_settled & H).
  apply bind_Ok in H as (u3 & w3 & H3 & H).
  apply (keeps_use settles) in H3; [|walk; apply send_bxi_ack_settled].
  assert (settles w w3) as [Si St] by (do 2 (etrans; [eassumption|]); done). clear H1 H2 H3.
  destruct (settled_req _ _ _ _ Mr St Hq) as (q3 & Hq3 & E3 & Ea & Es). revert H. step_load.
  rewrite Es, <- (ack_due_kept _ _ _ _ _ _ Si Hk Ea), <- (send_due_kept _ _ _ _ _ Si Hk E3).
  assert (queue_known mine w3 (md_eq_handle (bmd_md (rq_md q3)))) as Hk3.
  { unfold req_answer in Ea. injection Ea as _ -> _ _ _ _ _. by eapply queue_known_kept. }
  destruct (sd_msgs _ _ _ _ St _ _ (conj Mx Hl) Hx) as (x3 & Hx3 & [_ Ef]%pair_equal_spec).
  pose proof (sd_next _ _ _ _ St) as Hn.
  destruct (_ <=? _); cbn [when]; [|by intros [= _ <-]; apply Si].
  unfold set_request. step_update. set (w4 := on_objects _ w3). set (q4 := over _ _ q3) in w4.
  assert (w_reqs w4 !! ms_parent_request x = Some q4) as Hq4 by apply lookup_insert_eq.
  assert (silent mine P w3 w4) as S4 by by apply silent_frame.
  assert (msg < w_next w4)%N as Hl4 by (cbn; lia).
  intros H.
  pose proof (settle_ack_told msg _ q4 x3 w4 u w' Mr Mx Hl4 Hk3 Hq4 Hx3 H) as Ht.
  rewrite Ef in Ht. apply (ad_tells mine P).
  eapply adds_silent_l; [exact Si|]. eapply adds_silent_l; [exact S4|]. exact Ht.
Qed.
End Acknowledged.

(** The request of a call, with what its target has answered. *)
Definition answered (asked q : BxiRequest) : BxiRequest :=
  asked <| rq_mlength := rq_mlength q |> <| rq_target_remote_offset := rq_target_remote_offset q |>
        <| rq_send_event_issued := rq_send_event_issued q |>.

Section Acknowledges.
Context `{E : Env, !Rely E}.
Implicit Types w : World.

(** C6. The initiator is told how its put ended, whatever happened since the call: a card receives
    the acknowledgement of the request of [PtlPut] in any later world, while the other actors do what
    they want ([F]) but leave alone the configuration and the objects of this acknowledgement
    ([mine]: its message, the request, the queue of the descriptor).  When the request was not
    settled yet, the card puts in the queue of the descriptor of the call the SEND event, unless it
    was issued or the descriptor disables it, then the ACK event if the call has asked for it, with
    the user pointer and the length of the call, and the failure type, the length and the offset that
    the target has answered; it issues nothing else, and nothing at all for a request that was
    settled: all other new events are events of the others ([P]). *)
Theorem put_acknowledged a md lo len ack target pt bits ro up hdr w code w1 :
  PtlPut a md lo len ack target pt bits ro up hdr w = Ok code w1 ->
  exists d i p service, w_mds w !! md = Some d /\ w_nis w !! bmd_ni d = Some i /\
  get_physical_proc (bmd_ni d) target w = Ok p w /\
  let asked := BxiPutRequest_init d len (HAS_PTL_OPTION (ni_options i) PTL_NI_MATCHING) bits
                 (phys_pid p) pt up service lo ro ack hdr in
  forall w2 q node tx msg x F mine P u w4,
  rtc (@step E) w1 w2 -> w_reqs w2 !! w_next w = Some q ->
  w_msgs w2 !! msg = Some x -> ms_parent_request x = w_next w -> ms_type x = S4BXI_PTL_ACK ->
  mine (w_next w) -> mine msg -> (msg < w_next w2)%N ->
  queue_known mine w2 (md_eq_handle (bmd_md d)) ->
  Spares mine P req_acked F -> @target_dispatch F node tx msg w2 = Ok u w4 ->
  tells P (if state_num (rq_process_state q) <=? state_num S4BXI_REQ_RECEIVED
           then ack_due w2 (ms_ni_fail_type x) (answered asked q) ++ send_due w2 (answered asked q)
           else []) w2 w4.
Proof.
  intros (d & i & p & service & Hd & Hi & Hp & _ & Ha)%PtlPut_asks.
  exists d, i, p, service. do 3 (split; [done|]). cbv zeta.
  intros w2 q node tx msg x F mine P u w4 R Hq Hx Hr Ht Mr Mx Hl Hk SF Hdis.
  specialize (Ha w2 q R Hq). rewrite <- Hr in Hq, Mr. revert Hdis. unfold target_dispatch. step_load.
  rewrite Ht. intros H. assert (rq_md q = d) as Emd by exact (re_md _ _ Ha). rewrite <- Emd in Hk.
  pose proof (handle_ptl_ack_told mine P _ _ _ _ _ _ _ _ Mr Mx Hl Hk Hx Hq H) as Htl.
  revert Htl. unfold ack_due, send_due, ack_event, send_event. cbn.
  by rewrite Emd, (re_ack_req _ _ Ha), (re_user_ptr _ _ Ha), (re_size _ _ Ha).
Qed.
End Acknowledges.
