(* ===== verification/Updates.v ===== *)
(** From the call of an atomic operation to the memory of its target: what the card of the target
    updates is what the call has asked for. *)
From S2P Require Import Prelude Portals World Logic Engine Queue Messages Node Counters Entries.
From S2P Require Import E2E Atomics Memory NicActor Initiator Target MainActor FlowControl Progress.
From S2P Require Import System Matching Waiting Reliability AtomicsSpec Frames Deliver EndToEnd.

(** ** One element *)

Lemma ptl_atsize_pos t : (0 < ptl_atsize t)%nat.
Proof. destruct t; cbn; lia. Qed.

Lemma load_bytes_Ok a n w bs w' :
  load_bytes a n w = Ok bs w' -> w' = w /\ bytes_at (w_mem w) a n = Some bs.
Proof. rewrite load_bytes_at. case_match; [|done]. by intros [= -> ->]. Qed.

(** What an operation reads as its third operand when that is the second one, and what a fetch reads,
    whose operations that need a third operand have none ([fetch_cst]). *)
Definition third_operand (op : ptl_op) (operand : list Z) : list Z :=
  if reads_cst op then operand else [].

(** The operation on one element is done once and written over the element. *)
Lemma apply_atomic_op_once op t me cst operand w u w' :
  cst = CstAt operand \/ (reads_cst op = true -> cst = CstField []) ->
  apply_atomic_op op t me cst operand me (Z.of_nat (ptl_atsize t)) w = Ok u w' ->
  exists old arg bs,
    bytes_at (w_mem w) me (ptl_atsize t) = Some old /\
    bytes_at (w_mem w) operand (ptl_atsize t) = Some arg /\
    apply_element op t 1 old arg (third_operand op arg) = inr bs /\
    forall x, w_mem w' !! x = written (w_mem w) me bs x.
Proof.
  intros Hcst. pose proof (ptl_atsize_pos t) as Hpos. unfold apply_atomic_op.
  rewrite Z_mod_same_full, Z_div_same_full by lia. cbn [Z.eqb negb].
  change (swrap 32 1) with 1. change (Z.to_nat 1) with 1%nat. cbn [atomic_loop].
  rewrite Z.eqb_refl. cbn [negb when].
  intros (? & ? & [= _ <-] & H)%bind_Ok.
  apply bind_Ok in H as (old & w1 & [-> Ho]%load_bytes_Ok & H).
  apply bind_Ok in H as (arg & w1 & [-> Ha]%load_bytes_Ok & H).
  apply bind_Ok in H as (c & w1 & Hc & H).
  assert (w1 = w /\ c = third_operand op arg) as [-> ->].
  { unfold third_operand. destruct (reads_cst op); [|by injection Hc as <- <-].
    destruct Hcst as [Hcst|Hcst]; [rewrite Hcst in Hc|rewrite Hcst in Hc by done].
    - cbn [load_cst] in Hc. apply load_bytes_Ok in Hc as [-> Hc]. split; [done|]. congruence.
    - exfalso. revert Hc Hpos. cbn [load_cst]. destruct (ptl_atsize t); [lia|done]. }
  apply bind_Ok in H as (? & w2 & Hs & [= _ <-]).
  destruct (apply_element op t 1 old arg _) as [e|bs] eqn:He; [done|].
  exists old, arg, bs. split_and!; try done. by apply store_bytes_spec in Hs as [_ Hx].
Qed.

(** ** The request of the call *)

Section Requests.
Context `{E : Env, !Rely E}.
Implicit Types w : World.

Lemma PtlAtomic_asks a md lo len ack target pt bits ro up hdr op t w code w1 :
  PtlAtomic a md lo len ack target pt bits ro up hdr op t w = Ok code w1 ->
  exists d i p service, w_mds w !! md = Some d /\ w_nis w !! bmd_ni d = Some i /\
    get_physical_proc (bmd_ni d) target w = Ok p w /\ code = PTL_OK /\
    asks (BxiAtomicRequest_init d len (HAS_PTL_OPTION (ni_options i) PTL_NI_MATCHING) bits
            (phys_pid p) pt up service lo ro ack hdr op t) (w_next w) w1.
Proof.
  unfold PtlAtomic. intros (d & w' & [-> Hd]%load_inv & H)%bind_Ok.
  apply bind_Ok in H as (ac & w' & [-> _]%load_inv & H).
  apply bind_Ok in H as (msg & w2 & (i & p & w0 & Hi & Hp & Hr & Hn & He)%create_request_made & H).
  exists d, i, p, (ma_service_mode ac). do 3 (split; [done|]).
  assert (evolves w2 w1) as He2.
  { eapply (keeps_use evolves); [|exact H]. walk. }
  split; [|eapply made_asks; [exact Hr|lia|by etrans]].
  do 3 apply bind_Ok in H as (? & ? & _ & H). by injection H.
Qed.

Lemma PtlFetchAtomic_asks a get_md get_lo md lo len target pt bits ro up hdr op t w code w1 :
  PtlFetchAtomic a get_md get_lo md lo len target pt bits ro up hdr op t w = Ok code w1 ->
  exists d d_get i p service, w_mds w !! md = Some d /\ w_mds w !! get_md = Some d_get /\
    w_nis w !! bmd_ni d = Some i /\ get_physical_proc (bmd_ni d) target w = Ok p w /\ code = PTL_OK /\
    asks (BxiFetchAtomicRequest_init d len (HAS_PTL_OPTION (ni_options i) PTL_NI_MATCHING) bits
            (phys_pid p) pt up service lo ro hdr op t d_get get_lo) (w_next w) w1.
Proof.
  unfold PtlFetchAtomic. intros (d & w' & [-> Hd]%load_inv & H)%bind_Ok.
  apply bind_Ok in H as (dg & w' & [-> Hg]%load_inv & H).
  apply bind_Ok in H as (ac & w' & [-> _]%load_inv & H).
  apply bind_Ok in H as (msg & w2 & (i & p & w0 & Hi & Hp & Hr & Hn & He)%create_request_made & H).
  exists d, dg, i, p, (ma_service_mode ac). do 4 (split; [done|]).
  assert (evolves w2 w1) as He2.
  { eapply (keeps_use evolves); [|exact H]. walk. }
  split; [|eapply made_asks; [exact Hr|lia|by etrans]].
  do 3 apply bind_Ok in H as (? & ? & _ & H). by injection H.
Qed.
End Requests.

(** ** The update of the target *)

(** Calls that leave [f] of the requests as it is. *)
Definition agree_on {V} (f : BxiRequest -> V) (w w' : World) : Prop :=
  kept (fun _ => True) f (w_reqs w) (w_reqs w').
#[export] Instance agree_on_preorder {V} (f : BxiRequest -> V) : PreOrder (agree_on f).
Proof. split; [intros w; apply kept_objects_refl|intros w1 w2 w3; apply kept_objects_trans]. Qed.
#[local] Hint Extern 2 (keeps (agree_on _) (update _ _) _) =>
  apply keeps_update; intros;
  first [ apply kept_objects_refl | by eapply kept_objects_insert ] : progress.

(** Receiving a request does not change the operation it asks for. *)
Definition operation (q : BxiRequest) :=
  (rq_op q, rq_datatype q, rq_class q, rq_remote_offset q, rq_get_md q, rq_get_local_offset q).

Lemma receive_request_operations `{E : Env} r msg me k w :
  keeps (agree_on operation) (receive_request r msg me k) w.
Proof. unfold receive_request, set_me, set_request, get_offsetted_addr. walk. Qed.

(** The memory after an atomic request on [len] bytes, when it is done at all: nothing changes
    beyond one element; when [len] is one element, it holds the result of the operation. *)
Record updated (op : ptl_op) (t : ptl_datatype) (target operand len : Z) (m m' : gmap Z Z) : Prop := {
  up_outside : forall x, ~ (target <= x < target + Z.of_nat (ptl_atsize t)) -> m' !! x = m !! x;
  up_element : len = Z.of_nat (ptl_atsize t) -> exists old arg new,
    bytes_at m target (ptl_atsize t) = Some old /\ bytes_at m operand (ptl_atsize t) = Some arg /\
    apply_element op t 1 old arg (third_operand op arg) = inr new /\
    bytes_at m' target (ptl_atsize t) = Some new }.

Lemma updated_by op t target cst operand len w u w' :
  cst = CstAt operand \/ (reads_cst op = true -> cst = CstField []) ->
  apply_atomic_op op t target cst operand target len w = Ok u w' ->
  updated op t target operand len (w_mem w) (w_mem w').
Proof.
  intros Hcst H. split.
  - intros x Hx. pose proof H as Ho. unfold apply_atomic_op in Ho. destruct (negb _); [done|].
    apply atomic_loop_touches in Ho as [_ Ho]. by apply Ho.
  - intros ->. destruct (apply_atomic_op_once _ _ _ _ _ _ _ _ Hcst H)
      as (old & arg & new & Ho & Ha & He & Hx).
    exists old, arg, new. do 3 (split; [done|]).
    assert (length new = ptl_atsize t) as Hl.
    { apply bytes_at_spec in Ho as [Lo _], Ha as [La _].
      eapply apply_element_length; [exact Lo|exact La| |exact He].
      intros Hc. unfold third_operand. by rewrite Hc. }
    apply bytes_at_spec. split; [done|]. intros i Hi. rewrite Hx. unfold written.
    rewrite decide_True by lia. f_equal. lia.
Qed.

Section Updated.
Context `{E : Env, !Rely E, !KeepsMemory E}.
Implicit Types w : World.

(** Whether an atomic request is done: with real memory, and a descriptor that is not empty. *)
Definition done_for_real (n : BxiNode) (cfg : s4bxi_config) (d : BxiMD) : bool :=
  nd_use_real_memory n && use_real_memory cfg && negb (md_length (bmd_md d) =? 0).

Lemma ack_policy_read b md w a w' : ack_policy b md w = Ok a w' -> w' = w.
Proof.
  unfold ack_policy. destruct b; [by intros [= _ <-]|].
  intros (off & w1 & H & [= _ <-])%bind_Ok. revert H. unfold md_e2e_off, S4BXI_CONFIG_OR.
  intros (i & w2 & [-> _]%load_inv & H)%bind_Ok. apply bind_Ok in H as (n & w2 & [-> _]%load_inv & H).
  revert H. by case_match; intros [= _ <-].
Qed.

Lemma payload_write_async_mem node msg w : keeps same_mem (payload_write_async node msg) w.
Proof. unfold payload_write_async, pci_transfer_async, pci_transfer_init. walk. Qed.
Hint Resolve payload_write_async_mem : progress.

Lemma run_atomic_updates node r me m q n w w1 u w2 :
  received r me m q w w1 -> agree_on operation w w1 -> w_reqs w !! r = Some q ->
  w_nodes w !! node = Some n -> run_atomic node r w1 = Ok u w2 ->
  if done_for_real n (w_config w) (rq_md q)
  then updated (rq_op q) (rq_datatype q) (entry_addr m q) (md_addr q) (get_mlength m q)
         (w_mem w) (w_mem w2)
  else w_mem w2 = w_mem w.
Proof.
  intros [[HM HC] HN HI (q' & Hq' & Emd & Eo & Es & El) _] Hop Hq Hn. unfold run_atomic.
  destruct (Hop _ _ Logic.I Hq) as (q1 & Hq1 & Ec). rewrite Hq' in Hq1. injection Hq1 as <-.
  injection Ec as Eop Et _ _ _ _.
  assert (w_nodes w1 !! node = Some n) as Hn1 by by rewrite HN.
  rewrite (bind_run _ _ _ _ _ (config_and _ _ _ _ _ Hn1)). step_load.
  rewrite HC, Emd, Eo, Eop, Et. unfold done_for_real.
  destruct (_ && _ && _); cbn [when]; [|by intros [= _ <-]].
  rewrite (bind_run _ _ _ _ _ (received_range_eq _ _ _ _ _ Hq' Es El)).
  intros H%updated_by; [|by left]. by rewrite HM in H.
Qed.

Lemma atomic_updates node tx msg x q n c matched w w1 u w' :
  w_msgs w !! msg = Some x -> w_reqs w !! ms_parent_request x = Some q ->
  rq_process_state q = S4BXI_REQ_CREATED -> w_nodes w !! node = Some n ->
  match_entry node msg w = Ok (c, matched) w1 ->
  handle_atomic_request node tx msg w = Ok u w' ->
  match matched with
  | Some me => forall m, w_mes w !! me = Some m ->
      if done_for_real n (w_config w) (rq_md q)
      then updated (rq_op q) (rq_datatype q) (entry_addr m q) (md_addr q) (get_mlength m q)
             (w_mem w) (w_mem w')
      else w_mem w' = w_mem w
  | None => w_mem w' = w_mem w
  end.
Proof.
  intros Hx Hq Hs Hn Hme. unfold handle_atomic_request. step_load.
  unfold cast_request. intros (q0 & w0 & Hc & H)%bind_Ok. revert Hc. step_load.
  destruct (is_atomic_like (rq_class q)); [|done]. intros [= <- <-].
  rewrite Hs in H. cbn in H. apply bind_Ok in H as (a & w2 & ->%ack_policy_read & H).
  rewrite (bind_run _ _ _ _ _ Hme) in H.
  pose proof (match_entry_marks msg _ _ _ _ _ Hme) as [[HM HC] HN HI HX HR HE].
  apply bind_Ok in H as (dma & w2 & Hin & Hout).
  apply (keeps_use same_mem) in Hout as [HM' _]; [|unfold wait_dma; walk].
  destruct matched as [me|].
  2:{ injection Hin as _ <-. by rewrite HM', HM. }
  intros m Hm.
  apply HE in Hm as (b & Hm1). apply HR in Hq as (k & Hq1). apply HX in Hx as (x1 & Hx1 & Ex).
  apply bind_Ok in Hin as (t & w3 & Hrc & Hin).
  pose proof (receive_request_operations _ _ _ _ _ _ _ Hrc) as Hops.
  eapply receive_request_received in Hrc; [|eassumption..].
  apply bind_Ok in Hin as (t' & w4 & Hat & Hin).
  eapply run_atomic_updates in Hat; [|exact Hrc|exact Hops|exact Hq1|by rewrite HN].
  apply (keeps_use same_mem) in Hin as [HM4 _]; [|unfold set_me; walk].
  rewrite HM', HM4. rewrite HM, HC in Hat. exact Hat.
Qed.

(** C7. An atomic operation is executed as it was called, whatever happens between the call and its
    execution: the entry that the card finds is one of the table entry that the call names, as for a
    put; no byte changes beyond the element at the address that this entry gives, whatever the length
    of the call; and when the entry accepts one element, it becomes the result of the operation of the
    call, for the datatype of the call, on what it was and on the element at the local offset of the
    descriptor of the call.  Memory does not change when no entry matches, without real memory, or
    with an empty descriptor. *)
Theorem atomic_delivered a md lo len ack target pt bits ro up hdr op t w code w1 :
  PtlAtomic a md lo len ack target pt bits ro up hdr op t w = Ok code w1 ->
  exists d i p service, w_mds w !! md = Some d /\ w_nis w !! bmd_ni d = Some i /\
  get_physical_proc (bmd_ni d) target w = Ok p w /\
  let asked := BxiAtomicRequest_init d len (HAS_PTL_OPTION (ni_options i) PTL_NI_MATCHING) bits
                 (phys_pid p) pt up service lo ro ack hdr op t in
  forall w2 q node n tx msg x c matched w3 u w4,
  rtc step w1 w2 -> w_reqs w2 !! w_next w = Some q ->
  rq_process_state q = S4BXI_REQ_CREATED -> w_nodes w2 !! node = Some n ->
  w_msgs w2 !! msg = Some x -> ms_parent_request x = w_next w -> ms_type x = S4BXI_PTL_ATOMIC ->
  match_entry node msg w2 = Ok (c, matched) w3 -> target_dispatch node tx msg w2 = Ok u w4 ->
  match matched with
  | Some me =>
      entry_found w2 node asked me /\
      forall m, w_mes w2 !! me = Some m ->
        if done_for_real n (w_config w2) d
        then updated op t (entry_addr m asked) (add64 (md_start (bmd_md d)) lo) (get_mlength m asked)
               (w_mem w2) (w_mem w4)
        else w_mem w4 = w_mem w2
  | None => w_mem w4 = w_mem w2
  end.
Proof.
  intros (d & i & p & service & Hd & Hi & Hp & _ & Ha)%PtlAtomic_asks.
  exists d, i, p, service. do 3 (split; [done|]). cbv zeta.
  intros w2 q node n tx msg x c matched w3 u w4 R Hq Hs Hn Hx Hr Ht Hm Hdis.
  specialize (Ha w2 q R Hq). rewrite <- Hr in Hq. revert Hdis. unfold target_dispatch. step_load.
  rewrite Ht. intros Hat.
  pose proof (atomic_updates _ _ _ _ _ _ _ _ _ _ _ _ Hx Hq Hs Hn Hm Hat) as Hw.
  destruct matched as [me|]; [|exact Hw].
  split; [by eapply entry_found_evolves, match_entry_found|].
  intros m Hme. specialize (Hw m Hme). revert Hw.
  rewrite (entry_addr_evolves m _ _ Ha), (get_mlength_evolves m _ _ Ha). unfold md_addr.
  by rewrite (re_md _ _ Ha), (re_local_offset _ _ Ha), (re_op _ _ Ha), (re_datatype _ _ Ha).
Qed.

(** ** Fetches *)

(** The copy of the entry that a received request keeps gives the address where it was received. *)
Lemma receive_request_matched r msg me m q x w u w' :
  w_msgs w !! msg = Some x -> ms_parent_request x = r ->
  w_reqs w !! r = Some q -> w_mes w !! me = Some m ->
  receive_request r msg me always w = Ok u w' ->
  exists q' m', w_reqs w' !! r = Some q' /\ rq_matched_me q' = Some m' /\
    forall q2, rq_remote_offset q2 = rq_remote_offset q ->
      fst (fst (offsetted_addr m' q2 false)) = entry_addr m q.
Proof.
  intros Hx Hr Hq Hm. unfold receive_request, set_me, set_request, always. step_update.
  set (m1 := m <| bme_in_use := true |>). set (w1 := on_objects _ w).
  assert (w_mes w1 !! me = Some m1) as Hm1 by apply lookup_insert_eq. step_load. cbn [when].
  assert (w_reqs w1 !! r = Some q) as Hq1 by done.
  step_update. set (q2 := over rq_matched_me _ q). set (w2 := on_objects _ w1).
  assert (w_reqs w2 !! r = Some q2) as Hq2 by apply lookup_insert_eq. intros H.
  assert (agree_on rq_matched_me w2 w') as HK.
  { eapply keeps_use; [|exact H]. unfold get_offsetted_addr. walk. }
  destruct (HK _ _ Logic.I Hq2) as (q' & Hq' & Em). exists q', (BxiME_copy m1). do 2 (split; [done|]).
  intros q3 Ho. unfold entry_addr, offsetted_addr. rewrite Ho. by destruct (negb _).
Qed.

(** The operands of a fetch: the second one, and none when the operation needs a third one. *)
Lemma fetch_cst_operand q :
  rq_class q = BxiFetchAtomicRequest ->
  fetch_cst q = CstAt (md_addr q) \/ (reads_cst (rq_op q) = true -> fetch_cst q = CstField []).
Proof.
  intros Hc. unfold fetch_cst, md_addr. rewrite Hc.
  destruct (is_swap_request (rq_op q)); [by right|by left].
Qed.

(** The memory after a fetch: what the entry held was copied, then the element was updated. *)
Definition fetched_and_updated (n : BxiNode) (cfg : s4bxi_config) (m : BxiME) (q : BxiRequest)
    (d_get : BxiMD) (before after : gmap Z Z) : Prop :=
  if done_for_real n cfg (rq_md q) then
    exists fetched : gmap Z Z,
      (forall x, fetched !! x =
         copied before (add64 (md_start (bmd_md d_get)) (rq_get_local_offset q)) (entry_addr m q)
           (moved n cfg (me_length (bme_me m)) (get_mlength m q)) x) /\
      updated (rq_op q) (rq_datatype q) (entry_addr m q) (md_addr q) (get_mlength m q) fetched after
  else after = before.

Lemma fetch_copies n d_get off len src mlength w u w' :
  nd_use_real_memory n && use_real_memory (w_config w) = true ->
  when (negb (len =? 0))
    (get_md ← of_option (Some d_get) (Undefined "get_md is null");
     capped_memcpy (add64 (md_start (bmd_md get_md)) off) src mlength) w = Ok u w' ->
  only_mem w w' /\ forall x, w_mem w' !! x =
    copied (w_mem w) (add64 (md_start (bmd_md d_get)) off) src (moved n (w_config w) len mlength) x.
Proof.
  intros Hreal. unfold moved. rewrite Hreal. cbn [andb]. destruct (negb _); cbn [when].
  - by intros (? & ? & [= <- <-] & [Ho Hy]%capped_memcpy_spec)%bind_Ok.
  - intros [= _ <-]. split; [done|]. intros y. by rewrite copied_nothing by lia.
Qed.

Lemma matched_offsetted_addr_spec r q m w tx w' :
  w_reqs w !! r = Some q -> rq_matched_me q = Some m ->
  matched_offsetted_addr r w = Ok tx w' ->
  tx = fst (fst (offsetted_addr m q false)) /\ w_mem w' = w_mem w.
Proof.
  intros Hq Hm. unfold matched_offsetted_addr, set_request. step_load. rewrite Hm.
  intros (? & ? & [= <- <-] & H)%bind_Ok. revert H.
  destruct (offsetted_addr m q false) as [[addr off] toff]. step_update. by intros [= <- <-].
Qed.

Lemma run_fetch_atomic_updates node r msg me m q x d_get n w u w2 u2 w3 :
  w_msgs w !! msg = Some x -> ms_parent_request x = r ->
  w_reqs w !! r = Some q -> w_mes w !! me = Some m -> w_nodes w !! node = Some n ->
  rq_class q = BxiFetchAtomicRequest -> rq_get_md q = Some d_get ->
  receive_request r msg me always w = Ok u w2 -> run_fetch_atomic node r me w2 = Ok u2 w3 ->
  fetched_and_updated n (w_config w) m q d_get (w_mem w) (w_mem w3).
Proof.
  intros Hx Hr Hq Hm Hn Hcl Hg Hrc.
  destruct (receive_request_matched _ _ _ _ _ _ _ _ _ Hx Hr Hq Hm Hrc)
    as (q' & m' & Hq' & Hmm & Haddr).
  pose proof (receive_request_operations _ _ _ _ _ _ _ Hrc) as Hop.
  destruct (Hop _ _ Logic.I Hq) as (q1 & Hq1 & Ec). rewrite Hq' in Hq1. injection Hq1 as <-.
  injection Ec as Eop Et Ecl Ero Eg Egl.
  eapply receive_request_received in Hrc
    as [[HM HC] HN HI (q1 & Hq1 & Emd & Eo & Es & El) (m2 & Hm2 & Em)]; [|eassumption..].
  rewrite Hq' in Hq1. injection Hq1 as <-. unfold run_fetch_atomic.
  assert (w_nodes w2 !! node = Some n) as Hn1 by by rewrite HN.
  rewrite (bind_run _ _ _ _ _ (config_and _ _ _ _ _ Hn1)). step_load.
  unfold fetched_and_updated, done_for_real. rewrite HC, Emd.
  destruct (nd_use_real_memory n && use_real_memory (w_config w)) eqn:Hreal; cbn [andb];
    [|by intros [= _ <-]].
  destruct (md_length (bmd_md (rq_md q)) =? 0); cbn [negb when]; [by intros [= _ <-]|].
  rewrite (bind_run _ _ _ _ _ (received_range_eq _ _ _ _ _ Hq' Es El)). step_load.
  rewrite Eg, Hg, Egl, Em. cbn [fst snd].
  intros (u3 & w4 & Hcp & H)%bind_Ok.
  apply fetch_copies with (n := n) in Hcp as [Hmem Hfetch]; [|by rewrite HC].
  exists (w_mem w4). split; [intros y; rewrite Hfetch, HC; unfold copied; by rewrite HM|].
  assert (w_reqs w4 !! r = Some q') as Hq4 by by rewrite Hmem.
  apply bind_Ok in H as (tx & w5 & Htx & H).
  destruct (matched_offsetted_addr_spec _ _ _ _ _ _ Hq4 Hmm Htx) as [-> <-].
  rewrite (Haddr q' Ero) in H.
  assert (md_addr q' = md_addr q) as Ha by (unfold md_addr; by rewrite Emd, Eo).
  eapply updated_by; [rewrite <- Ha, <- Eop; apply fetch_cst_operand; by rewrite Ecl|].
  rewrite <- Eop, <- Et, <- Ha. unfold md_addr. by rewrite Emd.
Qed.

Lemma fetch_updates node tx msg x q d_get n response matched w w1 u w' :
  w_msgs w !! msg = Some x -> w_reqs w !! ms_parent_request x = Some q ->
  rq_process_state q = S4BXI_REQ_CREATED -> w_nodes w !! node = Some n ->
  rq_class q = BxiFetchAtomicRequest -> rq_get_md q = Some d_get ->
  new_response node msg S4BXI_PTL_FETCH_ATOMIC_RESPONSE w = Ok (response, matched) w1 ->
  handle_fetch_atomic_request node tx msg w = Ok u w' ->
  match matched with
  | Some me => forall m, w_mes w !! me = Some m ->
      fetched_and_updated n (w_config w) m q d_get (w_mem w) (w_mem w')
  | None => w_mem w' = w_mem w
  end.
Proof.
  intros Hx Hq Hs Hn Hcl Hg Hnr H. revert H. unfold handle_fetch_atomic_request. step_load.
  unfold cast_request. intros (q0 & w0 & Hc & H)%bind_Ok. revert Hc. step_load.
  destruct (is_fetch_like (rq_class q)); [|done]. intros [= <- <-].
  rewrite Hs in H. cbn in H. rewrite (bind_run _ _ _ _ _ Hnr) in H.
  pose proof (new_response_marks msg _ _ _ _ _ Hnr) as [[HM HC] HN HI HX HR HE].
  apply bind_Ok in H as (t & w2 & Hin & Hout).
  apply (keeps_use same_mem) in Hout as [HM' _]; [|walk].
  destruct matched as [me|].
  2:{ apply (keeps_use same_mem) in Hin as [HM2 _]; [by rewrite HM', HM2, HM|unfold set_msg; walk]. }
  intros m Hm.
  apply HE in Hm as (b & Hm1). apply HR in Hq as (c & Hq1). apply HX in Hx as (x1 & Hx1 & Ex).
  rewrite <- HN in Hn.
  apply bind_Ok in Hin as (t' & w3 & Hrc & Hin). apply bind_Ok in Hin as (t1 & w4 & Hrun & Hin).
  eapply run_fetch_atomic_updates in Hrun;
    [|exact Hx1|exact Ex|exact Hq1|exact Hm1|exact Hn|exact Hcl|exact Hg|exact Hrc].
  apply (keeps_use same_mem) in Hin as [HM4 _]; [|walk].
  rewrite HM', HM4. rewrite HM, HC in Hrun. exact Hrun.
Qed.

Lemma fetched_evolves n cfg m q q' d_get before after :
  req_evolves q q' ->
  fetched_and_updated n cfg m q' d_get before after ->
  fetched_and_updated n cfg m q d_get before after.
Proof.
  intros Ha. unfold fetched_and_updated, md_addr.
  rewrite (entry_addr_evolves m _ _ Ha), (get_mlength_evolves m _ _ Ha).
  by rewrite (re_md _ _ Ha), (re_local_offset _ _ Ha), (re_op _ _ Ha), (re_datatype _ _ Ha),
    (re_get_offset _ _ Ha).
Qed.

(** C8. A fetch is executed as it was called, whatever happens between the call and its execution:
    the entry that the card finds is one of the table entry that the call names; the bytes that the
    entry holds come to the offset of the descriptor that the call gets with, truncated to what the
    entry holds; then no byte changes beyond one element of the entry, and when the entry accepts one
    element, it becomes the result of the operation of the call on what it was and on the element at
    the offset of the descriptor that the call puts with.  Memory does not change when no entry
    matches, without real memory, or with an empty descriptor. *)
Theorem fetch_delivered a get_md get_lo md lo len target pt bits ro up hdr op t w code w1 :
  PtlFetchAtomic a get_md get_lo md lo len target pt bits ro up hdr op t w = Ok code w1 ->
  exists d d_get i p service, w_mds w !! md = Some d /\ w_mds w !! get_md = Some d_get /\
  w_nis w !! bmd_ni d = Some i /\ get_physical_proc (bmd_ni d) target w = Ok p w /\
  let asked := BxiFetchAtomicRequest_init d len (HAS_PTL_OPTION (ni_options i) PTL_NI_MATCHING) bits
                 (phys_pid p) pt up service lo ro hdr op t d_get get_lo in
  forall w2 q node n tx msg x response matched w3 u w4,
  rtc step w1 w2 -> w_reqs w2 !! w_next w = Some q ->
  rq_process_state q = S4BXI_REQ_CREATED -> w_nodes w2 !! node = Some n ->
  w_msgs w2 !! msg = Some x -> ms_parent_request x = w_next w ->
  ms_type x = S4BXI_PTL_FETCH_ATOMIC ->
  new_response node msg S4BXI_PTL_FETCH_ATOMIC_RESPONSE w2 = Ok (response, matched) w3 ->
  target_dispatch node tx msg w2 = Ok u w4 ->
  match matched with
  | Some me =>
      entry_found w2 node asked me /\
      forall m, w_mes w2 !! me = Some m ->
        fetched_and_updated n (w_config w2) m asked d_get (w_mem w2) (w_mem w4)
  | None => w_mem w4 = w_mem w2
  end.
Proof.
  intros (d & dg & i & p & service & Hd & Hg & Hi & Hp & _ & Ha)%PtlFetchAtomic_asks.
  exists d, dg, i, p, service. do 4 (split; [done|]). cbv zeta.
  intros w2 q node n tx msg x response matched w3 u w4 R Hq Hs Hn Hx Hr Ht Hm Hdis.
  specialize (Ha w2 q R Hq). rewrite <- Hr in Hq. revert Hdis. unfold target_dispatch. step_load.
  rewrite Ht. intros Hf.
  assert (rq_class q = BxiFetchAtomicRequest) as Hcl by by rewrite (re_class _ _ Ha).
  assert (rq_get_md q = Some dg) as Hgm by by rewrite (re_get_md _ _ Ha).
  pose proof (fetch_updates _ _ _ _ _ _ _ _ _ _ _ _ _ Hx Hq Hs Hn Hcl Hgm Hm Hf) as Hw.
  destruct matched as [me|]; [|exact Hw].
  split; [by eapply entry_found_evolves, new_response_found|].
  intros m Hme. exact (fetched_evolves _ _ _ _ _ _ _ _ Ha (Hw m Hme)).
Qed.
End Updated.
