(* ===== verification/Api.v ===== *)
(** Theorems about the calls of a user process ([MainActor.v]) and how its payloads and messages
    are routed, and two theorems on atomic requests at the target ([Target.v]). *)
From S2P Require Import Prelude Portals World Logic Engine Queue Messages Node Counters Entries.
From S2P Require Import E2E Atomics NicActor Initiator Target MainActor Matching Memory.
From S2P Require Import FlowControl Deliver.
From Stdlib Require Import Ascii.

(** ** Process identifiers *)

(** The search, from a PID so small that it does not wrap around: the first PID not in use. *)
Lemma find_pid_spec fuel used pid :
  0 <= pid -> pid + Z.of_nat fuel < 2 ^ 32 ->
  match find_pid fuel used pid with
  | Some p => pid <= p < pid + Z.of_nat fuel /\ (p ∉ used) /\ forall k, pid <= k < p -> k ∈ used
  | None => forall k, pid <= k < pid + Z.of_nat fuel -> k ∈ used
  end.
Proof.
  revert pid. induction fuel as [|fuel IH]; intros pid H0 Hf; cbn [find_pid]; [lia|].
  case_decide as Hin.
  - assert (u32 (pid + 1) = pid + 1) as -> by (apply wrap_small; lia).
    specialize (IH (pid + 1) ltac:(lia) ltac:(lia)). destruct (find_pid _ _ _) as [p|].
    + destruct IH as (Hp & Hn & Hk). split_and!; [lia..|done|]. intros k Hk'.
      destruct (decide (k = pid)) as [->|]; [done|]. apply Hk. lia.
    + intros k Hk'. destruct (decide (k = pid)) as [->|]; [done|]. apply IH. lia.
  - split_and!; [lia..|done|lia].
Qed.

(** Too many values in too short a list. *)
Lemma pigeonhole (l : list Z) a n :
  (forall k, a <= k < a + Z.of_nat n -> k ∈ l) -> (n <= length l)%nat.
Proof.
  intros Hl. assert (n = length (seqZ a (Z.of_nat n))) as Hn by (rewrite length_seqZ; lia).
  rewrite Hn at 1. apply submseteq_length, NoDup_submseteq; [apply NoDup_seqZ|].
  intros k Hk%elem_of_seqZ. auto.
Qed.

Lemma find_pid_found used pid :
  0 <= pid -> pid + Z.of_nat (S (length used)) < 2 ^ 32 ->
  exists p, find_pid (S (length used)) used pid = Some p /\
    pid <= p < 2 ^ 32 /\ (p ∉ used) /\ forall k, pid <= k < p -> k ∈ used.
Proof.
  intros H0 Hf. pose proof (find_pid_spec _ used pid H0 Hf) as Hs.
  destruct (find_pid _ _ _) as [p|].
  - exists p. split; [done|]. destruct Hs as (Hp & Hn & Hk). split_and!; (done || lia).
  - apply pigeonhole in Hs. lia.
Qed.

(** The PID of a new interface: with PTL_PID_ANY the search always ends, with the smallest
    PID from 2048 that no interface of the node uses; a PID asked for is taken as it is, and the
    call aborts when it is in use.  So the PIDs of a node stay distinct. *)
Theorem choose_pid_spec used pid w :
  Z.of_nat (length used) < 2 ^ 31 -> 0 <= pid < 2 ^ 32 ->
  let in_use := u32 <$> used in
  match choose_pid used pid w with
  | Ok p w' => w' = w /\ (p ∉ in_use) /\
      (if pid =? PTL_PID_ANY then 2048 <= p < 2 ^ 32 /\ forall k, 2048 <= k < p -> k ∈ in_use
       else p = pid) /\
      (NoDup in_use -> NoDup (u32 <$> used ++ [swrap 32 p]))
  | Fail e => e = Abort "PID is already in use" /\ pid <> PTL_PID_ANY /\ pid ∈ in_use
  end.
Proof.
  intros Hl Hp in_use. unfold choose_pid. fold in_use.
  assert (forall p, 0 <= p < 2 ^ 32 -> p ∉ in_use ->
    NoDup in_use -> NoDup (u32 <$> used ++ [swrap 32 p])) as Hnd.
  { intros p Hr Hn Hd. rewrite fmap_app. cbn [fmap list_fmap].
    assert (u32 (swrap 32 p) = p) as ->.
    { unfold swrap. rewrite (wrap_small 32 p) by lia. case_decide; [by apply wrap_small|].
      unfold wrap. replace (p - 2 ^ 32) with (p + (-1) * 2 ^ 32) by lia.
      by rewrite Z.mod_add, Z.mod_small by lia. }
    apply NoDup_app. split_and!; [done| |apply NoDup_singleton].
    intros x Hx ->%list_elem_of_singleton. done. }
  destruct (Z.eqb_spec pid PTL_PID_ANY) as [->|Hne].
  - destruct (find_pid_found in_use 2048) as (p & Hf & Hr & Hn & Hk); [done| |].
    { unfold in_use. rewrite length_fmap. lia. }
    rewrite Hf. cbn. split_and!; try done; try lia. apply Hnd; [lia|done].
  - case_decide; [done|]. cbn. split_and!; try done. by apply Hnd.
Qed.

(** ** Logical and physical addresses *)

Lemma l2p_index_lookup i l p k :
  l2p_index i l p = Some k ->
  exists j q, k = i + Z.of_nat j /\ l !! j = Some q /\ phys_nid q = phys_nid p /\ phys_pid q = phys_pid p.
Proof.
  revert i. induction l as [|q l IH]; intros i; cbn [l2p_index]; [done|].
  destruct (_ && _) eqn:Hq.
  - apply andb_true_iff in Hq as [?%Z.eqb_eq ?%Z.eqb_eq]. intros [= <-].
    exists 0%nat, q. split_and!; (done || lia).
  - intros (j & q' & -> & Hj & Hn)%IH. exists (S j), q'. split_and!; (done || lia).
Qed.

(** The table of an interface round-trips: PtlGetMap gives back what PtlSetMap stored, and on
    a logical interface the rank a process finds for itself designates that process. *)
Theorem set_map_round_trip `{E : Env} ni i n map w :
  w_nis w !! ni = Some i -> w_nodes w !! ni_node i = Some n -> map <> [] ->
  let size := Z.of_nat (length map) in
  exists w1, PtlSetMap ni size map w = Ok PTL_OK w1 /\
    PtlGetMap ni size w1 = Ok (PTL_OK, Some (map, size)) w1 /\
    forall rank w2, get_l2p_rank ni w1 = Ok rank w2 ->
      HAS_PTL_OPTION (ni_options i) PTL_NI_PHYSICAL = false ->
      get_physical_proc ni (mk_process rank 0) w1 = Ok (mk_process (nd_nid n) (ni_pid i)) w1.
Proof.
  intros Hi Hn Hne size. unfold PtlSetMap.
  rewrite (bind_run _ _ w tt w) by by rewrite (proj2 (Z.leb_le _ _)) by lia.
  step_update. set (w1 := on_objects _ w).
  assert (w_nis w1 !! ni = Some (i <| ni_l2p_map := map |>)) as Hi1.
  { cbn. rewrite lookup_insert_eq. unfold size. by rewrite Nat2Z.id, take_ge by lia. }
  exists w1. split; [done|]. split.
  - unfold PtlGetMap. step_load. cbn [ni_l2p_map over]. destruct map as [|p map]; [done|].
    fold size. rewrite Z.ltb_irrefl. unfold size. by rewrite Nat2Z.id, take_ge by done.
  - intros rank w2. unfold get_l2p_rank, get_physical_proc. step_load.
    assert (w_nodes w1 !! ni_node i = Some n) as Hn1 by done. step_load. cbn [ni_l2p_map ni_pid over].
    destruct (l2p_index 0 map _) as [k|] eqn:Hk; [|done]. intros [= <- <-] Ho.
    apply l2p_index_lookup in Hk as (j & q & -> & Hj & Hnid & Hpid). step_load.
    cbn [ni_options over] in *. rewrite Ho. cbn [rank phys_nid ni_l2p_map over].
    rewrite Z.add_0_l, Nat2Z.id, Hj. destruct q. cbn in *. by subst.
Qed.

(** ** Names of mailboxes *)

Fixpoint no_sep (s : string) : Prop :=
  match s with EmptyString => True | String c s' => c <> "_"%char /\ no_sep s' end.

Lemma split_at_sep s1 s2 t1 t2 :
  no_sep s1 -> no_sep s2 ->
  (s1 ++ String "_" t1 = s2 ++ String "_" t2)%string -> s1 = s2 /\ t1 = t2.
Proof.
  revert s2. induction s1 as [|c s1 IH]; intros [|c' s2] H1 H2; cbn.
  - by intros [= ->].
  - intros [= <- _]. by destruct H2.
  - intros [= -> _]. by destruct H1.
  - intros [= -> H]. destruct H1, H2. by destruct (IH s2) as [-> ->].
Qed.

Lemma pretty_N_go_no_sep x s : no_sep s -> no_sep (pretty_N_go x s).
Proof.
  revert s. induction (N.lt_wf_0 x) as [x _ IH]; intros s Hs.
  destruct (decide (x = 0)%N) as [->|]; [done|].
  rewrite pretty_N_go_step by lia. apply IH; [apply N.div_lt; lia|]. split; [|done].
  unfold pretty_N_char. by repeat case_match.
Qed.

Lemma pretty_Z_no_sep (z : Z) : no_sep (pretty z).
Proof. destruct z; [done|apply pretty_N_go_no_sep; done|split; [done|by apply pretty_N_go_no_sep]]. Qed.

(** Messages are not misrouted: the mailboxes of two nodes, of two networks, or of the two
    directions of one node, have different names. *)
Theorem mailbox_names_distinct nid vn nid' vn' :
  - 2 ^ 31 <= nid < 2 ^ 31 -> - 2 ^ 31 <= nid' < 2 ^ 31 ->
  (nic_rx_mailbox_name nid vn = nic_rx_mailbox_name nid' vn' <-> nid = nid' /\ vn = vn') /\
  (nic_tx_mailbox_name nid vn = nic_tx_mailbox_name nid' vn' <-> nid = nid' /\ vn = vn') /\
  nic_rx_mailbox_name nid vn <> nic_tx_mailbox_name nid' vn'.
Proof.
  intros Hn Hn'. unfold nic_rx_mailbox_name, nic_tx_mailbox_name.
  assert (forall z, - 2 ^ 31 <= z < 2 ^ 31 -> swrap 32 z = z) as Hs.
  { intros z Hz. unfold swrap. destruct (decide (0 <= z)).
    - rewrite wrap_small by lia. by rewrite decide_True by lia.
    - assert (u32 z = z + 2 ^ 32) as ->; [|rewrite decide_False; lia].
      unfold wrap. rewrite <- (Z.mod_add z 1) by lia. rewrite Z.mod_small; lia. }
  rewrite !Hs by done.
  assert (Inj (=) (=) vn_num) as Hv by (by intros [] []).
  split_and!.
  - split; [|by intros [-> ->]].
    intros [->%(inj pretty) [= ->%(inj pretty)%(inj vn_num)]]%split_at_sep; auto using pretty_Z_no_sep.
  - split; [|by intros [-> ->]].
    intros [->%(inj pretty) [= ->%(inj pretty)%(inj vn_num)]]%split_at_sep; auto using pretty_Z_no_sep.
  - by intros [_ [=]]%split_at_sep; auto using pretty_Z_no_sep.
Qed.

(** ** The way of a payload *)

(** The payload of a put crosses the PCI bus exactly once: when PCI transfers are modelled and
    it does not fit in the command, either the user process pushes it (PIO) or the NIC fetches it
    (DMA), never both; otherwise neither does. *)
Theorem payload_crosses_once model x q :
  ms_retry_count x = 0 -> ms_simulated_size x = rq_payload_size q ->
  ms_is_PIO x = pio_condition model (ms_retry_count x) q ->
  let pio := ms_is_PIO x in
  let dma := uses_dma model x (INLINE_SIZE q) in
  xorb pio dma = model && (INLINE_SIZE q <? rq_payload_size q) /\ pio && dma = false.
Proof.
  intros Hr Hs Hp. cbv zeta. unfold uses_dma. rewrite Hp, Hr, Hs. unfold pio_condition. cbn.
  destruct model, (INLINE_SIZE q <? rq_payload_size q), (rq_payload_size q <=? PIO_SIZE q),
    (HAS_PTL_OPTION _ _); done.
Qed.

(** ** Atomic requests at the target *)

Lemma reads_cst_swap op : reads_cst op = is_swap_request op.
Proof. by destruct op. Qed.

Lemma atomic_without_cst op t me rx tx len w u w' :
  is_swap_request op = true -> 0 < len < 2 ^ 31 ->
  apply_atomic_op op t me (CstField []) rx tx len w <> Ok u w'.
Proof.
  intros Hop Hlen. unfold apply_atomic_op. destruct (negb _) eqn:Hm; [done|].
  apply negb_false_iff, Z.eqb_eq in Hm. set (n := Z.of_nat (ptl_atsize t)) in *.
  assert (1 <= n) as Hn by (unfold n; destruct t; cbn; lia).
  assert (swrap 32 (len / n) = len / n) as ->.
  { assert (0 <= len / n <= len) by (split; [apply Z.div_pos; lia|apply Z.div_le_upper_bound; nia]).
    unfold swrap. rewrite wrap_small by lia. by rewrite decide_True by lia. }
  assert (1 <= len / n) as Hq by (pose proof (Z.div_mod len n ltac:(lia)); nia).
  destruct (Z.to_nat (len / n)) as [|k] eqn:Hk; [lia|]. cbn [atomic_loop].
  rewrite reads_cst_swap, Hop. intros (t1 & w1 & _ & H)%bind_Ok.
  apply bind_Ok in H as (m & w2 & _ & H). apply bind_Ok in H as (r & w3 & _ & H).
  apply bind_Ok in H as (c & w4 & Hc & _). cbn [load_cst length] in Hc.
  apply bind_Ok in Hc as (t2 & w5 & Ha & _). by destruct t.
Qed.

(** With real memory, the target cannot execute a swap that PtlSwap issued: the request it
    creates is a BxiFetchAtomicRequest, the handler reads the operand from the field that only a
    BxiSwapRequest has, past the end of the object. *)
Theorem swap_request_undefined `{E : Env} node r me n q mlength w u w' :
  w_nodes w !! node = Some n -> nd_use_real_memory n && use_real_memory (w_config w) = true ->
  w_reqs w !! r = Some q -> rq_class q = BxiFetchAtomicRequest ->
  is_swap_request (rq_op q) = true -> md_length (bmd_md (rq_md q)) <> 0 ->
  rq_mlength q = Some mlength -> 0 < mlength < 2 ^ 31 ->
  run_fetch_atomic node r me w <> Ok u w'.
Proof.
  intros Hn Hreal Hq Hc Hop Hlen Hml Hr. unfold run_fetch_atomic.
  rewrite (bind_run _ _ _ _ _ (config_and _ _ _ _ _ Hn)). rewrite Hreal. step_load.
  rewrite (proj2 (Z.eqb_neq _ _) Hlen). cbn [negb andb when].
  intros ([start ml] & w1 & Hrr & H)%bind_Ok.
  assert (ml = mlength) as ->.
  { revert Hrr. unfold received_range. step_load. rewrite Hml. destruct (rq_start q); [|done].
    by intros [= _ <- _]. }
  apply bind_Ok in H as (m & w2 & _ & H). apply bind_Ok in H as (t1 & w3 & _ & H).
  apply bind_Ok in H as (tx & w4 & _ & H). revert H. unfold fetch_cst. rewrite Hop, Hc.
  by apply atomic_without_cst.
Qed.

(** An atomic request that matches no entry is never answered, even when the initiator asked
    for an acknowledgement: the handler returns without changing anything (a put in the same
    case sends the acknowledgement with its failure). *)
Theorem unmatched_atomic_unanswered `{E : Env} node tx_queue msg code w w1 u w' :
  match_entry node msg w = Ok (code, None) w1 ->
  handle_atomic_request node tx_queue msg w = Ok u w' -> w' = w.
Proof.
  intros Hm. unfold handle_atomic_request, cast_request.
  intros (x & w2 & [-> _]%load_inv & H)%bind_Ok. apply bind_Ok in H as (q & w2 & Hq & H).
  apply bind_Ok in Hq as (q' & w3 & [-> _]%load_inv & Hq).
  apply bind_Ok in Hq as (t & w3 & Ha & [= <- <-]).
  apply assert_inv in Ha as [_ ->]. destruct (_ <? _); [by injection H as _ <-|].
  apply bind_Ok in H as (p & w4 & Hp & H).
  assert (w4 = w) as ->.
  { unfold ack_policy in Hp. destruct (negb _); [by injection Hp as _ <-|].
    apply bind_Ok in Hp as (off & w5 & Hoff & [= _ <-]). revert Hoff. unfold md_e2e_off, S4BXI_CONFIG_OR.
    intros (i & w6 & [-> _]%load_inv & H6)%bind_Ok. apply bind_Ok in H6 as (nd & w6 & [-> _]%load_inv & H6).
    destruct (nd_e2e_off nd); by injection H6 as _ <-. }
  rewrite (bind_run _ _ _ _ _ Hm) in H. injection H as _ <-.
  apply match_entry_inv in Hm as (nis & h & Hm). by apply match_in_nis_status in Hm as [_ ->].
Qed.
