(* ===== verification/MpiTables.v ===== *)
(** The tables of the MPI middleware: what the macros of [s4bxi_mpi_middleware.cpp] are applied to,
    the prototypes and the redirections of [s4bxi_mpi_middleware.h], the fields of the structure of
    [s4bxi_mpi_ops.h]. *)
From S2P Require Import Prelude.

#[local] Open Scope string_scope.

(** The macros that define a function of the middleware. *)
(** @src/src/mpi_middleware/s4bxi_mpi_middleware.cpp:153-195 S4BXI_MPI_ONE_IMPLEM and the others *)
Inductive macro := ONE_IMPLEM | ONE_IMPLEM_STORE_REQUEST | BULL_IMPLEM | UNSUPPORTED.

(** What is passed to the implementation: a parameter, or its translation. *)
Inductive argument := Var (x : string) | Comm (x : string) | Datatype (x : string) | Op (x : string).

(** A use of a macro: the type of the result, the name, the parameters with their types, and what
    is passed ([argsval]). *)
Record instance := mk_instance {
  i_macro : macro; i_rtype : string; i_name : string;
  i_params : list (string * string); i_args : list argument }.

#[export] Instance macro_eq_dec : EqDecision macro.
Proof. solve_decision. Defined.
#[export] Instance argument_eq_dec : EqDecision argument.
Proof. solve_decision. Defined.
#[export] Instance instance_eq_dec : EqDecision instance.
Proof. solve_decision. Defined.

Abbreviation one := (mk_instance ONE_IMPLEM).
Abbreviation store := (mk_instance ONE_IMPLEM_STORE_REQUEST).
Abbreviation bull_only := (mk_instance BULL_IMPLEM).
Abbreviation unsupported := (fun rtype name params => mk_instance UNSUPPORTED rtype name params []).

(** ** The functions that the macros define *)

(** @src/src/mpi_middleware/s4bxi_mpi_middleware.cpp:242-269 Finalized to Keyval_free *)
Definition environment_functions : list instance :=
  [unsupported "int" "Finalized" [("int*", "flag")];
   unsupported "int" "Init_thread" [("int*", "argc"); ("char***", "argv"); ("int", "required");
       ("int*", "provided")];
   unsupported "int" "Initialized" [("int*", "flag")];
   unsupported "int" "Query_thread" [("int*", "provided")];
   unsupported "int" "Is_thread_main" [("int*", "flag")];
   bull_only "int" "Get_version" [("int*", "version"); ("int*", "subversion")] [Var "version";
       Var "subversion"];
   unsupported "int" "Get_library_version" [("char*", "version"); ("int*", "len")];
   one "int" "Get_processor_name" [("char*", "name"); ("int*", "resultlen")] [Var "name";
       Var "resultlen"];
   unsupported "int" "Abort" [("MPI_Comm", "comm"); ("int", "errorcode")];
   unsupported "int" "Alloc_mem" [("MPI_Aint", "size"); ("MPI_Info", "info");
       ("void*", "baseptr")];
   unsupported "int" "Free_mem" [("void*", "base")];
   one "double" "Wtime" [] [];
   one "double" "Wtick" [] [];
   unsupported "int" "Buffer_attach" [("void*", "buffer"); ("int", "size")];
   unsupported "int" "Buffer_detach" [("void*", "buffer"); ("int*", "size")];
   unsupported "int" "Address" [("const void*", "location"); ("MPI_Aint*", "address")];
   unsupported "int" "Get_address" [("const void*", "location"); ("MPI_Aint*", "address")];
   unsupported "MPI_Aint" "Aint_diff" [("MPI_Aint", "base"); ("MPI_Aint", "disp")];
   unsupported "MPI_Aint" "Aint_add" [("MPI_Aint", "base"); ("MPI_Aint", "disp")];
   unsupported "int" "Error_class" [("int", "errorcode"); ("int*", "errorclass")];
   unsupported "int" "Error_string" [("int", "errorcode"); ("char*", "string");
       ("int*", "resultlen")];
   unsupported "int" "Attr_delete" [("MPI_Comm", "comm"); ("int", "keyval")];
   unsupported "int" "Attr_get" [("MPI_Comm", "comm"); ("int", "keyval");
       ("void*", "attr_value"); ("int*", "flag")];
   unsupported "int" "Attr_put" [("MPI_Comm", "comm"); ("int", "keyval");
       ("void*", "attr_value")];
   unsupported "int" "Keyval_create" [("MPI_Copy_function*", "copy_fn");
       ("MPI_Delete_function*", "delete_fn"); ("int*", "keyval"); ("void*", "extra_state")];
   unsupported "int" "Keyval_free" [("int*", "keyval")]].

(** @src/src/mpi_middleware/s4bxi_mpi_middleware.cpp:285-293 Type_size to Type_ub *)
Definition datatype_functions : list instance :=
  [unsupported "int" "Type_size" [("MPI_Datatype", "datatype"); ("int*", "size")];
   unsupported "int" "Type_size_x" [("MPI_Datatype", "datatype"); ("MPI_Count*", "size")];
   unsupported "int" "Type_get_extent" [("MPI_Datatype", "datatype"); ("MPI_Aint*", "lb");
       ("MPI_Aint*", "extent")];
   unsupported "int" "Type_get_extent_x" [("MPI_Datatype", "datatype"); ("MPI_Count*", "lb");
       ("MPI_Count*", "extent")];
   unsupported "int" "Type_get_true_extent" [("MPI_Datatype", "datatype"); ("MPI_Aint*", "lb");
       ("MPI_Aint*", "extent")];
   unsupported "int" "Type_get_true_extent_x" [("MPI_Datatype", "datatype");
       ("MPI_Count*", "lb"); ("MPI_Count*", "extent")];
   unsupported "int" "Type_extent" [("MPI_Datatype", "datatype"); ("MPI_Aint*", "extent")];
   unsupported "int" "Type_lb" [("MPI_Datatype", "datatype"); ("MPI_Aint*", "disp")];
   unsupported "int" "Type_ub" [("MPI_Datatype", "datatype"); ("MPI_Aint*", "disp")]].

(** @src/src/mpi_middleware/s4bxi_mpi_middleware.cpp:305-326 Type_hindexed to Type_vector *)
Definition derived_datatype_functions : list instance :=
  [unsupported "int" "Type_hindexed" [("int", "count"); ("const int*", "blocklens");
       ("const MPI_Aint*", "indices"); ("MPI_Datatype", "old_type");
       ("MPI_Datatype*", "newtype")];
   unsupported "int" "Type_create_hindexed" [("int", "count"); ("const int*", "blocklens");
       ("const MPI_Aint*", "indices"); ("MPI_Datatype", "old_type");
       ("MPI_Datatype*", "newtype")];
   unsupported "int" "Type_create_hindexed_block" [("int", "count"); ("int", "blocklength");
       ("const MPI_Aint*", "indices"); ("MPI_Datatype", "old_type");
       ("MPI_Datatype*", "newtype")];
   unsupported "int" "Type_hvector" [("int", "count"); ("int", "blocklen");
       ("MPI_Aint", "stride"); ("MPI_Datatype", "old_type"); ("MPI_Datatype*", "newtype")];
   unsupported "int" "Type_create_hvector" [("int", "count"); ("int", "blocklen");
       ("MPI_Aint", "stride"); ("MPI_Datatype", "old_type"); ("MPI_Datatype*", "newtype")];
   unsupported "int" "Type_indexed" [("int", "count"); ("const int*", "blocklens");
       ("const int*", "indices"); ("MPI_Datatype", "old_type"); ("MPI_Datatype*", "newtype")];
   unsupported "int" "Type_create_indexed" [("int", "count"); ("const int*", "blocklens");
       ("const int*", "indices"); ("MPI_Datatype", "old_type"); ("MPI_Datatype*", "newtype")];
   unsupported "int" "Type_create_indexed_block" [("int", "count"); ("int", "blocklength");
       ("const int*", "indices"); ("MPI_Datatype", "old_type"); ("MPI_Datatype*", "newtype")];
   unsupported "int" "Type_struct" [("int", "count"); ("const int*", "blocklens");
       ("const MPI_Aint*", "indices"); ("const MPI_Datatype*", "old_types");
       ("MPI_Datatype*", "newtype")];
   unsupported "int" "Type_create_struct" [("int", "count"); ("const int*", "blocklens");
       ("const MPI_Aint*", "indices"); ("const MPI_Datatype*", "old_types");
       ("MPI_Datatype*", "newtype")];
   unsupported "int" "Type_vector" [("int", "count"); ("int", "blocklen"); ("int", "stride");
       ("MPI_Datatype", "old_type"); ("MPI_Datatype*", "newtype")]].

(** @src/src/mpi_middleware/s4bxi_mpi_middleware.cpp:344-402 Type_create_resized to Comm_create_group *)
Definition object_functions : list instance :=
  [unsupported "int" "Type_create_resized" [("MPI_Datatype", "oldtype"); ("MPI_Aint", "lb");
       ("MPI_Aint", "extent"); ("MPI_Datatype*", "newtype")];
   unsupported "MPI_Datatype" "Type_f2c" [("MPI_Fint", "datatype")];
   unsupported "MPI_Fint" "Type_c2f" [("MPI_Datatype", "datatype")];
   unsupported "int" "Get_count" [("const MPI_Status*", "status");
       ("MPI_Datatype", "datatype"); ("int*", "count")];
   unsupported "int" "Type_get_attr" [("MPI_Datatype", "type"); ("int", "type_keyval");
       ("void*", "attribute_val"); ("int*", "flag")];
   unsupported "int" "Type_set_attr" [("MPI_Datatype", "type"); ("int", "type_keyval");
       ("void*", "att")];
   unsupported "int" "Type_delete_attr" [("MPI_Datatype", "type"); ("int", "comm_keyval")];
   unsupported "int" "Type_create_keyval" [("MPI_Type_copy_attr_function*", "copy_fn");
       ("MPI_Type_delete_attr_function*", "delete_fn"); ("int*", "keyval");
       ("void*", "extra_state")];
   unsupported "int" "Type_free_keyval" [("int*", "keyval")];
   unsupported "int" "Type_dup" [("MPI_Datatype", "datatype"); ("MPI_Datatype*", "newtype")];
   unsupported "int" "Type_set_name" [("MPI_Datatype", "datatype"); ("const char*", "name")];
   unsupported "int" "Type_get_name" [("MPI_Datatype", "datatype"); ("char*", "name");
       ("int*", "len")];
   unsupported "int" "Pack" [("const void*", "inbuf"); ("int", "incount");
       ("MPI_Datatype", "type"); ("void*", "outbuf"); ("int", "outcount");
       ("int*", "position"); ("MPI_Comm", "comm")];
   unsupported "int" "Pack_size" [("int", "incount"); ("MPI_Datatype", "datatype");
       ("MPI_Comm", "comm"); ("int*", "size")];
   unsupported "int" "Unpack" [("const void*", "inbuf"); ("int", "insize");
       ("int*", "position"); ("void*", "outbuf"); ("int", "outcount");
       ("MPI_Datatype", "type"); ("MPI_Comm", "comm")];
   unsupported "int" "Op_create" [("MPI_User_function*", "function"); ("int", "commute");
       ("MPI_Op*", "op")];
   unsupported "int" "Op_free" [("MPI_Op*", "op")];
   unsupported "int" "Op_commutative" [("MPI_Op", "op"); ("int*", "commute")];
   unsupported "MPI_Op" "Op_f2c" [("MPI_Fint", "op")];
   unsupported "MPI_Fint" "Op_c2f" [("MPI_Op", "op")];
   unsupported "int" "Group_free" [("MPI_Group*", "group")];
   unsupported "int" "Group_size" [("MPI_Group", "group"); ("int*", "size")];
   unsupported "int" "Group_rank" [("MPI_Group", "group"); ("int*", "rank")];
   unsupported "int" "Group_translate_ranks" [("MPI_Group", "group1"); ("int", "n");
       ("const int*", "ranks1"); ("MPI_Group", "group2"); ("int*", "ranks2")];
   unsupported "int" "Group_compare" [("MPI_Group", "group1"); ("MPI_Group", "group2");
       ("int*", "result")];
   unsupported "int" "Group_union" [("MPI_Group", "group1"); ("MPI_Group", "group2");
       ("MPI_Group*", "newgroup")];
   unsupported "int" "Group_intersection" [("MPI_Group", "group1"); ("MPI_Group", "group2");
       ("MPI_Group*", "newgroup")];
   unsupported "int" "Group_difference" [("MPI_Group", "group1"); ("MPI_Group", "group2");
       ("MPI_Group*", "newgroup")];
   unsupported "int" "Group_incl" [("MPI_Group", "group"); ("int", "n");
       ("const int*", "ranks"); ("MPI_Group*", "newgroup")];
   unsupported "int" "Group_excl" [("MPI_Group", "group"); ("int", "n");
       ("const int*", "ranks"); ("MPI_Group*", "newgroup")];
   unsupported "int" "Group_range_incl" [("MPI_Group", "group"); ("int", "n");
       ("int(*)[3]", "ranges"); ("MPI_Group*", "newgroup")];
   unsupported "int" "Group_range_excl" [("MPI_Group", "group"); ("int", "n");
       ("int(*)[3]", "ranges"); ("MPI_Group*", "newgroup")];
   unsupported "MPI_Group" "Group_f2c" [("MPI_Fint", "group")];
   unsupported "MPI_Fint" "Group_c2f" [("MPI_Group", "group")];
   one "int" "Comm_rank" [("MPI_Comm", "comm"); ("int*", "rank")] [Comm "comm"; Var "rank"];
   one "int" "Comm_size" [("MPI_Comm", "comm"); ("int*", "size")] [Comm "comm"; Var "size"];
   unsupported "int" "Comm_get_name" [("MPI_Comm", "comm"); ("char*", "name"); ("int*", "len")];
   unsupported "int" "Comm_set_name" [("MPI_Comm", "comm"); ("const char*", "name")];
   unsupported "int" "Comm_dup" [("MPI_Comm", "comm"); ("MPI_Comm*", "newcomm")];
   unsupported "int" "Comm_dup_with_info" [("MPI_Comm", "comm"); ("MPI_Info", "info");
       ("MPI_Comm*", "newcomm")];
   unsupported "int" "Comm_get_attr" [("MPI_Comm", "comm"); ("int", "comm_keyval");
       ("void*", "attribute_val"); ("int*", "flag")];
   unsupported "int" "Comm_set_attr" [("MPI_Comm", "comm"); ("int", "comm_keyval");
       ("void*", "attribute_val")];
   unsupported "int" "Comm_delete_attr" [("MPI_Comm", "comm"); ("int", "comm_keyval")];
   unsupported "int" "Comm_create_keyval" [("MPI_Comm_copy_attr_function*", "copy_fn");
       ("MPI_Comm_delete_attr_function*", "delete_fn"); ("int*", "keyval");
       ("void*", "extra_state")];
   unsupported "int" "Comm_free_keyval" [("int*", "keyval")];
   unsupported "int" "Comm_group" [("MPI_Comm", "comm"); ("MPI_Group*", "group")];
   unsupported "int" "Comm_compare" [("MPI_Comm", "comm1"); ("MPI_Comm", "comm2");
       ("int*", "result")];
   unsupported "int" "Comm_create" [("MPI_Comm", "comm"); ("MPI_Group", "group");
       ("MPI_Comm*", "newcomm")];
   unsupported "int" "Comm_create_group" [("MPI_Comm", "comm"); ("MPI_Group", "group");
       ("int", "tag"); ("MPI_Comm*", "newcomm")]].

(** @src/src/mpi_middleware/s4bxi_mpi_middleware.cpp:417-417 Comm_disconnect to Comm_disconnect *)
Definition communicator_functions : list instance :=
  [unsupported "int" "Comm_disconnect" [("MPI_Comm*", "comm")]].

(** @src/src/mpi_middleware/s4bxi_mpi_middleware.cpp:438-529 Comm_set_info to Sendrecv_replace *)
Definition point_to_point_functions : list instance :=
  [unsupported "int" "Comm_set_info" [("MPI_Comm", "comm"); ("MPI_Info", "info")];
   unsupported "int" "Comm_get_info" [("MPI_Comm", "comm"); ("MPI_Info*", "info")];
   unsupported "int" "Comm_split_type" [("MPI_Comm", "comm"); ("int", "split_type");
       ("int", "key"); ("MPI_Info", "info"); ("MPI_Comm*", "newcomm")];
   unsupported "MPI_Comm" "Comm_f2c" [("MPI_Fint", "comm")];
   unsupported "MPI_Fint" "Comm_c2f" [("MPI_Comm", "comm")];
   one "int" "Start" [("MPI_Request*", "request")] [Var "request"];
   one "int" "Startall" [("int", "count"); ("MPI_Request*", "requests")] [Var "count";
       Var "requests"];
   one "int" "Request_free" [("MPI_Request*", "request")] [Var "request"];
   one "int" "Recv" [("void*", "buf"); ("int", "count"); ("MPI_Datatype", "datatype");
       ("int", "src"); ("int", "tag"); ("MPI_Comm", "comm"); ("MPI_Status*", "status")]
       [Var "buf"; Var "count"; Datatype "datatype"; Var "src"; Var "tag"; Comm "comm";
       Var "status"];
   store "int" "Recv_init" [("void*", "buf"); ("int", "count"); ("MPI_Datatype", "datatype");
       ("int", "src"); ("int", "tag"); ("MPI_Comm", "comm"); ("MPI_Request*", "request")]
       [Var "buf"; Var "count"; Datatype "datatype"; Var "src"; Var "tag"; Comm "comm";
       Var "request"];
   store "int" "Irecv" [("void*", "buf"); ("int", "count"); ("MPI_Datatype", "datatype");
       ("int", "src"); ("int", "tag"); ("MPI_Comm", "comm"); ("MPI_Request*", "request")]
       [Var "buf"; Var "count"; Datatype "datatype"; Var "src"; Var "tag"; Comm "comm";
       Var "request"];
   one "int" "Send" [("const void*", "buf"); ("int", "count"); ("MPI_Datatype", "datatype");
       ("int", "dst"); ("int", "tag"); ("MPI_Comm", "comm")] [Var "buf"; Var "count";
       Datatype "datatype"; Var "dst"; Var "tag"; Comm "comm"];
   store "int" "Send_init" [("const void*", "buf"); ("int", "count");
       ("MPI_Datatype", "datatype"); ("int", "dst"); ("int", "tag"); ("MPI_Comm", "comm");
       ("MPI_Request*", "request")] [Var "buf"; Var "count"; Datatype "datatype"; Var "dst";
       Var "tag"; Comm "comm"; Var "request"];
   store "int" "Isend" [("const void*", "buf"); ("int", "count"); ("MPI_Datatype", "datatype");
       ("int", "dst"); ("int", "tag"); ("MPI_Comm", "comm"); ("MPI_Request*", "request")]
       [Var "buf"; Var "count"; Datatype "datatype"; Var "dst"; Var "tag"; Comm "comm";
       Var "request"];
   one "int" "Ssend" [("const void*", "buf"); ("int", "count"); ("MPI_Datatype", "datatype");
       ("int", "dest"); ("int", "tag"); ("MPI_Comm", "comm")] [Var "buf"; Var "count";
       Datatype "datatype"; Var "dest"; Var "tag"; Comm "comm"];
   store "int" "Ssend_init" [("const void*", "buf"); ("int", "count");
       ("MPI_Datatype", "datatype"); ("int", "dest"); ("int", "tag"); ("MPI_Comm", "comm");
       ("MPI_Request*", "request")] [Var "buf"; Var "count"; Datatype "datatype"; Var "dest";
       Var "tag"; Comm "comm"; Var "request"];
   store "int" "Issend" [("const void*", "buf"); ("int", "count");
       ("MPI_Datatype", "datatype"); ("int", "dest"); ("int", "tag"); ("MPI_Comm", "comm");
       ("MPI_Request*", "request")] [Var "buf"; Var "count"; Datatype "datatype"; Var "dest";
       Var "tag"; Comm "comm"; Var "request"];
   one "int" "Bsend" [("const void*", "buf"); ("int", "count"); ("MPI_Datatype", "datatype");
       ("int", "dest"); ("int", "tag"); ("MPI_Comm", "comm")] [Var "buf"; Var "count";
       Datatype "datatype"; Var "dest"; Var "tag"; Comm "comm"];
   store "int" "Bsend_init" [("const void*", "buf"); ("int", "count");
       ("MPI_Datatype", "datatype"); ("int", "dest"); ("int", "tag"); ("MPI_Comm", "comm");
       ("MPI_Request*", "request")] [Var "buf"; Var "count"; Datatype "datatype"; Var "dest";
       Var "tag"; Comm "comm"; Var "request"];
   store "int" "Ibsend" [("const void*", "buf"); ("int", "count");
       ("MPI_Datatype", "datatype"); ("int", "dest"); ("int", "tag"); ("MPI_Comm", "comm");
       ("MPI_Request*", "request")] [Var "buf"; Var "count"; Datatype "datatype"; Var "dest";
       Var "tag"; Comm "comm"; Var "request"];
   one "int" "Rsend" [("const void*", "buf"); ("int", "count"); ("MPI_Datatype", "datatype");
       ("int", "dest"); ("int", "tag"); ("MPI_Comm", "comm")] [Var "buf"; Var "count";
       Datatype "datatype"; Var "dest"; Var "tag"; Comm "comm"];
   store "int" "Rsend_init" [("const void*", "buf"); ("int", "count");
       ("MPI_Datatype", "datatype"); ("int", "dest"); ("int", "tag"); ("MPI_Comm", "comm");
       ("MPI_Request*", "request")] [Var "buf"; Var "count"; Datatype "datatype"; Var "dest";
       Var "tag"; Comm "comm"; Var "request"];
   store "int" "Irsend" [("const void*", "buf"); ("int", "count");
       ("MPI_Datatype", "datatype"); ("int", "dest"); ("int", "tag"); ("MPI_Comm", "comm");
       ("MPI_Request*", "request")] [Var "buf"; Var "count"; Datatype "datatype"; Var "dest";
       Var "tag"; Comm "comm"; Var "request"];
   one "int" "Sendrecv" [("const void*", "sendbuf"); ("int", "sendcount");
       ("MPI_Datatype", "sendtype"); ("int", "dst"); ("int", "sendtag"); ("void*", "recvbuf");
       ("int", "recvcount"); ("MPI_Datatype", "recvtype"); ("int", "src"); ("int", "recvtag");
       ("MPI_Comm", "comm"); ("MPI_Status*", "status")] [Var "sendbuf"; Var "sendcount";
       Datatype "sendtype"; Var "dst"; Var "sendtag"; Var "recvbuf"; Var "recvcount";
       Datatype "recvtype"; Var "src"; Var "recvtag"; Comm "comm"; Var "status"];
   one "int" "Sendrecv_replace" [("void*", "buf"); ("int", "count");
       ("MPI_Datatype", "datatype"); ("int", "dst"); ("int", "sendtag"); ("int", "src");
       ("int", "recvtag"); ("MPI_Comm", "comm"); ("MPI_Status*", "status")] [Var "buf";
       Var "count"; Datatype "datatype"; Var "dst"; Var "sendtag"; Var "src"; Var "recvtag";
       Comm "comm"; Var "status"]].

(** @src/src/mpi_middleware/s4bxi_mpi_middleware.cpp:619-621 Testsome to Test_cancelled *)
Definition test_functions : list instance :=
  [unsupported "int" "Testsome" [("int", "incount"); ("MPI_Request*", "requests");
       ("int*", "outcount"); ("int*", "indices"); ("MPI_Status*", "status")];
   one "int" "Test_cancelled" [("const MPI_Status*", "status"); ("int*", "flag")]
       [Var "status"; Var "flag"]].

(** @src/src/mpi_middleware/s4bxi_mpi_middleware.cpp:676-683 Waitsome to Request_c2f *)
Definition probe_functions : list instance :=
  [one "int" "Waitsome" [("int", "incount"); ("MPI_Request*", "requests");
       ("int*", "outcount"); ("int*", "indices"); ("MPI_Status*", "status")] [Var "incount";
       Var "requests"; Var "outcount"; Var "indices"; Var "status"];
   one "int" "Iprobe" [("int", "source"); ("int", "tag"); ("MPI_Comm", "comm");
       ("int*", "flag"); ("MPI_Status*", "status")] [Var "source"; Var "tag"; Comm "comm";
       Var "flag"; Var "status"];
   one "int" "Probe" [("int", "source"); ("int", "tag"); ("MPI_Comm", "comm");
       ("MPI_Status*", "status")] [Var "source"; Var "tag"; Comm "comm"; Var "status"];
   unsupported "MPI_Request" "Request_f2c" [("MPI_Fint", "request")];
   unsupported "MPI_Fint" "Request_c2f" [("MPI_Request", "request")]].

(** @src/src/mpi_middleware/s4bxi_mpi_middleware.cpp:697-789 Bcast to Ialltoallv *)
Definition nonblocking_collective_functions : list instance :=
  [one "int" "Bcast" [("void*", "buf"); ("int", "count"); ("MPI_Datatype", "datatype");
       ("int", "root"); ("MPI_Comm", "comm")] [Var "buf"; Var "count"; Datatype "datatype";
       Var "root"; Comm "comm"];
   one "int" "Barrier" [("MPI_Comm", "comm")] [Comm "comm"];
   store "int" "Ibarrier" [("MPI_Comm", "comm"); ("MPI_Request*", "request")] [Comm "comm";
       Var "request"];
   store "int" "Ibcast" [("void*", "buf"); ("int", "count"); ("MPI_Datatype", "datatype");
       ("int", "root"); ("MPI_Comm", "comm"); ("MPI_Request*", "request")] [Var "buf";
       Var "count"; Datatype "datatype"; Var "root"; Comm "comm"; Var "request"];
   store "int" "Igather" [("const void*", "sendbuf"); ("int", "sendcount");
       ("MPI_Datatype", "sendtype"); ("void*", "recvbuf"); ("int", "recvcount");
       ("MPI_Datatype", "recvtype"); ("int", "root"); ("MPI_Comm", "comm");
       ("MPI_Request*", "request")] [Var "sendbuf"; Var "sendcount"; Datatype "sendtype";
       Var "recvbuf"; Var "recvcount"; Datatype "recvtype"; Var "root"; Comm "comm";
       Var "request"];
   store "int" "Igatherv" [("const void*", "sendbuf"); ("int", "sendcount");
       ("MPI_Datatype", "sendtype"); ("void*", "recvbuf"); ("const int*", "recvcounts");
       ("const int*", "displs"); ("MPI_Datatype", "recvtype"); ("int", "root");
       ("MPI_Comm", "comm"); ("MPI_Request*", "request")] [Var "sendbuf"; Var "sendcount";
       Datatype "sendtype"; Var "recvbuf"; Var "recvcounts"; Var "displs"; Datatype "recvtype";
       Var "root"; Comm "comm"; Var "request"];
   store "int" "Iallgather" [("const void*", "sendbuf"); ("int", "sendcount");
       ("MPI_Datatype", "sendtype"); ("void*", "recvbuf"); ("int", "recvcount");
       ("MPI_Datatype", "recvtype"); ("MPI_Comm", "comm"); ("MPI_Request*", "request")]
       [Var "sendbuf"; Var "sendcount"; Datatype "sendtype"; Var "recvbuf"; Var "recvcount";
       Datatype "recvtype"; Comm "comm"; Var "request"];
   store "int" "Iallgatherv" [("const void*", "sendbuf"); ("int", "sendcount");
       ("MPI_Datatype", "sendtype"); ("void*", "recvbuf"); ("const int*", "recvcounts");
       ("const int*", "displs"); ("MPI_Datatype", "recvtype"); ("MPI_Comm", "comm");
       ("MPI_Request*", "request")] [Var "sendbuf"; Var "sendcount"; Datatype "sendtype";
       Var "recvbuf"; Var "recvcounts"; Var "displs"; Datatype "recvtype"; Comm "comm";
       Var "request"];
   store "int" "Iscatter" [("const void*", "sendbuf"); ("int", "sendcount");
       ("MPI_Datatype", "sendtype"); ("void*", "recvbuf"); ("int", "recvcount");
       ("MPI_Datatype", "recvtype"); ("int", "root"); ("MPI_Comm", "comm");
       ("MPI_Request*", "request")] [Var "sendbuf"; Var "sendcount"; Datatype "sendtype";
       Var "recvbuf"; Var "recvcount"; Datatype "recvtype"; Var "root"; Comm "comm";
       Var "request"];
   store "int" "Iscatterv" [("const void*", "sendbuf"); ("const int*", "sendcounts");
       ("const int*", "displs"); ("MPI_Datatype", "sendtype"); ("void*", "recvbuf");
       ("int", "recvcount"); ("MPI_Datatype", "recvtype"); ("int", "root");
       ("MPI_Comm", "comm"); ("MPI_Request*", "request")] [Var "sendbuf"; Var "sendcounts";
       Var "displs"; Datatype "sendtype"; Var "recvbuf"; Var "recvcount"; Datatype "recvtype";
       Var "root"; Comm "comm"; Var "request"];
   store "int" "Ireduce" [("const void*", "sendbuf"); ("void*", "recvbuf"); ("int", "count");
       ("MPI_Datatype", "datatype"); ("MPI_Op", "op"); ("int", "root"); ("MPI_Comm", "comm");
       ("MPI_Request*", "request")] [Var "sendbuf"; Var "recvbuf"; Var "count";
       Datatype "datatype"; Op "op"; Var "root"; Comm "comm"; Var "request"];
   store "int" "Iallreduce" [("const void*", "sendbuf"); ("void*", "recvbuf");
       ("int", "count"); ("MPI_Datatype", "datatype"); ("MPI_Op", "op"); ("MPI_Comm", "comm");
       ("MPI_Request*", "request")] [Var "sendbuf"; Var "recvbuf"; Var "count";
       Datatype "datatype"; Op "op"; Comm "comm"; Var "request"];
   store "int" "Iscan" [("const void*", "sendbuf"); ("void*", "recvbuf"); ("int", "count");
       ("MPI_Datatype", "datatype"); ("MPI_Op", "op"); ("MPI_Comm", "comm");
       ("MPI_Request*", "request")] [Var "sendbuf"; Var "recvbuf"; Var "count";
       Datatype "datatype"; Op "op"; Comm "comm"; Var "request"];
   store "int" "Iexscan" [("const void*", "sendbuf"); ("void*", "recvbuf"); ("int", "count");
       ("MPI_Datatype", "datatype"); ("MPI_Op", "op"); ("MPI_Comm", "comm");
       ("MPI_Request*", "request")] [Var "sendbuf"; Var "recvbuf"; Var "count";
       Datatype "datatype"; Op "op"; Comm "comm"; Var "request"];
   store "int" "Ireduce_scatter" [("const void*", "sendbuf"); ("void*", "recvbuf");
       ("const int*", "recvcounts"); ("MPI_Datatype", "datatype"); ("MPI_Op", "op");
       ("MPI_Comm", "comm"); ("MPI_Request*", "request")] [Var "sendbuf"; Var "recvbuf";
       Var "recvcounts"; Datatype "datatype"; Op "op"; Comm "comm"; Var "request"];
   store "int" "Ireduce_scatter_block" [("const void*", "sendbuf"); ("void*", "recvbuf");
       ("int", "recvcount"); ("MPI_Datatype", "datatype"); ("MPI_Op", "op");
       ("MPI_Comm", "comm"); ("MPI_Request*", "request")] [Var "sendbuf"; Var "recvbuf";
       Var "recvcount"; Datatype "datatype"; Op "op"; Comm "comm"; Var "request"];
   store "int" "Ialltoall" [("const void*", "sendbuf"); ("int", "sendcount");
       ("MPI_Datatype", "sendtype"); ("void*", "recvbuf"); ("int", "recvcount");
       ("MPI_Datatype", "recvtype"); ("MPI_Comm", "comm"); ("MPI_Request*", "request")]
       [Var "sendbuf"; Var "sendcount"; Datatype "sendtype"; Var "recvbuf"; Var "recvcount";
       Datatype "recvtype"; Comm "comm"; Var "request"];
   store "int" "Ialltoallv" [("const void*", "sendbuf"); ("const int*", "sendcounts");
       ("const int*", "senddisps"); ("MPI_Datatype", "sendtype"); ("void*", "recvbuf");
       ("const int*", "recvcounts"); ("const int*", "recvdisps"); ("MPI_Datatype", "recvtype");
       ("MPI_Comm", "comm"); ("MPI_Request*", "request")] [Var "sendbuf"; Var "sendcounts";
       Var "senddisps"; Datatype "sendtype"; Var "recvbuf"; Var "recvcounts"; Var "recvdisps";
       Datatype "recvtype"; Comm "comm"; Var "request"]].

(** @src/src/mpi_middleware/s4bxi_mpi_middleware.cpp:821-886 Gather to Alltoallv *)
Definition collective_functions : list instance :=
  [one "int" "Gather" [("const void*", "sendbuf"); ("int", "sendcount");
       ("MPI_Datatype", "sendtype"); ("void*", "recvbuf"); ("int", "recvcount");
       ("MPI_Datatype", "recvtype"); ("int", "root"); ("MPI_Comm", "comm")] [Var "sendbuf";
       Var "sendcount"; Datatype "sendtype"; Var "recvbuf"; Var "recvcount";
       Datatype "recvtype"; Var "root"; Comm "comm"];
   one "int" "Gatherv" [("const void*", "sendbuf"); ("int", "sendcount");
       ("MPI_Datatype", "sendtype"); ("void*", "recvbuf"); ("const int*", "recvcounts");
       ("const int*", "displs"); ("MPI_Datatype", "recvtype"); ("int", "root");
       ("MPI_Comm", "comm")] [Var "sendbuf"; Var "sendcount"; Datatype "sendtype";
       Var "recvbuf"; Var "recvcounts"; Var "displs"; Datatype "recvtype"; Var "root";
       Comm "comm"];
   one "int" "Allgather" [("const void*", "sendbuf"); ("int", "sendcount");
       ("MPI_Datatype", "sendtype"); ("void*", "recvbuf"); ("int", "recvcount");
       ("MPI_Datatype", "recvtype"); ("MPI_Comm", "comm")] [Var "sendbuf"; Var "sendcount";
       Datatype "sendtype"; Var "recvbuf"; Var "recvcount"; Datatype "recvtype"; Comm "comm"];
   one "int" "Allgatherv" [("const void*", "sendbuf"); ("int", "sendcount");
       ("MPI_Datatype", "sendtype"); ("void*", "recvbuf"); ("const int*", "recvcounts");
       ("const int*", "displs"); ("MPI_Datatype", "recvtype"); ("MPI_Comm", "comm")]
       [Var "sendbuf"; Var "sendcount"; Datatype "sendtype"; Var "recvbuf"; Var "recvcounts";
       Var "displs"; Datatype "recvtype"; Comm "comm"];
   one "int" "Scatter" [("const void*", "sendbuf"); ("int", "sendcount");
       ("MPI_Datatype", "sendtype"); ("void*", "recvbuf"); ("int", "recvcount");
       ("MPI_Datatype", "recvtype"); ("int", "root"); ("MPI_Comm", "comm")] [Var "sendbuf";
       Var "sendcount"; Datatype "sendtype"; Var "recvbuf"; Var "recvcount";
       Datatype "recvtype"; Var "root"; Comm "comm"];
   one "int" "Scatterv" [("const void*", "sendbuf"); ("const int*", "sendcounts");
       ("const int*", "displs"); ("MPI_Datatype", "sendtype"); ("void*", "recvbuf");
       ("int", "recvcount"); ("MPI_Datatype", "recvtype"); ("int", "root");
       ("MPI_Comm", "comm")] [Var "sendbuf"; Var "sendcounts"; Var "displs";
       Datatype "sendtype"; Var "recvbuf"; Var "recvcount"; Datatype "recvtype"; Var "root";
       Comm "comm"];
   one "int" "Reduce" [("const void*", "sendbuf"); ("void*", "recvbuf"); ("int", "count");
       ("MPI_Datatype", "datatype"); ("MPI_Op", "op"); ("int", "root"); ("MPI_Comm", "comm")]
       [Var "sendbuf"; Var "recvbuf"; Var "count"; Datatype "datatype"; Op "op"; Var "root";
       Comm "comm"];
   one "int" "Allreduce" [("const void*", "sendbuf"); ("void*", "recvbuf"); ("int", "count");
       ("MPI_Datatype", "datatype"); ("MPI_Op", "op"); ("MPI_Comm", "comm")] [Var "sendbuf";
       Var "recvbuf"; Var "count"; Datatype "datatype"; Op "op"; Comm "comm"];
   one "int" "Scan" [("const void*", "sendbuf"); ("void*", "recvbuf"); ("int", "count");
       ("MPI_Datatype", "datatype"); ("MPI_Op", "op"); ("MPI_Comm", "comm")] [Var "sendbuf";
       Var "recvbuf"; Var "count"; Datatype "datatype"; Op "op"; Comm "comm"];
   one "int" "Exscan" [("const void*", "sendbuf"); ("void*", "recvbuf"); ("int", "count");
       ("MPI_Datatype", "datatype"); ("MPI_Op", "op"); ("MPI_Comm", "comm")] [Var "sendbuf";
       Var "recvbuf"; Var "count"; Datatype "datatype"; Op "op"; Comm "comm"];
   one "int" "Reduce_scatter" [("const void*", "sendbuf"); ("void*", "recvbuf");
       ("const int*", "recvcounts"); ("MPI_Datatype", "datatype"); ("MPI_Op", "op");
       ("MPI_Comm", "comm")] [Var "sendbuf"; Var "recvbuf"; Var "recvcounts";
       Datatype "datatype"; Op "op"; Comm "comm"];
   one "int" "Reduce_scatter_block" [("const void*", "sendbuf"); ("void*", "recvbuf");
       ("int", "recvcount"); ("MPI_Datatype", "datatype"); ("MPI_Op", "op");
       ("MPI_Comm", "comm")] [Var "sendbuf"; Var "recvbuf"; Var "recvcount";
       Datatype "datatype"; Op "op"; Comm "comm"];
   one "int" "Alltoall" [("const void*", "sendbuf"); ("int", "sendcount");
       ("MPI_Datatype", "sendtype"); ("void*", "recvbuf"); ("int", "recvcount");
       ("MPI_Datatype", "recvtype"); ("MPI_Comm", "comm")] [Var "sendbuf"; Var "sendcount";
       Datatype "sendtype"; Var "recvbuf"; Var "recvcount"; Datatype "recvtype"; Comm "comm"];
   one "int" "Alltoallv" [("const void*", "sendbuf"); ("const int*", "sendcounts");
       ("const int*", "senddisps"); ("MPI_Datatype", "sendtype"); ("void*", "recvbuf");
       ("const int*", "recvcounts"); ("const int*", "recvdisps"); ("MPI_Datatype", "recvtype");
       ("MPI_Comm", "comm")] [Var "sendbuf"; Var "sendcounts"; Var "senddisps";
       Datatype "sendtype"; Var "recvbuf"; Var "recvcounts"; Var "recvdisps";
       Datatype "recvtype"; Comm "comm"]].

(** @src/src/mpi_middleware/s4bxi_mpi_middleware.cpp:893-905 Reduce_local to Info_c2f *)
Definition info_functions : list instance :=
  [unsupported "int" "Reduce_local" [("const void*", "inbuf"); ("void*", "inoutbuf");
       ("int", "count"); ("MPI_Datatype", "datatype"); ("MPI_Op", "op")];
   unsupported "int" "Info_create" [("MPI_Info*", "info")];
   unsupported "int" "Info_set" [("MPI_Info", "info"); ("const char*", "key");
       ("const char*", "value")];
   unsupported "int" "Info_get" [("MPI_Info", "info"); ("const char*", "key");
       ("int", "valuelen"); ("char*", "value"); ("int*", "flag")];
   unsupported "int" "Info_free" [("MPI_Info*", "info")];
   unsupported "int" "Info_delete" [("MPI_Info", "info"); ("const char*", "key")];
   unsupported "int" "Info_dup" [("MPI_Info", "info"); ("MPI_Info*", "newinfo")];
   unsupported "int" "Info_get_nkeys" [("MPI_Info", "info"); ("int*", "nkeys")];
   unsupported "int" "Info_get_nthkey" [("MPI_Info", "info"); ("int", "n"); ("char*", "key")];
   unsupported "int" "Info_get_valuelen" [("MPI_Info", "info"); ("const char*", "key");
       ("int*", "valuelen"); ("int*", "flag")];
   unsupported "MPI_Info" "Info_f2c" [("MPI_Fint", "info")];
   unsupported "MPI_Fint" "Info_c2f" [("MPI_Info", "info")]].

(** @src/src/mpi_middleware/s4bxi_mpi_middleware.cpp:907-944 Win_free to Win_c2f *)
Definition window_functions : list instance :=
  [unsupported "int" "Win_free" [("MPI_Win*", "win")];
   unsupported "int" "Win_create" [("void*", "base"); ("MPI_Aint", "size");
       ("int", "disp_unit"); ("MPI_Info", "info"); ("MPI_Comm", "comm"); ("MPI_Win*", "win")];
   unsupported "int" "Win_allocate" [("MPI_Aint", "size"); ("int", "disp_unit");
       ("MPI_Info", "info"); ("MPI_Comm", "comm"); ("void*", "base"); ("MPI_Win*", "win")];
   unsupported "int" "Win_allocate_shared" [("MPI_Aint", "size"); ("int", "disp_unit");
       ("MPI_Info", "info"); ("MPI_Comm", "comm"); ("void*", "base"); ("MPI_Win*", "win")];
   unsupported "int" "Win_create_dynamic" [("MPI_Info", "info"); ("MPI_Comm", "comm");
       ("MPI_Win*", "win")];
   unsupported "int" "Win_attach" [("MPI_Win", "win"); ("void*", "base"); ("MPI_Aint", "size")];
   unsupported "int" "Win_detach" [("MPI_Win", "win"); ("const void*", "base")];
   unsupported "int" "Win_set_name" [("MPI_Win", "win"); ("const char*", "name")];
   unsupported "int" "Win_get_name" [("MPI_Win", "win"); ("char*", "name"); ("int*", "len")];
   unsupported "int" "Win_set_info" [("MPI_Win", "win"); ("MPI_Info", "info")];
   unsupported "int" "Win_get_info" [("MPI_Win", "win"); ("MPI_Info*", "info")];
   unsupported "int" "Win_get_group" [("MPI_Win", "win"); ("MPI_Group*", "group")];
   unsupported "int" "Win_fence" [("int", "assert"); ("MPI_Win", "win")];
   unsupported "int" "Win_get_attr" [("MPI_Win", "type"); ("int", "type_keyval");
       ("void*", "attribute_val"); ("int*", "flag")];
   unsupported "int" "Win_set_attr" [("MPI_Win", "type"); ("int", "type_keyval");
       ("void*", "att")];
   unsupported "int" "Win_delete_attr" [("MPI_Win", "type"); ("int", "comm_keyval")];
   unsupported "int" "Win_create_keyval" [("MPI_Win_copy_attr_function*", "copy_fn");
       ("MPI_Win_delete_attr_function*", "delete_fn"); ("int*", "keyval");
       ("void*", "extra_state")];
   unsupported "int" "Win_free_keyval" [("int*", "keyval")];
   unsupported "int" "Win_complete" [("MPI_Win", "win")];
   unsupported "int" "Win_post" [("MPI_Group", "group"); ("int", "assert"); ("MPI_Win", "win")];
   unsupported "int" "Win_start" [("MPI_Group", "group"); ("int", "assert");
       ("MPI_Win", "win")];
   unsupported "int" "Win_wait" [("MPI_Win", "win")];
   unsupported "int" "Win_lock" [("int", "lock_type"); ("int", "rank"); ("int", "assert");
       ("MPI_Win", "win")];
   unsupported "int" "Win_lock_all" [("int", "assert"); ("MPI_Win", "win")];
   unsupported "int" "Win_unlock" [("int", "rank"); ("MPI_Win", "win")];
   unsupported "int" "Win_unlock_all" [("MPI_Win", "win")];
   unsupported "int" "Win_flush" [("int", "rank"); ("MPI_Win", "win")];
   unsupported "int" "Win_flush_local" [("int", "rank"); ("MPI_Win", "win")];
   unsupported "int" "Win_flush_all" [("MPI_Win", "win")];
   unsupported "int" "Win_flush_local_all" [("MPI_Win", "win")];
   unsupported "int" "Win_shared_query" [("MPI_Win", "win"); ("int", "rank");
       ("MPI_Aint*", "size"); ("int*", "disp_unit"); ("void*", "baseptr")];
   unsupported "int" "Win_sync" [("MPI_Win", "win")];
   unsupported "MPI_Win" "Win_f2c" [("MPI_Fint", "win")];
   unsupported "MPI_Fint" "Win_c2f" [("MPI_Win", "win")]].

(** @src/src/mpi_middleware/s4bxi_mpi_middleware.cpp:946-973 Get to Compare_and_swap *)
Definition one_sided_functions : list instance :=
  [unsupported "int" "Get" [("void*", "origin_addr"); ("int", "origin_count");
       ("MPI_Datatype", "origin_datatype"); ("int", "target_rank");
       ("MPI_Aint", "target_disp"); ("int", "target_count");
       ("MPI_Datatype", "target_datatype"); ("MPI_Win", "win")];
   unsupported "int" "Put" [("const void*", "origin_addr"); ("int", "origin_count");
       ("MPI_Datatype", "origin_datatype"); ("int", "target_rank");
       ("MPI_Aint", "target_disp"); ("int", "target_count");
       ("MPI_Datatype", "target_datatype"); ("MPI_Win", "win")];
   unsupported "int" "Accumulate" [("const void*", "origin_addr"); ("int", "origin_count");
       ("MPI_Datatype", "origin_datatype"); ("int", "target_rank");
       ("MPI_Aint", "target_disp"); ("int", "target_count");
       ("MPI_Datatype", "target_datatype"); ("MPI_Op", "op"); ("MPI_Win", "win")];
   unsupported "int" "Get_accumulate" [("const void*", "origin_addr"); ("int", "origin_count");
       ("MPI_Datatype", "origin_datatype"); ("void*", "result_addr"); ("int", "result_count");
       ("MPI_Datatype", "result_datatype"); ("int", "target_rank");
       ("MPI_Aint", "target_disp"); ("int", "target_count");
       ("MPI_Datatype", "target_datatype"); ("MPI_Op", "op"); ("MPI_Win", "win")];
   unsupported "int" "Rget" [("void*", "origin_addr"); ("int", "origin_count");
       ("MPI_Datatype", "origin_datatype"); ("int", "target_rank");
       ("MPI_Aint", "target_disp"); ("int", "target_count");
       ("MPI_Datatype", "target_datatype"); ("MPI_Win", "win"); ("MPI_Request*", "request")];
   unsupported "int" "Rput" [("const void*", "origin_addr"); ("int", "origin_count");
       ("MPI_Datatype", "origin_datatype"); ("int", "target_rank");
       ("MPI_Aint", "target_disp"); ("int", "target_count");
       ("MPI_Datatype", "target_datatype"); ("MPI_Win", "win"); ("MPI_Request*", "request")];
   unsupported "int" "Raccumulate" [("const void*", "origin_addr"); ("int", "origin_count");
       ("MPI_Datatype", "origin_datatype"); ("int", "target_rank");
       ("MPI_Aint", "target_disp"); ("int", "target_count");
       ("MPI_Datatype", "target_datatype"); ("MPI_Op", "op"); ("MPI_Win", "win");
       ("MPI_Request*", "request")];
   unsupported "int" "Rget_accumulate" [("const void*", "origin_addr");
       ("int", "origin_count"); ("MPI_Datatype", "origin_datatype"); ("void*", "result_addr");
       ("int", "result_count"); ("MPI_Datatype", "result_datatype"); ("int", "target_rank");
       ("MPI_Aint", "target_disp"); ("int", "target_count");
       ("MPI_Datatype", "target_datatype"); ("MPI_Op", "op"); ("MPI_Win", "win");
       ("MPI_Request*", "request")];
   unsupported "int" "Fetch_and_op" [("const void*", "origin_addr"); ("void*", "result_addr");
       ("MPI_Datatype", "datatype"); ("int", "target_rank"); ("MPI_Aint", "target_disp");
       ("MPI_Op", "op"); ("MPI_Win", "win")];
   unsupported "int" "Compare_and_swap" [("const void*", "origin_addr");
       ("void*", "compare_addr"); ("void*", "result_addr"); ("MPI_Datatype", "datatype");
       ("int", "target_rank"); ("MPI_Aint", "target_disp"); ("MPI_Win", "win")]].

(** @src/src/mpi_middleware/s4bxi_mpi_middleware.cpp:975-992 Cart_coords to Type_create_subarray *)
Definition topology_functions : list instance :=
  [unsupported "int" "Cart_coords" [("MPI_Comm", "comm"); ("int", "rank"); ("int", "maxdims");
       ("int*", "coords")];
   unsupported "int" "Cart_create" [("MPI_Comm", "comm_old"); ("int", "ndims");
       ("const int*", "dims"); ("const int*", "periods"); ("int", "reorder");
       ("MPI_Comm*", "comm_cart")];
   unsupported "int" "Cart_get" [("MPI_Comm", "comm"); ("int", "maxdims"); ("int*", "dims");
       ("int*", "periods"); ("int*", "coords")];
   unsupported "int" "Cart_rank" [("MPI_Comm", "comm"); ("const int*", "coords");
       ("int*", "rank")];
   unsupported "int" "Cart_shift" [("MPI_Comm", "comm"); ("int", "direction");
       ("int", "displ"); ("int*", "source"); ("int*", "dest")];
   unsupported "int" "Cart_sub" [("MPI_Comm", "comm"); ("const int*", "remain_dims");
       ("MPI_Comm*", "comm_new")];
   unsupported "int" "Cartdim_get" [("MPI_Comm", "comm"); ("int*", "ndims")];
   unsupported "int" "Dims_create" [("int", "nnodes"); ("int", "ndims"); ("int*", "dims")];
   unsupported "int" "Request_get_status" [("MPI_Request", "request"); ("int*", "flag");
       ("MPI_Status*", "status")];
   unsupported "int" "Grequest_start" [("MPI_Grequest_query_function*", "query_fn");
       ("MPI_Grequest_free_function*", "free_fn");
       ("MPI_Grequest_cancel_function*", "cancel_fn"); ("void*", "extra_state");
       ("MPI_Request*", "request")];
   unsupported "int" "Grequest_complete" [("MPI_Request", "request")];
   unsupported "int" "Status_set_cancelled" [("MPI_Status*", "status"); ("int", "flag")];
   unsupported "int" "Status_set_elements" [("MPI_Status*", "status");
       ("MPI_Datatype", "datatype"); ("int", "count")];
   unsupported "int" "Status_set_elements_x" [("MPI_Status*", "status");
       ("MPI_Datatype", "datatype"); ("MPI_Count", "count")];
   unsupported "int" "Type_create_subarray" [("int", "ndims");
       ("const int*", "array_of_sizes"); ("const int*", "array_of_subsizes");
       ("const int*", "array_of_starts"); ("int", "order"); ("MPI_Datatype", "oldtype");
       ("MPI_Datatype*", "newtype")]].

(** @src/src/mpi_middleware/s4bxi_mpi_middleware.cpp:994-1032 File_open to File_get_view *)
Definition file_functions : list instance :=
  [unsupported "int" "File_open" [("MPI_Comm", "comm"); ("const char*", "filename");
       ("int", "amode"); ("MPI_Info", "info"); ("MPI_File*", "fh")];
   unsupported "int" "File_close" [("MPI_File*", "fh")];
   unsupported "int" "File_delete" [("const char*", "filename"); ("MPI_Info", "info")];
   unsupported "int" "File_get_size" [("MPI_File", "fh"); ("MPI_Offset*", "size")];
   unsupported "int" "File_get_group" [("MPI_File", "fh"); ("MPI_Group*", "group")];
   unsupported "int" "File_get_amode" [("MPI_File", "fh"); ("int*", "amode")];
   unsupported "int" "File_set_info" [("MPI_File", "fh"); ("MPI_Info", "info")];
   unsupported "int" "File_get_info" [("MPI_File", "fh"); ("MPI_Info*", "info_used")];
   unsupported "int" "File_read_at" [("MPI_File", "fh"); ("MPI_Offset", "offset");
       ("void*", "buf"); ("int", "count"); ("MPI_Datatype", "datatype");
       ("MPI_Status*", "status")];
   unsupported "int" "File_read_at_all" [("MPI_File", "fh"); ("MPI_Offset", "offset");
       ("void*", "buf"); ("int", "count"); ("MPI_Datatype", "datatype");
       ("MPI_Status*", "status")];
   unsupported "int" "File_write_at" [("MPI_File", "fh"); ("MPI_Offset", "offset");
       ("const void*", "buf"); ("int", "count"); ("MPI_Datatype", "datatype");
       ("MPI_Status*", "status")];
   unsupported "int" "File_write_at_all" [("MPI_File", "fh"); ("MPI_Offset", "offset");
       ("const void*", "buf"); ("int", "count"); ("MPI_Datatype", "datatype");
       ("MPI_Status*", "status")];
   unsupported "int" "File_read" [("MPI_File", "fh"); ("void*", "buf"); ("int", "count");
       ("MPI_Datatype", "datatype"); ("MPI_Status*", "status")];
   unsupported "int" "File_read_all" [("MPI_File", "fh"); ("void*", "buf"); ("int", "count");
       ("MPI_Datatype", "datatype"); ("MPI_Status*", "status")];
   unsupported "int" "File_write" [("MPI_File", "fh"); ("const void*", "buf");
       ("int", "count"); ("MPI_Datatype", "datatype"); ("MPI_Status*", "status")];
   unsupported "int" "File_write_all" [("MPI_File", "fh"); ("const void*", "buf");
       ("int", "count"); ("MPI_Datatype", "datatype"); ("MPI_Status*", "status")];
   unsupported "int" "File_seek" [("MPI_File", "fh"); ("MPI_Offset", "offset");
       ("int", "whenace")];
   unsupported "int" "File_get_position" [("MPI_File", "fh"); ("MPI_Offset*", "offset")];
   unsupported "int" "File_read_shared" [("MPI_File", "fh"); ("void*", "buf");
       ("int", "count"); ("MPI_Datatype", "datatype"); ("MPI_Status*", "status")];
   unsupported "int" "File_write_shared" [("MPI_File", "fh"); ("const void*", "buf");
       ("int", "count"); ("MPI_Datatype", "datatype"); ("MPI_Status*", "status")];
   unsupported "int" "File_read_ordered" [("MPI_File", "fh"); ("void*", "buf");
       ("int", "count"); ("MPI_Datatype", "datatype"); ("MPI_Status*", "status")];
   unsupported "int" "File_write_ordered" [("MPI_File", "fh"); ("const void*", "buf");
       ("int", "count"); ("MPI_Datatype", "datatype"); ("MPI_Status*", "status")];
   unsupported "int" "File_seek_shared" [("MPI_File", "fh"); ("MPI_Offset", "offset");
       ("int", "whence")];
   unsupported "int" "File_get_position_shared" [("MPI_File", "fh"); ("MPI_Offset*", "offset")];
   unsupported "int" "File_sync" [("MPI_File", "fh")];
   unsupported "int" "File_set_view" [("MPI_File", "fh"); ("MPI_Offset", "disp");
       ("MPI_Datatype", "etype"); ("MPI_Datatype", "filetype"); ("const char*", "datarep");
       ("MPI_Info", "info")];
   unsupported "int" "File_get_view" [("MPI_File", "fh"); ("MPI_Offset*", "disp");
       ("MPI_Datatype*", "etype"); ("MPI_Datatype*", "filetype"); ("char*", "datarep")]].

(** @src/src/mpi_middleware/s4bxi_mpi_middleware.cpp:1034-1061 Errhandler_set to File_get_errhandler *)
Definition errhandler_functions : list instance :=
  [unsupported "int" "Errhandler_set" [("MPI_Comm", "comm"); ("MPI_Errhandler", "errhandler")];
   unsupported "int" "Errhandler_create" [("MPI_Handler_function*", "function");
       ("MPI_Errhandler*", "errhandler")];
   unsupported "int" "Errhandler_free" [("MPI_Errhandler*", "errhandler")];
   unsupported "int" "Errhandler_get" [("MPI_Comm", "comm"); ("MPI_Errhandler*", "errhandler")];
   unsupported "int" "Comm_set_errhandler" [("MPI_Comm", "comm");
       ("MPI_Errhandler", "errhandler")];
   unsupported "int" "Comm_get_errhandler" [("MPI_Comm", "comm");
       ("MPI_Errhandler*", "errhandler")];
   unsupported "int" "Comm_create_errhandler" [("MPI_Comm_errhandler_fn*", "function");
       ("MPI_Errhandler*", "errhandler")];
   unsupported "int" "Comm_call_errhandler" [("MPI_Comm", "comm"); ("int", "errorcode")];
   unsupported "int" "Win_set_errhandler" [("MPI_Win", "win");
       ("MPI_Errhandler", "errhandler")];
   unsupported "int" "Win_get_errhandler" [("MPI_Win", "win");
       ("MPI_Errhandler*", "errhandler")];
   unsupported "int" "Win_create_errhandler" [("MPI_Win_errhandler_fn*", "function");
       ("MPI_Errhandler*", "errhandler")];
   unsupported "int" "Win_call_errhandler" [("MPI_Win", "win"); ("int", "errorcode")];
   unsupported "MPI_Errhandler" "Errhandler_f2c" [("MPI_Fint", "errhandler")];
   unsupported "MPI_Fint" "Errhandler_c2f" [("MPI_Errhandler", "errhandler")];
   unsupported "int" "Type_create_f90_integer" [("int", "count"); ("MPI_Datatype*", "newtype")];
   unsupported "int" "Type_create_f90_real" [("int", "prec"); ("int", "exp");
       ("MPI_Datatype*", "newtype")];
   unsupported "int" "Type_create_f90_complex" [("int", "prec"); ("int", "exp");
       ("MPI_Datatype*", "newtype")];
   unsupported "int" "Type_get_contents" [("MPI_Datatype", "datatype");
       ("int", "max_integers"); ("int", "max_addresses"); ("int", "max_datatypes");
       ("int*", "array_of_integers"); ("MPI_Aint*", "array_of_addresses");
       ("MPI_Datatype*", "array_of_datatypes")];
   unsupported "int" "Type_get_envelope" [("MPI_Datatype", "datatype");
       ("int*", "num_integers"); ("int*", "num_addresses"); ("int*", "num_datatypes");
       ("int*", "combiner")];
   unsupported "int" "File_call_errhandler" [("MPI_File", "fh"); ("int", "errorcode")];
   unsupported "int" "File_create_errhandler" [("MPI_File_errhandler_function*", "function");
       ("MPI_Errhandler*", "errhandler")];
   unsupported "int" "File_set_errhandler" [("MPI_File", "file");
       ("MPI_Errhandler", "errhandler")];
   unsupported "int" "File_get_errhandler" [("MPI_File", "file");
       ("MPI_Errhandler*", "errhandler")]].

(** Every function a macro defines, but Alltoallw. *)
Definition generated_functions : list instance :=
  environment_functions ++ datatype_functions ++ derived_datatype_functions ++ object_functions ++
  communicator_functions ++ point_to_point_functions ++ test_functions ++ probe_functions ++
  nonblocking_collective_functions ++ collective_functions ++ info_functions ++ window_functions ++
  one_sided_functions ++ topology_functions ++ file_functions ++ errhandler_functions.

(** The functions that the file writes out. *)
Definition special_functions : list string :=
  ["Init"; "Finalize"; "Type_free"; "Type_commit"; "Type_contiguous"; "Comm_free"; "Comm_split";
   "Test"; "Testany"; "Testall"; "Wait"; "Waitany"; "Waitall"; "Cancel"; "Ialltoallw"; "Alltoallw"].

(** ** The header *)

Record prototype := mk_prototype {
  p_rtype : string; p_name : string; p_params : list (string * string) }.

(** @src/include/s4bxi/mpi_middleware/s4bxi_mpi_middleware.h:50-199 MPI_Init to MPI_Issend *)
Definition prototypes_1 : list prototype :=
  [mk_prototype "int" "Init" [("int*", "argc"); ("char***", "argv")];
   mk_prototype "int" "Finalize" [];
   mk_prototype "int" "Finalized" [("int*", "flag")];
   mk_prototype "int" "Init_thread" [("int*", "argc"); ("char***", "argv");
       ("int", "required"); ("int*", "provided")];
   mk_prototype "int" "Initialized" [("int*", "flag")];
   mk_prototype "int" "Query_thread" [("int*", "provided")];
   mk_prototype "int" "Is_thread_main" [("int*", "flag")];
   mk_prototype "int" "Get_version" [("int*", "version"); ("int*", "subversion")];
   mk_prototype "int" "Get_library_version" [("char*", "version"); ("int*", "len")];
   mk_prototype "int" "Get_processor_name" [("char*", "name"); ("int*", "resultlen")];
   mk_prototype "int" "Abort" [("MPI_Comm", "comm"); ("int", "errorcode")];
   mk_prototype "int" "Alloc_mem" [("MPI_Aint", "size"); ("MPI_Info", "info");
       ("void*", "baseptr")];
   mk_prototype "int" "Free_mem" [("void*", "base")];
   mk_prototype "double" "Wtime" [];
   mk_prototype "double" "Wtick" [];
   mk_prototype "int" "Buffer_attach" [("void*", "buffer"); ("int", "size")];
   mk_prototype "int" "Buffer_detach" [("void*", "buffer"); ("int*", "size")];
   mk_prototype "int" "Address" [("const void*", "location"); ("MPI_Aint*", "address")];
   mk_prototype "int" "Get_address" [("const void*", "location"); ("MPI_Aint*", "address")];
   mk_prototype "MPI_Aint" "Aint_diff" [("MPI_Aint", "base"); ("MPI_Aint", "disp")];
   mk_prototype "MPI_Aint" "Aint_add" [("MPI_Aint", "base"); ("MPI_Aint", "disp")];
   mk_prototype "int" "Error_class" [("int", "errorcode"); ("int*", "errorclass")];
   mk_prototype "int" "Error_string" [("int", "errorcode"); ("char*", "string");
       ("int*", "resultlen")];
   mk_prototype "int" "Attr_delete" [("MPI_Comm", "comm"); ("int", "keyval")];
   mk_prototype "int" "Attr_get" [("MPI_Comm", "comm"); ("int", "keyval");
       ("void*", "attr_value"); ("int*", "flag")];
   mk_prototype "int" "Attr_put" [("MPI_Comm", "comm"); ("int", "keyval");
       ("void*", "attr_value")];
   mk_prototype "int" "Keyval_create" [("MPI_Copy_function*", "copy_fn");
       ("MPI_Delete_function*", "delete_fn"); ("int*", "keyval"); ("void*", "extra_state")];
   mk_prototype "int" "Keyval_free" [("int*", "keyval")];
   mk_prototype "int" "Type_free" [("MPI_Datatype*", "datatype")];
   mk_prototype "int" "Type_size" [("MPI_Datatype", "datatype"); ("int*", "size")];
   mk_prototype "int" "Type_size_x" [("MPI_Datatype", "datatype"); ("MPI_Count*", "size")];
   mk_prototype "int" "Type_get_extent" [("MPI_Datatype", "datatype"); ("MPI_Aint*", "lb");
       ("MPI_Aint*", "extent")];
   mk_prototype "int" "Type_get_extent_x" [("MPI_Datatype", "datatype"); ("MPI_Count*", "lb");
       ("MPI_Count*", "extent")];
   mk_prototype "int" "Type_get_true_extent" [("MPI_Datatype", "datatype");
       ("MPI_Aint*", "lb"); ("MPI_Aint*", "extent")];
   mk_prototype "int" "Type_get_true_extent_x" [("MPI_Datatype", "datatype");
       ("MPI_Count*", "lb"); ("MPI_Count*", "extent")];
   mk_prototype "int" "Type_extent" [("MPI_Datatype", "datatype"); ("MPI_Aint*", "extent")];
   mk_prototype "int" "Type_lb" [("MPI_Datatype", "datatype"); ("MPI_Aint*", "disp")];
   mk_prototype "int" "Type_ub" [("MPI_Datatype", "datatype"); ("MPI_Aint*", "disp")];
   mk_prototype "int" "Type_commit" [("MPI_Datatype*", "datatype")];
   mk_prototype "int" "Type_hindexed" [("int", "count"); ("const int*", "blocklens");
       ("const MPI_Aint*", "indices"); ("MPI_Datatype", "old_type");
       ("MPI_Datatype*", "newtype")];
   mk_prototype "int" "Type_create_hindexed" [("int", "count"); ("const int*", "blocklens");
       ("const MPI_Aint*", "indices"); ("MPI_Datatype", "old_type");
       ("MPI_Datatype*", "newtype")];
   mk_prototype "int" "Type_create_hindexed_block" [("int", "count"); ("int", "blocklength");
       ("const MPI_Aint*", "indices"); ("MPI_Datatype", "old_type");
       ("MPI_Datatype*", "newtype")];
   mk_prototype "int" "Type_hvector" [("int", "count"); ("int", "blocklen");
       ("MPI_Aint", "stride"); ("MPI_Datatype", "old_type"); ("MPI_Datatype*", "newtype")];
   mk_prototype "int" "Type_create_hvector" [("int", "count"); ("int", "blocklen");
       ("MPI_Aint", "stride"); ("MPI_Datatype", "old_type"); ("MPI_Datatype*", "newtype")];
   mk_prototype "int" "Type_indexed" [("int", "count"); ("const int*", "blocklens");
       ("const int*", "indices"); ("MPI_Datatype", "old_type"); ("MPI_Datatype*", "newtype")];
   mk_prototype "int" "Type_create_indexed" [("int", "count"); ("const int*", "blocklens");
       ("const int*", "indices"); ("MPI_Datatype", "old_type"); ("MPI_Datatype*", "newtype")];
   mk_prototype "int" "Type_create_indexed_block" [("int", "count"); ("int", "blocklength");
       ("const int*", "indices"); ("MPI_Datatype", "old_type"); ("MPI_Datatype*", "newtype")];
   mk_prototype "int" "Type_struct" [("int", "count"); ("const int*", "blocklens");
       ("const MPI_Aint*", "indices"); ("const MPI_Datatype*", "old_types");
       ("MPI_Datatype*", "newtype")];
   mk_prototype "int" "Type_create_struct" [("int", "count"); ("const int*", "blocklens");
       ("const MPI_Aint*", "indices"); ("const MPI_Datatype*", "old_types");
       ("MPI_Datatype*", "newtype")];
   mk_prototype "int" "Type_vector" [("int", "count"); ("int", "blocklen"); ("int", "stride");
       ("MPI_Datatype", "old_type"); ("MPI_Datatype*", "newtype")];
   mk_prototype "int" "Type_contiguous" [("int", "count"); ("MPI_Datatype", "old_type");
       ("MPI_Datatype*", "newtype")];
   mk_prototype "int" "Type_create_resized" [("MPI_Datatype", "oldtype"); ("MPI_Aint", "lb");
       ("MPI_Aint", "extent"); ("MPI_Datatype*", "newtype")];
   mk_prototype "MPI_Datatype" "Type_f2c" [("MPI_Fint", "datatype")];
   mk_prototype "MPI_Fint" "Type_c2f" [("MPI_Datatype", "datatype")];
   mk_prototype "int" "Get_count" [("const MPI_Status*", "status");
       ("MPI_Datatype", "datatype"); ("int*", "count")];
   mk_prototype "int" "Type_get_attr" [("MPI_Datatype", "type"); ("int", "type_keyval");
       ("void*", "attribute_val"); ("int*", "flag")];
   mk_prototype "int" "Type_set_attr" [("MPI_Datatype", "type"); ("int", "type_keyval");
       ("void*", "att")];
   mk_prototype "int" "Type_delete_attr" [("MPI_Datatype", "type"); ("int", "comm_keyval")];
   mk_prototype "int" "Type_create_keyval" [("MPI_Type_copy_attr_function*", "copy_fn");
       ("MPI_Type_delete_attr_function*", "delete_fn"); ("int*", "keyval");
       ("void*", "extra_state")];
   mk_prototype "int" "Type_free_keyval" [("int*", "keyval")];
   mk_prototype "int" "Type_dup" [("MPI_Datatype", "datatype"); ("MPI_Datatype*", "newtype")];
   mk_prototype "int" "Type_set_name" [("MPI_Datatype", "datatype"); ("const char*", "name")];
   mk_prototype "int" "Type_get_name" [("MPI_Datatype", "datatype"); ("char*", "name");
       ("int*", "len")];
   mk_prototype "int" "Pack" [("const void*", "inbuf"); ("int", "incount");
       ("MPI_Datatype", "type"); ("void*", "outbuf"); ("int", "outcount");
       ("int*", "position"); ("MPI_Comm", "comm")];
   mk_prototype "int" "Pack_size" [("int", "incount"); ("MPI_Datatype", "datatype");
       ("MPI_Comm", "comm"); ("int*", "size")];
   mk_prototype "int" "Unpack" [("const void*", "inbuf"); ("int", "insize");
       ("int*", "position"); ("void*", "outbuf"); ("int", "outcount");
       ("MPI_Datatype", "type"); ("MPI_Comm", "comm")];
   mk_prototype "int" "Op_create" [("MPI_User_function*", "function"); ("int", "commute");
       ("MPI_Op*", "op")];
   mk_prototype "int" "Op_free" [("MPI_Op*", "op")];
   mk_prototype "int" "Op_commutative" [("MPI_Op", "op"); ("int*", "commute")];
   mk_prototype "MPI_Op" "Op_f2c" [("MPI_Fint", "op")];
   mk_prototype "MPI_Fint" "Op_c2f" [("MPI_Op", "op")];
   mk_prototype "int" "Group_free" [("MPI_Group*", "group")];
   mk_prototype "int" "Group_size" [("MPI_Group", "group"); ("int*", "size")];
   mk_prototype "int" "Group_rank" [("MPI_Group", "group"); ("int*", "rank")];
   mk_prototype "int" "Group_translate_ranks" [("MPI_Group", "group1"); ("int", "n");
       ("const int*", "ranks1"); ("MPI_Group", "group2"); ("int*", "ranks2")];
   mk_prototype "int" "Group_compare" [("MPI_Group", "group1"); ("MPI_Group", "group2");
       ("int*", "result")];
   mk_prototype "int" "Group_union" [("MPI_Group", "group1"); ("MPI_Group", "group2");
       ("MPI_Group*", "newgroup")];
   mk_prototype "int" "Group_intersection" [("MPI_Group", "group1"); ("MPI_Group", "group2");
       ("MPI_Group*", "newgroup")];
   mk_prototype "int" "Group_difference" [("MPI_Group", "group1"); ("MPI_Group", "group2");
       ("MPI_Group*", "newgroup")];
   mk_prototype "int" "Group_incl" [("MPI_Group", "group"); ("int", "n");
       ("const int*", "ranks"); ("MPI_Group*", "newgroup")];
   mk_prototype "int" "Group_excl" [("MPI_Group", "group"); ("int", "n");
       ("const int*", "ranks"); ("MPI_Group*", "newgroup")];
   mk_prototype "int" "Group_range_incl" [("MPI_Group", "group"); ("int", "n");
       ("int(*)[3]", "ranges"); ("MPI_Group*", "newgroup")];
   mk_prototype "int" "Group_range_excl" [("MPI_Group", "group"); ("int", "n");
       ("int(*)[3]", "ranges"); ("MPI_Group*", "newgroup")];
   mk_prototype "MPI_Group" "Group_f2c" [("MPI_Fint", "group")];
   mk_prototype "MPI_Fint" "Group_c2f" [("MPI_Group", "group")];
   mk_prototype "int" "Comm_rank" [("MPI_Comm", "comm"); ("int*", "rank")];
   mk_prototype "int" "Comm_size" [("MPI_Comm", "comm"); ("int*", "size")];
   mk_prototype "int" "Comm_get_name" [("MPI_Comm", "comm"); ("char*", "name");
       ("int*", "len")];
   mk_prototype "int" "Comm_set_name" [("MPI_Comm", "comm"); ("const char*", "name")];
   mk_prototype "int" "Comm_dup" [("MPI_Comm", "comm"); ("MPI_Comm*", "newcomm")];
   mk_prototype "int" "Comm_dup_with_info" [("MPI_Comm", "comm"); ("MPI_Info", "info");
       ("MPI_Comm*", "newcomm")];
   mk_prototype "int" "Comm_get_attr" [("MPI_Comm", "comm"); ("int", "comm_keyval");
       ("void*", "attribute_val"); ("int*", "flag")];
   mk_prototype "int" "Comm_set_attr" [("MPI_Comm", "comm"); ("int", "comm_keyval");
       ("void*", "attribute_val")];
   mk_prototype "int" "Comm_delete_attr" [("MPI_Comm", "comm"); ("int", "comm_keyval")];
   mk_prototype "int" "Comm_create_keyval" [("MPI_Comm_copy_attr_function*", "copy_fn");
       ("MPI_Comm_delete_attr_function*", "delete_fn"); ("int*", "keyval");
       ("void*", "extra_state")];
   mk_prototype "int" "Comm_free_keyval" [("int*", "keyval")];
   mk_prototype "int" "Comm_group" [("MPI_Comm", "comm"); ("MPI_Group*", "group")];
   mk_prototype "int" "Comm_compare" [("MPI_Comm", "comm1"); ("MPI_Comm", "comm2");
       ("int*", "result")];
   mk_prototype "int" "Comm_create" [("MPI_Comm", "comm"); ("MPI_Group", "group");
       ("MPI_Comm*", "newcomm")];
   mk_prototype "int" "Comm_create_group" [("MPI_Comm", "comm"); ("MPI_Group", "group");
       ("int", "tag"); ("MPI_Comm*", "newcomm")];
   mk_prototype "int" "Comm_free" [("MPI_Comm*", "comm")];
   mk_prototype "int" "Comm_disconnect" [("MPI_Comm*", "comm")];
   mk_prototype "int" "Comm_split" [("MPI_Comm", "comm"); ("int", "color"); ("int", "key");
       ("MPI_Comm*", "comm_out")];
   mk_prototype "int" "Comm_set_info" [("MPI_Comm", "comm"); ("MPI_Info", "info")];
   mk_prototype "int" "Comm_get_info" [("MPI_Comm", "comm"); ("MPI_Info*", "info")];
   mk_prototype "int" "Comm_split_type" [("MPI_Comm", "comm"); ("int", "split_type");
       ("int", "key"); ("MPI_Info", "info"); ("MPI_Comm*", "newcomm")];
   mk_prototype "MPI_Comm" "Comm_f2c" [("MPI_Fint", "comm")];
   mk_prototype "MPI_Fint" "Comm_c2f" [("MPI_Comm", "comm")];
   mk_prototype "int" "Start" [("MPI_Request*", "request")];
   mk_prototype "int" "Startall" [("int", "count"); ("MPI_Request*", "requests")];
   mk_prototype "int" "Request_free" [("MPI_Request*", "request")];
   mk_prototype "int" "Recv" [("void*", "buf"); ("int", "count"); ("MPI_Datatype", "datatype");
       ("int", "src"); ("int", "tag"); ("MPI_Comm", "comm"); ("MPI_Status*", "status")];
   mk_prototype "int" "Recv_init" [("void*", "buf"); ("int", "count");
       ("MPI_Datatype", "datatype"); ("int", "src"); ("int", "tag"); ("MPI_Comm", "comm");
       ("MPI_Request*", "request")];
   mk_prototype "int" "Irecv" [("void*", "buf"); ("int", "count");
       ("MPI_Datatype", "datatype"); ("int", "src"); ("int", "tag"); ("MPI_Comm", "comm");
       ("MPI_Request*", "request")];
   mk_prototype "int" "Send" [("const void*", "buf"); ("int", "count");
       ("MPI_Datatype", "datatype"); ("int", "dst"); ("int", "tag"); ("MPI_Comm", "comm")];
   mk_prototype "int" "Send_init" [("const void*", "buf"); ("int", "count");
       ("MPI_Datatype", "datatype"); ("int", "dst"); ("int", "tag"); ("MPI_Comm", "comm");
       ("MPI_Request*", "request")];
   mk_prototype "int" "Isend" [("const void*", "buf"); ("int", "count");
       ("MPI_Datatype", "datatype"); ("int", "dst"); ("int", "tag"); ("MPI_Comm", "comm");
       ("MPI_Request*", "request")];
   mk_prototype "int" "Ssend" [("const void*", "buf"); ("int", "count");
       ("MPI_Datatype", "datatype"); ("int", "dest"); ("int", "tag"); ("MPI_Comm", "comm")];
   mk_prototype "int" "Ssend_init" [("const void*", "buf"); ("int", "count");
       ("MPI_Datatype", "datatype"); ("int", "dest"); ("int", "tag"); ("MPI_Comm", "comm");
       ("MPI_Request*", "request")];
   mk_prototype "int" "Issend" [("const void*", "buf"); ("int", "count");
       ("MPI_Datatype", "datatype"); ("int", "dest"); ("int", "tag"); ("MPI_Comm", "comm");
       ("MPI_Request*", "request")]].

(** @src/include/s4bxi/mpi_middleware/s4bxi_mpi_middleware.h:200-349 MPI_Bsend to MPI_Win_flush_all *)
Definition prototypes_2 : list prototype :=
  [mk_prototype "int" "Bsend" [("const void*", "buf"); ("int", "count");
       ("MPI_Datatype", "datatype"); ("int", "dest"); ("int", "tag"); ("MPI_Comm", "comm")];
   mk_prototype "int" "Bsend_init" [("const void*", "buf"); ("int", "count");
       ("MPI_Datatype", "datatype"); ("int", "dest"); ("int", "tag"); ("MPI_Comm", "comm");
       ("MPI_Request*", "request")];
   mk_prototype "int" "Ibsend" [("const void*", "buf"); ("int", "count");
       ("MPI_Datatype", "datatype"); ("int", "dest"); ("int", "tag"); ("MPI_Comm", "comm");
       ("MPI_Request*", "request")];
   mk_prototype "int" "Rsend" [("const void*", "buf"); ("int", "count");
       ("MPI_Datatype", "datatype"); ("int", "dest"); ("int", "tag"); ("MPI_Comm", "comm")];
   mk_prototype "int" "Rsend_init" [("const void*", "buf"); ("int", "count");
       ("MPI_Datatype", "datatype"); ("int", "dest"); ("int", "tag"); ("MPI_Comm", "comm");
       ("MPI_Request*", "request")];
   mk_prototype "int" "Irsend" [("const void*", "buf"); ("int", "count");
       ("MPI_Datatype", "datatype"); ("int", "dest"); ("int", "tag"); ("MPI_Comm", "comm");
       ("MPI_Request*", "request")];
   mk_prototype "int" "Sendrecv" [("const void*", "sendbuf"); ("int", "sendcount");
       ("MPI_Datatype", "sendtype"); ("int", "dst"); ("int", "sendtag"); ("void*", "recvbuf");
       ("int", "recvcount"); ("MPI_Datatype", "recvtype"); ("int", "src"); ("int", "recvtag");
       ("MPI_Comm", "comm"); ("MPI_Status*", "status")];
   mk_prototype "int" "Sendrecv_replace" [("void*", "buf"); ("int", "count");
       ("MPI_Datatype", "datatype"); ("int", "dst"); ("int", "sendtag"); ("int", "src");
       ("int", "recvtag"); ("MPI_Comm", "comm"); ("MPI_Status*", "status")];
   mk_prototype "int" "Test" [("MPI_Request*", "request"); ("int*", "flag");
       ("MPI_Status*", "status")];
   mk_prototype "int" "Testany" [("int", "count"); ("MPI_Request*", "requests");
       ("int*", "index"); ("int*", "flag"); ("MPI_Status*", "status")];
   mk_prototype "int" "Testall" [("int", "count"); ("MPI_Request*", "requests");
       ("int*", "flag"); ("MPI_Status*", "statuses")];
   mk_prototype "int" "Testsome" [("int", "incount"); ("MPI_Request*", "requests");
       ("int*", "outcount"); ("int*", "indices"); ("MPI_Status*", "status")];
   mk_prototype "int" "Test_cancelled" [("const MPI_Status*", "status"); ("int*", "flag")];
   mk_prototype "int" "Wait" [("MPI_Request*", "request"); ("MPI_Status*", "status")];
   mk_prototype "int" "Waitany" [("int", "count"); ("MPI_Request*", "requests");
       ("int*", "index"); ("MPI_Status*", "status")];
   mk_prototype "int" "Waitall" [("int", "count"); ("MPI_Request*", "requests");
       ("MPI_Status*", "status")];
   mk_prototype "int" "Waitsome" [("int", "incount"); ("MPI_Request*", "requests");
       ("int*", "outcount"); ("int*", "indices"); ("MPI_Status*", "status")];
   mk_prototype "int" "Iprobe" [("int", "source"); ("int", "tag"); ("MPI_Comm", "comm");
       ("int*", "flag"); ("MPI_Status*", "status")];
   mk_prototype "int" "Probe" [("int", "source"); ("int", "tag"); ("MPI_Comm", "comm");
       ("MPI_Status*", "status")];
   mk_prototype "MPI_Request" "Request_f2c" [("MPI_Fint", "request")];
   mk_prototype "MPI_Fint" "Request_c2f" [("MPI_Request", "request")];
   mk_prototype "int" "Cancel" [("MPI_Request*", "request")];
   mk_prototype "int" "Bcast" [("void*", "buf"); ("int", "count");
       ("MPI_Datatype", "datatype"); ("int", "root"); ("MPI_Comm", "comm")];
   mk_prototype "int" "Barrier" [("MPI_Comm", "comm")];
   mk_prototype "int" "Ibarrier" [("MPI_Comm", "comm"); ("MPI_Request*", "request")];
   mk_prototype "int" "Ibcast" [("void*", "buf"); ("int", "count");
       ("MPI_Datatype", "datatype"); ("int", "root"); ("MPI_Comm", "comm");
       ("MPI_Request*", "request")];
   mk_prototype "int" "Igather" [("const void*", "sendbuf"); ("int", "sendcount");
       ("MPI_Datatype", "sendtype"); ("void*", "recvbuf"); ("int", "recvcount");
       ("MPI_Datatype", "recvtype"); ("int", "root"); ("MPI_Comm", "comm");
       ("MPI_Request*", "request")];
   mk_prototype "int" "Igatherv" [("const void*", "sendbuf"); ("int", "sendcount");
       ("MPI_Datatype", "sendtype"); ("void*", "recvbuf"); ("const int*", "recvcounts");
       ("const int*", "displs"); ("MPI_Datatype", "recvtype"); ("int", "root");
       ("MPI_Comm", "comm"); ("MPI_Request*", "request")];
   mk_prototype "int" "Iallgather" [("const void*", "sendbuf"); ("int", "sendcount");
       ("MPI_Datatype", "sendtype"); ("void*", "recvbuf"); ("int", "recvcount");
       ("MPI_Datatype", "recvtype"); ("MPI_Comm", "comm"); ("MPI_Request*", "request")];
   mk_prototype "int" "Iallgatherv" [("const void*", "sendbuf"); ("int", "sendcount");
       ("MPI_Datatype", "sendtype"); ("void*", "recvbuf"); ("const int*", "recvcounts");
       ("const int*", "displs"); ("MPI_Datatype", "recvtype"); ("MPI_Comm", "comm");
       ("MPI_Request*", "request")];
   mk_prototype "int" "Iscatter" [("const void*", "sendbuf"); ("int", "sendcount");
       ("MPI_Datatype", "sendtype"); ("void*", "recvbuf"); ("int", "recvcount");
       ("MPI_Datatype", "recvtype"); ("int", "root"); ("MPI_Comm", "comm");
       ("MPI_Request*", "request")];
   mk_prototype "int" "Iscatterv" [("const void*", "sendbuf"); ("const int*", "sendcounts");
       ("const int*", "displs"); ("MPI_Datatype", "sendtype"); ("void*", "recvbuf");
       ("int", "recvcount"); ("MPI_Datatype", "recvtype"); ("int", "root");
       ("MPI_Comm", "comm"); ("MPI_Request*", "request")];
   mk_prototype "int" "Ireduce" [("const void*", "sendbuf"); ("void*", "recvbuf");
       ("int", "count"); ("MPI_Datatype", "datatype"); ("MPI_Op", "op"); ("int", "root");
       ("MPI_Comm", "comm"); ("MPI_Request*", "request")];
   mk_prototype "int" "Iallreduce" [("const void*", "sendbuf"); ("void*", "recvbuf");
       ("int", "count"); ("MPI_Datatype", "datatype"); ("MPI_Op", "op"); ("MPI_Comm", "comm");
       ("MPI_Request*", "request")];
   mk_prototype "int" "Iscan" [("const void*", "sendbuf"); ("void*", "recvbuf");
       ("int", "count"); ("MPI_Datatype", "datatype"); ("MPI_Op", "op"); ("MPI_Comm", "comm");
       ("MPI_Request*", "request")];
   mk_prototype "int" "Iexscan" [("const void*", "sendbuf"); ("void*", "recvbuf");
       ("int", "count"); ("MPI_Datatype", "datatype"); ("MPI_Op", "op"); ("MPI_Comm", "comm");
       ("MPI_Request*", "request")];
   mk_prototype "int" "Ireduce_scatter" [("const void*", "sendbuf"); ("void*", "recvbuf");
       ("const int*", "recvcounts"); ("MPI_Datatype", "datatype"); ("MPI_Op", "op");
       ("MPI_Comm", "comm"); ("MPI_Request*", "request")];
   mk_prototype "int" "Ireduce_scatter_block" [("const void*", "sendbuf");
       ("void*", "recvbuf"); ("int", "recvcount"); ("MPI_Datatype", "datatype");
       ("MPI_Op", "op"); ("MPI_Comm", "comm"); ("MPI_Request*", "request")];
   mk_prototype "int" "Ialltoall" [("const void*", "sendbuf"); ("int", "sendcount");
       ("MPI_Datatype", "sendtype"); ("void*", "recvbuf"); ("int", "recvcount");
       ("MPI_Datatype", "recvtype"); ("MPI_Comm", "comm"); ("MPI_Request*", "request")];
   mk_prototype "int" "Ialltoallv" [("const void*", "sendbuf"); ("const int*", "sendcounts");
       ("const int*", "senddisps"); ("MPI_Datatype", "sendtype"); ("void*", "recvbuf");
       ("const int*", "recvcounts"); ("const int*", "recvdisps"); ("MPI_Datatype", "recvtype");
       ("MPI_Comm", "comm"); ("MPI_Request*", "request")];
   mk_prototype "int" "Ialltoallw" [("const void*", "sendbuf"); ("const int*", "sendcounts");
       ("const int*", "senddisps"); ("const MPI_Datatype*", "sendtypes"); ("void*", "recvbuf");
       ("const int*", "recvcounts"); ("const int*", "recvdisps");
       ("const MPI_Datatype*", "recvtypes"); ("MPI_Comm", "comm"); ("MPI_Request*", "request")];
   mk_prototype "int" "Gather" [("const void*", "sendbuf"); ("int", "sendcount");
       ("MPI_Datatype", "sendtype"); ("void*", "recvbuf"); ("int", "recvcount");
       ("MPI_Datatype", "recvtype"); ("int", "root"); ("MPI_Comm", "comm")];
   mk_prototype "int" "Gatherv" [("const void*", "sendbuf"); ("int", "sendcount");
       ("MPI_Datatype", "sendtype"); ("void*", "recvbuf"); ("const int*", "recvcounts");
       ("const int*", "displs"); ("MPI_Datatype", "recvtype"); ("int", "root");
       ("MPI_Comm", "comm")];
   mk_prototype "int" "Allgather" [("const void*", "sendbuf"); ("int", "sendcount");
       ("MPI_Datatype", "sendtype"); ("void*", "recvbuf"); ("int", "recvcount");
       ("MPI_Datatype", "recvtype"); ("MPI_Comm", "comm")];
   mk_prototype "int" "Allgatherv" [("const void*", "sendbuf"); ("int", "sendcount");
       ("MPI_Datatype", "sendtype"); ("void*", "recvbuf"); ("const int*", "recvcounts");
       ("const int*", "displs"); ("MPI_Datatype", "recvtype"); ("MPI_Comm", "comm")];
   mk_prototype "int" "Scatter" [("const void*", "sendbuf"); ("int", "sendcount");
       ("MPI_Datatype", "sendtype"); ("void*", "recvbuf"); ("int", "recvcount");
       ("MPI_Datatype", "recvtype"); ("int", "root"); ("MPI_Comm", "comm")];
   mk_prototype "int" "Scatterv" [("const void*", "sendbuf"); ("const int*", "sendcounts");
       ("const int*", "displs"); ("MPI_Datatype", "sendtype"); ("void*", "recvbuf");
       ("int", "recvcount"); ("MPI_Datatype", "recvtype"); ("int", "root");
       ("MPI_Comm", "comm")];
   mk_prototype "int" "Reduce" [("const void*", "sendbuf"); ("void*", "recvbuf");
       ("int", "count"); ("MPI_Datatype", "datatype"); ("MPI_Op", "op"); ("int", "root");
       ("MPI_Comm", "comm")];
   mk_prototype "int" "Allreduce" [("const void*", "sendbuf"); ("void*", "recvbuf");
       ("int", "count"); ("MPI_Datatype", "datatype"); ("MPI_Op", "op"); ("MPI_Comm", "comm")];
   mk_prototype "int" "Scan" [("const void*", "sendbuf"); ("void*", "recvbuf");
       ("int", "count"); ("MPI_Datatype", "datatype"); ("MPI_Op", "op"); ("MPI_Comm", "comm")];
   mk_prototype "int" "Exscan" [("const void*", "sendbuf"); ("void*", "recvbuf");
       ("int", "count"); ("MPI_Datatype", "datatype"); ("MPI_Op", "op"); ("MPI_Comm", "comm")];
   mk_prototype "int" "Reduce_scatter" [("const void*", "sendbuf"); ("void*", "recvbuf");
       ("const int*", "recvcounts"); ("MPI_Datatype", "datatype"); ("MPI_Op", "op");
       ("MPI_Comm", "comm")];
   mk_prototype "int" "Reduce_scatter_block" [("const void*", "sendbuf"); ("void*", "recvbuf");
       ("int", "recvcount"); ("MPI_Datatype", "datatype"); ("MPI_Op", "op");
       ("MPI_Comm", "comm")];
   mk_prototype "int" "Alltoall" [("const void*", "sendbuf"); ("int", "sendcount");
       ("MPI_Datatype", "sendtype"); ("void*", "recvbuf"); ("int", "recvcount");
       ("MPI_Datatype", "recvtype"); ("MPI_Comm", "comm")];
   mk_prototype "int" "Alltoallv" [("const void*", "sendbuf"); ("const int*", "sendcounts");
       ("const int*", "senddisps"); ("MPI_Datatype", "sendtype"); ("void*", "recvbuf");
       ("const int*", "recvcounts"); ("const int*", "recvdisps"); ("MPI_Datatype", "recvtype");
       ("MPI_Comm", "comm")];
   mk_prototype "int" "Alltoallw" [("const void*", "sendbuf"); ("const int*", "sendcnts");
       ("const int*", "sdispls"); ("const MPI_Datatype*", "sendtypes"); ("void*", "recvbuf");
       ("const int*", "recvcnts"); ("const int*", "rdispls");
       ("const MPI_Datatype*", "recvtypes"); ("MPI_Comm", "comm")];
   mk_prototype "int" "Reduce_local" [("const void*", "inbuf"); ("void*", "inoutbuf");
       ("int", "count"); ("MPI_Datatype", "datatype"); ("MPI_Op", "op")];
   mk_prototype "int" "Info_create" [("MPI_Info*", "info")];
   mk_prototype "int" "Info_set" [("MPI_Info", "info"); ("const char*", "key");
       ("const char*", "value")];
   mk_prototype "int" "Info_get" [("MPI_Info", "info"); ("const char*", "key");
       ("int", "valuelen"); ("char*", "value"); ("int*", "flag")];
   mk_prototype "int" "Info_free" [("MPI_Info*", "info")];
   mk_prototype "int" "Info_delete" [("MPI_Info", "info"); ("const char*", "key")];
   mk_prototype "int" "Info_dup" [("MPI_Info", "info"); ("MPI_Info*", "newinfo")];
   mk_prototype "int" "Info_get_nkeys" [("MPI_Info", "info"); ("int*", "nkeys")];
   mk_prototype "int" "Info_get_nthkey" [("MPI_Info", "info"); ("int", "n"); ("char*", "key")];
   mk_prototype "int" "Info_get_valuelen" [("MPI_Info", "info"); ("const char*", "key");
       ("int*", "valuelen"); ("int*", "flag")];
   mk_prototype "MPI_Info" "Info_f2c" [("MPI_Fint", "info")];
   mk_prototype "MPI_Fint" "Info_c2f" [("MPI_Info", "info")];
   mk_prototype "int" "Win_free" [("MPI_Win*", "win")];
   mk_prototype "int" "Win_create" [("void*", "base"); ("MPI_Aint", "size");
       ("int", "disp_unit"); ("MPI_Info", "info"); ("MPI_Comm", "comm"); ("MPI_Win*", "win")];
   mk_prototype "int" "Win_allocate" [("MPI_Aint", "size"); ("int", "disp_unit");
       ("MPI_Info", "info"); ("MPI_Comm", "comm"); ("void*", "base"); ("MPI_Win*", "win")];
   mk_prototype "int" "Win_allocate_shared" [("MPI_Aint", "size"); ("int", "disp_unit");
       ("MPI_Info", "info"); ("MPI_Comm", "comm"); ("void*", "base"); ("MPI_Win*", "win")];
   mk_prototype "int" "Win_create_dynamic" [("MPI_Info", "info"); ("MPI_Comm", "comm");
       ("MPI_Win*", "win")];
   mk_prototype "int" "Win_attach" [("MPI_Win", "win"); ("void*", "base");
       ("MPI_Aint", "size")];
   mk_prototype "int" "Win_detach" [("MPI_Win", "win"); ("const void*", "base")];
   mk_prototype "int" "Win_set_name" [("MPI_Win", "win"); ("const char*", "name")];
   mk_prototype "int" "Win_get_name" [("MPI_Win", "win"); ("char*", "name"); ("int*", "len")];
   mk_prototype "int" "Win_set_info" [("MPI_Win", "win"); ("MPI_Info", "info")];
   mk_prototype "int" "Win_get_info" [("MPI_Win", "win"); ("MPI_Info*", "info")];
   mk_prototype "int" "Win_get_group" [("MPI_Win", "win"); ("MPI_Group*", "group")];
   mk_prototype "int" "Win_fence" [("int", "assert"); ("MPI_Win", "win")];
   mk_prototype "int" "Win_get_attr" [("MPI_Win", "type"); ("int", "type_keyval");
       ("void*", "attribute_val"); ("int*", "flag")];
   mk_prototype "int" "Win_set_attr" [("MPI_Win", "type"); ("int", "type_keyval");
       ("void*", "att")];
   mk_prototype "int" "Win_delete_attr" [("MPI_Win", "type"); ("int", "comm_keyval")];
   mk_prototype "int" "Win_create_keyval" [("MPI_Win_copy_attr_function*", "copy_fn");
       ("MPI_Win_delete_attr_function*", "delete_fn"); ("int*", "keyval");
       ("void*", "extra_state")];
   mk_prototype "int" "Win_free_keyval" [("int*", "keyval")];
   mk_prototype "int" "Win_complete" [("MPI_Win", "win")];
   mk_prototype "int" "Win_post" [("MPI_Group", "group"); ("int", "assert");
       ("MPI_Win", "win")];
   mk_prototype "int" "Win_start" [("MPI_Group", "group"); ("int", "assert");
       ("MPI_Win", "win")];
   mk_prototype "int" "Win_wait" [("MPI_Win", "win")];
   mk_prototype "int" "Win_lock" [("int", "lock_type"); ("int", "rank"); ("int", "assert");
       ("MPI_Win", "win")];
   mk_prototype "int" "Win_lock_all" [("int", "assert"); ("MPI_Win", "win")];
   mk_prototype "int" "Win_unlock" [("int", "rank"); ("MPI_Win", "win")];
   mk_prototype "int" "Win_unlock_all" [("MPI_Win", "win")];
   mk_prototype "int" "Win_flush" [("int", "rank"); ("MPI_Win", "win")];
   mk_prototype "int" "Win_flush_local" [("int", "rank"); ("MPI_Win", "win")];
   mk_prototype "int" "Win_flush_all" [("MPI_Win", "win")]].

(** @src/include/s4bxi/mpi_middleware/s4bxi_mpi_middleware.h:350-465 MPI_Win_flush_local_all to MPI_File_get_errhandler *)
Definition prototypes_3 : list prototype :=
  [mk_prototype "int" "Win_flush_local_all" [("MPI_Win", "win")];
   mk_prototype "int" "Win_shared_query" [("MPI_Win", "win"); ("int", "rank");
       ("MPI_Aint*", "size"); ("int*", "disp_unit"); ("void*", "baseptr")];
   mk_prototype "int" "Win_sync" [("MPI_Win", "win")];
   mk_prototype "MPI_Win" "Win_f2c" [("MPI_Fint", "win")];
   mk_prototype "MPI_Fint" "Win_c2f" [("MPI_Win", "win")];
   mk_prototype "int" "Get" [("void*", "origin_addr"); ("int", "origin_count");
       ("MPI_Datatype", "origin_datatype"); ("int", "target_rank");
       ("MPI_Aint", "target_disp"); ("int", "target_count");
       ("MPI_Datatype", "target_datatype"); ("MPI_Win", "win")];
   mk_prototype "int" "Put" [("const void*", "origin_addr"); ("int", "origin_count");
       ("MPI_Datatype", "origin_datatype"); ("int", "target_rank");
       ("MPI_Aint", "target_disp"); ("int", "target_count");
       ("MPI_Datatype", "target_datatype"); ("MPI_Win", "win")];
   mk_prototype "int" "Accumulate" [("const void*", "origin_addr"); ("int", "origin_count");
       ("MPI_Datatype", "origin_datatype"); ("int", "target_rank");
       ("MPI_Aint", "target_disp"); ("int", "target_count");
       ("MPI_Datatype", "target_datatype"); ("MPI_Op", "op"); ("MPI_Win", "win")];
   mk_prototype "int" "Get_accumulate" [("const void*", "origin_addr");
       ("int", "origin_count"); ("MPI_Datatype", "origin_datatype"); ("void*", "result_addr");
       ("int", "result_count"); ("MPI_Datatype", "result_datatype"); ("int", "target_rank");
       ("MPI_Aint", "target_disp"); ("int", "target_count");
       ("MPI_Datatype", "target_datatype"); ("MPI_Op", "op"); ("MPI_Win", "win")];
   mk_prototype "int" "Rget" [("void*", "origin_addr"); ("int", "origin_count");
       ("MPI_Datatype", "origin_datatype"); ("int", "target_rank");
       ("MPI_Aint", "target_disp"); ("int", "target_count");
       ("MPI_Datatype", "target_datatype"); ("MPI_Win", "win"); ("MPI_Request*", "request")];
   mk_prototype "int" "Rput" [("const void*", "origin_addr"); ("int", "origin_count");
       ("MPI_Datatype", "origin_datatype"); ("int", "target_rank");
       ("MPI_Aint", "target_disp"); ("int", "target_count");
       ("MPI_Datatype", "target_datatype"); ("MPI_Win", "win"); ("MPI_Request*", "request")];
   mk_prototype "int" "Raccumulate" [("const void*", "origin_addr"); ("int", "origin_count");
       ("MPI_Datatype", "origin_datatype"); ("int", "target_rank");
       ("MPI_Aint", "target_disp"); ("int", "target_count");
       ("MPI_Datatype", "target_datatype"); ("MPI_Op", "op"); ("MPI_Win", "win");
       ("MPI_Request*", "request")];
   mk_prototype "int" "Rget_accumulate" [("const void*", "origin_addr");
       ("int", "origin_count"); ("MPI_Datatype", "origin_datatype"); ("void*", "result_addr");
       ("int", "result_count"); ("MPI_Datatype", "result_datatype"); ("int", "target_rank");
       ("MPI_Aint", "target_disp"); ("int", "target_count");
       ("MPI_Datatype", "target_datatype"); ("MPI_Op", "op"); ("MPI_Win", "win");
       ("MPI_Request*", "request")];
   mk_prototype "int" "Fetch_and_op" [("const void*", "origin_addr"); ("void*", "result_addr");
       ("MPI_Datatype", "datatype"); ("int", "target_rank"); ("MPI_Aint", "target_disp");
       ("MPI_Op", "op"); ("MPI_Win", "win")];
   mk_prototype "int" "Compare_and_swap" [("const void*", "origin_addr");
       ("void*", "compare_addr"); ("void*", "result_addr"); ("MPI_Datatype", "datatype");
       ("int", "target_rank"); ("MPI_Aint", "target_disp"); ("MPI_Win", "win")];
   mk_prototype "int" "Cart_coords" [("MPI_Comm", "comm"); ("int", "rank"); ("int", "maxdims");
       ("int*", "coords")];
   mk_prototype "int" "Cart_create" [("MPI_Comm", "comm_old"); ("int", "ndims");
       ("const int*", "dims"); ("const int*", "periods"); ("int", "reorder");
       ("MPI_Comm*", "comm_cart")];
   mk_prototype "int" "Cart_get" [("MPI_Comm", "comm"); ("int", "maxdims"); ("int*", "dims");
       ("int*", "periods"); ("int*", "coords")];
   mk_prototype "int" "Cart_rank" [("MPI_Comm", "comm"); ("const int*", "coords");
       ("int*", "rank")];
   mk_prototype "int" "Cart_shift" [("MPI_Comm", "comm"); ("int", "direction");
       ("int", "displ"); ("int*", "source"); ("int*", "dest")];
   mk_prototype "int" "Cart_sub" [("MPI_Comm", "comm"); ("const int*", "remain_dims");
       ("MPI_Comm*", "comm_new")];
   mk_prototype "int" "Cartdim_get" [("MPI_Comm", "comm"); ("int*", "ndims")];
   mk_prototype "int" "Dims_create" [("int", "nnodes"); ("int", "ndims"); ("int*", "dims")];
   mk_prototype "int" "Request_get_status" [("MPI_Request", "request"); ("int*", "flag");
       ("MPI_Status*", "status")];
   mk_prototype "int" "Grequest_start" [("MPI_Grequest_query_function*", "query_fn");
       ("MPI_Grequest_free_function*", "free_fn");
       ("MPI_Grequest_cancel_function*", "cancel_fn"); ("void*", "extra_state");
       ("MPI_Request*", "request")];
   mk_prototype "int" "Grequest_complete" [("MPI_Request", "request")];
   mk_prototype "int" "Status_set_cancelled" [("MPI_Status*", "status"); ("int", "flag")];
   mk_prototype "int" "Status_set_elements" [("MPI_Status*", "status");
       ("MPI_Datatype", "datatype"); ("int", "count")];
   mk_prototype "int" "Status_set_elements_x" [("MPI_Status*", "status");
       ("MPI_Datatype", "datatype"); ("MPI_Count", "count")];
   mk_prototype "int" "Type_create_subarray" [("int", "ndims");
       ("const int*", "array_of_sizes"); ("const int*", "array_of_subsizes");
       ("const int*", "array_of_starts"); ("int", "order"); ("MPI_Datatype", "oldtype");
       ("MPI_Datatype*", "newtype")];
   mk_prototype "int" "File_open" [("MPI_Comm", "comm"); ("const char*", "filename");
       ("int", "amode"); ("MPI_Info", "info"); ("MPI_File*", "fh")];
   mk_prototype "int" "File_close" [("MPI_File*", "fh")];
   mk_prototype "int" "File_delete" [("const char*", "filename"); ("MPI_Info", "info")];
   mk_prototype "int" "File_get_size" [("MPI_File", "fh"); ("MPI_Offset*", "size")];
   mk_prototype "int" "File_get_group" [("MPI_File", "fh"); ("MPI_Group*", "group")];
   mk_prototype "int" "File_get_amode" [("MPI_File", "fh"); ("int*", "amode")];
   mk_prototype "int" "File_set_info" [("MPI_File", "fh"); ("MPI_Info", "info")];
   mk_prototype "int" "File_get_info" [("MPI_File", "fh"); ("MPI_Info*", "info_used")];
   mk_prototype "int" "File_read_at" [("MPI_File", "fh"); ("MPI_Offset", "offset");
       ("void*", "buf"); ("int", "count"); ("MPI_Datatype", "datatype");
       ("MPI_Status*", "status")];
   mk_prototype "int" "File_read_at_all" [("MPI_File", "fh"); ("MPI_Offset", "offset");
       ("void*", "buf"); ("int", "count"); ("MPI_Datatype", "datatype");
       ("MPI_Status*", "status")];
   mk_prototype "int" "File_write_at" [("MPI_File", "fh"); ("MPI_Offset", "offset");
       ("const void*", "buf"); ("int", "count"); ("MPI_Datatype", "datatype");
       ("MPI_Status*", "status")];
   mk_prototype "int" "File_write_at_all" [("MPI_File", "fh"); ("MPI_Offset", "offset");
       ("const void*", "buf"); ("int", "count"); ("MPI_Datatype", "datatype");
       ("MPI_Status*", "status")];
   mk_prototype "int" "File_read" [("MPI_File", "fh"); ("void*", "buf"); ("int", "count");
       ("MPI_Datatype", "datatype"); ("MPI_Status*", "status")];
   mk_prototype "int" "File_read_all" [("MPI_File", "fh"); ("void*", "buf"); ("int", "count");
       ("MPI_Datatype", "datatype"); ("MPI_Status*", "status")];
   mk_prototype "int" "File_write" [("MPI_File", "fh"); ("const void*", "buf");
       ("int", "count"); ("MPI_Datatype", "datatype"); ("MPI_Status*", "status")];
   mk_prototype "int" "File_write_all" [("MPI_File", "fh"); ("const void*", "buf");
       ("int", "count"); ("MPI_Datatype", "datatype"); ("MPI_Status*", "status")];
   mk_prototype "int" "File_seek" [("MPI_File", "fh"); ("MPI_Offset", "offset");
       ("int", "whenace")];
   mk_prototype "int" "File_get_position" [("MPI_File", "fh"); ("MPI_Offset*", "offset")];
   mk_prototype "int" "File_read_shared" [("MPI_File", "fh"); ("void*", "buf");
       ("int", "count"); ("MPI_Datatype", "datatype"); ("MPI_Status*", "status")];
   mk_prototype "int" "File_write_shared" [("MPI_File", "fh"); ("const void*", "buf");
       ("int", "count"); ("MPI_Datatype", "datatype"); ("MPI_Status*", "status")];
   mk_prototype "int" "File_read_ordered" [("MPI_File", "fh"); ("void*", "buf");
       ("int", "count"); ("MPI_Datatype", "datatype"); ("MPI_Status*", "status")];
   mk_prototype "int" "File_write_ordered" [("MPI_File", "fh"); ("const void*", "buf");
       ("int", "count"); ("MPI_Datatype", "datatype"); ("MPI_Status*", "status")];
   mk_prototype "int" "File_seek_shared" [("MPI_File", "fh"); ("MPI_Offset", "offset");
       ("int", "whence")];
   mk_prototype "int" "File_get_position_shared" [("MPI_File", "fh");
       ("MPI_Offset*", "offset")];
   mk_prototype "int" "File_sync" [("MPI_File", "fh")];
   mk_prototype "int" "File_set_view" [("MPI_File", "fh"); ("MPI_Offset", "disp");
       ("MPI_Datatype", "etype"); ("MPI_Datatype", "filetype"); ("const char*", "datarep");
       ("MPI_Info", "info")];
   mk_prototype "int" "File_get_view" [("MPI_File", "fh"); ("MPI_Offset*", "disp");
       ("MPI_Datatype*", "etype"); ("MPI_Datatype*", "filetype"); ("char*", "datarep")];
   mk_prototype "int" "Errhandler_set" [("MPI_Comm", "comm"); ("MPI_Errhandler", "errhandler")];
   mk_prototype "int" "Errhandler_create" [("MPI_Handler_function*", "function");
       ("MPI_Errhandler*", "errhandler")];
   mk_prototype "int" "Errhandler_free" [("MPI_Errhandler*", "errhandler")];
   mk_prototype "int" "Errhandler_get" [("MPI_Comm", "comm");
       ("MPI_Errhandler*", "errhandler")];
   mk_prototype "int" "Comm_set_errhandler" [("MPI_Comm", "comm");
       ("MPI_Errhandler", "errhandler")];
   mk_prototype "int" "Comm_get_errhandler" [("MPI_Comm", "comm");
       ("MPI_Errhandler*", "errhandler")];
   mk_prototype "int" "Comm_create_errhandler" [("MPI_Comm_errhandler_fn*", "function");
       ("MPI_Errhandler*", "errhandler")];
   mk_prototype "int" "Comm_call_errhandler" [("MPI_Comm", "comm"); ("int", "errorcode")];
   mk_prototype "int" "Win_set_errhandler" [("MPI_Win", "win");
       ("MPI_Errhandler", "errhandler")];
   mk_prototype "int" "Win_get_errhandler" [("MPI_Win", "win");
       ("MPI_Errhandler*", "errhandler")];
   mk_prototype "int" "Win_create_errhandler" [("MPI_Win_errhandler_fn*", "function");
       ("MPI_Errhandler*", "errhandler")];
   mk_prototype "int" "Win_call_errhandler" [("MPI_Win", "win"); ("int", "errorcode")];
   mk_prototype "MPI_Errhandler" "Errhandler_f2c" [("MPI_Fint", "errhandler")];
   mk_prototype "MPI_Fint" "Errhandler_c2f" [("MPI_Errhandler", "errhandler")];
   mk_prototype "int" "Type_create_f90_integer" [("int", "count");
       ("MPI_Datatype*", "newtype")];
   mk_prototype "int" "Type_create_f90_real" [("int", "prec"); ("int", "exp");
       ("MPI_Datatype*", "newtype")];
   mk_prototype "int" "Type_create_f90_complex" [("int", "prec"); ("int", "exp");
       ("MPI_Datatype*", "newtype")];
   mk_prototype "int" "Type_get_contents" [("MPI_Datatype", "datatype");
       ("int", "max_integers"); ("int", "max_addresses"); ("int", "max_datatypes");
       ("int*", "array_of_integers"); ("MPI_Aint*", "array_of_addresses");
       ("MPI_Datatype*", "array_of_datatypes")];
   mk_prototype "int" "Type_get_envelope" [("MPI_Datatype", "datatype");
       ("int*", "num_integers"); ("int*", "num_addresses"); ("int*", "num_datatypes");
       ("int*", "combiner")];
   mk_prototype "int" "File_call_errhandler" [("MPI_File", "fh"); ("int", "errorcode")];
   mk_prototype "int" "File_create_errhandler" [("MPI_File_errhandler_function*", "function");
       ("MPI_Errhandler*", "errhandler")];
   mk_prototype "int" "File_set_errhandler" [("MPI_File", "file");
       ("MPI_Errhandler", "errhandler")];
   mk_prototype "int" "File_get_errhandler" [("MPI_File", "file");
       ("MPI_Errhandler*", "errhandler")]].

Definition prototypes : list prototype := prototypes_1 ++ prototypes_2 ++ prototypes_3.

(** A call of the first in a user program becomes a call of the second. *)

(** @src/include/s4bxi/mpi_middleware/s4bxi_mpi_middleware.h:486-635 MPI_Init to MPI_Iallgatherv *)
Definition redirections_1 : list (string * string) :=
  [("Init", "Init"); ("Finalize", "Finalize"); ("Finalized", "Finalized");
   ("Init_thread", "Init_thread"); ("Initialized", "Initialized");
   ("Query_thread", "Query_thread"); ("Is_thread_main", "Is_thread_main");
   ("Get_version", "Get_version"); ("Get_library_version", "Get_library_version");
   ("Get_processor_name", "Get_processor_name"); ("Abort", "Abort"); ("Alloc_mem", "Alloc_mem");
   ("Free_mem", "Free_mem"); ("Wtime", "Wtime"); ("Wtick", "Wtick");
   ("Buffer_attach", "Buffer_attach"); ("Buffer_detach", "Buffer_detach"); ("Address", "Address");
   ("Get_address", "Get_address"); ("Aint_diff", "Aint_diff"); ("Aint_add", "Aint_add");
   ("Error_class", "Error_class"); ("Error_string", "Error_string");
   ("Attr_delete", "Attr_delete"); ("Attr_get", "Attr_get"); ("Attr_put", "Attr_put");
   ("Keyval_create", "Keyval_create"); ("Keyval_free", "Keyval_free"); ("Type_free", "Type_free");
   ("Type_size", "Type_size"); ("Type_size_x", "Type_size_x");
   ("Type_get_extent", "Type_get_extent"); ("Type_get_extent_x", "Type_get_extent_x");
   ("Type_get_true_extent", "Type_get_true_extent");
   ("Type_get_true_extent_x", "Type_get_true_extent_x"); ("Type_extent", "Type_extent");
   ("Type_lb", "Type_lb"); ("Type_ub", "Type_ub"); ("Type_commit", "Type_commit");
   ("Type_hindexed", "Type_hindexed"); ("Type_create_hindexed", "Type_create_hindexed");
   ("Type_create_hindexed_block", "Type_create_hindexed_block"); ("Type_hvector", "Type_hvector");
   ("Type_create_hvector", "Type_create_hvector"); ("Type_indexed", "Type_indexed");
   ("Type_create_indexed", "Type_create_indexed");
   ("Type_create_indexed_block", "Type_create_indexed_block"); ("Type_struct", "Type_struct");
   ("Type_create_struct", "Type_create_struct"); ("Type_vector", "Type_vector");
   ("Type_contiguous", "Type_contiguous"); ("Type_create_resized", "Type_create_resized");
   ("Type_f2c", "Type_f2c"); ("Type_c2f", "Type_c2f"); ("Get_count", "Get_count");
   ("Type_get_attr", "Type_get_attr"); ("Type_set_attr", "Type_set_attr");
   ("Type_delete_attr", "Type_delete_attr"); ("Type_create_keyval", "Type_create_keyval");
   ("Type_free_keyval", "Type_free_keyval"); ("Type_dup", "Type_dup");
   ("Type_set_name", "Type_set_name"); ("Type_get_name", "Type_get_name"); ("Pack", "Pack");
   ("Pack_size", "Pack_size"); ("Unpack", "Unpack"); ("Op_create", "Op_create");
   ("Op_free", "Op_free"); ("Op_commutative", "Op_commutative"); ("Op_f2c", "Op_f2c");
   ("Op_c2f", "Op_c2f"); ("Group_free", "Group_free"); ("Group_size", "Group_size");
   ("Group_rank", "Group_rank"); ("Group_translate_ranks", "Group_translate_ranks");
   ("Group_compare", "Group_compare"); ("Group_union", "Group_union");
   ("Group_intersection", "Group_intersection"); ("Group_difference", "Group_difference");
   ("Group_incl", "Group_incl"); ("Group_excl", "Group_excl");
   ("Group_range_incl", "Group_range_incl"); ("Group_range_excl", "Group_range_excl");
   ("Group_f2c", "Group_f2c"); ("Group_c2f", "Group_c2f"); ("Comm_rank", "Comm_rank");
   ("Comm_size", "Comm_size"); ("Comm_get_name", "Comm_get_name");
   ("Comm_set_name", "Comm_set_name"); ("Comm_dup", "Comm_dup");
   ("Comm_dup_with_info", "Comm_dup_with_info"); ("Comm_get_attr", "Comm_get_attr");
   ("Comm_set_attr", "Comm_set_attr"); ("Comm_delete_attr", "Comm_delete_attr");
   ("Comm_create_keyval", "Comm_create_keyval"); ("Comm_free_keyval", "Comm_free_keyval");
   ("Comm_group", "Comm_group"); ("Comm_compare", "Comm_compare"); ("Comm_create", "Comm_create");
   ("Comm_create_group", "Comm_create_group"); ("Comm_free", "Comm_free");
   ("Comm_disconnect", "Comm_disconnect"); ("Comm_split", "Comm_split");
   ("Comm_set_info", "Comm_set_info"); ("Comm_get_info", "Comm_get_info");
   ("Comm_split_type", "Comm_split_type"); ("Comm_f2c", "Comm_f2c"); ("Comm_c2f", "Comm_c2f");
   ("Start", "Start"); ("Startall", "Startall"); ("Request_free", "Request_free");
   ("Recv", "Recv"); ("Recv_init", "Recv_init"); ("Irecv", "Irecv"); ("Send", "Send");
   ("Send_init", "Send_init"); ("Isend", "Isend"); ("Ssend", "Ssend");
   ("Ssend_init", "Ssend_init"); ("Issend", "Issend"); ("Bsend", "Bsend");
   ("Bsend_init", "Bsend_init"); ("Ibsend", "Ibsend"); ("Rsend", "Rsend");
   ("Rsend_init", "Rsend_init"); ("Irsend", "Irsend"); ("Sendrecv", "Sendrecv");
   ("Sendrecv_replace", "Sendrecv_replace"); ("Test", "Test"); ("Testany", "Testany");
   ("Testall", "Testall"); ("Testsome", "Testsome"); ("Test_cancelled", "Test_cancelled");
   ("Wait", "Wait"); ("Waitany", "Waitany"); ("Waitall", "Waitall"); ("Waitsome", "Waitsome");
   ("Iprobe", "Iprobe"); ("Probe", "Probe"); ("Request_f2c", "Request_f2c");
   ("Request_c2f", "Request_c2f"); ("Cancel", "Cancel"); ("Bcast", "Bcast");
   ("Barrier", "Barrier"); ("Ibarrier", "Ibarrier"); ("Ibcast", "Ibcast"); ("Igather", "Igather");
   ("Igatherv", "Igatherv"); ("Iallgather", "Iallgather"); ("Iallgatherv", "Iallgatherv")].

(** @src/include/s4bxi/mpi_middleware/s4bxi_mpi_middleware.h:636-782 MPI_Iscatter to MPI_File_get_errhandler *)
Definition redirections_2 : list (string * string) :=
  [("Iscatter", "Iscatter"); ("Iscatterv", "Iscatterv"); ("Ireduce", "Ireduce");
   ("Iallreduce", "Iallreduce"); ("Iscan", "Iscan"); ("Iexscan", "Iexscan");
   ("Ireduce_scatter", "Ireduce_scatter"); ("Ireduce_scatter_block", "Ireduce_scatter_block");
   ("Ialltoall", "Ialltoall"); ("Ialltoallv", "Ialltoallv"); ("Ialltoallw", "Ialltoallw");
   ("Gather", "Gather"); ("Gatherv", "Gatherv"); ("Allgather", "Allgather");
   ("Allgatherv", "Allgatherv"); ("Scatter", "Scatter"); ("Scatterv", "Scatterv");
   ("Reduce", "Reduce"); ("Allreduce", "Allreduce"); ("Scan", "Scan"); ("Exscan", "Exscan");
   ("Reduce_scatter", "Reduce_scatter"); ("Reduce_scatter_block", "Reduce_scatter_block");
   ("Alltoall", "Alltoall"); ("Alltoallv", "Alltoallv"); ("Alltoallw", "Alltoallw");
   ("Reduce_local", "Reduce_local"); ("Info_create", "Info_create"); ("Info_set", "Info_set");
   ("Info_get", "Info_get"); ("Info_free", "Info_free"); ("Info_delete", "Info_delete");
   ("Info_dup", "Info_dup"); ("Info_get_nkeys", "Info_get_nkeys");
   ("Info_get_nthkey", "Info_get_nthkey"); ("Info_get_valuelen", "Info_get_valuelen");
   ("Info_f2c", "Info_f2c"); ("Info_c2f", "Info_c2f"); ("Win_free", "Win_free");
   ("Win_create", "Win_create"); ("Win_allocate", "Win_allocate");
   ("Win_allocate_shared", "Win_allocate_shared"); ("Win_create_dynamic", "Win_create_dynamic");
   ("Win_attach", "Win_attach"); ("Win_detach", "Win_detach"); ("Win_set_name", "Win_set_name");
   ("Win_get_name", "Win_get_name"); ("Win_set_info", "Win_set_info");
   ("Win_get_info", "Win_get_info"); ("Win_get_group", "Win_get_group");
   ("Win_fence", "Win_fence"); ("Win_get_attr", "Win_get_attr"); ("Win_set_attr", "Win_set_attr");
   ("Win_delete_attr", "Win_delete_attr"); ("Win_create_keyval", "Win_create_keyval");
   ("Win_free_keyval", "Win_free_keyval"); ("Win_complete", "Win_complete");
   ("Win_post", "Win_post"); ("Win_start", "Win_start"); ("Win_wait", "Win_wait");
   ("Win_lock", "Win_lock"); ("Win_lock_all", "Win_lock_all"); ("Win_unlock", "Win_unlock");
   ("Win_unlock_all", "Win_unlock_all"); ("Win_flush", "Win_flush");
   ("Win_flush_local", "Win_flush_local"); ("Win_flush_all", "Win_flush_all");
   ("Win_flush_local_all", "Win_flush_local_all"); ("Win_shared_query", "Win_shared_query");
   ("Win_sync", "Win_sync"); ("Win_f2c", "Win_f2c"); ("Win_c2f", "Win_c2f"); ("Get", "Get");
   ("Put", "Put"); ("Accumulate", "Accumulate"); ("Get_accumulate", "Get_accumulate");
   ("Rget", "Rget"); ("Rput", "Rput"); ("Raccumulate", "Raccumulate");
   ("Rget_accumulate", "Rget_accumulate"); ("Fetch_and_op", "Fetch_and_op");
   ("Compare_and_swap", "Compare_and_swap"); ("Cart_coords", "Cart_coords");
   ("Cart_create", "Cart_create"); ("Cart_get", "Cart_get"); ("Cart_rank", "Cart_rank");
   ("Cart_shift", "Cart_shift"); ("Cart_sub", "Cart_sub"); ("Cartdim_get", "Cartdim_get");
   ("Dims_create", "Dims_create"); ("Request_get_status", "Request_get_status");
   ("Grequest_start", "Grequest_start"); ("Grequest_complete", "Grequest_complete");
   ("Status_set_cancelled", "Status_set_cancelled");
   ("Status_set_elements", "Status_set_elements");
   ("Status_set_elements_x", "Status_set_elements_x");
   ("Type_create_subarray", "Type_create_subarray"); ("File_open", "File_open");
   ("File_close", "File_close"); ("File_delete", "File_delete");
   ("File_get_size", "File_get_size"); ("File_get_group", "File_get_group");
   ("File_get_amode", "File_get_amode"); ("File_set_info", "File_set_info");
   ("File_get_info", "File_get_info"); ("File_read_at", "File_read_at");
   ("File_read_at_all", "File_read_at_all"); ("File_write_at", "File_write_at");
   ("File_write_at_all", "File_write_at_all"); ("File_read", "File_read");
   ("File_read_all", "File_read_all"); ("File_write", "File_write");
   ("File_write_all", "File_write_all"); ("File_seek", "File_seek");
   ("File_get_position", "File_get_position"); ("File_read_shared", "File_read_shared");
   ("File_write_shared", "File_write_shared"); ("File_read_ordered", "File_read_ordered");
   ("File_write_ordered", "File_write_ordered"); ("File_seek_shared", "File_seek_shared");
   ("File_get_position_shared", "File_get_position_shared"); ("File_sync", "File_sync");
   ("File_set_view", "File_set_view"); ("File_get_view", "File_get_view");
   ("Errhandler_set", "Errhandler_set"); ("Errhandler_create", "Errhandler_create");
   ("Errhandler_free", "Errhandler_free"); ("Errhandler_get", "Errhandler_get");
   ("Comm_set_errhandler", "Comm_set_errhandler"); ("Comm_get_errhandler", "Comm_get_errhandler");
   ("Comm_create_errhandler", "Comm_create_errhandler");
   ("Comm_call_errhandler", "Comm_call_errhandler"); ("Win_set_errhandler", "Win_set_errhandler");
   ("Win_get_errhandler", "Win_get_errhandler");
   ("Win_create_errhandler", "Win_create_errhandler");
   ("Win_call_errhandler", "Win_call_errhandler"); ("Errhandler_f2c", "Errhandler_f2c");
   ("Errhandler_c2f", "Errhandler_c2f"); ("Type_create_f90_integer", "Type_create_f90_integer");
   ("Type_create_f90_real", "Type_create_f90_real");
   ("Type_create_f90_complex", "Type_create_f90_complex");
   ("Type_get_contents", "Type_get_contents"); ("Type_get_envelope", "Type_get_envelope");
   ("File_call_errhandler", "File_call_errhandler");
   ("File_create_errhandler", "File_create_errhandler");
   ("File_set_errhandler", "File_set_errhandler"); ("File_get_errhandler", "File_get_errhandler")].

Definition redirections : list (string * string) := redirections_1 ++ redirections_2.

(** ** The structure of an implementation *)

(** @src/include/s4bxi/mpi_middleware/s4bxi_mpi_ops.h:32-181 Init to Iallgatherv *)
Definition ops_functions_1 : list string :=
  ["Init"; "Finalize"; "Finalized"; "Init_thread"; "Initialized"; "Query_thread"; "Is_thread_main";
   "Get_version"; "Get_library_version"; "Get_processor_name"; "Abort"; "Alloc_mem"; "Free_mem";
   "Wtime"; "Wtick"; "Buffer_attach"; "Buffer_detach"; "Address"; "Get_address"; "Aint_diff";
   "Aint_add"; "Error_class"; "Error_string"; "Attr_delete"; "Attr_get"; "Attr_put";
   "Keyval_create"; "Keyval_free"; "Type_free"; "Type_size"; "Type_size_x"; "Type_get_extent";
   "Type_get_extent_x"; "Type_get_true_extent"; "Type_get_true_extent_x"; "Type_extent"; "Type_lb";
   "Type_ub"; "Type_commit"; "Type_hindexed"; "Type_create_hindexed"; "Type_create_hindexed_block";
   "Type_hvector"; "Type_create_hvector"; "Type_indexed"; "Type_create_indexed";
   "Type_create_indexed_block"; "Type_struct"; "Type_create_struct"; "Type_vector";
   "Type_contiguous"; "Type_create_resized"; "Type_f2c"; "Type_c2f"; "Get_count"; "Type_get_attr";
   "Type_set_attr"; "Type_delete_attr"; "Type_create_keyval"; "Type_free_keyval"; "Type_dup";
   "Type_set_name"; "Type_get_name"; "Pack"; "Pack_size"; "Unpack"; "Op_create"; "Op_free";
   "Op_commutative"; "Op_f2c"; "Op_c2f"; "Group_free"; "Group_size"; "Group_rank";
   "Group_translate_ranks"; "Group_compare"; "Group_union"; "Group_intersection";
   "Group_difference"; "Group_incl"; "Group_excl"; "Group_range_incl"; "Group_range_excl";
   "Group_f2c"; "Group_c2f"; "Comm_rank"; "Comm_size"; "Comm_get_name"; "Comm_set_name";
   "Comm_dup"; "Comm_dup_with_info"; "Comm_get_attr"; "Comm_set_attr"; "Comm_delete_attr";
   "Comm_create_keyval"; "Comm_free_keyval"; "Comm_group"; "Comm_compare"; "Comm_create";
   "Comm_create_group"; "Comm_free"; "Comm_disconnect"; "Comm_split"; "Comm_set_info";
   "Comm_get_info"; "Comm_split_type"; "Comm_f2c"; "Comm_c2f"; "Start"; "Startall"; "Request_free";
   "Recv"; "Recv_init"; "Irecv"; "Send"; "Send_init"; "Isend"; "Ssend"; "Ssend_init"; "Issend";
   "Bsend"; "Bsend_init"; "Ibsend"; "Rsend"; "Rsend_init"; "Irsend"; "Sendrecv";
   "Sendrecv_replace"; "Test"; "Testany"; "Testall"; "Testsome"; "Test_cancelled"; "Wait";
   "Waitany"; "Waitall"; "Waitsome"; "Iprobe"; "Probe"; "Request_f2c"; "Request_c2f"; "Cancel";
   "Bcast"; "Barrier"; "Ibarrier"; "Ibcast"; "Igather"; "Igatherv"; "Iallgather"; "Iallgatherv"].

(** @src/include/s4bxi/mpi_middleware/s4bxi_mpi_ops.h:182-328 Iscatter to File_get_errhandler *)
Definition ops_functions_2 : list string :=
  ["Iscatter"; "Iscatterv"; "Ireduce"; "Iallreduce"; "Iscan"; "Iexscan"; "Ireduce_scatter";
   "Ireduce_scatter_block"; "Ialltoall"; "Ialltoallv"; "Ialltoallw"; "Gather"; "Gatherv";
   "Allgather"; "Allgatherv"; "Scatter"; "Scatterv"; "Reduce"; "Allreduce"; "Scan"; "Exscan";
   "Reduce_scatter"; "Reduce_scatter_block"; "Alltoall"; "Alltoallv"; "Alltoallw"; "Reduce_local";
   "Info_create"; "Info_set"; "Info_get"; "Info_free"; "Info_delete"; "Info_dup"; "Info_get_nkeys";
   "Info_get_nthkey"; "Info_get_valuelen"; "Info_f2c"; "Info_c2f"; "Win_free"; "Win_create";
   "Win_allocate"; "Win_allocate_shared"; "Win_create_dynamic"; "Win_attach"; "Win_detach";
   "Win_set_name"; "Win_get_name"; "Win_set_info"; "Win_get_info"; "Win_get_group"; "Win_fence";
   "Win_get_attr"; "Win_set_attr"; "Win_delete_attr"; "Win_create_keyval"; "Win_free_keyval";
   "Win_complete"; "Win_post"; "Win_start"; "Win_wait"; "Win_lock"; "Win_lock_all"; "Win_unlock";
   "Win_unlock_all"; "Win_flush"; "Win_flush_local"; "Win_flush_all"; "Win_flush_local_all";
   "Win_shared_query"; "Win_sync"; "Win_f2c"; "Win_c2f"; "Get"; "Put"; "Accumulate";
   "Get_accumulate"; "Rget"; "Rput"; "Raccumulate"; "Rget_accumulate"; "Fetch_and_op";
   "Compare_and_swap"; "Cart_coords"; "Cart_create"; "Cart_get"; "Cart_rank"; "Cart_shift";
   "Cart_sub"; "Cartdim_get"; "Dims_create"; "Request_get_status"; "Grequest_start";
   "Grequest_complete"; "Status_set_cancelled"; "Status_set_elements"; "Status_set_elements_x";
   "Type_create_subarray"; "File_open"; "File_close"; "File_delete"; "File_get_size";
   "File_get_group"; "File_get_amode"; "File_set_info"; "File_get_info"; "File_read_at";
   "File_read_at_all"; "File_write_at"; "File_write_at_all"; "File_read"; "File_read_all";
   "File_write"; "File_write_all"; "File_seek"; "File_get_position"; "File_read_shared";
   "File_write_shared"; "File_read_ordered"; "File_write_ordered"; "File_seek_shared";
   "File_get_position_shared"; "File_sync"; "File_set_view"; "File_get_view"; "Errhandler_set";
   "Errhandler_create"; "Errhandler_free"; "Errhandler_get"; "Comm_set_errhandler";
   "Comm_get_errhandler"; "Comm_create_errhandler"; "Comm_call_errhandler"; "Win_set_errhandler";
   "Win_get_errhandler"; "Win_create_errhandler"; "Win_call_errhandler"; "Errhandler_f2c";
   "Errhandler_c2f"; "Type_create_f90_integer"; "Type_create_f90_real"; "Type_create_f90_complex";
   "Type_get_contents"; "Type_get_envelope"; "File_call_errhandler"; "File_create_errhandler";
   "File_set_errhandler"; "File_get_errhandler"].

(** @src/include/s4bxi/mpi_middleware/s4bxi_mpi_ops.h:331-410 COMM_WORLD to REQUEST_NULL *)
Definition ops_constants : list string :=
  ["COMM_WORLD"; "COMM_SELF"; "TYPE_DATATYPE_NULL"; "TYPE_CHAR"; "TYPE_SHORT"; "TYPE_INT";
   "TYPE_LONG"; "TYPE_LONG_LONG"; "TYPE_SIGNED_CHAR"; "TYPE_UNSIGNED_CHAR"; "TYPE_UNSIGNED_SHORT";
   "TYPE_UNSIGNED"; "TYPE_UNSIGNED_LONG"; "TYPE_UNSIGNED_LONG_LONG"; "TYPE_FLOAT"; "TYPE_DOUBLE";
   "TYPE_LONG_DOUBLE"; "TYPE_WCHAR"; "TYPE_C_BOOL"; "TYPE_INT8_T"; "TYPE_INT16_T"; "TYPE_INT32_T";
   "TYPE_INT64_T"; "TYPE_UINT8_T"; "TYPE_BYTE"; "TYPE_UINT16_T"; "TYPE_UINT32_T"; "TYPE_UINT64_T";
   "TYPE_C_FLOAT_COMPLEX"; "TYPE_C_DOUBLE_COMPLEX"; "TYPE_C_LONG_DOUBLE_COMPLEX"; "TYPE_AINT";
   "TYPE_OFFSET"; "TYPE_LB"; "TYPE_UB"; "TYPE_FLOAT_INT"; "TYPE_LONG_INT"; "TYPE_DOUBLE_INT";
   "TYPE_SHORT_INT"; "TYPE_2INT"; "TYPE_LONG_DOUBLE_INT"; "TYPE_2FLOAT"; "TYPE_2DOUBLE";
   "TYPE_2LONG"; "TYPE_REAL"; "TYPE_REAL4"; "TYPE_REAL8"; "TYPE_REAL16"; "TYPE_COMPLEX8";
   "TYPE_COMPLEX16"; "TYPE_COMPLEX32"; "TYPE_INTEGER1"; "TYPE_INTEGER2"; "TYPE_INTEGER4";
   "TYPE_INTEGER8"; "TYPE_INTEGER16"; "TYPE_COUNT"; "OP_MAX"; "OP_MIN"; "OP_MAXLOC"; "OP_MINLOC";
   "OP_SUM"; "OP_PROD"; "OP_LAND"; "OP_LOR"; "OP_LXOR"; "OP_BAND"; "OP_BOR"; "OP_BXOR";
   "OP_REPLACE"; "OP_NO_OP"; "REQUEST_NULL"].

Definition ops_fields : list string := ops_functions_1 ++ ops_functions_2 ++ ops_constants.

(** ** What is looked up in the libraries *)

(** @src/src/mpi_middleware/s4bxi_mpi_middleware.cpp:1072-1221 Init to Iallgatherv *)
Definition symbols_1 : list string :=
  ["Init"; "Finalize"; "Finalized"; "Init_thread"; "Initialized"; "Query_thread"; "Is_thread_main";
   "Get_version"; "Get_library_version"; "Get_processor_name"; "Abort"; "Alloc_mem"; "Free_mem";
   "Wtime"; "Wtick"; "Buffer_attach"; "Buffer_detach"; "Address"; "Get_address"; "Aint_diff";
   "Aint_add"; "Error_class"; "Error_string"; "Attr_delete"; "Attr_get"; "Attr_put";
   "Keyval_create"; "Keyval_free"; "Type_free"; "Type_size"; "Type_size_x"; "Type_get_extent";
   "Type_get_extent_x"; "Type_get_true_extent"; "Type_get_true_extent_x"; "Type_extent"; "Type_lb";
   "Type_ub"; "Type_commit"; "Type_hindexed"; "Type_create_hindexed"; "Type_create_hindexed_block";
   "Type_hvector"; "Type_create_hvector"; "Type_indexed"; "Type_create_indexed";
   "Type_create_indexed_block"; "Type_struct"; "Type_create_struct"; "Type_vector";
   "Type_contiguous"; "Type_create_resized"; "Type_f2c"; "Type_c2f"; "Get_count"; "Type_get_attr";
   "Type_set_attr"; "Type_delete_attr"; "Type_create_keyval"; "Type_free_keyval"; "Type_dup";
   "Type_set_name"; "Type_get_name"; "Pack"; "Pack_size"; "Unpack"; "Op_create"; "Op_free";
   "Op_commutative"; "Op_f2c"; "Op_c2f"; "Group_free"; "Group_size"; "Group_rank";
   "Group_translate_ranks"; "Group_compare"; "Group_union"; "Group_intersection";
   "Group_difference"; "Group_incl"; "Group_excl"; "Group_range_incl"; "Group_range_excl";
   "Group_f2c"; "Group_c2f"; "Comm_rank"; "Comm_size"; "Comm_get_name"; "Comm_set_name";
   "Comm_dup"; "Comm_dup_with_info"; "Comm_get_attr"; "Comm_set_attr"; "Comm_delete_attr";
   "Comm_create_keyval"; "Comm_free_keyval"; "Comm_group"; "Comm_compare"; "Comm_create";
   "Comm_create_group"; "Comm_free"; "Comm_disconnect"; "Comm_split"; "Comm_set_info";
   "Comm_get_info"; "Comm_split_type"; "Comm_f2c"; "Comm_c2f"; "Start"; "Startall"; "Request_free";
   "Recv"; "Recv_init"; "Irecv"; "Send"; "Send_init"; "Isend"; "Ssend"; "Ssend_init"; "Issend";
   "Bsend"; "Bsend_init"; "Ibsend"; "Rsend"; "Rsend_init"; "Irsend"; "Sendrecv";
   "Sendrecv_replace"; "Test"; "Testany"; "Testall"; "Testsome"; "Test_cancelled"; "Wait";
   "Waitany"; "Waitall"; "Waitsome"; "Iprobe"; "Probe"; "Request_f2c"; "Request_c2f"; "Cancel";
   "Bcast"; "Barrier"; "Ibarrier"; "Ibcast"; "Igather"; "Igatherv"; "Iallgather"; "Iallgatherv"].

(** @src/src/mpi_middleware/s4bxi_mpi_middleware.cpp:1222-1368 Iscatter to File_get_errhandler *)
Definition symbols_2 : list string :=
  ["Iscatter"; "Iscatterv"; "Ireduce"; "Iallreduce"; "Iscan"; "Iexscan"; "Ireduce_scatter";
   "Ireduce_scatter_block"; "Ialltoall"; "Ialltoallv"; "Ialltoallw"; "Gather"; "Gatherv";
   "Allgather"; "Allgatherv"; "Scatter"; "Scatterv"; "Reduce"; "Allreduce"; "Scan"; "Exscan";
   "Reduce_scatter"; "Reduce_scatter_block"; "Alltoall"; "Alltoallv"; "Alltoallw"; "Reduce_local";
   "Info_create"; "Info_set"; "Info_get"; "Info_free"; "Info_delete"; "Info_dup"; "Info_get_nkeys";
   "Info_get_nthkey"; "Info_get_valuelen"; "Info_f2c"; "Info_c2f"; "Win_free"; "Win_create";
   "Win_allocate"; "Win_allocate_shared"; "Win_create_dynamic"; "Win_attach"; "Win_detach";
   "Win_set_name"; "Win_get_name"; "Win_set_info"; "Win_get_info"; "Win_get_group"; "Win_fence";
   "Win_get_attr"; "Win_set_attr"; "Win_delete_attr"; "Win_create_keyval"; "Win_free_keyval";
   "Win_complete"; "Win_post"; "Win_start"; "Win_wait"; "Win_lock"; "Win_lock_all"; "Win_unlock";
   "Win_unlock_all"; "Win_flush"; "Win_flush_local"; "Win_flush_all"; "Win_flush_local_all";
   "Win_shared_query"; "Win_sync"; "Win_f2c"; "Win_c2f"; "Get"; "Put"; "Accumulate";
   "Get_accumulate"; "Rget"; "Rput"; "Raccumulate"; "Rget_accumulate"; "Fetch_and_op";
   "Compare_and_swap"; "Cart_coords"; "Cart_create"; "Cart_get"; "Cart_rank"; "Cart_shift";
   "Cart_sub"; "Cartdim_get"; "Dims_create"; "Request_get_status"; "Grequest_start";
   "Grequest_complete"; "Status_set_cancelled"; "Status_set_elements"; "Status_set_elements_x";
   "Type_create_subarray"; "File_open"; "File_close"; "File_delete"; "File_get_size";
   "File_get_group"; "File_get_amode"; "File_set_info"; "File_get_info"; "File_read_at";
   "File_read_at_all"; "File_write_at"; "File_write_at_all"; "File_read"; "File_read_all";
   "File_write"; "File_write_all"; "File_seek"; "File_get_position"; "File_read_shared";
   "File_write_shared"; "File_read_ordered"; "File_write_ordered"; "File_seek_shared";
   "File_get_position_shared"; "File_sync"; "File_set_view"; "File_get_view"; "Errhandler_set";
   "Errhandler_create"; "Errhandler_free"; "Errhandler_get"; "Comm_set_errhandler";
   "Comm_get_errhandler"; "Comm_create_errhandler"; "Comm_call_errhandler"; "Win_set_errhandler";
   "Win_get_errhandler"; "Win_create_errhandler"; "Win_call_errhandler"; "Errhandler_f2c";
   "Errhandler_c2f"; "Type_create_f90_integer"; "Type_create_f90_real"; "Type_create_f90_complex";
   "Type_get_contents"; "Type_get_envelope"; "File_call_errhandler"; "File_create_errhandler";
   "File_set_errhandler"; "File_get_errhandler"].

Definition symbols : list string := symbols_1 ++ symbols_2.

(** The name in the Bull library, then the one of the standard. *)
(** @src/src/mpi_middleware/s4bxi_mpi_middleware.cpp:1372-1373 SETUP_COMMS_IN_IMPLEMS *)
Definition comms : list (string * string) :=
  [("world", "WORLD"); ("self", "SELF")].

(** The name in the Bull library, then the one of the standard. *)
(** @src/src/mpi_middleware/s4bxi_mpi_middleware.cpp:1376-1434 SETUP_DATATYPES_IN_IMPLEMS *)
Definition datatypes : list (string * string) :=
  [("char", "CHAR"); ("datatype_null", "DATATYPE_NULL"); ("char", "CHAR"); ("short", "SHORT");
   ("int", "INT"); ("long", "LONG"); ("long_long_int", "LONG_LONG");
   ("signed_char", "SIGNED_CHAR"); ("unsigned_char", "UNSIGNED_CHAR");
   ("unsigned_short", "UNSIGNED_SHORT"); ("unsigned", "UNSIGNED");
   ("unsigned_long", "UNSIGNED_LONG"); ("unsigned_long_long", "UNSIGNED_LONG_LONG");
   ("float", "FLOAT"); ("double", "DOUBLE"); ("long_double", "LONG_DOUBLE"); ("wchar", "WCHAR");
   ("c_bool", "C_BOOL"); ("int8_t", "INT8_T"); ("int16_t", "INT16_T"); ("int32_t", "INT32_T");
   ("int64_t", "INT64_T"); ("uint8_t", "UINT8_T"); ("byte", "BYTE"); ("uint16_t", "UINT16_T");
   ("uint32_t", "UINT32_T"); ("uint64_t", "UINT64_T"); ("c_float_complex", "C_FLOAT_COMPLEX");
   ("c_double_complex", "C_DOUBLE_COMPLEX"); ("c_long_double_complex", "C_LONG_DOUBLE_COMPLEX");
   ("aint", "AINT"); ("offset", "OFFSET"); ("lb", "LB"); ("ub", "UB"); ("float_int", "FLOAT_INT");
   ("long_int", "LONG_INT"); ("double_int", "DOUBLE_INT"); ("short_int", "SHORT_INT");
   ("2int", "2INT"); ("longdbl_int", "LONG_DOUBLE_INT"); ("real", "REAL"); ("real4", "REAL4");
   ("real8", "REAL8"); ("real16", "REAL16"); ("complex8", "COMPLEX8"); ("complex16", "COMPLEX16");
   ("complex32", "COMPLEX32"); ("integer1", "INTEGER1"); ("integer2", "INTEGER2");
   ("integer4", "INTEGER4"); ("integer8", "INTEGER8"); ("integer16", "INTEGER16");
   ("count", "COUNT")].

(** The name in the Bull library, then the one of the standard. *)
(** @src/src/mpi_middleware/s4bxi_mpi_middleware.cpp:1437-1450 SETUP_OPS_IN_IMPLEMS *)
Definition operations : list (string * string) :=
  [("max", "MAX"); ("min", "MIN"); ("maxloc", "MAXLOC"); ("minloc", "MINLOC"); ("sum", "SUM");
   ("prod", "PROD"); ("land", "LAND"); ("lor", "LOR"); ("lxor", "LXOR"); ("band", "BAND");
   ("bor", "BOR"); ("bxor", "BXOR"); ("replace", "REPLACE"); ("no_op", "NO_OP")].

(** ** The predefined objects that the middleware translates, in the order of its tests *)

(** [bull_datatype] and [smpi_datatype] test the same ones. *)
(** @src/src/mpi_middleware/BxiMpiDatatype.cpp:32-87 MPI_TYPE_TRANSLATION *)
Definition predefined_datatypes : list string :=
  ["CHAR"; "DATATYPE_NULL"; "CHAR"; "SHORT"; "INT"; "LONG"; "LONG_LONG"; "SIGNED_CHAR";
   "UNSIGNED_CHAR"; "UNSIGNED_SHORT"; "UNSIGNED"; "UNSIGNED_LONG"; "UNSIGNED_LONG_LONG"; "FLOAT";
   "DOUBLE"; "LONG_DOUBLE"; "WCHAR"; "C_BOOL"; "INT8_T"; "INT16_T"; "INT32_T"; "INT64_T";
   "UINT8_T"; "BYTE"; "UINT16_T"; "UINT32_T"; "UINT64_T"; "C_FLOAT_COMPLEX"; "C_DOUBLE_COMPLEX";
   "C_LONG_DOUBLE_COMPLEX"; "AINT"; "OFFSET"; "LB"; "UB"; "FLOAT_INT"; "LONG_INT"; "DOUBLE_INT";
   "SHORT_INT"; "2INT"; "LONG_DOUBLE_INT"; "2FLOAT"; "2DOUBLE"; "2LONG"; "REAL"; "REAL4"; "REAL8";
   "REAL16"; "COMPLEX8"; "COMPLEX16"; "COMPLEX32"; "INTEGER1"; "INTEGER2"; "INTEGER4"; "INTEGER8";
   "INTEGER16"; "COUNT"].

(** @src/src/mpi_middleware/s4bxi_mpi_middleware.cpp:121-134 MPI_OP_TRANSLATION *)
Definition predefined_ops : list string :=
  ["MAX"; "MIN"; "MAXLOC"; "MINLOC"; "SUM"; "PROD"; "LAND"; "LOR"; "LXOR"; "BAND"; "BOR"; "BXOR";
   "REPLACE"; "NO_OP"].

(** @src/src/mpi_middleware/BxiMpiComm.cpp:34-35 MPI_COMM_TRANSLATION *)
Definition predefined_comms : list string := ["WORLD"; "SELF"].
