(* ===== verification/Mpi.v ===== *)
(** The MPI middleware: [src/mpi_middleware/], which passes each MPI call of a user program to SMPI
    or to the MPI library of Bull, and translates the handles on the way.

    The two libraries are the class [Mpi]: a call is a pointer to a function with its arguments, it
    is recorded, and [mpi_step] gives the state in which the caller resumes.  Pointers, handles and
    integers are numbers; what they point to is the memory of the [World]: a pointer has 8 bytes,
    an [int] 4. *)
From S2P Require Import Prelude OMap Portals World Engine Config Atomics Runtime Bench CUtil.
From S2P Require Import MpiTables.

(** ** State *)

(** The fields by their names; a new structure is full of zeros. *)
(** @src/include/s4bxi/mpi_middleware/s4bxi_mpi_ops.h:31-31 s4bxi_mpi_ops *)
Definition s4bxi_mpi_ops : Type := gmap string Z.
Definition ops_field (ops : s4bxi_mpi_ops) (name : string) : Z := default 0 (ops !! name).

(** A call of a function of a library. *)
Record mpi_call := mk_mpi_call { mc_function : Z; mc_args : list Z }.

(** [mw_bull_ops] holds what [bull_mpi_ops] of each main actor points to, [mw_blocks] the size of
    the blocks of memory that the middleware holds. *)
(** @src/src/mpi_middleware/s4bxi_mpi_middleware.cpp:34-38 smpi_mpi_ops, smpi_requests *)
Record Middleware := mk_Middleware {
  mw_sim : Sim;
  mw_smpi_ops : option s4bxi_mpi_ops;
  mw_bull_ops : gmap N s4bxi_mpi_ops;
  mw_requests : gset Z;
  mw_blocks : gmap Z Z;
  mw_calls : list mpi_call }.

#[export] Instance rebuild_Middleware : Rebuild Middleware := fun r =>
  mk_Middleware (mw_sim r) (mw_smpi_ops r) (mw_bull_ops r) (mw_requests r) (mw_blocks r)
    (mw_calls r).

Abbreviation MM := (M Middleware).

Class Mpi := {
  mpi_step : mpi_call -> Middleware -> Middleware;
  mpi_int : Middleware -> Z;             (* the result of the last call: an int or a pointer *)
  mpi_double : Middleware -> double;
  mpi_dlsym : Z -> string -> Z;          (* dlsym(), null for a symbol that is not found *)
  mpi_constant : Z -> string -> Z;       (* the macros of smpi.h, in a process *)
  mpi_block : Z -> Middleware -> option Z;  (* where so many bytes are allocated, if there is room *)
  mpi_indeterminate : Z -> Z;            (* what a new block contains *)
  mpi_log_calls : bool;                  (* LOG_MPI_CALLS *)
}.

Section Mpi.
Context `{Runtime} `{Mpi}.

(** ** Primitive operations *)

Definition on_sim {A} (c : PM A) : MM A := fun s =>
  match c (mw_sim s) with Ok a m => Ok a (s <| mw_sim := m |>) | Fail e => Fail e end.
Definition on_memory {A} (c : SM A) : MM A := on_sim (on_world c).

Definition load_pointer (a : Z) : MM Z :=
  bs ← on_memory (load_bytes a 8); mret (Z_of_bytes bs).
Definition store_pointer (a v : Z) : MM unit := on_memory (store_bytes a (bytes_of_Z 8 v)).
Definition load_int (a : Z) : MM Z := bs ← on_memory (load_bytes a 4); mret (sint_of bs).

Fixpoint map_block (m : gmap Z Z) (a : Z) (n : nat) : gmap Z Z :=
  match n with O => m | S n' => <[a := mpi_indeterminate a]> (map_block m (a + 1) n') end.
Fixpoint unmap_block (m : gmap Z Z) (a : Z) (n : nat) : gmap Z Z :=
  match n with O => m | S n' => delete a (unmap_block m (a + 1) n') end.
Definition with_memory (f : gmap Z Z -> gmap Z Z) (s : Middleware) : Middleware :=
  s <| mw_sim ::= fun m => m <| sim_world ::= fun w => w <| w_mem ::= f |> |> |>.

(** A local variable, or what [new] returns. *)
Definition allocate (n : Z) : MM Z :=
  a ← gets (mpi_block n);
  a ← of_option a (Exception "std::bad_alloc");
  _ ← modify (fun s => with_memory (fun m => map_block m a (Z.to_nat n)) s
                         <| mw_blocks ::= <[a := n]> |>);
  mret a.
Definition release (a : Z) : MM unit :=
  n ← gets (fun s => mw_blocks s !! a);
  n ← of_option n (Undefined "invalid delete");
  modify (fun s => with_memory (fun m => unmap_block m a (Z.to_nat n)) s
                     <| mw_blocks ::= delete a |>).
Definition with_local {A} (n : Z) (body : Z -> MM A) : MM A :=
  a ← allocate n; x ← body a; _ ← release a; mret x.

Definition current_actor : MM handle := on_sim GET_CURRENT_MAIN_ACTOR.
Definition use_smpi (actor : handle) : MM bool :=
  u ← on_sim (user actor); mret (ua_use_smpi_implem u).

(** [main_actor->bull_mpi_ops], [smpi_mpi_ops], and the choice between them. *)
Definition bull_ops (actor : handle) : MM s4bxi_mpi_ops :=
  _ ← on_sim (user actor);
  ops ← gets (fun s => mw_bull_ops s !! actor); of_option ops (Undefined "null bull_mpi_ops").
Definition smpi_ops : MM s4bxi_mpi_ops :=
  ops ← gets mw_smpi_ops; of_option ops (Undefined "null smpi_mpi_ops").
Definition choose_ops (smpi : bool) (actor : handle) : MM s4bxi_mpi_ops :=
  if smpi then smpi_ops else bull_ops actor.

Definition smpi_constant (name : string) : MM Z :=
  gets (fun s => mpi_constant (rt_pid (mw_sim s)) name).

(** A call through a field of a structure. *)
Definition library {R} (result : Middleware -> R) (ops : s4bxi_mpi_ops) (name : string)
    (args : list Z) : MM R := fun s =>
  let c := mk_mpi_call (ops_field ops name) args in
  if mc_function c =? 0 then Fail (Undefined "call of a null pointer")
  else let s' := mpi_step c (s <| mw_calls ::= cons c |>) in Ok (result s') s'.

(** ** Constants *)

(** @src/src/mpi_middleware/s4bxi_mpi_middleware.cpp:46-50 S4BXI_MPI_IN_PLACE *)
Definition S4BXI_MPI_IN_PLACE : MM Z :=
  actor ← current_actor; smpi ← use_smpi actor;
  mret (if smpi : bool then u64 (-222) else 1).

(** @src/src/mpi_middleware/s4bxi_mpi_middleware.cpp:52-56 S4BXI_MPI_REQUEST_NULL *)
Definition S4BXI_MPI_REQUEST_NULL : MM Z :=
  actor ← current_actor; smpi ← use_smpi actor;
  if (smpi : bool) then mret 0 else ops ← bull_ops actor; mret (ops_field ops "REQUEST_NULL").

(** @src/src/mpi_middleware/s4bxi_mpi_middleware.cpp:58-61 s4bxi_is_mpi_request_null *)
Definition s4bxi_is_mpi_request_null (r : Z) : MM bool :=
  if r =? 0 then mret true else
  actor ← current_actor; ops ← bull_ops actor; mret (r =? ops_field ops "REQUEST_NULL").

(** @src/src/mpi_middleware/s4bxi_mpi_middleware.cpp:40-43 s4bxi_log_pending_requests *)
Definition s4bxi_log_pending_requests : MM unit :=
  n ← gets (fun s => size (mw_requests s));
  _ ← on_sim (s4bxi_fprintf 2 (">>> Pending requests in middleware: "
                 ++ pretty (swrap 32 (Z.of_nat n)) ++ String (Ascii.ascii_of_N 10) ""));
  mret tt.

(** @src/src/mpi_middleware/s4bxi_mpi_middleware.cpp:141-151 LOG_CALL *)
Definition LOG_CALL (name file : string) (line : Z) : MM unit :=
  when mpi_log_calls
    (_ ← on_sim (s4bxi_fprintf 2 ("Calling " ++ name ++ " from line " ++ pretty line
                   ++ " in file " ++ file ++ String (Ascii.ascii_of_N 10) ""));
     mret tt).

(** ** Translation of handles *)

(** A row of tests: the result for the first name that matches. *)
Fixpoint translate (matches : string -> MM bool) (result : string -> MM Z) (otherwise : MM Z)
    (names : list string) : MM Z :=
  match names with
  | [] => otherwise
  | name :: names' =>
      b ← matches name;
      if (b : bool) then result name else translate matches result otherwise names'
  end.

(** [original == MPI_... || original == ...->field] *)
Definition is_either (original : Z) (constant : string) (ops : MM s4bxi_mpi_ops)
    (name : string) : MM bool :=
  c ← smpi_constant constant;
  if original =? c then mret true else ops ← ops; mret (original =? ops_field ops name).

(** The pair of handles of a communicator or a datatype: the one of Bull first. *)
(** @src/include/s4bxi/mpi_middleware/BxiMpiComm.hpp:23-31 BxiMpiComm *)
Definition bull_of (pair : Z) : MM Z := load_pointer pair.
(** @src/include/s4bxi/mpi_middleware/BxiMpiDatatype.hpp:23-32 BxiMpiDatatype *)
Definition smpi_of (pair : Z) : MM Z := load_pointer (pair + 8).
Definition implem_of (actor : handle) (pair : Z) : MM Z :=
  smpi ← use_smpi actor; if (smpi : bool) then smpi_of pair else bull_of pair.

(** @src/src/mpi_middleware/BxiMpiComm.cpp:24-40 BxiMpiComm::implem_comm *)
Definition implem_comm (original : Z) : MM Z :=
  actor ← current_actor;
  translate
    (fun c => is_either original ("MPI_COMM_" ++ c) (bull_ops actor) ("COMM_" ++ c))
    (fun c => smpi ← use_smpi actor;
       if (smpi : bool) then smpi_constant ("MPI_COMM_" ++ c)
       else ops ← bull_ops actor; mret (ops_field ops ("COMM_" ++ c)))
    (implem_of actor original)
    predefined_comms.

(** @src/src/mpi_middleware/BxiMpiComm.cpp:42-54 BxiMpiComm::bull_comm *)
Definition bull_comm (original : Z) : MM Z :=
  let ops := actor ← current_actor; bull_ops actor in
  translate
    (fun c => is_either original ("MPI_COMM_" ++ c) ops ("COMM_" ++ c))
    (fun c => ops ← ops; mret (ops_field ops ("COMM_" ++ c)))
    (bull_of original)
    predefined_comms.

(** @src/src/mpi_middleware/BxiMpiComm.cpp:56-70 BxiMpiComm::smpi_comm *)
Definition smpi_comm (original : Z) : MM Z :=
  let ops := actor ← current_actor; bull_ops actor in
  translate
    (fun c => is_either original ("MPI_COMM_" ++ c) ops ("COMM_" ++ c))
    (fun c => smpi_constant ("MPI_COMM_" ++ c))
    (smpi_of original)
    predefined_comms.

(** @src/src/mpi_middleware/BxiMpiDatatype.cpp:24-92 BxiMpiDatatype::implem_datatype *)
Definition implem_datatype (original : Z) : MM Z :=
  actor ← current_actor;
  translate
    (fun t => is_either original ("MPI_" ++ t) (bull_ops actor) ("TYPE_" ++ t))
    (fun t => smpi ← use_smpi actor;
       if (smpi : bool) then smpi_constant ("MPI_" ++ t)
       else ops ← bull_ops actor; mret (ops_field ops ("TYPE_" ++ t)))
    (implem_of actor original)
    predefined_datatypes.

(** @src/src/mpi_middleware/BxiMpiDatatype.cpp:94-162 BxiMpiDatatype::bull_datatype *)
Definition bull_datatype (original : Z) : MM Z :=
  actor ← current_actor;
  translate
    (fun t => is_either original ("MPI_" ++ t) (bull_ops actor) ("TYPE_" ++ t))
    (fun t => ops ← bull_ops actor; mret (ops_field ops ("TYPE_" ++ t)))
    (bull_of original)
    predefined_datatypes.

(** @src/src/mpi_middleware/BxiMpiDatatype.cpp:164-230 BxiMpiDatatype::smpi_datatype *)
Definition smpi_datatype (original : Z) : MM Z :=
  translate
    (fun t => is_either original ("MPI_" ++ t)
                (actor ← current_actor; bull_ops actor) ("TYPE_" ++ t))
    (fun t => smpi_constant ("MPI_" ++ t))
    (smpi_of original)
    predefined_datatypes.

(** @src/src/mpi_middleware/s4bxi_mpi_middleware.cpp:113-139 implem_op *)
Definition implem_op (original : Z) : MM Z :=
  actor ← current_actor;
  translate
    (fun o => b ← is_either original ("MPI_" ++ o) (bull_ops actor) ("OP_" ++ o);
       if (b : bool) then mret true
       else ops ← smpi_ops; mret (original =? ops_field ops ("OP_" ++ o)))
    (fun o => smpi ← use_smpi actor; ops ← choose_ops smpi actor;
       mret (ops_field ops ("OP_" ++ o)))
    (mret original)
    predefined_ops.

(** The loop of [implem_datatypes], from index [i] on. *)
Fixpoint translate_array (original out : Z) (i : Z) (n : nat) : MM unit :=
  match n with
  | O => mret tt
  | S n' =>
      t ← load_pointer (original + 8 * i);
      t ← implem_datatype t;
      _ ← store_pointer (out + 8 * i) t;
      translate_array original out (i + 1) n'
  end.

(** @src/src/mpi_middleware/s4bxi_mpi_middleware.cpp:105-111 implem_datatypes *)
Definition implem_datatypes (original size out : Z) : MM Z :=
  _ ← translate_array original out 0 (Z.to_nat size); mret out.

(** @src/src/mpi_middleware/s4bxi_mpi_middleware.cpp:93-103 is_smpi_request *)
Definition is_smpi_request (r : Z) : MM bool :=
  if r =? 0 then mret true else
  actor ← current_actor;
  ops ← bull_ops actor;
  if r =? ops_field ops "REQUEST_NULL" then mret false else
  gets (fun s => bool_decide (r ∈ mw_requests s)).

Definition remember_request (r : Z) : MM unit :=
  modify (fun s => s <| mw_requests ::= fun rs => {[r]} ∪ rs |>).
Definition forget_request (r : Z) : MM unit :=
  modify (fun s => s <| mw_requests ::= fun rs => rs ∖ {[r]} |>).

(** Between the end and the start of a benchmark. *)
Definition not_benched {A} (body : MM A) : MM A :=
  _ ← on_sim s4bxi_bench_end; x ← body; _ ← on_sim s4bxi_bench_begin; mret x.

End Mpi.
