(* ===== verification/MpiCalls.v ===== *)
(** The functions of the MPI middleware: the set-up of the two implementations, the functions that
    macros define from the tables of [MpiTables.v], and those that
    [src/mpi_middleware/s4bxi_mpi_middleware.cpp] writes out. *)
From S2P Require Import Prelude OMap Portals World Engine Config Atomics Runtime Bench CUtil.
From S2P Require Import MpiTables Mpi.

Section MpiCalls.
Context `{Runtime} `{Mpi}.

(** ** Set-up *)

Definition set_bull_field (actor : handle) (name : string) (v : Z) : MM unit :=
  modify (fun s => s <| mw_bull_ops ::= alter (<[name := v]>) actor |>).
Definition set_smpi_field (name : string) (v : Z) : MM unit :=
  modify (fun s => s <| mw_smpi_ops ::= fmap (<[name := v]>) |>).
Definition assert_found (v : Z) : MM unit := assert (negb (v =? 0)) (Abort "assert").

(** A field of both structures, from a symbol of each library. *)
Definition setup_field (actor : handle) (setup_smpi : bool) (bull_lib smpi_lib : Z)
    (name bull_symbol smpi_symbol : string) : MM unit :=
  let bull := mpi_dlsym bull_lib bull_symbol in
  _ ← set_bull_field actor name bull;
  _ ← assert_found bull;
  when setup_smpi
    (let smpi := mpi_dlsym smpi_lib smpi_symbol in
     _ ← set_smpi_field name smpi;
     assert_found smpi).

Section Setup.
Context (actor : handle) (setup_smpi : bool) (bull_lib smpi_lib : Z).

(** @src/src/mpi_middleware/s4bxi_mpi_middleware.cpp:63-69 SETUP_SYMBOLS_IN_IMPLEMS *)
Definition SETUP_SYMBOLS_IN_IMPLEMS (symbol : string) : MM unit :=
  setup_field actor setup_smpi bull_lib smpi_lib symbol ("PMPI_" ++ symbol) ("PMPI_" ++ symbol).

(** @src/src/mpi_middleware/s4bxi_mpi_middleware.cpp:71-75 SETUP_COMMS_IN_IMPLEMS *)
Definition SETUP_COMMS_IN_IMPLEMS (names : string * string) : MM unit :=
  let '(lowercase, uppercase) := names in
  let bull := mpi_dlsym bull_lib ("ompi_mpi_comm_" ++ lowercase) in
  _ ← set_bull_field actor ("COMM_" ++ uppercase) bull;
  _ ← assert_found bull;
  when setup_smpi (set_smpi_field ("COMM_" ++ uppercase) 0).

(** @src/src/mpi_middleware/s4bxi_mpi_middleware.cpp:77-83 SETUP_DATATYPES_IN_IMPLEMS *)
Definition SETUP_DATATYPES_IN_IMPLEMS (names : string * string) : MM unit :=
  let '(lowercase, uppercase) := names in
  setup_field actor setup_smpi bull_lib smpi_lib ("TYPE_" ++ uppercase)
    ("ompi_mpi_" ++ lowercase) ("smpi_MPI_" ++ uppercase).

(** @src/src/mpi_middleware/s4bxi_mpi_middleware.cpp:85-91 SETUP_OPS_IN_IMPLEMS *)
Definition SETUP_OPS_IN_IMPLEMS (names : string * string) : MM unit :=
  let '(lowercase, uppercase) := names in
  setup_field actor setup_smpi bull_lib smpi_lib ("OP_" ++ uppercase)
    ("ompi_mpi_op_" ++ lowercase) ("smpi_MPI_" ++ uppercase).
End Setup.

(** The structures of the process, and those of SMPI the first time.  This is what the call
    [SetMpiOps] of [UserApp.v] does. *)
(** @src/src/mpi_middleware/s4bxi_mpi_middleware.cpp:1063-1071 set_mpi_middleware_ops *)
Definition make_ops (actor : handle) : MM bool :=
  _ ← on_sim (user actor);
  _ ← modify (fun s => s <| mw_bull_ops ::= <[actor := ∅]> |>);
  smpi ← gets mw_smpi_ops;
  let setup_smpi := match smpi with None => true | Some _ => false end in
  _ ← when setup_smpi (modify (fun s => s <| mw_smpi_ops := Some ∅ |>));
  mret setup_smpi.

(** @src/src/mpi_middleware/s4bxi_mpi_middleware.cpp:1063-1455 set_mpi_middleware_ops *)
Definition set_mpi_middleware_ops (bull_libhandle smpi_libhandle : Z) : MM unit :=
  actor ← current_actor;
  setup_smpi ← make_ops actor;
  _ ← for_each symbols (SETUP_SYMBOLS_IN_IMPLEMS actor setup_smpi bull_libhandle smpi_libhandle);
  _ ← for_each comms (SETUP_COMMS_IN_IMPLEMS actor setup_smpi bull_libhandle);
  _ ← for_each datatypes
        (SETUP_DATATYPES_IN_IMPLEMS actor setup_smpi bull_libhandle smpi_libhandle);
  _ ← for_each operations (SETUP_OPS_IN_IMPLEMS actor setup_smpi bull_libhandle smpi_libhandle);
  let null := mpi_dlsym bull_libhandle "ompi_request_null" in
  _ ← set_bull_field actor "REQUEST_NULL" null;
  assert_found null.

(** ** The functions that macros define *)

(** The value of a parameter. *)
Fixpoint parameter (params : list (string * string)) (actuals : list Z) (x : string) : option Z :=
  match params, actuals with
  | (_, y) :: params', v :: actuals' =>
      if decide (x = y) then Some v else parameter params' actuals' x
  | _, _ => None
  end.

Definition actual (i : instance) (actuals : list Z) (x : string) : MM Z :=
  of_option (parameter (i_params i) actuals x) (Undefined "no such parameter").

(** One argument of the call of the implementation. *)
Definition pass (i : instance) (actuals : list Z) (a : argument) : MM Z :=
  match a with
  | Var x => actual i actuals x
  | Comm x => c ← actual i actuals x; implem_comm c
  | Datatype x => t ← actual i actuals x; implem_datatype t
  | Op x => o ← actual i actuals x; implem_op o
  end.

Definition argsval (i : instance) (actuals : list Z) : MM (list Z) :=
  mapM (pass i actuals) (i_args i).

(** @src/src/mpi_middleware/s4bxi_mpi_middleware.cpp:153-160 S4BXI_MPI_ONE_IMPLEM *)
Definition S4BXI_MPI_ONE_IMPLEM {R} (result : Middleware -> R) (name : string)
    (args : MM (list Z)) (file : string) (line : Z) : MM R :=
  _ ← LOG_CALL name file line;
  main_actor ← current_actor;
  smpi ← use_smpi main_actor;
  ops ← choose_ops smpi main_actor;
  args ← args;
  library result ops name args.

(** @src/src/mpi_middleware/s4bxi_mpi_middleware.cpp:162-180 S4BXI_MPI_ONE_IMPLEM_STORE_REQUEST *)
Definition S4BXI_MPI_ONE_IMPLEM_STORE_REQUEST {R} (result : Middleware -> R) (name : string)
    (args : MM (list Z)) (request : MM Z) (file : string) (line : Z) : MM R :=
  _ ← LOG_CALL name file line;
  main_actor ← current_actor;
  smpi ← use_smpi main_actor;
  ops ← choose_ops smpi main_actor;
  args ← args;
  out ← library result ops name args;
  _ ← not_benched (when smpi (request ← request; r ← load_pointer request; remember_request r));
  mret out.

(** @src/src/mpi_middleware/s4bxi_mpi_middleware.cpp:182-189 S4BXI_MPI_BULL_IMPLEM *)
Definition S4BXI_MPI_BULL_IMPLEM {R} (result : Middleware -> R) (name : string)
    (args : MM (list Z)) (file : string) (line : Z) : MM R :=
  _ ← LOG_CALL name file line;
  main_actor ← current_actor;
  ops ← bull_ops main_actor;
  args ← args;
  library result ops name args.

(** @src/src/mpi_middleware/s4bxi_mpi_middleware.cpp:191-196 S4BXI_MPI_UNSUPPORTED *)
Definition S4BXI_MPI_UNSUPPORTED {R} (name : string) : MM R :=
  fail (Abort ("Unsupported function " ++ name ++ " intercepted in MPI middleware")).

(** The function that a use of a macro defines. *)
Definition generated {R} (result : Middleware -> R) (i : instance) (file : string) (line : Z)
    (actuals : list Z) : MM R :=
  match i_macro i with
  | ONE_IMPLEM => S4BXI_MPI_ONE_IMPLEM result (i_name i) (argsval i actuals) file line
  | ONE_IMPLEM_STORE_REQUEST =>
      S4BXI_MPI_ONE_IMPLEM_STORE_REQUEST result (i_name i) (argsval i actuals)
        (actual i actuals "request") file line
  | BULL_IMPLEM => S4BXI_MPI_BULL_IMPLEM result (i_name i) (argsval i actuals) file line
  | UNSUPPORTED => S4BXI_MPI_UNSUPPORTED (i_name i)
  end.

Definition find_instance (name : string) : option instance :=
  List.find (fun i => bool_decide (i_name i = name)) generated_functions.

(** The generated function of a name; those that return an [int] or a pointer, then those that
    return a [double]. *)
Definition S4BXI_MPI_as {R} (result : Middleware -> R) (name : string) (file : string) (line : Z)
    (actuals : list Z) : MM R :=
  match find_instance name with
  | Some i => generated result i file line actuals
  | None => fail (Undefined "no such function")
  end.
Definition S4BXI_MPI (name : string) := S4BXI_MPI_as mpi_int name.
Definition S4BXI_MPI_Wtime (file : string) (line : Z) : MM double :=
  S4BXI_MPI_as mpi_double "Wtime" file line [].

(** The arrays of datatypes of [Alltoallw] and [Ialltoallw]: the size of the communicator, then
    the two arrays. *)
(** @src/src/mpi_middleware/s4bxi_mpi_middleware.cpp:198-210 S4BXI_MPI_W_COLLECTIVE *)
Definition with_types {A} (file : string) (line comm : Z) (body : Z -> Z -> Z -> MM A) : MM A :=
  with_local 4 (fun psize =>
    _ ← S4BXI_MPI "Comm_size" file line [comm; psize];
    size ← load_int psize;
    _ ← assert (0 <=? size) (Undefined "array of negative size");
    with_local (8 * size) (fun sendtypes_arr =>
      with_local (8 * size) (fun recvtypes_arr => body size sendtypes_arr recvtypes_arr))).

(** @src/src/mpi_middleware/s4bxi_mpi_middleware.cpp:887-892 S4BXI_MPI_Alltoallw, by S4BXI_MPI_W_COLLECTIVE *)
Definition S4BXI_MPI_Alltoallw (file : string) (line : Z)
    (sendbuf sendcnts sdispls sendtypes recvbuf recvcnts rdispls recvtypes comm : Z) : MM Z :=
  _ ← LOG_CALL "Alltoallw" file line;
  main_actor ← current_actor;
  with_types file line comm (fun size sendtypes_arr recvtypes_arr =>
    smpi ← use_smpi main_actor;
    ops ← choose_ops smpi main_actor;
    st ← implem_datatypes sendtypes size sendtypes_arr;
    rt ← implem_datatypes recvtypes size recvtypes_arr;
    c ← implem_comm comm;
    library mpi_int ops "Alltoallw" [sendbuf; sendcnts; sdispls; st; recvbuf; recvcnts; rdispls; rt; c]).

(** @src/src/mpi_middleware/s4bxi_mpi_middleware.cpp:790-819 S4BXI_MPI_Ialltoallw *)
Definition S4BXI_MPI_Ialltoallw (file : string) (line : Z)
    (sendbuf sendcounts senddisps sendtypes recvbuf recvcounts recvdisps recvtypes comm request : Z)
    : MM Z :=
  _ ← LOG_CALL "Ialltoallw" file line;
  main_actor ← current_actor;
  with_types file line comm (fun size sendtypes_arr recvtypes_arr =>
    smpi ← use_smpi main_actor;
    ops ← choose_ops smpi main_actor;
    st ← implem_datatypes sendtypes size sendtypes_arr;
    rt ← implem_datatypes recvtypes size recvtypes_arr;
    c ← implem_comm comm;
    out ← library mpi_int ops "Ialltoallw"
            [sendbuf; sendcounts; senddisps; st; recvbuf; recvcounts; recvdisps; rt; c; request];
    _ ← not_benched (when smpi (r ← load_pointer request; remember_request r));
    mret out).

(** ** Start and end *)

(** @src/src/mpi_middleware/s4bxi_mpi_middleware.cpp:212-224 S4BXI_MPI_Init *)
Definition S4BXI_MPI_Init (file : string) (line argc argv : Z) : MM Z :=
  _ ← LOG_CALL "Init" file line;
  _ ← on_sim (call SmpiBenchEnd);
  main_actor ← current_actor;
  ops ← smpi_ops; smpi ← library mpi_int ops "Init" [argc; argv];
  ops ← bull_ops main_actor; bull ← library mpi_int ops "Init" [argc; argv];
  mret (Z.max bull smpi).

(** @src/src/mpi_middleware/s4bxi_mpi_middleware.cpp:226-240 S4BXI_MPI_Finalize *)
Definition S4BXI_MPI_Finalize (file : string) (line : Z) : MM Z :=
  _ ← LOG_CALL "Finalize" file line;
  _ ← on_sim s4bxi_barrier;
  main_actor ← current_actor;
  ops ← smpi_ops; smpi ← library mpi_int ops "Finalize" [];
  _ ← on_sim (call SmpiBenchBegin);
  ops ← bull_ops main_actor; bull ← library mpi_int ops "Finalize" [];
  mret (Z.max bull smpi).

(** ** Datatypes and communicators of the program: one object for each implementation *)

(** The same function of both implementations, Bull first, on the two handles of a pair. *)
Definition on_both (name : string) (main_actor : handle) (pair : Z) : MM Z :=
  ops ← bull_ops main_actor; bull ← library mpi_int ops name [pair];
  ops ← smpi_ops; smpi ← library mpi_int ops name [pair + 8];
  mret (Z.max bull smpi).

(** The function of both implementations that makes an object, each with where to store it. *)
Definition call_both (name : string) (main_actor : handle) (bull_args smpi_args : list Z)
    (out_bull out_smpi : Z) : MM Z :=
  ops ← bull_ops main_actor; bull ← library mpi_int ops name (bull_args ++ [out_bull]);
  ops ← smpi_ops; smpi ← library mpi_int ops name (smpi_args ++ [out_smpi]);
  mret (Z.max bull smpi).

(** The new pair of two objects. *)
Definition store_pair (out_bull out_smpi result : Z) : MM unit :=
  b ← load_pointer out_bull;
  s ← load_pointer out_smpi;
  pair ← allocate 16;
  _ ← store_pointer pair b;
  _ ← store_pointer (pair + 8) s;
  store_pointer result pair.

Definition make_pair (name : string) (main_actor : handle) (bull_args smpi_args : list Z)
    (result : Z) : MM Z :=
  with_local 8 (fun out_bull => with_local 8 (fun out_smpi =>
    out ← call_both name main_actor bull_args smpi_args out_bull out_smpi;
    _ ← store_pair out_bull out_smpi result;
    mret out)).

(** @src/src/mpi_middleware/s4bxi_mpi_middleware.cpp:271-284 S4BXI_MPI_Type_free *)
Definition S4BXI_MPI_Type_free (file : string) (line datatype : Z) : MM Z :=
  _ ← LOG_CALL "Type_free" file line;
  main_actor ← current_actor;
  s4bxi_type ← load_pointer datatype;
  out ← on_both "Type_free" main_actor s4bxi_type;
  _ ← release s4bxi_type;
  mret out.

(** @src/src/mpi_middleware/s4bxi_mpi_middleware.cpp:294-304 S4BXI_MPI_Type_commit *)
Definition S4BXI_MPI_Type_commit (file : string) (line datatype : Z) : MM Z :=
  _ ← LOG_CALL "Type_commit" file line;
  main_actor ← current_actor;
  s4bxi_type ← load_pointer datatype;
  on_both "Type_commit" main_actor s4bxi_type.

(** @src/src/mpi_middleware/s4bxi_mpi_middleware.cpp:327-343 S4BXI_MPI_Type_contiguous *)
Definition S4BXI_MPI_Type_contiguous (file : string) (line count old_type newtype : Z) : MM Z :=
  _ ← LOG_CALL "Type_contiguous" file line;
  main_actor ← current_actor;
  type_in_bull ← bull_datatype old_type;
  type_in_smpi ← smpi_datatype old_type;
  make_pair "Type_contiguous" main_actor [count; type_in_bull] [count; type_in_smpi] newtype.

(** @src/src/mpi_middleware/s4bxi_mpi_middleware.cpp:403-416 S4BXI_MPI_Comm_free *)
Definition S4BXI_MPI_Comm_free (file : string) (line comm : Z) : MM Z :=
  _ ← LOG_CALL "Comm_free" file line;
  main_actor ← current_actor;
  s4bxi_comm ← load_pointer comm;
  out ← on_both "Comm_free" main_actor s4bxi_comm;
  _ ← release s4bxi_comm;
  mret out.

(** @src/src/mpi_middleware/s4bxi_mpi_middleware.cpp:418-437 S4BXI_MPI_Comm_split *)
Definition S4BXI_MPI_Comm_split (file : string) (line comm color key comm_out : Z) : MM Z :=
  _ ← LOG_CALL "Comm_split" file line;
  main_actor ← current_actor;
  comm_in_bull ← bull_comm comm;
  comm_in_smpi ← smpi_comm comm;
  make_pair "Comm_split" main_actor [comm_in_bull; color; key] [comm_in_smpi; color; key] comm_out.

(** ** Requests *)

(** Which requests of an array belong to SMPI: those that do, zero for the others. *)
Fixpoint backup_requests (requests : Z) (i : Z) (n : nat) : MM (list Z) :=
  match n with
  | O => mret []
  | S n' =>
      r ← load_pointer (requests + 8 * i);
      b ← is_smpi_request r;
      rs ← backup_requests requests (i + 1) n';
      mret ((if (b : bool) then r else 0) :: rs)
  end.
Definition any_request (req_backup : list Z) : bool :=
  existsb (fun r => negb (r =? 0)) req_backup.

(** The array [req_backup] has [count] elements. *)
Definition backup (count requests : Z) : MM (list Z) :=
  _ ← assert (0 <=? count) (Undefined "array of negative size");
  backup_requests requests 0 (Z.to_nat count).

(** @src/src/mpi_middleware/s4bxi_mpi_middleware.cpp:531-555 S4BXI_MPI_Test *)
Definition S4BXI_MPI_Test (file : string) (line request flag status : Z) : MM Z :=
  '(main_actor, smpi, req_backup) ← not_benched
    (_ ← LOG_CALL "Test" file line;
     main_actor ← current_actor;
     r ← load_pointer request;
     smpi ← is_smpi_request r;
     mret (main_actor, smpi, if smpi : bool then r else 0));
  ops ← choose_ops smpi main_actor;
  out ← library mpi_int ops "Test" [request; flag; status];
  _ ← not_benched
    (f ← load_int flag; when (negb (f =? 0) && smpi) (forget_request req_backup));
  mret out.

(** @src/src/mpi_middleware/s4bxi_mpi_middleware.cpp:557-586 S4BXI_MPI_Testany *)
Definition S4BXI_MPI_Testany (file : string) (line count requests index flag status : Z) : MM Z :=
  '(main_actor, req_backup) ← not_benched
    (_ ← LOG_CALL "Testany" file line;
     main_actor ← current_actor;
     req_backup ← backup count requests;
     mret (main_actor, req_backup));
  ops ← choose_ops (any_request req_backup) main_actor;
  out ← library mpi_int ops "Testany" [count; requests; index; flag; status];
  _ ← not_benched
    (f ← load_int flag;
     when (negb (f =? 0))
       (i ← load_int index;
        r ← of_option (if 0 <=? i then req_backup !! Z.to_nat i else None)
              (Undefined "out of bounds");
        when (negb (r =? 0)) (forget_request r)));
  mret out.

(** The requests of SMPI that are null now. *)
Fixpoint forget_completed (requests : Z) (i : Z) (req_backup : list Z) : MM unit :=
  match req_backup with
  | [] => mret tt
  | r :: rs =>
      now ← load_pointer (requests + 8 * i);
      _ ← when ((now =? 0) && negb (r =? 0)) (forget_request r);
      forget_completed requests (i + 1) rs
  end.

(** @src/src/mpi_middleware/s4bxi_mpi_middleware.cpp:588-617 S4BXI_MPI_Testall *)
Definition S4BXI_MPI_Testall (file : string) (line count requests flag statuses : Z) : MM Z :=
  '(main_actor, req_backup) ← not_benched
    (_ ← LOG_CALL "Testall" file line;
     main_actor ← current_actor;
     req_backup ← backup count requests;
     mret (main_actor, req_backup));
  ops ← choose_ops (any_request req_backup) main_actor;
  out ← library mpi_int ops "Testall" [count; requests; flag; statuses];
  _ ← not_benched (forget_completed requests 0 req_backup);
  mret out.

(** @src/src/mpi_middleware/s4bxi_mpi_middleware.cpp:623-640 S4BXI_MPI_Wait *)
Definition S4BXI_MPI_Wait (file : string) (line request status : Z) : MM Z :=
  '(main_actor, smpi) ← not_benched
    (_ ← LOG_CALL "Wait" file line;
     main_actor ← current_actor;
     r ← load_pointer request;
     smpi ← is_smpi_request r;
     _ ← when (smpi && negb (r =? 0)) (forget_request r);
     mret (main_actor, smpi));
  ops ← choose_ops smpi main_actor;
  library mpi_int ops "Wait" [request; status].

(** @src/src/mpi_middleware/s4bxi_mpi_middleware.cpp:642-655 S4BXI_MPI_Waitany *)
Definition S4BXI_MPI_Waitany (file : string) (line count requests index status : Z) : MM Z :=
  '(main_actor, smpi) ← not_benched
    (_ ← LOG_CALL "Waitany" file line;
     main_actor ← current_actor;
     r ← load_pointer requests;
     smpi ← is_smpi_request r;
     mret (main_actor, smpi));
  ops ← choose_ops smpi main_actor;
  library mpi_int ops "Waitany" [count; requests; index; status].

(** The loop of [Waitall]. *)
Fixpoint forget_all (requests : Z) (i : Z) (n : nat) : MM unit :=
  match n with
  | O => mret tt
  | S n' =>
      r ← load_pointer (requests + 8 * i);
      _ ← when (negb (r =? 0)) (forget_request r);
      forget_all requests (i + 1) n'
  end.

(** The test of the first request is made and its result is not used. *)
(** @src/src/mpi_middleware/s4bxi_mpi_middleware.cpp:657-675 S4BXI_MPI_Waitall *)
Definition S4BXI_MPI_Waitall (file : string) (line count requests status : Z) : MM Z :=
  main_actor ← not_benched
    (_ ← LOG_CALL "Waitall" file line;
     main_actor ← current_actor;
     r ← load_pointer requests;
     _ ← is_smpi_request r;
     _ ← forget_all requests 0 (Z.to_nat count);
     mret main_actor);
  smpi ← use_smpi main_actor;
  ops ← choose_ops smpi main_actor;
  library mpi_int ops "Waitall" [count; requests; status].

(** @src/src/mpi_middleware/s4bxi_mpi_middleware.cpp:685-695 S4BXI_MPI_Cancel *)
Definition S4BXI_MPI_Cancel (file : string) (line request : Z) : MM Z :=
  '(main_actor, smpi) ← not_benched
    (_ ← LOG_CALL "Cancel" file line;
     main_actor ← current_actor;
     r ← load_pointer request;
     smpi ← is_smpi_request r;
     mret (main_actor, smpi));
  ops ← choose_ops smpi main_actor;
  library mpi_int ops "Cancel" [request].

End MpiCalls.
