(* ===== verification/MpiSpec.v ===== *)
(** What the MPI middleware promises of its calls: the handles are translated for the
    implementation in use, the generated functions pass their parameters in order, the two
    implementations are set up in full. *)
From S2P Require Import Prelude OMap Portals World Logic Engine Config Atomics Memory Runtime Bench.
From S2P Require Import CUtil MpiTables Mpi MpiCalls.

#[local] Arguments String.append : simpl never.

(** The names of the objects, of the macros of SMPI and of the fields of the structures. *)
Abbreviation MPI_ := (String.append "MPI_").
Abbreviation TYPE_ := (String.append "TYPE_").
Abbreviation MPI_COMM_ := (String.append "MPI_COMM_").
Abbreviation COMM_ := (String.append "COMM_").

(** ** Reading *)

(** The call returns a value and leaves the state alone. *)
Definition reads {S A} (c : M S A) (s : S) (a : A) : Prop := c s = Ok a s.

Lemma reads_bind {S A B} (c : M S A) (f : A -> M S B) s a (r : Res S B) :
  reads c s a -> f a s = r -> (x ← c; f x) s = r.
Proof. intros Hc <-. by apply bind_run. Qed.

Lemma reads_mapM {S A B} (f : A -> M S B) l s bs :
  Forall2 (fun a b => reads (f a) s b) l bs -> reads (mapM f l) s bs.
Proof.
  induction 1 as [|a b l bs Ha _ IH]; [done|]. cbn [mapM].
  eapply reads_bind; [exact Ha|]. by eapply reads_bind; [exact IH|].
Qed.

Section MpiSpec.
Context `{Runtime} `{Mpi}.

(** The process [a], whose fields are [u], has its structure [b] of the Bull library. *)
Record ready (a : handle) (u : BxiUserAppActor) (b : s4bxi_mpi_ops) (s : Middleware) : Prop := {
  rd_actor : a <> NULL;
  rd_ext : sim_ext (mw_sim s) !! rt_pid (mw_sim s) = Some a;
  rd_user : sim_users (mw_sim s) !! a = Some u;
  rd_bull : mw_bull_ops s !! a = Some b }.

Lemma on_sim_reads {A} (c : PM A) s x : reads c (mw_sim s) x -> reads (on_sim c) s x.
Proof. unfold reads, on_sim. intros ->. by destruct s. Qed.

Lemma current_actor_reads a s :
  a <> NULL -> sim_ext (mw_sim s) !! rt_pid (mw_sim s) = Some a -> reads current_actor s a.
Proof.
  intros Ha He. apply on_sim_reads. unfold reads, GET_CURRENT_MAIN_ACTOR.
  unfold get_cached_current_main_actor. cbv [mbind M_bind gets of_option mret M_ret].
  rewrite He. by rewrite decide_False.
Qed.

Section Ready.
Context (a : handle) (u : BxiUserAppActor) (b : s4bxi_mpi_ops) (s : Middleware).
Context (Hr : ready a u b s).

Lemma actor_reads : reads current_actor s a.
Proof. destruct Hr. by apply current_actor_reads. Qed.

Lemma user_reads : reads (on_sim (user a)) s u.
Proof.
  apply on_sim_reads. unfold reads, user. cbv [mbind M_bind gets of_option mret M_ret].
  by rewrite (rd_user _ _ _ _ Hr).
Qed.

Lemma use_smpi_reads : reads (use_smpi a) s (ua_use_smpi_implem u).
Proof. unfold use_smpi. by eapply reads_bind; [apply user_reads|]. Qed.

Lemma bull_ops_reads : reads (bull_ops a) s b.
Proof.
  unfold bull_ops. eapply reads_bind; [apply user_reads|].
  cbv [mbind M_bind gets of_option mret M_ret]. by rewrite (rd_bull _ _ _ _ Hr).
Qed.

Lemma bull_field_reads name :
  reads (ops ← bull_ops a; mret (ops_field ops name)) s (ops_field b name).
Proof. by eapply reads_bind; [apply bull_ops_reads|]. Qed.

(** A handle of either implementation for one predefined object. *)
Definition names_object (constant : string -> string) (field : string -> string) (h : Z)
    (t : string) : bool :=
  (h =? mpi_constant (rt_pid (mw_sim s)) (constant t)) || (h =? ops_field b (field t)).

Lemma is_either_reads h constant ops name :
  reads ops s b ->
  reads (is_either h constant ops name) s
    ((h =? mpi_constant (rt_pid (mw_sim s)) constant) || (h =? ops_field b name)).
Proof.
  intros Ho. unfold is_either. eapply reads_bind; [done|].
  destruct (h =? _); [done|]. by eapply reads_bind; [exact Ho|].
Qed.

Lemma translate_find (p : string -> bool) matches result otherwise names :
  (forall t, reads (matches t) s (p t)) ->
  translate matches result otherwise names s =
  match List.find p names with Some t => result t s | None => otherwise s end.
Proof.
  intros Hm. induction names as [|t names IH]; [done|]. cbn [translate List.find].
  eapply reads_bind; [apply Hm|]. by destruct (p t).
Qed.

(** The handle of a predefined object in the implementation in use. *)
Definition implem_handle (constant field : string -> string) (t : string) : Z :=
  if ua_use_smpi_implem u then mpi_constant (rt_pid (mw_sim s)) (constant t)
  else ops_field b (field t).

Lemma implem_handle_reads (constant field : string -> string) t :
  reads (smpi ← use_smpi a;
         if (smpi : bool) then smpi_constant (constant t)
         else ops ← bull_ops a; mret (ops_field ops (field t))) s
    (implem_handle constant field t).
Proof.
  eapply reads_bind; [apply use_smpi_reads|]. unfold implem_handle.
  destruct (ua_use_smpi_implem u); [done|]. apply bull_field_reads.
Qed.

Lemma implem_of_eq pair :
  implem_of a pair s = load_pointer (if ua_use_smpi_implem u then pair + 8 else pair) s.
Proof.
  unfold implem_of. eapply reads_bind; [apply use_smpi_reads|].
  by destruct (ua_use_smpi_implem u).
Qed.

(** What [implem_datatype] and [implem_comm] do: the first predefined object that has this handle,
    or the object of the program. *)
Lemma implem_datatype_eq h :
  implem_datatype h s =
  match List.find (names_object MPI_ TYPE_ h)
          predefined_datatypes with
  | Some t => Ok (implem_handle MPI_ TYPE_ t) s
  | None => load_pointer (if ua_use_smpi_implem u then h + 8 else h) s
  end.
Proof.
  unfold implem_datatype. eapply reads_bind; [apply actor_reads|].
  rewrite (translate_find (names_object MPI_ TYPE_ h)).
  2:{ intros t. apply is_either_reads, bull_ops_reads. }
  destruct (List.find _ _) as [t|]; [apply implem_handle_reads|apply implem_of_eq].
Qed.

Lemma implem_comm_eq h :
  implem_comm h s =
  match List.find (names_object MPI_COMM_ COMM_ h)
          predefined_comms with
  | Some c => Ok (implem_handle MPI_COMM_ COMM_ c) s
  | None => load_pointer (if ua_use_smpi_implem u then h + 8 else h) s
  end.
Proof.
  unfold implem_comm. eapply reads_bind; [apply actor_reads|].
  rewrite (translate_find (names_object MPI_COMM_ COMM_ h)).
  2:{ intros c. apply is_either_reads, bull_ops_reads. }
  destruct (List.find _ _) as [c|]; [apply implem_handle_reads|apply implem_of_eq].
Qed.
End Ready.

(** ** Predefined datatypes *)

(** [h] is a handle, of SMPI or of Bull, of the datatype [t]. *)
Definition names_datatype (b : s4bxi_mpi_ops) (s : Middleware) (h : Z) (t : string) : Prop :=
  h = mpi_constant (rt_pid (mw_sim s)) (MPI_ t) \/ h = ops_field b (TYPE_ t).

Lemma names_datatype_spec b s h t :
  names_object b s MPI_ TYPE_ h t = true <->
  names_datatype b s h t.
Proof. unfold names_object, names_datatype. rewrite orb_true_iff, !Z.eqb_eq. done. Qed.

(** No handle but the null one is that of two datatypes. *)
Definition unambiguous (b : s4bxi_mpi_ops) (s : Middleware) : Prop :=
  forall h t t', h <> 0 -> In t predefined_datatypes -> In t' predefined_datatypes ->
    names_datatype b s h t -> names_datatype b s h t' -> t = t'.

(** A predefined datatype, given by its handle in either implementation, is passed as its handle in
    the one in use; a datatype of the program, as the half of its pair. *)
Theorem datatype_translated a u b s h :
  ready a u b s -> unambiguous b s -> h <> 0 ->
  (forall t, In t predefined_datatypes -> names_datatype b s h t ->
     reads (implem_datatype h) s
       (if ua_use_smpi_implem u then mpi_constant (rt_pid (mw_sim s)) (MPI_ t)
        else ops_field b (TYPE_ t))) /\
  (forall x y, (forall t, In t predefined_datatypes -> ~ names_datatype b s h t) ->
     reads (load_pointer h) s x -> reads (load_pointer (h + 8)) s y ->
     reads (implem_datatype h) s (if ua_use_smpi_implem u then y else x)).
Proof.
  intros Hr Hu Hz. unfold reads at 1 4. rewrite (implem_datatype_eq a u b s Hr h). split.
  - intros t Ht Hn. destruct (List.find _ _) as [t'|] eqn:Hf.
    + apply List.find_some in Hf as [Ht' Hn'%names_datatype_spec].
      by rewrite (Hu h t t' Hz Ht Ht' Hn Hn').
    + eapply List.find_none in Hf; [|exact Ht]. apply names_datatype_spec in Hn. congruence.
  - intros x y Hn Hx Hy. destruct (List.find _ _) as [t|] eqn:Hf.
    + apply List.find_some in Hf as [Ht Hn'%names_datatype_spec]. by destruct (Hn t Ht).
    + by destruct (ua_use_smpi_implem u).
Qed.

(** ** The generated functions *)

(** How a parameter of a C type is passed. *)
Definition passing (ty x : string) : argument :=
  if decide (ty = "MPI_Comm") then Comm x
  else if decide (ty = "MPI_Datatype") then Datatype x
  else if decide (ty = "MPI_Op") then Op x else Var x.

(** Each supported function is given all its parameters, once and in order. *)
Definition well_passed (i : instance) : bool :=
  bool_decide (i_args i = map (fun p => passing p.1 p.2) (i_params i)) &&
  bool_decide (NoDup (map snd (i_params i))).

Lemma supported_well_passed i :
  In i generated_functions -> i_macro i <> UNSUPPORTED -> well_passed i = true.
Proof.
  intros Hi Hm.
  assert (forallb (fun i => bool_decide (i_macro i = UNSUPPORTED) || well_passed i)
            generated_functions = true) as Hall by by vm_compute.
  rewrite forallb_forall in Hall. specialize (Hall i Hi).
  by rewrite bool_decide_eq_false_2 in Hall.
Qed.

Lemma parameter_lookup params actuals k ty x v :
  NoDup (map snd params) -> params !! k = Some (ty, x) -> actuals !! k = Some v ->
  parameter params actuals x = Some v.
Proof.
  revert params actuals.
  induction k as [|k IH]; intros [|[ty' y] params] [|v' actuals]; try done; cbn.
  - intros _ [= -> ->] [= ->]. by rewrite decide_True.
  - intros [Hy Hd]%NoDup_cons Hp Ha. rewrite decide_False; [by apply IH|].
    intros ->. apply Hy, list_elem_of_fmap. exists (ty, y). split; [done|].
    by eapply list_elem_of_lookup_2.
Qed.

(** The value that the implementation is given for a parameter of type [ty] and value [v]. *)
Definition passed (s : Middleware) (ty : string) (v v' : Z) : Prop :=
  reads (if decide (ty = "MPI_Comm") then implem_comm v
         else if decide (ty = "MPI_Datatype") then implem_datatype v
         else if decide (ty = "MPI_Op") then implem_op v else mret v) s v'.

Lemma argsval_reads i actuals args s :
  well_passed i = true -> length actuals = length (i_params i) ->
  Forall2 (fun p v' => passed s p.1.1 p.2 v') (zip (i_params i) actuals) args ->
  reads (argsval i actuals) s args.
Proof.
  intros [Hargs%bool_decide_eq_true Hd%bool_decide_eq_true]%andb_true_iff Hl Hf.
  apply reads_mapM. rewrite Hargs. apply Forall2_same_length_lookup. split.
  { apply Forall2_length in Hf. rewrite length_zip_with_l_eq in Hf by done.
    by rewrite length_map. }
  intros k arg v' Harg Hv'. apply list_lookup_fmap_Some in Harg as ([ty x] & -> & Hp).
  destruct (lookup_lt_is_Some_2 actuals k) as [v Hv].
  { apply lookup_lt_Some in Hp. congruence. }
  eapply Forall2_lookup_lr in Hf; [|by apply lookup_zip_with_Some; eauto|exact Hv'].
  assert (forall s', actual i actuals x s' = Ok v s') as Ha.
  { intros s'. unfold actual. by erewrite parameter_lookup by done. }
  unfold passed in Hf. cbn in Hf. unfold passing. cbn [fst snd].
  repeat case_decide; cbn [pass]; try (by eapply reads_bind; [apply Ha|]).
  unfold reads, mret, M_ret in Hf. injection Hf as ->. apply Ha.
Qed.

(** The implementation that a generated function calls. *)
Definition target (i : instance) (u : BxiUserAppActor) (b o : s4bxi_mpi_ops) : s4bxi_mpi_ops :=
  if decide (i_macro i = BULL_IMPLEM) then b else if ua_use_smpi_implem u then o else b.


(** ** The interface *)

(** A prototype has its definition: one the macros generate, with the same types, or one that is
    written out. *)
Definition has_definition (p : prototype) : bool :=
  match find_instance (p_name p) with
  | Some i => bool_decide (i_rtype i = p_rtype p) && bool_decide (i_params i = p_params p)
  | None => bool_decide (p_name p ∈ special_functions)
  end.

(** Every MPI function that the header declares is defined once, with the same types; the programs
    are redirected to it; the structure has a field for it, that is looked up in the libraries. *)
Theorem interface_complete :
  NoDup (map p_name prototypes) /\
  (forall p, In p prototypes -> has_definition p = true) /\
  length prototypes = (length generated_functions + length special_functions)%nat /\
  redirections = map (fun p => (p_name p, p_name p)) prototypes /\
  ops_fields = map p_name prototypes ++ ops_constants /\
  symbols = map p_name prototypes.
Proof.
  split; [by apply (bool_decide_eq_true_1 _); vm_compute|]. split.
  { assert (forallb has_definition prototypes = true) as Hall by by vm_compute.
    by rewrite forallb_forall in Hall. }
  split_and!; by vm_compute.
Qed.

End MpiSpec.
