(* ===== verification/MpiSetup.v ===== *)
(** The set-up of the two implementations of MPI: which fields it fills, and from which symbols. *)
From S2P Require Import Prelude OMap Portals World Logic Engine Config Runtime MpiTables Mpi MpiCalls.
From S2P Require Import MpiSpec.

(** ** What is looked up *)

(** The fields of the structure of a process, with their symbols in the Bull library. *)
Definition bull_fields : list (string * string) :=
  map (fun x => (x, "PMPI_" ++ x)%string) symbols
  ++ map (fun p => (COMM_ p.2, "ompi_mpi_comm_" ++ p.1)%string) comms
  ++ map (fun p => (TYPE_ p.2, "ompi_mpi_" ++ p.1)%string) datatypes
  ++ map (fun p => ("OP_" ++ p.2, "ompi_mpi_op_" ++ p.1)%string) operations
  ++ [("REQUEST_NULL", "ompi_request_null")].

(** The fields of the structure of SMPI, with their symbols; the communicators are null. *)
Definition smpi_fields : list (string * string) :=
  map (fun x => (x, "PMPI_" ++ x)%string) symbols
  ++ map (fun p => (TYPE_ p.2, "smpi_MPI_" ++ p.2)%string) datatypes
  ++ map (fun p => ("OP_" ++ p.2, "smpi_MPI_" ++ p.2)%string) operations.

(** A field has one symbol. *)
Definition one_symbol (l : list (string * string)) : Prop :=
  forall f sym sym', In (f, sym) l -> In (f, sym') l -> sym = sym'.

Lemma one_symbol_check l :
  forallb (fun x => forallb (fun y =>
    negb (bool_decide (x.1 = y.1)) || bool_decide (x.2 = y.2)) l) l = true -> one_symbol l.
Proof.
  intros Hl f sym sym' H1 H2. rewrite forallb_forall in Hl. specialize (Hl _ H1).
  rewrite forallb_forall in Hl. specialize (Hl _ H2). cbn in Hl.
  apply orb_true_iff in Hl as [Hl|Hl]; [|by apply bool_decide_eq_true in Hl].
  by apply negb_true_iff, bool_decide_eq_false in Hl.
Qed.

Lemma bull_fields_one_symbol : one_symbol bull_fields.
Proof. apply one_symbol_check. by vm_compute. Qed.
Lemma smpi_fields_one_symbol : one_symbol smpi_fields.
Proof. apply one_symbol_check. by vm_compute. Qed.

(** ** Filling a structure *)

Definition fill (m : s4bxi_mpi_ops) (l : list (string * Z)) : s4bxi_mpi_ops :=
  foldl (fun m '(f, v) => <[f := v]> m) m l.

Lemma fill_app m l l' : fill m (l ++ l')%list = fill (fill m l) l'.
Proof. apply foldl_app. Qed.

Lemma fill_other m l f : ~ In f (map fst l) -> fill m l !! f = m !! f.
Proof.
  revert m. induction l as [|[g v] l IH]; intros m; [done|]. cbn. intros Hf.
  rewrite IH by tauto. apply lookup_insert_ne. tauto.
Qed.

Lemma fill_lookup m l f v :
  In (f, v) l -> (forall v', In (f, v') l -> v' = v) -> fill m l !! f = Some v.
Proof.
  revert m. induction l as [|[g w] l IH]; intros m; [done|]. cbn. intros Hin Hu.
  destruct (in_dec String.string_dec f (map fst l)) as [Hl|Hl].
  - apply in_map_iff in Hl as ([f' v'] & Heq & Hl). cbn in Heq. subst f'.
    assert (v' = v) as -> by eauto. apply IH; eauto.
  - rewrite fill_other by done. destruct Hin as [[= -> ->]|Hin].
    + apply lookup_insert_eq.
    + destruct Hl. apply in_map_iff. by exists (f, v).
Qed.

Section MpiSetup.
Context `{Runtime} `{Mpi} (a : handle) (setup_smpi : bool) (bull_lib smpi_lib : Z).

(** The values of a list of fields. *)
Definition looked_up (lib : Z) (l : list (string * string)) : list (string * Z) :=
  map (fun '(f, sym) => (f, mpi_dlsym lib sym)) l.
Definition found (lib : Z) (l : list (string * string)) : bool :=
  forallb (fun '(f, sym) => negb (mpi_dlsym lib sym =? 0)) l.

(** The state once the fields [l] of the process, and [l'] of SMPI, are filled. *)
Definition filled (l l' : list (string * Z)) (s : Middleware) : Middleware :=
  s <| mw_bull_ops ::= alter (fun m => fill m l) a |>
    <| mw_smpi_ops ::= fun o => if setup_smpi then (fun m => fill m l') <$> o else o |>.

Lemma filled_nil s : filled [] [] s = s.
Proof.
  destruct s as [m o bs rs bl cs]. unfold filled, over. cbn. f_equal.
  - by destruct setup_smpi, o.
  - apply map_eq. intros i. destruct (decide (i = a)) as [->|Hi].
    + rewrite lookup_alter_eq. by destruct (bs !! a).
    + by rewrite lookup_alter_ne.
Qed.

Lemma filled_filled l1 l1' l2 l2' s :
  filled l2 l2' (filled l1 l1' s) = filled (l1 ++ l2) (l1' ++ l2') s.
Proof.
  destruct s as [m o bs rs bl cs]. unfold filled, over. cbn. f_equal.
  - destruct setup_smpi, o; cbn; by rewrite ?fill_app.
  - apply map_eq. intros i. destruct (decide (i = a)) as [->|Hi].
    + rewrite !lookup_alter_eq. destruct (bs !! a); cbn; by rewrite ?fill_app.
    + by rewrite !lookup_alter_ne.
Qed.

(** A step of the set-up fills the fields [l] of the process and the fields [v'] of SMPI, or aborts
    when one of the symbols, of [l] or [l'], is missing. *)
Definition sets_up (c : MM unit) (l l' : list (string * string)) (v' : list (string * Z)) : Prop :=
  forall s, c s =
    if found bull_lib l && (negb setup_smpi || found smpi_lib l')
    then Ok tt (filled (looked_up bull_lib l) v' s) else Fail (Abort "assert").

Lemma sets_up_nil : sets_up (mret tt) [] [] [].
Proof. intros s. cbn. rewrite orb_true_r. by rewrite filled_nil. Qed.

Lemma sets_up_bind c1 c2 l1 l1' v1 l2 l2' v2 :
  sets_up c1 l1 l1' v1 -> sets_up c2 l2 l2' v2 ->
  sets_up (_ ← c1; c2) (l1 ++ l2) (l1' ++ l2') (v1 ++ v2).
Proof.
  intros H1 H2 s. unfold mbind, M_bind. rewrite H1. unfold found. rewrite !forallb_app.
  destruct (forallb _ l1); [|done]. cbn [andb].
  destruct (negb setup_smpi || forallb _ l1') eqn:E1.
  - rewrite H2. unfold looked_up. rewrite map_app, filled_filled.
    destruct (negb setup_smpi); [done|]. cbn [orb] in E1. by rewrite E1.
  - apply orb_false_iff in E1 as [-> ->]. cbn. by rewrite andb_false_r.
Qed.

Lemma setup_field_sets_up name bull_symbol smpi_symbol :
  sets_up (setup_field a setup_smpi bull_lib smpi_lib name bull_symbol smpi_symbol)
    [(name, bull_symbol)] [(name, smpi_symbol)] (looked_up smpi_lib [(name, smpi_symbol)]).
Proof.
  intros []. unfold setup_field, set_bull_field, set_smpi_field, assert_found, filled, over. cbn.
  cbv [mbind M_bind modify assert mret M_ret fail when].
  destruct (mpi_dlsym bull_lib bull_symbol =? 0); [done|].
  destruct setup_smpi; cbn; [|done].
  by destruct (mpi_dlsym smpi_lib smpi_symbol =? 0).
Qed.

Lemma comm_sets_up p :
  sets_up (SETUP_COMMS_IN_IMPLEMS a setup_smpi bull_lib p)
    [(COMM_ p.2, "ompi_mpi_comm_" ++ p.1)%string] [] [(COMM_ p.2, 0)].
Proof.
  destruct p as [lower upper].
  intros []. unfold SETUP_COMMS_IN_IMPLEMS, set_bull_field, set_smpi_field, assert_found, filled.
  unfold over. cbn. cbv [mbind M_bind modify assert mret M_ret fail when].
  destruct (mpi_dlsym bull_lib _ =? 0); [done|]. by destruct setup_smpi.
Qed.

Lemma request_null_sets_up :
  sets_up (_ ← set_bull_field a "REQUEST_NULL" (mpi_dlsym bull_lib "ompi_request_null");
           assert_found (mpi_dlsym bull_lib "ompi_request_null"))
    [("REQUEST_NULL", "ompi_request_null")] [] [].
Proof.
  intros []. unfold set_bull_field, assert_found, filled, over. cbn.
  cbv [mbind M_bind modify assert mret M_ret fail].
  destruct (mpi_dlsym bull_lib _ =? 0); [done|]. cbn. rewrite orb_true_r.
  destruct setup_smpi; [|done]. by destruct mw_smpi_ops.
Qed.

(** What the set-up writes in the structure of SMPI. *)
Definition smpi_values : list (string * Z) :=
  looked_up smpi_lib (map (fun x => (x, "PMPI_" ++ x)%string) symbols)
  ++ map (fun p => (COMM_ p.2, 0)) comms
  ++ looked_up smpi_lib (map (fun p => (TYPE_ p.2, "smpi_MPI_" ++ p.2)%string) datatypes)
  ++ looked_up smpi_lib (map (fun p => ("OP_" ++ p.2, "smpi_MPI_" ++ p.2)%string) operations).

Lemma fields_set_up {A} (f : A -> MM unit) (g g' : A -> string * string) xs :
  (forall x, sets_up (f x) [g x] [g' x] (looked_up smpi_lib [g' x])) ->
  sets_up (for_each xs f) (map g xs) (map g' xs) (looked_up smpi_lib (map g' xs)).
Proof.
  intros Hf. induction xs as [|x xs IH]; [apply sets_up_nil|].
  exact (sets_up_bind _ _ _ _ _ _ _ _ (Hf x) IH).
Qed.

Lemma comms_set_up xs :
  sets_up (for_each xs (SETUP_COMMS_IN_IMPLEMS a setup_smpi bull_lib))
    (map (fun p => (COMM_ p.2, "ompi_mpi_comm_" ++ p.1)%string) xs) []
    (map (fun p => (COMM_ p.2, 0)) xs).
Proof.
  induction xs as [|x xs IH]; [apply sets_up_nil|].
  exact (sets_up_bind _ _ _ _ _ _ _ _ (comm_sets_up x) IH).
Qed.

Lemma all_fields_set_up :
  sets_up
    (_ ← for_each symbols (SETUP_SYMBOLS_IN_IMPLEMS a setup_smpi bull_lib smpi_lib);
     _ ← for_each comms (SETUP_COMMS_IN_IMPLEMS a setup_smpi bull_lib);
     _ ← for_each datatypes (SETUP_DATATYPES_IN_IMPLEMS a setup_smpi bull_lib smpi_lib);
     _ ← for_each operations (SETUP_OPS_IN_IMPLEMS a setup_smpi bull_lib smpi_lib);
     _ ← set_bull_field a "REQUEST_NULL" (mpi_dlsym bull_lib "ompi_request_null");
     assert_found (mpi_dlsym bull_lib "ompi_request_null"))
    bull_fields smpi_fields smpi_values.
Proof.
  assert (sets_up (mret tt) [] [] []) as Hnil by apply sets_up_nil.
  replace smpi_fields with (map (fun x => (x, "PMPI_" ++ x)%string) symbols ++ [] ++
    map (fun p => (TYPE_ p.2, "smpi_MPI_" ++ p.2)%string) datatypes ++
    map (fun p => ("OP_" ++ p.2, "smpi_MPI_" ++ p.2)%string) operations ++ [])
    by by rewrite app_nil_r.
  replace smpi_values with (smpi_values ++ []) by apply app_nil_r.
  unfold smpi_values. rewrite <- !app_assoc.
  apply sets_up_bind. { apply fields_set_up. intros x. apply setup_field_sets_up. }
  apply sets_up_bind; [apply comms_set_up|].
  apply sets_up_bind. { apply fields_set_up. intros []. apply setup_field_sets_up. }
  apply sets_up_bind. { apply fields_set_up. intros []. apply setup_field_sets_up. }
  apply request_null_sets_up.
Qed.

End MpiSetup.

Section Complete.
Context `{Runtime} `{Mpi}.

Lemma found_in lib l f sym :
  found lib l = true -> In (f, sym) l -> mpi_dlsym lib sym <> 0.
Proof.
  unfold found. rewrite forallb_forall. intros Hl Hin E. specialize (Hl _ Hin). cbn in Hl.
  by rewrite E in Hl.
Qed.

Lemma in_looked_up lib l f v :
  In (f, v) (looked_up lib l) -> exists sym, In (f, sym) l /\ v = mpi_dlsym lib sym.
Proof. intros ([f' sym] & [= -> <-] & Hin)%in_map_iff. eauto. Qed.

Lemma looked_up_field lib l f sym m :
  one_symbol l -> In (f, sym) l ->
  ops_field (fill m (looked_up lib l)) f = mpi_dlsym lib sym.
Proof.
  intros Ho Hin. unfold ops_field. erewrite fill_lookup; [done| |].
  - apply in_map_iff. by exists (f, sym).
  - intros v' (sym' & Hin' & ->)%in_looked_up. by rewrite (Ho f sym' sym).
Qed.

(** The communicators have names of their own. *)
Lemma comm_not_smpi_field f sym : In (f, sym) smpi_fields -> ~ In (f, 0) (map (fun p => (COMM_ p.2, 0)) comms).
Proof.
  assert (forallb (fun x => negb (bool_decide (x.1 ∈ map (fun p => COMM_ p.2) comms)))
            smpi_fields = true) as Hall by by vm_compute.
  rewrite forallb_forall in Hall. intros Hin. specialize (Hall _ Hin). cbn [fst] in Hall.
  apply negb_true_iff, bool_decide_eq_false in Hall. intros Hc. apply Hall.
  apply in_map_iff in Hc as (p & [= <-] & Hp). apply list_elem_of_In, in_map_iff. by exists p.
Qed.

Lemma in_smpi_values lib f v :
  In (f, v) (smpi_values lib) ->
  (exists sym, In (f, sym) smpi_fields /\ v = mpi_dlsym lib sym) \/
  In (f, v) (map (fun p => (COMM_ p.2, 0)) comms).
Proof.
  unfold smpi_values, smpi_fields. rewrite !in_app_iff.
  intros [(sym & Hi & ->)%in_looked_up|[Hc|[(sym & Hi & ->)%in_looked_up|(sym & Hi & ->)%in_looked_up]]];
    [left|by right|left|left]; exists sym; rewrite !in_app_iff; auto.
Qed.

Lemma smpi_values_in lib f sym :
  In (f, sym) smpi_fields -> In (f, mpi_dlsym lib sym) (smpi_values lib).
Proof.
  assert (forall l, In (f, sym) l -> In (f, mpi_dlsym lib sym) (looked_up lib l)) as Hl.
  { intros l Hin. apply in_map_iff. by exists (f, sym). }
  unfold smpi_values, smpi_fields. rewrite !in_app_iff. intros [?|[?|?]]; auto.
Qed.

Lemma smpi_field lib f sym m :
  In (f, sym) smpi_fields -> ops_field (fill m (smpi_values lib)) f = mpi_dlsym lib sym.
Proof.
  intros Hin. unfold ops_field. erewrite fill_lookup; [done|by apply smpi_values_in|].
  intros v' [(sym' & Hin' & ->)|Hc]%in_smpi_values.
  - by rewrite (smpi_fields_one_symbol f sym' sym).
  - destruct (comm_not_smpi_field _ _ Hin). apply in_map_iff in Hc as (p & [= <- <-] & Hp).
    apply in_map_iff. by exists p.
Qed.

End Complete.
