(* ===== verification/MpiRequests.v ===== *)
(** The requests of the MPI middleware: a process switches between the two implementations while
    requests of both are pending, and each is completed by the implementation that made it. *)
From S2P Require Import Prelude OMap Portals World Logic Engine Config Atomics Memory Runtime Bench.
From S2P Require Import CUtil MpiTables Mpi MpiCalls MpiSpec.

Section MpiRequests.
Context `{Runtime} `{Mpi} (pid : Z).

(** One process runs: what it asks of the simulator takes time, what it asks of the MPI libraries
    takes time and writes memory.  The middleware is built, and does not log its calls. *)
Context (pid_known : forall m, rt_pid m = pid).
Context (calm : forall c m, exists t,
           rt_step c m = m <| sim_world ::= fun w => w <| w_clock := t |> |>).
Context (calm_mpi : forall c s, exists f t,
           mpi_step c s = s <| mw_sim ::= fun m => m <| sim_world ::= fun w =>
             w <| w_mem ::= f |> <| w_clock := t |> |> |>).
Context (middleware_built : rt_mpi_build = true) (no_log : mpi_log_calls = false).

(** ** What the simulator leaves alone *)

Definition memory (s : Middleware) : gmap Z Z := w_mem (sim_world (mw_sim s)).

(** The processes are the same, and the actor of this one once it is known. *)
Record same_actors (m m' : Sim) : Prop := {
  sa_users : sim_users m' = sim_users m;
  sa_ext : forall a, a <> NULL -> sim_ext m !! pid = Some a -> sim_ext m' !! pid = Some a }.

#[export] Instance same_actors_preorder : PreOrder same_actors.
Proof.
  split; [by split|]. intros m1 m2 m3 [] []. split; [congruence|auto].
Qed.

(** A call of the simulator that returns keeps the memory and the actors. *)
Definition stays {A} (c : PM A) : Prop :=
  forall m x m', c m = Ok x m' ->
    same_actors m m' /\ w_mem (sim_world m') = w_mem (sim_world m).

Lemma stays_bind {A B} (c : PM A) (f : A -> PM B) :
  stays c -> (forall x, stays (f x)) -> stays (x ← c; f x).
Proof.
  intros Hc Hf m y m2 (x & m1 & [H1 M1]%Hc & [H2 M2]%Hf)%bind_Ok.
  split; [by etrans|congruence].
Qed.
Lemma stays_gets {A} (g : Sim -> A) : stays (gets g).
Proof. by intros m x m' [-> ->]%gets_Ok. Qed.
Lemma stays_ret {A} (x : A) : stays (mret x).
Proof. by intros m y m' [-> ->]%mret_Ok. Qed.
Lemma stays_fail {A} e : stays (fail e : PM A).
Proof. by intros m x m' ?. Qed.
Lemma stays_when (b : bool) c : stays c -> stays (when b c).
Proof. destruct b; [done|intros _; apply stays_ret]. Qed.
Lemma stays_of_option {A} (o : option A) e : stays (of_option o e).
Proof. by intros m x m' [-> ->]%of_option_Ok. Qed.
Lemma stays_call c : stays (call c).
Proof.
  intros m x m' [= <- <-]. destruct (calm c (m <| sim_calls ::= cons c |>)) as [t ->].
  by split; [split|].
Qed.
Lemma stays_config {A} (g : s4bxi_config -> A) : stays (config_field g).
Proof. intros m x m' [= <- <-]. by split; [split|]. Qed.
Lemma stays_log l : stays (on_world (BxiEngine_log l)).
Proof.
  intros m x m'. unfold on_world, BxiEngine_log, log_write, S4BXI_GLOBAL_CONFIG.
  cbv [mbind M_bind gets modify when mret M_ret].
  destruct (w_logCount _ =? 0); [|destruct (_ mod _ =? 0)];
    (intros [= <- <-]; by split; [split|]).
Qed.
Lemma stays_set_log g : stays (modify (fun m => m <| sim_bxi_log ::= g |>)).
Proof. intros m x m' [= <- <-]. by split; [split|]. Qed.
Lemma stays_user a : stays (user a).
Proof. apply stays_bind; [apply stays_gets|intros; apply stays_of_option]. Qed.
Lemma stays_load {T} `{Store T} h : stays (on_world (load (T := T) h)).
Proof.
  intros m x m'. unfold on_world, load. case_match; [|done]. case_match; [|done].
  intros [= <- <-]. simplify_eq. by destruct m.
Qed.

Lemma stays_current : stays GET_CURRENT_MAIN_ACTOR.
Proof.
  intros m x m'. unfold GET_CURRENT_MAIN_ACTOR, get_cached_current_main_actor.
  intros He. inv_run. rewrite pid_known in *. case_decide; [|by inv_run].
  subst. inv_run. unfold get_current_main_actor, get_main_actor in *. inv_run.
  case_decide; inv_run. split; [split; [done|]|done]. intros a Ha Ha'. congruence.
Qed.

Ltac stays := repeat lazymatch goal with
  | |- stays (mbind _ _) => simple apply stays_bind; [|intros ?]
  | |- stays (gets _) => simple apply stays_gets
  | |- stays (mret _) => simple apply stays_ret
  | |- stays (fail _) => simple apply stays_fail
  | |- stays (when _ _) => simple apply stays_when
  | |- stays (of_option _ _) => simple apply stays_of_option
  | |- stays (call _) => simple apply stays_call
  | |- stays (config_field _) => simple apply stays_config
  | |- stays (on_world (BxiEngine_log _)) => simple apply stays_log
  | |- stays (on_world (load _)) => simple apply stays_load
  | |- stays (modify _) => simple apply stays_set_log
  | |- stays (user _) => simple apply stays_user
  | |- stays GET_CURRENT_MAIN_ACTOR => simple apply stays_current
  | |- stays (if ?b then _ else _) => destruct b
  end.

Lemma stays_bench_end : stays s4bxi_bench_end.
Proof.
  unfold s4bxi_bench_end. rewrite middleware_built.
  unfold s4bxi_bench_end_smpi, must_log_computation, get_clock. stays.
Qed.
Lemma stays_bench_begin : stays s4bxi_bench_begin.
Proof.
  unfold s4bxi_bench_begin. rewrite middleware_built.
  unfold s4bxi_bench_begin_smpi, must_log_computation, get_clock, getNid. stays.
Qed.

(** ** What the middleware leaves alone *)

(** The same process with the same structures. *)
Record same_process (s s' : Middleware) : Prop := {
  sp_actors : same_actors (mw_sim s) (mw_sim s');
  sp_smpi : mw_smpi_ops s' = mw_smpi_ops s;
  sp_bull : mw_bull_ops s' = mw_bull_ops s }.

#[export] Instance same_process_preorder : PreOrder same_process.
Proof.
  split; [by split|]. intros s1 s2 s3 [] []. split; [by etrans|congruence..].
Qed.

Lemma ready_same a u b s s' : ready a u b s -> same_process s s' -> ready a u b s'.
Proof.
  intros [Ha He Hu Hb] [[Hsu Hse] Hs Hsb]. rewrite pid_known in He. split; [done|..].
  - rewrite pid_known. auto.
  - by rewrite Hsu.
  - by rewrite Hsb.
Qed.

(** Nothing that the middleware looks at changes, but the set of requests, which is [keep] then. *)
Record moved (keep : gset Z) (s s' : Middleware) : Prop := {
  mo_process : same_process s s';
  mo_memory : memory s' = memory s;
  mo_requests : mw_requests s' = keep;
  mo_calls : mw_calls s' = mw_calls s }.

Abbreviation undisturbed s s' := (moved (mw_requests s) s s').

Lemma moved_trans k1 k2 s1 s2 s3 : moved k1 s1 s2 -> moved k2 s2 s3 -> moved k2 s1 s3.
Proof. intros [] []. split; [by etrans|congruence..]. Qed.

Lemma moved_after k s1 s2 s3 : moved k s1 s2 -> undisturbed s2 s3 -> moved k s1 s3.
Proof. intros [] []. split; [by etrans|congruence..]. Qed.

Lemma on_sim_undisturbed {A} (c : PM A) s x s' :
  stays c -> on_sim c s = Ok x s' -> undisturbed s s'.
Proof.
  intros Hc. unfold on_sim. destruct (c (mw_sim s)) as [y m|] eqn:E; [|done].
  intros [= -> <-]. apply Hc in E as [? ?]. by split; [split|..].
Qed.

Lemma not_benched_inv {A} (body : MM A) s x s' :
  not_benched body s = Ok x s' ->
  exists s1 s2, undisturbed s s1 /\ body s1 = Ok x s2 /\ undisturbed s2 s'.
Proof.
  unfold not_benched. intros (? & s1 & H1 & (y & s2 & H2 & (? & s3 & H3 & H4)%bind_Ok)%bind_Ok)%bind_Ok.
  apply mret_Ok in H4 as [-> ->]. exists s1, s2.
  split_and!; [|done|].
  - by eapply on_sim_undisturbed; [apply stays_bench_end|].
  - by eapply on_sim_undisturbed; [apply stays_bench_begin|].
Qed.

(** ** Memory *)

Lemma load_pointer_at a s :
  load_pointer a s = match bytes_at (memory s) a 8 with
                     | Some bs => Ok (Z_of_bytes bs) s
                     | None => Fail (Undefined "unmapped memory") end.
Proof.
  unfold load_pointer, on_memory, on_sim, on_world, memory.
  cbv [mbind M_bind mret M_ret]. rewrite load_bytes_at.
  destruct (bytes_at _ _ _); [|done]. by destruct s as [[] ? ? ? ? ?].
Qed.

(** What a pointer points to. *)
Definition points_to (s : Middleware) (a v : Z) : Prop :=
  exists bs, bytes_at (memory s) a 8 = Some bs /\ v = Z_of_bytes bs.

Lemma load_pointer_inv a s v s' :
  load_pointer a s = Ok v s' -> s' = s /\ points_to s a v.
Proof.
  rewrite load_pointer_at. destruct (bytes_at _ _ _) eqn:E; [|done].
  intros [= <- <-]. unfold points_to. eauto.
Qed.

Lemma points_to_eq s s' a v : memory s' = memory s -> points_to s a v <-> points_to s' a v.
Proof. unfold points_to. by intros ->. Qed.
Lemma points_to_fun s a v v' : points_to s a v -> points_to s a v' -> v = v'.
Proof. intros (bs & E & ->) (bs' & E' & ->). congruence. Qed.

Definition int_at (s : Middleware) (a v : Z) : Prop :=
  exists bs, bytes_at (memory s) a 4 = Some bs /\ v = sint_of bs.

Lemma int_at_eq s s' a v : memory s' = memory s -> int_at s a v <-> int_at s' a v.
Proof. unfold int_at. by intros ->. Qed.

Lemma load_int_inv a s v s' : load_int a s = Ok v s' -> s' = s /\ int_at s a v.
Proof.
  unfold load_int, on_memory, on_sim, on_world, int_at, memory.
  cbv [mbind M_bind mret M_ret]. rewrite load_bytes_at.
  destruct (bytes_at _ _ _) eqn:E; [|done]. intros [= <- <-].
  split; [by destruct s as [[] ? ? ? ? ?]|eauto].
Qed.

(** ** The calls *)

(** A call of a library was made, with this result in memory. *)
Record called (c : mpi_call) (s s' : Middleware) : Prop := {
  ca_process : same_process s s';
  ca_requests : mw_requests s' = mw_requests s;
  ca_calls : mw_calls s' = c :: mw_calls s }.

Lemma library_inv {R} (result : Middleware -> R) ops name args s x s' :
  library result ops name args s = Ok x s' -> called (mk_mpi_call (ops_field ops name) args) s s'.
Proof.
  unfold library. case_match; [done|]. intros [= _ <-].
  destruct (calm_mpi (mk_mpi_call (ops_field ops name) args)
              (s <| mw_calls ::= cons (mk_mpi_call (ops_field ops name) args) |>)) as (f & t & ->).
  by split; [split; [split|..]|..].
Qed.

Section Process.
Context (a : handle) (u : BxiUserAppActor) (b : s4bxi_mpi_ops).

(** Whether a handle is one of SMPI, for the middleware. *)
Definition smpi_request (s : Middleware) (r : Z) : bool :=
  (r =? 0) || (negb (r =? ops_field b "REQUEST_NULL") && bool_decide (r ∈ mw_requests s)).

Lemma is_smpi_request_reads s r :
  ready a u b s -> reads (is_smpi_request r) s (smpi_request s r).
Proof.
  intros Hr. unfold is_smpi_request, smpi_request. destruct (r =? 0); [done|].
  eapply reads_bind; [by eapply actor_reads|]. eapply reads_bind; [by eapply bull_ops_reads|].
  by destruct (r =? _).
Qed.

Lemma reads_inv {S A} (c : M S A) s x y s' : reads c s x -> c s = Ok y s' -> y = x /\ s' = s.
Proof. unfold reads. intros ->. by intros [= -> ->]. Qed.

(** The structure that is chosen. *)
Definition chosen (smpi : bool) (s : Middleware) (ops : s4bxi_mpi_ops) : Prop :=
  if smpi then mw_smpi_ops s = Some ops else ops = b.

Lemma choose_ops_inv smpi s ops s' :
  ready a u b s -> choose_ops smpi a s = Ok ops s' -> s' = s /\ chosen smpi s ops.
Proof.
  intros Hr. destruct smpi; cbn [choose_ops chosen].
  - unfold smpi_ops. intros Hc. by inv_run.
  - intros Hc. by eapply reads_inv in Hc as [-> ->]; [|by eapply bull_ops_reads].
Qed.

(** What one call does: the implementation that is called, and the requests that are kept. *)
Record does (smpi : bool) (name : string) (args : list Z) (keep : gset Z) (s s' : Middleware)
    : Prop := {
  do_process : same_process s s';
  do_requests : mw_requests s' = keep;
  do_call : exists ops, chosen smpi s ops /\
              mw_calls s' = mk_mpi_call (ops_field ops name) args :: mw_calls s }.

Lemma chosen_same smpi s s' ops : same_process s s' -> chosen smpi s' ops -> chosen smpi s ops.
Proof. intros []. unfold chosen. destruct smpi; congruence. Qed.

(** A library is called after a change of the set of requests, and before another one. *)
Lemma does_intro smpi name args k s s1 s2 ops :
  moved k s s1 -> chosen smpi s1 ops -> called (mk_mpi_call (ops_field ops name) args) s1 s2 ->
  does smpi name args k s s2.
Proof.
  intros [H1 _ K1 C1] Ho [H2 K2 C2]. split; [by etrans|congruence|].
  exists ops. split; [by eapply chosen_same|congruence].
Qed.

Lemma does_moved smpi name args k k' s s1 s2 :
  does smpi name args k s s1 -> moved k' s1 s2 -> does smpi name args k' s s2.
Proof.
  intros [H1 _ (ops & Ho & C1)] [H2 _ K2 C2]. split; [by etrans|done|].
  exists ops. split; [done|congruence].
Qed.

Lemma moved_refl s : undisturbed s s.
Proof. by split. Qed.

Lemma forget_inv (c : bool) r s x s' :
  when c (forget_request r) s = Ok x s' ->
  moved (if c then mw_requests s ∖ {[r]} else mw_requests s) s s'.
Proof. destruct c; intros [= _ <-]; by split; [split|..]. Qed.

Lemma remember_inv r s x s' :
  remember_request r s = Ok x s' -> moved ({[r]} ∪ mw_requests s) s s'.
Proof. intros [= _ <-]. by split; [split|..]. Qed.

Lemma log_call name f line : LOG_CALL name f line = mret tt.
Proof. unfold LOG_CALL. by rewrite no_log. Qed.

Lemma actor_inv s x s' : ready a u b s -> current_actor s = Ok x s' -> x = a /\ s' = s.
Proof. intros Hr. apply reads_inv. by eapply actor_reads. Qed.
Lemma use_smpi_inv s x s' :
  ready a u b s -> use_smpi a s = Ok x s' -> x = ua_use_smpi_implem u /\ s' = s.
Proof. intros Hr. apply reads_inv. by eapply use_smpi_reads. Qed.
Lemma is_smpi_request_inv r s x s' :
  ready a u b s -> is_smpi_request r s = Ok x s' -> x = smpi_request s r /\ s' = s.
Proof. intros Hr. by apply reads_inv, is_smpi_request_reads. Qed.

(** Takes apart the reads of a call that returned, from states where the process is ready. *)
Ltac inv_reads :=
  repeat (inv_run; match goal with
  | Hr : ready a u b ?s, H : current_actor ?s = Ok _ _ |- _ =>
      apply (actor_inv _ _ _ Hr) in H as [-> ->]
  | Hr : ready a u b ?s, H : use_smpi a ?s = Ok _ _ |- _ =>
      apply (use_smpi_inv _ _ _ Hr) in H as [-> ->]
  | Hr : ready a u b ?s, H : is_smpi_request _ ?s = Ok _ _ |- _ =>
      apply (is_smpi_request_inv _ _ _ _ Hr) in H as [-> ->]
  | Hr : ready a u b ?s, H : choose_ops _ a ?s = Ok _ _ |- _ =>
      apply (choose_ops_inv _ _ _ _ Hr) in H as [-> ?]
  | H : load_pointer _ _ = Ok _ _ |- _ => apply load_pointer_inv in H as [-> ?]
  | H : load_int _ _ = Ok _ _ |- _ => apply load_int_inv in H as [-> ?]
  | H : library _ _ _ _ _ = Ok _ _ |- _ => apply library_inv in H
  | H : not_benched _ _ = Ok _ _ |- _ =>
      let s1 := fresh "s" in let s2 := fresh "s" in
      apply not_benched_inv in H as (s1 & s2 & ? & H & ?)
  | H : when _ (forget_request _) _ = Ok _ _ |- _ => apply forget_inv in H
  | H : remember_request _ _ = Ok _ _ |- _ => apply remember_inv in H
  | Hr : ready a u b ?s, U : moved _ ?s ?s' |- _ =>
      lazymatch goal with _ : ready a u b s' |- _ => fail | _ => idtac end;
      assert (ready a u b s') by (eapply ready_same; [exact Hr|by destruct U])
  | Hr : ready a u b ?s, U : called _ ?s ?s' |- _ =>
      lazymatch goal with _ : ready a u b s' |- _ => fail | _ => idtac end;
      assert (ready a u b s') by (eapply ready_same; [exact Hr|by destruct U])
  end).

Lemma smpi_request_eq s s' r :
  mw_requests s' = mw_requests s -> smpi_request s' r = smpi_request s r.
Proof. unfold smpi_request. by intros ->. Qed.

(** Expresses what was read from [p] after the first step in terms of the first state. *)
Ltac from_start p :=
  match goal with
  | U : undisturbed ?s ?s1, P : points_to ?s1 p ?r |- _ =>
      exists r; pose proof (smpi_request_eq s s1 r (mo_requests _ _ _ U)) as Hsame;
      rewrite (mo_requests _ _ _ U), Hsame in *;
      split; [by apply (points_to_eq s s1); [exact (mo_memory _ _ _ U)|]|]
  end.

(** [MPI_Wait]: the request is forgotten, then waited for by the implementation it is thought to
    belong to. *)
Lemma wait_does f line request status s out s' :
  ready a u b s -> S4BXI_MPI_Wait f line request status s = Ok out s' ->
  exists r, points_to s request r /\
    does (smpi_request s r) "Wait" [request; status]
      (if smpi_request s r && negb (r =? 0) then mw_requests s ∖ {[r]} else mw_requests s) s s'.
Proof.
  intros Hr Hw. unfold S4BXI_MPI_Wait in Hw. rewrite log_call in Hw. inv_reads.
  from_start request. eapply does_intro; [|eassumption..].
  eapply moved_after; [|eassumption]. by eapply moved_trans.
Qed.

(** [MPI_Test]: the request is tested by the implementation it is thought to belong to, and
    forgotten if it is complete. *)
Lemma test_does f line request flag status s out s' :
  ready a u b s -> S4BXI_MPI_Test f line request flag status s = Ok out s' ->
  exists r, points_to s request r /\ exists done, int_at s' flag done /\
    does (smpi_request s r) "Test" [request; flag; status]
      (if negb (done =? 0) && smpi_request s r then mw_requests s ∖ {[r]} else mw_requests s) s s'.
Proof.
  intros Hr Hw. unfold S4BXI_MPI_Test in Hw. rewrite log_call in Hw. inv_reads.
  from_start request.
  match goal with
  | C : called _ ?s2 ?s3, U0 : moved _ _ ?s2, U1 : undisturbed ?s3 ?s4, I : int_at ?s4 flag ?d,
    F : moved _ ?s4 ?s5, U2 : undisturbed ?s5 ?s6 |- _ =>
      exists d; split; [by apply (int_at_eq s4 s6); [rewrite (mo_memory _ _ _ U2); apply F|]|];
      assert (mw_requests s4 = mw_requests s) as Hk
        by (rewrite (mo_requests _ _ _ U1), (ca_requests _ _ _ C); apply U0);
      rewrite Hk in F; eapply does_moved; [eapply does_intro; [|eassumption..]|]
  end.
  - by eapply moved_trans.
  - eapply moved_after; [|eassumption]. eapply moved_trans; [eassumption|].
    by destruct (smpi_request s _); rewrite ?andb_false_r in *.
Qed.

(** [MPI_Cancel]. *)
Lemma cancel_does f line request s out s' :
  ready a u b s -> S4BXI_MPI_Cancel f line request s = Ok out s' ->
  exists r, points_to s request r /\
    does (smpi_request s r) "Cancel" [request] (mw_requests s) s s'.
Proof.
  intros Hr Hw. unfold S4BXI_MPI_Cancel in Hw. rewrite log_call in Hw. inv_reads.
  from_start request. eapply does_intro; [|eassumption..]. by eapply moved_trans.
Qed.

(** [MPI_Waitany] forgets no request. *)
Lemma waitany_does f line count requests index status s out s' :
  ready a u b s -> S4BXI_MPI_Waitany f line count requests index status s = Ok out s' ->
  exists r, points_to s requests r /\
    does (smpi_request s r) "Waitany" [count; requests; index; status] (mw_requests s) s s'.
Proof.
  intros Hr Hw. unfold S4BXI_MPI_Waitany in Hw. rewrite log_call in Hw. inv_reads.
  from_start requests. eapply does_intro; [|eassumption..]. by eapply moved_trans.
Qed.

(** *** The generated functions *)

(** A call that only reads. *)
Definition pure {A} (c : MM A) (s : Middleware) : Prop := forall x s', c s = Ok x s' -> s' = s.

Lemma pure_bind {A B} (c : MM A) (f : A -> MM B) s :
  pure c s -> (forall x, pure (f x) s) -> pure (x ← c; f x) s.
Proof. intros Hc Hf y s' (x & s1 & Hx & Hy)%bind_Ok. rewrite (Hc _ _ Hx) in Hy. exact (Hf _ _ _ Hy). Qed.
Lemma pure_reads {A} (c : MM A) s x : reads c s x -> pure c s.
Proof. intros Hc y s' Hy. by apply (reads_inv _ _ _ _ _ Hc) in Hy as [_ ->]. Qed.
Lemma pure_ret {A} (x : A) s : pure (mret x) s.
Proof. by intros y s' [_ ->]%mret_Ok. Qed.
Lemma pure_gets {A} (g : Middleware -> A) s : pure (gets g) s.
Proof. by intros y s' [_ ->]%gets_Ok. Qed.
Lemma pure_of_option {A} (o : option A) e s : pure (of_option o e) s.
Proof. by intros y s' [_ ->]%of_option_Ok. Qed.
Lemma pure_load a0 s : pure (load_pointer a0) s.
Proof. by intros y s' [-> _]%load_pointer_inv. Qed.
Lemma pure_if {A} (c : bool) (d e : MM A) s : pure d s -> pure e s -> pure (if c then d else e) s.
Proof. by destruct c. Qed.
Lemma pure_translate matches result otherwise names s :
  (forall t, pure (matches t) s) -> (forall t, pure (result t) s) -> pure otherwise s ->
  pure (translate matches result otherwise names) s.
Proof.
  intros Hm Hres Ho. induction names as [|t names IH]; [done|]. cbn [translate].
  apply pure_bind; [apply Hm|]. intros []; [apply Hres|apply IH].
Qed.

Section Pure.
Context (s : Middleware) (Hr : ready a u b s).

Lemma pure_actor : pure current_actor s.
Proof. by eapply pure_reads, actor_reads. Qed.
Lemma pure_use_smpi : pure (use_smpi a) s.
Proof. by eapply pure_reads, use_smpi_reads. Qed.
Lemma pure_bull_ops : pure (bull_ops a) s.
Proof. by eapply pure_reads, bull_ops_reads. Qed.

(** Binding the current process. *)
Lemma pure_bind_actor {A} (f : handle -> MM A) : pure (f a) s -> pure (x ← current_actor; f x) s.
Proof.
  intros Hf y s' (x & s1 & Hx & Hy)%bind_Ok. apply (actor_inv _ _ _ Hr) in Hx as [-> ->].
  exact (Hf _ _ Hy).
Qed.

Ltac pure := repeat lazymatch goal with
  | |- pure (mbind _ current_actor) _ => simple apply pure_bind_actor
  | |- pure (mbind _ _) _ => simple apply pure_bind; [|intros ?]
  | |- pure (gets _) _ => simple apply pure_gets
  | |- pure (mret _) _ => simple apply pure_ret
  | |- pure (of_option _ _) _ => simple apply pure_of_option
  | |- pure (use_smpi a) _ => apply pure_use_smpi
  | |- pure (bull_ops a) _ => apply pure_bull_ops
  | |- pure (load_pointer _) _ => simple apply pure_load
  | |- pure (translate _ _ _ _) _ => simple apply pure_translate; [intros ?|intros ?|]
  | |- pure (if _ then _ else _) _ => simple apply pure_if
  | |- pure (is_either _ _ _ _) _ => unfold is_either
  | |- pure (smpi_constant _) _ => unfold smpi_constant
  | |- pure smpi_ops _ => unfold smpi_ops
  | |- pure (choose_ops _ _) _ => unfold choose_ops
  | |- pure (implem_of _ _) _ => unfold implem_of
  | |- pure (smpi_of _) _ => unfold smpi_of
  | |- pure (bull_of _) _ => unfold bull_of
  end.

Lemma pure_implem_comm c : pure (implem_comm c) s.
Proof. unfold implem_comm. pure. Qed.
Lemma pure_bull_comm c : pure (bull_comm c) s.
Proof. unfold bull_comm. cbv zeta. pure. Qed.
Lemma pure_smpi_comm c : pure (smpi_comm c) s.
Proof. unfold smpi_comm. cbv zeta. pure. Qed.
Lemma pure_implem_datatype t : pure (implem_datatype t) s.
Proof. unfold implem_datatype. pure. Qed.
Lemma pure_implem_op o : pure (implem_op o) s.
Proof. unfold implem_op. pure. Qed.

Lemma pure_argsval i actuals : pure (argsval i actuals) s.
Proof.
  unfold argsval. induction (i_args i) as [|arg args IH]; [apply pure_ret|]. cbn [mapM].
  apply pure_bind; [|intros ?; apply pure_bind; [exact IH|intros ?; apply pure_ret]].
  destruct arg; cbn [pass]; unfold actual;
    (apply pure_bind; [apply pure_of_option|intros ?]) || apply pure_of_option.
  - apply pure_implem_comm.
  - apply pure_implem_datatype.
  - apply pure_implem_op.
Qed.
End Pure.

(** A function that makes a request: SMPI's is remembered. *)
Lemma store_does {R} (result : Middleware -> R) i f line actuals s out s' :
  ready a u b s -> i_macro i = ONE_IMPLEM_STORE_REQUEST ->
  generated result i f line actuals s = Ok out s' ->
  exists args keep, does (ua_use_smpi_implem u) (i_name i) args keep s s' /\
    if ua_use_smpi_implem u
    then exists p r, parameter (i_params i) actuals "request" = Some p /\ points_to s' p r /\
           keep = {[r]} ∪ mw_requests s
    else keep = mw_requests s.
Proof.
  intros Hr Hm Hw. unfold generated in Hw. rewrite Hm in Hw.
  unfold S4BXI_MPI_ONE_IMPLEM_STORE_REQUEST in Hw. rewrite log_call in Hw. inv_reads.
  match goal with
  | A : argsval _ _ _ = _, C : called _ ?s1 ?s2, U1 : undisturbed ?s2 ?s3, U2 : undisturbed ?s4 ?s5
    |- _ =>
      apply (pure_argsval _ Hr) in A as ->;
      assert (mw_requests s3 = mw_requests s) as Hk
        by (rewrite (mo_requests _ _ _ U1); exact (ca_requests _ _ _ C));
      pose proof (mo_memory _ _ _ U2) as Hm2;
      pose proof (does_intro _ _ _ _ _ _ _ _ (moved_refl s) H1 C) as D
  end.
  destruct (ua_use_smpi_implem u); cbn [when] in *; unfold actual in *; inv_reads.
  - match goal with M : moved ({[?r]} ∪ _) ?s1 ?s2, P : points_to ?s1 ?p ?r |- _ =>
      rewrite Hk in M; rewrite (mo_memory _ _ _ M) in Hm2;
      eexists _, ({[r]} ∪ mw_requests s); split;
      [eapply does_moved; [exact D|];
       eapply moved_trans; [eassumption|]; by eapply moved_after
      |exists p, r; split_and!; [done|by apply (points_to_eq s1 _ _ _ Hm2)|done]] end.
  - eexists _, (mw_requests s). split; [|done]. eapply does_moved; [exact D|].
    rewrite <- Hk.
    by eapply moved_trans.
Qed.

(** The other functions that macros define leave the requests alone. *)
Lemma one_does {R} (result : Middleware -> R) i f line actuals s out s' :
  ready a u b s -> i_macro i = ONE_IMPLEM -> generated result i f line actuals s = Ok out s' ->
  exists args, does (ua_use_smpi_implem u) (i_name i) args (mw_requests s) s s'.
Proof.
  intros Hr Hm Hw. unfold generated in Hw. rewrite Hm in Hw.
  unfold S4BXI_MPI_ONE_IMPLEM in Hw. rewrite log_call in Hw. inv_reads.
  match goal with A : argsval _ _ _ = _ |- _ => apply (pure_argsval _ Hr) in A as -> end.
  eexists. by eapply does_intro; [apply moved_refl|..].
Qed.
End Process.

(** [s4bxi_use_smpi_implem]: the process is another one only by the implementation it uses. *)
Lemma switch_ready a u b v s x s' :
  ready a u b s -> on_sim (s4bxi_use_smpi_implem v) s = Ok x s' ->
  ready a (u <| ua_use_smpi_implem := negb (v =? 0) |>) b s' /\
  mw_requests s' = mw_requests s /\ mw_smpi_ops s' = mw_smpi_ops s.
Proof.
  intros Hr. unfold on_sim. destruct (s4bxi_use_smpi_implem v (mw_sim s)) as [y m|] eqn:E; [|done].
  intros [= -> <-]. unfold s4bxi_use_smpi_implem in E. inv_run.
  match goal with C : GET_CURRENT_MAIN_ACTOR _ = Ok ?c ?m1 |- _ =>
    assert (on_sim GET_CURRENT_MAIN_ACTOR s = Ok c (s <| mw_sim := m1 |>)) as Hc
      by (unfold on_sim; by rewrite C) end.
  apply (actor_inv _ _ _ _ _ _ Hr) in Hc as [-> Hs]. apply (f_equal mw_sim) in Hs. cbn in Hs.
  unfold over in Hs. cbn in Hs. subst.
  unfold update_user, user in E. inv_run.
  match goal with U : sim_users _ !! a = Some ?v |- _ =>
    rewrite (rd_user _ _ _ _ Hr) in U; injection U as <- end.
  split; [|done]. destruct Hr as [Ha He Hu Hb]. rewrite pid_known in He.
  split; [done|rewrite pid_known; done| |done]. apply lookup_insert_eq.
Qed.

(** ** Histories *)

(** What one process does with requests, from when the middleware is set up: [own] is the
    implementation that made each of its pending requests ([true] for SMPI).  A function makes a
    request that was not pending; [MPI_Wait] and [MPI_Test] complete it.  Meanwhile the process
    switches between the implementations, and calls functions that complete no request. *)
Inductive history (a : handle) (b : s4bxi_mpi_ops) :
    BxiUserAppActor -> gmap Z bool -> Middleware -> Prop :=
| history_start u s : ready a u b s -> mw_requests s = ∅ -> history a b u ∅ s
| history_switch u own s v s' :
    history a b u own s -> on_sim (s4bxi_use_smpi_implem v) s = Ok tt s' ->
    history a b (u <| ua_use_smpi_implem := negb (v =? 0) |>) own s'
| history_other u own s i file line actuals out s' :
    history a b u own s -> i_macro i = ONE_IMPLEM ->
    ~ In (i_name i) ["Waitsome"; "Request_free"] ->
    generated mpi_int i file line actuals s = Ok out s' -> history a b u own s'
| history_make u own s i file line actuals out s' p r :
    history a b u own s -> i_macro i = ONE_IMPLEM_STORE_REQUEST ->
    generated mpi_int i file line actuals s = Ok out s' ->
    parameter (i_params i) actuals "request" = Some p -> points_to s' p r ->
    r <> 0 -> r <> ops_field b "REQUEST_NULL" -> own !! r = None ->
    history a b u (<[r := ua_use_smpi_implem u]> own) s'
| history_wait u own s file line request status out s' r smpi :
    history a b u own s -> points_to s request r -> own !! r = Some smpi ->
    S4BXI_MPI_Wait file line request status s = Ok out s' ->
    history a b u (delete r own) s'
| history_test u own s file line request flag status out s' r smpi done :
    history a b u own s -> points_to s request r -> own !! r = Some smpi ->
    S4BXI_MPI_Test file line request flag status s = Ok out s' -> int_at s' flag done ->
    history a b u (if done =? 0 then own else delete r own) s'.

(** The requests of SMPI are remembered, those and no others. *)
Record exact (b : s4bxi_mpi_ops) (own : gmap Z bool) (s : Middleware) : Prop := {
  ex_handles : forall r smpi, own !! r = Some smpi -> r <> 0 /\ r <> ops_field b "REQUEST_NULL";
  ex_requests : forall r, r <> 0 -> r ∈ mw_requests s <-> own !! r = Some true }.

Lemma exact_smpi_request b own s r smpi :
  exact b own s -> own !! r = Some smpi -> smpi_request b s r = smpi.
Proof.
  intros [Hh Hq] Ho. destruct (Hh _ _ Ho) as [Hz Hn]. unfold smpi_request.
  apply Z.eqb_neq in Hn as ->. specialize (Hq r Hz). apply Z.eqb_neq in Hz as ->. cbn.
  case_bool_decide as Hin; destruct smpi; try done.
  - apply Hq in Hin. congruence.
  - tauto.
Qed.

Lemma exact_same b own s s' :
  mw_requests s' = mw_requests s -> exact b own s -> exact b own s'.
Proof. intros E [Hh Hq]. split; [done|]. by rewrite E. Qed.

Lemma exact_delete b (own : gmap Z bool) s s' r (smpi : bool) :
  exact b own s -> own !! r = Some smpi ->
  mw_requests s' = (if smpi then mw_requests s ∖ {[r]} else mw_requests s) ->
  exact b (delete r own) s'.
Proof.
  intros [Hh Hq] Ho E. split.
  - intros r' smpi' [_ Hr']%lookup_delete_Some. eauto.
  - intros r' Hz. rewrite E. destruct (decide (r' = r)) as [->|Hne].
    + rewrite lookup_delete_eq. destruct smpi; [set_solver|]. rewrite Hq by done. split; congruence.
    + rewrite lookup_delete_ne by done. rewrite <- Hq by done. destruct smpi; set_solver.
Qed.

Lemma exact_insert b (own : gmap Z bool) s s' r (smpi : bool) :
  exact b own s -> r <> 0 -> r <> ops_field b "REQUEST_NULL" -> own !! r = None ->
  mw_requests s' = (if smpi then {[r]} ∪ mw_requests s else mw_requests s) ->
  exact b (<[r := smpi]> own) s'.
Proof.
  intros [Hh Hq] Hz Hn Ho E. split.
  - intros r' smpi' [[<- _]|[_ Hr']]%lookup_insert_Some; eauto.
  - intros r' Hz'. rewrite E. destruct (decide (r' = r)) as [->|Hne].
    + rewrite lookup_insert_eq. destruct smpi; [set_solver|]. rewrite Hq by done.
      split; congruence.
    + rewrite lookup_insert_ne by done. rewrite <- Hq by done. destruct smpi; set_solver.
Qed.

Lemma does_ready a u b smpi name args keep s s' :
  ready a u b s -> does b smpi name args keep s s' -> ready a u b s'.
Proof. intros Hr []. by eapply ready_same. Qed.

Lemma history_exact a b u (own : gmap Z bool) s : history a b u own s -> ready a u b s /\ exact b own s.
Proof.
  induction 1 as
    [u s Hr He|u own s v s' _ [Hr He] Hs|u own s i f l acts out s' _ [Hr He] Hm _ Hg
    |u own s i f l acts out s' p r _ [Hr He] Hm Hg Hp Hpt Hz Hn Ho
    |u own s f l rq st out s' r smpi _ [Hr He] Hp Ho Hw
    |u own s f l rq fl st out s' r smpi d _ [Hr He] Hp Ho Ht Hd].
  - split; [done|]. split; [by intros ? ? ?|]. intros r _. rewrite He. set_solver.
  - apply (switch_ready _ _ _ _ _ _ _ Hr) in Hs as (? & E & _). split; [done|].
    by eapply exact_same.
  - apply (one_does _ _ _ _ _ _ _ _ _ _ _ Hr Hm) in Hg as (args & D).
    split; [by eapply does_ready|]. eapply exact_same; [apply D|done].
  - apply (store_does _ _ _ _ _ _ _ _ _ _ _ Hr Hm) in Hg as (args & keep & D & Hk).
    split; [by eapply does_ready|]. eapply exact_insert; [done..|].
    rewrite (do_requests _ _ _ _ _ _ _ D). destruct (ua_use_smpi_implem u); [|done].
    destruct Hk as (p' & r' & Hp' & Hpt' & ->). simplify_eq.
    by rewrite (points_to_fun _ _ _ _ Hpt' Hpt).
  - apply (wait_does _ _ _ _ _ _ _ _ _ _ Hr) in Hw as (r' & Hp' & D).
    rewrite (points_to_fun _ _ _ _ Hp' Hp) in *. split; [by eapply does_ready|].
    rewrite (exact_smpi_request _ _ _ _ _ He Ho) in D.
    eapply exact_delete; [done..|]. rewrite (do_requests _ _ _ _ _ _ _ D).
    destruct (ex_handles _ _ _ He _ _ Ho) as [Hz _]. apply Z.eqb_neq in Hz as ->.
    by destruct smpi.
  - apply (test_does _ _ _ _ _ _ _ _ _ _ _ Hr) in Ht as (r' & Hp' & d' & Hd' & D).
    rewrite (points_to_fun _ _ _ _ Hp' Hp) in *. split; [by eapply does_ready|].
    rewrite (exact_smpi_request _ _ _ _ _ He Ho) in D.
    assert (d' = d) as -> by (destruct Hd as (?&?&->), Hd' as (?&?&->); congruence).
    destruct (d =? 0).
    + eapply exact_same; [apply D|done].
    + eapply exact_delete; [done..|]. rewrite (do_requests _ _ _ _ _ _ _ D). by destruct smpi.
Qed.

(** The library of the implementation [smpi] was called. *)
Definition calls_implem (b : s4bxi_mpi_ops) (smpi : bool) (name : string) (args : list Z)
    (s s' : Middleware) : Prop :=
  exists ops, (if smpi then mw_smpi_ops s = Some ops else ops = b) /\
    mw_calls s' = mk_mpi_call (ops_field ops name) args :: mw_calls s.



(** [MPI_Waitany] forgets no request: once it completed a request of SMPI, a request of Bull at the
    same address is given to SMPI. *)
Theorem stale_request_misrouted a b u own s r file line count requests index status out s1
    i file' line' actuals out' s2 p file2 line2 status' out2 s3 :
  history a b u own s -> own !! r = Some true ->
  S4BXI_MPI_Waitany file line count requests index status s = Ok out s1 ->
  ua_use_smpi_implem u = false -> i_macro i = ONE_IMPLEM_STORE_REQUEST ->
  generated mpi_int i file' line' actuals s1 = Ok out' s2 -> points_to s2 p r ->
  S4BXI_MPI_Wait file2 line2 p status' s2 = Ok out2 s3 ->
  calls_implem b false (i_name i) (default [] (mc_args <$> head (mw_calls s2))) s1 s2 /\
  calls_implem b true "Wait" [p; status'] s2 s3.
Proof.
  intros [Hr He]%history_exact Ho Hw Hu Hm Hg Hp Hw2.
  apply (waitany_does _ _ _ _ _ _ _ _ _ _ _ _ Hr) in Hw as (r' & _ & D).
  pose proof (does_ready _ _ _ _ _ _ _ _ _ Hr D) as Hr1.
  apply (store_does _ _ _ _ _ _ _ _ _ _ _ Hr1 Hm) in Hg as (args & keep & D2 & Hk).
  rewrite Hu in D2, Hk. subst keep.
  pose proof (does_ready _ _ _ _ _ _ _ _ _ Hr1 D2) as Hr2. split.
  { destruct D2 as [_ _ (ops & Hc & E)]. rewrite E. cbn. by exists ops. }
  apply (wait_does _ _ _ _ _ _ _ _ _ _ Hr2) in Hw2 as (r2 & Hp2 & D3).
  rewrite (points_to_fun _ _ _ _ Hp2 Hp) in D3.
  assert (smpi_request b s2 r = true) as Hs.
  { rewrite (smpi_request_eq _ s1) by apply D2. rewrite (smpi_request_eq _ s) by apply D.
    by apply (exact_smpi_request _ _ _ _ _ He). }
  rewrite Hs in D3. apply D3.
Qed.

End MpiRequests.
