(* ===== verification/MpiPairs.v ===== *)
(** The communicators that a program makes: one of each implementation behind one handle. *)
From S2P Require Import Prelude OMap Portals World Logic Engine Config Atomics Memory AtomicsSpec.
From S2P Require Import Runtime Bench CUtil MpiTables Mpi MpiCalls MpiSpec MpiRequests.

Section MpiPairs.
Context `{Runtime} `{Mpi} (pid : Z) (pid_known : forall m, rt_pid m = pid).

(** One process runs; the libraries write memory, and free none that the middleware knows. *)
Context (calm_mpi : forall c s, exists f t,
           mpi_step c s = s <| mw_sim ::= fun m => m <| sim_world ::= fun w =>
             w <| w_mem ::= f |> <| w_clock := t |> |> |>).
Context (keeps_mapped : forall c s x,
           is_Some (memory s !! x) -> is_Some (memory (mpi_step c s) !! x)).
Context (no_log : mpi_log_calls = false).

(** A new block is memory that was not used, within the address space. *)
Context (new_block : forall n s a, 0 <= n -> mpi_block n s = Some a ->
           0 <= a <= 2 ^ 64 - n /\ forall x, a <= x < a + n -> memory s !! x = None).

(** ** Memory *)

Lemma map_block_lookup m a n x :
  map_block m a n !! x =
  if decide (a <= x < a + Z.of_nat n) then Some (mpi_indeterminate x) else m !! x.
Proof.
  revert a. induction n as [|n IH]; intros a; cbn [map_block].
  - rewrite decide_False by lia. done.
  - destruct (decide (x = a)) as [->|Hne].
    + rewrite lookup_insert_eq, decide_True by lia. done.
    + rewrite lookup_insert_ne, IH by done.
      destruct (decide (a + 1 <= x < a + 1 + Z.of_nat n)).
      * rewrite decide_True by lia. done.
      * rewrite decide_False by lia. done.
Qed.

Lemma unmap_block_lookup m a n x :
  unmap_block m a n !! x = if decide (a <= x < a + Z.of_nat n) then None else m !! x.
Proof.
  revert a. induction n as [|n IH]; intros a; cbn [unmap_block].
  - rewrite decide_False by lia. done.
  - destruct (decide (x = a)) as [->|Hne].
    + rewrite lookup_delete_eq, decide_True by lia. done.
    + rewrite lookup_delete_ne, IH by done.
      destruct (decide (a + 1 <= x < a + 1 + Z.of_nat n)).
      * rewrite decide_True by lia. done.
      * rewrite decide_False by lia. done.
Qed.

(** Only memory changes, and the blocks are [blocks] then. *)
Record wrote (blocks : gmap Z Z) (s s' : Middleware) : Prop := {
  wr_process : same_process pid s s';
  wr_calls : mw_calls s' = mw_calls s;
  wr_blocks : mw_blocks s' = blocks }.

Lemma allocate_inv n s a s' :
  0 <= n -> allocate n s = Ok a s' ->
  mpi_block n s = Some a /\ wrote (<[a := n]> (mw_blocks s)) s s' /\
  forall x, memory s' !! x =
    if decide (a <= x < a + n) then Some (mpi_indeterminate x) else memory s !! x.
Proof.
  intros Hn Ha. unfold allocate in Ha. inv_run. split; [done|].
  split; [by split; [split; [split|..]|..]|].
  intros x. unfold memory, with_memory, over. cbn.
  rewrite map_block_lookup, Z2Nat.id by done. done.
Qed.

Lemma release_inv a s u s' :
  release a s = Ok u s' -> exists n, mw_blocks s !! a = Some n /\
  wrote (delete a (mw_blocks s)) s s' /\
  forall x, memory s' !! x = if decide (a <= x < a + Z.of_nat (Z.to_nat n)) then None
                             else memory s !! x.
Proof.
  unfold release. intros Hw. inv_run.
  match goal with B : mw_blocks s !! a = Some ?n |- _ => exists n; split; [exact B|] end.
  split; [by split; [split; [split|..]|..]|].
  intros x. unfold memory, with_memory, over. cbn. apply unmap_block_lookup.
Qed.

Lemma store_bytes_mapped a bs w u w' x :
  store_bytes a bs w = Ok u w' -> a <= x < a + Z.of_nat (length bs) -> is_Some (w_mem w !! x).
Proof.
  revert a w u w'. induction bs as [|v bs IH]; intros a w u w'; cbn [store_bytes length]; [lia|].
  intros Hw Hx. inv_run.
  match goal with B : w_mem w !! a = Some ?old |- _ => rename B into Ha end.
  destruct (decide (x = a)) as [->|Hne]; [by eexists|].
  eapply IH in Hw; [|lia]. unfold over in Hw. cbn in Hw.
  by rewrite lookup_insert_ne in Hw.
Qed.

Lemma store_pointer_inv a v s u s' :
  store_pointer a v s = Ok u s' ->
  wrote (mw_blocks s) s s' /\
  (forall x, memory s' !! x = written (memory s) a (bytes_of_Z 8 v) x) /\
  forall x, a <= x < a + 8 -> is_Some (memory s !! x).
Proof.
  unfold store_pointer, on_memory, on_sim, on_world.
  destruct (store_bytes _ _ _) as [y w|] eqn:E; [|done]. intros [= _ <-].
  pose proof (store_bytes_spec _ _ _ _ _ E) as [Hm Hx].
  split; [by split; [split; [split|..]|..]|]. split; [exact Hx|].
  intros x Hin. eapply store_bytes_mapped; [exact E|]. by rewrite length_bytes_of_Z.
Qed.

(** The same bytes hold the same pointer. *)
Lemma points_to_ext s s' p v :
  (forall x, p <= x < p + 8 -> memory s' !! x = memory s !! x) ->
  points_to s p v -> points_to s' p v.
Proof.
  intros Hx (bs & Hb & ->). exists bs. split; [|done].
  apply bytes_at_spec in Hb as [Hl Hi]. apply bytes_at_spec. split; [done|].
  intros i Hlt. rewrite Hx by lia. auto.
Qed.

Lemma points_to_written s p v :
  (forall x, p <= x < p + 8 -> memory s !! x = bytes_of_Z 8 v !! Z.to_nat (x - p)) ->
  points_to s p (u64 v).
Proof.
  intros Hx. exists (bytes_of_Z 8 v). split; [|by rewrite Z_of_bytes_of_Z].
  apply bytes_at_spec. rewrite length_bytes_of_Z. split; [done|].
  intros i Hlt. rewrite Hx by lia. f_equal. lia.
Qed.

Lemma points_to_mapped s p v x : points_to s p v -> p <= x < p + 8 -> is_Some (memory s !! x).
Proof.
  intros (bs & [Hl Hi]%bytes_at_spec & _) Hx. replace x with (p + Z.of_nat (Z.to_nat (x - p))) by lia.
  rewrite Hi by lia. apply lookup_lt_is_Some_2. lia.
Qed.

Lemma points_to_reads s p v : points_to s p v -> reads (load_pointer p) s v.
Proof. intros (bs & Hb & ->). unfold reads. rewrite load_pointer_at. by rewrite Hb. Qed.

(** ** Blocks *)

Definition mapped (s : Middleware) (a n : Z) : Prop :=
  forall x, a <= x < a + n -> is_Some (memory s !! x).
Definition apart (a n b m : Z) : Prop := a + n <= b \/ b + m <= a.

Lemma points_to_mapped_block s p v : points_to s p v -> mapped s p 8.
Proof. intros Hp x. by eapply points_to_mapped. Qed.

(** A new block is apart from what is mapped. *)
Lemma new_block_apart n s a p k :
  0 < n -> 0 < k -> mpi_block n s = Some a -> mapped s p k -> apart a n p k.
Proof.
  intros Hn Hk Ha Hp. destruct (new_block n s a ltac:(lia) Ha) as [_ Hnew]. unfold apart.
  destruct (decide (a + n <= p)); [by left|]. destruct (decide (p + k <= a)); [by right|].
  pose (x := Z.max p a). assert (p <= x < p + k) as Hx by lia.
  destruct (Hp x Hx) as [v Hv]. rewrite Hnew in Hv by lia. done.
Qed.

(** What a step does to the blocks: the process is the same, and what was mapped still is. *)
Record kept (calls : list mpi_call) (blocks : gmap Z Z) (s s' : Middleware) : Prop := {
  ke_process : same_process pid s s';
  ke_calls : mw_calls s' = calls ++ mw_calls s;
  ke_blocks : mw_blocks s' = blocks;
  ke_mapped : forall a n, mapped s a n -> mapped s' a n }.

Lemma kept_trans c1 c2 b1 b2 s1 s2 s3 :
  kept c1 b1 s1 s2 -> kept c2 b2 s2 s3 -> kept (c2 ++ c1) b2 s1 s3.
Proof.
  intros [P1 C1 B1 M1] [P2 C2 B2 M2]. split; [|by rewrite C2, C1, app_assoc|done|auto].
  destruct P1 as [[U1 E1] S1 B1'], P2 as [[U2 E2] S2 B2'].
  split; [split; [congruence|auto]|congruence..].
Qed.

Lemma kept_same c b s1 s2 s3 : kept c b s1 s2 -> kept [] (mw_blocks s2) s2 s3 -> kept c b s1 s3.
Proof. intros K1 K2. rewrite <- (ke_blocks _ _ _ _ K1). exact (kept_trans _ _ _ _ _ _ _ K1 K2). Qed.

Lemma allocate_kept n s a s' :
  0 < n -> allocate n s = Ok a s' ->
  kept [] (<[a := n]> (mw_blocks s)) s s' /\ mapped s' a n /\
  0 <= a <= 2 ^ 64 - n /\
  (forall p k, 0 < k -> mapped s p k -> apart a n p k) /\
  (forall x, ~ (a <= x < a + n) -> memory s' !! x = memory s !! x).
Proof.
  intros Hn Ha. apply allocate_inv in Ha as (Ha & [Hp Hc Hb] & Hm); [|lia]. split_and!.
  - split; [done..|]. intros p k Hk x Hx. rewrite Hm. case_decide; [done|auto].
  - intros x Hx. by rewrite Hm, decide_True.
  - destruct (new_block n s a); [lia|done|lia].
  - destruct (new_block n s a); [lia|done|lia].
  - intros p k Hk. by eapply new_block_apart.
  - intros x Hx. by rewrite Hm, decide_False.
Qed.

Lemma library_kept {R} (result : Middleware -> R) ops name args s x s' :
  library result ops name args s = Ok x s' ->
  kept [mk_mpi_call (ops_field ops name) args] (mw_blocks s) s s'.
Proof.
  unfold library. case_match; [done|]. intros [= _ <-].
  set (c := mk_mpi_call _ _). pose proof (keeps_mapped c (s <| mw_calls ::= cons c |>)) as Hk.
  destruct (calm_mpi c (s <| mw_calls ::= cons c |>)) as (f & t & E). rewrite E in *.
  split; [by split; [split|..]|done|done|]. intros p k Hp y Hy. apply Hk. exact (Hp y Hy).
Qed.

Lemma store_kept a v s u s' :
  store_pointer a v s = Ok u s' ->
  kept [] (mw_blocks s) s s' /\ points_to s' a (u64 v) /\
  (forall x, ~ (a <= x < a + 8) -> memory s' !! x = memory s !! x).
Proof.
  intros ([Hp Hc Hb] & Hm & Ha)%store_pointer_inv. unfold written in Hm.
  rewrite length_bytes_of_Z in Hm. split_and!.
  - split; [done..|]. intros p k Hk x Hx. rewrite Hm. case_decide; [|auto].
    apply lookup_lt_is_Some_2. rewrite length_bytes_of_Z. lia.
  - apply points_to_written. intros x Hx. rewrite Hm, decide_True by lia. done.
  - intros x Hx. rewrite Hm, decide_False by lia. done.
Qed.

(** A pointer stays what it is when a block apart from it changes. *)
Lemma points_to_apart s s' a n p v :
  (forall x, ~ (a <= x < a + n) -> memory s' !! x = memory s !! x) -> apart a n p 8 ->
  points_to s p v -> points_to s' p v.
Proof. intros Hx Ha. apply points_to_ext. intros x Hin. apply Hx. unfold apart in Ha. lia. Qed.

Lemma library_step {R} (result : Middleware -> R) ops name args s x s' :
  library result ops name args s = Ok x s' ->
  exists s1, s' = mpi_step (mk_mpi_call (ops_field ops name) args) s1.
Proof. unfold library. case_match; [done|]. intros [= _ <-]. eauto. Qed.

(** ** A pair *)

Lemma call_both_spec name a u b bull_args smpi_args ob os s out s' :
  ready a u b s -> call_both name a bull_args smpi_args ob os s = Ok out s' ->
  exists o, mw_smpi_ops s = Some o /\
    (exists s1, s' = mpi_step (mk_mpi_call (ops_field o name) (smpi_args ++ [os])) s1) /\
    kept [mk_mpi_call (ops_field o name) (smpi_args ++ [os]);
          mk_mpi_call (ops_field b name) (bull_args ++ [ob])] (mw_blocks s) s s'.
Proof.
  intros Hr Hw. unfold call_both in Hw. inv_run.
  match goal with B : bull_ops a s = Ok _ _ |- _ =>
    unshelve eapply (reads_inv _ _ b _ _ _) in B; [by eapply bull_ops_reads|];
    destruct B as [-> ->] end.
  unfold smpi_ops in *. inv_run.
  match goal with _ : library _ _ _ _ _ = Ok _ ?s1, L : library _ _ _ _ ?s1 = Ok _ _ |- _ =>
    pose proof (library_step _ _ _ _ _ _ _ L) end.
  repeat match goal with L : library _ _ _ _ _ = Ok _ _ |- _ => apply library_kept in L end.
  match goal with L1 : kept _ _ s ?s1, L2 : kept _ _ ?s1 _ |- _ => rename L1 into K1, L2 into K2 end.
  eexists. split.
  - rewrite <- (sp_smpi _ _ _ (ke_process _ _ _ _ K1)). eassumption.
  - split; [done|]. rewrite <- (ke_blocks _ _ _ _ K1). exact (kept_trans _ _ _ _ _ _ _ K1 K2).
Qed.

Lemma store_pair_spec ob os result s t s' :
  store_pair ob os result s = Ok t s' -> mapped s result 8 ->
  exists pair x y,
    kept [] (<[pair := 16]> (mw_blocks s)) s s' /\
    points_to s ob x /\ points_to s os y /\
    points_to s' result pair /\ points_to s' pair (u64 x) /\ points_to s' (pair + 8) (u64 y) /\
    forall p k, 0 < k -> mapped s p k -> apart pair 16 p k.
Proof.
  intros Hw Hv. unfold store_pair in Hw. inv_run.
  repeat match goal with L : load_pointer _ _ = Ok _ _ |- _ =>
    apply load_pointer_inv in L as [-> ?] end.
  match goal with L : allocate 16 s = Ok ?pair _ |- _ =>
    rename pair into q; apply allocate_kept in L as (K0 & _ & Hq & Hap & M0); [|lia] end.
  repeat match goal with L : store_pointer _ _ _ = Ok _ _ |- _ =>
    apply store_kept in L as (? & ? & ?) end.
  assert (u64 q = q) as Eq by (apply wrap_small; lia).
  pose proof (Hap _ 8 ltac:(lia) Hv) as Har. unfold apart in Har.
  exists q. do 2 eexists. split_and!; [|eassumption..| | | |done].
  - by repeat (eapply kept_same; [|eassumption]).
  - by rewrite <- Eq.
  - eapply points_to_apart; [eassumption|unfold apart; lia|].
    eapply points_to_apart; [eassumption|unfold apart; lia|done].
  - eapply points_to_apart; [eassumption|unfold apart; lia|done].
Qed.

Lemma release_kept a s u s' :
  release a s = Ok u s' -> mw_blocks s !! a = Some 8 ->
  same_process pid s s' /\ mw_calls s' = mw_calls s /\ mw_blocks s' = delete a (mw_blocks s) /\
  forall p v, apart a 8 p 8 -> points_to s p v -> points_to s' p v.
Proof.
  intros (n & Hn & [Hp Hc Hb] & Hm)%release_inv Hb8.
  assert (n = 8) as -> by congruence. split_and!; [done..|].
  intros p v Hap. eapply points_to_apart; [|exact Hap].
  intros x Hx. rewrite Hm, decide_False by lia. done.
Qed.

(** [make_pair]: both implementations are called, with the address of a local variable each; what
    they store there is in a new pair, whose address the program is given. *)
Lemma make_pair_spec name a u b bull_args smpi_args result s out s' v0 :
  ready a u b s -> points_to s result v0 ->
  make_pair name a bull_args smpi_args result s = Ok out s' ->
  exists o ob os pair x y s2,
    mw_smpi_ops s = Some o /\ same_process pid s s' /\ mw_calls s' = mw_calls s2 /\
    mw_calls s2 = mk_mpi_call (ops_field o name) (smpi_args ++ [os]) ::
                  mk_mpi_call (ops_field b name) (bull_args ++ [ob]) :: mw_calls s /\
    (exists s1, s2 = mpi_step (mk_mpi_call (ops_field o name) (smpi_args ++ [os])) s1) /\
    points_to s2 ob x /\ points_to s2 os y /\
    points_to s' result pair /\ points_to s' pair (u64 x) /\ points_to s' (pair + 8) (u64 y).
Proof.
  intros Hr Hv Hw. pose proof (points_to_mapped_block _ _ _ Hv) as Hm.
  unfold make_pair, with_local in Hw. inv_run.
  match goal with
  | A1' : allocate 8 s = Ok ?ob' ?s1', A2' : allocate 8 ?s1' = Ok ?os' ?s2',
    C' : call_both _ _ _ _ _ _ ?s2' = Ok _ ?s3', P' : store_pair _ _ _ ?s3' = Ok _ ?s4',
    R1' : release ?os' ?s4' = Ok _ ?s5', R2' : release _ ?s5' = Ok _ ?s6' |- _ =>
      rename A1' into A1, A2' into A2, C' into C, P' into P, R1' into R1, R2' into R2;
      rename ob' into ob, os' into os, s1' into s1', s3' into s3'
  end.
  apply allocate_kept in A1 as (K1 & M1 & _ & Ap1 & _); [|lia].
  apply allocate_kept in A2 as (K2 & M2 & _ & Ap2 & _); [|lia].
  pose proof (kept_trans _ _ _ _ _ _ _ K1 K2) as K12.
  pose proof (ready_same _ pid_known _ _ _ _ _ Hr (ke_process _ _ _ _ K12)) as Hr2.
  apply (call_both_spec _ _ _ _ _ _ _ _ _ _ _ Hr2) in C as (o & Ho & Hstep & K3).
  pose proof (ke_mapped _ _ _ _ K3) as M3.
  pose proof (Ap1 _ 8 ltac:(lia) Hm) as Ap1r.
  pose proof (Ap2 _ 8 ltac:(lia) M1) as Ap21.
  pose proof (Ap2 _ 8 ltac:(lia) (ke_mapped _ _ _ _ K1 _ _ Hm)) as Ap2r.
  apply store_pair_spec in P as (pair & x & y & K4 & Px & Py & Pr & Pp & Pq & Ap4);
    [|by apply M3, K12].
  pose proof (Ap4 _ 8 ltac:(lia) (M3 _ _ (ke_mapped _ _ _ _ K2 _ _ M1))) as Ap4b.
  pose proof (Ap4 _ 8 ltac:(lia) (M3 _ _ M2)) as Ap4s.
  unfold apart in *.
  apply release_kept in R1 as (S5 & C5 & B5 & P5).
  2:{ rewrite (ke_blocks _ _ _ _ K4), (ke_blocks _ _ _ _ K3), (ke_blocks _ _ _ _ K2).
      rewrite lookup_insert_ne by lia. apply lookup_insert_eq. }
  apply release_kept in R2 as (S6 & C6 & B6 & P6).
  2:{ rewrite B5, (ke_blocks _ _ _ _ K4), (ke_blocks _ _ _ _ K3), (ke_blocks _ _ _ _ K2).
      rewrite (ke_blocks _ _ _ _ K1).
      rewrite lookup_delete_ne, !lookup_insert_ne by lia. apply lookup_insert_eq. }
  exists o, ob, os, pair, x, y; eexists. split_and!; [| | | |exact Hstep|exact Px|exact Py|..].
  - rewrite <- Ho. symmetry. apply (ke_process _ _ _ _ K12).
  - etrans; [apply (ke_process _ _ _ _ K12)|]. etrans; [apply (ke_process _ _ _ _ K3)|].
    etrans; [apply (ke_process _ _ _ _ K4)|]. by etrans.
  - rewrite C6, C5. exact (ke_calls _ _ _ _ K4).
  - rewrite (ke_calls _ _ _ _ K3), (ke_calls _ _ _ _ K12). done.
  - apply P6; [unfold apart; lia|]. apply P5; [unfold apart; lia|done].
  - apply P6; [unfold apart; lia|]. apply P5; [unfold apart; lia|done].
  - apply P6; [unfold apart; lia|]. apply P5; [unfold apart; lia|done].
Qed.

(** ** Communicators *)

(** [h] is a handle, of SMPI or of Bull, of the world or of the process alone. *)
Definition names_comm (b : s4bxi_mpi_ops) (h : Z) (c : string) : Prop :=
  h = mpi_constant pid (MPI_COMM_ c) \/ h = ops_field b (COMM_ c).

End MpiPairs.
