(* ===== verification/Shared.v ===== *)
(** Shared allocations of the simulated processes: [src/s4bxi_shared.cpp].

    The module keeps three static maps: the source locations that allocated ([allocs]), the
    allocations by address ([allocs_metadata], an ordered map) and the results of shared calls
    ([calls]).  The operating system is the class [OS]: each system call is recorded, newest
    first, and what the kernel answers is a function of the calls made so far. *)
From S2P Require Import Prelude OMap Portals World.

(** ** System calls *)

Inductive syscall :=
| ShmOpen (name : string) | ShmUnlink (name : string)
| Fstat (fd : Z) | Ftruncate (fd size : Z) | Close (fd : Z)
| Mkstemp (template : string) | Unlink (name : string)
| MmapShared (len fd : Z)                   (* mmap(nullptr, len, MAP_SHARED, fd) *)
| MmapAnonymous (len : Z)                   (* mmap(nullptr, len, MAP_ANONYMOUS | MAP_PRIVATE) *)
| MmapFixed (addr len : Z) (huge : bool) (fd : Z)
                                            (* mmap(addr, len, MAP_FIXED | MAP_SHARED, fd) *)
| Munmap (addr len : Z)
| OperatorNew (size : Z) | OperatorDelete (ptr : Z) | Memset (ptr byte len : Z).

(** What the kernel and the C++ runtime answer to the last call of a history: a number (a file
    descriptor, the size of a file, an address), or the error number. *)
Class OS := { os_answer : list syscall -> Z + Z }.

(** ** Data *)

(** @src/src/s4bxi_shared.cpp:146-149 shared_data_t *)
Record shared_data_t := mk_shared_data { sd_fd : Z; sd_count : Z }.

(** An entry of [allocs] ([shared_data_key_type]), or the pair a partial allocation creates: both
    are reached by pointer. *)
(** @src/src/s4bxi_shared.cpp:151-152 shared_data_key_type *)
Record shared_data_key_type := mk_key_data { kd_first : string; kd_second : shared_data_t }.

(** @src/src/s4bxi_shared.cpp:154-160 shared_metadata_t *)
Record shared_metadata_t := mk_metadata {
  md_size : Z; md_allocated_size : Z; md_allocated_ptr : Z;
  md_private_blocks : list (Z * Z); md_data : handle }.

(** The static variables of the file.  [sh_datas] holds the pairs the pointers of the metadata
    refer to. *)
(** @src/src/s4bxi_shared.cpp:151-169 allocs, allocs_metadata, calls *)
Record shared_state := mk_shared {
  sh_allocs : gmap string handle;
  sh_datas : gmap N shared_data_key_type;
  sh_next : N;
  sh_allocs_metadata : list (Z * shared_metadata_t);
  sh_calls : gmap string Z;
  sh_bogusfile : Z; sh_bogusfile_huge_page : Z; sh_blocksize : Z;
  sh_prev_val : Z;
  sh_trace : list syscall }.

#[export] Instance rebuild_shared_data : Rebuild shared_data_t := fun r =>
  mk_shared_data (sd_fd r) (sd_count r).
#[export] Instance rebuild_key_data : Rebuild shared_data_key_type := fun r =>
  mk_key_data (kd_first r) (kd_second r).
#[export] Instance rebuild_shared_state : Rebuild shared_state := fun r =>
  mk_shared (sh_allocs r) (sh_datas r) (sh_next r) (sh_allocs_metadata r) (sh_calls r)
    (sh_bogusfile r) (sh_bogusfile_huge_page r) (sh_blocksize r) (sh_prev_val r) (sh_trace r).

(** @src/src/s4bxi_shared.cpp:166-168 s4bxi_shared_malloc_bogusfile *)
Definition initial_shared : shared_state :=
  mk_shared ∅ ∅ 1 [] ∅ (-1) (-1) (Z.shiftl 1 20) (2 ^ 32 - 1) [].

(** ** Alignment *)

(** @src/src/s4bxi_shared.cpp:213-213 ALIGN_UP *)
Definition ALIGN_UP (n align : Z) : Z :=
  Z.land (swrap 64 n + swrap 64 align - 1) (- swrap 64 align).

(** @src/src/s4bxi_shared.cpp:214-214 ALIGN_DOWN *)
Definition ALIGN_DOWN (n align : Z) : Z := Z.land (swrap 64 n) (- swrap 64 align).

(** @src/src/s4bxi_shared.cpp:216-216 PAGE_SIZE *)
Definition PAGE_SIZE : Z := 0x1000.
(** @src/src/s4bxi_shared.cpp:217-217 HUGE_PAGE_SIZE *)
Definition HUGE_PAGE_SIZE : Z := Z.shiftl 1 21.

(** The sum [ALIGN_UP] computes is one of [int64_t]. *)
Definition align_defined (n align : Z) : bool :=
  swrap 64 n + swrap 64 align <? 2 ^ 63.

(** [SharedMallocType] of SMPI's headers: its enumerators, which differ. *)
Class SharedMallocType := {
  SMT_LOCAL : Z; SMT_GLOBAL : Z;
  SMT_distinct : SMT_LOCAL <> SMT_GLOBAL }.

Abbreviation ShM := (M shared_state).

Definition EEXIST : Z := 17.

Section Shared.
Context `{OS} `{SharedMallocType} (config : s4bxi_config).

(** Loops over names and blocks are given enough turns for what is allocated. *)
Context (fuel : nat).

Definition sys (c : syscall) : ShM (Z + Z) := fun s =>
  Ok (os_answer (c :: sh_trace s)) (s <| sh_trace ::= cons c |>).

(** [*data] *)
Definition data_at (h : handle) : ShM shared_data_key_type :=
  d ← gets (fun s => sh_datas s !! h);
  of_option d (Undefined "dangling pointer").
Definition set_data (h : handle) (d : shared_data_key_type) : ShM unit :=
  modify (fun s => s <| sh_datas ::= <[h := d]> |>).
Definition new_data (d : shared_data_key_type) : ShM handle :=
  h ← gets sh_next;
  _ ← modify (fun s => s <| sh_datas ::= <[h := d]> |> <| sh_next ::= N.succ |>);
  mret h.
Definition set_count (h : handle) (f : Z -> Z) : ShM unit :=
  d ← data_at h;
  set_data h (mk_key_data (kd_first d)
                (mk_shared_data (sd_fd (kd_second d)) (f (sd_count (kd_second d))))).

(** ** Temporary shared memory *)

Definition hex_digit (d : Z) : Ascii.ascii :=
  Ascii.ascii_of_N (Z.to_N (if d <? 10 then 48 + d else 87 + d)).

(** [%0nx] *)
Fixpoint hex_padded (n : nat) (z : Z) (acc : string) : string :=
  match n with
  | O => acc
  | S n' => hex_padded n' (Z.div z 16) (String (hex_digit (z mod 16)) acc)
  end.

Definition shmname (i : Z) : string := ("/s4bxi-buffer-" ++ hex_padded 16 i "")%string.

(** @src/src/s4bxi_shared.cpp:73-73 VAL_MASK *)
Definition VAL_MASK : Z := 2 ^ 32 - 1.

(** The search loop: the descriptor, or the last error number. *)
(** @src/src/s4bxi_shared.cpp:78-85 s4bxi_temp_shm_get *)
Fixpoint temp_shm_search (n : nat) (i : Z) (last : option (Z + Z)) : ShM (Z + Z) :=
  prev_val ← gets sh_prev_val;
  if i =? prev_val then of_option last (Undefined "fd is not initialised") else
  match n with
  | O => fail OutOfFuel
  | S n' =>
      r ← sys (ShmOpen (shmname i));
      match r with
      | inr errno =>
          if errno =? EEXIST then temp_shm_search n' (Z.land (i + 1) VAL_MASK) (Some r)
          else _ ← modify (fun s => s <| sh_prev_val := i |>); mret r
      | inl _ => _ ← modify (fun s => s <| sh_prev_val := i |>); mret r
      end
  end.

(** @src/src/s4bxi_shared.cpp:71-108 s4bxi_temp_shm_get *)
Definition s4bxi_temp_shm_get : ShM Z :=
  prev_val ← gets sh_prev_val;
  r ← temp_shm_search fuel (Z.land (prev_val + 1) VAL_MASK) None;
  match r with
  | inl fd =>
      _ ← assert (0 <=? fd) (Abort "shm_open");
      (* The name is the one of [prev_val]. *)
      i ← gets sh_prev_val;
      _ ← sys (ShmUnlink (shmname i));
      mret fd
  | inr _ => fail (Abort "Impossible to create temporary file for memory mapping")
  end.

(** @src/src/s4bxi_shared.cpp:113-129 s4bxi_temp_shm_mmap *)
Definition s4bxi_temp_shm_mmap (fd size : Z) : ShM Z :=
  st ← sys (Fstat fd);
  match st with
  | inr _ => fail (Abort "Could not stat fd")
  | inl st_size =>
      _ ← (if swrap 64 size <=? st_size then mret tt
           else r ← sys (Ftruncate fd (swrap 64 size));
                assert (bool_decide (r = inl 0)) (Abort "Could not truncate fd"));
      mem ← sys (MmapShared size fd);
      match mem with inl a => mret a | inr _ => fail (Abort "Failed to map fd") end
  end.

(** @src/src/s4bxi_shared.cpp:171-176 s4bxi_shared_destroy *)
Definition s4bxi_shared_destroy : ShM unit :=
  modify (fun s =>
    s <| sh_datas ::= fun ds => foldr delete ds (snd <$> map_to_list (sh_allocs s)) |>
      <| sh_allocs := ∅ |> <| sh_allocs_metadata := [] |> <| sh_calls := ∅ |>).

(** [allocs_metadata[mem] = meta] *)
Definition register_metadata (mem : Z) (meta : shared_metadata_t) : ShM unit :=
  modify (fun s => s <| sh_allocs_metadata ::= omap_put mem meta |>).

(** @src/src/s4bxi_shared.cpp:179-190 shm_map *)
Definition shm_map (fd size : Z) (data : handle) : ShM Z :=
  mem ← s4bxi_temp_shm_mmap fd size;
  _ ← register_metadata mem (mk_metadata size size mem [] data);
  mret mem.

(** @src/src/s4bxi_shared.cpp:137-144 s4bxi_source_location *)
Definition s4bxi_source_location (filename : string) (line : Z) : string :=
  (filename ++ ":" ++ pretty line)%string.

(** @src/src/s4bxi_shared.cpp:192-210 s4bxi_shared_malloc_local *)
Definition s4bxi_shared_malloc_local (size : Z) (file : string) (line : Z) : ShM Z :=
  let loc := s4bxi_source_location file line in
  res ← gets (fun s => sh_allocs s !! loc);
  match res with
  | None =>
      data ← new_data (mk_key_data loc (mk_shared_data (-1) 0));
      _ ← modify (fun s => s <| sh_allocs ::= <[loc := data]> |>);
      fd ← s4bxi_temp_shm_get;
      _ ← set_data data (mk_key_data loc (mk_shared_data fd 1));
      shm_map fd size data
  | Some data =>
      d ← data_at data;
      mem ← shm_map (sd_fd (kd_second d)) size data;
      _ ← set_count data (fun c => c + 1);
      mret mem
  end.

(** ** Partial sharing *)

(** [shared_block_offsets[i]] *)
Definition offset_at (offsets : list Z) (i : Z) : ShM Z :=
  of_option (if 0 <=? i then offsets !! Z.to_nat i else None)
    (Undefined "read past the caller's array").

(** [mmap(pos, len, ...)] over the reserved area, and the check of its result *)
Definition mmap_fixed (pos len : Z) (huge : bool) (fd : Z) : ShM unit :=
  res ← sys (MmapFixed pos len huge fd);
  assert (bool_decide (res = inl pos)) (Abort "Could not map folded virtual memory").

(** @src/src/s4bxi_shared.cpp:307-320 s4bxi_shared_malloc_partial (the loop over the blocks of
    the bogus file that fit in a shared block) *)
Fixpoint mmap_blocks (n : nat) (mem blocksize offset stop : Z) (huge : bool) (fd : Z) :
    ShM unit :=
  if offset <? stop then
    match n with
    | O => fail OutOfFuel
    | S n' =>
        _ ← mmap_fixed (add64 mem offset) blocksize huge fd;
        mmap_blocks n' mem blocksize (add64 offset blocksize) stop huge fd
    end
  else mret tt.

(** @src/src/s4bxi_shared.cpp:305-352 s4bxi_shared_malloc_partial (one shared block) *)
Definition mmap_shared_block (mem size start_offset stop_offset : Z) (use_huge_page : bool)
    : ShM unit :=
  blocksize ← gets sh_blocksize;
  bogusfile ← gets sh_bogusfile;
  bogusfile_huge_page ← gets sh_bogusfile_huge_page;
  let huge_fd := if use_huge_page then bogusfile_huge_page else bogusfile in
  _ ← assert (align_defined start_offset blocksize && align_defined start_offset PAGE_SIZE)
        (Undefined "signed integer overflow");
  let start_block_offset := u64 (ALIGN_UP start_offset blocksize) in
  let stop_block_offset := u64 (ALIGN_DOWN stop_offset blocksize) in
  _ ← mmap_blocks fuel mem blocksize start_block_offset stop_block_offset use_huge_page huge_fd;
  let low_page_start_offset := u64 (ALIGN_UP start_offset PAGE_SIZE) in
  let low_page_stop_offset :=
    if swrap 64 start_block_offset <? ALIGN_DOWN stop_offset PAGE_SIZE
    then start_block_offset else u64 (ALIGN_DOWN stop_offset PAGE_SIZE) in
  _ ← when (low_page_start_offset <? low_page_stop_offset)
        (mmap_fixed (add64 mem low_page_start_offset)
           (sub64 low_page_stop_offset low_page_start_offset) false bogusfile);
  when (low_page_stop_offset <=? stop_block_offset)
    (let high_page_stop_offset :=
       if stop_offset =? size then size else u64 (ALIGN_DOWN stop_offset PAGE_SIZE) in
     when (high_page_stop_offset >? stop_block_offset)
       (mmap_fixed (add64 mem stop_block_offset)
          (sub64 high_page_stop_offset stop_block_offset) false bogusfile)).

(** @src/src/s4bxi_shared.cpp:294-353 s4bxi_shared_malloc_partial (the loop over the shared
    blocks, from [i_block], [n] turns from its end) *)
Fixpoint mmap_shared_blocks (n : nat) (mem size : Z) (offsets : list Z) (nb_shared_blocks : Z)
    (use_huge_page : bool) : ShM unit :=
  match n with
  | O => mret tt
  | S n' =>
      let i_block := nb_shared_blocks - Z.of_nat n in
      start_offset ← offset_at offsets (2 * i_block);
      stop_offset ← offset_at offsets (2 * i_block + 1);
      _ ← assert (start_offset <? stop_offset)
            (Abort "start_offset should be lower than stop offset");
      _ ← assert (stop_offset <=? size) (Abort "stop_offset should be lower than size");
      _ ← when (i_block <? nb_shared_blocks - 1)
            (next ← offset_at offsets (2 * i_block + 2);
             assert (stop_offset <? next)
               (Abort "stop_offset should be lower than its successor start offset"));
      _ ← mmap_shared_block mem size start_offset stop_offset use_huge_page;
      mmap_shared_blocks n' mem size offsets nb_shared_blocks use_huge_page
  end.

(** @src/src/s4bxi_shared.cpp:367-371 s4bxi_shared_malloc_partial (the private blocks between
    shared ones, from [i_block]) *)
Fixpoint blocks_between (n : nat) (offsets : list Z) (i_block : Z) : ShM (list (Z * Z)) :=
  match n with
  | O => mret []
  | S n' =>
      a ← offset_at offsets (2 * i_block + 1);
      b ← offset_at offsets (2 * i_block + 2);
      rest ← blocks_between n' offsets (i_block + 1);
      mret ((a, b) :: rest)
  end.

(** @src/src/s4bxi_shared.cpp:364-374 s4bxi_shared_malloc_partial (the private blocks) *)
Definition private_blocks_of (size : Z) (offsets : list Z) (nb_shared_blocks : Z) :
    ShM (list (Z * Z)) :=
  first ← offset_at offsets 0;
  let before := if first >? 0 then [(0, first)] else [] in
  between ← blocks_between (Z.to_nat (nb_shared_blocks - 1)) offsets 0;
  let i_block := Z.max 0 (nb_shared_blocks - 1) in
  last ← offset_at offsets (2 * i_block + 1);
  let after := if last <? size then [(last, size)] else [] in
  mret (before ++ between ++ after).

(** @src/src/s4bxi_shared.cpp:268-281 s4bxi_shared_malloc_partial (the bogus files) *)
Definition create_bogus_files (use_huge_page : bool) : ShM unit :=
  huge ← gets sh_bogusfile_huge_page;
  _ ← when (use_huge_page && (huge =? -1))
        (let name := (shared_malloc_hugepage config ++ "/simgrid-shmalloc-XXXXXX")%string in
         r ← sys (Mkstemp name);
         _ ← modify (fun s => s <| sh_bogusfile_huge_page :=
                                     match r with inl fd => fd | inr _ => -1 end |>);
         _ ← sys (Unlink name);
         mret tt);
  bogusfile ← gets sh_bogusfile;
  when (bogusfile =? -1)
    (let name := "/tmp/simgrid-shmalloc-XXXXXX"%string in
     r ← sys (Mkstemp name);
     let fd := match r with inl fd => fd | inr _ => -1 end in
     _ ← modify (fun s => s <| sh_bogusfile := fd |>);
     _ ← sys (Unlink name);
     blocksize ← gets sh_blocksize;
     r ← sys (Ftruncate fd (swrap 64 blocksize));
     assert (bool_decide (r = inl 0)) (Abort "Could not write bogus file for shared malloc")).

(** @src/src/s4bxi_shared.cpp:226-382 s4bxi_shared_malloc_partial *)
Definition s4bxi_shared_malloc_partial (size : Z) (offsets : list Z) (nb_shared_blocks : Z) :
    ShM Z :=
  let use_huge_page := negb (bool_decide (shared_malloc_hugepage config = ""%string)) in
  let blocksize := shared_malloc_blocksize config in
  _ ← modify (fun s => s <| sh_blocksize := blocksize |>);
  allocated_size ←
    (if use_huge_page then
       _ ← assert (blocksize =? HUGE_PAGE_SIZE)
             (Abort "the block size of shared malloc should be equal to the size of a huge page");
       mret (add64 size (u64 (2 * blocksize)))
     else
       _ ← assert (blocksize mod PAGE_SIZE =? 0)
             (Abort "the block size of shared malloc should be a multiple of the page size");
       mret size);
  r ← sys (MmapAnonymous allocated_size);
  match r with
  | inr _ => fail (Abort "Failed to allocate memory")
  | inl allocated_ptr =>
      _ ← assert (negb use_huge_page || align_defined allocated_ptr HUGE_PAGE_SIZE)
            (Undefined "signed integer overflow");
      let mem := if use_huge_page then u64 (ALIGN_UP allocated_ptr HUGE_PAGE_SIZE)
                 else allocated_ptr in
      _ ← create_bogus_files use_huge_page;
      _ ← mmap_shared_blocks (Z.to_nat nb_shared_blocks) mem size offsets nb_shared_blocks
            use_huge_page;
      data ← new_data (mk_key_data "" (mk_shared_data (-1) 1));
      private_blocks ← private_blocks_of size offsets nb_shared_blocks;
      _ ← register_metadata mem
            (mk_metadata size allocated_size allocated_ptr private_blocks data);
      mret mem
  end.

(** ** Entry points *)

(** [::operator new(size)] *)
Definition operator_new (size : Z) : ShM Z :=
  r ← sys (OperatorNew size);
  match r with inl p => mret p | inr _ => fail (Exception "std::bad_alloc") end.
Definition operator_delete (ptr : Z) : ShM unit := _ ← sys (OperatorDelete ptr); mret tt.

(** @src/src/s4bxi_shared.cpp:405-416 s4bxi_shared_malloc *)
Definition s4bxi_shared_malloc (size : Z) (file : string) (line : Z) : ShM Z :=
  if (size >? 0) && (shared_malloc config =? SMT_LOCAL)
  then s4bxi_shared_malloc_local size file line
  else if shared_malloc config =? SMT_GLOBAL
  then s4bxi_shared_malloc_partial size [0; size] 1
  else operator_new size.

(** The sizes are compared as [double]s with the threshold. *)
(** @src/src/s4bxi_shared.cpp:386-386 s4bxi_shared_malloc_intercept *)
Definition below_threshold (size : Z) : bool :=
  deq (auto_shared_malloc_thresh config) (double_of_Z 0) ||
  dlt (double_of_Z size) (auto_shared_malloc_thresh config).

(** @src/src/s4bxi_shared.cpp:384-392 s4bxi_shared_malloc_intercept *)
Definition s4bxi_shared_malloc_intercept (size : Z) (file : string) (line : Z) : ShM Z :=
  if below_threshold size then operator_new size else s4bxi_shared_malloc size file line.

(** @src/src/s4bxi_shared.cpp:394-403 s4bxi_shared_calloc_intercept *)
Definition s4bxi_shared_calloc_intercept (num_elm elem_size : Z) (file : string) (line : Z) :
    ShM Z :=
  let bytes := u64 (elem_size * num_elm) in
  if below_threshold bytes then
    ptr ← operator_new bytes;
    _ ← sys (Memset ptr 0 bytes);
    mret ptr
  else s4bxi_shared_malloc bytes file line.

(** ** Queries *)

(** The offset is left alone when the answer is 0. *)
(** @src/src/s4bxi_shared.cpp:418-444 s4bxi_is_shared *)
Definition s4bxi_is_shared (ptr : Z) : ShM (option (list (Z * Z) * Z)) :=
  metadata ← gets sh_allocs_metadata;
  match metadata with
  | [] => mret None
  | _ =>
      if (shared_malloc config =? SMT_LOCAL) || (shared_malloc config =? SMT_GLOBAL) then
        let '(before, low) := omap_lower_bound ptr None metadata in
        let exact := match low with
                     | Some (base, meta) => if base =? ptr then Some meta else None
                     | None => None
                     end in
        match exact, before with
        | Some meta, _ => mret (Some (md_private_blocks meta, 0))
        | None, None => mret None
        | None, Some (base, meta) =>
            if ptr <? add64 base (md_size meta) then
              _ ← assert (ptr >? base) (Abort "bug in the shared memory metadata");
              mret (Some (md_private_blocks meta, sub64 ptr base))
            else mret None
        end
      else mret None
  end.

(** @src/src/s4bxi_shared.cpp:451-452 shift_and_frame_private_blocks *)
Definition shift_and_frame (offset buff_size : Z) (block : Z * Z) : Z * Z :=
  (Z.min (Z.max 0 (sub64 block.1 offset)) buff_size,
   Z.min (Z.max 0 (sub64 block.2 offset)) buff_size).

(** @src/src/s4bxi_shared.cpp:446-457 shift_and_frame_private_blocks *)
Definition shift_and_frame_private_blocks (vec : list (Z * Z)) (offset buff_size : Z) :
    list (Z * Z) :=
  filter (fun b => 0 < b.2 /\ b.1 < buff_size) (shift_and_frame offset buff_size <$> vec).

(** The two indices only move forward: what is left of each vector. *)
(** @src/src/s4bxi_shared.cpp:459-482 merge_private_blocks *)
Fixpoint merge_private_blocks (src : list (Z * Z)) : list (Z * Z) -> list (Z * Z) :=
  fix merge_dst (dst : list (Z * Z)) : list (Z * Z) :=
  match src, dst with
  | s :: src', d :: dst' =>
      if s.2 <=? d.1 then merge_private_blocks src' dst
      else if d.2 <=? s.1 then merge_dst dst'
      else (Z.max s.1 d.1, Z.min s.2 d.2)
           :: (if s.2 <? d.2 then merge_private_blocks src' dst else merge_dst dst')
  | _, _ => []
  end.

(** ** Freeing *)

(** @src/src/s4bxi_shared.cpp:484-525 s4bxi_shared_free *)
Definition s4bxi_shared_free (ptr : Z) : ShM unit :=
  metadata ← gets sh_allocs_metadata;
  if shared_malloc config =? SMT_LOCAL then
    match omap_find ptr metadata with
    | None => operator_delete ptr
    | Some meta =>
        data ← data_at (md_data meta);
        _ ← sys (Munmap (md_allocated_ptr meta) (md_allocated_size meta));
        _ ← set_count (md_data meta) (fun c => c - 1);
        data ← data_at (md_data meta);
        if sd_count (kd_second data) <=? 0 then
          _ ← sys (Close (sd_fd (kd_second data)));
          node ← gets (fun s => sh_allocs s !! kd_first data);
          node ← of_option node (Undefined "erase(end())");
          _ ← modify (fun s => s <| sh_allocs ::= delete (kd_first data) |>
                                 <| sh_datas ::= delete node |>);
          modify (fun s => s <| sh_allocs_metadata ::= omap_erase ptr |>)
        else mret tt
    end
  else if shared_malloc config =? SMT_GLOBAL then
    match omap_find ptr metadata with
    | None => operator_delete ptr
    | Some meta =>
        _ ← set_count (md_data meta) (fun c => c - 1);
        _ ← sys (Munmap ptr (md_size meta));
        data ← data_at (md_data meta);
        if sd_count (kd_second data) =? 0 then
          _ ← modify (fun s => s <| sh_datas ::= delete (md_data meta) |>);
          modify (fun s => s <| sh_allocs_metadata ::= omap_erase ptr |>)
        else mret tt
    end
  else operator_delete ptr.

(** ** Shared calls *)

(** @src/src/s4bxi_shared.cpp:530-530 s4bxi_shared_known_call *)
Definition call_location (func input : string) : string := (func ++ ":" ++ input)%string.

(** @src/src/s4bxi_shared.cpp:528-532 s4bxi_shared_known_call *)
Definition s4bxi_shared_known_call (func input : string) : ShM bool :=
  gets (fun s => bool_decide (is_Some (sh_calls s !! call_location func input))).

(** @src/src/s4bxi_shared.cpp:534-539 s4bxi_shared_get_call *)
Definition s4bxi_shared_get_call (func input : string) : ShM Z :=
  r ← gets (fun s => sh_calls s !! call_location func input);
  of_option r (Exception "std::out_of_range").

(** @src/src/s4bxi_shared.cpp:541-546 s4bxi_shared_set_call *)
Definition s4bxi_shared_set_call (func input : string) (data : Z) : ShM Z :=
  _ ← modify (fun s => s <| sh_calls ::= <[call_location func input := data]> |>);
  mret data.

(** @src/include/s4bxi/s4bxi_shared.h:63-66 S4BXI_SHARED_CALL: [call] is the call of [func] *)
Definition S4BXI_SHARED_CALL (func input : string) (call : ShM Z) : ShM Z :=
  known ← s4bxi_shared_known_call func input;
  if (known : bool) then s4bxi_shared_get_call func input
  else data ← call; s4bxi_shared_set_call func input data.

End Shared.
