(* ===== verification/SharedSpec.v ===== *)
(** What [Shared.v] promises: blocks and their alignment, the part of an allocation that is
    folded, the private blocks of its metadata, finding the allocation of an address, and the
    references to a location. *)
From S2P Require Import Prelude OMap Portals World Shared.
From Stdlib Require Import Sorting.Sorted.

(** ** Blocks *)

(** [x] is in one of the blocks. *)
Definition covered (x : Z) (l : list (Z * Z)) : Prop := Exists (fun b => b.1 <= x < b.2) l.

(** The blocks are not empty, in order, apart from one another, and start from [lo]. *)
Fixpoint blocks_ok (lo : Z) (l : list (Z * Z)) : Prop :=
  match l with
  | [] => True
  | b :: l' => lo <= b.1 < b.2 /\ blocks_ok b.2 l'
  end.

Lemma covered_nil x : covered x [] <-> False.
Proof. apply Exists_nil. Qed.
Lemma covered_cons x b l : covered x (b :: l) <-> b.1 <= x < b.2 \/ covered x l.
Proof. apply Exists_cons. Qed.
Lemma covered_app x l1 l2 : covered x (l1 ++ l2) <-> covered x l1 \/ covered x l2.
Proof. apply Exists_app. Qed.

Lemma covered_elem x l : covered x l <-> exists b, b ∈ l /\ b.1 <= x < b.2.
Proof. apply Exists_exists. Qed.

Lemma blocks_ok_weaken lo lo' l : lo' <= lo -> blocks_ok lo l -> blocks_ok lo' l.
Proof. destruct l as [|b l]; simpl; [done|]. intros ? [? ?]. split; [lia|done]. Qed.

Lemma blocks_ok_elem lo l b : blocks_ok lo l -> b ∈ l -> lo <= b.1 < b.2.
Proof.
  revert lo. induction l as [|c l IH]; intros lo; [by intros _ ?%not_elem_of_nil|].
  intros [Hc Hl] [->|Hb]%elem_of_cons; [done|].
  pose proof (IH _ Hl Hb). lia.
Qed.

Lemma blocks_ok_covered lo l x : blocks_ok lo l -> covered x l -> lo <= x.
Proof. intros Hl (b & Hb & ?)%covered_elem. pose proof (blocks_ok_elem _ _ _ Hl Hb). lia. Qed.

(** ** The intersection of two lists of blocks *)

Lemma merge_nil_r src : merge_private_blocks src [] = [].
Proof. by destruct src. Qed.

Lemma merge_cons s src d dst :
  merge_private_blocks (s :: src) (d :: dst) =
  if s.2 <=? d.1 then merge_private_blocks src (d :: dst)
  else if d.2 <=? s.1 then merge_private_blocks (s :: src) dst
  else (Z.max s.1 d.1, Z.min s.2 d.2)
       :: (if s.2 <? d.2 then merge_private_blocks src (d :: dst)
           else merge_private_blocks (s :: src) dst).
Proof. done. Qed.

(** Induction on what is left of both lists. *)
Lemma merge_ind (P : list (Z * Z) -> list (Z * Z) -> Prop) :
  (forall dst, P [] dst) -> (forall src, P src []) ->
  (forall s src d dst, P src (d :: dst) -> P (s :: src) dst -> P (s :: src) (d :: dst)) ->
  forall src dst, P src dst.
Proof.
  intros Hl Hr Hc. induction src as [|s src IH]; [done|].
  induction dst as [|d dst IH']; auto.
Qed.

Lemma merge_blocks_ok src dst lo1 lo2 :
  blocks_ok lo1 src -> blocks_ok lo2 dst ->
  blocks_ok (Z.max lo1 lo2) (merge_private_blocks src dst).
Proof.
  revert src dst lo1 lo2. refine (merge_ind _ _ _ _); [by intros []|by intros [|]|].
  intros s src d dst IH1 IH2 lo1 lo2 [Hs Hsrc] [Hd Hdst]. rewrite merge_cons.
  assert (blocks_ok (Z.max s.2 lo2) (merge_private_blocks src (d :: dst))) as H1.
  { apply IH1; [done|]. by split. }
  assert (blocks_ok (Z.max lo1 d.2) (merge_private_blocks (s :: src) dst)) as H2.
  { apply IH2; [|done]. by split. }
  destruct (Z.leb_spec s.2 d.1); [by apply (blocks_ok_weaken (Z.max s.2 lo2)); [lia|]|].
  destruct (Z.leb_spec d.2 s.1); [by apply (blocks_ok_weaken (Z.max lo1 d.2)); [lia|]|].
  split; [simpl; lia|].
  destruct (Z.ltb_spec s.2 d.2);
    [apply (blocks_ok_weaken (Z.max s.2 lo2)) | apply (blocks_ok_weaken (Z.max lo1 d.2))];
    simpl; (done || lia).
Qed.

Lemma merge_covers src dst lo1 lo2 x :
  blocks_ok lo1 src -> blocks_ok lo2 dst ->
  covered x (merge_private_blocks src dst) <-> covered x src /\ covered x dst.
Proof.
  revert src dst lo1 lo2. refine (merge_ind _ _ _ _).
  - intros [] *; rewrite !covered_nil; intuition.
  - intros *. rewrite merge_nil_r, !covered_nil. intuition.
  - intros s src d dst IH1 IH2 lo1 lo2 Hs Hd. rewrite merge_cons.
    pose proof Hs as [? Hs']. pose proof Hd as [? Hd'].
    specialize (IH1 s.2 lo2 Hs' Hd). specialize (IH2 lo1 d.2 Hs Hd').
    pose proof (blocks_ok_covered _ _ x Hs'). pose proof (blocks_ok_covered _ _ x Hd').
    rewrite !covered_cons in *.
    destruct (Z.leb_spec s.2 d.1); [rewrite IH1; intuition lia|].
    destruct (Z.leb_spec d.2 s.1); [rewrite IH2; intuition lia|].
    rewrite covered_cons. cbn [fst snd].
    destruct (Z.ltb_spec s.2 d.2); [rewrite IH1|rewrite IH2]; intuition lia.
Qed.

(** C27. The merge of the private blocks of two buffers is their intersection: it covers exactly the
    bytes both lists cover, and its blocks are again ordered, disjoint and not empty. *)
Theorem merge_intersection lo src dst :
  blocks_ok lo src -> blocks_ok lo dst ->
  blocks_ok lo (merge_private_blocks src dst) /\
  forall x, covered x (merge_private_blocks src dst) <-> covered x src /\ covered x dst.
Proof.
  intros Hs Hd. split; [rewrite <- (Z.max_id lo); by apply merge_blocks_ok|].
  intros x. by apply (merge_covers src dst lo lo).
Qed.

(** ** Shifting and framing *)

(** The subtractions of [shift_and_frame] are those of [size_t]: a bound before the offset wraps
    to a large number, which is then cut at the size. *)
Lemma frame_bound offset size a :
  0 <= a < 2 ^ 64 -> 0 <= offset -> 0 <= size -> offset + size <= 2 ^ 64 ->
  Z.min (Z.max 0 (sub64 a offset)) size = if decide (offset <= a) then Z.min (a - offset) size
                                          else size.
Proof.
  intros Ha Ho Hs Hos. unfold sub64, wrap. case_decide.
  - rewrite Z.mod_small by lia. lia.
  - rewrite <- (Z.mod_add _ 1), Z.mod_small by lia. lia.
Qed.

(** Shifting the private blocks of an allocation to a buffer that starts at [offset] and has
    [size] bytes keeps, of each block that starts in the buffer or after its start, exactly the
    bytes in the buffer; a block that starts before the buffer is dropped whole, even when it
    reaches into it. *)
Theorem shift_and_frame_exact vec offset size lo x :
  blocks_ok lo vec -> 0 <= lo -> Forall (fun b => b.2 < 2 ^ 64) vec ->
  0 <= offset -> 0 <= size -> offset + size <= 2 ^ 64 -> 0 <= x ->
  covered x (shift_and_frame_private_blocks vec offset size) <->
  x < size /\ covered (offset + x) (filter (fun b => offset <= b.1) vec).
Proof.
  intros Hvec Hlo Hmax Ho Hs Hos Hx. unfold shift_and_frame_private_blocks.
  rewrite !covered_elem. split.
  - intros (r & [Hr (b & -> & Hb)%list_elem_of_fmap]%list_elem_of_filter & Hxr).
    pose proof (blocks_ok_elem _ _ _ Hvec Hb) as Hb'.
    rewrite Forall_forall in Hmax. specialize (Hmax b Hb). simpl in Hmax.
    unfold shift_and_frame in Hr, Hxr. cbn [fst snd] in Hr, Hxr.
    rewrite !frame_bound in Hr, Hxr by lia. repeat case_decide; try lia.
    split; [lia|]. exists b. rewrite list_elem_of_filter. repeat split; (done || lia).
  - intros [Hxs (b & [Hob Hb]%list_elem_of_filter & Hxb)].
    pose proof (blocks_ok_elem _ _ _ Hvec Hb) as Hb'.
    rewrite Forall_forall in Hmax. specialize (Hmax b Hb). simpl in Hmax.
    exists (shift_and_frame offset size b). unfold shift_and_frame. cbn [fst snd].
    rewrite !frame_bound by lia. repeat case_decide; try lia.
    split; [|lia]. rewrite list_elem_of_filter. cbn [fst snd]. split; [lia|].
    rewrite list_elem_of_fmap. exists b. unfold shift_and_frame.
    rewrite !frame_bound by lia. repeat case_decide; try lia. done.
Qed.

(** ** Alignment *)

Lemma land_align n k : 0 <= k -> Z.land n (- 2 ^ k) = n - n mod 2 ^ k.
Proof.
  intros Hk. replace (- 2 ^ k) with (Z.lnot (Z.ones k)) by (rewrite Z.ones_equiv; unfold Z.lnot; lia).
  rewrite <- Z.ldiff_land, Z.ldiff_ones_r, Z.shiftl_mul_pow2, Z.shiftr_div_pow2 by done.
  pose proof (Z.div_mod n (2 ^ k) ltac:(lia)). lia.
Qed.

Lemma swrap_small w z : 0 < w -> - 2 ^ (w - 1) <= z < 2 ^ (w - 1) -> swrap w z = z.
Proof.
  intros Hw Hz. unfold swrap, wrap.
  assert (2 ^ w = 2 * 2 ^ (w - 1)) as Hp.
  { rewrite <- Z.pow_succ_r by lia. f_equal. lia. }
  destruct (decide (0 <= z)).
  - rewrite Z.mod_small by lia. case_decide; lia.
  - rewrite <- (Z.mod_add _ 1), Z.mod_small by lia. case_decide; lia.
Qed.

(** The greatest multiple of [2 ^ k] not above [n], and the smallest not below it. *)
Definition below (n k : Z) : Z := n - n mod 2 ^ k.
Definition above (n k : Z) : Z := below (n + 2 ^ k - 1) k.

Lemma align_down_below n k : 0 <= k < 62 -> 0 <= n < 2 ^ 63 -> ALIGN_DOWN n (2 ^ k) = below n k.
Proof.
  intros Hk Hn. unfold ALIGN_DOWN.
  assert (2 ^ k <= 2 ^ 62) by (apply Z.pow_le_mono_r; lia).
  rewrite !swrap_small by lia. apply land_align. lia.
Qed.

Lemma align_up_above n k :
  0 <= k < 62 -> 0 <= n < 2 ^ 63 -> ALIGN_UP n (2 ^ k) = above n k.
Proof.
  intros Hk Hn. unfold ALIGN_UP.
  assert (2 ^ k <= 2 ^ 62) by (apply Z.pow_le_mono_r; lia).
  rewrite !swrap_small by lia. apply land_align. lia.
Qed.

Lemma below_spec n k : 0 <= k -> below n k <= n < below n k + 2 ^ k.
Proof. intros Hk. unfold below. pose proof (Z.mod_pos_bound n (2 ^ k) ltac:(lia)). lia. Qed.

Lemma above_spec n k : 0 <= k -> above n k - 2 ^ k < n <= above n k.
Proof. intros Hk. unfold above. pose proof (below_spec (n + 2 ^ k - 1) k Hk). lia. Qed.

Lemma below_multiple n k : 0 <= k -> (2 ^ k | below n k).
Proof.
  intros Hk. exists (n / 2 ^ k). unfold below.
  pose proof (Z.div_mod n (2 ^ k) ltac:(lia)). lia.
Qed.

Lemma below_greatest n k j m : 0 <= j <= k -> (2 ^ k | m) -> m <= n -> m <= below n j.
Proof.
  intros Hj [q ->] Hn. unfold below.
  replace (2 ^ k) with (2 ^ (k - j) * 2 ^ j) in *
    by (rewrite <- Z.pow_add_r by lia; f_equal; lia).
  pose proof (Z.div_mod n (2 ^ j) ltac:(lia)).
  assert (q * 2 ^ (k - j) <= n / 2 ^ j) by (apply Z.div_le_lower_bound; lia). nia.
Qed.

Lemma above_multiple n k : 0 <= k -> (2 ^ k | above n k).
Proof. apply below_multiple. Qed.

Lemma above_least n k j m : 0 <= j <= k -> (2 ^ k | m) -> n <= m -> above n j <= m.
Proof.
  intros Hj [q ->] Hn. unfold above, below.
  replace (2 ^ k) with (2 ^ (k - j) * 2 ^ j) in *
    by (rewrite <- Z.pow_add_r by lia; f_equal; lia).
  pose proof (Z.div_mod (n + 2 ^ j - 1) (2 ^ j) ltac:(lia)).
  assert ((n + 2 ^ j - 1) / 2 ^ j < q * 2 ^ (k - j) + 1).
  { apply Z.div_lt_upper_bound; [lia|]. nia. }
  nia.
Qed.

(** ** What a partial allocation folds *)

Section Partial.
Context `{OS} `{SharedMallocType} (config : s4bxi_config) (fuel : nat).

(** [a] is in memory that one of the calls mapped to the bogus file. *)
Definition mapped (l : list syscall) (a : Z) : Prop :=
  exists pos len huge fd, MmapFixed pos len huge fd ∈ l /\ pos <= a < pos + len.

Lemma mapped_nil a : mapped [] a <-> False.
Proof. split; [|done]. by intros (? & ? & ? & ? & ?%not_elem_of_nil & _). Qed.

Lemma mapped_app l1 l2 a : mapped (l1 ++ l2) a <-> mapped l1 a \/ mapped l2 a.
Proof.
  unfold mapped. split.
  - intros (p & n & h & fd & [?|?]%elem_of_app & ?); [left|right]; by exists p, n, h, fd.
  - intros [(p & n & h & fd & ? & ?)|(p & n & h & fd & ? & ?)]; exists p, n, h, fd;
      rewrite elem_of_app; auto.
Qed.

Lemma mapped_one p n h fd a : mapped [MmapFixed p n h fd] a <-> p <= a < p + n.
Proof.
  split; [|intros ?; exists p, n, h, fd; split; [by apply list_elem_of_singleton|done]].
  by intros (? & ? & ? & ? & [= -> -> -> ->]%list_elem_of_singleton & ?).
Qed.

(** From [s] to [s'] the calls [l] are made, and neither the block size nor the tables change. *)
Definition emits (s s' : shared_state) (l : list syscall) : Prop :=
  sh_trace s' = l ++ sh_trace s /\ sh_blocksize s' = sh_blocksize s /\
  sh_allocs_metadata s' = sh_allocs_metadata s /\ sh_next s' = sh_next s /\
  sh_datas s' = sh_datas s.

Lemma emits_nil s : emits s s [].
Proof. done. Qed.

Lemma emits_app s1 s2 s3 l1 l2 : emits s1 s2 l1 -> emits s2 s3 l2 -> emits s1 s3 (l2 ++ l1).
Proof.
  intros (T1 & B1 & M1 & N1 & D1) (T2 & B2 & M2 & N2 & D2). unfold emits.
  by rewrite T2, T1, B2, B1, M2, M1, N2, N1, D2, D1, app_assoc.
Qed.

Lemma sys_emits c s r s' : sys c s = Ok r s' -> emits s s' [c].
Proof. intros [= _ <-]. done. Qed.

Lemma mmap_fixed_emits pos len huge fd s u s' :
  mmap_fixed pos len huge fd s = Ok u s' -> emits s s' [MmapFixed pos len huge fd].
Proof. unfold mmap_fixed. intros Hr. inv_run. by eapply sys_emits. Qed.

Lemma when_mmap_emits (b : bool) pos len huge fd s u s' :
  when b (mmap_fixed pos len huge fd) s = Ok u s' ->
  exists l, emits s s' l /\ forall a, mapped l a <-> b = true /\ pos <= a < pos + len.
Proof.
  destruct b; simpl; intros Hr.
  - eexists. split; [by eapply mmap_fixed_emits|]. intros a. rewrite mapped_one. intuition done.
  - inv_run. exists []. split; [done|]. intros a. rewrite mapped_nil. intuition done.
Qed.

Lemma when_range_emits (b : bool) mem p q huge fd s u s' :
  0 <= mem -> 0 <= p -> (b = true -> p <= q /\ mem + q < 2 ^ 64) ->
  when b (mmap_fixed (add64 mem p) (sub64 q p) huge fd) s = Ok u s' ->
  exists l, emits s s' l /\ forall x, mapped l (mem + x) <-> b = true /\ p <= x < q.
Proof.
  intros Hm Hp Hb (l & Hl & Hx)%when_mmap_emits. exists l. split; [done|].
  intros x. rewrite Hx. destruct b; [|intuition done]. destruct (Hb eq_refl).
  unfold add64, sub64. rewrite !wrap_small by lia. intuition lia.
Qed.

Lemma when_when (a b : bool) (c : ShM unit) s :
  when a (when b c) s = when (a && b) c s.
Proof. by destruct a. Qed.

Lemma mmap_blocks_emits n mem bs offset stop huge fd s u s' :
  0 <= mem -> mem + stop < 2 ^ 64 -> 0 < bs -> 0 <= offset ->
  (bs | offset) -> (bs | stop) ->
  mmap_blocks n mem bs offset stop huge fd s = Ok u s' ->
  exists l, emits s s' l /\ forall x, mapped l (mem + x) <-> offset <= x < stop.
Proof.
  intros Hmem Hstop Hbs Ho Hdo Hds. revert offset s Ho Hdo.
  induction n as [|n IH]; intros offset s Ho Hdo; cbn [mmap_blocks];
    destruct (Z.ltb_spec offset stop); intros Hr; inv_run;
    try (exists []; split; [done|]; intros x; rewrite mapped_nil; lia).
  assert (offset + bs <= stop) as Hnext.
  { destruct Hdo as [p ->], Hds as [q ->]. assert (p < q) by nia. nia. }
  apply mmap_fixed_emits in Hr0. unfold add64 in *.
  rewrite (wrap_small 64 (mem + offset)) in Hr0 by lia.
  rewrite (wrap_small 64 (offset + bs)) in Hr by lia.
  apply IH in Hr as (l & Hl & Hx); [|lia|by apply Z.divide_add_r; [|apply Z.divide_refl]].
  eexists. split; [by eapply emits_app|]. intros x.
  rewrite mapped_app, mapped_one, Hx. lia.
Qed.

(** The bytes of a shared block that end up folded: its whole pages, and the rest of the last page
    of the allocation when the block reaches its end. *)
Definition folded (size start stop x : Z) : Prop :=
  above start 12 <= x < (if stop =? size then size else below stop 12).

(** The block reaches the end of the allocation, but holds no whole block of the bogus file. *)
Definition short_tail (k size start stop : Z) : Prop :=
  stop = size /\ below stop k < above start k.

Lemma PAGE_SIZE_pow : PAGE_SIZE = 2 ^ 12.
Proof. done. Qed.

(** The three ranges [mmap_shared_block] maps, of which [pu, pd] are page bounds and [bu, bd] block
    bounds, make one. *)
Lemma fold_ranges pu pd bu bd hi x :
  pu <= bu -> bd <= pd -> pd <= hi -> bu <= bd \/ (pd <= bu /\ hi = pd) ->
  (((Z.min bu pd <=? bd) && (hi >? bd)) = true /\ bd <= x < hi) \/
  ((pu <? Z.min bu pd) = true /\ pu <= x < Z.min bu pd) \/ bu <= x < bd <-> pu <= x < hi.
Proof.
  intros ? ? ? Hc. rewrite andb_true_iff, Z.leb_le, Z.gtb_lt, Z.ltb_lt.
  destruct Hc; [rewrite Z.min_l by lia|rewrite Z.min_r by lia]; lia.
Qed.

Lemma if_ltb_min a b : (if a <? b then a else b) = Z.min a b.
Proof. destruct (Z.ltb_spec a b); lia. Qed.

Lemma mmap_shared_block_emits k mem size start stop huge s u s' :
  12 <= k < 62 -> sh_blocksize s = 2 ^ k ->
  0 <= mem -> mem + size < 2 ^ 64 -> 0 <= start < stop -> stop <= size -> size < 2 ^ 62 ->
  ~ short_tail k size start stop ->
  mmap_shared_block fuel mem size start stop huge s = Ok u s' ->
  exists l, emits s s' l /\ forall x, mapped l (mem + x) <-> folded size start stop x.
Proof.
  intros Hk Hbs Hmem Hms Hstart Hss Hsize Htail. unfold mmap_shared_block. intros Hr. inv_run.
  rewrite Hbs, PAGE_SIZE_pow in *.
  rewrite !align_up_above, !align_down_below in * by lia.
  assert (2 ^ 12 <= 2 ^ k <= 2 ^ 61) by (split; apply Z.pow_le_mono_r; lia).
  pose proof (above_spec start k ltac:(lia)). pose proof (below_spec stop k ltac:(lia)).
  pose proof (above_spec start 12 ltac:(lia)). pose proof (below_spec stop 12 ltac:(lia)).
  pose proof (above_least start k 12 _ ltac:(lia) (above_multiple start k ltac:(lia)) ltac:(lia)).
  pose proof (below_greatest stop k 12 _ ltac:(lia) (below_multiple stop k ltac:(lia)) ltac:(lia)).
  assert (0 <= below stop k).
  { unfold below. pose proof (Z.mod_le stop (2 ^ k) ltac:(lia) ltac:(lia)). lia. }
  assert (above start k <= below stop k \/ stop <= above start k) as Hcase.
  { destruct (decide (above start k <= stop)); [left|lia].
    apply (below_greatest _ k); [lia|apply above_multiple; lia|done]. }
  rewrite !(wrap_small 64) in * by lia. rewrite (swrap_small 64 (above start k)) in * by lia.
  rewrite when_when in Hr. rewrite if_ltb_min in *. unfold folded.
  assert (exists hi, hi = (if stop =? size then size else below stop 12)) as [hi Ehi] by eauto.
  rewrite <- Ehi in *.
  assert (below stop 12 <= hi <= size /\
          (above start k <= below stop k \/ (below stop 12 <= above start k /\ hi = below stop 12)))
    as [? Hranges].
  { unfold short_tail in Htail. destruct (Z.eqb_spec stop size); lia. }
  clear Ehi Hcase Htail.
  match goal with Hb : mmap_blocks _ _ _ _ _ _ _ _ = _ |- _ =>
    apply mmap_blocks_emits in Hb as (l1 & He1 & Hx1);
      [|lia|lia|lia|lia|by apply above_multiple; lia|by apply below_multiple; lia] end.
  apply when_range_emits in Hr as (l3 & He3 & Hx3); [|lia|lia|lia].
  match goal with Hb : when _ _ _ = _ |- _ =>
    apply when_range_emits in Hb as (l2 & He2 & Hx2); [|lia|lia|lia] end.
  exists (l3 ++ l2 ++ l1). split; [eapply emits_app; [eapply emits_app|]; eauto|].
  intros x. rewrite !mapped_app, Hx1, Hx2, Hx3. apply fold_ranges; (done || lia).
Qed.

(** The caller's array: the bounds of each block, in order. *)
Fixpoint flatten (blocks : list (Z * Z)) : list Z :=
  match blocks with [] => [] | b :: blocks' => b.1 :: b.2 :: flatten blocks' end.

Lemma flatten_app l1 l2 : flatten (l1 ++ l2) = flatten l1 ++ flatten l2.
Proof. induction l1 as [|b l1 IH]; [done|]. cbn. by rewrite IH. Qed.

Lemma length_flatten l : length (flatten l) = (2 * length l)%nat.
Proof. induction l; cbn; lia. Qed.

Lemma offset_at_flatten before after j v :
  after !! j = Some v ->
  forall pre s, flatten before = pre ->
  offset_at (pre ++ after) (2 * Z.of_nat (length before) + Z.of_nat j) s = Ok v s.
Proof.
  intros Hj pre s <-. unfold offset_at.
  rewrite (proj2 (Z.leb_le 0 _)) by lia. rewrite lookup_app_r by (rewrite length_flatten; lia).
  rewrite length_flatten.
  replace (Z.to_nat _ - 2 * length before)%nat with j by lia. by rewrite Hj.
Qed.

(** Each block starts after the end of the one before it, and the last one ends in the
    allocation. *)
Fixpoint apart (lo size : Z) (l : list (Z * Z)) : Prop :=
  match l with
  | [] => True
  | b :: l' => lo <= b.1 < b.2 /\ b.2 <= size /\ apart (b.2 + 1) size l'
  end.

Lemma apart_blocks_ok lo size l : apart lo size l -> blocks_ok lo l.
Proof.
  revert lo. induction l as [|b l IH]; intros lo; [done|]. intros (? & _ & Hl). split; [done|].
  apply (blocks_ok_weaken (b.2 + 1)); [lia|auto].
Qed.

Lemma offset_at_before before after j v i s :
  i = 2 * Z.of_nat (length before) + Z.of_nat j -> flatten after !! j = Some v ->
  offset_at (flatten (before ++ after)) i s = Ok v s.
Proof. intros -> Hv. rewrite flatten_app. by apply offset_at_flatten. Qed.

(** The check that a block ends before the next one starts. *)
Lemma next_checked before b after e s u s' :
  when (Z.of_nat (length before) <? Z.of_nat (length (before ++ b :: after)) - 1)
    (next ← offset_at (flatten (before ++ b :: after)) (2 * Z.of_nat (length before) + 2);
     assert (b.2 <? next) e) s = Ok u s' ->
  s' = s /\ match after with [] => True | c :: _ => b.2 < c.1 end.
Proof.
  rewrite length_app. cbn [length]. destruct after as [|c after]; cbn [length].
  - rewrite (proj2 (Z.ltb_ge _ _)) by lia. intros Hr. simpl in Hr. by inv_run.
  - rewrite (proj2 (Z.ltb_lt _ _)) by lia. simpl when.
    rewrite (bind_run _ _ s c.1 s)
      by (apply (offset_at_before _ _ 2); [lia|done]).
    intros [? ->]%assert_Ok. split; [done|lia].
Qed.

Lemma apart_weaken lo lo' size l : lo' <= lo -> apart lo size l -> apart lo' size l.
Proof. destruct l as [|b l]; simpl; [done|]. intuition lia. Qed.

Lemma mmap_shared_blocks_emits k mem size huge s u s' before after :
  12 <= k < 62 -> sh_blocksize s = 2 ^ k -> 0 <= mem -> mem + size < 2 ^ 64 -> size < 2 ^ 62 ->
  Forall (fun b => 0 <= b.1 /\ ~ short_tail k size b.1 b.2) after ->
  mmap_shared_blocks fuel (length after) mem size (flatten (before ++ after))
    (Z.of_nat (length (before ++ after))) huge s = Ok u s' ->
  (exists l, emits s s' l /\
     forall x, mapped l (mem + x) <-> Exists (fun b => folded size b.1 b.2 x) after) /\
  forall b rest, after = b :: rest -> apart b.1 size after.
Proof.
  intros Hk Hbs Hmem Hms Hsize. revert before s Hbs.
  induction after as [|b after IH]; intros before s Hbs Hafter Hr.
  { cbn [length mmap_shared_blocks] in Hr. inv_run. split; [|done].
    exists []. split; [done|]. intros x. by rewrite mapped_nil, Exists_nil. }
  apply Forall_cons in Hafter as [[Hb0 Htail] Hafter].
  cbn [length mmap_shared_blocks] in Hr.
  replace (Z.of_nat (length (before ++ b :: after)) - Z.of_nat (S (length after)))
    with (Z.of_nat (length before)) in Hr by (rewrite length_app; cbn [length]; lia).
  rewrite (bind_run _ _ s b.1 s) in Hr by (apply (offset_at_before _ _ 0); [lia|done]).
  rewrite (bind_run _ _ s b.2 s) in Hr by (apply (offset_at_before _ _ 1); [lia|done]).
  inv_run. apply next_checked in Hr2 as [-> Hnext].
  apply (mmap_shared_block_emits k) in Hr3 as (l & Hl & Hx); [|(done || lia)..].
  replace (before ++ b :: after) with ((before ++ [b]) ++ after) in Hr by by rewrite <- app_assoc.
  assert (sh_blocksize s3 = 2 ^ k) as Hbs' by (destruct Hl as (_ & -> & _); done).
  apply IH in Hr as [(l' & Hl' & Hx') Hap]; [|done..]. split.
  - exists (l' ++ l). split; [by eapply emits_app|].
    intros x. rewrite mapped_app, Exists_cons, Hx, Hx'. tauto.
  - intros ? ? [= <- <-]. simpl. split; [lia|]. split; [lia|].
    destruct after as [|c after]; [done|]. apply (apart_weaken c.1); [lia|]. by eapply Hap.
Qed.

(** ** The private blocks *)

Fixpoint final (b : Z * Z) (l : list (Z * Z)) : Z * Z :=
  match l with [] => b | c :: l' => final c l' end.

Lemma blocks_between_Ok before b after s :
  exists l, blocks_between (length after) (flatten (before ++ b :: after))
              (Z.of_nat (length before)) s = Ok l s /\
  forall lo size last, last = final b after -> apart lo size (b :: after) ->
  let l' := l ++ (if last.2 <? size then [(last.2, size)] else []) in
  blocks_ok b.2 l' /\
  forall x, b.1 <= x < size -> covered x l' <-> ~ covered x (b :: after).
Proof.
  revert before b. induction after as [|c after IH]; intros before b.
  - exists []. split; [done|]. intros lo size last -> (? & ? & _). cbn [app final].
    destruct (Z.ltb_spec b.2 size); simpl; (split; [lia|]); intros x ?;
      rewrite ?covered_cons, !covered_nil; cbn [fst snd]; lia.
  - destruct (IH (before ++ [b]) c) as (l & Hl & Hspec).
    exists ((b.2, c.1) :: l). split.
    { cbn [length blocks_between].
      rewrite (bind_run _ _ s b.2 s) by (apply (offset_at_before _ _ 1); [lia|done]).
      rewrite (bind_run _ _ s c.1 s) by (apply (offset_at_before _ _ 2); [lia|done]).
      replace (before ++ b :: c :: after) with ((before ++ [b]) ++ c :: after)
        by by rewrite <- app_assoc.
      replace (Z.of_nat (length before) + 1) with (Z.of_nat (length (before ++ [b])))
        by (rewrite length_app; cbn [length]; lia).
      by rewrite (bind_run _ _ _ _ _ Hl). }
    intros lo size last Hlast (Hb & Hbs & Hap).
    pose proof Hap as (Hc & _). destruct (Hspec (b.2 + 1) size last) as [Hok Hcov]; [|done|].
    { done. }
    cbn [app]. split.
    { split; [simpl; lia|]. simpl. apply (blocks_ok_weaken c.2); [simpl; lia|done]. }
    intros x Hx. pose proof (blocks_ok_covered _ _ x Hok) as Hlow.
    pose proof (blocks_ok_covered _ _ x (apart_blocks_ok _ _ _ Hap)) as Hlow'.
    specialize (Hcov x). rewrite covered_cons. rewrite (covered_cons x b). cbn [fst snd].
    assert (covered x (c :: after) -> c.1 <= x) as Hlow''.
    { intros Hcv. destruct Hap as (_ & ? & Hap). apply covered_cons in Hcv as [?|Hcv]; [lia|].
      pose proof (blocks_ok_covered _ _ x (apart_blocks_ok _ _ _ Hap) Hcv). lia. }
    destruct (decide (c.1 <= x)).
    + rewrite Hcov by lia. intuition lia.
    + assert (~ covered x (c :: after)) by (intros ?%Hlow''; lia).
      match goal with |- _ \/ ?P <-> _ => assert (~ P) by (intros ?%Hlow; lia) end.
      split; [intros [?|?] [?|?]; (done || lia)|].
      intros Hn. left. destruct (decide (b.2 <= x)); [lia|]. destruct Hn. left. lia.
Qed.

Lemma final_snoc b l : exists before, b :: l = before ++ [final b l].
Proof.
  revert b. induction l as [|c l IH]; intros b; [by exists []|].
  destruct (IH c) as [before E]. exists (b :: before). cbn. by rewrite E.
Qed.

Lemma private_blocks_run size b after s :
  exists l, private_blocks_of size (flatten (b :: after)) (Z.of_nat (length (b :: after))) s
              = Ok l s /\
  (apart 0 size (b :: after) ->
   blocks_ok 0 l /\ forall x, 0 <= x < size -> covered x l <-> ~ covered x (b :: after)).
Proof.
  unfold private_blocks_of.
  destruct (blocks_between_Ok [] b after s) as (between & Hbetween & Hspec).
  destruct (final_snoc b after) as [before Hfinal].
  rewrite (bind_run _ _ s b.1 s) by done.
  replace (Z.to_nat (Z.of_nat (length (b :: after)) - 1)) with (length after)
    by (cbn [length]; lia).
  rewrite (bind_run _ _ s between s) by exact Hbetween.
  rewrite (bind_run _ _ s (final b after).2 s).
  2: { match goal with |- offset_at _ ?i s = _ =>
         pose proof (offset_at_before before [final b after] 1 (final b after).2 i s) as Ho end.
       rewrite <- Hfinal in Ho. apply Ho; [|done].
       pose proof (f_equal length Hfinal) as Hlen. rewrite length_app in Hlen.
       cbn [length] in *. lia. }
  eexists. split; [done|]. intros Hap.
  destruct (Hspec 0 size _ eq_refl Hap) as [Hok Hcov]. destruct Hap as (Hb & _ & Hap).
  destruct (Z.gtb_spec b.1 0); cbn [app].
  - split.
    { split; [simpl; lia|]. simpl. apply (blocks_ok_weaken b.2); [lia|done]. }
    intros x Hx. rewrite covered_cons. cbn [fst snd]. destruct (decide (b.1 <= x)).
    + rewrite Hcov by lia. intuition lia.
    + split; [|lia]. intros _ [?|Hcv]%covered_cons; [lia|].
      pose proof (blocks_ok_covered _ _ x (apart_blocks_ok _ _ _ Hap) Hcv). lia.
  - split; [by apply (blocks_ok_weaken b.2); [lia|]|]. intros x Hx. apply Hcov. lia.
Qed.

Lemma private_blocks_Ok size blocks s l s' :
  private_blocks_of size (flatten blocks) (Z.of_nat (length blocks)) s = Ok l s' ->
  s' = s /\ blocks <> [] /\
  (apart 0 size blocks ->
   blocks_ok 0 l /\ forall x, 0 <= x < size -> covered x l <-> ~ covered x blocks).
Proof.
  destruct blocks as [|b after].
  { unfold private_blocks_of, offset_at. intros Hr. apply bind_Ok in Hr as (? & ? & Hr & _).
    by inv_run. }
  destruct (private_blocks_run size b after s) as (l' & -> & Hspec).
  by intros [= <- <-].
Qed.

(** ** A partial allocation *)

Lemma emits_not_mapped s s' c :
  emits s s' [c] -> (forall pos len huge fd, c <> MmapFixed pos len huge fd) ->
  exists l, emits s s' l /\ forall a, ~ mapped l a.
Proof.
  intros He Hc. exists [c]. split; [done|].
  intros a (pos & len & h & fd & E%list_elem_of_singleton & _). by apply (Hc pos len h fd).
Qed.

Lemma emits_nothing s1 s2 s3 :
  (exists l, emits s1 s2 l /\ forall a, ~ mapped l a) ->
  (exists l, emits s2 s3 l /\ forall a, ~ mapped l a) ->
  exists l, emits s1 s3 l /\ forall a, ~ mapped l a.
Proof.
  intros (l1 & E1 & H1) (l2 & E2 & H2). exists (l2 ++ l1). split; [by eapply emits_app|].
  intros a [?|?]%mapped_app; [by eapply H2|by eapply H1].
Qed.

Lemma emits_same s s' : emits s s' [] -> exists l, emits s s' l /\ forall a, ~ mapped l a.
Proof. intros He. exists []. split; [done|]. by intros a ?%mapped_nil. Qed.

Lemma create_bogus_files_emits huge s u s' :
  create_bogus_files config huge s = Ok u s' ->
  exists l, emits s s' l /\ forall a, ~ mapped l a.
Proof.
  unfold create_bogus_files. intros Hr. inv_run.
  assert (exists l, emits s s1 l /\ forall a, ~ mapped l a) as H1.
  { destruct huge, (Z.eqb_spec (sh_bogusfile_huge_page s) (-1)); simpl in Hr1; inv_run;
      try (by apply emits_same).
    repeat match goal with Hc : sys _ _ = _ |- _ => apply sys_emits in Hc end.
    eapply emits_nothing; [by eapply emits_not_mapped|].
    by eapply emits_not_mapped. }
  eapply emits_nothing; [exact H1|]. clear H1 Hr1.
  destruct (sh_bogusfile s1 =? -1); simpl in Hr; inv_run; [|by apply emits_same].
  repeat match goal with Hc : sys _ _ = _ |- _ => apply sys_emits in Hc end.
  eapply emits_nothing; [by eapply emits_not_mapped|].
  eapply emits_nothing; by eapply emits_not_mapped.
Qed.

(** What a call of [s4bxi_shared_malloc_partial] that returns has done. *)
Lemma malloc_partial_inv k size blocks s mem s' :
  shared_malloc_blocksize config = 2 ^ k -> 12 <= k < 62 -> size < 2 ^ 62 ->
  Forall (fun b => 0 <= b.1 /\ ~ short_tail k size b.1 b.2) blocks ->
  0 <= mem -> mem + size < 2 ^ 64 ->
  s4bxi_shared_malloc_partial config fuel size (flatten blocks) (Z.of_nat (length blocks)) s
    = Ok mem s' ->
  exists s1 l meta,
    emits (s <| sh_blocksize := 2 ^ k |>) s1 l /\
    (forall x, mapped l (mem + x) <-> Exists (fun b => folded size b.1 b.2 x) blocks) /\
    sh_trace s' = sh_trace s1 /\
    sh_allocs_metadata s' = omap_put mem meta (sh_allocs_metadata s) /\
    md_size meta = size /\ apart 0 size blocks /\ blocks <> [] /\
    blocks_ok 0 (md_private_blocks meta) /\
    forall x, 0 <= x < size ->
      (covered x (md_private_blocks meta) <-> ~ covered x blocks).
Proof.
  intros Hbs Hk Hsize Hblocks Hmem Hms. unfold s4bxi_shared_malloc_partial.
  set (use_huge := negb _). clearbody use_huge. rewrite Hbs. intros Hr. inv_run.
  assert (s1 = s <| sh_blocksize := 2 ^ k |>) as -> by (destruct use_huge; inv_run; done).
  match goal with Hc : sys (MmapAnonymous _) _ = _ |- _ => apply sys_emits in Hc end.
  destruct a1 as [allocated_ptr|]; [|done]. inv_run.
  set (mem := if use_huge then _ else _) in *. clearbody mem.
  match goal with Hc : create_bogus_files _ _ _ = _ |- _ =>
    apply create_bogus_files_emits in Hc as (l1 & E1 & N1) end.
  match goal with Ha : emits _ _ [MmapAnonymous _] |- _ => pose proof Ha as E0 end.
  pose proof (emits_app _ _ _ _ _ E0 E1) as E01.
  rewrite Nat2Z.id in *.
  match goal with Hc : mmap_shared_blocks _ _ _ _ _ _ _ ?s3 = _ |- _ =>
    assert (sh_blocksize s3 = 2 ^ k) by (by destruct E01 as (_ & -> & _));
    apply (mmap_shared_blocks_emits k mem size use_huge s3 _ _ [] blocks) in Hc
      as [(l2 & E2 & M2) Hap]; [|done..] end.
  match goal with Hc : private_blocks_of _ _ _ _ = _ |- _ =>
    apply private_blocks_Ok in Hc as (-> & Hne & Hprivate) end.
  assert (apart 0 size blocks) as Hap0.
  { destruct blocks as [|b rest]; [done|]. apply (apart_weaken b.1); [|by eapply Hap].
    apply Forall_cons in Hblocks as [[? _] _]. lia. }
  destruct (Hprivate Hap0) as [Hok Hcov]. unfold new_data, register_metadata in *. inv_run.
  eexists _, _, _. split; [exact (emits_app _ _ _ _ _ E01 E2)|].
  assert (forall p l x, mapped (l2 ++ l ++ [MmapAnonymous p]) x <-> mapped l2 x \/ mapped l x)
    as Hmapped.
  { intros p l x. rewrite !mapped_app. split; [|tauto].
    intros [?|[?|(? & ? & ? & ? & [=]%list_elem_of_singleton & _)]]; tauto. }
  split. { intros x. rewrite Hmapped, M2. split; [|tauto]. intros [?|?%N1]; done. }
  split; [done|]. split.
  { match type of E2 with emits _ ?s3 _ =>
      assert (sh_allocs_metadata s = sh_allocs_metadata s3) as -> end; [|reflexivity].
    destruct E2 as (_ & _ & -> & _), E01 as (_ & _ & -> & _). reflexivity. }
  split_and!; done.
Qed.

Lemma folded_shared size start stop x : 0 <= x < size -> folded size start stop x -> start <= x < stop.
Proof.
  intros Hx. unfold folded. pose proof (above_spec start 12). pose proof (below_spec stop 12).
  destruct (Z.eqb_spec stop size); lia.
Qed.


(** The metadata of a partial allocation hold the private blocks, in order: a byte of the
    allocation is in one of them exactly when it is in none of the shared blocks, so no folded
    byte is private. *)
Theorem partial_malloc_private k size blocks s mem s' :
  shared_malloc_blocksize config = 2 ^ k -> 12 <= k < 62 -> size < 2 ^ 62 ->
  Forall (fun b => 0 <= b.1 /\ ~ short_tail k size b.1 b.2) blocks ->
  0 <= mem -> mem + size < 2 ^ 64 ->
  StronglySorted Z.lt (sh_allocs_metadata s).*1 ->
  s4bxi_shared_malloc_partial config fuel size (flatten blocks) (Z.of_nat (length blocks)) s
    = Ok mem s' ->
  exists meta, omap_find mem (sh_allocs_metadata s') = Some meta /\ md_size meta = size /\
  blocks_ok 0 (md_private_blocks meta) /\
  forall x, 0 <= x < size ->
    (covered x (md_private_blocks meta) <-> ~ covered x blocks) /\
    (Exists (fun b => folded size b.1 b.2 x) blocks -> ~ covered x (md_private_blocks meta)).
Proof.
  intros Hbs Hk Hsize Hblocks Hmem Hms Hsorted Hr.
  destruct (malloc_partial_inv k _ _ _ _ _ Hbs Hk Hsize Hblocks Hmem Hms Hr)
    as (s1 & l & meta & _ & _ & _ & Hm & Hsz & Hap & _ & Hok & Hcov).
  exists meta. rewrite Hm, omap_find_put, decide_True by done.
  split_and!; [done..|]. intros x Hx. split; [by apply Hcov|]. intros Hf Hp.
  apply (proj1 (Hcov x Hx) Hp). unfold covered. eapply Exists_impl; [exact Hf|].
  intros b. by apply folded_shared.
Qed.

(** ** Returning *)

(** The kernel grants what is asked for. *)
Class Obliging : Prop := {
  obliging_fixed : forall pos len huge fd l, os_answer (MmapFixed pos len huge fd :: l) = inl pos;
  obliging_anonymous : forall len l, exists p,
    os_answer (MmapAnonymous len :: l) = inl p /\ 0 <= p < 2 ^ 62;
  obliging_ftruncate : forall fd size l, os_answer (Ftruncate fd size :: l) = inl 0 }.

(** [c] returns, and leaves the size of the blocks alone. *)
Definition returns {A} (c : ShM A) (s : shared_state) : Prop :=
  exists a s', c s = Ok a s' /\ sh_blocksize s' = sh_blocksize s.

Lemma returns_ret {A} (a : A) s : returns (mret a) s.
Proof. by exists a, s. Qed.

Lemma returns_bind {A B} (c : ShM A) (f : A -> ShM B) s :
  returns c s ->
  (forall a s', c s = Ok a s' -> sh_blocksize s' = sh_blocksize s -> returns (f a) s') ->
  returns (a ← c; f a) s.
Proof.
  intros (a & s1 & Hc & Hb) Hf. destruct (Hf a s1 Hc Hb) as (b & s2 & H2 & Hb2).
  exists b, s2. rewrite (bind_run _ _ _ _ _ Hc). split; [done|congruence].
Qed.

Lemma returns_assert b e s : b = true -> returns (assert b e) s.
Proof. intros ->. by exists tt, s. Qed.

Lemma returns_gets {A} (f : shared_state -> A) s : returns (gets f) s.
Proof. by eexists _, _. Qed.

Lemma returns_when (b : bool) c s : (b = true -> returns c s) -> returns (when b c) s.
Proof. destruct b; simpl; [auto|]. intros _. apply returns_ret. Qed.

Lemma returns_sys c s : returns (sys c) s.
Proof. by eexists _, _. Qed.

Lemma returns_modify f s : sh_blocksize (f s) = sh_blocksize s -> returns (modify f) s.
Proof. by eexists _, _. Qed.

Context `{!Obliging}.

Lemma returns_mmap_fixed pos len huge fd s : returns (mmap_fixed pos len huge fd) s.
Proof.
  unfold mmap_fixed. apply returns_bind; [apply returns_sys|]. intros r s' [= <- _] _.
  apply returns_assert. rewrite obliging_fixed. by apply bool_decide_eq_true.
Qed.

Lemma returns_mmap_blocks n mem bs offset stop huge fd s :
  0 < bs -> 0 <= offset -> stop + bs < 2 ^ 64 -> (stop - offset) / bs < Z.of_nat n ->
  returns (mmap_blocks n mem bs offset stop huge fd) s.
Proof.
  intros Hbs. revert offset s. induction n as [|n IH]; intros offset s Ho Hs Hn;
    cbn [mmap_blocks]; destruct (Z.ltb_spec offset stop); try apply returns_ret.
  - pose proof (Z.div_pos (stop - offset) bs). lia.
  - apply returns_bind; [apply returns_mmap_fixed|]. intros _ s1 _ _.
    unfold add64. rewrite (wrap_small 64 (offset + bs)) by lia. apply IH; [lia|done|].
    replace (stop - offset) with (stop - (offset + bs) + 1 * bs) in Hn by lia.
    rewrite Z.div_add in Hn by lia. lia.
Qed.

Lemma returns_mmap_shared_block k mem size start stop huge s :
  12 <= k < 62 -> sh_blocksize s = 2 ^ k -> 0 <= start < stop -> stop <= size ->
  size < 2 ^ 62 -> size / 2 ^ k < Z.of_nat fuel ->
  returns (mmap_shared_block fuel mem size start stop huge) s.
Proof.
  intros Hk Hbs Hstart Hss Hsize Hfuel. unfold mmap_shared_block.
  assert (2 ^ 12 <= 2 ^ k <= 2 ^ 61) by (split; apply Z.pow_le_mono_r; lia).
  apply returns_bind; [apply returns_gets|]. intros bs s1 [-> ->]%gets_Ok _. rewrite Hbs.
  do 2 (apply returns_bind; [apply returns_gets|]; intros ? s1 [-> ->]%gets_Ok _).
  apply returns_bind.
  { apply returns_assert. rewrite PAGE_SIZE_pow. unfold align_defined.
    rewrite !swrap_small by lia. lia. }
  intros _ s1 [_ ->]%assert_Ok _.
  pose proof (above_spec start k ltac:(lia)). pose proof (below_spec stop k ltac:(lia)).
  assert (0 <= below stop k).
  { unfold below. pose proof (Z.mod_le stop (2 ^ k) ltac:(lia) ltac:(lia)). lia. }
  rewrite PAGE_SIZE_pow, !align_up_above, !align_down_below by lia.
  rewrite !(wrap_small 64 (above start k)), !(wrap_small 64 (below stop k)) by lia.
  apply returns_bind.
  { apply returns_mmap_blocks; [lia..|].
    eapply Z.le_lt_trans; [|exact Hfuel]. apply Z.div_le_mono; lia. }
  intros _ s2 _ _. apply returns_bind.
  { apply returns_when. intros _. apply returns_mmap_fixed. }
  intros _ s3 _ _. do 2 (apply returns_when; intros _). apply returns_mmap_fixed.
Qed.

Lemma returns_mmap_shared_blocks k mem size huge s before after :
  12 <= k < 62 -> sh_blocksize s = 2 ^ k -> size < 2 ^ 62 -> size / 2 ^ k < Z.of_nat fuel ->
  apart 0 size after ->
  returns (mmap_shared_blocks fuel (length after) mem size (flatten (before ++ after))
             (Z.of_nat (length (before ++ after))) huge) s.
Proof.
  intros Hk Hbs Hsize Hfuel. assert (0 <= 0) as H0le by done. revert H0le.
  generalize 0 at 2 3 as lo. revert before s Hbs.
  induction after as [|b after IH]; intros before s Hbs lo Hlo Hap; [apply returns_ret|].
  destruct Hap as (Hb & Hend & Hap). cbn [length mmap_shared_blocks].
  replace (Z.of_nat (length (before ++ b :: after)) - Z.of_nat (S (length after)))
    with (Z.of_nat (length before)) by (rewrite length_app; cbn [length]; lia).
  unfold returns.
  rewrite (bind_run _ _ s b.1 s) by (apply (offset_at_before _ _ 0); [lia|done]).
  rewrite (bind_run _ _ s b.2 s) by (apply (offset_at_before _ _ 1); [lia|done]).
  apply returns_bind; [apply returns_assert; lia|]. intros _ s1 [_ ->]%assert_Ok _.
  apply returns_bind; [apply returns_assert; lia|]. intros _ s1 [_ ->]%assert_Ok _.
  apply returns_bind.
  { apply returns_when. intros Hnext. destruct after as [|c after].
    { apply Z.ltb_lt in Hnext. rewrite length_app in Hnext. cbn [length] in Hnext. lia. }
    unfold returns. rewrite (bind_run _ _ s c.1 s) by (apply (offset_at_before _ _ 2); [lia|done]).
    apply returns_assert. destruct Hap as [? _]. lia. }
  intros _ s1 _ Hs1. apply returns_bind.
  { apply (returns_mmap_shared_block k); (done || congruence || lia). }
  intros _ s2 _ Hs2.
  replace (before ++ b :: after) with ((before ++ [b]) ++ after) by by rewrite <- app_assoc.
  apply (IH (before ++ [b]) s2) with (b.2 + 1); [congruence|simpl in *; lia|done].
Qed.

Lemma returns_create_bogus_files huge s : returns (create_bogus_files config huge) s.
Proof.
  unfold create_bogus_files. apply returns_bind; [apply returns_gets|].
  intros h s1 _ _. apply returns_bind.
  { apply returns_when. intros _. apply returns_bind; [apply returns_sys|]. intros r s2 _ _.
    apply returns_bind; [by apply returns_modify|]. intros _ s3 _ _.
    apply returns_bind; [apply returns_sys|]. intros. apply returns_ret. }
  intros _ s2 _ _. apply returns_bind; [apply returns_gets|]. intros f s3 _ _.
  apply returns_when. intros _. apply returns_bind; [apply returns_sys|]. intros r s4 _ _.
  apply returns_bind; [by apply returns_modify|]. intros _ s5 _ _.
  apply returns_bind; [apply returns_sys|]. intros ? s6 _ _.
  apply returns_bind; [apply returns_gets|]. intros bs s7 _ _.
  apply returns_bind; [apply returns_sys|]. intros ? s8 [= <- _] _.
  apply returns_assert. rewrite obliging_ftruncate. by apply bool_decide_eq_true.
Qed.

End Partial.
