(* ===== verification/SharedTables.v ===== *)
(** The tables of [Shared.v]: finding the allocation of an address, counting the allocations of a
    location, remembering the results of shared calls. *)
From S2P Require Import Prelude OMap Portals World Shared SharedSpec.
From Stdlib Require Import Sorting.Sorted.

(** ** Finding the allocation of an address *)

(** The allocations from address [lo] on: in order, not empty, apart from one another. *)
Fixpoint laid_out (lo : Z) (m : list (Z * shared_metadata_t)) : Prop :=
  match m with
  | [] => True
  | (base, meta) :: m' =>
      lo <= base /\ 0 < md_size meta /\ base + md_size meta < 2 ^ 64 /\
      laid_out (base + md_size meta) m'
  end.

(** [ptr] is an address of the allocation [e]. *)
Definition owns (ptr : Z) (e : Z * shared_metadata_t) : Prop := e.1 <= ptr < e.1 + md_size e.2.

Lemma laid_out_weaken lo lo' m : lo' <= lo -> laid_out lo m -> laid_out lo' m.
Proof. destruct m as [|[b x] m]; simpl; intuition lia. Qed.

Lemma laid_out_elem lo m e :
  laid_out lo m -> e ∈ m -> lo <= e.1 /\ 0 < md_size e.2 /\ e.1 + md_size e.2 < 2 ^ 64.
Proof.
  revert lo. induction m as [|[b x] m IH]; intros lo; [by intros _ ?%not_elem_of_nil|].
  intros (? & ? & ? & Hm) [->|He]%elem_of_cons; [done|].
  destruct (IH _ Hm He). simpl in *. lia.
Qed.

Lemma laid_out_app lo m1 e m2 :
  laid_out lo (m1 ++ e :: m2) ->
  (forall f, f ∈ m1 -> f.1 + md_size f.2 <= e.1) /\ (forall f, f ∈ m2 -> e.1 + md_size e.2 <= f.1).
Proof.
  revert lo. induction m1 as [|[b x] m1 IH]; intros lo.
  - destruct e as [b x]. intros (_ & _ & _ & Hm). split; [by intros ? ?%not_elem_of_nil|].
    intros f Hf. by apply (laid_out_elem _ _ _ Hm).
  - intros (_ & _ & _ & Hm). destruct (IH _ Hm) as [H1 H2]. split; [|done].
    intros f [->|Hf]%elem_of_cons; [|auto].
    apply (laid_out_elem _ _ e Hm). rewrite elem_of_app, elem_of_cons. auto.
Qed.

Section Tables.
Context `{OS} `{SharedMallocType} (config : s4bxi_config) (fuel : nat).

(** When the registered allocations do not overlap, [s4bxi_is_shared] answers, and it gives for
    an address the private blocks of the allocation that owns it and the offset in it, exactly
    when there is one. *)
Theorem is_shared_finds ptr s :
  shared_malloc config = SMT_LOCAL \/ shared_malloc config = SMT_GLOBAL ->
  0 <= ptr < 2 ^ 64 -> laid_out 0 (sh_allocs_metadata s) ->
  exists r, s4bxi_is_shared config ptr s = Ok r s /\
  forall blocks offset, r = Some (blocks, offset) <->
    exists base meta, (base, meta) ∈ sh_allocs_metadata s /\ owns ptr (base, meta) /\
      blocks = md_private_blocks meta /\ offset = ptr - base.
Proof.
  intros Hmode Hptr Hm. unfold s4bxi_is_shared.
  rewrite (bind_run _ _ s (sh_allocs_metadata s) s) by done.
  destruct (sh_allocs_metadata s) as [|e0 m0] eqn:Em0.
  { exists None. split; [done|]. intros blocks offset. split; [done|].
    by intros (? & ? & ?%not_elem_of_nil & _). }
  rewrite <- Em0 in *. set (m := sh_allocs_metadata s) in *. clearbody m.
  rewrite (proj2 (orb_true_iff _ _)) by (rewrite !Z.eqb_eq; tauto).
  destruct (lower_bound_split ptr m None) as (m1 & m2 & Em & H1 & H2 & ->).
  assert (forall e, owns ptr e -> e ∈ m -> e ∈ m1 \/ (head m2 = Some e /\ e.1 = ptr)) as Hown.
  { intros e He. rewrite Em, elem_of_app. intros [?|He2]; [by left|right].
    unfold owns in He. destruct m2 as [|f m2]; [by apply not_elem_of_nil in He2|].
    apply elem_of_cons in He2 as [->|He2]; [by split; [|lia]|].
    rewrite Em in Hm. destruct (laid_out_app _ _ _ _ Hm) as [_ Hf]. specialize (Hf e He2).
    pose proof (laid_out_elem _ _ f Hm ltac:(rewrite elem_of_app, elem_of_cons; auto)). lia. }
  assert (forall e, e ∈ m -> owns ptr e -> forall f, f ∈ m -> owns ptr f -> f = e) as Hunique.
  { intros e [i Hi]%list_elem_of_lookup He f [j Hj]%list_elem_of_lookup Hf.
    assert (forall i j e f, (i < j)%nat -> m !! i = Some e -> m !! j = Some f ->
              owns ptr e -> owns ptr f -> False) as Habs.
    { clear -Hm. intros i j e f Hij Hi Hj He Hf.
      apply take_drop_middle in Hi as Esplit. rewrite <- Esplit in Hm.
      destruct (laid_out_app _ _ _ _ Hm) as [_ Hlater]. specialize (Hlater f).
      unfold owns in *. enough (e.1 + md_size e.2 <= f.1) by lia. apply Hlater.
      apply list_elem_of_lookup. exists (j - S i)%nat. rewrite lookup_drop. rewrite <- Hj.
      f_equal. lia. }
    destruct (Nat.lt_trichotomy i j) as [?|[->|?]]; [|congruence|]; exfalso; eauto. }
  assert (forall base meta, (base, meta) ∈ m -> owns ptr (base, meta) ->
    forall blocks offset, Some (md_private_blocks meta, ptr - base) = Some (blocks, offset) <->
    exists base' meta', (base', meta') ∈ m /\ owns ptr (base', meta') /\
      blocks = md_private_blocks meta' /\ offset = ptr - base') as Hfound.
  { intros base meta Hin Ho blocks offset. split; [intros [= <- <-]; by exists base, meta|].
    intros (base' & meta' & Hin' & Ho' & -> & ->).
    by injection (Hunique _ Hin Ho _ Hin' Ho') as -> ->. }
  assert ((forall e, e ∈ m -> ~ owns ptr e) -> forall blocks offset,
    None = Some (blocks, offset) <-> exists base' meta', (base', meta') ∈ m /\
      owns ptr (base', meta') /\ blocks = md_private_blocks meta' /\ offset = ptr - base')
    as Hnone.
  { intros Hno blocks offset. split; [done|]. intros (base' & meta' & Hin' & Ho' & _).
    by destruct (Hno _ Hin'). }
  set (exact := match head m2 with Some _ => _ | None => None end).
  assert (match exact with
          | Some meta => (ptr, meta) ∈ m
          | None => forall e, owns ptr e -> e ∈ m -> e ∈ m1 end) as Hexact.
  { subst exact. destruct m2 as [|[base meta] m2]; simpl.
    - intros e Ho He. by destruct (Hown e Ho He) as [?|[? _]].
    - destruct (Z.eqb_spec base ptr) as [->|].
      + rewrite Em, elem_of_app, elem_of_cons. auto.
      + intros e Ho He. destruct (Hown e Ho He) as [?|[[= <-] ?]]; [done|]. done. }
  destruct exact as [meta|].
  { exists (Some (md_private_blocks meta, 0)). split; [done|].
    replace 0 with (ptr - ptr) by lia. apply Hfound; [done|].
    destruct (laid_out_elem _ _ _ Hm Hexact). unfold owns. simpl in *. lia. }
  destruct (last m1) as [[base meta]|] eqn:Elast.
  2: { apply last_None in Elast as ->. exists None. split; [done|]. apply Hnone.
       intros e He Ho. by apply (not_elem_of_nil e), Hexact. }
  apply last_Some in Elast as [l ->].
  assert ((base, meta) ∈ m) as Hin
    by (rewrite Em, !elem_of_app, list_elem_of_singleton; auto).
  destruct (laid_out_elem _ _ _ Hm Hin) as (? & ? & ?). simpl in *.
  assert (base < ptr).
  { apply (H1 (base, meta)). rewrite elem_of_app, list_elem_of_singleton. auto. }
  unfold add64, sub64. rewrite (wrap_small 64 (base + md_size meta)) by lia.
  destruct (Z.ltb_spec ptr (base + md_size meta)).
  - exists (Some (md_private_blocks meta, ptr - base)).
    rewrite wrap_small by lia. destruct (Z.gtb_spec ptr base); [|lia]. split; [done|].
    apply Hfound; [done|]. unfold owns. simpl. lia.
  - exists None. split; [done|]. apply Hnone. intros e He Ho.
    pose proof (Hexact e Ho He) as [He1|He1%list_elem_of_singleton]%elem_of_app;
      [|subst e].
    + rewrite Em, <- app_assoc in Hm. cbn in Hm.
      destruct (laid_out_app _ _ _ _ Hm) as [Hbefore _]. specialize (Hbefore e He1).
      unfold owns in Ho. simpl in *. lia.
    + unfold owns in Ho. simpl in *. lia.
Qed.

(** ** The allocations of a location *)

(** Every location in the table points to a live entry that names it, with a positive count. *)
Definition counted (s : shared_state) : Prop :=
  forall loc h, sh_allocs s !! loc = Some h ->
  exists d, sh_datas s !! h = Some (mk_key_data loc d) /\ 0 < sd_count d /\ (h < sh_next s)%N.

(** One call of a process in the LOCAL mode. *)
Inductive local_step (s s' : shared_state) : Prop :=
| step_malloc size file line mem :
    s4bxi_shared_malloc_local fuel size file line s = Ok mem s' -> local_step s s'
| step_free ptr :
    s4bxi_shared_free config ptr s = Ok tt s' -> local_step s s'.

(** A call that leaves the tables alone. *)
Definition same_tables (s s' : shared_state) : Prop :=
  sh_allocs s' = sh_allocs s /\ sh_datas s' = sh_datas s /\ sh_next s' = sh_next s.

Lemma sys_same c s r s' : sys c s = Ok r s' -> same_tables s s'.
Proof. by intros [= _ <-]. Qed.

Lemma same_trans s1 s2 s3 : same_tables s1 s2 -> same_tables s2 s3 -> same_tables s1 s3.
Proof. intros (? & ? & ?) (? & ? & ?). unfold same_tables. intuition congruence. Qed.

Lemma temp_shm_search_same n i last s r s' :
  temp_shm_search n i last s = Ok r s' -> same_tables s s'.
Proof.
  revert i last s. induction n as [|n IH]; intros i last s; cbn [temp_shm_search]; intros Hr;
    inv_run; destruct (i =? _); inv_run; try done.
  apply sys_same in Hr0. eapply same_trans; [exact Hr0|].
  repeat case_match; inv_run; try done. by eapply IH.
Qed.

Lemma temp_shm_get_same s fd s' : s4bxi_temp_shm_get fuel s = Ok fd s' -> same_tables s s'.
Proof.
  unfold s4bxi_temp_shm_get. intros Hr. inv_run.
  match goal with Hs : temp_shm_search _ _ _ _ = _ |- _ => apply temp_shm_search_same in Hs end.
  case_match; inv_run. eapply same_trans; [done|]. by eapply sys_same.
Qed.

Lemma shm_mmap_same fd size s mem s' :
  s4bxi_temp_shm_mmap fd size s = Ok mem s' -> same_tables s s'.
Proof.
  unfold s4bxi_temp_shm_mmap. intros Hr.
  repeat (inv_run || case_match);
    repeat match goal with Hc : sys _ _ = _ |- _ => apply sys_same in Hc end;
    eauto using same_trans.
Qed.

Lemma shm_map_same fd size data s mem s' : shm_map fd size data s = Ok mem s' -> same_tables s s'.
Proof.
  unfold shm_map, register_metadata. intros Hr. inv_run.
  eapply same_trans; [by eapply shm_mmap_same|done].
Qed.

Lemma counted_same s s' : same_tables s s' -> counted s -> counted s'.
Proof. intros (Ha & Hd & Hn) Hc loc h. rewrite Ha, Hd, Hn. apply Hc. Qed.

(** A table where the entry of one location changed. *)
Lemma counted_update s s' loc h d :
  counted s -> sh_allocs s' = <[loc := h]> (sh_allocs s) ->
  sh_datas s' = <[h := mk_key_data loc d]> (sh_datas s) ->
  (sh_next s <= sh_next s')%N -> (h < sh_next s')%N -> 0 < sd_count d ->
  sh_allocs s !! loc = Some h \/ h = sh_next s ->
  counted s'.
Proof.
  intros Hc Ha Hd Hn Hh Hpos Hloc loc' h'. rewrite Ha, Hd.
  destruct (decide (loc = loc')) as [<-|Hne].
  { rewrite lookup_insert_eq. intros [= <-]. exists d. by rewrite lookup_insert_eq. }
  rewrite lookup_insert_ne by done. intros Hh'. destruct (Hc loc' h' Hh') as (d' & Hd' & ? & ?).
  exists d'. rewrite lookup_insert_ne; [split_and!; [done|done|lia]|].
  intros <-. destruct Hloc as [Hl| ->]; [|lia].
  destruct (Hc loc h Hl) as (d2 & Hd2 & _). congruence.
Qed.

Lemma data_at_Ok h s d s' : data_at h s = Ok d s' -> sh_datas s !! h = Some d /\ s' = s.
Proof. unfold data_at. intros Hr. by inv_run. Qed.

Lemma set_count_Ok h f s u s' :
  set_count h f s = Ok u s' ->
  exists d, sh_datas s !! h = Some d /\
  s' = s <| sh_datas ::= <[h := mk_key_data (kd_first d)
                                 (mk_shared_data (sd_fd (kd_second d))
                                    (f (sd_count (kd_second d))))]> |>.
Proof.
  unfold set_count, set_data. intros Hr. apply bind_Ok in Hr as (d & s1 & [Hd ->]%data_at_Ok & Hr).
  inv_run. by exists d.
Qed.

Lemma malloc_local_counted size file line s mem s' :
  counted s -> s4bxi_shared_malloc_local fuel size file line s = Ok mem s' -> counted s'.
Proof.
  intros Hc. unfold s4bxi_shared_malloc_local. set (loc := s4bxi_source_location file line).
  clearbody loc. intros Hr. apply bind_Ok in Hr as (res & s1 & [-> ->]%gets_Ok & Hr).
  destruct (sh_allocs s !! loc) as [h|] eqn:El.
  - inv_run. apply data_at_Ok in Hr0 as [Hd ->].
    match goal with Hm : shm_map _ _ _ _ = _ |- _ => apply shm_map_same in Hm as (Ha & Hds & Hn) end.
    match goal with Hm : set_count _ _ _ = _ |- _ => apply set_count_Ok in Hm as (d & Hd' & ->) end.
    destruct (Hc loc h El) as (d2 & Hd2 & ? & ?). rewrite Hds in Hd'. simplify_eq.
    eapply (counted_update s _ loc h); simpl; [done|..|by left].
    + by rewrite Ha, insert_id.
    + by rewrite Hds.
    + by rewrite Hn.
    + by rewrite Hn.
    + simpl. lia.
  - unfold new_data, set_data in Hr. inv_run.
    match goal with Hm : s4bxi_temp_shm_get _ _ = _ |- _ =>
      apply temp_shm_get_same in Hm as (Ha & Hds & Hn) end.
    match goal with Hm : shm_map _ _ _ _ = _ |- _ => apply shm_map_same in Hm as (Ha' & Hds' & Hn') end.
    simpl in *.
    eapply (counted_update s _ loc (sh_next s) (mk_shared_data _ 1)); [done|..|by right].
    + by rewrite Ha', Ha.
    + rewrite Hds', Hds. by rewrite insert_insert_eq.
    + rewrite Hn', Hn. lia.
    + rewrite Hn', Hn. lia.
    + simpl. lia.
Qed.

Lemma counted_decrement s s' h d dd :
  counted s -> sh_datas s !! h = Some d -> 0 < sd_count dd ->
  sh_allocs s' = sh_allocs s -> sh_next s' = sh_next s ->
  sh_datas s' = <[h := mk_key_data (kd_first d) dd]> (sh_datas s) -> counted s'.
Proof.
  intros Hc Hd Hpos Ha Hn Hds loc h'. rewrite Ha, Hn, Hds. intros Hl.
  destruct (Hc loc h' Hl) as (d' & Hd' & ? & ?). destruct (decide (h = h')) as [<-|].
  - rewrite Hd in Hd'. injection Hd' as ->. rewrite lookup_insert_eq. by exists dd.
  - rewrite lookup_insert_ne by done. by exists d'.
Qed.

Lemma counted_remove s loc h d :
  counted s -> sh_allocs s !! loc = Some h -> forall s',
  sh_allocs s' = delete loc (sh_allocs s) -> sh_next s' = sh_next s ->
  (forall h', h' <> h -> h' <> d -> sh_datas s' !! h' = sh_datas s !! h') ->
  (forall loc', sh_allocs s !! loc' = Some d -> loc' = loc) ->
  counted s'.
Proof.
  intros Hc Hl s' Ha Hn Hd Hown loc' h'. rewrite Ha, Hn.
  destruct (decide (loc = loc')) as [<-|]; [by rewrite lookup_delete_eq|].
  rewrite lookup_delete_ne by done. intros Hl'. destruct (Hc loc' h' Hl') as (d' & Hd' & ? & ?).
  exists d'. rewrite Hd; [done| |].
  - intros ->. destruct (Hc loc h Hl) as (d2 & Hd2 & _). congruence.
  - intros ->. by apply Hown in Hl'.
Qed.

Lemma free_local_counted ptr s u s' :
  shared_malloc config = SMT_LOCAL ->
  counted s -> s4bxi_shared_free config ptr s = Ok u s' -> counted s'.
Proof.
  intros Hmode Hc. unfold s4bxi_shared_free. rewrite Hmode, Z.eqb_refl. intros Hr.
  apply bind_Ok in Hr as (res & s1 & [-> ->]%gets_Ok & Hr).
  destruct (omap_find ptr _) as [meta|].
  2: { unfold operator_delete in Hr. inv_run.
       eapply counted_same; [by eapply sys_same|done]. }
  inv_run. apply data_at_Ok in Hr0 as [Hd ->].
  match goal with Hm : sys _ _ = _ |- _ => apply sys_same in Hm as Hsame end.
  pose proof (counted_same _ _ Hsame Hc) as Hc1.
  match goal with Hm : set_count _ _ _ = _ |- _ => apply set_count_Ok in Hm as (d & Hd1 & ->) end.
  match goal with Hm : data_at _ _ = _ |- _ => apply data_at_Ok in Hm as [Hd2 ->] end.
  simpl in Hd2. rewrite lookup_insert_eq in Hd2. injection Hd2 as <-. simpl in Hr.
  match type of Hr with (if ?b then _ else _) _ = _ => destruct b eqn:Eb end; inv_run.
  2: { eapply (counted_decrement s1 _ (md_data meta)); [done..| |done|done|done]. simpl. lia. }
  match goal with Hm : sys _ _ = _ |- _ => apply sys_same in Hm as (Ha & Hds & Hn) end.
  match goal with Hm : _ !! kd_first d = Some ?node |- _ =>
    rewrite Ha in Hm; simpl in Hm;
    apply (counted_remove s1 (kd_first d) node (md_data meta) Hc1 Hm) end; simpl.
  - by rewrite Ha.
  - by rewrite Hn.
  - intros h' ? ?. rewrite Hds. simpl. by rewrite lookup_delete_ne, lookup_insert_ne.
  - intros loc' Hl. destruct (Hc1 loc' _ Hl) as (d2 & Hd2 & _). rewrite Hd1 in Hd2.
    by injection Hd2 as ->.
Qed.


(** ** Shared calls *)

(** The result of a shared call is remembered: once a function has been called for an input,
    later calls for it give the same data, without calling the function, as long as no other
    result is stored for it. *)
Theorem shared_call_remembered func input call s v s' s2 :
  S4BXI_SHARED_CALL func input call s = Ok v s' ->
  sh_calls s2 !! call_location func input = sh_calls s' !! call_location func input ->
  forall call', S4BXI_SHARED_CALL func input call' s2 = Ok v s2.
Proof.
  unfold S4BXI_SHARED_CALL, s4bxi_shared_known_call, s4bxi_shared_get_call, s4bxi_shared_set_call.
  intros Hr Hs2 call'.
  assert (sh_calls s' !! call_location func input = Some v) as Hv.
  { apply bind_Ok in Hr as (known & s1 & [-> ->]%gets_Ok & Hr). case_bool_decide; inv_run; [done|].
    simpl. by rewrite lookup_insert_eq. }
  rewrite Hv in Hs2. rewrite (bind_run _ _ s2 true s2).
  - by rewrite (bind_run _ _ s2 (Some v) s2) by (cbv [gets]; by rewrite Hs2).
  - cbv [gets]. rewrite bool_decide_eq_true_2; [done|]. by rewrite Hs2.
Qed.
End Tables.

(** A string without the separator of [call_location]. *)
Definition no_colon (s : string) : Prop :=
  forall i, String.get i s <> Some (Ascii.ascii_of_N 58).

(** Locations of functions whose names hold no colon are different for different calls. *)
Lemma call_location_inj f1 f2 i1 i2 :
  no_colon f1 -> no_colon f2 -> call_location f1 i1 = call_location f2 i2 -> f1 = f2 /\ i1 = i2.
Proof.
  unfold call_location. revert f2. induction f1 as [|c f1 IH]; intros [|c2 f2] H1 H2; simpl.
  - by intros [=].
  - intros [= <- _]. by destruct (H2 O).
  - intros [= -> _]. by destruct (H1 O).
  - intros [= -> Heq]. destruct (IH f2) as [-> ->]; [|intros i; apply (H2 (S i))|done|done].
    intros i. apply (H1 (S i)).
Qed.
