(* ===== verification/Witnesses.v ===== *)
(** The theorems applied: for each theorem with hypotheses, a concrete input (most of them from
    the exchange of [Scenario.v]) where they hold. *)
From S2P Require Import Prelude Portals World Logic Engine Queue Messages Node Counters Entries.
From S2P Require Import E2E Atomics Memory NicActor Initiator Target MainActor FlowControl.
From S2P Require Import Progress Scenario System Matching Waiting Reliability AtomicsSpec.
From S2P Require Import Frames Deliver EndToEnd Api.
From Stdlib Require Import SpecFloat.

(** ** Objects of the worlds of the scenario *)

Definition get_some {A} (o : option A) : match o with Some _ => A | None => unit end :=
  match o with Some a => a | None => tt end.

Definition node_a : handle := s_node site_a.
Definition node_b : handle := s_node site_b.
Definition posted_node : BxiNode := Eval vm_compute in get_some (w_nodes world_posted !! node_a).
Definition posted_msg : BxiMsg := Eval vm_compute in get_some (w_msgs world_posted !! example_msg).
Definition posted_req : BxiRequest :=
  Eval vm_compute in get_some (w_reqs world_posted !! example_req).
Definition posted_ni : BxiNI :=
  Eval vm_compute in get_some (w_nis world_posted !! bmd_ni (rq_md posted_req)).
Definition checked : World :=
  Eval vm_compute in after (check_flowctrl node_a example_msg) world_posted.

Ltac evaluate := first [vm_compute; reflexivity | vm_compute; discriminate].
Ltac decided := refine (bool_decide_unpack _ _); vm_compute; exact I.

Lemma posted_wf : wf world_posted.
Proof. constructor; first [decided | vm_compute; discriminate]. Qed.
Lemma received_wf : wf world_received.
Proof. constructor; first [decided | vm_compute; discriminate]. Qed.

(** ** Flow control *)

Lemma check_flowctrl_refines_witness : exists n',
  check_flowctrl node_a example_msg world_posted =
    Ok true (world_posted <| w_nodes ::= <[node_a := n']> |>) /\
  node_credit example_config n' (S4BXI_VN_COMPUTE_REQUEST, 2) = Some 1.
Proof.
  destruct (check_flowctrl_refines node_a example_msg posted_node posted_msg posted_req posted_ni
    world_posted) as (n' & H & Hk & _); [evaluate..|exact posted_wf|].
  exists n'. split; [exact H|]. etransitivity; [exact Hk|evaluate].
Defined.

(** While the entry is released, another actor spends a credit of a third node. *)
Definition rival_step (w : World) : World :=
  w <| w_nodes ::= alter (over nd_flowctrl_node_counts <[(S4BXI_VN_COMPUTE_REQUEST, 3) := 1]>) node_a |>.
Definition rival_env : Env := {|
  env_step _ := rival_step; env_self := @env_self fifo_env;
  env_mailbox_ready := @env_mailbox_ready fifo_env;
  env_mailbox_listen := @env_mailbox_listen fifo_env;
  env_mailbox_size := @env_mailbox_size fifo_env; env_received := @env_received fifo_env;
  env_wait_any := @env_wait_any fifo_env; env_would_block := @env_would_block fifo_env;
  env_random_int := @env_random_int fifo_env; env_fuel := @env_fuel fifo_env |}.
Definition checked_node : BxiNode := Eval vm_compute in get_some (w_nodes checked !! node_a).
Definition rival_node : BxiNode := Eval vm_compute in
  get_some (w_nodes (@resumed rival_env node_a checked) !! node_a).


(** ** Matching *)

(** The entry of the second process. *)
Definition entry : handle :=
  Eval vm_compute in default NULL (head (map fst (map_to_list (w_mes world_posted)))).
Definition sent_me : BxiME := Eval vm_compute in get_some (w_mes world_posted !! entry).
Definition sent_pt : BxiPT := Eval vm_compute in get_some (w_pts world_posted !! bme_pt sent_me).

Lemma matches_request_spec_witness :
  Z.testbit (rq_match_bits posted_req) 3 = Z.testbit (me_match_bits (bme_me sent_me)) 3.
Proof.
  destruct (matches_request_spec sent_me posted_req) as [[_ H] _];
    [split; evaluate..|evaluate|]. apply H; [reflexivity|lia|evaluate].
Defined.

Lemma walk_through_lists_spec_witness :
  walk_through_lists (bme_pt sent_me) example_msg world_posted =
  Ok (Some entry) (mark_used entry world_posted).
Proof.
  refine (eq_trans (walk_through_lists_spec (bme_pt sent_me) example_msg sent_pt posted_msg
    posted_req world_posted _ _ _ _ _ _) _); [evaluate|evaluate|evaluate|evaluate|decided|decided|].
  evaluate.
Defined.

Definition walked : World :=
  Eval vm_compute in after (walk_through_lists (bme_pt sent_me) example_msg) world_posted.

Lemma use_once_matched_once_witness :
  exists m, w_mes walked !! entry = Some m /\ forall req, matches_request m req = false.
Proof.
  destruct (use_once_matched_once (bme_pt sent_me) example_msg entry world_posted walked)
    as (m & Hm & _ & H); [evaluate|].
  exists m. split; [exact Hm|]. apply H. vm_compute in Hm. injection Hm as <-. evaluate.
Defined.

(** An entry of 16 bytes that manages its own offset. *)
Definition managed_me : BxiME :=
  BxiME_init 1 (mk_me 1000 16 PTL_CT_NONE 0 (Z.lor PTL_ME_OP_PUT PTL_ME_MANAGE_LOCAL)
                  (mk_process 0 0) 42 0 0) PTL_PRIORITY_LIST 0.


Lemma unmanaged_write_bounds_witness :
  get_mlength sent_me posted_req = Z.min (me_length (bme_me sent_me)) (rq_payload_size posted_req).
Proof.
  refine (proj1 (unmanaged_write_bounds sent_me posted_req 2003 0 3 _ _ _ _ _ _ _ _));
    first [evaluate | split; evaluate].
Defined.

Lemma BxiME_unlink_spec_witness : exists w',
  BxiME_unlink entry world_posted = Ok tt w' /\ w_mes w' !! entry = None.
Proof.
  eexists. split.
  - refine (BxiME_unlink_spec entry sent_me sent_pt world_posted _ _ _ _);
      [evaluate|evaluate|decided|decided].
  - evaluate.
Defined.

Lemma match_entry_status_witness : exists code,
  result (match_entry node_b example_msg) world_posted = Some (code, Some entry) /\
  code = PTL_NI_OK.
Proof.
  eexists. split; [evaluate|].
  refine (match_entry_status node_b example_msg world_posted _ (Some entry)
    (after (match_entry node_b example_msg) world_posted) _). evaluate.
Defined.

(** ** Counters and queues *)

(** The counter of the first process, at [success], with a process that waits for 3. *)
Definition waiting_world (success : Z) : World :=
  world0 <| w_cts ::= <[s_ct site_a := mk_CT [mk_waiting 1 None 3] (mk_ct_event success 0)]> |>.

Lemma on_update_wakes_witness : exists w',
  on_update (s_ct site_a) (waiting_world 3) = Ok tt w' /\
  w_trace w' = ActorResume 1 :: w_trace world0.
Proof.
  destruct (on_update_wakes (s_ct site_a) (mk_CT [mk_waiting 1 None 3] (mk_ct_event 3 0))
    (waiting_world 3)) as (w' & c' & H & _ & _ & _ & Ht); [evaluate| | |].
  - constructor; [left; discriminate|constructor].
  - cbn. lia.
  - exists w'. split; [exact H|exact Ht].
Defined.

Lemma increment_past_test_not_woken_witness : exists w' c',
  increment_success (s_ct site_a) 4 (waiting_world 1) = Ok tt w' /\
  w_cts w' !! s_ct site_a = Some c' /\ mk_waiting 1 None 3 ∈ ct_waiting c'.
Proof.
  destruct (increment_past_test_not_woken (s_ct site_a)
    (mk_CT [mk_waiting 1 None 3] (mk_ct_event 1 0)) (mk_waiting 1 None 3) 4 (waiting_world 1))
    as (w' & c' & H & Hc & Ha & _);
    [evaluate| |by left|cbn; lia|reflexivity|cbn; lia|cbn; lia|].
  - constructor; [left; discriminate|constructor].
  - exists w', c'. split; [exact H|]. split; [exact Hc|exact Ha].
Defined.

(** The queue of the E2E actor of the first node, which is not a mailbox. *)
Definition local_queue : handle :=
  Eval vm_compute in e2e_queue (get_some (w_e2es world0 !! s_e2e site_a)).
(** Another actor puts a message whenever this one waits on the empty queue. *)
Definition feed (w : World) : World :=
  match w_queues w !! local_queue with
  | Some (mk_Queue [] None) => w <| w_queues ::= <[local_queue := mk_Queue [9%N] None]> |>
  | _ => w
  end.
Definition helper_env : Env := {|
  env_step c w :=
    match c with SemAcquire (SemQueue h) => if (h =? local_queue)%N then feed w else w | _ => w end;
  env_self := @env_self fifo_env; env_mailbox_ready := @env_mailbox_ready fifo_env;
  env_mailbox_listen := @env_mailbox_listen fifo_env;
  env_mailbox_size := @env_mailbox_size fifo_env; env_received := @env_received fifo_env;
  env_wait_any := @env_wait_any fifo_env; env_would_block := @env_would_block fifo_env;
  env_random_int := @env_random_int fifo_env; env_fuel := @env_fuel fifo_env |}.

Lemma feed_shares w l : holds local_queue w l ->
  exists t l', holds local_queue (feed w) l' /\ fifo t l l'.
Proof.
  intros ([ms mb] & Hq & Hmb & Hl). cbn in Hmb, Hl. subst mb ms. unfold feed. rewrite Hq.
  destruct l as [|m l].
  - exists [OpPut 9%N], [9%N]. split; [|by repeat constructor].
    eexists. split; [apply lookup_insert_eq|done].
  - exists [], (m :: l). split; [by eexists|constructor].
Qed.

#[export] Instance helper_shares : Shares local_queue helper_env.
Proof.
  split.
  - intros c w l H. cbn. assert (exists t l', holds local_queue w l' /\ fifo t l l') as Hs
      by (exists [], l; split; [done|constructor]).
    destruct c as [| | | | | | | | | | |[]| | | |]; try done. case_match; [by apply feed_shares|done].
  - intros w ([ms mb] & Hq & Hmb & Hl). revert Hq. cbn in *. subst mb ms. unfold feed.
    destruct (w_queues w !! local_queue) as [[[|m l] [mb|]]|] eqn:Hw; rewrite ?Hw; try done.
    cbn. by rewrite lookup_insert_eq.
Qed.

(** The first message comes while the actor waits; its own one is not overtaken. *)
Definition served : World := Eval vm_compute in
  after (@queue_calls helper_env local_queue [CallGet; CallPut 4 0 false; CallGet]) world0.


(** Two messages wait for credits on a node whose transmission queue is that one. *)
Definition stalled_node : BxiNode :=
  posted_node <| nd_tx_queues := {[S4BXI_VN_COMPUTE_REQUEST := local_queue]} |>
    <| nd_flowctrl_waiting_messages := {[S4BXI_VN_COMPUTE_REQUEST := [4%N; 5%N]]} |>.
Definition stalled : World := world_posted <| w_nodes ::= <[node_a := stalled_node]> |>.

Lemma resume_hands_over_in_order_witness : exists w' qu,
  resume_waiting_tx_actors node_a S4BXI_VN_COMPUTE_REQUEST stalled = Ok tt w' /\
  w_queues w' !! local_queue = Some qu /\ q_to_process qu = [4%N; 5%N].
Proof.
  destruct (resume_hands_over_in_order node_a stalled_node S4BXI_VN_COMPUTE_REQUEST local_queue
    (mk_Queue [] None) stalled) as (w' & n' & H & Hq & _);
    [evaluate|evaluate|evaluate|evaluate|vm_compute; lia|].
  exists w', (mk_Queue [4%N; 5%N] None). split; [exact H|]. split; [exact Hq|reflexivity].
Defined.

(** ** Reference counts and reliability *)

Lemma posted_answers_older : answers_older world_posted.
Proof.
  change (map_Forall (fun h x => ms_answers_msg x = NULL \/ (ms_answers_msg x < h)%N)
    (w_msgs world_posted)). decided.
Qed.

Lemma unref_terminates_witness : unref example_msg world_posted <> Fail OutOfFuel.
Proof. exact (unref_terminates example_msg world_posted posted_answers_older). Defined.

Definition received_msg : BxiMsg :=
  Eval vm_compute in get_some (w_msgs world_received !! example_msg).
Definition received_req : BxiRequest :=
  Eval vm_compute in get_some (w_reqs world_received !! example_req).
Definition received_e2e : BxiNicE2E :=
  Eval vm_compute in get_some (w_e2es world_received !! s_e2e site_a).
Definition received_node : BxiNode :=
  Eval vm_compute in get_some (w_nodes world_received !! node_a).

Definition no_answer_loop (m : gmap N BxiMsg) : Prop :=
  map_Forall (fun h x => ms_answers_msg x = NULL \/ (ms_answers_msg x < h)%N) m.
Lemma received_answers_older w : bool_decide (no_answer_loop (w_msgs w)) = true -> answers_older w.
Proof. intros H. exact (bool_decide_eq_true_1 _ H). Qed.

(** The acknowledgement of the put is dropped, then the put it answers, then their request. *)
Definition last_use : BxiMsg := received_msg <| ms_ref_count := 1 |>.
Definition answered_only : World := world_received <| w_msgs ::= <[example_msg := last_use]> |>.
Definition answer_handle : handle := 26.
Definition answer_msg26 : BxiMsg :=
  Eval vm_compute in get_some (w_msgs answered_only !! answer_handle).

Lemma unref_counts_witness : exists w',
  unref answer_handle answered_only = Ok tt w' /\
  w_msgs w' !! answer_handle = None /\ w_msgs w' !! example_msg = None /\
  w_reqs w' !! example_req = None.
Proof.
  destruct (unref_counts answer_handle [(answer_handle, answer_msg26); (example_msg, last_use)] None
    answered_only) as (w' & H & F).
  - apply received_answers_older. vm_compute. reflexivity.
  - apply chain_answer; [evaluate|evaluate|evaluate|]. apply chain_end; evaluate.
  - intros r. rewrite !owed_cons. destruct (decide (r = example_req)) as [->|Hne].
    + intros _. exists received_req. split; [evaluate|]. split; evaluate.
    + rewrite !decide_False by (intros Hr; apply Hne; rewrite <- Hr; reflexivity). done.
  - exists w'. split; [exact H|]. rewrite !(fr_msgs _ _ _ _ F), (fr_reqs _ _ _ _ F).
    split; [|split]; evaluate.
Defined.

(** The put is sent again: its copy is posted, and the message that waited is used once less. *)
Definition received_again : World := Eval vm_compute in
  sent_again (s_e2e site_a) example_msg received_e2e received_node received_msg received_req
    world_received.
Definition again_msg : BxiMsg := Eval vm_compute in get_some (w_msgs received_again !! example_msg).
Definition again_e2e : BxiNicE2E :=
  Eval vm_compute in get_some (w_e2es received_again !! s_e2e site_a).

Lemma e2e_expire_decides_witness : exists w',
  e2e_expire (s_e2e site_a) example_msg world_received = Ok tt w' /\
  ms_ref_count <$> w_msgs w' !! example_msg = Some 1 /\
  ms_retry_count <$> w_msgs w' !! w_next world_received = Some 1 /\
  head (w_trace w')
    = Some (CommDetach (CommPut (nic_tx_mailbox_name 1 S4BXI_VN_COMPUTE_REQUEST)
                          (PMsg (w_next world_received)) 0)).
Proof.
  destruct (e2e_expire_decides (s_e2e site_a) example_msg received_e2e received_node received_msg
    received_req world_received ltac:(evaluate) ltac:(evaluate) ltac:(evaluate) ltac:(evaluate)
    received_wf [] (Some (example_msg, again_msg)) again_e2e) as (w' & F & H).
  - apply received_answers_older. vm_compute. reflexivity.
  - apply chain_used; [evaluate|split; evaluate].
  - intros r Hr. destruct (Hr eq_refl).
  - evaluate.
  - eexists. split; [exact H|].
    change (w_msgs (over w_e2es ?f w')) with (w_msgs w').
    split; [etransitivity; [exact (f_equal _ (fr_msgs _ _ _ _ F _))|evaluate]|].
    split; [etransitivity; [exact (f_equal _ (fr_msgs _ _ _ _ F _))|evaluate]|].
    pose proof (f_equal w_trace (fr_rest _ _ _ _ F)) as Ht.
    etransitivity; [exact (f_equal head Ht)|evaluate].
Defined.

(** All the retransmissions of the put were sent. *)
Definition last_msg : BxiMsg := received_msg <| ms_retry_count := 3 |>.
Definition exhausted : World := world_received <| w_msgs ::= <[example_msg := last_msg]> |>.
Definition given_up : World :=
  Eval vm_compute in after (e2e_expire (s_e2e site_a) example_msg) exhausted.
Lemma abandon_leaks_witness : exists n',
  w_nodes given_up !! node_a = Some n' /\
  nd_flowctrl_node_counts n' = nd_flowctrl_node_counts received_node /\ nd_e2e_gave_up n' = 1.
Proof.
  destruct (abandon_leaks (s_e2e site_a) received_e2e example_msg last_msg received_req exhausted
    given_up node_a received_node) as (_ & n' & Hn & Hc & _ & Hg); [evaluate..|].
  exists n'. split; [exact Hn|]. split; [exact Hc|]. etransitivity; [apply Hg; evaluate|evaluate].
Defined.

(** The response to a get that failed. *)
Definition failed : World :=
  world_posted <| w_msgs ::= alter (fun x => x <| ms_ni_fail_type := PTL_NI_DROPPED |>) example_msg |>.

Lemma copy_forgets_status_witness : exists c w' y,
  BxiMsg_copy example_msg failed = Ok c w' /\ w_msgs w' !! c = Some y /\
  ms_ni_fail_type y = PTL_NI_OK.
Proof.
  do 2 eexists.
  destruct (copy_forgets_status example_msg (posted_msg <| ms_ni_fail_type := PTL_NI_DROPPED |>)
    failed (w_next failed) (after (BxiMsg_copy example_msg) failed))
    as (y & Hy & _ & _ & _ & _ & _ & _ & Hf & _); [evaluate|evaluate|].
  exists y. split; [|split; [exact Hy|exact Hf]]. evaluate.
Defined.

(** The first node without transmitters, and without PCI commands. *)
Definition bare_node : BxiNode :=
  received_node <| nd_tx_queues := ∅ |> <| nd_model_pci_commands := false |>.
Definition bare : World := world_received <| w_nodes ::= <[node_a := bare_node]> |>.
Definition started : World :=
  Eval vm_compute in after (BxiNicInitiator_new node_a S4BXI_VN_COMPUTE_REQUEST) bare.

Lemma retransmission_bypasses_queue_witness : exists qu,
  w_queues (after (retransmit (s_e2e site_a) example_msg) started) !! w_next bare = Some qu /\
  q_to_process qu = [].
Proof.
  destruct (retransmission_bypasses_queue node_a bare_node S4BXI_VN_COMPUTE_REQUEST (w_next bare)
    bare started (s_e2e site_a) example_msg
    (after (retransmit (s_e2e site_a) example_msg) started)) as (qu & Hq & _ & Hl);
    [evaluate..|].
  exists qu. split; [exact Hq|exact Hl].
Defined.

(** A second acknowledgement of the put arrives when the first one gave the credit back. *)
Definition ack_handle : handle := 26%N.
Definition ack_msg : BxiMsg := Eval vm_compute in get_some (w_msgs world_received !! ack_handle).
Definition settled_node : BxiNode :=
  received_node <| nd_flowctrl_node_counts := {[(S4BXI_VN_COMPUTE_REQUEST, 2) := 2]} |>.
Definition acked_twice : World :=
  world_received <| w_nodes ::= <[node_a := settled_node]> |>
    <| w_reqs ::= <[example_req := received_req <| rq_process_state := S4BXI_REQ_ANSWERED |>]> |>.


(** ** Atomic operations *)

(** 32-bit operands in memory order: 2^31 - 1 and 1. *)
Definition max_int : list Z := [255; 255; 255; 127].
Definition one_int : list Z := [1; 0; 0; 0].

Lemma max_int_bytes : are_bytes max_int.
Proof. decided. Qed.
Lemma one_int_bytes : are_bytes one_int.
Proof. decided. Qed.

(** Two unsigned operands whose sum fits overflow the signed addition all the same. *)
Lemma int_sum_spec_witness :
  op_sum PTL_UINT32_T max_int one_int = inl (Undefined "signed integer overflow") /\
  uint_of max_int + uint_of one_int < 2 ^ 32 /\
  int_of false [200] = 200.
Proof.
  split; [|split; evaluate].
  refine (proj2 (proj1 (int_sum_spec PTL_UINT32_T false 4 _ max_int one_int _ _ _ _)) _);
    first [exact max_int_bytes | exact one_int_bytes | evaluate | split; [lia|evaluate]].
Defined.

Lemma int_prod_spec_witness :
  op_prod PTL_UINT16_T [255; 255] [255; 255] = inl (Undefined "signed integer overflow").
Proof.
  refine (proj2 (proj1 (int_prod_spec PTL_UINT16_T false 2 _ [255; 255] [255; 255])) _); evaluate.
Defined.

Lemma int_min_max_spec_witness : exists r,
  op_min PTL_INT8_T [255] [1] = inr r /\ int_of true r = -1.
Proof.
  destruct (int_min_max_spec PTL_INT8_T true 1 ltac:(evaluate) [255] [1]) as [(r & H & _ & Hr) _].
  exists r. split; [exact H|]. etransitivity; [exact Hr|evaluate].
Defined.

Lemma bitwise_spec_witness : exists r,
  apply_element PTL_BXOR PTL_INT32_T 1 max_int one_int [] = inr r /\
  Z.testbit (uint_of r) 0 = false /\ Z.testbit (uint_of r) 30 = true.
Proof.
  destruct (bitwise_spec PTL_INT32_T true 4 ltac:(evaluate) max_int one_int max_int_bytes
    one_int_bytes ltac:(evaluate) ltac:(evaluate) PTL_BXOR xorb ltac:(evaluate) [] 1)
    as (r & H & _ & _ & Hb).
  exists r. split; [exact H|]. split.
  - rewrite Hb by (vm_compute; split; [discriminate|reflexivity]). evaluate.
  - rewrite Hb by (vm_compute; split; [discriminate|reflexivity]). evaluate.
Defined.

Lemma op_mswap_spec_witness :
  Z.testbit (uint_of (op_mswap max_int one_int [15; 0; 0; 0])) 3 = false /\
  Z.testbit (uint_of (op_mswap max_int one_int [15; 0; 0; 0])) 4 = true.
Proof.
  destruct (op_mswap_spec max_int one_int [15; 0; 0; 0] max_int_bytes one_int_bytes
    ltac:(decided) ltac:(evaluate) ltac:(evaluate)) as (_ & _ & Hb).
  split; rewrite Hb by (vm_compute; split; [discriminate|reflexivity]); evaluate.
Defined.

Lemma swap_spec_witness :
  apply_element PTL_CSWAP_LT PTL_INT8_T 1 [1] [7] [255] = inr [7] /\
  apply_element PTL_CSWAP_LT PTL_UINT8_T 1 [1] [7] [255] = inr [1].
Proof.
  split.
  - refine (proj1 (proj2 (swap_spec PTL_INT8_T true 1 PTL_CSWAP_LT [1] [7] [255] 1 _ _)) _ _);
      first [decided | evaluate].
  - refine (proj2 (proj2 (swap_spec PTL_UINT8_T false 1 PTL_CSWAP_LT [1] [7] [255] 1 _ _)) _ _);
      first [decided | evaluate].
Defined.

(** A sum of two 32-bit elements: the second one is not touched. *)
Definition summed : World := Eval vm_compute in
  after (apply_atomic_op PTL_SUM PTL_INT32_T 1000 (CstAt 1032) 1032 1000 8) world0.

Lemma atomic_touches_first_element_witness :
  w_mem summed !! 1000 <> w_mem world0 !! 1000 /\
  (w_mem summed !! 1004 = w_mem world0 !! 1004).
Proof.
  split; [vm_compute; discriminate|].
  refine (proj2 (atomic_touches_first_element PTL_SUM PTL_INT32_T 1000 (CstAt 1032) 1032 1000 8
    world0 tt summed _) 1004 _ _); [evaluate|cbn; lia|cbn; lia].
Defined.

(** ** Payloads *)

Definition delivered : World := Eval vm_compute in
  after (handle_put_request node_b (s_tx_resp site_b) example_msg) world_sent.
Definition sent_msg : BxiMsg := Eval vm_compute in get_some (w_msgs world_sent !! example_msg).
Definition sent_req : BxiRequest := Eval vm_compute in get_some (w_reqs world_sent !! example_req).
Definition sent_node : BxiNode := Eval vm_compute in get_some (w_nodes world_sent !! node_b).
Definition sent_entry : BxiME := Eval vm_compute in get_some (w_mes world_sent !! entry).
Definition matched_put : World :=
  Eval vm_compute in after (match_entry node_b example_msg) world_sent.

Lemma put_writes_payload_witness :
  w_mem delivered !! 2003 = w_mem world_sent !! 1004 /\
  w_mem delivered !! 2011 = w_mem world_sent !! 2011.
Proof.
  pose proof (put_writes_payload node_b (s_tx_resp site_b) example_msg sent_msg sent_req sent_node
    PTL_NI_OK (Some entry) world_sent matched_put tt delivered ltac:(evaluate) ltac:(evaluate)
    ltac:(evaluate) ltac:(evaluate) ltac:(evaluate) ltac:(evaluate)) as H.
  split; (etransitivity; [apply (H _ sent_entry); evaluate|evaluate]).
Defined.

(** The same bytes, from the call of [PtlPut] on. *)
Lemma put_delivered_witness :
  (exists asked, rq_match_bits asked = 42 /\ entry_found world_sent node_b asked entry) /\
  w_mem delivered !! 2003 = w_mem world_sent !! 1004 /\
  w_mem delivered !! 2011 = w_mem world_sent !! 2011.
Proof.
  pose proof (put_delivered (s_actor site_a) (s_md site_a) 4 8 PTL_ACK_REQ (mk_process 2 2048) 0 42 3 9
    0 world_appended PTL_OK world_posted) as H.
  destruct H as (d & i & p & service & Hd & Hi & Hp & H); [evaluate|].
  vm_compute in Hd, Hi, Hp. injection Hd as <-. injection Hi as <-. injection Hp as <-.
  destruct (H world_sent sent_req node_b sent_node (s_tx_resp site_b) example_msg sent_msg
    PTL_NI_OK (Some entry) matched_put tt delivered ltac:(apply rtc_once, step_transmit)
    ltac:(evaluate) ltac:(evaluate) ltac:(evaluate) ltac:(evaluate) ltac:(evaluate) ltac:(evaluate)
    ltac:(evaluate) ltac:(evaluate)) as [Hf Hm].
  split; [eexists; split; [|exact Hf]; reflexivity|].
  split; (etransitivity; [apply (Hm sent_entry); evaluate|evaluate]).
Defined.

(** A get by the first process of 8 bytes of the entry. *)
Definition example_get : SM Z :=
  PtlGet (s_actor site_a) (s_md site_a) 4 8 (mk_process 2 2048) 0 42 3 9.
Definition get_posted : World := Eval vm_compute in after example_get world_appended.
Definition get_msg : BxiMsg := Eval vm_compute in get_some (w_msgs get_posted !! example_msg).
Definition get_req : BxiRequest := Eval vm_compute in get_some (w_reqs get_posted !! example_req).
Definition get_node : BxiNode := Eval vm_compute in get_some (w_nodes get_posted !! node_a).
Definition get_response : World := Eval vm_compute in
  after (new_response node_b example_msg S4BXI_PTL_GET_RESPONSE) get_posted.

(** While the card works, another actor is busy: at each call to SimGrid, time moves on, it makes a
    counter and tells something to a queue elsewhere. *)
Definition busy_step (w : World) : World :=
  w <| w_clock ::= fun t => dadd t (double_of_Z 1) |>
    <| w_cts ::= <[w_next w := mk_CT [] (mk_ct_event 0 0)]> |> <| w_next ::= N.succ |>
    <| w_trace ::= cons (CommDetach (CommPut "elsewhere" (PEvent new_event) 0)) |>.
Definition busy_env : Env := {|
  env_step _ := busy_step; env_self := @env_self fifo_env;
  env_mailbox_ready := @env_mailbox_ready fifo_env;
  env_mailbox_listen := @env_mailbox_listen fifo_env;
  env_mailbox_size := @env_mailbox_size fifo_env; env_received := @env_received fifo_env;
  env_wait_any := @env_wait_any fifo_env; env_would_block := @env_would_block fifo_env;
  env_random_int := @env_random_int fifo_env; env_fuel := @env_fuel fifo_env |}.
Definition elsewhere (e : mailbox * ptl_event) : Prop := fst e = "elsewhere"%string.
Definition anything (h : handle) : Prop := True.

#[export] Instance busy_spares {V} (f : BxiRequest -> V) : Spares anything elsewhere f busy_env.
Proof.
  intros c w. split; [|split; try done; cbn; lia].
  split; try done. exists [("elsewhere"%string, new_event)]. split; [done|]. by repeat constructor.
Qed.
#[export] Instance busy_keeps_memory : KeepsMemory busy_env.
Proof. done. Qed.

Definition get_busy : World := Eval vm_compute in
  after (@target_dispatch busy_env node_b (s_tx_resp site_b) example_msg) get_posted.

Lemma get_delivered_witness :
  (exists asked, rq_match_bits asked = 42 /\ entry_found get_posted node_b asked entry) /\
  w_mem get_busy !! 1004 = w_mem get_posted !! 2003 /\
  w_mem get_busy !! 1012 = w_mem get_posted !! 1012.
Proof.
  pose proof (get_delivered (s_actor site_a) (s_md site_a) 4 8 (mk_process 2 2048) 0 42 3 9
    world_appended PTL_OK get_posted) as H.
  destruct H as (d & i & p & service & Hd & Hi & Hp & H); [evaluate|].
  vm_compute in Hd, Hi, Hp. injection Hd as <-. injection Hi as <-. injection Hp as <-.
  destruct (H get_posted get_req posted_ni get_node node_b (s_tx_resp site_b) example_msg get_msg
    26%N (Some entry) get_response busy_env anything tt get_busy ltac:(apply rtc_refl)
    ltac:(evaluate) ltac:(evaluate) ltac:(evaluate) ltac:(evaluate) ltac:(evaluate) ltac:(evaluate)
    ltac:(evaluate) ltac:(evaluate) busy_keeps_memory _ Logic.I Logic.I Logic.I (fun _ _ => Logic.I)
    ltac:(evaluate)) as [Hf Hm].
  split; [eexists; split; [|exact Hf]; reflexivity|].
  split; (etransitivity; [apply (Hm sent_entry); evaluate|evaluate]).
Defined.

(** ** Calls of a user process *)

Lemma choose_pid_spec_witness :
  result (choose_pid [2048; 2049] PTL_PID_ANY) world0 = Some 2050 /\
  NoDup (u32 <$> [2048; 2049] ++ [swrap 32 2050]).
Proof.
  split; [evaluate|].
  refine (proj2 (proj2 (proj2
    (choose_pid_spec [2048; 2049] PTL_PID_ANY world0 _ _ : _ = _ /\ _))) _);
    [evaluate|split; evaluate|decided].
Defined.

(** The interface of the first process, made logical. *)
Definition logical_ni : BxiNI := posted_ni <| ni_options := PTL_NI_LOGICAL |>.
Definition logical : World :=
  world0 <| w_nis ::= <[bmd_ni (rq_md posted_req) := logical_ni]> |>.
Definition world0_node : BxiNode := Eval vm_compute in get_some (w_nodes world0 !! node_a).

Definition mapped : World := Eval vm_compute in
  after (PtlSetMap (s_ni site_a) 2 [mk_process 2 2048; mk_process 1 2048]) logical.

Lemma set_map_round_trip_witness :
  get_physical_proc (s_ni site_a) (mk_process 1 0) mapped = Ok (mk_process 1 2048) mapped.
Proof.
  destruct (set_map_round_trip (s_ni site_a) logical_ni world0_node
    [mk_process 2 2048; mk_process 1 2048] logical) as (w1 & H & _ & Hr);
    [evaluate|evaluate|discriminate|].
  assert (Ok PTL_OK w1 = Ok PTL_OK mapped) as Heq by (rewrite <- H; evaluate).
  assert (w1 = mapped) as -> by congruence.
  apply (Hr 1 mapped); evaluate.
Defined.

Lemma mailbox_names_distinct_witness :
  nic_rx_mailbox_name 1 S4BXI_VN_COMPUTE_REQUEST <> nic_rx_mailbox_name 11 S4BXI_VN_COMPUTE_REQUEST.
Proof.
  intros H. apply (mailbox_names_distinct 1 S4BXI_VN_COMPUTE_REQUEST 11 S4BXI_VN_COMPUTE_REQUEST)
    in H as [H _]; [discriminate H|lia|lia].
Defined.

(** A put of 100 bytes from volatile memory is pushed by the process. *)
Definition volatile_req : BxiRequest :=
  posted_req <| rq_payload_size := 100 |>
    <| rq_md := mk_MD 1 (mk_md 1000 128 PTL_MD_VOLATILE PTL_EQ_NONE PTL_CT_NONE) |>.
Definition pio_msg : BxiMsg :=
  posted_msg <| ms_simulated_size := 100 |> <| ms_is_PIO := true |>.

Lemma payload_crosses_once_witness :
  ms_is_PIO pio_msg = true /\ uses_dma true pio_msg (INLINE_SIZE volatile_req) = false.
Proof.
  split; [evaluate|].
  refine (proj2 (payload_crosses_once true pio_msg volatile_req _ _ _)); evaluate.
Defined.

(** A swap posted by PtlSwap, received by the second node. *)
Definition swap_req : BxiRequest :=
  BxiFetchAtomicRequest_init (rq_md posted_req) 4 true 42 2048 0 9 false 4 3 0 PTL_CSWAP
    PTL_INT32_T (rq_md posted_req) 8 <| rq_mlength := Some 4 |> <| rq_start := Some 2000 |>.
Definition swap_received : World := world_sent <| w_reqs ::= <[example_req := swap_req]> |>.

Lemma swap_request_undefined_witness :
  result (run_fetch_atomic node_b example_req entry) swap_received = None.
Proof.
  unfold result. destruct (run_fetch_atomic node_b example_req entry swap_received) as [u w'|e] eqn:H;
    [exfalso|reflexivity].
  revert H. refine (swap_request_undefined node_b example_req entry sent_node swap_req 4
    swap_received u w' _ _ _ _ _ _ _ _); first [evaluate | split; evaluate].
Defined.

(** An atomic request, with an acknowledgement asked for, to a process without entries. *)
Definition example_atomic : SM Z :=
  PtlAtomic (s_actor site_a) (s_md site_a) 4 8 PTL_ACK_REQ (mk_process 2 2048) 0 42 3 9 0 PTL_SUM
    PTL_INT64_T.
Definition atomic_posted : World := Eval vm_compute in after example_atomic world0.
Definition atomic_msg : handle :=
  Eval vm_compute in default NULL (head (map fst (map_to_list (w_msgs atomic_posted)))).

Lemma unmatched_atomic_unanswered_witness :
  after (handle_atomic_request node_b (s_tx_resp site_b) atomic_msg) atomic_posted = atomic_posted /\
  result (handle_atomic_request node_b (s_tx_resp site_b) atomic_msg) atomic_posted = Some tt.
Proof.
  split; [|evaluate].
  refine (unmatched_atomic_unanswered node_b (s_tx_resp site_b) atomic_msg PTL_NI_TARGET_INVALID
    atomic_posted atomic_posted tt _ _ _); evaluate.
Defined.
