(* ===== verification/DeliveryWitnesses.v ===== *)
(** The theorems on the events of a put and on atomic operations applied to the exchange of
    [Scenario.v]. *)
From S2P Require Import Prelude Portals World Logic Engine Queue Messages Node Counters Entries.
From S2P Require Import E2E Atomics Memory NicActor Initiator Target MainActor FlowControl.
From S2P Require Import Progress Scenario System Matching Waiting Reliability AtomicsSpec.
From S2P Require Import Frames Deliver EndToEnd Reports Updates Witnesses.

(** ** Events *)

Definition sent_from : BxiNode := Eval vm_compute in get_some (w_nodes world_sent !! node_a).
Definition sent_table : BxiPT :=
  Eval vm_compute in get_some (w_pts world_sent !! bme_pt sent_entry).

(** The second process is told of the put, while another actor is busy. *)
Definition put_busy : World := Eval vm_compute in
  after (@target_dispatch busy_env node_b (s_tx_resp site_b) example_msg) world_sent.

Lemma put_reported_witness :
  (exists asked, rq_match_bits asked = 42 /\
    put_tells elsewhere (mk_process 1 2048) sent_entry sent_table asked world_sent put_busy) /\
  reports_to (Some sent_entry) = Some sent_entry /\ pt_eq sent_table <> PTL_EQ_NONE /\
  (length (events world_sent) + 2 < length (events put_busy))%nat.
Proof.
  pose proof (put_reported (s_actor site_a) (s_md site_a) 4 8 PTL_ACK_REQ (mk_process 2 2048) 0 42 3 9
    0 world_appended PTL_OK world_posted) as H.
  destruct H as (d & i & p & service & Hd & Hi & Hp & H); [evaluate|].
  vm_compute in Hd, Hi, Hp. injection Hd as <-. injection Hi as <-. injection Hp as <-.
  pose proof (H world_sent sent_req posted_ni sent_from node_b (s_tx_resp site_b) example_msg sent_msg
    PTL_NI_OK (Some entry) matched_put busy_env anything elsewhere tt put_busy
    ltac:(apply rtc_once, step_transmit)
    ltac:(evaluate) ltac:(evaluate) ltac:(evaluate) ltac:(evaluate) ltac:(evaluate) ltac:(evaluate)
    ltac:(evaluate) ltac:(evaluate) ltac:(evaluate) _ ltac:(evaluate) sent_entry sent_table
    ltac:(evaluate) ltac:(evaluate)
    ltac:(split; try exact Logic.I; [split; [exact Logic.I|evaluate]|right; split; [exact Logic.I|];
            eexists; vm_compute; reflexivity])) as Ht.
  split; [eexists; split; [|exact Ht]; reflexivity|]. split; [reflexivity|].
  split; [evaluate|vm_compute; lia].
Defined.

(** The first process is told of the end of the put, while another actor is busy. *)
Definition acked : World := Eval vm_compute in
  after (@target_dispatch busy_env node_a (s_tx_resp site_a) ack_handle) world_received.

Lemma put_acknowledged_witness :
  exists own, tells elsewhere own world_received acked /\
    (fun e => (ev_type (snd e), ev_user_ptr (snd e), ev_mlength (snd e))) <$> own
      = [(Some PTL_EVENT_ACK, Some 9, Some 8)].
Proof.
  pose proof (put_acknowledged (s_actor site_a) (s_md site_a) 4 8 PTL_ACK_REQ (mk_process 2 2048) 0 42
    3 9 0 world_appended PTL_OK world_posted) as H.
  destruct H as (d & i & p & service & Hd & Hi & Hp & H); [evaluate|].
  vm_compute in Hd, Hi, Hp. injection Hd as <-. injection Hi as <-. injection Hp as <-.
  pose proof (H world_received received_req node_a (s_tx_resp site_a) ack_handle ack_msg busy_env
    anything elsewhere tt acked
    ltac:(eapply rtc_l; [exact step_transmit|apply rtc_once, step_receive])
    ltac:(evaluate) ltac:(evaluate) ltac:(evaluate) ltac:(evaluate) Logic.I Logic.I ltac:(evaluate)
    ltac:(right; split; [exact Logic.I|eexists; vm_compute; reflexivity]) _ ltac:(evaluate))
    as Ht.
  match type of Ht with tells _ ?l _ _ => remember l as own eqn:Hown in Ht end.
  exists own. split; [exact Ht|]. rewrite Hown. vm_compute. reflexivity.
Defined.

(** ** Atomic operations *)

(** The first process adds the 64-bit integer at its offset 4 to that at the offset 3 of the entry. *)
Definition sum_posted : World := Eval vm_compute in after example_atomic world_appended.
Definition sum_sent : World := Eval vm_compute in after example_transmit sum_posted.
Definition sum_done : World := Eval vm_compute in
  after (target_dispatch node_b (s_tx_resp site_b) example_msg) sum_sent.
Definition sum_matched : World := Eval vm_compute in
  after (match_entry node_b example_msg) sum_sent.
Definition sum_msg : BxiMsg := Eval vm_compute in get_some (w_msgs sum_sent !! example_msg).
Definition sum_req : BxiRequest := Eval vm_compute in get_some (w_reqs sum_sent !! example_req).
Definition sum_node : BxiNode := Eval vm_compute in get_some (w_nodes sum_sent !! node_b).
Definition sum_entry : BxiME := Eval vm_compute in get_some (w_mes sum_sent !! entry).

Lemma step_sum : step sum_posted sum_sent.
Proof.
  apply (step_initiator _ _ (s_node site_a) S4BXI_VN_COMPUTE_REQUEST (s_tx site_a)). vm_compute.
  reflexivity.
Qed.

Lemma atomic_delivered_witness :
  (exists asked, rq_match_bits asked = 42 /\ entry_found sum_sent node_b asked entry) /\
  updated PTL_SUM PTL_INT64_T 2003 1004 8 (w_mem sum_sent) (w_mem sum_done).
Proof.
  pose proof (atomic_delivered (s_actor site_a) (s_md site_a) 4 8 PTL_ACK_REQ (mk_process 2 2048) 0
    42 3 9 0 PTL_SUM PTL_INT64_T world_appended PTL_OK sum_posted) as H.
  destruct H as (d & i & p & service & Hd & Hi & Hp & H); [evaluate|].
  vm_compute in Hd, Hi, Hp. injection Hd as <-. injection Hi as <-. injection Hp as <-.
  destruct (H sum_sent sum_req node_b sum_node (s_tx_resp site_b) example_msg sum_msg
    PTL_NI_OK (Some entry) sum_matched tt sum_done ltac:(apply rtc_once, step_sum)
    ltac:(evaluate) ltac:(evaluate) ltac:(evaluate) ltac:(evaluate) ltac:(evaluate) ltac:(evaluate)
    ltac:(evaluate) ltac:(evaluate)) as [Hf Hm].
  split; [eexists; split; [|exact Hf]; reflexivity|].
  specialize (Hm sum_entry ltac:(evaluate)). exact Hm.
Defined.

(** The same sum, with what the entry held fetched at the offset 16 of the first process. *)
Definition example_fetch : SM Z :=
  PtlFetchAtomic (s_actor site_a) (s_md site_a) 16 (s_md site_a) 4 8 (mk_process 2 2048) 0 42 3 9 0
    PTL_SUM PTL_INT64_T.
Definition fetch_posted : World := Eval vm_compute in after example_fetch world_appended.
Definition fetch_sent : World := Eval vm_compute in after example_transmit fetch_posted.
Definition fetch_done : World := Eval vm_compute in
  after (target_dispatch node_b (s_tx_resp site_b) example_msg) fetch_sent.
Definition fetch_matched : World := Eval vm_compute in
  after (new_response node_b example_msg S4BXI_PTL_FETCH_ATOMIC_RESPONSE) fetch_sent.
Definition fetch_response : handle := Eval vm_compute in
  get_some (fst <$> result (new_response node_b example_msg S4BXI_PTL_FETCH_ATOMIC_RESPONSE) fetch_sent).
Definition fetch_msg : BxiMsg := Eval vm_compute in get_some (w_msgs fetch_sent !! example_msg).
Definition fetch_req : BxiRequest := Eval vm_compute in get_some (w_reqs fetch_sent !! example_req).
Definition fetch_node : BxiNode := Eval vm_compute in get_some (w_nodes fetch_sent !! node_b).
Definition fetch_entry : BxiME := Eval vm_compute in get_some (w_mes fetch_sent !! entry).

Lemma step_fetch : step fetch_posted fetch_sent.
Proof.
  apply (step_initiator _ _ (s_node site_a) S4BXI_VN_COMPUTE_REQUEST (s_tx site_a)). vm_compute.
  reflexivity.
Qed.

Lemma fetch_delivered_witness :
  exists asked d_get, rq_match_bits asked = 42 /\ entry_found fetch_sent node_b asked entry /\
    done_for_real fetch_node (w_config fetch_sent) (rq_md asked) = true /\
    fetched_and_updated fetch_node (w_config fetch_sent) fetch_entry asked d_get (w_mem fetch_sent)
      (w_mem fetch_done).
Proof.
  pose proof (fetch_delivered (s_actor site_a) (s_md site_a) 16 (s_md site_a) 4 8 (mk_process 2 2048) 0
    42 3 9 0 PTL_SUM PTL_INT64_T world_appended PTL_OK fetch_posted) as H.
  destruct H as (d & dg & i & p & service & Hd & Hg & Hi & Hp & H); [evaluate|].
  vm_compute in Hd, Hg, Hi, Hp. injection Hd as <-. injection Hg as <-. injection Hi as <-.
  injection Hp as <-.
  destruct (H fetch_sent fetch_req node_b fetch_node (s_tx_resp site_b) example_msg fetch_msg
    fetch_response (Some entry) fetch_matched tt fetch_done ltac:(apply rtc_once, step_fetch)
    ltac:(evaluate) ltac:(evaluate) ltac:(evaluate) ltac:(evaluate) ltac:(evaluate) ltac:(evaluate)
    ltac:(evaluate) ltac:(evaluate)) as [Hf Hm].
  specialize (Hm fetch_entry ltac:(evaluate)).
  eexists _, _. split; [|split; [exact Hf|split; [|exact Hm]]]; [reflexivity|vm_compute; reflexivity].
Defined.
