(* ===== verification/SharedWitnesses.v ===== *)
(** The theorems on the configuration and on shared allocations applied to concrete inputs, with a
    kernel that grants what it is asked for; what the code does on some inputs it does not
    expect. *)
From S2P Require Import Prelude OMap Portals World Engine Config Witnesses.
From S2P Require Import Shared SharedSpec SharedTables.
From Stdlib Require Import SpecFloat Sorting.Sorted.

(** ** A kernel *)

#[export] Instance syscall_eq_dec : EqDecision syscall.
Proof. solve_decision. Defined.

Definition areas (l : list syscall) : Z :=
  Z.of_nat (length (l ≫= fun c =>
    match c with MmapAnonymous _ | MmapShared _ _ => [tt] | _ => [] end)).

(** New areas are 2^32 bytes apart. *)
#[export] Instance kernel : OS := {| os_answer l :=
  match l with
  | MmapFixed pos _ _ _ :: _ => inl pos
  | (MmapAnonymous _ | MmapShared _ _) :: l => inl (2 ^ 32 * (1 + areas l mod 1024))
  | (ShmOpen _ | Mkstemp _) :: _ => inl 5
  | OperatorNew _ :: _ => inl 4096
  | _ => inl 0
  end |}.
#[export] Instance smpi_types : SharedMallocType.
Proof. refine {| SMT_LOCAL := 1; SMT_GLOBAL := 2 |}. done. Defined.

Lemma kernel_obliging : Obliging.
Proof.
  split; [done| |done]. intros len l. eexists. split; [reflexivity|].
  pose proof (Z.mod_pos_bound (areas l) 1024 ltac:(lia)). lia.
Qed.

Definition default_cfg : s4bxi_config := Eval vm_compute in get_some default_config.
Definition local_cfg : s4bxi_config := default_cfg <| shared_malloc := 1 |>.
Definition global_cfg : s4bxi_config := default_cfg <| shared_malloc := 2 |>.
Definition huge_cfg : s4bxi_config :=
  global_cfg <| shared_malloc_hugepage := "/huge"%string |>
             <| shared_malloc_blocksize := 2 ^ 21 |>.

Definition result {A} (c : ShM A) (s : shared_state) : option A :=
  match c s with Ok a _ => Some a | Fail _ => None end.
Definition state_after {A} (c : ShM A) (s : shared_state) : shared_state :=
  match c s with Ok _ s' => s' | Fail _ => s end.

(** ** Configuration *)

Definition example_env : Environment :=
  {[ "S4BXI_MAX_RETRIES"%string := "12"%string; "S4BXI_SHARED_MALLOC"%string := "global"%string ]}.

Lemma config_well_typed_witness :
  exists c, BxiEngine_new example_env = Ok c example_env /\ config_typed c.
Proof. apply config_well_typed; vm_compute; reflexivity || exact I. Defined.

(** ** Private blocks *)

Lemma merge_intersection_witness :
  merge_private_blocks [(0, 10); (20, 30)] [(5, 25)] = [(5, 10); (20, 25)] /\
  (covered 22 (merge_private_blocks [(0, 10); (20, 30)] [(5, 25)]) <->
   covered 22 [(0, 10); (20, 30)] /\ covered 22 [(5, 25)]).
Proof.
  split; [reflexivity|].
  apply (merge_intersection 0 [(0, 10); (20, 30)] [(5, 25)]); simpl; lia.
Defined.

Lemma shift_and_frame_exact_witness :
  shift_and_frame_private_blocks [(10, 30); (50, 70)] 10 50 = [(0, 20); (40, 50)] /\
  (covered 45 (shift_and_frame_private_blocks [(10, 30); (50, 70)] 10 50) <->
   45 < 50 /\ covered (10 + 45) (filter (fun b => 10 <= b.1) [(10, 30); (50, 70)])).
Proof.
  split; [reflexivity|].
  apply (shift_and_frame_exact [(10, 30); (50, 70)] 10 50 0); try lia; simpl; try lia.
  repeat constructor; simpl; lia.
Defined.

(** A block that reaches into the buffer from before its start is forgotten: bytes 50 to 99 are
    private and nothing says so. *)
Example straddling_block_dropped :
  shift_and_frame_private_blocks [(0, 100)] 50 100 = [] /\ covered 70 [(0, 100)].
Proof. split; [reflexivity|]. apply Exists_cons. left. simpl. lia. Qed.

(** ** Partial allocations *)

(** Three megabytes, of which the middle is shared. *)
Definition three_mb : Z := 3 * 2 ^ 20.
Definition middle : list (Z * Z) := [(2 ^ 20 - 5000, 2 ^ 21 + 5000)].
Definition allocate_middle : ShM Z :=
  s4bxi_shared_malloc_partial global_cfg 4 three_mb (flatten middle) 1.
Definition middle_state : shared_state := Eval vm_compute in state_after allocate_middle initial_shared.
Definition middle_mem : Z := 2 ^ 32.

Lemma middle_ok k : k = 20 -> Forall (fun b => 0 <= b.1 /\ ~ short_tail k three_mb b.1 b.2) middle.
Proof. intros ->. repeat constructor; [vm_compute; discriminate|]. by intros [[=] _]. Qed.


Lemma partial_malloc_private_witness : exists meta,
  omap_find middle_mem (sh_allocs_metadata middle_state) = Some meta /\
  md_private_blocks meta = [(0, 2 ^ 20 - 5000); (2 ^ 21 + 5000, three_mb)] /\
  (covered 7 (md_private_blocks meta) <-> ~ covered 7 middle).
Proof.
  destruct (partial_malloc_private global_cfg 4 20 three_mb middle initial_shared middle_mem middle_state)
    as (meta & Hf & Hs & Hok & Hx);
    [vm_compute; reflexivity|lia|vm_compute; reflexivity|by apply middle_ok|vm_compute; discriminate
    |vm_compute; reflexivity|constructor|vm_compute; reflexivity|].
  exists meta. split; [exact Hf|]. split.
  - vm_compute in Hf. injection Hf as <-. reflexivity.
  - apply (Hx 7). unfold three_mb. lia.
Defined.


(** A shared block that reaches the end of the allocation from inside its last block of the bogus
    file folds private bytes: byte 2^20 is private, and mapped to the bogus file. *)
Example short_tail_folds_private :
  let s := state_after (s4bxi_shared_malloc_partial global_cfg 4 (2 ^ 20 + 100)
                          [2 ^ 20 + 10; 2 ^ 20 + 100] 1) initial_shared in
  MmapFixed (2 ^ 32 + 2 ^ 20) 100 false 5 ∈ sh_trace s /\
  md_private_blocks <$> omap_find (2 ^ 32) (sh_allocs_metadata s) = Some [(0, 2 ^ 20 + 10)].
Proof. vm_compute. split; [|reflexivity]. repeat constructor. Qed.

(** In the GLOBAL mode an allocation of no byte stops the simulation; [operator new] would give an
    address. *)
Example empty_global_malloc_aborts :
  s4bxi_shared_malloc global_cfg 4 0 "a.c" 1 initial_shared
  = Fail (Abort "start_offset should be lower than stop offset").
Proof. vm_compute. reflexivity. Qed.

(** With huge pages, a free gives back a part of what was reserved only. *)
Example global_free_leaks :
  let c := mem ← s4bxi_shared_malloc huge_cfg 4 (2 ^ 21) "a.c" 1; s4bxi_shared_free huge_cfg mem in
  let s := state_after c initial_shared in
  Munmap (2 ^ 32) (2 ^ 21) ∈ sh_trace s /\ MmapAnonymous (3 * 2 ^ 21) ∈ sh_trace s /\
  ~ Munmap (2 ^ 32) (3 * 2 ^ 21) ∈ sh_trace s.
Proof. split_and!; apply (bool_decide_unpack _); vm_compute; exact I. Qed.

(** ** The tables *)

Lemma is_shared_finds_witness : exists r,
  s4bxi_is_shared global_cfg (middle_mem + 9) middle_state = Ok r middle_state /\
  (r = Some ([(0, 2 ^ 20 - 5000); (2 ^ 21 + 5000, three_mb)], 9) <->
   exists base meta, (base, meta) ∈ sh_allocs_metadata middle_state /\
     owns (middle_mem + 9) (base, meta) /\
     [(0, 2 ^ 20 - 5000); (2 ^ 21 + 5000, three_mb)] = md_private_blocks meta /\
     9 = middle_mem + 9 - base).
Proof.
  destruct (is_shared_finds global_cfg (middle_mem + 9) middle_state) as (r & Hr & Hx);
    [by right|unfold middle_mem; lia|vm_compute; repeat split; discriminate|].
  exists r. split; [exact Hr|]. exact (Hx [(0, 2 ^ 20 - 5000); (2 ^ 21 + 5000, three_mb)] 9).
Defined.

(** Two allocations from one line of a program, and the first one freed. *)
Definition local_malloc : ShM Z := s4bxi_shared_malloc_local 4 100 "a.c" 7.
Definition local_1 : shared_state := Eval vm_compute in state_after local_malloc initial_shared.
Definition local_2 : shared_state := Eval vm_compute in state_after local_malloc local_1.
Definition local_3 : shared_state :=
  Eval vm_compute in state_after (s4bxi_shared_free local_cfg (2 ^ 32)) local_2.


(** The memory of the first allocation was unmapped, and it still counts as shared; freeing the
    second one, then the first again, follows a dangling pointer. *)
Example local_free_keeps_metadata :
  result (s4bxi_is_shared local_cfg (2 ^ 32 + 5)) local_3 = Some (Some ([], 5)) /\
  s4bxi_shared_free local_cfg (2 ^ 32)
    (state_after (s4bxi_shared_free local_cfg (2 * 2 ^ 32)) local_3)
  = Fail (Undefined "dangling pointer").
Proof. split; vm_compute; reflexivity. Qed.

Definition call_42 : ShM Z := S4BXI_SHARED_CALL "f" "x" (mret 42).
Lemma shared_call_remembered_witness :
  S4BXI_SHARED_CALL "f" "x" (fail (Abort "called again")) (state_after call_42 initial_shared)
  = Ok 42 (state_after call_42 initial_shared).
Proof.
  apply (shared_call_remembered "f" "x" (mret 42) initial_shared 42 (state_after call_42 initial_shared));
    vm_compute; reflexivity.
Defined.
