(* ===== verification/StartWitnesses.v ===== *)
(** The theorems on the user processes applied to concrete inputs: a machine with two cores and its
    card, two processes on it; what the code does on some inputs it does not expect. *)
From S2P Require Import Prelude OMap Portals World Logic Engine Config Scenario Witnesses.
From S2P Require Import MainActor Runtime Bench CUtil CApi UserApp Redefine Registry Sampling Strings.
From S2P Require Import Memory Peers.
From Stdlib Require Import SpecFloat Sorting.Sorted.

(** ** A machine *)

Definition host_names : list string := ["node3_CPU0"; "node3_NIC"; "node4_CPU0"; "node4_NIC"]%string.

Fixpoint index_of (x : string) (l : list string) (i : Z) : option Z :=
  match l with
  | [] => None
  | y :: l' => if bool_decide (x = y) then Some i else index_of x l' (i + 1)
  end.

(** The process [pid]; its rank is its PID less 7.  The host of an actor depends on the number of
    calls made before its creation. *)
Definition machine (pid : Z) : Runtime := {|
  rt_step c s := s;
  rt_succeeds c s := true;
  rt_others s := s;
  rt_pid s := pid;
  rt_host s := Z.of_nat (length (sim_calls s)) mod 4;
  rt_property s name := if bool_decide (name = "rank"%string) then Some (pretty (pid - 7)) else None;
  rt_speed s := double_of_Z 1000;
  rt_elapsed s a := double_of_Z 2;
  rt_all_actors s := [7; 8];
  rt_actors_on s h := ["nic_e2e"%string];
  rt_host_name h := default ""%string (host_names !! Z.to_nat h);
  rt_by_name name := index_of name host_names 0;
  rt_host_property h name := None;
  rt_isatty fd := false;
  rt_geteuid := 1000;
  rt_printed s := 0;
  rt_getopt s := -1;
  rt_random_int n a b := Z.of_nat n mod 52;
  rt_engine_args argv := argv; rt_loaded_libs s := []; rt_xml file := None;
  rt_actor_name s pid := ""%string; rt_actor_property s pid id := None; rt_malloc s := 0;
  rt_env := ∅;
  rt_indeterminate_host := -1;
  rt_mpi_build := false |}.

Definition empty_sim : Sim := {|
  sim_world := empty_world example_config; sim_nodes := []; sim_actors := [];
  sim_rand_id := "0000000000"; sim_users := ∅; sim_ext_valid := false; sim_ext := ∅;
  sim_barrier := None; sim_local_ranks := ∅; sim_initialized_processes := 0; sim_samples := ∅;
  sim_bxi_log := mk_log None None S4BXILOG_COMPUTE 0 0;
  sim_app := mk_Application "app" "app" []; sim_optind := 0; sim_calls := [] |}.

Definition answer {A} (c : PM A) (s : Sim) : option A :=
  match c s with Ok a _ => Some a | Fail _ => None end.
Definition goes {A} (c : PM A) (s : Sim) : Sim :=
  match c s with Ok _ s' => s' | Fail _ => s end.

(** Both processes are created. *)
Definition create (pid : Z) : PM handle := BxiUserAppActor_new (H := machine pid) ["app"%string].
Definition created : Sim := Eval vm_compute in
  goes (_ ← s4bxi_actor_ext_plugin_init (H := machine 7); _ ← create 7; create 8) empty_sim.
Definition first_process : handle :=
  Eval vm_compute in default NULL (answer (get_current_main_actor (H := machine 7)) created).
Definition second_process : handle :=
  Eval vm_compute in default NULL (answer (get_current_main_actor (H := machine 8)) created).

(** Both have their ranks, and the first one was found once. *)
Definition ranked_once : Sim := Eval vm_compute in
  goes (assign_ranks (H := machine 7) first_process) created.
Definition started : Sim := Eval vm_compute in
  goes (_ ← assign_ranks (H := machine 8) second_process;
        _ ← GET_CURRENT_MAIN_ACTOR (H := machine 7); mret tt) ranked_once.

(** ** Names and nodes *)

Lemma host_names_round_trip_witness :
  parse_hostname ("node3" ++ "_CPU" ++ pretty 12) = ("node3"%string, true, true) /\
  parse_hostname ("node3" ++ "_NIC") = ("node3"%string, false, false).
Proof. apply (host_names_round_trip "node3" 12); [reflexivity|lia]. Defined.

(** Another call is made: the next actor is on the next host. *)
Definition next_host (s : Sim) : Sim := s <| sim_calls ::= cons ActorYield |>.
Definition core_created : Sim := Eval vm_compute in goes (BxiActor_new (H := machine 7)) empty_sim.
Definition nic_created : Sim :=
  Eval vm_compute in goes (BxiActor_new (H := machine 7)) (next_host core_created).

Lemma machine_kept pid c s : registry_wf s -> registry_kept s (rt_step (Runtime := machine pid) c s).
Proof. intros _. split; [reflexivity|apply N.le_refl|reflexivity]. Defined.

Lemma nodes_are_shared_witness : exists nid nid',
  find_nid (H := machine 7) "node3" empty_sim = Ok nid empty_sim /\
  find_nid (H := machine 7) "node3" empty_sim = Ok nid' empty_sim /\
  (1%N = 1%N <-> nid = nid').
Proof.
  apply (nodes_are_shared (H := machine 7) (machine_kept 7) empty_sim 1%N "node3" core_created
           (next_host core_created) 1%N "node3" nic_created).
  - split; [constructor|by intros|by intros].
  - vm_compute. reflexivity.
  - eapply rtc_l; [|apply rtc_refl]. apply start_other.
    split; [reflexivity|apply N.le_refl|reflexivity].
  - vm_compute. reflexivity.
Defined.

(** ** Ranks *)

Lemma local_ranks_consecutive_witness :
  ranks_consecutive ranked_once /\ ranks_given ranked_once "node3" = 1.
Proof.
  split; [|reflexivity]. apply (local_ranks_consecutive (H := machine 7) created).
  - reflexivity.
  - intros slug h r (u & Hu & _ & Hr).
    assert (map_Forall (fun _ u => ua_my_local_rank u = None) (sim_users created)) as Hn by decided.
    apply Hn in Hu. congruence.
  - eapply rtc_l; [|apply rtc_refl].
    eapply (rank_assign first_process _ created ranked_once);
      [vm_compute; reflexivity|reflexivity|reflexivity|vm_compute; reflexivity].
Defined.

Lemma private_names_distinct_witness :
  target_lib "ABCDEFGHIJ" 3 "libmpi.so.40" = "ABCDEF3so.40"%string /\
  target_lib "ABCDEFGHIJ" 12 "libmpi.so.40" = "ABCDE12so.40"%string /\
  String.length (target_lib "ABCDEFGHIJ" 3 "libmpi.so.40") = 12%nat.
Proof.
  split; [reflexivity|]. split; [reflexivity|].
  apply (private_names_distinct (H := machine 7) 0 "0000000000" empty_sim "ABCDEFGHIJ" empty_sim
           "libmpi.so.40" 3 12); [vm_compute; reflexivity|vm_compute; lia|lia|lia|vm_compute; lia..].
Defined.

(** A short name with a large rank is replaced by a longer one. *)
Example private_name_too_long :
  target_lib "ABCDEFGHIJ" 123 "a/" = "ABCDEFGHIJ123"%string.
Proof. reflexivity. Qed.

(** An explicit rank and a default one collide. *)
Example default_rank_collides :
  set_ranks [("user_app", Some "1"); ("user_app", None)]%string 0
  = ([("user_app", Some "1"); ("user_app", Some "1")]%string, 2).
Proof. reflexivity. Qed.

(** The engine keeps the pointer of an actor that has ended: a timer that expires afterwards follows
    it, although the code expects not to find the actor. *)
Example timer_after_the_end :
  s4bxi_timer_actor (H0 := machine 9) "1" "14" "7"
    (goes (BxiUserAppActor_delete first_process) started)
  = Fail (Undefined "dangling actor").
Proof. vm_compute. reflexivity. Qed.

(** ** Time *)

(** The microseconds of a date may round up to a whole second. *)
Example a_million_microseconds :
  answer (split_time (double_of_Z (10 ^ 6)))
    (started <| sim_world ::= fun w => w <| w_clock := atof "0.9999999" |> |>)
  = Some (0, 1000000).
Proof. vm_compute. reflexivity. Qed.

(** ** Samples *)

Abbreviation loop_view := (view 7 first_process false "a.c" 12).
Definition sample_view : loop_view 0 None 0 started.
Proof. by split; [|eexists|eexists _, _| |]. Defined.

Lemma machine_calm c f o n s :
  loop_view f o n s -> loop_view f o n (rt_step (Runtime := machine 7) c s).
Proof. done. Defined.

(** A loop of five turns, three of which are measured. *)
Definition five_turns (i : Z) : bool := i <? 5.
Definition sampled_five : PM unit :=
  S4BXI_SAMPLE_LOOP (H := machine 7) five_turns (fun i => i + 1)
    (fun i => call (H := machine 7) (UserCode i)) false "a.c" 12 3 (double_of_Z 0) 6 0.

Lemma sampled_loop_ends_witness : exists s',
  sampled_five started = Ok tt s' /\ user_runs (sim_calls s') = 3.
Proof.
  destruct (sampled_loop_ends (H := machine 7) 7 first_process ltac:(discriminate)
    (fun s => eq_refl) false "a.c" 12 3 (double_of_Z 0) eq_refl eq_refl machine_calm
    five_turns (fun i => i + 1) (fun i => call (H := machine 7) (UserCode i))
    (fun i o n => call_view (H := machine 7) 7 first_process false "a.c" 12 machine_calm
       (UserCode i) 1 o n)
    5 6 0 None 0) with (s := started) as ([] & s' & Hr & r & Hn & Hv & _).
  - do 5 (apply turns_step; [reflexivity|]). apply turns_end. reflexivity.
  - lia.
  - split; reflexivity.
  - discriminate.
  - reflexivity.
  - exact sample_view.
  - exists s'. split; [exact Hr|]. rewrite Hv, (Hn eq_refl). reflexivity.
Defined.

(** ** Names of constants *)

Lemma names_tell_constants_witness :
  PtlToStr 10 PTL_STR_FAIL_TYPE = "PTL_NI_TARGET_INVALID"%string /\ PTL_NI_TARGET_INVALID = 10.
Proof.
  split; [reflexivity|].
  apply (names_tell_constants PTL_STR_FAIL_TYPE 10 PTL_NI_TARGET_INVALID); [discriminate|reflexivity].
Defined.

(** ** The local peers *)

(** Sixteen bytes at address 5000. *)
Definition with_buffer : Sim := Eval vm_compute in
  started <| sim_world ::= fun w =>
    w <| w_mem := list_to_map ((fun i => (5000 + i, 255)) <$> seqZ 0 16) |> |>.
Definition first_user : BxiUserAppActor :=
  Eval vm_compute in get_some (sim_users with_buffer !! first_process).

Lemma peers_list_bounded_witness : exists w,
  s4bxi_local_peers_list (H0 := machine 7) 5000 16 with_buffer
    = Ok tt (with_buffer <| sim_world := w |>) /\
  holds (w_mem w) 5000 16 "0,1".
Proof.
  pose proof (peers_list_bounded (H0 := machine 7) 5000 16 with_buffer first_process first_user
    [(7, first_process); (8, second_process)] [0; 1]) as Hp.
  destruct Hp as (w & Hw & _ & Hh).
  - intros w. vm_compute. reflexivity.
  - vm_compute. reflexivity.
  - vm_compute. reflexivity.
  - repeat constructor; eexists; split; vm_compute; reflexivity.
  - discriminate.
  - intros i Hi. assert (i ∈ seqZ 0 16) as Hin by (apply elem_of_seqZ; lia).
    assert (Forall (fun i => is_Some (w_mem (sim_world with_buffer) !! (5000 + i))) (seqZ 0 16)) as Hf
      by decided.
    rewrite Forall_forall in Hf. by apply Hf.
  - lia.
  - exists w. split; [exact Hw|exact Hh].
Defined.
