(* ===== verification/MpiWitnesses.v ===== *)
(** The theorems on the MPI middleware applied to concrete inputs: two libraries that write what a
    script says; what the middleware does on some inputs it does not expect. *)
From S2P Require Import Prelude OMap Portals World Logic Engine Config Scenario Witnesses Atomics.
From S2P Require Import AtomicsSpec Memory.
From S2P Require Import Runtime Bench CUtil MpiTables Mpi MpiCalls MpiSpec MpiSetup MpiRequests.
From S2P Require Import MpiPairs StartWitnesses.

(** ** Two libraries *)

(** The machine of [StartWitnesses.v], with the middleware; time passes in its calls. *)
Definition mpi_machine : Runtime := {|
  rt_step c s := s <| sim_world ::= fun w => w <| w_clock := double_of_Z 0 |> |>;
  rt_succeeds c s := true; rt_others s := s; rt_pid s := 7; rt_host s := 0;
  rt_property s name := None; rt_speed s := double_of_Z 1000; rt_elapsed s a := double_of_Z 2;
  rt_all_actors s := [7]; rt_actors_on s h := []; rt_host_name h := ""%string;
  rt_by_name name := None; rt_host_property h name := None; rt_isatty fd := false;
  rt_geteuid := 1000; rt_printed s := 0; rt_getopt s := -1; rt_random_int n a b := a;
  rt_engine_args argv := argv; rt_loaded_libs s := []; rt_xml file := None;
  rt_actor_name s pid := ""%string; rt_actor_property s pid id := None; rt_malloc s := 0;
  rt_env := ∅; rt_indeterminate_host := -1; rt_mpi_build := true |}.

(** What a call writes: where (the last argument when it is not said), how many bytes, a value. *)
Definition write : Type := option Z * nat * Z.

Fixpoint put_bytes (m : gmap Z Z) (a : Z) (bs : list Z) : gmap Z Z :=
  match bs with [] => m | v :: bs' => <[a := v]> (put_bytes m (a + 1) bs') end.
Definition put (args : list Z) (ws : list write) (m : gmap Z Z) : gmap Z Z :=
  foldr (fun '(a, n, v) m => put_bytes m (default (List.last args 0) a) (bytes_of_Z n v)) m ws.

Definition unused (s : Middleware) (a n : Z) : bool :=
  forallb (fun i => bool_decide (memory s !! (a + Z.of_nat i) = None)) (seq 0 (Z.to_nat n)).

(** The first call writes the head of the script, and so on.  A symbol of a library is a number made
    of its name; those of [missing] are not found. *)
Definition libraries (missing : list string) (script : list (list write)) : Mpi := {|
  mpi_step c s :=
    s <| mw_sim ::= fun m => m <| sim_world ::= fun w =>
      w <| w_mem ::= put (mc_args c) (default [] (script !! pred (length (mw_calls s)))) |>
        <| w_clock := double_of_Z 0 |> |> |>;
  mpi_int s := 0; mpi_double s := double_of_Z 0;
  mpi_dlsym lib sym :=
    if bool_decide (sym ∈ missing) then 0 else Z.pos (encode (lib, sym));
  mpi_constant pid name := Z.pos (encode (0%Z, name));
  mpi_block n s :=
    let a := 1000000 * (1 + Z.of_nat (size (mw_blocks s))) in
    if (n <? 1000) && (Z.of_nat (size (mw_blocks s)) <? 1000) && unused s a n then Some a else None;
  mpi_indeterminate a := 170;
  mpi_log_calls := false |}.

Lemma put_bytes_mapped m a bs x : is_Some (m !! x) -> is_Some (put_bytes m a bs !! x).
Proof.
  revert a. induction bs as [|v bs IH]; intros a Hx; [done|]. cbn.
  apply lookup_insert_is_Some. destruct (decide (a = x)); auto.
Qed.
Lemma put_mapped args ws m x : is_Some (m !! x) -> is_Some (put args ws m !! x).
Proof. intros Hx. induction ws as [|[[a n] v] ws IH]; [done|]. by apply put_bytes_mapped. Qed.

Lemma libraries_calm missing script c s : exists f t,
  mpi_step (Mpi := libraries missing script) c s =
  s <| mw_sim ::= fun m => m <| sim_world ::= fun w => w <| w_mem ::= f |> <| w_clock := t |> |> |>.
Proof. by do 2 eexists. Defined.

Lemma libraries_keep missing script c s x :
  is_Some (memory s !! x) ->
  is_Some (memory (mpi_step (Mpi := libraries missing script) c s) !! x).
Proof. apply put_mapped. Qed.

Lemma libraries_block missing script n s a :
  0 <= n -> mpi_block (Mpi := libraries missing script) n s = Some a ->
  0 <= a <= 2 ^ 64 - n /\ forall x, a <= x < a + n -> memory s !! x = None.
Proof.
  intros Hn. cbn. set (k := size _) in *.
  destruct ((n <? 1000) && (Z.of_nat k <? 1000) && _) eqn:E; [|done]. intros [= <-].
  apply andb_true_iff in E as [[E1%Z.ltb_lt E2%Z.ltb_lt]%andb_true_iff E3].
  split; [lia|]. intros x Hx. unfold unused in E3. rewrite forallb_forall in E3.
  specialize (E3 (Z.to_nat (x - 1000000 * (1 + Z.of_nat k)))).
  rewrite bool_decide_eq_true, Z2Nat.id in E3 by lia.
  replace (1000000 * (1 + Z.of_nat k) + (x - 1000000 * (1 + Z.of_nat k))) with x in E3 by lia.
  apply E3. apply in_seq. lia.
Qed.

Lemma mpi_machine_calm c m : exists t,
  rt_step (Runtime := mpi_machine) c m = m <| sim_world ::= fun w => w <| w_clock := t |> |>.
Proof. by eexists. Defined.

(** ** A process with its two implementations *)

Definition functions (lib : Z) : s4bxi_mpi_ops :=
  list_to_map (("REQUEST_NULL"%string, 90 + lib) ::
    map (fun f => (f, Z.pos (encode (lib, f))))
      ["Isend"; "Send_init"; "Wait"; "Waitany"; "Comm_split"; "Comm_size"]%string).

(** Two hundred bytes of memory at address 1000. *)
Definition some_memory : gmap Z Z := put_bytes ∅ 1000 (replicate 200 0).

Definition process (smpi : bool) : BxiUserAppActor :=
  default (user_init (H := mpi_machine) "node3" []) (sim_users started !! first_process)
    <| ua_use_smpi_implem := smpi |>.

Definition running (smpi : bool) : Middleware := {|
  mw_sim := started
    <| sim_world ::= fun w => w <| w_mem := some_memory |> |>
    <| sim_users ::= <[first_process := process smpi]> |>;
  mw_smpi_ops := Some (functions 2);
  mw_bull_ops := {[first_process := functions 1]};
  mw_requests := ∅; mw_blocks := ∅; mw_calls := [] |}.

Lemma running_ready smpi :
  ready (H := mpi_machine) first_process (process smpi) (functions 1) (running smpi).
Proof. split; [done|reflexivity|reflexivity|reflexivity]. Defined.

Definition result {A} (c : MM A) (s : Middleware) : option A :=
  match c s with Ok a _ => Some a | Fail _ => None end.
Definition after {A} (c : MM A) (s : Middleware) : Middleware :=
  match c s with Ok _ s' => s' | Fail _ => s end.

(** ** Handles and functions *)

Definition constant (name : string) : Z := Z.pos (encode (0%Z, name)).

(** The type [MPI_INT] of SMPI, for Bull: the process has the full structures. *)
Definition all_symbols : Middleware :=
  after (set_mpi_middleware_ops (H := mpi_machine) (H0 := libraries [] []) 1 2)
    (running false <| mw_smpi_ops := None |> <| mw_bull_ops := ∅ |>).
Definition full_bull : s4bxi_mpi_ops :=
  default ∅ (mw_bull_ops all_symbols !! first_process).

Definition unambiguous_check (b : s4bxi_mpi_ops) (constant : string -> Z) : bool :=
  forallb (fun t => forallb (fun t' =>
    bool_decide (t = t') ||
    negb (existsb (fun h => negb (h =? 0) &&
            ((h =? constant t') || (h =? ops_field b (TYPE_ t'))))
            [constant t; ops_field b (TYPE_ t)]))
    predefined_datatypes) predefined_datatypes.

Lemma unambiguous_intro missing script s b :
  unambiguous_check b (fun t => constant (MPI_ t)) = true ->
  unambiguous (H := mpi_machine) (H0 := libraries missing script) b s.
Proof.
  unfold unambiguous_check. rewrite forallb_forall. intros Hc h t t' Hz Ht Ht' Hn Hn'.
  specialize (Hc t Ht). rewrite forallb_forall in Hc. specialize (Hc t' Ht').
  apply orb_true_iff in Hc as [Hc%bool_decide_eq_true|Hc]; [done|].
  apply negb_true_iff in Hc. exfalso. rewrite <- not_true_iff_false in Hc. apply Hc.
  apply existsb_exists. exists h. split.
  - destruct Hn as [->| ->]; cbn; auto.
  - rewrite andb_true_iff, negb_true_iff, Z.eqb_neq, orb_true_iff, !Z.eqb_eq.
    split; [done|exact Hn'].
Qed.

Lemma all_symbols_ready :
  ready (H := mpi_machine) first_process (process false) full_bull all_symbols.
Proof.
  split; [done|vm_compute; reflexivity|vm_compute; reflexivity|].
  assert (bool_decide (is_Some (mw_bull_ops all_symbols !! first_process)) = true) as E
    by (vm_compute; reflexivity).
  apply bool_decide_eq_true in E as [m E]. unfold full_bull. by rewrite E.
Qed.

(** [MPI_INT] of SMPI, for Bull. *)
Lemma datatype_translated_witness :
  reads (implem_datatype (H := mpi_machine) (H0 := libraries [] []) (constant "MPI_INT")) all_symbols
    (ops_field full_bull "TYPE_INT").
Proof.
  refine (proj1 (datatype_translated (H := mpi_machine) (H0 := libraries [] []) first_process
    (process false) full_bull all_symbols (constant "MPI_INT") all_symbols_ready _ _) "INT"%string _ _).
  - apply unambiguous_intro. vm_compute. reflexivity.
  - vm_compute. discriminate.
  - vm_compute. tauto.
  - left. reflexivity.
Defined.

(** Three datatypes of SMPI are not looked up in the library of Bull: it is given a null handle. *)
Example two_floats_become_null :
  result (implem_datatype (H := mpi_machine) (H0 := libraries [] []) (constant "MPI_2FLOAT"))
    all_symbols = Some 0.
Proof. vm_compute. reflexivity. Qed.

Definition isend : instance :=
  store "int" "Isend"
    [("const void*", "buf"); ("int", "count"); ("MPI_Datatype", "datatype"); ("int", "dst");
     ("int", "tag"); ("MPI_Comm", "comm"); ("MPI_Request*", "request")]%string
    [Var "buf"; Var "count"; Datatype "datatype"; Var "dst"; Var "tag"; Comm "comm"; Var "request"].

(** A send to process 1 with tag 5 of ten integers, by SMPI; the request is at address 1000. *)
Definition send_arguments : list Z :=
  [1100; 10; constant "MPI_INT"; 1; 5; constant "MPI_COMM_WORLD"; 1000].

Lemma isend_generated : In isend generated_functions.
Proof. apply list_elem_of_In, (bool_decide_eq_true_1 _). vm_compute. reflexivity. Qed.

Lemma send_passed script :
  Forall2 (fun p v' => passed (H := mpi_machine) (H0 := libraries [] script) (running true)
                         p.1.1 p.2 v')
    (zip (i_params isend) send_arguments) send_arguments.
Proof. repeat constructor; vm_compute; reflexivity. Qed.

(** The library that writes the request. *)
Definition send_library : Mpi := libraries [] [[(None, 8%nat, 5000)]].

Lemma isend_target :
  target isend (process true) (functions 1) (functions 2) = functions 2.
Proof. reflexivity. Qed.


(** ** The set-up *)

(** A process that was given no functions yet. *)
Definition before_setup : Middleware :=
  running false <| mw_smpi_ops := None |> <| mw_bull_ops := ∅ |>.


(** ** Requests *)

(** One run of a script in the process 7. *)
Section Script.
Context (script : list (list write)).
#[local] Instance script_library : Mpi := libraries [] script.
#[local] Existing Instance mpi_machine.

Definition returns {A} (c : MM A) (s : Middleware) : bool :=
  match c s with Ok _ _ => true | Fail _ => false end.
Lemma returns_after {A} (c : MM A) s : returns c s = true -> exists x, c s = Ok x (after c s).
Proof. unfold returns, after. destruct (c s); [eauto|done]. Qed.

Lemma points_to_check s p v :
  bytes_at (memory s) p 8 = Some (bytes_of_Z 8 v) -> u64 v = v -> points_to s p v.
Proof. intros Hb Hv. exists (bytes_of_Z 8 v). split; [done|]. by rewrite Z_of_bytes_of_Z. Qed.

(** The calls of the program, by name: the state after them. *)
Definition make (i : instance) (s : Middleware) : Middleware :=
  after (generated mpi_int i "main.c" 12 send_arguments) s.
Definition switch (v : Z) (s : Middleware) : Middleware :=
  after (on_sim (s4bxi_use_smpi_implem v)) s.
Definition wait (s : Middleware) : Middleware :=
  after (S4BXI_MPI_Wait "main.c" 13 1000 1100) s.
Definition wait_any (s : Middleware) : Middleware :=
  after (S4BXI_MPI_Waitany "main.c" 13 1 1000 1100 1104) s.

(** A request of SMPI whose handle [r] is written at address 1000. *)
Lemma make_history i r :
  i_macro i = ONE_IMPLEM_STORE_REQUEST ->
  parameter (i_params i) send_arguments "request" = Some 1000 ->
  returns (generated mpi_int i "main.c" 12 send_arguments) (running true) = true ->
  points_to (make i (running true)) 1000 r -> r <> 0 -> r <> 91 ->
  history first_process (functions 1) (process true) {[r := true]} (make i (running true)).
Proof.
  intros Hm Hp [out He]%returns_after Hpt Hz Hn.
  refine (history_make first_process (functions 1) (process true) ∅ (running true) i "main.c" 12
    send_arguments out _ 1000 r _ Hm He Hp Hpt Hz Hn _); [|done].
  by apply history_start; [apply running_ready|].
Qed.

Lemma switch_history u own s v :
  history first_process (functions 1) u own s ->
  returns (on_sim (s4bxi_use_smpi_implem v)) s = true ->
  history first_process (functions 1) (u <| ua_use_smpi_implem := negb (v =? 0) |>) own (switch v s).
Proof. intros Hh [[] He]%returns_after. by eapply history_switch. Qed.
End Script.

Definition send_script : list (list write) := [[(None, 8%nat, 5000)]].

Lemma send_history :
  history (H := mpi_machine) (H0 := libraries [] send_script) first_process (functions 1)
    (process true) {[5000 := true]} (make send_script isend (running true)).
Proof.
  apply make_history.
  - reflexivity.
  - reflexivity.
  - vm_compute. reflexivity.
  - apply points_to_check; vm_compute; reflexivity.
  - done.
  - done.
Qed.


(** A persistent send. *)
Definition send_init : instance :=
  store "int" "Send_init"
    [("const void*", "buf"); ("int", "count"); ("MPI_Datatype", "datatype"); ("int", "dst");
     ("int", "tag"); ("MPI_Comm", "comm"); ("MPI_Request*", "request")]%string
    [Var "buf"; Var "count"; Datatype "datatype"; Var "dst"; Var "tag"; Comm "comm"; Var "request"].

Lemma send_init_history :
  history (H := mpi_machine) (H0 := libraries [] send_script) first_process (functions 1)
    (process true) {[5000 := true]} (make send_script send_init (running true)).
Proof.
  apply make_history.
  - reflexivity.
  - reflexivity.
  - vm_compute. reflexivity.
  - apply points_to_check; vm_compute; reflexivity.
  - done.
  - done.
Qed.


(** Both implementations write the same handle. *)
Definition twice_script : list (list write) := [[(None, 8%nat, 5000)]; []; [(None, 8%nat, 5000)]].

Lemma twice_history :
  history (H := mpi_machine) (H0 := libraries [] twice_script) first_process (functions 1)
    (process true) {[5000 := true]} (make twice_script isend (running true)).
Proof.
  apply make_history.
  - reflexivity.
  - reflexivity.
  - vm_compute. reflexivity.
  - apply points_to_check; vm_compute; reflexivity.
  - done.
  - done.
Qed.

(** SMPI sends, [MPI_Waitany] completes the request, the process uses Bull from then on: Bull sends,
    and SMPI waits. *)
Lemma stale_request_misrouted_witness :
  let s := switch 0 (make twice_script isend (running true)) in
  let s1 := wait_any twice_script s in
  let s2 := make twice_script isend s1 in
  exists out s3, S4BXI_MPI_Wait (H := mpi_machine) (H0 := libraries [] twice_script)
                   "main.c" 13 1000 1100 s2 = Ok out s3 /\
    calls_implem (functions 1) false "Isend" (default [] (mc_args <$> head (mw_calls s2))) s1 s2 /\
    calls_implem (functions 1) true "Wait" [1000; 1100] s2 s3.
Proof.
  intros s s1 s2.
  assert (returns (S4BXI_MPI_Waitany (H := mpi_machine) (H0 := libraries [] twice_script)
            "main.c" 13 1 1000 1100 1104) s = true) as [out He]%returns_after
    by (vm_compute; reflexivity).
  assert (returns (generated (H := mpi_machine) (H0 := libraries [] twice_script)
            (mpi_int (Mpi := libraries [] twice_script)) isend "main.c" 12 send_arguments) s1 = true)
    as [out' He']%returns_after by (vm_compute; reflexivity).
  assert (returns (S4BXI_MPI_Wait (H := mpi_machine) (H0 := libraries [] twice_script)
            "main.c" 13 1000 1100) s2 = true) as [out2 He2]%returns_after
    by (vm_compute; reflexivity).
  exists out2. eexists. split; [exact He2|].
  refine (stale_request_misrouted (H := mpi_machine) (H0 := libraries [] twice_script) 7
    (fun _ => eq_refl) mpi_machine_calm (libraries_calm [] twice_script) eq_refl eq_refl
    first_process (functions 1) _ {[5000 := true]} s 5000 "main.c" 13 1 1000 1100 1104 _ s1 isend "main.c" 12
    send_arguments _ s2 1000 "main.c" 13 1100 _ _ _ _ He _ _ He' _ He2).
  - apply switch_history; [exact twice_history|vm_compute; reflexivity].
  - reflexivity.
  - reflexivity.
  - reflexivity.
  - apply points_to_check; vm_compute; reflexivity.
Defined.

(** ** Communicators *)

(** Bull makes the communicator 70, SMPI the communicator 80. *)
Definition split_script : list (list write) := [[(None, 8%nat, 70)]; [(None, 8%nat, 80)]].
Definition split_world : MM Z :=
  S4BXI_MPI_Comm_split (H := mpi_machine) (H0 := libraries [] split_script) "main.c" 20
    (constant "MPI_COMM_WORLD") 0 0 1000.


(** That communicator is 80, and 70 for Bull. *)
Example split_handles :
  result (_ ← split_world; pair ← load_pointer 1000;
          x ← implem_comm (H := mpi_machine) (H0 := libraries [] split_script) pair;
          _ ← on_sim (s4bxi_use_smpi_implem (H0 := mpi_machine) 0);
          y ← implem_comm (H := mpi_machine) (H0 := libraries [] split_script) pair;
          mret (x, y)) (running true) = Some (80, 70).
Proof. vm_compute. reflexivity. Qed.
